(* ===== verification/_CoqProject ===== *)
-Q . S2P
Prelude.v
F64.v
Resource.v
Core.v
Kahn.v
Scheduler.v
SchedulerDag.v
TopoTasks.v
Scoring.v
Text.v
PromptGuard.v
OutputFilter.v
Ssrf.v
Middleware.v
OutputValidation.v
Llm.v
TaskExec.v
CrewRunner.v
CrewRunnerProofs.v
DagProgress.v
Gpu.v
Registry.v
Placement.v
FleetState.v
PubSub.v
Relay.v
Federation.v
Coordinator.v
FleetRun.v
Ipc.v
Memory.v
Approval.v
Budget.v
Orchestrator.v
CrewsRoute.v
Sandbox.v
Wasm.v
Tools.v
ServiceTools.v
ToolSdk.v
HttpTools.v
Learning.v
Bandits.v
Definitions.v
Packages.v
PlanCache.v
Planning.v
Routes.v
Server.v
EventStream.v
InferenceQueue.v
Telemetry.v
Testing.v
FleetTests.v
ClusterTests.v
OrchestratorTests.v
ServerTests.v
LearningTests.v
CoreTests.v
RunnerTests.v
ToolTests.v
HostTests.v
RouteTests.v
