(* ===== verification/Prelude.v ===== *)
(** * AgnosAI: a verification library for the Rust agent orchestrator

    AgnosAI runs crews of language-model agents: a crew is a list of tasks and
    agents with a process mode (sequential, parallel, DAG, hierarchical). The
    Rust sources are under src/rust-old/src/, the kit for guest tools under
    src/sdk/agnosai-tool-sdk/. This library translates the parts
    that carry the program's own logic into executable definitions and proves
    what makes them correct. This first file documents the whole library and
    holds what all files share.

    ** How the program is put together

    A submitted crew is registered by the orchestrator (orchestrator.rs), which
    hands it to a crew runner (crew_runner.rs) under a timeout. The runner sorts
    the tasks (scheduler.rs), picks the best agent for each (scoring.rs,
    hierarchical.rs) and executes it: the prompt is sanitized (prompt_guard.rs),
    a model is chosen and called with retries (llm/router.rs, llm/retry.rs), the
    answer is checked against a schema (output_validation.rs). Around it are
    approval gates, budgets, conversation memory, publish/subscribe and IPC. The
    fleet side spreads crews over nodes: registry, placement, accelerator
    memory, distributed run state with barriers, coordinator with failover,
    message relay and federation of clusters. The server (main.rs,
    server/mod.rs) takes crews over HTTP (routes/crews.rs) behind authentication
    (auth.rs), streams their events to clients (sse.rs, routes/sse.rs), filters
    the URLs its tools may reach (ssrf.rs) and redacts secrets
    (output_filter.rs). Tools (tools/) run natively, call other services over
    HTTP, or run as WASM and Python guests in a sandbox (sandbox/). Learning (learning/) rates agents and
    strategies from outcomes; definitions (definitions/) keep versions of agents
    and assemble teams.

    ** Files

    Shared:
    - Prelude: results, machine integers, stable sorting, iteration over hash
      maps, byte strings; the tactics and the hint database [agnos].
    - F64: IEEE doubles and singles on the executable [SpecFloat] operations.
    - Text: string slicing, searching, splitting and trimming on UTF-8 bytes.

    Core and orchestration:
    - Resource: core/resource.rs (devices, requirements, inventories).
    - Core: core/{error,agent,task,crew,message}.rs (the data model).
    - Kahn: the loop of Kahn's algorithm over an abstract worklist (class
      [Worklist] with laws [WorklistLaws]); both sorts of scheduler.rs are
      instances, one with a FIFO queue, one with a priority heap.
    - Scheduler, SchedulerDag: [Scheduler] of orchestrator/scheduler.rs, its
      priority queues and its DAG operations.
    - TopoTasks: [topological_sort_tasks] of the same file.
    - Scoring: orchestrator/scoring.rs, hierarchical.rs and [pick_best_agent].
    - PromptGuard: server/prompt_guard.rs.
    - OutputValidation: orchestrator/output_validation.rs.
    - Llm: llm/router.rs, llm/retry.rs, priorities of llm/inference_queue.rs.
    - TaskExec: [execute_task] of orchestrator/crew_runner.rs.
    - CrewRunner, CrewRunnerProofs, DagProgress: the modes and [run] of
      crew_runner.rs; the last file holds the progress of the DAG mode.
    - Orchestrator: orchestrator/orchestrator.rs and the bus of server/sse.rs; its
      calls are sequences of atomic steps, which [orch_apply] interleaves.
    - InferenceQueue: llm/inference_queue.rs, its callers, workers and queue as a
      step relation.
    - Approval, Budget, Memory, Ipc, PubSub: orchestrator/approval.rs,
      budget.rs and multi_tenant.rs, memory.rs, ipc.rs, pubsub.rs. The steps of
      approval requests, decisions and waiters interleave in [Approval.gate_apply].
    - PlanCache: orchestrator/plan_cache.rs and durable_state.rs.

    Server, tools and sandboxes:
    - CrewsRoute: server/routes/crews.rs, on top of Orchestrator.
    - Routes: the other handlers of server/routes/ that change or read state,
      and the counters of server/prometheus.rs.
    - Server: main.rs, server/mod.rs, server/state.rs and the constant handlers:
      the routing table and one request as a step on the whole server state.
    - EventStream: [event_stream] of server/sse.rs and the generator of
      server/routes/sse.rs, between the crew runner and one client.
    - Telemetry: telemetry/{mod,genai}.rs and the text of server/prometheus.rs.
    - OutputFilter, Ssrf: server/output_filter.rs, server/ssrf.rs.
    - Middleware: server/auth.rs and server/rate_limit.rs.
    - Sandbox: sandbox/{policy,manager,process,python,oci,kavach_bridge}.rs.
    - Wasm: sandbox/wasm.rs.
    - Tools: tools/{native,registry,wasm_tool,python_tool,wasm_loader,
      remote_registry}.rs and the echo and json_transform tools.
    - HttpTools: tools/builtin/load_testing.rs and security_audit.rs.
    - ServiceTools: tools/builtin/{delta,mneme,synapse}.rs, with a table of
      endpoints as their specification.
    - ToolSdk: src/sdk/agnosai-tool-sdk/src/lib.rs, the guest side of the
      protocol whose host side is in Tools.

    Learning and definitions:
    - Learning: learning/{profile,capability,replay}.rs.
    - Bandits: learning/{optimizer,strategy}.rs.
    - Definitions: definitions/{versioning,assembler}.rs.
    - Packages: definitions/{loader,packaging,k8s_crd}.rs.

    Fleet:
    - Gpu, Registry, Placement, FleetState, Relay, Federation: fleet/gpu.rs,
      registry.rs, placement.rs, state.rs, relay.rs, federation.rs.
    - Coordinator: fleet/coordinator.rs and fleet/topology.rs.
    - FleetRun: arbitrary sequences of the calls of the coordinator, with the
      state manager it owns.
    - Planning: fleet/{cost_planning,environment,discovery}.rs and the
      configuration cell of server/hot_config.rs.

    Tests: the unit tests of the Rust sources, translated assertion by assertion
    under their own names and evaluated on the model.
    - Testing: the notations of assertions.
    - CoreTests, OrchestratorTests, RunnerTests, LearningTests: core/,
      orchestrator/, learning/ and definitions/.
    - FleetTests, ClusterTests, HostTests: fleet/; HostTests also holds the
      tests of authentication, rate limits, metrics, events, caches and isolation.
    - ServerTests, RouteTests, ToolTests: server/, llm/ and tools/.

    ** Conventions

    A struct is a [Record], an enum an [Inductive], a method a function from
    the old state to the result and the new state, under the name of the
    source; where two methods share a name, the type is added to it.
    [Result] is Rust's; a panic is [None] of an option, or [Panics] of
    [Outcome]. Integers are [N] or [nat]; where a 64-bit operation
    can overflow it is written out, checked ([u64_add], a panic) or wrapping
    (atomics). The panic of an overflow is that of a build with overflow checks
    (debug and test builds); the release profile of Cargo.toml has none and aborts
    at a panic. The theorems on sums (Gpu) show that no overflow happens, so they
    hold of both builds; where a reachable one matters the operation takes the build
    as an argument ([Federation.next_term]). A panic caught by the async runtime
    ([CrewRunner.JErr]) is possible only where panics unwind. A [HashMap] is a [gmap]; the unspecified order of its iteration is
    an instance of the class [HashIter], so every theorem holds for all orders.
    [sort_by] is a stable sort. Clocks, fresh ids and random draws are
    arguments. Libraries outside the repository are parameters: the inference
    client, cache, cost tracker and JSON codec ([TaskExec.Env], [Ipc.Stream]),
    the async runtime ([CrewRunner.Runtime]: the order in which spawned tasks
    complete and the cancellation flag as it is polled), the personality
    readings, the JWT and rate-limiter crates ([Middleware.JwtCrate],
    [Middleware.Limiter]), the string hasher and the file system
    ([PlanCache.StrHasher], [PlanCache.FileSystem]), the zip crate
    ([Packages.ZipCrate]), the host's files and
    variables ([Planning.HostView]), child processes, wasmtime's answers and
    kavach ([Sandbox.Kavach]), broadcast channels ([EventStream.Broadcast]),
    majra's priority queue ([InferenceQueue.PriorityQueue]), the HTTP client and
    its replies, URL parsing, hardware estimates, Unicode tables and the
    logarithm.
    What is assumed of them is stated by name ([fair_runtime], [StreamLaws],
    [prints_text], [reads_back], [draws_ok], [JwtLaws], [FileLaws],
    [ZipLaws], [BroadcastLaws], [PriorityQueueLaws], [SerdeLaws], ...) and every theorem that assumes it has a witness
    with a concrete instance. Shared mutable objects are explicit stores: the
    one-shot channels of Approval, the cancellation flags of Orchestrator, the
    epoch counter of Wasm.

    ** What is proved

    - Sorting and scheduling: both topological sorts return every task once,
      after its dependencies, and fail exactly on invalid graphs; the heap
      version always takes the best enabled task; draining the queues is the
      stable sort by priority; ready tasks are exactly the enabled ones, and a
      loaded DAG never deadlocks.
    - Crew execution: sequential runs execute a prefix in order; parallel runs
      give one result per task; DAG runs always return and never run a task
      before its dependencies succeeded; a crew reported completed has a
      completed result for every task. In all interleavings of the atomic steps of
      its calls the orchestrator keeps its permits in balance, every running crew
      listed and, once it is stored, its cancellation flag reachable.
    - Agents: scores lie in [0,1] in floating-point arithmetic, the chosen agent
      is the first with the highest score, delegation follows it.
    - Text: the injection scan is a case-insensitive substring search, the
      sanitizer panics exactly off a character boundary, schema validation
      decides the declarative meaning of the schema.
    - Retries: [with_retry] stops at the first success or permanent error,
      within its number of attempts and with bounded delays.
    - Gates and budgets: in all interleavings, approval only by a human decision
      on that request, no waiter stuck, and a delivered decision reaches its waiter
      unless the time was up; the budget tracker keeps the exact account and refuses
      exactly from a limit on; memory retains what its strategy says; IPC messages
      arrive intact and in order, and a client's questions get the handler's answers.
    - Fleet: accelerator memory is conserved and never over-committed in any
      sequence of operations; placement picks an eligible node with the best
      score; barriers open exactly when all have arrived; elections agree;
      the relay delivers at most once, and in-order traffic completely; the
      wildcard matcher decides its declarative meaning. Whatever calls a
      coordinator gets, the failures of a task are answered by a retry exactly
      below the limit, and the runs it creates never leave their first phase.
    - Server: request validation accepts exactly the well-formed requests, its
      depth-first search terminates and finds exactly the cycles, and a
      validated DAG crew whose tasks succeed completes. Redaction leaves no
      address, number or key prefix in what it returns; the URL filter lets no
      private address through; a token is admitted only when signed and not
      expired; MCP answers carry their request's id, and A2A callbacks go only
      to URLs that passed the filter. Over any sequence of requests, those that
      are not authenticated change nothing and are answered as if the others were
      all there is (what counts as authenticated is stated on its own:
      [Middleware.credentials]), and the server's state stays well formed.
    - Streams and queues: a client of a crew's stream sees the connection notice
      and then the sent events in order without a gap, until it is told that it
      lagged; every stream of a closed channel ends; every accepted inference is in
      exactly one place until it is settled, without an answer only if a worker was
      aborted, and workers that go on answer all that is asked. The
      metrics text gives back the counters.
    - Sandboxes and tools: the weakest sufficient isolation is chosen, children
      never inherit library-injection variables, a call ends unless the child
      blocks its input, WASM runs are interrupted after their timeout and, when
      they do not overlap, not before; the registry answers from the last
      operation on a name; a sandboxed tool reports success exactly when its guest
      ended by itself with code 0, and what a guest built with the kit returns is
      what the host reads; a service tool issues at most one request, the one of its
      table of endpoints;
      load-test counts and percentiles, the exact audit score.
    - Learning and definitions: windows, capability scores and the replay buffer
      keep what they document; the interned Q-table refines a table on names under
      the formula of Q-learning;
      UCB1 tries every arm and then takes the best bound; versions are numbered
      and retained; plan cache and durable state return what was stored; a
      package within the limits is imported as it was exported.

    Several theorems and examples record where the code departs from its
    documentation, for instance [SchedulerDag.dangling_edge_is_cyclic],
    [CrewRunnerProofs.unknown_dependency_deadlocks],
    [TaskExec.cached_answer_ignores_task], [Gpu.double_allocation_leaks],
    [FleetState.barrier_opens_early_after_removal],
    [Orchestrator.failed_run_stays_pending],
    [Orchestrator.early_cancellation_is_lost],
    [Approval.delivered_decision_is_lost], [Federation.term_wraps],
    [DagProgress.failure_then_success_deadlocks],
    [FleetRun.fan_out_runs_never_start],
    [OutputFilter.bearer_token_stays], [PlanCache.plan_key_ambiguous] and
    [Wasm.overlapping_run_is_interrupted_early].

    ** Fuel

    [Kahn.kahn_loop] gets one turn more than there are nodes, each of which is
    popped once; [CrewRunner.dag_loop] gets one turn per task, since every turn
    removes at least one; [Llm.retry_loop] runs [max_retries + 1] turns as the
    source's range does; [PubSub.matches_recursive_inner] recurses on the
    pattern and keeps the depth limit of the source; [Text.trim_start_turns]
    gets a turn per byte; [CrewsRoute.visit] recurses at most once more than
    there are tasks, since every level marks one; [OutputFilter.redact_key] gets
    a turn per byte, since every turn removes a prefix for good;
    [HttpTools.user_loop] gets the user's share of requests, one per turn. That
    the fuel suffices is proved ([Kahn.kahn_loop_total],
    [CrewRunnerProofs.run_dag_total], [Llm.with_retry_correct],
    [CrewsRoute.has_dependency_cycle_correct], [OutputFilter.redact_correct],
    [HttpTools.user_loop_spec]).

    ** What is not modelled

    Concurrency below the granularity of one task or one request, except in the
    orchestrator, the approval gate, the streams and the inference queue, whose
    calls are interleaved at their atomic steps: elsewhere a spawned task
    runs as one step at its place in the completion order, a request as one step
    of the server, while what others do in between is left to the order of the
    steps. A lookup in a concurrent map is one atomic step, and so is its length,
    which the library adds up shard by shard. Logging, the tracing subscriber and serialization formats. Sockets and
    HTTP framing, the limit on concurrent requests, shutdown signals, system
    calls, container runtimes and the compilation of WASM are I/O of other
    libraries. Of the repository's tests, those are left out that
    need I/O, only go through a serializer, or feed inputs of many thousands of
    bytes; so are its integration tests, benchmarks and fuzz targets, and its
    translations into other languages. *)

From Stdlib Require Import Sorting.Sorted Ascii.
From stdpp Require Import base gmap strings list numbers fin_maps.

(** ** Scopes and results

    [Result A E] is Rust's [Result]; a panic (arithmetic underflow, an index
    out of bounds, a slice off a character boundary) is the [None] of an
    [option] wherever the source can panic. *)

(** What a call does: it returns, panics, or does not end. *)
Inductive Outcome (A : Type) := Returns (a : A) | Panics | Hangs.
Arguments Returns {A} a. Arguments Panics {A}. Arguments Hangs {A}.

Inductive Result (A E : Type) : Type :=
| Ok (a : A)
| Err (e : E).
Arguments Ok {A E} a.
Arguments Err {A E} e.

Declare Scope agnos_scope.
Delimit Scope agnos_scope with agnos.

Notation "'let*' x ':=' c 'in' k" :=
  (match c with Ok x => k | Err e => Err e end)
  (at level 10, x pattern, k at level 200) : agnos_scope.
Notation "'let?' x ':=' c 'in' k" :=
  (match c with Some x => k | None => None end)
  (at level 10, x pattern, k at level 200) : agnos_scope.

Definition is_ok {A E} (r : Result A E) : bool :=
  match r with Ok _ => true | Err _ => false end.

(** ** Hint databases and tactics of the library *)

Create HintDb agnos.

(** Splits every [if] / [match] of the goal and the hypotheses and closes the
    inconsistent branches. *)
Ltac split_ifs :=
  repeat (case_match || case_decide || case_bool_decide); simplify_eq/=.

(** Finite-map case analysis on the key a lookup compares. *)
Ltac map_cases k k' :=
  destruct (decide (k = k')) as [<-|?]; simplify_map_eq.

(** Turns boolean hypotheses built with [andb], [orb], [negb] and the
    comparison operators into propositions. *)
Ltac bool_to_prop :=
  repeat match goal with
  | H : (_ && _) = true |- _ => apply andb_true_iff in H as [? ?]
  | H : (_ || _) = false |- _ => apply orb_false_iff in H as [? ?]
  | H : negb _ = true |- _ => apply negb_true_iff in H
  | H : negb _ = false |- _ => apply negb_false_iff in H
  | H : (_ <=? _)%nat = true |- _ => apply Nat.leb_le in H
  | H : (_ <=? _)%nat = false |- _ => apply Nat.leb_gt in H
  | H : (_ <? _)%nat = true |- _ => apply Nat.ltb_lt in H
  | H : (_ <? _)%nat = false |- _ => apply Nat.ltb_ge in H
  | H : (_ <=? _)%N = true |- _ => apply N.leb_le in H
  | H : (_ <=? _)%N = false |- _ => apply N.leb_gt in H
  | H : (_ <? _)%N = true |- _ => apply N.ltb_lt in H
  | H : (_ <? _)%N = false |- _ => apply N.ltb_ge in H
  | H : bool_decide _ = true |- _ => apply bool_decide_eq_true in H
  | H : bool_decide _ = false |- _ => apply bool_decide_eq_false in H
  end.

(** ** Machine integers

    A [u64], [u32] or [usize] is an [N] below its bound; the operations say
    what the source does at the bound. [usize] is 64 bits wide. *)

Definition u32_max : N := (2 ^ 32 - 1)%N.
Definition u64_max : N := (2 ^ 64 - 1)%N.

Definition u64_wf (x : N) : Prop := (x <= u64_max)%N.

(** [x + y] in a build with overflow checks: [None] is the panic. *)
Definition u64_add (x y : N) : option N :=
  if (x + y <=? u64_max)%N then Some (x + y)%N else None.
(** [fetch_add] and release-mode addition wrap. *)
Definition u64_wrapping_add (x y : N) : N := ((x + y) mod 2 ^ 64)%N.
(** [saturating_sub] is [N.sub]. *)
Definition saturating_sub (x y : N) : N := (x - y)%N.

(** [iter.map(..).sum::<u64>()], overflow-checked. *)
Fixpoint u64_sum (l : list N) : option N :=
  match l with
  | [] => Some 0%N
  | x :: l => match u64_sum l with Some s => u64_add x s | None => None end
  end.

Definition n_sum (l : list N) : N := foldr N.add 0%N l.

Lemma u64_sum_exact l :
  (n_sum l <= u64_max)%N -> u64_sum l = Some (n_sum l).
Proof.
  induction l as [|x l IH]; simpl; intros Hle; [done|].
  rewrite IH by lia. unfold u64_add. case_match; bool_to_prop; [done|lia].
Qed.

(** ** Time

    [Instant] and [Duration] are nanosecond counts; [duration_since] saturates
    at zero, which is what the standard library documents. *)

Abbreviation Instant := N (only parsing).
Abbreviation Duration := N (only parsing).
Definition duration_since (now earlier : Instant) : Duration := (now - earlier)%N.
Definition from_secs (s : N) : Duration := (s * 1000000000)%N.
Definition from_millis (s : N) : Duration := (s * 1000000)%N.

(** A [Uuid] is a 128-bit identifier; its [Ord] is the numeric order. Fresh
    identifiers ([Uuid::new_v4]) are arguments of the operations. *)
Abbreviation Uuid := N (only parsing).

(** ** Stable sorting

    [slice::sort_by] and [sort_by_key] are stable. [sort_by le] is the stable
    insertion sort for the relation "the comparator does not answer Greater". *)

Section sorting.
Context {A : Type} (le : A -> A -> bool).

Fixpoint sort_insert (x : A) (l : list A) : list A :=
  match l with
  | [] => [x]
  | y :: l' => if le x y then x :: y :: l' else y :: sort_insert x l'
  end.

Definition sort_by (l : list A) : list A := foldr sort_insert [] l.

Lemma sort_insert_perm x l : sort_insert x l ≡ₚ x :: l.
Proof.
  induction l as [|y l IH]; simpl; [done|].
  case_match; [done|]. rewrite IH. apply Permutation_swap.
Qed.

Lemma sort_by_perm l : sort_by l ≡ₚ l.
Proof. induction l as [|x l IH]; simpl; [done|]. by rewrite sort_insert_perm, IH. Qed.

Lemma elem_of_sort_by x l : x ∈ sort_by l <-> x ∈ l.
Proof. by rewrite sort_by_perm. Qed.

Lemma length_sort_by l : length (sort_by l) = length l.
Proof. by rewrite sort_by_perm. Qed.

(** Sortedness needs totality and transitivity only on the elements that
    are sorted (comparators on floats are total only away from NaN). *)
Context (P : A -> Prop).
Hypothesis le_total : forall x y, P x -> P y -> le x y = true \/ le y x = true.
Hypothesis le_trans : forall x y z, P x -> P y -> P z ->
  le x y = true -> le y z = true -> le x z = true.

Abbreviation sorted := (StronglySorted (fun x y => le x y = true)).

Lemma sort_insert_sorted x l :
  P x -> Forall P l -> sorted l -> sorted (sort_insert x l).
Proof.
  intros Hx Hl Hs. induction Hs as [|y l Hs IH Hy]; simpl.
  { by repeat constructor. }
  apply Forall_cons in Hl as [Py Pl]. case_match eqn:Hle.
  - constructor; [by constructor|]. constructor; [done|].
    rewrite Forall_forall in Hy, Pl |- *. intros z Hz. eauto.
  - constructor; [by apply IH|]. rewrite sort_insert_perm.
    constructor; [|done]. destruct (le_total x y); congruence.
Qed.

Lemma sort_by_sorted l : Forall P l -> sorted (sort_by l).
Proof.
  induction l as [|x l IH]; simpl; intros HP; [constructor|].
  apply Forall_cons in HP as [??].
  apply sort_insert_sorted; [done| |by apply IH]. by rewrite sort_by_perm.
Qed.
End sorting.

(** The first element of a sorted list is below every other. *)
Lemma sorted_head_le {A} (le : A -> A -> bool) x l y :
  StronglySorted (fun a b => le a b = true) (x :: l) ->
  le x x = true -> y ∈ x :: l -> le x y = true.
Proof.
  intros Hs Hxx Hy. apply StronglySorted_inv in Hs as [_ Hall].
  apply elem_of_cons in Hy as [->|Hy]; [done|].
  rewrite Forall_forall in Hall. by apply Hall.
Qed.

(** Stability: a class of mutually comparable elements keeps its order. *)
Lemma sort_insert_filter_in {A} (le : A -> A -> bool) (p : A -> bool) x l :
  (forall a b, p a = true -> p b = true -> le a b = true) ->
  p x = true ->
  List.filter p (sort_insert le x l) = x :: List.filter p l.
Proof.
  intros Hp Hx. induction l as [|y l IH]; simpl.
  { by rewrite Hx. }
  destruct (le x y) eqn:Hle; simpl.
  - by rewrite Hx.
  - destruct (p y) eqn:Hy; [|done]. rewrite (Hp x y) in Hle by done. done.
Qed.

Lemma sort_insert_filter_out {A} (le : A -> A -> bool) (p : A -> bool) x l :
  p x = false -> List.filter p (sort_insert le x l) = List.filter p l.
Proof.
  intros Hx. induction l as [|y l IH]; simpl; [by rewrite Hx|].
  destruct (le x y); simpl; [by rewrite Hx|]. by rewrite IH.
Qed.

Lemma sort_by_stable {A} (le : A -> A -> bool) (p : A -> bool) l :
  (forall a b, p a = true -> p b = true -> le a b = true) ->
  List.filter p (sort_by le l) = List.filter p l.
Proof.
  intros Hp. induction l as [|x l IH]; simpl; [done|].
  destruct (p x) eqn:Hx.
  - by rewrite sort_insert_filter_in, IH.
  - by rewrite sort_insert_filter_out, IH.
Qed.

Lemma elem_of_middle {A} (l1 l2 : list A) x : x ∈ l1 ++ x :: l2.
Proof. apply elem_of_app. right. left. Qed.

(** Two decompositions of a list: the same element, or one lies in the other's prefix. *)
Lemma app_cons_split {A} (m1 n1 m2 n2 : list A) x y :
  m1 ++ x :: m2 = n1 ++ y :: n2 -> x = y \/ x ∈ n1 \/ y ∈ m1.
Proof.
  revert n1. induction m1 as [|z m1 IH]; intros [|w n1] [= Heq1 Heq]; subst;
    [by left|right; left; left|right; right; left|].
  destruct (IH _ Heq) as [?|[?|?]]; [by left|right; left; by right|right; right; by right].
Qed.

(** Sorting commutes with a map that keeps the comparator. *)
Lemma sort_by_map {A B} (f : A -> B) (le : A -> A -> bool) (le' : B -> B -> bool) l :
  (forall x y, le' (f x) (f y) = le x y) ->
  sort_by le' (map f l) = map f (sort_by le l).
Proof.
  intros Hf. induction l as [|x l IH]; simpl; [done|]. rewrite IH. clear IH.
  induction (sort_by le l) as [|y m IH]; simpl; [done|].
  rewrite Hf. case_match; simpl; [done|]. by rewrite IH.
Qed.

(** The head of a stable sort is the first of the least elements. *)
Lemma sort_by_head_first {A} (le : A -> A -> bool) l x :
  head (sort_by le l) = Some x ->
  exists l1 l2, l = l1 ++ x :: l2 /\ forall y, y ∈ l1 -> le y x = false.
Proof.
  revert x. induction l as [|a l IH]; simpl; intros x Hx; [done|].
  destruct (sort_by le l) as [|h t]; simpl in Hx.
  { simplify_eq. exists [], l. split; [done|]. by intros y ?%not_elem_of_nil. }
  destruct (le a h) eqn:Hle; simpl in Hx; simplify_eq.
  - exists [], l. split; [done|]. by intros y ?%not_elem_of_nil.
  - destruct (IH x eq_refl) as (l1 & l2 & -> & Hl). exists (a :: l1), l2. split; [done|].
    intros y [->|Hy]%elem_of_cons; auto.
Qed.

Lemma sort_by_head_least {A} (le : A -> A -> bool) (P : A -> Prop) l x :
  (forall x y, P x -> P y -> le x y = true \/ le y x = true) ->
  (forall x y z, P x -> P y -> P z -> le x y = true -> le y z = true -> le x z = true) ->
  Forall P l -> head (sort_by le l) = Some x -> forall y, y ∈ l -> le x y = true.
Proof.
  intros Ht Htr HP Hx y Hy. pose proof (sort_by_sorted le P Ht Htr l HP) as Hs.
  rewrite <-(elem_of_sort_by le) in Hy. rewrite <-(sort_by_perm le l) in HP.
  destruct (sort_by le l) as [|h t]; simplify_eq/=. apply Forall_cons in HP as [Hp _].
  eapply sorted_head_le; [done| |done]. by destruct (Ht x x).
Qed.

(** ** [Iterator::enumerate] *)

Fixpoint enumerate_from {A} (i : nat) (l : list A) : list (nat * A) :=
  match l with [] => [] | x :: l => (i, x) :: enumerate_from (S i) l end.

Lemma enumerate_from_snd {A} i (l : list A) : map snd (enumerate_from i l) = l.
Proof. revert i. induction l as [|x l IH]; intros i; simpl; [done|]. by rewrite IH. Qed.

Lemma enumerate_from_lookup {A} i (l : list A) j x :
  (j, x) ∈ enumerate_from i l -> i <= j /\ l !! (j - i) = Some x.
Proof.
  revert i. induction l as [|y l IH]; intros i; simpl; [by intros ?%not_elem_of_nil|].
  intros [[= -> ->]|Hin]%elem_of_cons; [by rewrite Nat.sub_diag|].
  apply IH in Hin as [Hle Hl]. split; [lia|].
  replace (j - i) with (S (j - S i)) by lia. done.
Qed.

(** ** Iteration over hash maps

    The iteration order of [HashMap] and [DashMap] is unspecified. A model that
    iterates takes an enumeration as an instance of [HashIter]: any function
    that lists every binding exactly once. The theorems hold for all of them;
    [canonical_iter] is the one the witnesses compute with. *)

Class HashIter (K V : Type) `{Countable K} := {
  hash_iter : gmap K V -> list (K * V);
  hash_iter_perm : forall m, hash_iter m ≡ₚ map_to_list m;
}.

Definition canonical_iter {K V} `{Countable K} : HashIter K V :=
  {| hash_iter := map_to_list; hash_iter_perm m := Permutation_refl (map_to_list m) |}.

Section hash_iter.
Context `{HashIter K V}.

Definition hash_keys (m : gmap K V) : list K := (hash_iter m).*1.
Definition hash_values (m : gmap K V) : list V := (hash_iter m).*2.

Lemma elem_of_hash_iter m k v : (k, v) ∈ hash_iter m <-> m !! k = Some v.
Proof. rewrite hash_iter_perm. apply elem_of_map_to_list. Qed.

Lemma elem_of_hash_keys m k : k ∈ hash_keys m <-> is_Some (m !! k).
Proof.
  unfold hash_keys. rewrite list_elem_of_fmap. split.
  - intros [[k' v] [-> Hin]]. apply elem_of_hash_iter in Hin. by exists v.
  - intros [v Hv]. exists (k, v). split; [done|]. by apply elem_of_hash_iter.
Qed.

Lemma elem_of_hash_values m v : v ∈ hash_values m <-> exists k, m !! k = Some v.
Proof.
  unfold hash_values. rewrite list_elem_of_fmap. split.
  - intros [[k v'] [-> Hin]]. apply elem_of_hash_iter in Hin. by exists k.
  - intros [k Hv]. exists (k, v). split; [done|]. by apply elem_of_hash_iter.
Qed.

Lemma hash_keys_perm m : hash_keys m ≡ₚ (map_to_list m).*1.
Proof. unfold hash_keys. by rewrite hash_iter_perm. Qed.

Lemma NoDup_hash_keys m : NoDup (hash_keys m).
Proof. rewrite hash_keys_perm. apply NoDup_fst_map_to_list. Qed.

Lemma NoDup_hash_iter m : NoDup (hash_iter m).
Proof. rewrite hash_iter_perm. apply NoDup_map_to_list. Qed.

Lemma length_hash_iter m : length (hash_iter m) = size m.
Proof. rewrite hash_iter_perm. apply length_map_to_list. Qed.

Lemma length_hash_keys m : length (hash_keys m) = size m.
Proof. unfold hash_keys. by rewrite length_fmap, length_hash_iter. Qed.
End hash_iter.

(** ** Bounded histories *)

(** [v.drain(a..e)] *)
Definition drain_range {A} (l : list A) (a e : nat) : list A := take a l ++ drop e l.

(** The last [n] elements. *)
Definition last_n {A} (n : nat) (l : list A) : list A := drop (length l - n) l.

Lemma last_n_all {A} n (l : list A) : length l <= n -> last_n n l = l.
Proof. intros H. unfold last_n. by replace (length l - n) with 0 by lia. Qed.

Lemma length_last_n {A} n (l : list A) : length (last_n n l) = length l `min` n.
Proof. unfold last_n. rewrite length_drop. lia. Qed.

Lemma last_n_snoc {A} n (l : list A) x :
  n <> 0 -> last_n n (last_n n l ++ [x]) = last_n n (l ++ [x]).
Proof.
  intros Hn. unfold last_n. rewrite !length_app, length_drop. cbn [length].
  destruct (decide (length l <= n)).
  - replace (length l - n) with 0 by lia. by rewrite Nat.sub_0_r, drop_0.
  - replace (length l - (length l - n) + 1 - n) with 1 by lia.
    replace (length l + 1 - n) with (length l - n + 1) by lia.
    by rewrite <- drop_drop, (drop_app_le l) by lia.
Qed.

Lemma last_n_trim {A} n (l : list A) :
  (if (length l <=? n)%nat then l else drain_range l 0 (length l - n)) = last_n n l.
Proof.
  destruct (Nat.leb_spec (length l) n); [by rewrite last_n_all|].
  unfold drain_range, last_n. by rewrite take_0.
Qed.

(** ** Iterator selections

    [Iterator::max_by] keeps the last of several maximal elements and
    [Iterator::min_by] the first of several minimal ones; [le x y] is again
    "the comparator does not answer Greater". *)

Section selection.
Context {A : Type} (le : A -> A -> bool).

Definition max_by (l : list A) : option A :=
  match l with
  | [] => None
  | x :: l => Some (foldl (fun acc y => if le acc y then y else acc) x l)
  end.

Definition min_by (l : list A) : option A :=
  match l with
  | [] => None
  | x :: l => Some (foldl (fun acc y => if le acc y then acc else y) x l)
  end.

Lemma max_by_None l : max_by l = None <-> l = [].
Proof. destruct l; simpl; naive_solver. Qed.

Lemma min_by_None l : min_by l = None <-> l = [].
Proof. destruct l; simpl; naive_solver. Qed.

Lemma max_by_elem l m : max_by l = Some m -> m ∈ l.
Proof.
  destruct l as [|x l]; simpl; [done|]. intros [= <-]. revert x.
  induction l as [|y l IH]; intros x; simpl; [left|].
  rewrite !elem_of_cons. specialize (IH (if le x y then y else x)).
  rewrite elem_of_cons in IH.
  destruct (le x y), IH; auto.
Qed.

Lemma min_by_elem l m : min_by l = Some m -> m ∈ l.
Proof.
  destruct l as [|x l]; simpl; [done|]. intros [= <-]. revert x.
  induction l as [|y l IH]; intros x; simpl; [left|].
  rewrite !elem_of_cons. specialize (IH (if le x y then x else y)).
  rewrite elem_of_cons in IH.
  destruct (le x y), IH; auto.
Qed.

Context (P : A -> Prop).
Hypothesis le_total : forall x y, P x -> P y -> le x y = true \/ le y x = true.
Hypothesis le_trans : forall x y z, P x -> P y -> P z ->
  le x y = true -> le y z = true -> le x z = true.

Lemma le_refl_of_total x : P x -> le x x = true.
Proof. intros Hx. by destruct (le_total x x). Qed.

Lemma foldl_max_upper x l :
  P x -> Forall P l ->
  let m := foldl (fun acc y => if le acc y then y else acc) x l in
  P m /\ forall y, y ∈ x :: l -> le y m = true.
Proof.
  revert x. induction l as [|z l IH]; intros x Hx Hl; simpl.
  { split; [done|]. intros y ->%list_elem_of_singleton. by apply le_refl_of_total. }
  apply Forall_cons in Hl as [Hz Hl].
  destruct (le x z) eqn:Hxz.
  - destruct (IH z Hz Hl) as [Pm Hm]. split; [done|]. intros y Hy.
    apply elem_of_cons in Hy as [->|Hy]; [|by apply Hm].
    apply (le_trans x z); [done..|apply Hm; left].
  - destruct (IH x Hx Hl) as [Pm Hm]. split; [done|]. intros y Hy.
    rewrite !elem_of_cons in Hy. destruct Hy as [->|[->|Hy]]; [apply Hm; left| |apply Hm; by right].
    apply (le_trans z x); [done..| |apply Hm; left].
    destruct (le_total x z); congruence.
Qed.

Lemma max_by_upper l m y :
  Forall P l -> max_by l = Some m -> y ∈ l -> le y m = true.
Proof.
  destruct l as [|x l]; simpl; [done|]. intros [??]%Forall_cons [= <-] Hy.
  by apply (foldl_max_upper x l).
Qed.

Lemma foldl_min_lower x l :
  P x -> Forall P l ->
  let m := foldl (fun acc y => if le acc y then acc else y) x l in
  P m /\ forall y, y ∈ x :: l -> le m y = true.
Proof.
  revert x. induction l as [|z l IH]; intros x Hx Hl; simpl.
  { split; [done|]. intros y ->%list_elem_of_singleton. by apply le_refl_of_total. }
  apply Forall_cons in Hl as [Hz Hl].
  destruct (le x z) eqn:Hxz.
  - destruct (IH x Hx Hl) as [Pm Hm]. split; [done|]. intros y Hy.
    rewrite !elem_of_cons in Hy. destruct Hy as [->|[->|Hy]]; [apply Hm; left| |apply Hm; by right].
    apply (le_trans _ x); [done..|apply Hm; left|done].
  - destruct (IH z Hz Hl) as [Pm Hm]. split; [done|]. intros y Hy.
    apply elem_of_cons in Hy as [->|Hy]; [|by apply Hm].
    apply (le_trans _ z); [done..|apply Hm; left|].
    destruct (le_total x z); congruence.
Qed.

Lemma min_by_lower l m y :
  Forall P l -> min_by l = Some m -> y ∈ l -> le m y = true.
Proof.
  destruct l as [|x l]; simpl; [done|]. intros [??]%Forall_cons [= <-] Hy.
  by apply (foldl_min_lower x l).
Qed.
End selection.

(** ** Byte strings

    A [str] is the sequence of its UTF-8 bytes: Rocq's [string] over 8-bit
    [ascii]. The ASCII operations of the standard library act on bytes. *)

Definition ascii_lower (c : ascii) : ascii :=
  let n := N_of_ascii c in
  if ((65 <=? n) && (n <=? 90))%N then ascii_of_N (n + 32) else c.

Fixpoint to_ascii_lowercase (s : string) : string :=
  match s with
  | EmptyString => EmptyString
  | String c s => String (ascii_lower c) (to_ascii_lowercase s)
  end.

Definition eq_ignore_ascii_case (a b : string) : bool :=
  bool_decide (to_ascii_lowercase a = to_ascii_lowercase b).

(** [str::to_lowercase], as far as ASCII letters of the result are concerned:
    besides the ASCII capitals, the Kelvin sign (bytes E2 84 AA) becomes [k] and
    the dotted capital I (C4 B0) becomes [i] with a combining dot (CC 87). Other
    characters have no ASCII letter in their lower case and are kept; the texts
    it is applied to are only compared with ASCII constants. *)
Fixpoint to_lowercase (s : string) : string :=
  match s with
  | EmptyString => EmptyString
  | String a s1 =>
      match s1 with
      | String b s2 =>
          if ((N_of_ascii a =? 196) && (N_of_ascii b =? 176))%N then
            String "i"%char (String (ascii_of_N 204) (String (ascii_of_N 135) (to_lowercase s2)))
          else
            match s2 with
            | String c s3 =>
                if ((N_of_ascii a =? 226) && (N_of_ascii b =? 132) && (N_of_ascii c =? 170))%N
                then String "k"%char (to_lowercase s3)
                else String (ascii_lower a) (to_lowercase s1)
            | EmptyString => String (ascii_lower a) (to_lowercase s1)
            end
      | EmptyString => String (ascii_lower a) EmptyString
      end
  end.

Definition starts_with (p s : string) : bool := String.prefix p s.

(** [s.contains(needle)]. *)
Fixpoint str_contains (needle s : string) : bool :=
  starts_with needle s ||
  match s with EmptyString => false | String _ s' => str_contains needle s' end.

(** The lexicographic [Ord] of strings as a boolean. *)
Definition string_le (a b : string) : bool :=
  match String.compare a b with Gt => false | _ => true end.

Lemma ascii_compare_trans_lt a b c :
  Ascii.compare a b = Lt -> Ascii.compare b c = Lt -> Ascii.compare a c = Lt.
Proof. unfold Ascii.compare. rewrite !N.compare_lt_iff. lia. Qed.

Lemma string_compare_refl s : String.compare s s = Eq.
Proof.
  induction s as [|c s IH]; simpl; [done|].
  unfold Ascii.compare. by rewrite N.compare_refl.
Qed.

Lemma string_le_total a b : string_le a b = true \/ string_le b a = true.
Proof.
  unfold string_le. rewrite (String.compare_antisym a b).
  destruct (String.compare b a); simpl; auto.
Qed.

Lemma string_compare_lt_trans a b c :
  String.compare a b = Lt -> String.compare b c = Lt -> String.compare a c = Lt.
Proof.
  revert b c. induction a as [|x a IH]; intros [|y b] [|z c]; simpl; try done.
  destruct (Ascii.compare x y) eqn:Hxy; [|clear IH|done].
  - apply Ascii.compare_eq_iff in Hxy as ->.
    destruct (Ascii.compare y z) eqn:Hyz; [apply IH|done|done].
  - intros _. destruct (Ascii.compare y z) eqn:Hyz; [|intros _|done].
    + apply Ascii.compare_eq_iff in Hyz as ->. by rewrite Hxy.
    + by rewrite (ascii_compare_trans_lt _ _ _ Hxy Hyz).
Qed.

Lemma string_le_trans a b c :
  string_le a b = true -> string_le b c = true -> string_le a c = true.
Proof.
  unfold string_le. destruct (String.compare a b) eqn:Hab; [| |done].
  - by apply String.compare_eq_iff in Hab as ->.
  - destruct (String.compare b c) eqn:Hbc; [| |done].
    + apply String.compare_eq_iff in Hbc as ->. by rewrite Hab.
    + by rewrite (string_compare_lt_trans _ _ _ Hab Hbc).
Qed.

Lemma string_le_antisym a b :
  string_le a b = true -> string_le b a = true -> a = b.
Proof.
  unfold string_le. rewrite (String.compare_antisym a b).
  destruct (String.compare b a) eqn:Hab; simpl; try done.
  intros _ _. symmetry. by apply String.compare_eq_iff.
Qed.

#[export] Hint Resolve string_le_total string_le_trans : agnos.

Definition sort_strings (l : list string) : list string := sort_by string_le l.

Lemma sort_strings_perm l : sort_strings l ≡ₚ l.
Proof. apply sort_by_perm. Qed.

(** ** Lists *)

Lemma list_filter_none {A} (P : A -> Prop) `{forall x, Decision (P x)} (l : list A) :
  (forall x, x ∈ l -> ~ P x) -> filter P l = [].
Proof.
  induction l as [|x l IH]; intros Hn; [done|].
  rewrite filter_cons_False by (apply Hn; left). apply IH. intros y Hy. apply Hn. by right.
Qed.

Lemma elem_of_List_filter {A} (f : A -> bool) (l : list A) x :
  x ∈ List.filter f l <-> x ∈ l /\ f x = true.
Proof. by rewrite !list_elem_of_In, filter_In. Qed.
