(* ===== verification/F64.v ===== *)
(** * IEEE 754 doubles

    Rust's [f64] is binary64 with round-to-nearest-even; its operations are
    the executable [SpecFloat] ones at precision 53 and exponent bound 1024
    (and [f32] at 24 and 128). The file gives the operations the sources use
    ([+ - * /], [partial_cmp], [min], [max], [clamp], integer conversions) and
    the facts the scoring, placement and learning components rely on: the
    order is total and transitive away from NaN, and arithmetic on values with
    a positive sign never produces NaN. *)

From Stdlib Require Import SpecFloat ZArith Sorting.Sorted.
From S2P Require Import Prelude.
From stdpp Require Import base list numbers.

Abbreviation f64 := spec_float (only parsing).
Abbreviation f32 := spec_float (only parsing).

Definition f64_add : f64 -> f64 -> f64 := SFadd 53 1024.
Definition f64_sub : f64 -> f64 -> f64 := SFsub 53 1024.
Definition f64_mul : f64 -> f64 -> f64 := SFmul 53 1024.
Definition f64_div : f64 -> f64 -> f64 := SFdiv 53 1024.
Definition f64_sqrt : f64 -> f64 := SFsqrt 53 1024.
Definition f64_abs : f64 -> f64 := SFabs.
Definition f64_neg : f64 -> f64 := SFopp.

Definition f32_add : f32 -> f32 -> f32 := SFadd 24 128.
Definition f32_div : f32 -> f32 -> f32 := SFdiv 24 128.
Definition f32_of_N (n : N) : f32 := binary_normalize 24 128 (Z.of_N n) 0 false.
(** [x as f64] for an [f32]. *)
Definition f64_of_f32 (x : f32) : f64 :=
  match x with S754_finite s m e => binary_round 53 1024 s m e | _ => x end.

(** [n as f64] for an unsigned integer. *)
Definition f64_of_N (n : N) : f64 := binary_normalize 53 1024 (Z.of_N n) 0 false.
Definition f64_of_nat (n : nat) : f64 := f64_of_N (N.of_nat n).

(** The literal [n/d]: the double nearest to the rational. *)
Definition f64_lit (n d : N) : f64 := f64_div (f64_of_N n) (f64_of_N d).

Definition f64_zero : f64 := S754_zero false.
Definition f64_one : f64 := Eval vm_compute in f64_of_N 1.

Definition is_nan (x : f64) : bool := match x with S754_nan => true | _ => false end.

Definition partial_cmp (x y : f64) : option comparison := SFcompare x y.
Definition f64_lt : f64 -> f64 -> bool := SFltb.
Definition f64_leb : f64 -> f64 -> bool := SFleb.
Definition f64_gt (x y : f64) : bool := SFltb y x.
Definition f64_ge (x y : f64) : bool := SFleb y x.

(** [partial_cmp(..).unwrap_or(Ordering::Equal)] does not answer Greater. *)
Definition cmp_le (x y : f64) : bool :=
  match partial_cmp x y with Some Gt => false | _ => true end.

(** [f64::clamp]. *)
Definition f64_clamp (x lo hi : f64) : f64 :=
  let x := if f64_lt x lo then lo else x in
  if f64_gt x hi then hi else x.

(** [f64::min] and [f64::max] ignore a NaN operand. *)
Definition f64_min (x y : f64) : f64 :=
  match partial_cmp x y with
  | None => if is_nan x then y else x
  | Some Gt => y
  | Some _ => x
  end.
Definition f64_max (x y : f64) : f64 :=
  match partial_cmp x y with
  | None => if is_nan x then y else x
  | Some Lt => y
  | Some _ => x
  end.

(** ** The order

    Away from NaN, [partial_cmp] is the lexicographic comparison of a triple
    of integers. *)

Definition okey (x : f64) : Z * Z * Z :=
  match x with
  | S754_nan => (0, 0, 0)%Z
  | S754_infinity true => (-2, 0, 0)%Z
  | S754_finite true m e => (-1, - e, - Zpos m)%Z
  | S754_zero _ => (0, 0, 0)%Z
  | S754_finite false m e => (1, e, Zpos m)%Z
  | S754_infinity false => (2, 0, 0)%Z
  end.

Definition lex3 (a b : Z * Z * Z) : comparison :=
  let '(a1, a2, a3) := a in let '(b1, b2, b3) := b in
  match (a1 ?= b1)%Z with
  | Eq => match (a2 ?= b2)%Z with Eq => (a3 ?= b3)%Z | c => c end
  | c => c
  end.

Lemma partial_cmp_okey x y :
  is_nan x = false -> is_nan y = false ->
  partial_cmp x y = Some (lex3 (okey x) (okey y)).
Proof.
  destruct x as [s1|s1| |s1 m1 e1], y as [s2|s2| |s2 m2 e2]; try done; intros _ _;
    try destruct s1; try destruct s2; try done; unfold partial_cmp, lex3; simpl; f_equal.
  rewrite (Z.compare_opp e1 e2), (Z.compare_antisym e1 e2).
  by destruct (e1 ?= e2)%Z.
Qed.

Lemma lex3_Gt_iff a b :
  lex3 a b = Gt <->
  (b.1.1 < a.1.1 \/ a.1.1 = b.1.1 /\ (b.1.2 < a.1.2 \/ a.1.2 = b.1.2 /\ b.2 < a.2))%Z.
Proof.
  destruct a as [[a1 a2] a3], b as [[b1 b2] b3]; simpl.
  destruct (Z.compare_spec a1 b1); [|split; [done|lia]|split; [lia|done]].
  destruct (Z.compare_spec a2 b2); [|split; [done|lia]|split; [lia|done]].
  destruct (Z.compare_spec a3 b3); split; (done || lia).
Qed.

Lemma cmp_le_okey x y :
  is_nan x = false -> is_nan y = false ->
  cmp_le x y = true <-> lex3 (okey x) (okey y) <> Gt.
Proof.
  intros Hx Hy. unfold cmp_le. rewrite partial_cmp_okey by done.
  by destruct (lex3 _ _).
Qed.

Lemma cmp_le_total x y : is_nan x = false -> is_nan y = false ->
  cmp_le x y = true \/ cmp_le y x = true.
Proof. intros Hx Hy. rewrite !cmp_le_okey, !lex3_Gt_iff by done. lia. Qed.

Lemma cmp_le_trans x y z :
  is_nan x = false -> is_nan y = false -> is_nan z = false ->
  cmp_le x y = true -> cmp_le y z = true -> cmp_le x z = true.
Proof. intros Hx Hy Hz. rewrite !cmp_le_okey, !lex3_Gt_iff by done. lia. Qed.

Lemma f64_leb_cmp_le x y :
  is_nan x = false -> is_nan y = false -> f64_leb x y = cmp_le x y.
Proof.
  intros Hx Hy. unfold f64_leb, cmp_le, SFleb. fold (partial_cmp x y).
  rewrite partial_cmp_okey by done. by destruct (lex3 _ _).
Qed.

Lemma f64_lt_not_le x y :
  is_nan x = false -> is_nan y = false -> f64_lt x y = negb (cmp_le y x).
Proof.
  intros Hx Hy. unfold f64_lt, SFltb, cmp_le. fold (partial_cmp x y).
  rewrite !partial_cmp_okey by done.
  destruct (lex3 (okey x) (okey y)) eqn:E1, (lex3 (okey y) (okey x)) eqn:E2; simpl; try done;
    exfalso; destruct (okey x) as [[x1 x2] x3], (okey y) as [[y1 y2] y3]; simpl in *;
    destruct (Z.compare_spec x1 y1), (Z.compare_spec y1 x1); try (done || lia);
    destruct (Z.compare_spec x2 y2), (Z.compare_spec y2 x2); try (done || lia);
    destruct (Z.compare_spec x3 y3), (Z.compare_spec y3 x3); try (done || lia).
Qed.

(** [clamp] lands in the interval, whatever number it is given. *)
Lemma f64_clamp_range x lo hi :
  is_nan x = false -> is_nan lo = false -> is_nan hi = false ->
  cmp_le lo hi = true ->
  is_nan (f64_clamp x lo hi) = false /\
  cmp_le lo (f64_clamp x lo hi) = true /\ cmp_le (f64_clamp x lo hi) hi = true.
Proof.
  intros Hx Hlo Hhi Hle. unfold f64_clamp, f64_gt.
  destruct (f64_lt x lo) eqn:H1.
  - destruct (SFltb hi lo) eqn:H2.
    + change (f64_lt hi lo = true) in H2. rewrite f64_lt_not_le, Hle in H2 by done. done.
    + split_and!; [done| |done]. by destruct (cmp_le_total lo lo).
  - rewrite f64_lt_not_le in H1 by done. apply negb_false_iff in H1.
    destruct (SFltb hi x) eqn:H2.
    + split_and!; [done|done|]. by destruct (cmp_le_total hi hi).
    + change (f64_lt hi x = false) in H2. rewrite f64_lt_not_le in H2 by done.
      apply negb_false_iff in H2. done.
Qed.

(** [clamp] is the identity inside the interval. *)
Lemma f64_clamp_id x lo hi :
  is_nan x = false -> is_nan lo = false -> is_nan hi = false ->
  cmp_le lo x = true -> cmp_le x hi = true -> f64_clamp x lo hi = x.
Proof.
  intros Hx Hlo Hhi H1 H2. unfold f64_clamp, f64_gt.
  rewrite (f64_lt_not_le x lo), H1 by done. simpl.
  change (SFltb hi x) with (f64_lt hi x). by rewrite f64_lt_not_le, H2.
Qed.

(** ** Signs and NaN

    [pos_sign x]: [x] is a number whose sign bit is clear, i.e. [+0.0], a
    positive finite value or [+inf]. *)

Definition pos_sign (x : f64) : bool :=
  match x with
  | S754_zero s | S754_infinity s | S754_finite s _ _ => negb s
  | S754_nan => false
  end.

(** A positive finite value: a divisor or weight that can make no NaN. *)
Definition pos_finite (x : f64) : bool :=
  match x with S754_finite false _ _ => true | _ => false end.

Lemma pos_sign_not_nan x : pos_sign x = true -> is_nan x = false.
Proof. by destruct x. Qed.

Lemma pos_finite_pos_sign x : pos_finite x = true -> pos_sign x = true.
Proof. by destruct x as [| | |[] ? ?]. Qed.

#[export] Hint Resolve pos_sign_not_nan pos_finite_pos_sign : agnos.

Section rounding.
Context (prec emax : Z).

(** A right shift of a nonnegative significand is a division by a power of two. *)
Lemma shr_1_div2 mrs :
  (0 <= shr_m mrs)%Z -> shr_m (shr_1 mrs) = (shr_m mrs / 2)%Z.
Proof.
  destruct mrs as [m r s]; simpl. destruct m as [|[p|p|]|p]; simpl; intros Hm;
    Z.to_euclidean_division_equations; lia.
Qed.

Lemma iter_shr_1_div p mrs :
  (0 <= shr_m mrs)%Z ->
  shr_m (SpecFloat.iter_pos shr_1 p mrs) = (shr_m mrs / 2 ^ Zpos p)%Z.
Proof.
  revert mrs. induction p as [p IH|p IH|]; intros mrs H; simpl.
  - assert (0 <= shr_m (shr_1 mrs))%Z by (rewrite shr_1_div2 by done; apply Z.div_pos; lia).
    assert (0 <= shr_m (SpecFloat.iter_pos shr_1 p (shr_1 mrs)))%Z by (rewrite IH by done; apply Z.div_pos; lia).
    rewrite IH, IH, shr_1_div2 by done. rewrite !Z.div_div by lia.
    f_equal. rewrite (Pos2Z.inj_xI p), Z.pow_add_r, Z.pow_twice_r by lia. lia.
  - assert (0 <= shr_m (SpecFloat.iter_pos shr_1 p mrs))%Z by (rewrite IH by done; apply Z.div_pos; lia).
    rewrite IH, IH by done. rewrite Z.div_div by lia.
    f_equal. rewrite (Pos2Z.inj_xO p), Z.pow_twice_r by lia. lia.
  - by apply shr_1_div2.
Qed.

Lemma shr_nonneg mrs e n :
  (0 <= shr_m mrs)%Z -> (0 <= shr_m (shr mrs e n).1)%Z.
Proof.
  destruct n; simpl; try done. intros. rewrite iter_shr_1_div by done.
  apply Z.div_pos; lia.
Qed.

Lemma shr_fexp_nonneg m e l :
  (0 <= m)%Z -> (0 <= shr_m (shr_fexp prec emax m e l).1)%Z.
Proof. intros Hm. apply shr_nonneg. by destruct l as [|[]]. Qed.

Lemma round_nearest_even_nonneg m l :
  (0 <= m)%Z -> (0 <= round_nearest_even m l)%Z.
Proof. intros. destruct l as [|[]]; simpl; try case_match; lia. Qed.

Lemma binary_round_aux_pos m e l :
  (0 <= m)%Z -> pos_sign (binary_round_aux prec emax false m e l) = true.
Proof.
  intros Hm. unfold binary_round_aux.
  pose proof (shr_fexp_nonneg m e l Hm) as H1.
  destruct (shr_fexp prec emax m e l) as [mrs' e']; simpl in H1.
  pose proof (shr_fexp_nonneg _ e' loc_Exact
    (round_nearest_even_nonneg _ (loc_of_shr_record mrs') H1)) as H2.
  destruct (shr_fexp _ _ _ e' _) as [mrs'' e'']; simpl in H2.
  destruct (shr_m mrs'') as [|m''|m'']; [done|by case_match|lia].
Qed.

Lemma binary_round_aux_not_nan s m e l :
  (0 <= m)%Z -> is_nan (binary_round_aux prec emax s m e l) = false.
Proof.
  intros Hm. unfold binary_round_aux.
  pose proof (shr_fexp_nonneg m e l Hm) as H1.
  destruct (shr_fexp prec emax m e l) as [mrs' e']; simpl in H1.
  pose proof (shr_fexp_nonneg _ e' loc_Exact
    (round_nearest_even_nonneg _ (loc_of_shr_record mrs') H1)) as H2.
  destruct (shr_fexp _ _ _ e' _) as [mrs'' e'']; simpl in H2.
  destruct (shr_m mrs'') as [|m''|m'']; [done|by case_match|lia].
Qed.

Lemma binary_normalize_not_nan m e s : is_nan (binary_normalize prec emax m e s) = false.
Proof.
  destruct m as [|m|m]; [done|..]; simpl; unfold binary_round;
    destruct (shl_align _ _ _) as [mz ez]; by apply binary_round_aux_not_nan.
Qed.

Lemma binary_normalize_pos m e :
  (0 <= m)%Z -> pos_sign (binary_normalize prec emax m e false) = true.
Proof.
  intros Hm. destruct m as [|m|m]; [done| |lia]. simpl. unfold binary_round.
  destruct (shl_align _ _ _) as [mz ez]. by apply binary_round_aux_pos.
Qed.
End rounding.

Lemma f64_of_N_pos n : pos_sign (f64_of_N n) = true.
Proof. apply binary_normalize_pos. lia. Qed.

Lemma f64_add_pos x y :
  pos_sign x = true -> pos_sign y = true -> pos_sign (f64_add x y) = true.
Proof.
  destruct x as [[]|[]| |[] m1 e1], y as [[]|[]| |[] m2 e2]; try done; intros _ _.
  apply binary_normalize_pos. unfold cond_Zopp. lia.
Qed.

Lemma f64_mul_pos w x :
  pos_finite w = true -> pos_sign x = true -> pos_sign (f64_mul w x) = true.
Proof.
  destruct w as [[]|[]| |[] m1 e1], x as [[]|[]| |[] m2 e2]; try done; intros _ _.
  by apply binary_round_aux_pos.
Qed.

Lemma SFdiv_pos prec emax x y :
  pos_sign x = true -> pos_finite y = true -> pos_sign (SFdiv prec emax x y) = true.
Proof.
  destruct x as [[]|[]| |[] m1 e1], y as [[]|[]| |[] m2 e2]; try done; intros _ _.
  unfold SFdiv.
  destruct (SFdiv_core_binary _ _ _ _ _ _) as [[mz ez] lz] eqn:E.
  apply binary_round_aux_pos. unfold SFdiv_core_binary in E.
  set (s := Z.sub (Z.sub e1 e2) _) in E. clearbody s.
  set (m' := match s with Z0 => _ | Zpos _ => _ | Zneg _ => _ end) in E.
  assert (0 <= m')%Z by (subst m'; destruct s; [lia| |lia]; apply Z.shiftl_nonneg; lia).
  clearbody m'. destruct (Z.div_eucl m' (Zpos m2)) as [q r] eqn:Hq. injection E as <- _ _.
  replace q with (m' / Zpos m2)%Z by (unfold Z.div; by rewrite Hq).
  apply Z.div_pos; lia.
Qed.

Lemma f64_div_pos x y :
  pos_sign x = true -> pos_finite y = true -> pos_sign (f64_div x y) = true.
Proof. apply SFdiv_pos. Qed.

#[export] Hint Resolve f64_of_N_pos f64_add_pos f64_mul_pos f64_div_pos : agnos.

(** ** Integers convert to positive finite doubles *)

Lemma Zdigits2_log2 p : Zpos (digits2_pos p) = (Z.log2 (Zpos p) + 1)%Z.
Proof.
  induction p as [p IH|p IH|]; simpl digits2_pos; [| |done].
  - rewrite Pos2Z.inj_succ, IH, (Pos2Z.inj_xI p), Z.log2_succ_double by lia. lia.
  - rewrite Pos2Z.inj_succ, IH, (Pos2Z.inj_xO p), Z.log2_double by lia. lia.
Qed.

Lemma div_pow2_pos m k :
  (0 < m)%Z -> (0 <= k <= Z.log2 m)%Z -> (0 < m / 2 ^ k)%Z.
Proof.
  intros Hm Hk. apply Z.div_str_pos. split; [lia|].
  transitivity (2 ^ Z.log2 m)%Z; [apply Z.pow_le_mono_r; lia|]. by apply Z.log2_spec.
Qed.

(** Shifting a positive significand to the target exponent keeps it positive
    as long as the shift is shorter than the significand. *)
Lemma shr_fexp_pos m e :
  (0 < m)%Z ->
  let k := (fexp 53 1024 (Z.log2 m + 1 + e) - e)%Z in
  (k <= Z.log2 m)%Z ->
  (0 < shr_m (shr_fexp 53 1024 m e loc_Exact).1 <= m)%Z /\
  (shr_fexp 53 1024 m e loc_Exact).2 = (e + Z.max 0 k)%Z.
Proof.
  intros Hm k Hk. unfold shr_fexp. destruct m as [|m|m]; try lia.
  unfold Zdigits2. rewrite Zdigits2_log2. fold k. clearbody k.
  destruct k as [|k|k]; simpl; [lia| |lia].
  rewrite iter_shr_1_div by (simpl; lia). simpl. split; [|lia]. split.
  - apply div_pow2_pos; lia.
  - apply Z.div_le_upper_bound; [lia|]. nia.
Qed.

Lemma round_nearest_even_bounds m l :
  (m <= round_nearest_even m l <= m + 1)%Z.
Proof. destruct l as [|[]]; simpl; try case_match; lia. Qed.

Lemma binary_round_aux_pos_finite m e :
  (0 < m < 2 ^ 64)%Z -> (-1074 <= e <= 0)%Z ->
  pos_finite (binary_round_aux 53 1024 false m e loc_Exact) = true.
Proof.
  intros Hm He. unfold binary_round_aux.
  assert (Z.log2 m <= 63)%Z as Hl1.
  { assert (Z.log2 m < 64)%Z; [|lia]. apply Z.log2_lt_pow2; lia. }
  pose proof (Z.log2_nonneg m) as Hl2.
  destruct (shr_fexp_pos m e) as [[Hp1 Hp2] Hs]; [lia|unfold fexp, emin; lia|].
  destruct (shr_fexp 53 1024 m e loc_Exact) as [mrs e1]; simpl in Hp1, Hp2, Hs.
  pose proof (round_nearest_even_bounds (shr_m mrs) (loc_of_shr_record mrs)) as Hr.
  set (r := round_nearest_even _ _) in *. clearbody r.
  assert (Z.log2 r <= 64)%Z as Hl3.
  { assert (Z.log2 r < 65)%Z; [|lia]. apply Z.log2_lt_pow2; lia. }
  pose proof (Z.log2_nonneg r) as Hl4.
  destruct (shr_fexp_pos r e1) as [[Hq1 Hq2] Ht]; [lia|unfold fexp, emin in *; lia|].
  destruct (shr_fexp 53 1024 r e1 loc_Exact) as [mrs2 e2]; simpl in Hq1, Hq2, Ht.
  destruct (shr_m mrs2) as [|m2|m2]; [lia| |lia].
  case_match eqn:Hle; [done|]. apply Z.leb_gt in Hle. unfold fexp, emin in *. lia.
Qed.

Lemma iter_xO_shift m k :
  Zpos (Pos.iter xO m k) = (Zpos m * 2 ^ Zpos k)%Z.
Proof.
  induction k as [|k IH] using Pos.peano_ind.
  { simpl. lia. }
  rewrite Pos.iter_succ, (Pos2Z.inj_xO (Pos.iter _ _ _)), IH, Pos2Z.inj_succ, Z.pow_succ_r; lia.
Qed.

Lemma f64_of_N_pos_finite n :
  (0 < n)%N -> (n <= u64_max)%N -> pos_finite (f64_of_N n) = true.
Proof.
  intros H0 Hmax. unfold f64_of_N, binary_normalize. destruct n as [|p]; [lia|].
  simpl Z.of_N. cbv iota. unfold binary_round, shl_align. rewrite Zdigits2_log2.
  assert (Zpos p < 2 ^ 64)%Z as Hp by (unfold u64_max in Hmax; lia).
  assert (Z.log2 (Zpos p) < 64)%Z as Hl1 by (apply Z.log2_lt_pow2; lia).
  pose proof (Z.log2_nonneg (Zpos p)) as Hl2.
  set (t := (fexp 53 1024 _ - 0)%Z). unfold fexp, emin in t.
  assert (t = Z.log2 (Zpos p) - 52)%Z as Ht by lia. clearbody t.
  destruct t as [|t|t]; try (apply binary_round_aux_pos_finite; lia).
  replace (fexp _ _ _) with (Z.log2 (Zpos p) - 52)%Z by (unfold fexp, emin; lia).
  rewrite iter_xO_shift. apply binary_round_aux_pos_finite; [|lia].
  split; [lia|]. destruct (Z.log2_spec (Zpos p)) as [_ Hup]; [lia|].
  apply Z.lt_le_trans with (2 ^ Z.succ (Z.log2 (Zpos p)) * 2 ^ Zpos t)%Z.
  { apply Z.mul_lt_mono_pos_r; lia. }
  rewrite <-Z.pow_add_r by lia. apply Z.pow_le_mono_r; lia.
Qed.

#[export] Hint Resolve f64_of_N_pos_finite : agnos.

(** A ratio of two counters, the shape of every rate in the sources. *)
Lemma f64_ratio_pos a b :
  (0 < b)%N -> (b <= u64_max)%N -> pos_sign (f64_div (f64_of_N a) (f64_of_N b)) = true.
Proof. auto with agnos. Qed.

Lemma f64_of_f32_pos x : pos_sign x = true -> pos_sign (f64_of_f32 x) = true.
Proof.
  destruct x as [[]|[]| |[] m e]; try done. intros _. simpl. unfold binary_round.
  destruct (shl_align _ _ _) as [mz ez]. by apply binary_round_aux_pos.
Qed.

#[export] Hint Resolve f64_of_f32_pos : agnos.

(** A positive finite number divided by any non-negative one is no NaN, and
    subtracting a number from a finite one never gives NaN. *)
Lemma f64_div_finite_pos x y :
  pos_finite x = true -> pos_sign y = true -> pos_sign (f64_div x y) = true.
Proof.
  intros Hx Hy. destruct y as [[]|[]| |[] m e] eqn:E; try done.
  - by destruct x as [[]|[]| |[] ? ?].
  - by destruct x as [[]|[]| |[] ? ?].
  - apply SFdiv_pos; [by apply pos_finite_pos_sign|done].
Qed.

Lemma f64_sub_not_nan x y :
  pos_finite x = true -> is_nan y = false -> is_nan (f64_sub x y) = false.
Proof.
  destruct x as [[]|[]| |[] m1 e1], y as [[]|[]| |s m2 e2]; try done; intros _ _.
  apply binary_normalize_not_nan.
Qed.

Lemma f64_min_not_nan x y : is_nan x = false -> is_nan y = false -> is_nan (f64_min x y) = false.
Proof. intros Hx Hy. unfold f64_min. repeat case_match; done. Qed.

(** [x as u64]: towards zero, NaN and negative values give 0, large ones saturate. *)
Definition f64_as_u64 (x : f64) : N :=
  match x with
  | S754_finite false m e =>
      N.min (if (0 <=? e)%Z then Npos m * 2 ^ Z.to_N e else Npos m / 2 ^ Z.to_N (- e)) u64_max
  | S754_infinity false => u64_max
  | _ => 0
  end%N.

Lemma f64_as_u64_bound x : (f64_as_u64 x <= u64_max)%N.
Proof. destruct x as [[]|[]| |[] m e]; cbn [f64_as_u64]; lia. Qed.
