(* ===== verification/Resource.v ===== *)
(** * Hardware resources (src/rust-old/src/core/resource.rs)

    Accelerator types and families, device inventories and requirements, the
    requirement check [HardwareInventory::satisfies], and the conversion from
    the probes of the external crate [ai_hwaccel] (a parameter: its registry
    is the list of its profiles). *)

From S2P Require Import Prelude.
From S2P Require Import F64.
From stdpp Require Import base gmap strings list numbers.

Local Open Scope N_scope.

(** ** Accelerators *)

Inductive AcceleratorFamily := FCpu | FGpu | FNpu | FTpu | FAiAsic.
Inductive AcceleratorType := Cpu | Cuda | Rocm | Metal | Vulkan | Tpu.

#[export] Instance AcceleratorFamily_eq_dec : EqDecision AcceleratorFamily.
Proof. solve_decision. Defined.
#[export] Instance AcceleratorType_eq_dec : EqDecision AcceleratorType.
Proof. solve_decision. Defined.

Definition family (a : AcceleratorType) : AcceleratorFamily :=
  match a with
  | Cpu => FCpu
  | Cuda | Rocm | Metal | Vulkan => FGpu
  | Tpu => FTpu
  end.

Definition is_gpu (a : AcceleratorType) : bool := bool_decide (family a = FGpu).
Definition is_tpu (a : AcceleratorType) : bool := bool_decide (family a = FTpu).

(** ** Devices, requirements, inventories *)

Record ComputeDevice := mkComputeDevice {
  dev_index : nat;
  dev_name : string;
  accelerator : AcceleratorType;
  memory_total_mb : N;
  memory_available_mb : N;
}.

Definition ComputeDevice_new (index : nat) (name : string) (a : AcceleratorType)
    (total : N) : ComputeDevice :=
  {| dev_index := index; dev_name := name; accelerator := a;
     memory_total_mb := total; memory_available_mb := total |}.

Definition with_available (d : ComputeDevice) (avail : N) : ComputeDevice :=
  {| dev_index := dev_index d; dev_name := dev_name d; accelerator := accelerator d;
     memory_total_mb := memory_total_mb d; memory_available_mb := avail |}.

Record HardwareRequirement := mkHardwareRequirement {
  accelerators : list AcceleratorType;
  min_memory_mb : N;
  min_device_count : nat;
  min_cpu_cores : N;
  required_family : option AcceleratorFamily;
}.

(** [#[derive(Default)]]. *)
Definition HardwareRequirement_default : HardwareRequirement :=
  mkHardwareRequirement [] 0 0 0 None.

Definition for_accelerators (l : list AcceleratorType) : HardwareRequirement :=
  mkHardwareRequirement l 0 0 0 None.
Definition with_min_memory (r : HardwareRequirement) (mb : N) : HardwareRequirement :=
  mkHardwareRequirement (accelerators r) mb (min_device_count r) (min_cpu_cores r) (required_family r).
Definition with_min_devices (r : HardwareRequirement) (n : nat) : HardwareRequirement :=
  mkHardwareRequirement (accelerators r) (min_memory_mb r) n (min_cpu_cores r) (required_family r).
Definition with_min_cpu_cores (r : HardwareRequirement) (n : N) : HardwareRequirement :=
  mkHardwareRequirement (accelerators r) (min_memory_mb r) (min_device_count r) n (required_family r).

Record HardwareInventory := mkHardwareInventory {
  cpu_cores : N;
  inv_memory_total_mb : N;
  devices : list ComputeDevice;
}.

Definition HardwareInventory_default : HardwareInventory := mkHardwareInventory 0 0 [].

(** ** The requirement check *)

(** The early returns of [HardwareInventory::satisfies], in the source's order. *)
Definition satisfies (inv : HardwareInventory) (req : HardwareRequirement) : bool :=
  if (0 <? min_cpu_cores req) && (cpu_cores inv <? min_cpu_cores req) then false
  else
    match required_family req with
    | Some fam =>
        let matching := List.filter (fun d => bool_decide (family (accelerator d) = fam)) (devices inv) in
        if bool_decide (matching = []) then false
        else if (0 <? min_device_count req)%nat && (length matching <? min_device_count req)%nat then false
        else if (0 <? min_memory_mb req) &&
                negb (existsb (fun d => min_memory_mb req <=? memory_total_mb d) matching) then false
        else true
    | None =>
        if bool_decide (accelerators req <> []) then
          let matching := List.filter (fun d => bool_decide (accelerator d ∈ accelerators req)) (devices inv) in
          if (0 <? min_device_count req)%nat && (length matching <? min_device_count req)%nat then false
          else if (0 <? min_memory_mb req) &&
                  negb (existsb (fun d => min_memory_mb req <=? memory_total_mb d) matching) then false
          else if bool_decide (matching = []) then false
          else true
        else true
    end.

Definition devices_of_type (inv : HardwareInventory) (a : AcceleratorType) : list ComputeDevice :=
  List.filter (fun d => bool_decide (accelerator d = a)) (devices inv).

(** The sum is overflow-checked: [None] is the panic of a debug build. *)
Definition total_memory_mb (inv : HardwareInventory) (a : AcceleratorType) : option N :=
  u64_sum (map memory_total_mb (devices_of_type inv a)).

#[export] Instance ComputeDevice_eq_dec : EqDecision ComputeDevice.
Proof. solve_decision. Defined.

(** ** Conversion from [ai_hwaccel] profiles *)

Inductive HwAccelType :=
| HwCpu | HwCudaGpu | HwRocmGpu | HwMetalGpu | HwVulkanGpu | HwTpu | HwOther.

Record HwProfile := mkHwProfile {
  hw_accelerator : HwAccelType;
  hw_debug_name : string;           (* [format!("{:?}", profile.accelerator)] *)
  hw_memory_bytes : N;
  hw_memory_free_bytes : option N;
}.

Definition type_from_hwaccel (hw : HwAccelType) : AcceleratorType :=
  match hw with
  | HwCpu => Cpu
  | HwCudaGpu => Cuda
  | HwRocmGpu => Rocm
  | HwMetalGpu => Metal
  | HwVulkanGpu => Vulkan
  | HwTpu => Tpu
  | HwOther => Cpu
  end.

(** The loop of [HardwareInventory::from_hwaccel]: [i] is the [enumerate]
    index and [parallelism] the result of [available_parallelism]. *)
Fixpoint from_hwaccel_loop (parallelism : N) (i : nat) (profiles : list HwProfile)
    (inv : HardwareInventory) : HardwareInventory :=
  match profiles with
  | [] => inv
  | p :: rest =>
      let mem_mb := hw_memory_bytes p / (1024 * 1024) in
      let avail_mb := default (hw_memory_bytes p) (hw_memory_free_bytes p) / (1024 * 1024) in
      match hw_accelerator p with
      | HwCpu =>
          from_hwaccel_loop parallelism (S i) rest
            (mkHardwareInventory parallelism mem_mb (devices inv))
      | hw =>
          from_hwaccel_loop parallelism (S i) rest
            (mkHardwareInventory (cpu_cores inv) (inv_memory_total_mb inv)
               (devices inv ++
                [mkComputeDevice i (hw_debug_name p) (type_from_hwaccel hw) mem_mb avail_mb]))
      end
  end.

Definition from_hwaccel (parallelism : N) (profiles : list HwProfile) : HardwareInventory :=
  from_hwaccel_loop parallelism 0 profiles HardwareInventory_default.

Definition HardwareInventory_new (cpu_cores memory_total_mb : N) (devices : list ComputeDevice) : HardwareInventory :=
  mkHardwareInventory cpu_cores memory_total_mb devices.
(** [detected]: the profiles [AcceleratorRegistry::detect] finds. *)
Definition detect_hardware (parallelism : N) (detected : list HwProfile) : HardwareInventory :=
  from_hwaccel parallelism detected.

(** ** Training memory *)

Record TrainingMemoryEstimate := mkTrainingMemoryEstimate {
  model_gb : f64; optimizer_gb : f64; activation_gb : f64; total_gb : f64;
}.
(** [estimate_training_memory] belongs to ai-hwaccel. *)
Definition estimate_training {Method Target : Type} (estimate_training_memory : N -> Method -> Target -> TrainingMemoryEstimate)
    (model_params_millions : N) (method : Method) (target : Target) : TrainingMemoryEstimate :=
  let est := estimate_training_memory model_params_millions method target in
  mkTrainingMemoryEstimate (model_gb est) (optimizer_gb est) (activation_gb est) (total_gb est).

(** [Sum for f64] starts from negative zero. *)
Definition f64_iter_sum (l : list f64) : f64 := foldl f64_add (f64_neg f64_zero) l.
Definition total_vram_gb (inv : HardwareInventory) : f64 :=
  f64_iter_sum (map (fun d => f64_div (f64_of_N (memory_total_mb d)) (f64_of_N 1024)) (devices inv)).
Definition fits_in (t : TrainingMemoryEstimate) (inv : HardwareInventory) : bool :=
  f64_leb (total_gb t) (total_vram_gb inv).
Definition total_bytes (t : TrainingMemoryEstimate) : N :=
  f64_as_u64 (f64_mul (f64_mul (f64_mul (total_gb t) (f64_of_N 1024)) (f64_of_N 1024)) (f64_of_N 1024)).

Lemma total_bytes_bound t : (total_bytes t <= u64_max)%N.
Proof. apply f64_as_u64_bound. Qed.

(** ** Budgets *)

Record ResourceBudget := mkResourceBudget {
  max_tokens : option N;
  max_cost_usd : option f64;
  max_duration_secs : option N;
  max_concurrent_tasks : option N;
}.

Definition ResourceBudget_new (tokens : option N) (cost : option f64) (secs tasks : option N) : ResourceBudget :=
  mkResourceBudget tokens cost secs tasks.
Definition ResourceBudget_default : ResourceBudget := mkResourceBudget None None None (Some 10).

(** ** What the check means *)

(** A device answers a requirement when its family is the required one, or,
    without a required family, its type is listed. *)
Definition device_matches (req : HardwareRequirement) (d : ComputeDevice) : bool :=
  match required_family req with
  | Some fam => bool_decide (family (accelerator d) = fam)
  | None => bool_decide (accelerator d ∈ accelerators req)
  end.

Definition matching_devices (inv : HardwareInventory) (req : HardwareRequirement) : list ComputeDevice :=
  List.filter (device_matches req) (devices inv).

Definition wants_device (req : HardwareRequirement) : Prop :=
  required_family req <> None \/ accelerators req <> [].

(** The contract: enough cores, and, when the requirement names a device
    kind, at least one and at least [min_device_count] devices of that kind,
    one of them with [min_memory_mb] of memory. *)
Definition meets (inv : HardwareInventory) (req : HardwareRequirement) : Prop :=
  min_cpu_cores req <= cpu_cores inv /\
  (wants_device req ->
     matching_devices inv req <> [] /\
     (min_device_count req <= length (matching_devices inv req))%nat /\
     (0 < min_memory_mb req ->
        exists d, d ∈ matching_devices inv req /\ min_memory_mb req <= memory_total_mb d)).

Lemma existsb_elem_of {A} (p : A -> bool) l :
  existsb p l = true <-> exists x, x ∈ l /\ p x = true.
Proof. rewrite existsb_exists. by setoid_rewrite list_elem_of_In. Qed.

Lemma memory_guard_spec mb (l : list ComputeDevice) :
  ((0 <? mb) && negb (existsb (fun d => mb <=? memory_total_mb d) l)) = false <->
  (0 < mb -> exists d, d ∈ l /\ mb <= memory_total_mb d).
Proof.
  rewrite andb_false_iff, N.ltb_ge, negb_false_iff, existsb_elem_of.
  setoid_rewrite N.leb_le. split.
  - intros [?|?]; [lia|done].
  - intros H. destruct (decide (0 < mb)); [right; auto|left; lia].
Qed.

Lemma count_guard_spec n k :
  ((0 <? n)%nat && (k <? n)%nat) = false <-> (n <= k)%nat.
Proof. rewrite andb_false_iff, !Nat.ltb_ge. lia. Qed.

Lemma cores_guard_spec n k : ((0 <? n) && (k <? n)) = false <-> n <= k.
Proof. rewrite andb_false_iff, !N.ltb_ge. lia. Qed.

Lemma satisfies_spec inv req : satisfies inv req = true <-> meets inv req.
Proof.
  unfold satisfies, meets, matching_devices, device_matches, wants_device.
  pose proof (cores_guard_spec (min_cpu_cores req) (cpu_cores inv)) as Hc.
  destruct ((0 <? min_cpu_cores req) && _) eqn:E.
  { split; [done|]. intros [H _]. apply Hc in H. congruence. }
  apply proj1 in Hc. specialize (Hc eq_refl).
  destruct (required_family req) as [fam|].
  - set (l := List.filter _ _).
    pose proof (count_guard_spec (min_device_count req) (length l)) as Hn.
    pose proof (memory_guard_spec (min_memory_mb req) l) as Hm.
    repeat case_match; bool_to_prop; naive_solver.
  - case_bool_decide as Ha; [|naive_solver].
    set (l := List.filter _ _).
    pose proof (count_guard_spec (min_device_count req) (length l)) as Hn.
    pose proof (memory_guard_spec (min_memory_mb req) l) as Hm.
    repeat case_match; bool_to_prop; naive_solver.
Qed.

(** The requirement check decides the contract [meets]: enough cores and,
    when a device kind is named, enough devices of that kind and one with enough
    memory. *)
Theorem satisfies_meets inv req : satisfies inv req = true <-> meets inv req.
Proof. apply satisfies_spec. Qed.

(** A bigger node never loses: more cores and more devices keep every
    requirement satisfied. *)
Theorem satisfies_monotone inv inv' req :
  cpu_cores inv <= cpu_cores inv' ->
  devices inv ⊆+ devices inv' ->
  satisfies inv req = true -> satisfies inv' req = true.
Proof.
  intros Hcores Hdev. rewrite !satisfies_spec. intros [Hc Hd].
  assert (matching_devices inv req ⊆+ matching_devices inv' req) as Hsub.
  { unfold matching_devices. induction Hdev; simpl; repeat case_match; eauto using submseteq. }
  split; [lia|]. intros Hw. destruct (Hd Hw) as (Hne & Hcnt & Hmem). split_and!.
  - intros Hnil. rewrite Hnil in Hsub. by apply submseteq_nil_r in Hsub.
  - apply submseteq_length in Hsub. lia.
  - intros Hpos. destruct (Hmem Hpos) as (d & Hin & Hle). exists d. split; [|done].
    by eapply elem_of_submseteq.
Qed.

Lemma satisfies_monotone_witness :
  satisfies (mkHardwareInventory 16 0
    [ComputeDevice_new 0 "cpu" Cpu 0; ComputeDevice_new 1 "gpu" Rocm 24000])
    (mkHardwareRequirement [] 16000 1 8 (Some FGpu)) = true.
Proof.
  apply (satisfies_monotone
    (mkHardwareInventory 8 0 [ComputeDevice_new 1 "gpu" Rocm 24000])).
  - vm_compute. discriminate.
  - apply submseteq_cons, reflexivity.
  - vm_compute. reflexivity.
Defined.

Definition gpu_types : list AcceleratorType := [Cuda; Rocm; Metal; Vulkan].

Lemma family_gpu_types a : family a = FGpu <-> a ∈ gpu_types.
Proof. unfold gpu_types. destruct a; simpl; split; intros; (done || set_solver). Qed.

(** The family requirement "any GPU" and the enumeration of the four GPU
    types accept exactly the same inventories, whatever the other limits. *)
Theorem any_gpu_equivalent inv mem cnt cores :
  satisfies inv (mkHardwareRequirement gpu_types mem cnt cores None) =
  satisfies inv (mkHardwareRequirement [] mem cnt cores (Some FGpu)).
Proof.
  apply eq_bool_prop_intro. rewrite !Is_true_true, !satisfies_spec.
  assert (forall l, List.filter (device_matches (mkHardwareRequirement gpu_types mem cnt cores None)) l =
                    List.filter (device_matches (mkHardwareRequirement [] mem cnt cores (Some FGpu))) l) as Hf.
  { intros l. apply filter_ext. intros d. unfold device_matches; simpl.
    apply bool_decide_ext. symmetry. apply family_gpu_types. }
  unfold meets, wants_device, matching_devices; simpl in *. rewrite !Hf.
  assert (wants : gpu_types <> []) by done.
  split; intros [? H]; (split; [done|]); intros _; apply H; [by right|by left].
Qed.

(** Without an accelerator list or a family the memory and device-count
    limits are not looked at: a node with no device at all passes. *)
Theorem memory_limit_needs_kind inv mem cnt :
  satisfies inv (mkHardwareRequirement [] mem cnt 0 None) = true.
Proof. apply satisfies_spec. split; simpl; [lia|]. by intros [?|?]. Qed.

(** CPU profiles become the node's cores and memory, the others its devices in
    probe order. *)
Lemma from_hwaccel_loop_devices par i ps inv :
  map accelerator (devices (from_hwaccel_loop par i ps inv)) =
  map accelerator (devices inv) ++
  map type_from_hwaccel (List.filter (fun h => match h with HwCpu => false | _ => true end)
                           (map hw_accelerator ps)).
Proof.
  revert i inv. induction ps as [|p ps IH]; intros i inv; simpl.
  { by rewrite app_nil_r. }
  destruct (hw_accelerator p); rewrite IH; simpl; rewrite ?map_app; simpl;
    rewrite <-?app_assoc; done.
Qed.

(** A node built from the probes satisfies "any GPU" exactly when some
    probe found a CUDA, ROCm, Metal or Vulkan device: unknown accelerators are
    kept as CPU devices and never match. *)
Theorem from_hwaccel_any_gpu par ps :
  satisfies (from_hwaccel par ps) (mkHardwareRequirement [] 0 0 0 (Some FGpu)) = true <->
  exists p, p ∈ ps /\ is_gpu (type_from_hwaccel (hw_accelerator p)) = true.
Proof.
  rewrite satisfies_spec. unfold meets, matching_devices, device_matches, wants_device; simpl.
  set (fs := List.filter _ _).
  assert (fs <> [] <-> exists p, p ∈ ps /\ is_gpu (type_from_hwaccel (hw_accelerator p)) = true) as <-.
  { unfold is_gpu. setoid_rewrite bool_decide_eq_true.
    assert (fs <> [] <-> exists a, a ∈ map accelerator (devices (from_hwaccel par ps)) /\ family a = FGpu) as ->.
    { setoid_rewrite list_elem_of_fmap. subst fs. split.
      - intros Hne. destruct (List.filter _ _) as [|d l] eqn:E; [done|].
        assert (In d (d :: l)) as Hin by (by left). rewrite <-E in Hin.
        apply filter_In in Hin as [Hin Hf]. apply bool_decide_eq_true in Hf.
        exists (accelerator d). split; [|done]. exists d. by rewrite list_elem_of_In.
      - intros (a & (d & -> & Hd) & Hf) Hnil. rewrite list_elem_of_In in Hd.
        assert (In d (List.filter (fun d => bool_decide (family (accelerator d) = FGpu))
          (devices (from_hwaccel par ps)))) as Hin.
        { apply filter_In. by rewrite bool_decide_eq_true. }
        rewrite Hnil in Hin. done. }
    unfold from_hwaccel. rewrite from_hwaccel_loop_devices. simpl.
    setoid_rewrite list_elem_of_fmap. setoid_rewrite list_elem_of_In.
    setoid_rewrite filter_In. setoid_rewrite in_map_iff. split.
    - intros (a & (h & -> & (p & <- & Hp) & _) & Hf). by exists p.
    - intros (p & Hp & Hf). exists (type_from_hwaccel (hw_accelerator p)). split; [|done].
      exists (hw_accelerator p). split_and!; eauto. by destruct (hw_accelerator p). }
  split.
  - intros [_ H]. by apply H; left.
  - intros H. split; [lia|]. intros _. split_and!; [done|lia|lia].
Qed.
