(* ===== verification/Core.v ===== *)
(** * Core data (src/rust-old/src/core/{error,agent,task,crew}.rs)

    JSON values, errors, agents, tasks, crews, with the builders of the
    sources. The personality profile of the external crate [bhava] is the
    record of the observations the sources make of it. *)

From S2P Require Import Prelude.
From S2P Require Import F64.
From S2P Require Import Resource.
From stdpp Require Import base gmap strings list numbers.

(** ** JSON ([serde_json::Value])

    Numbers are [u64], negative [i64] or [f64]; objects are kept as lists of
    bindings. *)

Inductive Number := PosInt (n : N) | NegInt (z : Z) | Float (f : f64).

Inductive Value :=
| Null
| Bool (b : bool)
| Num (n : Number)
| Str (s : string)
| Arr (l : list Value)
| Obj (m : list (string * Value)).

Definition as_str (v : Value) : option string := match v with Str s => Some s | _ => None end.
Definition as_bool (v : Value) : option bool := match v with Bool b => Some b | _ => None end.
Definition as_array (v : Value) : option (list Value) := match v with Arr l => Some l | _ => None end.
Definition as_object (v : Value) : option (list (string * Value)) :=
  match v with Obj m => Some m | _ => None end.
Definition as_u64 (v : Value) : option N :=
  match v with Num (PosInt n) => Some n | _ => None end.
Definition f64_of_Z (z : Z) : f64 :=
  match z with
  | Zneg p => f64_neg (f64_of_N (Npos p))
  | _ => f64_of_N (Z.to_N z)
  end.
Definition as_f64 (v : Value) : option f64 :=
  match v with
  | Num (PosInt n) => Some (f64_of_N n)
  | Num (NegInt z) => Some (f64_of_Z z)
  | Num (Float f) => Some f
  | _ => None
  end.

Definition obj_get (m : list (string * Value)) (k : string) : option Value :=
  match List.find (fun kv => bool_decide (kv.1 = k)) m with
  | Some kv => Some kv.2
  | None => None
  end.
(** [Value::get] with a string key: [None] on anything but an object. *)
Definition json_get (v : Value) (k : string) : option Value :=
  match v with Obj m => obj_get m k | _ => None end.

(** [serde_json::from_value::<Vec<String>>]. *)
Fixpoint strings_of (l : list Value) : option (list string) :=
  match l with
  | [] => Some []
  | Str s :: l => match strings_of l with Some r => Some (s :: r) | None => None end
  | _ => None
  end.
Definition vec_string_of (v : Value) : option (list string) :=
  match v with Arr l => strings_of l | _ => None end.

(** ** Errors (error.rs) *)

Inductive AgnosaiError :=
| AgentNotFound (s : string)
| TaskNotFound (s : string)
| CrewNotFound (s : string)
| InvalidDefinition (s : string)
| CyclicDAG
| Scheduling (s : string)
| LlmProvider (s : string)
| ToolExecution (s : string)
| SandboxError (s : string)
| Fleet (s : string)
| Ipc (s : string)
| Serialization (s : string)
| Io (s : string)
| Timeout (d : Duration)
| Other (s : string).

(** The texts of [Display]; [debug_duration]: how a [Duration] prints in debug. *)
Definition error_text (debug_duration : Duration -> string) (e : AgnosaiError) : string :=
  match e with
  | AgentNotFound s => "agent not found: " ++ s
  | TaskNotFound s => "task not found: " ++ s
  | CrewNotFound s => "crew not found: " ++ s
  | InvalidDefinition s => "invalid definition: " ++ s
  | CyclicDAG => "task DAG contains a cycle"
  | Scheduling s => "scheduling error: " ++ s
  | LlmProvider s => "LLM provider error: " ++ s
  | ToolExecution s => "tool execution error: " ++ s
  | SandboxError s => "sandbox error: " ++ s
  | Fleet s => "fleet error: " ++ s
  | Ipc s => "IPC error: " ++ s
  | Serialization s => "serialization error: " ++ s
  | Io s => "I/O error: " ++ s
  | Timeout d => "timeout after " ++ debug_duration d
  | Other s => s
  end%string.

(** ** Agents (agent.rs) *)

Inductive TraitGroup := Social | Cognitive | Behavioral | Professional.
Inductive TraitKind :=
| Warmth | Empathy | Humor | Patience | Confidence | Creativity | Curiosity
| Skepticism | Directness | Precision | Autonomy | Pedagogy | Formality
| Verbosity | RiskTolerance.

(** What the sources read of a [bhava::traits::PersonalityProfile]. *)
Record PersonalityProfile := mkPersonalityProfile {
  group_average : TraitGroup -> f32;
  trait_normalized : TraitKind -> f32;   (* [get_trait(k).normalized()] *)
  compose_prompt : string;
}.

Record AgentDefinition := mkAgentDefinition {
  agent_key : string;
  agent_name : string;
  role : string;
  goal : string;
  backstory : option string;
  domain : option string;
  tools : list string;
  complexity : string;
  llm_model : option string;
  gpu_required : bool;
  gpu_preferred : bool;
  gpu_memory_min_mb : option N;
  hardware : option HardwareRequirement;
  personality : option PersonalityProfile;
}.

Definition default_complexity : string := "medium".

Definition AgentDefinition_new (key role goal : string) : AgentDefinition :=
  mkAgentDefinition key key role goal None None [] default_complexity None
    false false None None None.

Definition with_tools (a : AgentDefinition) (ts : list string) : AgentDefinition :=
  mkAgentDefinition (agent_key a) (agent_name a) (role a) (goal a) (backstory a) (domain a)
    ts (complexity a) (llm_model a) (gpu_required a) (gpu_preferred a)
    (gpu_memory_min_mb a) (hardware a) (personality a).
Definition with_domain (a : AgentDefinition) (d : string) : AgentDefinition :=
  mkAgentDefinition (agent_key a) (agent_name a) (role a) (goal a) (backstory a) (Some d)
    (tools a) (complexity a) (llm_model a) (gpu_required a) (gpu_preferred a)
    (gpu_memory_min_mb a) (hardware a) (personality a).
Definition with_name (a : AgentDefinition) (n : string) : AgentDefinition :=
  mkAgentDefinition (agent_key a) n (role a) (goal a) (backstory a) (domain a)
    (tools a) (complexity a) (llm_model a) (gpu_required a) (gpu_preferred a)
    (gpu_memory_min_mb a) (hardware a) (personality a).
Definition agent_with_hardware (a : AgentDefinition) (hw : HardwareRequirement) : AgentDefinition :=
  mkAgentDefinition (agent_key a) (agent_name a) (role a) (goal a) (backstory a) (domain a)
    (tools a) (complexity a) (llm_model a) (gpu_required a) (gpu_preferred a)
    (gpu_memory_min_mb a) (Some hw) (personality a).
Definition with_personality (a : AgentDefinition) (p : PersonalityProfile) : AgentDefinition :=
  mkAgentDefinition (agent_key a) (agent_name a) (role a) (goal a) (backstory a) (domain a)
    (tools a) (complexity a) (llm_model a) (gpu_required a) (gpu_preferred a)
    (gpu_memory_min_mb a) (hardware a) (Some p).

Definition hardware_requirement (a : AgentDefinition) : HardwareRequirement :=
  match hardware a with
  | Some hw => hw
  | None =>
      if gpu_required a then
        mkHardwareRequirement [Cuda; Rocm] (default 0%N (gpu_memory_min_mb a)) 0 0 None
      else HardwareRequirement_default
  end.

Inductive AgentState := AIdle | AAssigned | AWorking | ABlocked | ACompleted | AFailed.

(** ** Tasks (task.rs) *)

Inductive TaskRisk := RiskLow | RiskMedium | RiskHigh.
Inductive TaskPriority := Background | Low | Normal | High | Critical.
Inductive TaskStatus := Pending | Queued | Running | Completed | Failed | Cancelled.
Inductive ProcessMode :=
| Sequential
| Hierarchical (manager : Uuid)
| Dag
| Parallel (max_concurrency : N).

#[export] Instance TaskRisk_eq_dec : EqDecision TaskRisk.
Proof. solve_decision. Defined.
#[export] Instance TaskPriority_eq_dec : EqDecision TaskPriority.
Proof. solve_decision. Defined.
#[export] Instance TaskStatus_eq_dec : EqDecision TaskStatus.
Proof. solve_decision. Defined.

(** [priority as usize]: the discriminants of the enum, which its derived
    [Ord] follows. *)
Definition tier (p : TaskPriority) : nat :=
  match p with Background => 0 | Low => 1 | Normal => 2 | High => 3 | Critical => 4 end.

Lemma tier_lt_5 p : (tier p < 5)%nat.
Proof. destruct p; simpl; lia. Qed.

Lemma tier_inj p q : tier p = tier q -> p = q.
Proof. by destruct p, q. Qed.

#[export] Hint Resolve tier_lt_5 : agnos.

Record Task := mkTask {
  task_id : Uuid;
  description : string;
  expected_output : option string;
  assigned_agent : option Uuid;
  priority : TaskPriority;
  status : TaskStatus;
  dependencies : list Uuid;
  context : gmap string Value;
  risk : TaskRisk;
  output_schema : option Value;
}.

Definition Task_new (id : Uuid) (desc : string) : Task :=
  mkTask id desc None None Normal Pending [] ∅ RiskLow None.
Definition with_priority (t : Task) (p : TaskPriority) : Task :=
  mkTask (task_id t) (description t) (expected_output t) (assigned_agent t) p (status t)
    (dependencies t) (context t) (risk t) (output_schema t).
Definition with_dependency (t : Task) (d : Uuid) : Task :=
  mkTask (task_id t) (description t) (expected_output t) (assigned_agent t) (priority t) (status t)
    (dependencies t ++ [d]) (context t) (risk t) (output_schema t).
Definition with_context (t : Task) (k : string) (v : Value) : Task :=
  mkTask (task_id t) (description t) (expected_output t) (assigned_agent t) (priority t) (status t)
    (dependencies t) (<[k:=v]> (context t)) (risk t) (output_schema t).
Definition with_risk (t : Task) (r : TaskRisk) : Task :=
  mkTask (task_id t) (description t) (expected_output t) (assigned_agent t) (priority t) (status t)
    (dependencies t) (context t) r (output_schema t).
Definition with_expected_output (t : Task) (o : string) : Task :=
  mkTask (task_id t) (description t) (Some o) (assigned_agent t) (priority t) (status t)
    (dependencies t) (context t) (risk t) (output_schema t).
Definition with_output_schema (t : Task) (v : Value) : Task :=
  mkTask (task_id t) (description t) (expected_output t) (assigned_agent t) (priority t) (status t)
    (dependencies t) (context t) (risk t) (Some v).
(** [task.status = s]. *)
Definition set_status (s : TaskStatus) (t : Task) : Task :=
  mkTask (task_id t) (description t) (expected_output t) (assigned_agent t) (priority t) s
    (dependencies t) (context t) (risk t) (output_schema t).

Record TaskResult := mkTaskResult {
  res_task_id : Uuid;
  output : string;
  res_status : TaskStatus;
  metadata : gmap string Value;
}.

Record TaskDAG := mkTaskDAG {
  dag_tasks : gmap string Task;
  edges : list (string * string);
  dag_process : ProcessMode;
}.

Definition TaskDAG_new (tasks : gmap string Task) (edges : list (string * string)) (process : ProcessMode) : TaskDAG :=
  mkTaskDAG tasks edges process.

(** [AgentDefinition::from_json]; [parse]: serde on the text. *)
Definition agent_from_json (parse : string -> Result AgentDefinition string) (json : string)
    : Result AgentDefinition AgnosaiError :=
  match parse json with Ok d => Ok d | Err e => Err (Serialization e) end.

(** ** Messages between agents (message.rs) *)

Inductive MessageTarget := ToAgent (id : Uuid) | ToTopic (topic : string) | ToAll.
Record AgentMessage := mkAgentMessage {
  msg_id : Uuid;
  msg_from : Uuid;
  msg_to : MessageTarget;
  msg_payload : Value;
  msg_timestamp : Z;
}.
(** [id] and [now]: the identifier that is drawn and the clock. *)
Definition AgentMessage_new (id : Uuid) (now : Z) (from : Uuid) (to : MessageTarget) (payload : Value) : AgentMessage :=
  mkAgentMessage id from to payload now.

(** ** Crews (crew.rs) *)

Inductive CrewStatus := CPending | CRunning | CCompleted | CFailed | CCancelled.
#[export] Instance CrewStatus_eq_dec : EqDecision CrewStatus.
Proof. solve_decision. Defined.

Record CrewSpec := mkCrewSpec {
  crew_id : Uuid;
  crew_name : string;
  agents : list AgentDefinition;
  tasks : list Task;
  process : ProcessMode;
  crew_metadata : gmap string Value;
  trust_level : string;
}.

Definition default_trust_level : string := "basic".
Definition CrewSpec_new (id : Uuid) (name : string) : CrewSpec :=
  mkCrewSpec id name [] [] Sequential ∅ default_trust_level.
Definition with_agents (c : CrewSpec) (l : list AgentDefinition) : CrewSpec :=
  mkCrewSpec (crew_id c) (crew_name c) l (tasks c) (process c) (crew_metadata c) (trust_level c).
Definition with_tasks (c : CrewSpec) (l : list Task) : CrewSpec :=
  mkCrewSpec (crew_id c) (crew_name c) (agents c) l (process c) (crew_metadata c) (trust_level c).
Definition with_process (c : CrewSpec) (p : ProcessMode) : CrewSpec :=
  mkCrewSpec (crew_id c) (crew_name c) (agents c) (tasks c) p (crew_metadata c) (trust_level c).

Definition with_trust_level (c : CrewSpec) (level : string) : CrewSpec :=
  mkCrewSpec (crew_id c) (crew_name c) (agents c) (tasks c) (process c) (crew_metadata c) level.

Record CrewProfile := mkCrewProfile {
  wall_ms : N;
  task_ms : gmap Uuid N;
  task_count : nat;
  cost_usd : f64;
  agent_cost_usd : gmap string f64;
  task_cost_usd : gmap Uuid f64;
  sandbox_strength : option N;
}.

Record CrewState := mkCrewState {
  state_crew_id : Uuid;
  crew_status : CrewStatus;
  results : list TaskResult;
  profile : option CrewProfile;
}.

(** [is_zero]: NaN and infinities count as zero for serialization. *)
Definition is_zero (v : f64) : bool :=
  match v with
  | SpecFloat.S754_zero _ | SpecFloat.S754_infinity _ | SpecFloat.S754_nan => true
  | SpecFloat.S754_finite _ _ _ => false
  end.
