(* ===== verification/Kahn.v ===== *)
(** * Kahn's algorithm over an abstract worklist

    Both topological sorts of the scheduler run the same loop: pop a node,
    append it to the order, decrement the in-degree of each of its successors
    and push those that reach zero. They differ in the worklist: a FIFO queue
    in [Scheduler::kahn_sort], a priority heap in [topological_sort_tasks].
    The class [Worklist] is the interface of the two; the loop is correct,
    complete and total for every implementation of it. *)

From S2P Require Import Prelude.
From stdpp Require Import base gmap list numbers relations.

(** ** The worklist interface *)

Class Worklist (K W : Type) := {
  wl_pop : W -> option (K * W);
  wl_push : W -> K -> W;
  wl_items : W -> list K;
}.

Class WorklistLaws (K W : Type) `{!Worklist K W} : Prop := {
  wl_pop_None w : wl_pop w = None -> wl_items w = [];
  wl_pop_Some w x w' : wl_pop w = Some (x, w') -> wl_items w ≡ₚ x :: wl_items w';
  wl_push_items w x : wl_items (wl_push w x) ≡ₚ x :: wl_items w;
}.

(** ** The loop *)

Section loop.
Context {K W : Type} `{Countable K} `{!Worklist K W}.
Context (succs : K -> list K).

(** [if let Some(deg) = in_degree.get_mut(succ) { *deg -= 1; if *deg == 0 { push } }];
    [None] is the underflow of [*deg -= 1]. *)
Definition relax1 (deg : gmap K nat) (w : W) (v : K) : option (gmap K nat * W) :=
  match deg !! v with
  | None => Some (deg, w)
  | Some 0 => None
  | Some (S d) => Some (<[v:=d]> deg, if (d =? 0)%nat then wl_push w v else w)
  end.

Fixpoint relax (deg : gmap K nat) (w : W) (vs : list K) : option (gmap K nat * W) :=
  match vs with
  | [] => Some (deg, w)
  | v :: vs =>
      match relax1 deg w v with
      | Some (deg', w') => relax deg' w' vs
      | None => None
      end
  end.

(** [while let Some(node) = queue.pop() { .. }]; [None] is a panic or the
    end of the fuel. *)
Fixpoint kahn_loop (fuel : nat) (deg : gmap K nat) (w : W) (order : list K)
    : option (list K) :=
  match fuel with
  | 0 => None
  | S fuel =>
      match wl_pop w with
      | None => Some order
      | Some (x, w') =>
          match relax deg w' (succs x) with
          | Some (deg', w'') => kahn_loop fuel deg' w'' (order ++ [x])
          | None => None
          end
      end
  end.
End loop.

(** ** Specification vocabulary *)

Section spec.
Context {K : Type} `{Countable K}.

Definition count_in (l : list K) (v : K) : nat := length (filter (fun x => x = v) l).

(** Number of edges from [u] to [v]. *)
Definition edge_mult (succs : K -> list K) (u v : K) : nat := count_in (succs u) v.

Definition edge (succs : K -> list K) (V : gset K) (u v : K) : Prop :=
  u ∈ V /\ v ∈ V /\ v ∈ succs u.

Definition acyclic (succs : K -> list K) (V : gset K) : Prop :=
  forall v, ~ tc (edge succs V) v v.

(** [order] lists [V] once and puts the source of every edge before its target. *)
Definition topological (succs : K -> list K) (V : gset K) (order : list K) : Prop :=
  NoDup order /\ (forall v, v ∈ order <-> v ∈ V) /\
  forall l1 v l2, order = l1 ++ v :: l2 ->
    forall u, edge succs V u v -> u ∈ l1.

Definition msum (succs : K -> list K) (l : list K) (v : K) : nat :=
  sum_list_with (fun u => edge_mult succs u v) l.

Lemma edge_mult_pos succs u v : 0 < edge_mult succs u v <-> v ∈ succs u.
Proof.
  unfold edge_mult, count_in. split.
  - intros Hl. destruct (filter _ (succs u)) as [|x l] eqn:E; [simpl in Hl; lia|].
    assert (x ∈ filter (fun x => x = v) (succs u)) as Hx by (rewrite E; left).
    apply list_elem_of_filter in Hx as [-> ?]. done.
  - intros Hv. assert (v ∈ filter (fun x => x = v) (succs u)) as Hx
      by (by apply list_elem_of_filter).
    destruct (filter _ (succs u)); [by apply not_elem_of_nil in Hx|simpl; lia].
Qed.

Lemma msum_app succs l1 l2 v : msum succs (l1 ++ l2) v = msum succs l1 v + msum succs l2 v.
Proof. apply sum_list_with_app. Qed.

Lemma msum_perm succs l1 l2 v : l1 ≡ₚ l2 -> msum succs l1 v = msum succs l2 v.
Proof. intros Hp. unfold msum. induction Hp; simpl; lia. Qed.

Lemma msum_submseteq succs l1 l2 v :
  l1 ⊆+ l2 -> msum succs l1 v <= msum succs l2 v.
Proof.
  intros [l Hl]%submseteq_Permutation. rewrite (msum_perm _ _ _ _ Hl), msum_app. lia.
Qed.

(** A part of the nodes that already accounts for every incoming edge of
    [v] contains every source of such an edge. *)
Lemma msum_full_preds succs l (V : gset K) u v :
  NoDup l -> (forall x, x ∈ l -> x ∈ V) ->
  msum succs l v = msum succs (elements V) v ->
  u ∈ V -> v ∈ succs u -> u ∈ l.
Proof.
  intros Hnd Hsub Heq Hu Hv. destruct (decide (u ∈ l)) as [|Hni]; [done|exfalso].
  assert (u :: l ⊆+ elements V) as Hs.
  { apply NoDup_submseteq; [by constructor|]. intros x.
    rewrite elem_of_cons, elem_of_elements. intros [->|?]; auto. }
  apply (msum_submseteq succs _ _ v) in Hs. unfold msum in Hs, Heq; simpl in Hs.
  apply edge_mult_pos in Hv. lia.
Qed.

(** A finite nonempty set in which everything has a predecessor has a cycle:
    remove a node and bridge the edges through it. *)
Lemma no_source_cycle (R : K -> K -> Prop) (X : gset K) :
  X <> ∅ -> (forall v, v ∈ X -> exists u, u ∈ X /\ R u v) ->
  exists v, tc R v v.
Proof.
  remember (size X) as n eqn:Hn. revert R X Hn.
  induction n as [|n IH]; intros R X Hn Hne Hpred.
  { symmetry in Hn. by apply size_empty_inv in Hn; apply leibniz_equiv in Hn. }
  destruct (set_choose_L X Hne) as [x Hx].
  destruct (Hpred x Hx) as (p & Hp & Hpx).
  destruct (decide (p = x)) as [->|Hpne]; [exists x; by apply tc_once|].
  set (R' := fun u v => R u v \/ (R u x /\ R x v)).
  destruct (IH R' (X ∖ {[x]})) as [v Hv].
  - rewrite size_difference by set_solver. rewrite size_singleton. lia.
  - intros Hnil. apply (not_elem_of_empty (C:=gset K) p). rewrite <-Hnil.
    by rewrite elem_of_difference, elem_of_singleton.
  - intros v [Hv _]%elem_of_difference. destruct (Hpred v Hv) as (u & Hu & Huv).
    destruct (decide (u = x)) as [->|Hux]; [exists p|exists u];
      rewrite elem_of_difference, elem_of_singleton; subst R'; simpl; tauto.
  - exists v. clear -Hv.
    assert (forall a b, R' a b -> tc R a b) as HR.
    { intros a b [?|[??]]; [by apply tc_once|by eapply tc_l; [|apply tc_once]]. }
    assert (forall a b, tc R' a b -> tc R a b) as Htc; [|by apply Htc].
    intros a b Hab. induction Hab as [a b Hab|a b c Hab _ IHc]; [by apply HR|].
    etrans; [by apply HR|done].
Qed.

Lemma topological_acyclic succs V order :
  topological succs V order -> acyclic succs V.
Proof.
  intros (Hnd & Hmem & Hpos) v Hc.
  assert (forall a b, tc (edge succs V) a b ->
    forall l1 l2, order = l1 ++ b :: l2 -> a ∈ l1) as Hbefore.
  { intros a b Hab. induction Hab as [a b Hab|a b c Hab Hbc IH]; intros l1 l2 Hl.
    - by eapply Hpos.
    - specialize (IH l1 l2 Hl). apply list_elem_of_split in IH as (k1 & k2 & ->).
      rewrite <-app_assoc in Hl. simpl in Hl.
      rewrite elem_of_app. left. eapply Hpos; [exact Hl|done]. }
  assert (v ∈ order) as Hv.
  { apply Hmem. assert (forall a b, tc (edge succs V) a b -> b ∈ V) as HV; [|by eapply HV].
    intros a b Hab. by induction Hab as [a b (_ & ? & _)|]. }
  apply list_elem_of_split in Hv as (l1 & l2 & Hl).
  pose proof (Hbefore v v Hc l1 l2 Hl) as Hin. subst order.
  apply NoDup_app in Hnd as (_ & Hdis & _). apply (Hdis v Hin). left.
Qed.
End spec.

(** ** Correctness of the loop *)

Section correctness.
Context {K W : Type} `{Countable K} `{!Worklist K W} `{!WorklistLaws K W}.
Context (succs : K -> list K) (V : gset K).
(** [ext v]: in-degree of [v] that comes from outside [V] and is never relaxed. *)
Context (ext : K -> nat).

Abbreviation total v := (ext v + msum succs (elements V) v) (only parsing).

Definition order_ok (order : list K) : Prop :=
  forall l1 v l2, order = l1 ++ v :: l2 ->
    ext v = 0 /\ forall u, edge succs V u v -> u ∈ l1.

Record kahn_inv (deg : gmap K nat) (w : W) (order : list K) : Prop := {
  ki_dom : forall v, is_Some (deg !! v) <-> v ∈ V;
  ki_acct : forall v d, deg !! v = Some d -> d + msum succs order v = total v;
  ki_nodup : NoDup (order ++ wl_items w);
  ki_zero : forall v, v ∈ order ++ wl_items w <-> deg !! v = Some 0;
  ki_order : order_ok order;
}.

Lemma msum_le_total order v :
  NoDup order -> (forall u, u ∈ order -> u ∈ V) ->
  msum succs order v <= msum succs (elements V) v.
Proof.
  intros Hnd Hsub. apply msum_submseteq, NoDup_submseteq; [done|].
  intros u Hu. apply elem_of_elements. auto.
Qed.

Lemma count_in_snoc (l : list K) x v :
  count_in (l ++ [x]) v = count_in l v + (if decide (x = v) then 1 else 0).
Proof.
  unfold count_in. rewrite filter_app, length_app. f_equal.
  rewrite filter_cons. by case_decide.
Qed.

Lemma relax1_ok (deg : gmap K nat) order x pre v rest :
  x ∉ order -> x ∈ V -> (forall u, u ∈ order -> u ∈ V) -> NoDup order ->
  succs x = pre ++ v :: rest ->
  (forall d, deg !! v = Some d ->
     d + msum succs order v + count_in pre v = total v) ->
  deg !! v <> Some 0.
Proof.
  intros Hx HxV Hsub Hnd Hs Hacct H0. specialize (Hacct 0 H0).
  pose proof (msum_le_total (x :: order) v) as Hle.
  unfold msum in Hle, Hacct; simpl in Hle. unfold edge_mult in Hle at 1. rewrite Hs in Hle.
  replace (pre ++ v :: rest) with ((pre ++ [v]) ++ rest) in Hle by (by rewrite <-app_assoc).
  unfold count_in in Hle at 1. rewrite filter_app, length_app in Hle.
  fold (count_in (pre ++ [v]) v) in Hle. rewrite count_in_snoc, decide_True in Hle by done.
  assert (NoDup (x :: order)) by (by constructor).
  assert (forall u, u ∈ x :: order -> u ∈ V) by (intros u [->|?]%elem_of_cons; auto).
  specialize (Hle ltac:(done) ltac:(done)). lia.
Qed.

Lemma relax_ok order x rest pre (deg : gmap K nat) (w : W) :
  x ∉ order -> x ∈ V -> (forall u, u ∈ order -> u ∈ V) -> NoDup order ->
  succs x = pre ++ rest ->
  (forall v, is_Some (deg !! v) <-> v ∈ V) ->
  (forall v d, deg !! v = Some d ->
     d + msum succs order v + count_in pre v = total v) ->
  NoDup ((order ++ [x]) ++ wl_items w) ->
  (forall v, v ∈ (order ++ [x]) ++ wl_items w <-> deg !! v = Some 0) ->
  exists deg' w', relax deg w rest = Some (deg', w') /\
    (forall v, is_Some (deg' !! v) <-> v ∈ V) /\
    (forall v d, deg' !! v = Some d ->
       d + msum succs order v + count_in (succs x) v = total v) /\
    NoDup ((order ++ [x]) ++ wl_items w') /\
    (forall v, v ∈ (order ++ [x]) ++ wl_items w' <-> deg' !! v = Some 0).
Proof.
  intros Hx HxV Hsub Hnd. revert pre deg w.
  induction rest as [|v rest IH]; intros pre deg w Hs Hdom Hacct Hnd' Hzero.
  { exists deg, w. rewrite app_nil_r in Hs. by rewrite Hs. }
  assert (deg !! v <> Some 0) as Hv0 by (eapply relax1_ok; eauto).
  assert (succs x = (pre ++ [v]) ++ rest) as Hs' by (by rewrite <-app_assoc).
  cbn [relax]. unfold relax1. destruct (deg !! v) as [[|d]|] eqn:Hv; [done| |].
  - apply (IH (pre ++ [v])); [done|..].
    + intros u. rewrite <-Hdom. map_cases v u; [|done].
      split; intros _; eauto.
    + intros u d' Hu. rewrite count_in_snoc. map_cases v u.
      * specialize (Hacct _ _ Hv). lia.
      * specialize (Hacct _ _ Hu). lia.
    + destruct (Nat.eqb_spec d 0) as [->|]; [|done].
      rewrite wl_push_items, <-Permutation_middle. constructor; [|done].
      rewrite Hzero. congruence.
    + intros u. destruct (Nat.eqb_spec d 0) as [->|].
      * rewrite wl_push_items, <-Permutation_middle, elem_of_cons, Hzero.
        map_cases v u; naive_solver.
      * rewrite Hzero. map_cases v u; naive_solver.
  - apply (IH (pre ++ [v])); [done|done| |done|done].
    intros u d' Hu. rewrite count_in_snoc. case_decide; [congruence|].
    specialize (Hacct _ _ Hu). lia.
Qed.

(** What the final order [res] satisfies. *)
Record kahn_result (res : list K) : Prop := {
  kr_nodup : NoDup res;
  kr_sub : forall v, v ∈ res -> v ∈ V;
  kr_order : order_ok res;
  kr_closed : forall v, v ∈ V -> v ∉ res ->
    0 < ext v \/ (exists u, (u ∉ res) /\ edge succs V u v);
}.

Lemma kahn_inv_sub (deg : gmap K nat) (w : W) order v : kahn_inv deg w order -> v ∈ order ++ wl_items w -> v ∈ V.
Proof. intros Hi Hv. apply (ki_dom _ _ _ Hi). apply (ki_zero _ _ _ Hi) in Hv. eauto. Qed.

(** A node of in-degree zero has no outside edge, and all its sources are
    already in the order. *)
Lemma kahn_inv_ready (deg : gmap K nat) (w : W) order x :
  kahn_inv deg w order -> deg !! x = Some 0 ->
  ext x = 0 /\ forall u, edge succs V u x -> u ∈ order.
Proof.
  intros Hi H0. pose proof (ki_acct _ _ _ Hi _ _ H0) as Ha.
  pose proof (ki_nodup _ _ _ Hi) as Hnd. apply NoDup_app in Hnd as (Hnd & _ & _).
  assert (forall u, u ∈ order -> u ∈ V) as Hsub.
  { intros u Hu. eapply kahn_inv_sub; [done|]. apply elem_of_app. by left. }
  pose proof (msum_le_total order x Hnd Hsub). split; [lia|].
  intros u (Hu & _ & Hs). eapply msum_full_preds; [done|done| |done|done]. lia.
Qed.

Lemma order_ok_snoc order x :
  order_ok order -> ext x = 0 -> (forall u, edge succs V u x -> u ∈ order) ->
  order_ok (order ++ [x]).
Proof.
  intros Ho Hx Hp l1 v l2 Hl.
  destruct l2 as [|y l2 _] using rev_ind.
  - apply app_inj_tail in Hl as [<- <-]. done.
  - rewrite app_comm_cons, app_assoc in Hl. apply app_inj_tail in Hl as [-> _].
    by apply (Ho l1 v l2).
Qed.

Lemma kahn_result_of_inv (deg : gmap K nat) (w : W) order :
  kahn_inv deg w order -> wl_items w = [] -> kahn_result order.
Proof.
  intros Hi Hw. pose proof (ki_nodup _ _ _ Hi) as Hnd. pose proof (ki_zero _ _ _ Hi) as Hz.
  rewrite Hw, app_nil_r in Hnd. rewrite Hw in Hz. setoid_rewrite app_nil_r in Hz.
  assert (forall v, v ∈ order -> v ∈ V) as Hsub.
  { intros v Hv. apply (ki_dom _ _ _ Hi). apply Hz in Hv. eauto. }
  split; [done|done|by apply (ki_order _ _ _ Hi)|].
  intros v HV Hv. destruct (proj2 (ki_dom _ _ _ Hi v) HV) as [d Hd].
  destruct (decide (0 < ext v)) as [|He]; [by left|right].
  pose proof (ki_acct _ _ _ Hi _ _ Hd) as Ha.
  assert (d <> 0) by (intros ->; apply Hv, Hz, Hd).
  assert (forall u, {u ∈ order \/ v ∉ succs u} + {(u ∉ order) /\ v ∈ succs u}) as Hdec.
  { intros u. destruct (decide (u ∈ order)), (decide (v ∈ succs u)); auto. }
  destruct (Forall_Exists_dec _ _ Hdec (elements V)) as [Hall|Hex].
  - exfalso. assert (msum succs (elements V) v <= msum succs order v); [|lia].
    unfold msum. assert (NoDup (elements V)) as HndV by apply NoDup_elements.
    rewrite Forall_forall in Hall.
    assert (forall l, NoDup l -> (forall u, u ∈ l -> u ∈ order \/ v ∉ succs u) ->
      sum_list_with (fun u => edge_mult succs u v) l <=
      sum_list_with (fun u => edge_mult succs u v) (filter (fun u => u ∈ order) l)) as Hf.
    { induction l as [|a l IH]; intros Hl HA; [done|]. apply NoDup_cons in Hl as [Hal Hl].
      rewrite filter_cons. specialize (IH Hl (fun u Hu => HA u (list_elem_of_further _ _ _ Hu))).
      case_decide as Ha'; simpl; [lia|].
      destruct (HA a ltac:(left)) as [?|Hns]; [done|].
      assert (edge_mult succs a v = 0); [|lia].
      destruct (edge_mult succs a v) eqn:Hm; [done|]. exfalso. apply Hns, edge_mult_pos. lia. }
    etrans; [apply (Hf _ HndV Hall)|].
    apply msum_submseteq, NoDup_submseteq; [by apply NoDup_filter|].
    intros u Hu. by apply list_elem_of_filter in Hu as [? _].
  - apply Exists_exists in Hex as (u & Hu & Hn & Hs).
    apply elem_of_elements in Hu. by exists u.
Qed.

(** One iteration keeps the invariant and cannot underflow. *)
Lemma kahn_step (deg : gmap K nat) (w w' : W) order x :
  kahn_inv deg w order -> wl_pop w = Some (x, w') ->
  exists deg' w'', relax deg w' (succs x) = Some (deg', w'') /\
    kahn_inv deg' w'' (order ++ [x]) /\ x ∈ V /\ x ∉ order.
Proof.
  intros Hi Hpop. pose proof (wl_pop_Some _ _ _ Hpop) as Hp.
  pose proof (ki_nodup _ _ _ Hi) as Hnd. pose proof (ki_zero _ _ _ Hi) as Hz.
  rewrite Hp in Hnd. setoid_rewrite Hp in Hz.
  assert (deg !! x = Some 0) as H0.
  { apply Hz. rewrite elem_of_app, elem_of_cons. auto. }
  assert (x ∈ V) as HxV by (apply (ki_dom _ _ _ Hi); eauto).
  pose proof Hnd as (Hnd1 & Hdis & _)%NoDup_app.
  assert (x ∉ order) as Hx by (intros Hin; apply (Hdis x Hin); left).
  destruct (kahn_inv_ready _ _ _ _ Hi H0) as [Hext Hpred].
  destruct (relax_ok order x (succs x) [] deg w') as (deg' & w'' & Hr & Hd & Ha & Hn & Hz').
  - done.
  - done.
  - intros u Hu. eapply kahn_inv_sub; [done|]. apply elem_of_app. by left.
  - done.
  - done.
  - apply (ki_dom _ _ _ Hi).
  - intros v d Hv. pose proof (ki_acct _ _ _ Hi _ _ Hv). unfold count_in. simpl. lia.
  - by rewrite <-app_assoc.
  - intros v. by rewrite <-app_assoc, Hz.
  - exists deg', w''. split_and!; [done| |done|done]. split; [done| |done|done|].
    + intros v d Hv. specialize (Ha v d Hv). rewrite msum_app. unfold msum at 2; simpl.
      unfold edge_mult. lia.
    + by apply order_ok_snoc; [apply (ki_order _ _ _ Hi)|..].
Qed.

(** The loop is total: the order grows by a new node of [V] at every turn,
    so [size V] turns and one more for the empty worklist are enough. *)
Lemma kahn_loop_total fuel (deg : gmap K nat) (w : W) order :
  kahn_inv deg w order -> size V < fuel + length order ->
  exists res, kahn_loop succs fuel deg w order = Some res /\ kahn_result res.
Proof.
  revert deg w order. induction fuel as [|fuel IH]; intros deg w order Hi Hf.
  { exfalso. assert (order ⊆+ elements V) as Hs.
    { apply NoDup_submseteq; [by pose proof (ki_nodup _ _ _ Hi) as (? & _)%NoDup_app|].
      intros v Hv. apply elem_of_elements. eapply kahn_inv_sub; [done|].
      apply elem_of_app. by left. }
    apply submseteq_length in Hs. unfold size, set_size in Hf. simpl in Hf. lia. }
  simpl. destruct (wl_pop w) as [[x w']|] eqn:Hpop.
  - destruct (kahn_step _ _ _ _ _ Hi Hpop) as (deg' & w'' & -> & Hi' & _).
    apply IH; [done|]. rewrite length_app. simpl. lia.
  - exists order. split; [done|]. apply (kahn_result_of_inv deg w); [done|].
    by apply wl_pop_None.
Qed.

Lemma kahn_result_length res : kahn_result res -> length res <= size V.
Proof.
  intros Hr. apply submseteq_length, NoDup_submseteq; [apply (kr_nodup _ Hr)|].
  intros v Hv. apply elem_of_elements. by apply (kr_sub _ Hr).
Qed.

Lemma kahn_result_complete res v :
  kahn_result res -> length res = size V -> v ∈ V -> v ∈ res.
Proof.
  intros Hr Hl Hv. assert (res ≡ₚ elements V) as ->; [|by apply elem_of_elements].
  apply submseteq_length_Permutation; [|unfold size, set_size in Hl; simpl in Hl; lia].
  apply NoDup_submseteq; [apply (kr_nodup _ Hr)|].
  intros u Hu. apply elem_of_elements. by apply (kr_sub _ Hr).
Qed.

(** A full-length result is a topological order without outside edges. *)
Lemma kahn_result_sound res :
  kahn_result res -> length res = size V ->
  topological succs V res /\ forall v, v ∈ V -> ext v = 0.
Proof.
  intros Hr Hl. split; [split_and!|].
  - apply (kr_nodup _ Hr).
  - intros v. split; [apply (kr_sub _ Hr)|by apply kahn_result_complete].
  - intros l1 v l2 Heq. by apply (kr_order _ Hr l1 v l2).
  - intros v Hv. apply (kahn_result_complete res) in Hv; [|done|done].
    apply list_elem_of_split in Hv as (l1 & l2 & Heq). by apply (kr_order _ Hr l1 v l2).
Qed.

(** On an acyclic graph without outside edges the result has full length. *)
Lemma kahn_result_full res :
  kahn_result res -> acyclic succs V -> (forall v, v ∈ V -> ext v = 0) ->
  length res = size V.
Proof.
  intros Hr Hac Hext. pose proof (kahn_result_length _ Hr) as Hle.
  destruct (decide (V ∖ list_to_set res = ∅)) as [He|Hne].
  - assert (elements V ⊆+ res) as Hs.
    { apply NoDup_submseteq; [apply NoDup_elements|]. intros v Hv.
      apply elem_of_elements in Hv. destruct (decide (v ∈ res)) as [|Hn]; [done|].
      assert (v ∈ V ∖ list_to_set res) as Hin
        by (by rewrite elem_of_difference, elem_of_list_to_set).
      rewrite He in Hin. by apply not_elem_of_empty in Hin. }
    apply submseteq_length in Hs. unfold size, set_size in *. simpl in *. lia.
  - exfalso. destruct (no_source_cycle (edge succs V) (V ∖ list_to_set res) Hne) as [v Hv];
      [|by apply (Hac v)].
    intros v. rewrite elem_of_difference, elem_of_list_to_set. intros [HV Hn].
    destruct (kr_closed _ Hr v HV Hn) as [He|(u & Hu & Hed)].
    { rewrite Hext in He by done. lia. }
    exists u. rewrite elem_of_difference, elem_of_list_to_set.
    split; [|done]. split; [by destruct Hed|done].
Qed.

(** The whole algorithm from its initial state. *)
Lemma kahn_init (deg : gmap K nat) (w : W) :
  (forall v, deg !! v = if decide (v ∈ V) then Some (total v) else None) ->
  NoDup (wl_items w) ->
  (forall v, v ∈ wl_items w <-> deg !! v = Some 0) ->
  kahn_inv deg w [].
Proof.
  intros Hdeg Hnd Hz. split; simpl; [| |done|done|].
  - intros v. rewrite Hdeg. case_decide; split; naive_solver.
  - intros v d Hv. rewrite Hdeg in Hv. case_decide; simplify_eq. lia.
  - intros l1 v l2 Hl. by destruct l1.
Qed.
End correctness.

(** ** Greedy worklists

    When [pop] returns a [le]-maximal item, every node of the result is maximal
    among those that could have been taken in its place. *)

Section greedy.
Context {K W : Type} `{Countable K} `{!Worklist K W} `{!WorklistLaws K W}.
Context (succs : K -> list K) (V : gset K) (ext : K -> nat).
Context (le : K -> K -> Prop) (Q : W -> Prop).
Hypothesis push_Q : forall w v, Q w -> Q (wl_push w v).
Hypothesis pop_Q : forall w x w', Q w -> wl_pop w = Some (x, w') ->
  Q w' /\ forall y, y ∈ wl_items w -> le y x.

Lemma relax_Q vs (deg deg' : gmap K nat) (w w' : W) :
  relax deg w vs = Some (deg', w') -> Q w -> Q w'.
Proof.
  revert deg w. induction vs as [|v vs IH]; simpl; intros deg w Hr HQ; [by simplify_eq|].
  destruct (relax1 deg w v) as [[d1 w1]|] eqn:E; [|done].
  apply (IH _ _ Hr). unfold relax1 in E. repeat case_match; simplify_eq; auto.
Qed.

(** A node all of whose sources are in the order has in-degree zero. *)
Lemma kahn_inv_enabled (deg : gmap K nat) (w : W) order y :
  kahn_inv succs V ext deg w order -> y ∈ V -> ext y = 0 ->
  (forall u, edge succs V u y -> u ∈ order) -> deg !! y = Some 0.
Proof.
  intros Hi Hy He Hp. destruct (proj2 (ki_dom _ _ _ _ _ _ Hi y) Hy) as [d Hd].
  pose proof (ki_acct _ _ _ _ _ _ Hi y d Hd) as Ha.
  assert (msum succs (elements V) y <= msum succs order y) as Hle.
  { unfold msum.
    assert (forall l, (forall u, u ∈ l -> u ∈ V) -> NoDup l ->
      sum_list_with (fun u => edge_mult succs u y) l =
      sum_list_with (fun u => edge_mult succs u y) (filter (fun u => u ∈ order) l)) as Hf.
    { induction l as [|u l IH]; intros Hl Hnd; simpl; [done|].
      apply NoDup_cons in Hnd as [_ Hnd]. rewrite filter_cons.
      rewrite IH; [|intros; apply Hl; by right|done].
      case_decide as Hu; simpl; [done|].
      assert (edge_mult succs u y = 0); [|lia].
      destruct (decide (edge_mult succs u y = 0)); [done|].
      exfalso. apply Hu, Hp. split_and!; [apply Hl; left|done|].
      apply edge_mult_pos. lia. }
    rewrite Hf; [|intros u; apply elem_of_elements|apply NoDup_elements].
    apply (msum_submseteq succs _ order y). apply NoDup_submseteq.
    - apply NoDup_filter, NoDup_elements.
    - intros u [? _]%list_elem_of_filter. done. }
  rewrite Hd. f_equal. lia.
Qed.

Lemma kahn_loop_greedy fuel (deg : gmap K nat) (w : W) order res :
  kahn_inv succs V ext deg w order -> Q w ->
  kahn_loop succs fuel deg w order = Some res ->
  exists tl, res = order ++ tl /\
  forall l1 v l2 y, tl = l1 ++ v :: l2 -> y ∈ V -> ext y = 0 ->
    y ∉ order ++ l1 -> (forall u, edge succs V u y -> u ∈ order ++ l1) -> le y v.
Proof.
  revert deg w order. induction fuel as [|fuel IH]; simpl; intros deg w order Hi HQ Hl; [done|].
  destruct (wl_pop w) as [[x w']|] eqn:Hpop.
  2:{ simplify_eq. exists []. split; [by rewrite app_nil_r|]. by intros []. }
  destruct (kahn_step _ _ _ _ _ _ _ _ Hi Hpop) as (deg' & w'' & Hr & Hi' & _).
  rewrite Hr in Hl. destruct (pop_Q _ _ _ HQ Hpop) as [HQ' Hmax].
  destruct (IH _ _ _ Hi' (relax_Q _ _ _ _ _ Hr HQ') Hl) as (tl & -> & Htl).
  exists (x :: tl). split; [by rewrite <-app_assoc|].
  intros [|z l1] v l2 y Heq HyV Hext Hny Hpre; simpl in Heq; simplify_eq.
  - apply Hmax. rewrite app_nil_r in *.
    pose proof (kahn_inv_enabled _ _ _ _ Hi HyV Hext Hpre) as H0.
    apply (ki_zero _ _ _ _ _ _ Hi), elem_of_app in H0 as [?|?]; done.
  - eapply (Htl l1 v l2 y); [done|done|done|..]; rewrite <-?app_assoc; simpl; [done|].
    done.
Qed.
End greedy.
