(* ===== verification/Scheduler.v ===== *)
(** * The task scheduler (src/rust-old/src/orchestrator/scheduler.rs, [Scheduler])

    Five FIFO queues indexed by priority, and a dependency graph loaded from a
    [TaskDAG] with Kahn's algorithm over a FIFO worklist.

    Proved: draining the queues yields the stable sort by priority of what was
    enqueued; the topological sort never panics, answers [Ok] exactly on the
    acyclic graphs without dangling prerequisites, and its answer is a
    topological order; a failed load leaves the scheduler as it was; a loaded
    graph never deadlocks. *)

From Stdlib Require Import Sorting.Sorted.
From S2P Require Import Prelude.
From S2P Require Import F64.
From S2P Require Import Resource.
From S2P Require Import Core.
From S2P Require Import Kahn.
From stdpp Require Import base gmap strings list numbers relations.

Record Scheduler := mkScheduler {
  queues : list (list Task);                    (* [VecDeque<Task>; 5] *)
  s_dag_tasks : gmap string Task;
  s_dependents : gmap string (gset string);     (* key -> keys that depend on it *)
  s_dependencies : gmap string (gset string);   (* key -> keys it depends on *)
  id_to_key : gmap Uuid string;
}.

Definition Scheduler_new : Scheduler := mkScheduler [[]; []; []; []; []] ∅ ∅ ∅ ∅.

Definition set_queues (s : Scheduler) (qs : list (list Task)) : Scheduler :=
  mkScheduler qs (s_dag_tasks s) (s_dependents s) (s_dependencies s) (id_to_key s).

(** ** Priority queues *)

Definition enqueue (s : Scheduler) (t : Task) : Scheduler :=
  set_queues s (alter (fun q => q ++ [t]) (tier (priority t)) (queues s)).

(** The loop [for tier in (0..5).rev()] over the tiers still to visit. *)
Fixpoint dequeue_tiers (tiers : list nat) (qs : list (list Task))
    : option (Task * list (list Task)) :=
  match tiers with
  | [] => None
  | i :: rest =>
      match qs !! i with
      | Some (t :: q) => Some (t, <[i:=q]> qs)
      | _ => dequeue_tiers rest qs
      end
  end.

Definition dequeue (s : Scheduler) : option Task * Scheduler :=
  match dequeue_tiers [4; 3; 2; 1; 0] (queues s) with
  | Some (t, qs) => (Some t, set_queues s qs)
  | None => (None, s)
  end.

Definition queued_len (s : Scheduler) : nat := sum_list (map length (queues s)).
Definition queues_empty (s : Scheduler) : bool :=
  forallb (fun q => bool_decide (length q = 0)) (queues s).

(** ** The dependency graph *)

Section dag.
Context `{!HashIter string Task} `{!HashIter string nat}.

Definition insert_edge (m : gmap string (gset string)) (k v : string) : gmap string (gset string) :=
  partial_alter (fun o => Some ({[v]} ∪ default ∅ o)) k m.
Definition or_default (m : gmap string (gset string)) (k : string) : gmap string (gset string) :=
  partial_alter (fun o => Some (default ∅ o)) k m.

(** The adjacency both [load_dag] and [topological_sort] build. *)
Definition build_dependents (dag : TaskDAG) : gmap string (gset string) :=
  foldl (fun m e => insert_edge m e.1 e.2)
    (foldl or_default ∅ (hash_keys (dag_tasks dag))) (edges dag).
Definition build_dependencies (dag : TaskDAG) : gmap string (gset string) :=
  foldl (fun m e => insert_edge m e.2 e.1)
    (foldl or_default ∅ (hash_keys (dag_tasks dag))) (edges dag).

(** [VecDeque]: pop at the front, push at the back. *)
Definition vecdeque_pop (q : list string) : option (string * list string) :=
  match q with [] => None | x :: q => Some (x, q) end.
Definition vecdeque_push (q : list string) (x : string) : list string := q ++ [x].

#[local] Instance vecdeque : Worklist string (list string) :=
  {| wl_pop := vecdeque_pop; wl_push := vecdeque_push; wl_items q := q |}.

Definition in_degrees (tasks : gmap string Task) (deps : gmap string (gset string))
    : gmap string nat :=
  map_imap (fun k _ => Some (match deps !! k with Some s => size s | None => 0 end)) tasks.

(** The successors of a node, sorted; a node without an entry has none. *)
Definition sorted_succs (dependents : gmap string (gset string)) (node : string) : list string :=
  match dependents !! node with
  | Some succs => sort_strings (elements succs)
  | None => []
  end.

(** The nodes of in-degree zero, sorted. *)
Definition initial_queue (in_degree : gmap string nat) : list string :=
  sort_strings (map fst (List.filter (fun kd => bool_decide (kd.2 = 0)) (hash_iter in_degree))).

(** [None] is a panic; [SchedulerDag.topological_sort_spec] shows it never happens. *)
Definition kahn_sort (tasks : gmap string Task)
    (dependents dependencies : gmap string (gset string))
    : option (Result (list string) AgnosaiError) :=
  let in_degree := in_degrees tasks dependencies in
  match kahn_loop (sorted_succs dependents) (S (size tasks)) in_degree
          (initial_queue in_degree) [] with
  | None => None
  | Some order =>
      if bool_decide (length order <> size tasks) then Some (Err CyclicDAG)
      else Some (Ok order)
  end.

Definition topological_sort (dag : TaskDAG) : option (Result (list string) AgnosaiError) :=
  kahn_sort (dag_tasks dag) (build_dependents dag) (build_dependencies dag).

Definition load_dag (s : Scheduler) (dag : TaskDAG)
    : option (Result unit AgnosaiError * Scheduler) :=
  let dependents := build_dependents dag in
  let dependencies := build_dependencies dag in
  match kahn_sort (dag_tasks dag) dependents dependencies with
  | None => None
  | Some (Err e) => Some (Err e, s)
  | Some (Ok _) =>
      let ids := foldl (fun m kt => <[task_id kt.2 := kt.1]> m) ∅ (hash_iter (dag_tasks dag)) in
      Some (Ok tt, mkScheduler (queues s) (dag_tasks dag) dependents dependencies ids)
  end.

Definition completed_keys (s : Scheduler) (completed : gset Uuid) : gset string :=
  list_to_set (omap (fun id => id_to_key s !! id) (elements completed)).

Definition is_ready (s : Scheduler) (completed : gset Uuid) (kt : string * Task) : bool :=
  bool_decide (task_id kt.2 ∉ completed) &&
  match s_dependencies s !! kt.1 with
  | Some deps => bool_decide (deps ⊆ completed_keys s completed)
  | None => true
  end.

(** [sort_by_key(|t| Reverse(t.priority))]. *)
Definition priority_ge (a b : Task) : bool := (tier (priority b) <=? tier (priority a))%nat.

Definition ready_tasks (s : Scheduler) (completed : gset Uuid) : list Task :=
  sort_by priority_ge (map snd (List.filter (is_ready s completed) (hash_iter (s_dag_tasks s)))).
End dag.

(** ** The queues refine a stable priority queue *)

(** The invariant: five tiers, each holding tasks of its own priority. *)
Definition queues_wf (s : Scheduler) : Prop :=
  length (queues s) = 5 /\
  forall i q t, queues s !! i = Some q -> t ∈ q -> tier (priority t) = i.

(** The order in which the queues would be drained. *)
Definition backlog (s : Scheduler) : list Task := concat (reverse (queues s)).

Lemma queues_wf_new : queues_wf Scheduler_new.
Proof.
  split; [done|]. intros i q t Hi Ht.
  destruct i as [|[|[|[|[|i]]]]]; simpl in Hi; simplify_eq; by apply not_elem_of_nil in Ht.
Qed.

Lemma enqueue_wf s t : queues_wf s -> queues_wf (enqueue s t).
Proof.
  intros [Hl Hq]. split; simpl; [by rewrite length_alter|].
  intros i q u Hi Hu. destruct (decide (tier (priority t) = i)) as [<-|Hne].
  - rewrite list_lookup_alter_eq in Hi.
    destruct (queues s !! tier (priority t)) as [q'|] eqn:E; simplify_eq/=.
    apply elem_of_app in Hu as [Hu|Hu]; [by eapply Hq|].
    by apply list_elem_of_singleton in Hu as ->.
  - rewrite list_lookup_alter_ne in Hi by done. by eapply Hq.
Qed.

Lemma queues_five s : length (queues s) = 5 ->
  exists q0 q1 q2 q3 q4, queues s = [q0; q1; q2; q3; q4].
Proof.
  intros Hl. destruct (queues s) as [|q0 [|q1 [|q2 [|q3 [|q4 [|]]]]]]; simpl in Hl; try lia.
  by exists q0, q1, q2, q3, q4.
Qed.

(** [dequeue] takes the head of the backlog. *)
Lemma dequeue_backlog s :
  queues_wf s ->
  match backlog s with
  | [] => dequeue s = (None, s)
  | t :: rest => exists s', dequeue s = (Some t, s') /\ backlog s' = rest /\ queues_wf s'
  end.
Proof.
  intros [Hl Hq]. destruct (queues_five s Hl) as (q0 & q1 & q2 & q3 & q4 & Heq).
  unfold dequeue, backlog. rewrite Heq. simpl.
  assert (forall i q q' t, queues s !! i = Some (t :: q') -> q = q' ->
    queues_wf (set_queues s (<[i:=q]> (queues s)))) as Hwf.
  { intros i q q' t Hi ->. split; simpl; [by rewrite length_insert|].
    intros j qj u Hj Hu. destruct (decide (i = j)) as [<-|Hne].
    - rewrite list_lookup_insert_eq in Hj by (by eapply lookup_lt_Some). simplify_eq.
      eapply Hq; [done|by right].
    - rewrite list_lookup_insert_ne in Hj by done. by eapply Hq. }
  rewrite Heq in Hwf.
  destruct q4 as [|t q4]; simpl.
  2: { eexists. split_and!; [done|done|]. by apply (Hwf 4 q4 q4 t). }
  destruct q3 as [|t q3]; simpl.
  2: { eexists. split_and!; [done|done|]. by apply (Hwf 3 q3 q3 t). }
  destruct q2 as [|t q2]; simpl.
  2: { eexists. split_and!; [done|done|]. by apply (Hwf 2 q2 q2 t). }
  destruct q1 as [|t q1]; simpl.
  2: { eexists. split_and!; [done|done|]. by apply (Hwf 1 q1 q1 t). }
  destruct q0 as [|t q0]; simpl; [done|].
  eexists. split_and!; [done|done|]. by apply (Hwf 0 q0 q0 t).
Qed.

(** Calls of [dequeue] until the queues are empty. *)
Fixpoint drain (fuel : nat) (s : Scheduler) : list Task :=
  match fuel with
  | 0 => []
  | S fuel => match dequeue s with (Some t, s') => t :: drain fuel s' | (None, _) => [] end
  end.

Lemma drain_backlog n s :
  queues_wf s -> length (backlog s) <= n -> drain n s = backlog s.
Proof.
  revert s. induction n as [|n IH]; intros s Hwf Hl; simpl.
  { destruct (backlog s); simpl in Hl; [done|lia]. }
  pose proof (dequeue_backlog s Hwf) as Hd. destruct (backlog s) as [|t rest].
  - by rewrite Hd.
  - destruct Hd as (s' & -> & Hb & Hwf'). f_equal. rewrite <-Hb. apply IH; [done|].
    rewrite Hb. simpl in Hl. lia.
Qed.

Definition of_tier (i : nat) (l : list Task) : list Task :=
  List.filter (fun t => bool_decide (tier (priority t) = i)) l.

Lemma of_tier_snoc i l t :
  of_tier i (l ++ [t]) = of_tier i l ++ (if decide (tier (priority t) = i) then [t] else []).
Proof.
  unfold of_tier. rewrite List.filter_app. simpl. case_bool_decide; case_decide; done.
Qed.

Lemma of_tier_cons i l t :
  of_tier i (t :: l) = (if decide (tier (priority t) = i) then [t] else []) ++ of_tier i l.
Proof. unfold of_tier. simpl. case_bool_decide; case_decide; done. Qed.

Lemma elem_of_of_tier i l t : t ∈ of_tier i l -> tier (priority t) = i.
Proof. rewrite list_elem_of_In. intros [_ Ht]%filter_In. by apply bool_decide_eq_true in Ht. Qed.

Lemma enqueue_all_queues ts :
  queues (foldl enqueue Scheduler_new ts) =
  [of_tier 0 ts; of_tier 1 ts; of_tier 2 ts; of_tier 3 ts; of_tier 4 ts].
Proof.
  induction ts as [|t ts IH] using rev_ind; [done|].
  rewrite foldl_app. simpl. rewrite IH, !of_tier_snoc.
  destruct (priority t); simpl; rewrite ?app_nil_r; done.
Qed.

Lemma sort_insert_skip {A} (le : A -> A -> bool) x l1 l2 :
  (forall y, y ∈ l1 -> le x y = false) ->
  sort_insert le x (l1 ++ l2) = l1 ++ sort_insert le x l2.
Proof.
  induction l1 as [|y l1 IH]; intros Hy; simpl; [done|].
  rewrite Hy by left. f_equal. apply IH. intros z Hz. apply Hy. by right.
Qed.

Lemma sort_insert_stop {A} (le : A -> A -> bool) x l :
  (forall y, y ∈ l -> le x y = true) -> sort_insert le x l = x :: l.
Proof. destruct l as [|y l]; intros Hy; simpl; [done|]. by rewrite Hy by left. Qed.

(** A stable sort by descending priority groups the tiers. *)
Lemma sort_priority_tiers ts :
  sort_by priority_ge ts =
  of_tier 4 ts ++ of_tier 3 ts ++ of_tier 2 ts ++ of_tier 1 ts ++ of_tier 0 ts.
Proof.
  induction ts as [|t ts IH]; [done|].
  change (sort_by priority_ge (t :: ts)) with (sort_insert priority_ge t (sort_by priority_ge ts)).
  rewrite IH.
  assert (forall i y, y ∈ of_tier i ts -> priority_ge t y = (i <=? tier (priority t))%nat) as Hge.
  { intros i y Hy. unfold priority_ge. by rewrite (elem_of_of_tier _ _ _ Hy). }
  rewrite !of_tier_cons. destruct (priority t) eqn:Hp; simpl in *;
    repeat (rewrite sort_insert_skip by (intros y Hy; by rewrite (Hge _ _ Hy)); f_equal);
    (rewrite sort_insert_stop; [done|]);
    intros y; rewrite ?elem_of_app; naive_solver.
Qed.

(** [C4] Enqueueing any sequence of tasks and then dequeueing until the queues
    are empty yields the tasks sorted by descending priority, stably: higher
    tiers first, first in first out within a tier, nothing lost or duplicated. *)
Theorem drain_is_stable_sort ts :
  drain (length ts) (foldl enqueue Scheduler_new ts) = sort_by priority_ge ts.
Proof.
  assert (forall l s, queues_wf s -> queues_wf (foldl enqueue s l)) as Hwf.
  { induction l as [|t l IH]; intros s Hs; [done|]. by apply IH, enqueue_wf. }
  assert (backlog (foldl enqueue Scheduler_new ts) = sort_by priority_ge ts) as Hb.
  { unfold backlog. rewrite enqueue_all_queues, sort_priority_tiers. simpl.
    by rewrite app_nil_r. }
  rewrite <-Hb. apply drain_backlog; [apply Hwf, queues_wf_new|].
  by rewrite Hb, length_sort_by.
Qed.

Lemma of_tier_all i q : (forall t, t ∈ q -> tier (priority t) = i) -> of_tier i q = q.
Proof.
  unfold of_tier. induction q as [|t q IH]; intros Hq; simpl; [done|].
  rewrite bool_decide_eq_true_2 by (apply Hq; left). f_equal. apply IH.
  intros u Hu. apply Hq. by right.
Qed.

Lemma of_tier_none i j q :
  (forall t, t ∈ q -> tier (priority t) = j) -> i <> j -> of_tier i q = [].
Proof.
  intros Hq Hij. unfold of_tier. induction q as [|t q IH]; simpl; [done|].
  rewrite bool_decide_eq_false_2 by (rewrite Hq by left; done). apply IH.
  intros u Hu. apply Hq. by right.
Qed.

(** The backlog of well-formed queues is sorted: sorting it changes nothing. *)
Lemma backlog_sorted s : queues_wf s ->
  StronglySorted (fun a b => priority_ge a b = true) (backlog s).
Proof.
  intros [Hl Hq]. destruct (queues_five s Hl) as (q0 & q1 & q2 & q3 & q4 & Heq).
  assert (backlog s = sort_by priority_ge (backlog s)) as ->.
  { rewrite sort_priority_tiers. unfold backlog. rewrite Heq in Hq |- *. simpl.
    rewrite app_nil_r. unfold of_tier. rewrite !List.filter_app.
    pose proof (fun t => Hq 0 q0 t eq_refl). pose proof (fun t => Hq 1 q1 t eq_refl).
    pose proof (fun t => Hq 2 q2 t eq_refl). pose proof (fun t => Hq 3 q3 t eq_refl).
    pose proof (fun t => Hq 4 q4 t eq_refl). clear Hq.
    repeat match goal with
    | |- context [List.filter (fun t => bool_decide (tier (priority t) = ?i)) ?q] =>
        change (List.filter (fun t => bool_decide (tier (priority t) = i)) q) with (of_tier i q);
        first [rewrite (of_tier_all i q) by assumption
              |rewrite (of_tier_none i _ q) by (eassumption || lia)]
    end; rewrite ?app_nil_r, ?app_nil_l; simpl; by rewrite ?app_nil_r. }
  apply (sort_by_sorted priority_ge (fun _ => True)); [| |by apply Forall_true].
  - intros x y _ _. unfold priority_ge. rewrite !Nat.leb_le. lia.
  - intros x y z _ _ _. unfold priority_ge. rewrite !Nat.leb_le. lia.
Qed.

(** Between any two operations, [dequeue] returns a task of maximal
    priority, the longest queued one of its tier, and removes only that one. *)
Theorem dequeue_highest s t s' :
  queues_wf s -> dequeue s = (Some t, s') ->
  queues_wf s' /\ backlog s = t :: backlog s' /\
  (forall u, u ∈ backlog s' -> tier (priority u) <= tier (priority t)).
Proof.
  intros Hwf Hd. pose proof (dequeue_backlog s Hwf) as Hb.
  pose proof (backlog_sorted s Hwf) as Hs.
  destruct (backlog s) as [|t' rest]; [congruence|].
  destruct Hb as (s'' & Hd' & Hr & Hwf'). rewrite Hd' in Hd. simplify_eq.
  split_and!; [done|done|]. intros u Hu.
  apply StronglySorted_inv in Hs as [_ Hall]. rewrite Forall_forall in Hall.
  specialize (Hall u Hu). by apply Nat.leb_le in Hall.
Qed.

Definition three_tasks : Scheduler :=
  foldl enqueue Scheduler_new
    [Task_new 1 "a"; with_priority (Task_new 2 "b") High; with_priority (Task_new 3 "c") High].

Lemma dequeue_highest_witness :
  (dequeue three_tasks).1 = Some (with_priority (Task_new 2 "b") High) /\
  queues_wf (dequeue three_tasks).2.
Proof.
  split; [reflexivity|].
  refine (proj1 (dequeue_highest three_tasks (with_priority (Task_new 2 "b") High) _ _ _));
    [|reflexivity].
  apply enqueue_wf, enqueue_wf, enqueue_wf, queues_wf_new.
Defined.
