(* ===== verification/SchedulerDag.v ===== *)
(** * Theorems on the dependency graph of the scheduler

    Correctness, completeness and totality of [topological_sort] and
    [load_dag], and the behaviour of [ready_tasks] on a loaded graph. *)

From Stdlib Require Import Sorting.Sorted.
From S2P Require Import Prelude.
From S2P Require Import F64.
From S2P Require Import Resource.
From S2P Require Import Core.
From S2P Require Import Kahn.
From S2P Require Import Scheduler.
From stdpp Require Import base gmap strings list numbers relations fin_sets.

(** ** What the graph of a [TaskDAG] means *)

(** An edge between two tasks of the DAG. *)
Definition dag_edge (dag : TaskDAG) (u v : string) : Prop :=
  (u, v) ∈ edges dag /\ u ∈ dom (dag_tasks dag) /\ v ∈ dom (dag_tasks dag).

(** No task waits for a key that is not a task, and no task waits for itself. *)
Definition dag_valid (dag : TaskDAG) : Prop :=
  (forall u v, (u, v) ∈ edges dag -> v ∈ dom (dag_tasks dag) -> u ∈ dom (dag_tasks dag)) /\
  forall v, ~ tc (dag_edge dag) v v.

(** [order] lists the tasks once, each after everything it depends on. *)
Definition executes_in_order (dag : TaskDAG) (order : list string) : Prop :=
  NoDup order /\ (forall k, k ∈ order <-> k ∈ dom (dag_tasks dag)) /\
  forall l1 v l2 u, order = l1 ++ v :: l2 -> (u, v) ∈ edges dag -> u ∈ l1.

#[local] Existing Instance vecdeque.

#[local] Instance vecdeque_laws : WorklistLaws string (list string).
Proof.
  split; simpl.
  - by intros [].
  - intros [|y w] x w' H; simpl in H; simplify_eq; done.
  - intros w x. unfold vecdeque_push. by rewrite Permutation_app_comm.
Qed.

Section graph.
Context `{!HashIter string Task} `{!HashIter string nat}.
Implicit Types dag : TaskDAG.

Lemma foldl_or_default_empty ks k :
  default (∅ : gset string) (foldl or_default ∅ ks !! k) = ∅.
Proof.
  assert (forall m : gmap string (gset string),
    default ∅ (m !! k) = (∅ : gset string) -> default ∅ (foldl or_default m ks !! k) = (∅ : gset string)) as H.
  { induction ks as [|k' ks IH]; intros m Hm; [done|]. apply IH. unfold or_default.
    destruct (decide (k' = k)) as [->|].
    - by rewrite lookup_partial_alter_eq.
    - by rewrite lookup_partial_alter_ne. }
  by apply H.
Qed.

Lemma insert_edges_lookup (f : string * string -> string * string) es (m : gmap string (gset string)) k v :
  v ∈ default ∅ (foldl (fun m e => insert_edge m (f e).1 (f e).2) m es !! k) <->
  v ∈ default ∅ (m !! k) \/ (k, v) ∈ map f es.
Proof.
  revert m. induction es as [|e es IH]; intros m; simpl.
  { rewrite elem_of_nil. tauto. }
  rewrite IH, elem_of_cons. unfold insert_edge. destruct (f e) as [a b]; simpl.
  destruct (decide (a = k)) as [->|Hne].
  - rewrite lookup_partial_alter_eq. simpl. rewrite elem_of_union, elem_of_singleton.
    split; [|naive_solver]. intros [[->|?]|?]; auto.
  - rewrite lookup_partial_alter_ne by done. naive_solver.
Qed.

Lemma build_dependents_lookup dag k v :
  v ∈ default ∅ (build_dependents dag !! k) <-> (k, v) ∈ edges dag.
Proof.
  unfold build_dependents. rewrite (insert_edges_lookup id), foldl_or_default_empty.
  rewrite map_id. set_solver.
Qed.

Lemma build_dependencies_lookup dag k v :
  v ∈ default ∅ (build_dependencies dag !! k) <-> (v, k) ∈ edges dag.
Proof.
  unfold build_dependencies.
  rewrite (insert_edges_lookup (fun e => (e.2, e.1))), foldl_or_default_empty.
  rewrite list_elem_of_fmap. split.
  - intros [?|([a b] & [= -> ->] & ?)]; [set_solver|done].
  - intros Hin. right. by exists (v, k).
Qed.

Lemma sorted_succs_spec dag u v :
  v ∈ sorted_succs (build_dependents dag) u <-> (u, v) ∈ edges dag.
Proof.
  rewrite <-build_dependents_lookup. unfold sorted_succs.
  destruct (build_dependents dag !! u); simpl; [|set_solver].
  unfold sort_strings. by rewrite elem_of_sort_by, elem_of_elements.
Qed.

Lemma sorted_succs_NoDup m u : NoDup (sorted_succs m u).
Proof.
  unfold sorted_succs. case_match; [|constructor].
  rewrite sort_strings_perm. apply NoDup_elements.
Qed.

Lemma sorted_succs_mult dag u v :
  edge_mult (sorted_succs (build_dependents dag)) u v =
  if decide ((u, v) ∈ edges dag) then 1 else 0.
Proof.
  pose proof (sorted_succs_spec dag u v) as Hs.
  pose proof (sorted_succs_NoDup (build_dependents dag) u) as Hnd.
  unfold edge_mult, count_in. set (l := sorted_succs _ u) in *. clearbody l.
  case_decide as He; rewrite <-Hs in He; clear Hs.
  - apply list_elem_of_split in He as (l1 & l2 & ->).
    apply NoDup_app in Hnd as (_ & H1 & [H2 _]%NoDup_cons).
    rewrite filter_app, filter_cons_True by done.
    assert (forall l, v ∉ l -> filter (fun x => x = v) l = []) as Hn.
    { intros l Hl. apply list_filter_none. intros x Hx ->. done. }
    rewrite !Hn; [done|done|]. intros Hv. apply (H1 v Hv). left.
  - replace (filter (fun x => x = v) l) with (@nil string); [done|]. symmetry.
    apply list_filter_none. intros x Hx ->. done.
Qed.

(** In-degree contributed by edges whose source is not a task. *)
Definition dangling dag (v : string) : nat :=
  size (default ∅ (build_dependencies dag !! v) ∖ dom (dag_tasks dag)).

Lemma sum_ite_filter {A} (P : A -> Prop) `{forall x, Decision (P x)} l :
  sum_list_with (fun x => if decide (P x) then 1 else 0) l = length (filter P l).
Proof. induction l as [|x l IH]; simpl; [done|]. rewrite filter_cons. case_decide; simpl; lia. Qed.

Lemma msum_known dag v :
  msum (sorted_succs (build_dependents dag)) (elements (dom (dag_tasks dag))) v =
  size (default ∅ (build_dependencies dag !! v) ∩ dom (dag_tasks dag)).
Proof.
  unfold msum. set (l := elements (dom (dag_tasks dag))).
  assert (sum_list_with (fun u => edge_mult (sorted_succs (build_dependents dag)) u v) l =
          length (filter (fun u => (u, v) ∈ edges dag) l)) as ->.
  { rewrite <-sum_ite_filter. clearbody l. induction l as [|u l IH]; simpl; [done|].
    by rewrite IH, sorted_succs_mult. }
  unfold size, set_size; simpl. apply Permutation_length, NoDup_Permutation.
  - apply NoDup_filter, NoDup_elements.
  - apply NoDup_elements.
  - intros u. subst l. rewrite list_elem_of_filter, !elem_of_elements, elem_of_intersection.
    by rewrite build_dependencies_lookup.
Qed.

Lemma in_degrees_lookup dag v :
  in_degrees (dag_tasks dag) (build_dependencies dag) !! v =
  if decide (v ∈ dom (dag_tasks dag)) then
    Some (dangling dag v +
          msum (sorted_succs (build_dependents dag)) (elements (dom (dag_tasks dag))) v)
  else None.
Proof.
  unfold in_degrees. rewrite map_lookup_imap.
  destruct (dag_tasks dag !! v) as [t|] eqn:Ht; simpl.
  - rewrite decide_True by (apply elem_of_dom; eauto). f_equal.
    rewrite msum_known. unfold dangling.
    set (D := dom (dag_tasks dag)). set (X := default ∅ (build_dependencies dag !! v)).
    assert (match build_dependencies dag !! v with Some s => size s | None => 0 end = size X) as ->.
    { subst X. by destruct (build_dependencies dag !! v). }
    rewrite <-size_union by set_solver.
    f_equal. apply leibniz_equiv. intros x. rewrite elem_of_union, elem_of_difference, elem_of_intersection.
    destruct (decide (x ∈ D)); tauto.
  - rewrite decide_False; [done|]. by apply not_elem_of_dom.
Qed.

Lemma initial_queue_spec dag v :
  let deg := in_degrees (dag_tasks dag) (build_dependencies dag) in
  v ∈ initial_queue deg <-> deg !! v = Some 0.
Proof.
  intros deg. unfold initial_queue, sort_strings. rewrite elem_of_sort_by, list_elem_of_fmap. split.
  - intros ([k d] & -> & Hin). apply elem_of_List_filter in Hin as [Hin Hd].
    apply elem_of_hash_iter in Hin. apply bool_decide_eq_true in Hd.
    simpl in *. by subst.
  - intros Hv. exists (v, 0). split; [done|]. apply elem_of_List_filter.
    split; [|done]. by apply elem_of_hash_iter.
Qed.

Lemma NoDup_fst_filter {A B} (f : A * B -> bool) (l : list (A * B)) :
  NoDup l.*1 -> NoDup (map fst (List.filter f l)).
Proof.
  induction l as [|x l IH]; simpl; intros Hnd; [constructor|].
  apply NoDup_cons in Hnd as [Hx Hnd]. case_match; [|by apply IH].
  simpl. constructor; [|by apply IH]. intros Hin. apply Hx.
  apply list_elem_of_fmap in Hin as (y & -> & Hy). apply list_elem_of_fmap.
  exists y. split; [done|]. by apply elem_of_List_filter in Hy as [Hy _].
Qed.

Lemma initial_queue_NoDup (deg : gmap string nat) : NoDup (initial_queue deg).
Proof.
  unfold initial_queue. rewrite sort_strings_perm. apply NoDup_fst_filter.
  apply NoDup_hash_keys.
Qed.

(** The loop of [kahn_sort] always ends, with the order the abstract
    algorithm promises. *)
Lemma kahn_sort_loop dag :
  exists order,
    kahn_loop (sorted_succs (build_dependents dag)) (S (size (dag_tasks dag)))
      (in_degrees (dag_tasks dag) (build_dependencies dag))
      (initial_queue (in_degrees (dag_tasks dag) (build_dependencies dag))) [] = Some order /\
    kahn_result (sorted_succs (build_dependents dag)) (dom (dag_tasks dag)) (dangling dag) order.
Proof.
  apply (kahn_loop_total (W := list string)); [|rewrite size_dom; simpl; lia].
  apply kahn_init.
  - intros v. apply in_degrees_lookup.
  - apply initial_queue_NoDup.
  - intros v. apply initial_queue_spec.
Qed.

Lemma dangling_zero dag :
  (forall v, v ∈ dom (dag_tasks dag) -> dangling dag v = 0) <->
  (forall u v, (u, v) ∈ edges dag -> v ∈ dom (dag_tasks dag) -> u ∈ dom (dag_tasks dag)).
Proof.
  unfold dangling. split.
  - intros H u v He Hv. specialize (H v Hv). apply size_empty_inv in H.
    destruct (decide (u ∈ dom (dag_tasks dag))); [done|].
    apply build_dependencies_lookup in He. set_solver.
  - intros H v Hv. apply size_empty_iff. intros u. rewrite elem_of_difference.
    rewrite build_dependencies_lookup. split; [|set_solver]. intros [He Hn].
    exfalso. eauto.
Qed.

Lemma dag_edge_equiv dag u v :
  edge (sorted_succs (build_dependents dag)) (dom (dag_tasks dag)) u v <-> dag_edge dag u v.
Proof. unfold edge, dag_edge. rewrite sorted_succs_spec. tauto. Qed.

Lemma dag_acyclic_equiv dag :
  acyclic (sorted_succs (build_dependents dag)) (dom (dag_tasks dag)) <->
  forall v, ~ tc (dag_edge dag) v v.
Proof.
  unfold acyclic.
  assert (forall v w, tc (edge (sorted_succs (build_dependents dag)) (dom (dag_tasks dag))) v w
                      <-> tc (dag_edge dag) v w) as Htc.
  { intros v w. split; (induction 1 as [a b Hab|a b c Hab _ IH];
      [apply tc_once|eapply tc_l; [|exact IH]]); by apply dag_edge_equiv. }
  by setoid_rewrite Htc.
Qed.

(** The two facts everything else follows from: the answer is never a
    panic, and it is [Ok] of an execution order exactly on valid graphs. *)
Lemma topological_sort_spec dag :
  (exists order, topological_sort dag = Some (Ok order) /\
     executes_in_order dag order /\ dag_valid dag) \/
  (topological_sort dag = Some (Err CyclicDAG) /\ ~ dag_valid dag).
Proof.
  unfold topological_sort, kahn_sort.
  destruct (kahn_sort_loop dag) as (order & -> & Hr).
  case_bool_decide as Hlen.
  - right. split; [done|]. intros [Hd Hc]. apply Hlen. rewrite <-size_dom.
    eapply kahn_result_full; [done| |].
    + by apply dag_acyclic_equiv.
    + by apply dangling_zero.
  - left. exists order. split; [done|]. assert (length order = size (dom (dag_tasks dag))) as Hl.
    { rewrite size_dom. by destruct (decide (length order = size (dag_tasks dag))). }
    destruct (kahn_result_sound _ _ _ _ Hr Hl) as [Ht Hext].
    pose proof (proj1 (dangling_zero dag) Hext) as Hd.
    split.
    + destruct Ht as (Hnd & Hm & Hp). split_and!; [done|done|].
      intros l1 v l2 u Heq He. apply (Hp l1 v l2 Heq), dag_edge_equiv.
      assert (v ∈ dom (dag_tasks dag)) by (apply Hm; rewrite Heq; set_solver).
      split_and!; eauto.
    + split; [done|]. apply dag_acyclic_equiv. by eapply topological_acyclic.
Qed.
End graph.

(** ** Topological sort *)

Section sort_theorems.
Context `{!HashIter string Task} `{!HashIter string nat}.
Implicit Types dag : TaskDAG.

(** [C2] Whatever order [topological_sort] returns, it lists every task of
    the DAG exactly once, and each task after all the keys it has an edge
    from. *)
Theorem topological_sort_sound dag order :
  topological_sort dag = Some (Ok order) -> executes_in_order dag order.
Proof.
  intros H. destruct (topological_sort_spec dag) as [(o & Ho & ? & _)|[He _]]; congruence.
Qed.

(** [C20] [topological_sort] never panics (the in-degree counters never
    underflow and the loop ends) and succeeds exactly on the valid graphs: no
    dependency cycle and no edge from an unknown key into a task. *)
Theorem topological_sort_complete dag :
  (dag_valid dag -> exists order, topological_sort dag = Some (Ok order)) /\
  (~ dag_valid dag -> topological_sort dag = Some (Err CyclicDAG)).
Proof.
  destruct (topological_sort_spec dag) as [(o & Ho & _ & Hv)|[He Hv]]; naive_solver.
Qed.

(** An edge from a key that is no task is reported as [CyclicDAG], even
    when the graph has no cycle. *)
Theorem dangling_edge_is_cyclic dag u v :
  (u, v) ∈ edges dag -> v ∈ dom (dag_tasks dag) -> u ∉ dom (dag_tasks dag) ->
  topological_sort dag = Some (Err CyclicDAG).
Proof.
  intros He Hv Hu. destruct (topological_sort_spec dag) as [(o & _ & _ & [Hd _])|[-> _]]; [|done].
  exfalso. eauto.
Qed.

(** ** Loading and scheduling a graph *)

(** A rejected DAG leaves the scheduler as it was; an accepted one
    replaces the graph and keeps the priority queues. *)
Theorem load_dag_atomic s dag :
  (dag_valid dag -> exists s', load_dag s dag = Some (Ok tt, s') /\
     s_dag_tasks s' = dag_tasks dag /\ queues s' = queues s) /\
  (~ dag_valid dag -> load_dag s dag = Some (Err CyclicDAG, s)).
Proof.
  unfold load_dag. pose proof (topological_sort_spec dag) as Hs.
  unfold topological_sort in Hs. split; intros Hv.
  - destruct Hs as [(o & -> & _)|[_ ?]]; [|done]. by eexists.
  - destruct Hs as [(o & _ & _ & ?)|[-> _]]; done.
Qed.

Definition loaded (s : Scheduler) dag : Prop :=
  exists s0, load_dag s0 dag = Some (Ok tt, s).

Definition unique_ids dag : Prop :=
  forall k1 k2 t1 t2, dag_tasks dag !! k1 = Some t1 -> dag_tasks dag !! k2 = Some t2 ->
    task_id t1 = task_id t2 -> k1 = k2.

Lemma loaded_fields s dag :
  loaded s dag ->
  dag_valid dag /\ s_dag_tasks s = dag_tasks dag /\
  s_dependencies s = build_dependencies dag /\
  id_to_key s = foldl (fun m kt => <[task_id kt.2 := kt.1]> m) ∅ (hash_iter (dag_tasks dag)).
Proof.
  intros [s0 Hl]. unfold load_dag in Hl. pose proof (topological_sort_spec dag) as Hs.
  unfold topological_sort in Hs.
  destruct Hs as [(o & Hk & _ & Hv)|[Hk _]]; rewrite Hk in Hl; by simplify_eq.
Qed.

Lemma ids_lookup (l : list (string * Task)) (m : gmap Uuid string) id k :
  foldl (fun m kt => <[task_id kt.2 := kt.1]> m) m l !! id = Some k ->
  m !! id = Some k \/ exists t, (k, t) ∈ l /\ task_id t = id.
Proof.
  revert m. induction l as [|[k' t'] l IH]; intros m; simpl; [by left|].
  intros [Hm|(t & Hin & Ht)]%IH.
  - destruct (decide (task_id t' = id)) as [Hid|Hid].
    + rewrite Hid, lookup_insert_eq in Hm. simplify_eq. right. exists t'. split; [left|done].
    + rewrite lookup_insert_ne in Hm by done. by left.
  - right. exists t. split; [by right|done].
Qed.

Lemma ids_lookup_is_Some (l : list (string * Task)) (m : gmap Uuid string) id :
  is_Some (m !! id) \/ (exists k t, (k, t) ∈ l /\ task_id t = id) ->
  is_Some (foldl (fun m kt => <[task_id kt.2 := kt.1]> m) m l !! id).
Proof.
  revert m. induction l as [|[k' t'] l IH]; intros m; simpl.
  { intros [?|(k & t & Hin & _)]; [done|by apply not_elem_of_nil in Hin]. }
  intros H. apply IH. destruct (decide (task_id t' = id)) as [<-|Hne].
  { left. rewrite lookup_insert_eq. eauto. }
  destruct H as [?|(k & t & Hin & Ht)].
  - left. by rewrite lookup_insert_ne.
  - apply elem_of_cons in Hin as [[= -> ->]|Hin]; [done|]. right. eauto.
Qed.

(** With distinct task ids, a key counts as completed exactly when the id of
    its task is. *)
Lemma completed_keys_spec s dag (completed : gset Uuid) k :
  loaded s dag -> unique_ids dag ->
  k ∈ completed_keys s completed <->
  exists t, dag_tasks dag !! k = Some t /\ task_id t ∈ completed.
Proof.
  intros (_ & _ & _ & Hid)%loaded_fields Hu. unfold completed_keys. rewrite Hid.
  rewrite elem_of_list_to_set, list_elem_of_omap. split.
  - intros (id & Hin & Hl). apply ids_lookup in Hl as [Hl|(t & Ht & <-)]; [by rewrite lookup_empty in Hl|].
    apply elem_of_hash_iter in Ht. exists t. split; [done|]. by apply elem_of_elements.
  - intros (t & Ht & Hc). exists (task_id t). split; [by apply elem_of_elements|].
    destruct (ids_lookup_is_Some (hash_iter (dag_tasks dag)) ∅ (task_id t)) as [k' Hk'].
    { right. exists k, t. split; [|done]. by apply elem_of_hash_iter. }
    rewrite Hk'. f_equal. apply ids_lookup in Hk' as [Hl|(t' & Ht' & Heq)];
      [by rewrite lookup_empty in Hl|].
    apply elem_of_hash_iter in Ht'. symmetry. by eapply Hu.
Qed.

Lemma ready_tasks_elem s dag (completed : gset Uuid) t :
  loaded s dag -> unique_ids dag ->
  t ∈ ready_tasks s completed <->
  exists k, dag_tasks dag !! k = Some t /\ (task_id t ∉ completed) /\
    forall u, (u, k) ∈ edges dag ->
      exists tu, dag_tasks dag !! u = Some tu /\ task_id tu ∈ completed.
Proof.
  intros Hl Hu. pose proof (loaded_fields _ _ Hl) as (_ & Ht & Hd & _).
  unfold ready_tasks. rewrite elem_of_sort_by, list_elem_of_fmap.
  assert (forall k, (match s_dependencies s !! k with
                     | Some deps => bool_decide (deps ⊆ completed_keys s completed)
                     | None => true end = true) <->
     forall u, (u, k) ∈ edges dag -> exists tu, dag_tasks dag !! u = Some tu /\ task_id tu ∈ completed) as Hdeps.
  { intros k. setoid_rewrite <-(completed_keys_spec s dag completed _ Hl Hu).
    setoid_rewrite <-build_dependencies_lookup. rewrite Hd.
    destruct (build_dependencies dag !! k) as [deps|]; simpl; [|set_solver].
    rewrite bool_decide_eq_true. set_solver. }
  unfold is_ready. split.
  - intros ([k t'] & -> & Hin). simpl in *.
    apply elem_of_List_filter in Hin as [Hin Hr]. apply elem_of_hash_iter in Hin.
    rewrite Ht in Hin. simpl in Hr. apply andb_true_iff in Hr as [Hc Hds].
    apply bool_decide_eq_true in Hc. exists k. split_and!; [done|done|]. by apply Hdeps.
  - intros (k & Hk & Hc & Hds). exists (k, t). split; [done|]. apply elem_of_List_filter.
    split; [apply elem_of_hash_iter; by rewrite Ht|]. simpl.
    rewrite bool_decide_eq_true_2 by done. simpl. by apply Hdeps.
Qed.

(** On a loaded DAG with distinct task ids, [ready_tasks] returns exactly
    the unfinished tasks all of whose prerequisites are finished, sorted by
    descending priority. *)
Theorem ready_tasks_correct s dag completed :
  loaded s dag -> unique_ids dag ->
  (forall t, t ∈ ready_tasks s completed <->
     exists k, dag_tasks dag !! k = Some t /\ (task_id t ∉ completed) /\
       forall u, (u, k) ∈ edges dag ->
         exists tu, dag_tasks dag !! u = Some tu /\ task_id tu ∈ completed) /\
  StronglySorted (fun a b => tier (priority b) <= tier (priority a)) (ready_tasks s completed).
Proof.
  intros Hl Hu. split; [intros t; by apply ready_tasks_elem|].
  assert (StronglySorted (fun a b => priority_ge a b = true) (ready_tasks s completed)) as Hs.
  { apply (sort_by_sorted priority_ge (fun _ => True)); [| |by apply Forall_true];
      intros; unfold priority_ge in *; rewrite !Nat.leb_le in *; lia. }
  induction Hs as [|a l _ IH Ha]; constructor; [done|].
  eapply Forall_impl; [exact Ha|]. intros b Hb. by apply Nat.leb_le in Hb.
Qed.

(** No deadlock: as long as a task of a loaded DAG is unfinished, some
    task is ready. *)
Theorem ready_tasks_progress s dag completed k t :
  loaded s dag -> unique_ids dag ->
  dag_tasks dag !! k = Some t -> task_id t ∉ completed ->
  ready_tasks s completed <> [].
Proof.
  intros Hl Hu Hk Hc Hnil. pose proof (loaded_fields _ _ Hl) as ([Hdang Hac] & _).
  set (open := dom (filter (fun kt => task_id kt.2 ∉ completed) (dag_tasks dag))).
  assert (forall v, v ∈ open <-> exists t, dag_tasks dag !! v = Some t /\ (task_id t ∉ completed)) as Hopen.
  { intros v. unfold open. rewrite elem_of_dom. unfold is_Some.
    setoid_rewrite map_lookup_filter_Some. done. }
  destruct (no_source_cycle (dag_edge dag) open) as [v Hv]; [| |by apply (Hac v)].
  - intros He. apply (not_elem_of_empty (C := gset string) k). rewrite <-He. apply Hopen. eauto.
  - intros v (tv & Htv & Hcv)%Hopen.
    assert (tv ∉ ready_tasks s completed) as Hnr by (rewrite Hnil; apply not_elem_of_nil).
    assert (forall e : string * string, Decision (e.2 = v /\ e.1 ∈ open)) as Hdec by (intros; apply _).
    destruct (decide (Exists (fun e => e.2 = v /\ e.1 ∈ open) (edges dag))) as [Hex|Hall].
    2:{
      exfalso. apply Hnr. apply (ready_tasks_elem s dag); [done|done|].
      exists v. split_and!; [done|done|]. intros u He.
      assert (u ∈ dom (dag_tasks dag)) as [tu Htu]%elem_of_dom.
      { eapply Hdang; [done|]. apply elem_of_dom. eauto. }
      exists tu. split; [done|]. destruct (decide (task_id tu ∈ completed)); [done|].
      exfalso. apply Hall, Exists_exists. exists (u, v). split; [done|]. split; [done|].
      apply Hopen. eauto. }
    apply Exists_exists in Hex as ([u v'] & He & [Hv Hin]). simpl in Hv, Hin. subst v'.
    exists u. split; [done|]. split_and!; [done| |].
    + apply Hopen in Hin as (tu & Htu & _). apply elem_of_dom. eauto.
    + apply elem_of_dom. eauto.
Qed.
End sort_theorems.

(** ** Concrete instances *)

#[local] Instance task_iter : HashIter string Task := canonical_iter.
#[local] Instance degree_iter : HashIter string nat := canonical_iter.

Definition chain_tasks : gmap string Task :=
  {["build"%string := Task_new 1 "build"; "test"%string := Task_new 2 "test"; "ship"%string := Task_new 3 "ship"]}.
Definition chain_dag : TaskDAG :=
  mkTaskDAG chain_tasks [("test", "ship"); ("build", "test")] Sequential.
Definition dangling_dag : TaskDAG :=
  mkTaskDAG chain_tasks [("ghost", "ship")] Sequential.

Definition chain_scheduler : Scheduler :=
  match load_dag Scheduler_new chain_dag with Some (_, s) => s | None => Scheduler_new end.

Lemma chain_loaded : loaded chain_scheduler chain_dag.
Proof. exists Scheduler_new. vm_compute. reflexivity. Qed.

Lemma chain_unique : unique_ids chain_dag.
Proof.
  intros k1 k2 t1 t2. simpl. unfold chain_tasks.
  rewrite !lookup_insert_Some, !lookup_singleton_Some.
  intros H1 H2 Heq. naive_solver.
Qed.

Lemma topological_sort_sound_witness :
  executes_in_order chain_dag ["build"; "test"; "ship"]%string.
Proof. apply topological_sort_sound. vm_compute. reflexivity. Defined.

Lemma dangling_edge_is_cyclic_witness :
  topological_sort dangling_dag = Some (Err CyclicDAG).
Proof.
  apply (dangling_edge_is_cyclic dangling_dag "ghost"%string "ship"%string).
  - left.
  - apply elem_of_dom. eexists. vm_compute. reflexivity.
  - apply not_elem_of_dom. vm_compute. reflexivity.
Defined.

Lemma ready_tasks_correct_witness :
  Task_new 2 "test" ∈ ready_tasks chain_scheduler {[1%N]} <->
    exists k, dag_tasks chain_dag !! k = Some (Task_new 2 "test") /\ (2%N ∉ ({[1%N]} : gset Uuid)) /\
      forall u, (u, k) ∈ edges chain_dag ->
        exists tu, dag_tasks chain_dag !! u = Some tu /\ task_id tu ∈ ({[1%N]} : gset Uuid).
Proof.
  exact (proj1 (ready_tasks_correct chain_scheduler chain_dag {[1%N]} chain_loaded chain_unique)
           (Task_new 2 "test")).
Defined.

Lemma ready_tasks_progress_witness : ready_tasks chain_scheduler {[1%N]} <> [].
Proof.
  apply (ready_tasks_progress chain_scheduler chain_dag {[1%N]} "ship" (Task_new 3 "ship"));
    [apply chain_loaded|apply chain_unique|vm_compute; reflexivity|set_solver].
Defined.
