(* ===== verification/TopoTasks.v ===== *)
(** * Topological sort of a task list (orchestrator/scheduler.rs)

    [topological_sort_tasks] orders the tasks of a crew by their [dependencies]
    fields with a max-heap of [(priority, id)] pairs. The loop is the one of
    [Kahn]; this file builds its graph the way the code does and shows the
    result is a priority-greedy dependency order. *)

From S2P Require Import Prelude.
From S2P Require Import F64.
From S2P Require Import Resource.
From S2P Require Import Core.
From S2P Require Import Kahn.
From stdpp Require Import base gmap strings list numbers relations.

(** ** The code *)

(** [BinaryHeap<(TaskPriority, TaskId)>]: a multiset of pairs; [pop] removes a
    greatest pair. Equal pairs are indistinguishable, so the layout of the heap
    is not observable. *)
Definition heap_le (a b : TaskPriority * Uuid) : bool :=
  (tier a.1 <? tier b.1)%nat || ((tier a.1 =? tier b.1)%nat && (a.2 <=? b.2)%N).

Fixpoint heap_remove (x : TaskPriority * Uuid) (h : list (TaskPriority * Uuid)) :=
  match h with
  | [] => []
  | y :: h => if decide (x = y) then h else y :: heap_remove x h
  end.

Definition heap_pop (h : list (TaskPriority * Uuid))
    : option (Uuid * list (TaskPriority * Uuid)) :=
  match max_by heap_le h with
  | None => None
  | Some x => Some (x.2, heap_remove x h)
  end.

Section topo.
Context `{!HashIter Uuid nat}.

Definition task_ids (tasks : list Task) : gset Uuid := list_to_set (map task_id tasks).

(** The body of the two nested loops that fill [in_degree] and [dependents]. *)
Definition add_dependency (ids : gset Uuid) (t : Task)
    (acc : gmap Uuid nat * gmap Uuid (list Uuid)) (dep : Uuid) :=
  if decide (dep ∈ ids) then
    (<[task_id t := S (default 0 (acc.1 !! task_id t))]> acc.1,
     <[dep := default [] (acc.2 !! dep) ++ [task_id t]]> acc.2)
  else acc.

Definition add_task ids (acc : gmap Uuid nat * gmap Uuid (list Uuid)) (t : Task) :=
  foldl (add_dependency ids t) acc (dependencies t).

Definition zero_degrees (tasks : list Task) : gmap Uuid nat :=
  foldl (fun m t => <[task_id t := 0]> m) ∅ tasks.

Definition build_graph (tasks : list Task) : gmap Uuid nat * gmap Uuid (list Uuid) :=
  foldl (add_task (task_ids tasks)) (zero_degrees tasks, ∅) tasks.

Definition priority_map (tasks : list Task) : gmap Uuid TaskPriority :=
  foldl (fun m t => <[task_id t := priority t]> m) ∅ tasks.

(** [priority_map.get(&id).copied().unwrap_or_default()] *)
Definition priority_of (pm : gmap Uuid TaskPriority) (id : Uuid) : TaskPriority :=
  default Normal (pm !! id).

Definition heap_worklist (pm : gmap Uuid TaskPriority)
    : Worklist Uuid (list (TaskPriority * Uuid)) := {|
  wl_pop := heap_pop;
  wl_push h v := (priority_of pm v, v) :: h;
  wl_items h := map snd h;
|}.

Definition initial_heap (pm : gmap Uuid TaskPriority) (deg : gmap Uuid nat) :=
  map (fun vd => (priority_of pm vd.1, vd.1))
    (List.filter (fun vd => (vd.2 =? 0)%nat) (hash_iter deg)).

Definition children (dependents : gmap Uuid (list Uuid)) (id : Uuid) : list Uuid :=
  default [] (dependents !! id).

Definition topological_sort_tasks (tasks : list Task)
    : option (Result (list Uuid) AgnosaiError) :=
  let (in_degree, dependents) := build_graph tasks in
  let pm := priority_map tasks in
  match kahn_loop (Worklist0 := heap_worklist pm) (children dependents) (S (length tasks))
          in_degree (initial_heap pm in_degree) [] with
  | None => None
  | Some order =>
      if (length order =? length tasks)%nat then Some (Ok order) else Some (Err CyclicDAG)
  end.
End topo.

(** ** The heap is a worklist *)

Lemma heap_le_total a b : heap_le a b = true \/ heap_le b a = true.
Proof.
  unfold heap_le. rewrite !orb_true_iff, !andb_true_iff, !Nat.ltb_lt, !Nat.eqb_eq, !N.leb_le. lia.
Qed.

Lemma heap_le_trans a b c : heap_le a b = true -> heap_le b c = true -> heap_le a c = true.
Proof.
  unfold heap_le. rewrite !orb_true_iff, !andb_true_iff, !Nat.ltb_lt, !Nat.eqb_eq, !N.leb_le. lia.
Qed.

Lemma heap_remove_perm x h : x ∈ h -> h ≡ₚ x :: heap_remove x h.
Proof.
  induction h as [|y h IH]; simpl; [by intros ?%not_elem_of_nil|].
  intros Hx. case_decide as E; [by subst|].
  apply elem_of_cons in Hx as [?|Hx]; [done|]. rewrite (IH Hx) at 1. constructor.
Qed.

Lemma heap_pop_perm h v h' :
  heap_pop h = Some (v, h') ->
  exists x, x.2 = v /\ h ≡ₚ x :: h' /\ forall y, y ∈ h -> heap_le y x = true.
Proof.
  unfold heap_pop. destruct (max_by heap_le h) as [x|] eqn:E; [|done]. intros [= <- <-].
  exists x. split_and!; [done|by apply heap_remove_perm, (max_by_elem heap_le)|].
  intros y Hy. eapply (max_by_upper heap_le (fun _ => True)); [| |by apply Forall_true|done|done].
  - intros; apply heap_le_total.
  - intros a b c _ _ _; apply heap_le_trans.
Qed.

#[local] Instance heap_laws pm :
  WorklistLaws Uuid (list (TaskPriority * Uuid)) (Worklist0 := heap_worklist pm).
Proof.
  split; simpl.
  - intros w. unfold heap_pop. destruct (max_by heap_le w) eqn:E; [done|].
    by apply max_by_None in E as ->.
  - intros w x w' (y & <- & Hp & _)%heap_pop_perm. by rewrite Hp.
  - done.
Qed.

(** ** What the graph of a task list means *)

(** [u] is a known dependency of a task with id [v]. *)
Definition depends_on (tasks : list Task) (u v : Uuid) : Prop :=
  u ∈ task_ids tasks /\ exists t, t ∈ tasks /\ task_id t = v /\ u ∈ dependencies t.

Definition tasks_valid (tasks : list Task) : Prop :=
  NoDup (map task_id tasks) /\ forall v, ~ tc (depends_on tasks) v v.

(** ** The graph the two loops build *)

(** The loops keep: the in-degree of every id is the number of its occurrences
    in the adjacency lists; the lists hold the edges seen so far. *)
Record graph_inv (V : gset Uuid) (seen : Uuid -> Uuid -> Prop)
    (acc : gmap Uuid nat * gmap Uuid (list Uuid)) : Prop := {
  gi_dom : forall v, is_Some (acc.1 !! v) <-> v ∈ V;
  gi_deg : forall v d, acc.1 !! v = Some d -> d = msum (children acc.2) (elements V) v;
  gi_edges : forall u v, v ∈ children acc.2 u <-> seen u v;
}.

Lemma msum_add_edge (s s' : Uuid -> list Uuid) l u v w :
  NoDup l -> u ∈ l -> (forall x, s' x = if decide (x = u) then s x ++ [v] else s x) ->
  msum s' l w = msum s l w + if decide (v = w) then 1 else 0.
Proof.
  intros Hnd Hu Hs. unfold msum.
  assert (forall l, u ∉ l -> sum_list_with (fun u => edge_mult s' u w) l =
                             sum_list_with (fun u => edge_mult s u w) l) as Hout.
  { clear -Hs. induction l as [|x l IH]; intros Hn; simpl; [done|].
    rewrite not_elem_of_cons in Hn. destruct Hn as [Hx Hn]. rewrite IH by done.
    unfold edge_mult. by rewrite Hs, decide_False. }
  induction l as [|x l IH]; [by apply not_elem_of_nil in Hu|]. simpl.
  apply NoDup_cons in Hnd as [Hx Hnd]. apply elem_of_cons in Hu as [<-|Hu].
  - rewrite Hout by done. unfold edge_mult. rewrite Hs, decide_True by done.
    rewrite count_in_snoc. lia.
  - assert (edge_mult s' x w = edge_mult s x w) as ->.
    { unfold edge_mult. rewrite Hs, decide_False; [done|]. by intros ->. }
    rewrite IH by done. lia.
Qed.

Lemma add_dependency_inv V seen acc t dep :
  graph_inv V seen acc -> task_id t ∈ V ->
  graph_inv V (fun u v => seen u v \/ (dep ∈ V /\ u = dep /\ v = task_id t))
    (add_dependency V t acc dep).
Proof.
  intros [Hd Hg He] Ht. unfold add_dependency. case_decide as HV.
  2:{ split; [done|done|]. intros u v. rewrite He. tauto. }
  destruct acc as [deg dpt]; simpl in *.
  assert (forall x, children (<[dep:=default [] (dpt !! dep) ++ [task_id t]]> dpt) x =
            if decide (x = dep) then children dpt x ++ [task_id t] else children dpt x) as Hc.
  { intros x. unfold children. case_decide; subst; [by rewrite lookup_insert_eq|].
    by rewrite lookup_insert_ne. }
  split; simpl.
  - intros v. destruct (decide (v = task_id t)) as [->|].
    + rewrite lookup_insert_eq. split; [done|eauto].
    + by rewrite lookup_insert_ne.
  - intros v d Hv. erewrite msum_add_edge; [|apply NoDup_elements|by apply elem_of_elements|exact Hc].
    destruct (decide (task_id t = v)) as [<-|Hne].
    + rewrite lookup_insert_eq in Hv. simplify_eq.
      destruct (proj2 (Hd (task_id t)) Ht) as [d Hd']. rewrite Hd'. simpl.
      rewrite <-(Hg _ _ Hd'). lia.
    + rewrite lookup_insert_ne in Hv by done. rewrite <-(Hg _ _ Hv). lia.
  - intros u v. rewrite Hc. case_decide as Hu.
    + rewrite elem_of_app, list_elem_of_singleton, He. naive_solver.
    + rewrite He. naive_solver.
Qed.

Lemma graph_inv_ext V (s1 s2 : Uuid -> Uuid -> Prop) acc :
  (forall u v, s1 u v <-> s2 u v) -> graph_inv V s1 acc -> graph_inv V s2 acc.
Proof. intros Hs [H1 H2 H3]. split; [done|done|]. intros u v. by rewrite H3. Qed.

Lemma add_task_inv V seen acc t :
  graph_inv V seen acc -> task_id t ∈ V ->
  graph_inv V (fun u v => seen u v \/ (u ∈ V /\ v = task_id t /\ u ∈ dependencies t))
    (add_task V acc t).
Proof.
  intros Hi Ht. unfold add_task. revert seen acc Hi.
  induction (dependencies t) as [|dep ds IH]; intros seen acc Hi; simpl.
  - eapply graph_inv_ext; [|done]. intros u v. rewrite elem_of_nil. tauto.
  - eapply graph_inv_ext; [|eapply IH, add_dependency_inv; [done|done]].
    intros u v. rewrite elem_of_cons. naive_solver.
Qed.

Lemma build_loop_inv V l seen acc :
  graph_inv V seen acc -> (forall t, t ∈ l -> task_id t ∈ V) ->
  graph_inv V (fun u v => seen u v \/
      (u ∈ V /\ exists t, t ∈ l /\ task_id t = v /\ u ∈ dependencies t))
    (foldl (add_task V) acc l).
Proof.
  revert seen acc. induction l as [|t l IH]; intros seen acc Hi Hl; simpl.
  - eapply graph_inv_ext; [|done]. intros u v. split; [auto|].
    intros [?|(_ & t & ?%not_elem_of_nil & _)]; done.
  - eapply graph_inv_ext; [|eapply IH; [eapply add_task_inv; [done|]|]].
    + intros u v. simpl. setoid_rewrite elem_of_cons. naive_solver.
    + apply Hl. left.
    + intros t' Ht'. apply Hl. by right.
Qed.

Lemma zero_degrees_lookup tasks v :
  zero_degrees tasks !! v = if decide (v ∈ task_ids tasks) then Some 0 else None.
Proof.
  unfold zero_degrees, task_ids.
  assert (forall l (m : gmap Uuid nat), (forall v, m !! v = Some 0 \/ m !! v = None) ->
    foldl (fun m t => <[task_id t := 0]> m) m l !! v =
    if decide (v ∈ (list_to_set (map task_id l) : gset Uuid)) then Some 0 else m !! v) as H.
  { induction l as [|t l IH]; intros m Hm; simpl; [by rewrite decide_False by set_solver|].
    rewrite IH; last first.
    { intros v'. destruct (decide (task_id t = v')) as [->|]; [rewrite lookup_insert_eq; auto|].
      by rewrite lookup_insert_ne. }
    destruct (decide (task_id t = v)) as [->|Hne].
    - rewrite lookup_insert_eq. repeat case_decide; try done; exfalso; set_solver.
    - rewrite lookup_insert_ne by done. repeat case_decide; try done; exfalso; set_solver. }
  rewrite H; [by rewrite lookup_empty|]. intros ?. rewrite lookup_empty. auto.
Qed.

Lemma elem_of_task_ids tasks v : v ∈ task_ids tasks <-> exists t, t ∈ tasks /\ task_id t = v.
Proof.
  unfold task_ids. rewrite elem_of_list_to_set, list_elem_of_fmap. naive_solver.
Qed.

Lemma build_graph_inv tasks :
  graph_inv (task_ids tasks) (depends_on tasks) (build_graph tasks).
Proof.
  unfold build_graph. eapply graph_inv_ext; last eapply (build_loop_inv _ _ (fun _ _ => False)).
  - intros u v. unfold depends_on. simpl. tauto.
  - split; simpl.
    + intros v. rewrite zero_degrees_lookup. case_decide; split; naive_solver.
    + intros v d Hv. rewrite zero_degrees_lookup in Hv. case_decide; simplify_eq.
      unfold msum. induction (elements (task_ids tasks)) as [|u l IH]; simpl; [done|].
      by rewrite <-IH.
    + intros u v. unfold children. rewrite lookup_empty. simpl. set_solver.
  - intros t Ht. apply elem_of_task_ids. eauto.
Qed.

Lemma size_list_to_set_le (l : list Uuid) : size (list_to_set l : gset Uuid) <= length l.
Proof.
  induction l as [|x l IH]; [reflexivity|]. change (list_to_set (x :: l)) with ({[x]} ∪ list_to_set l : gset Uuid). simpl length.
  rewrite size_union_alt, size_singleton.
  enough (size (list_to_set l ∖ {[x]} : gset Uuid) <= size (list_to_set l : gset Uuid)) by lia.
  apply subseteq_size. set_solver.
Qed.

Lemma size_list_to_set_NoDup (l : list Uuid) :
  size (list_to_set l : gset Uuid) = length l -> NoDup l.
Proof.
  induction l as [|x l IH]; [constructor|]. change (list_to_set (x :: l)) with ({[x]} ∪ list_to_set l : gset Uuid). simpl length.
  rewrite size_union_alt, size_singleton. intros Hs.
  pose proof (size_list_to_set_le l).
  assert (size (list_to_set l ∖ {[x]} : gset Uuid) <= size (list_to_set l : gset Uuid)) by
    (apply subseteq_size; set_solver).
  constructor; [|apply IH; lia]. intros Hx.
  assert (size (list_to_set l ∖ {[x]} : gset Uuid) < size (list_to_set l : gset Uuid)); [|lia].
  apply subset_size. set_solver.
Qed.

Section topo_theorems.
Context `{!HashIter Uuid nat}.
Implicit Types tasks : list Task.

Lemma initial_heap_items pm (deg : gmap Uuid nat) :
  map snd (initial_heap pm deg) = (List.filter (fun vd => (vd.2 =? 0)%nat) (hash_iter deg)).*1.
Proof. unfold initial_heap. rewrite List.map_map. done. Qed.

Lemma initial_heap_spec pm (deg : gmap Uuid nat) :
  NoDup (map snd (initial_heap pm deg)) /\
  forall v, v ∈ map snd (initial_heap pm deg) <-> deg !! v = Some 0.
Proof.
  rewrite initial_heap_items. split.
  - pose proof (NoDup_hash_keys deg) as Hnd. unfold hash_keys in Hnd.
    eapply sublist_NoDup; [done|]. apply fmap_sublist.
    induction (hash_iter deg) as [|x l IH]; simpl; [constructor|].
    apply NoDup_cons in Hnd as [_ Hnd]. case_match; constructor; auto.
  - intros v. rewrite list_elem_of_fmap. split.
    + intros ([k d] & -> & Hin). apply elem_of_List_filter in Hin as [Hin Hd].
      apply elem_of_hash_iter in Hin. apply Nat.eqb_eq in Hd. simpl in *. by subst.
    + intros Hv. exists (v, 0). split; [done|]. apply elem_of_List_filter.
      split; [|done]. by apply elem_of_hash_iter.
Qed.

Lemma topo_init tasks :
  kahn_inv (Worklist0 := heap_worklist (priority_map tasks))
    (children (build_graph tasks).2) (task_ids tasks) (fun _ => 0) (build_graph tasks).1
    (initial_heap (priority_map tasks) (build_graph tasks).1) [].
Proof.
  destruct (build_graph_inv tasks) as [Hd Hg _].
  destruct (initial_heap_spec (priority_map tasks) (build_graph tasks).1) as [Hnd Hz].
  apply (kahn_init (Worklist0 := heap_worklist (priority_map tasks))); [|done|done].
  intros v. specialize (Hd v). case_decide as Hv.
  - destruct (proj2 Hd Hv) as [d E]. rewrite E. f_equal. by apply Hg.
  - apply eq_None_not_Some. by intros ?%Hd.
Qed.

Lemma length_task_ids tasks : size (task_ids tasks) <= length tasks.
Proof. unfold task_ids. rewrite <-(length_map task_id tasks). apply size_list_to_set_le. Qed.

Lemma task_edge_equiv tasks u v :
  edge (children (build_graph tasks).2) (task_ids tasks) u v <-> depends_on tasks u v.
Proof.
  unfold edge. rewrite (gi_edges _ _ _ (build_graph_inv tasks)).
  split; [tauto|]. intros Hd. pose proof Hd as (Hu & t & Ht & <- & _).
  split_and!; [done| |done]. apply elem_of_task_ids. eauto.
Qed.

Lemma tasks_acyclic_equiv tasks :
  acyclic (children (build_graph tasks).2) (task_ids tasks) <->
  forall v, ~ tc (depends_on tasks) v v.
Proof.
  unfold acyclic.
  assert (forall v w, tc (edge (children (build_graph tasks).2) (task_ids tasks)) v w
                      <-> tc (depends_on tasks) v w) as Htc.
  { intros v w. split; (induction 1 as [a b Hab|a b c Hab _ IH];
      [apply tc_once|eapply tc_l; [|exact IH]]); by apply task_edge_equiv. }
  by setoid_rewrite Htc.
Qed.

Lemma NoDup_size_ids tasks :
  size (task_ids tasks) = length tasks <-> NoDup (map task_id tasks).
Proof.
  unfold task_ids. rewrite <-(length_map task_id tasks). split; [apply size_list_to_set_NoDup|].
  apply size_list_to_set.
Qed.

Lemma topological_sort_tasks_spec tasks :
  (exists order, topological_sort_tasks tasks = Some (Ok order) /\ tasks_valid tasks /\
     topological (children (build_graph tasks).2) (task_ids tasks) order) \/
  (topological_sort_tasks tasks = Some (Err CyclicDAG) /\ ~ tasks_valid tasks).
Proof.
  unfold topological_sort_tasks.
  pose proof (kahn_loop_total (Worklist0 := heap_worklist (priority_map tasks)) _ _ _
    (S (length tasks)) _ _ _ (topo_init tasks)) as Hk.
  pose proof (length_task_ids tasks) as Hlen.
  destruct Hk as (order & Hk & Hr); [simpl; lia|].
  destruct (build_graph tasks) as [deg dpt] eqn:E. simpl in *. rewrite Hk.
  pose proof (kahn_result_length _ _ _ _ Hr) as Hrl.
  destruct (Nat.eqb_spec (length order) (length tasks)) as [Hl|Hl].
  - left. exists order. split; [done|].
    destruct (kahn_result_sound _ _ _ _ Hr) as [Ht _]; [lia|]. split; [|done]. split.
    + apply NoDup_size_ids. lia.
    + apply tasks_acyclic_equiv. rewrite E. by eapply topological_acyclic.
  - right. split; [done|]. intros [Hnd Hac]. apply Hl.
    apply NoDup_size_ids in Hnd. apply tasks_acyclic_equiv in Hac. rewrite E in Hac.
    pose proof (kahn_result_full _ _ _ _ Hr Hac (fun _ _ => eq_refl)). lia.
Qed.

(** [C21] [topological_sort_tasks] never panics. It succeeds exactly when the
    task ids are distinct and the known dependencies have no cycle (unknown
    dependency ids are ignored), and then returns a permutation of the ids in
    which every task comes after its known dependencies. *)
Theorem topological_sort_tasks_correct tasks :
  (tasks_valid tasks -> exists order,
     topological_sort_tasks tasks = Some (Ok order) /\
     order ≡ₚ map task_id tasks /\
     forall l1 v l2 u, order = l1 ++ v :: l2 -> depends_on tasks u v -> u ∈ l1) /\
  (~ tasks_valid tasks -> topological_sort_tasks tasks = Some (Err CyclicDAG)).
Proof.
  destruct (topological_sort_tasks_spec tasks) as [(o & Ho & Hv & Ht)|[He Hv]]; [|naive_solver].
  split; [|naive_solver]. intros _. exists o. destruct Ht as (Hnd & Hmem & Hpos). split_and!; [done| |].
  - apply NoDup_Permutation; [done|apply Hv|]. intros v. rewrite Hmem. unfold task_ids.
    by rewrite elem_of_list_to_set.
  - intros l1 v l2 u Heq Hd. apply (Hpos l1 v l2 Heq), task_edge_equiv, Hd.
Qed.

(** Entries of the heap carry the priority of their task. *)
Definition heap_ok (pm : gmap Uuid TaskPriority) (h : list (TaskPriority * Uuid)) : Prop :=
  Forall (fun x => x.1 = priority_of pm x.2) h.

Lemma heap_pop_greedy pm h v h' :
  heap_ok pm h -> heap_pop h = Some (v, h') ->
  heap_ok pm h' /\ forall y, y ∈ map snd h ->
    heap_le (priority_of pm y, y) (priority_of pm v, v) = true.
Proof.
  intros Hok (x & <- & Hp & Hmax)%heap_pop_perm. unfold heap_ok in *.
  rewrite Hp in Hok. apply Forall_cons in Hok as [Hx Hok]. split; [done|].
  intros y ([p z] & -> & Hz)%list_elem_of_fmap. pose proof (Hmax _ Hz) as Hle.
  rewrite Hp, elem_of_cons in Hz.
  assert (p = priority_of pm z) as ->.
  { destruct Hz as [<-|Hz]; [done|]. rewrite Forall_forall in Hok. apply (Hok _ Hz). }
  destruct x; simpl in *. by subst.
Qed.

(** The order is priority-greedy: no task is placed before another that
    was ready at that point and has a higher priority (ties by larger id). *)
Theorem topological_sort_tasks_greedy tasks order l1 v l2 y :
  topological_sort_tasks tasks = Some (Ok order) -> order = l1 ++ v :: l2 -> y ∈ l2 ->
  (forall u, depends_on tasks u y -> u ∈ l1) ->
  heap_le (priority_of (priority_map tasks) y, y) (priority_of (priority_map tasks) v, v) = true.
Proof.
  intros Ho Heq Hy Hdeps.
  destruct (topological_sort_tasks_spec tasks) as [(o & Ho' & _ & Hnd & Hmem & _)|[? _]]; [|congruence].
  rewrite Ho in Ho'. injection Ho' as <-. unfold topological_sort_tasks in Ho.
  pose proof (topo_init tasks) as Hi.
  pose proof (task_edge_equiv tasks) as Hte.
  destruct (build_graph tasks) as [deg dpt]. simpl in Hi, Hte.
  case_match eqn:Hk; [|done]. case_match; simplify_eq.
  pose proof (kahn_loop_greedy (Worklist0 := heap_worklist (priority_map tasks))
    (children dpt) (task_ids tasks) (fun _ => 0)
    (fun y v => heap_le (priority_of (priority_map tasks) y, y)
                  (priority_of (priority_map tasks) v, v) = true)
    (heap_ok (priority_map tasks))) as Hg.
  edestruct Hg as (tl & Htl & Hmax); [| |exact Hi| |exact Hk|].
  - intros w x Hw. constructor; [done|exact Hw].
  - intros w x w' Hw. by apply heap_pop_greedy.
  - unfold initial_heap, heap_ok. apply Forall_fmap, Forall_true. done.
  - simpl in Htl. subst tl. eapply (Hmax l1 v l2); [done| |done| |].
    + apply Hmem. set_solver.
    + simpl. intros Hin. apply NoDup_app in Hnd as (_ & Hd & _). apply (Hd y Hin). by right.
    + intros u Hu. apply Hdeps, Hte, Hu.
Qed.
End topo_theorems.

#[local] Instance id_iter : HashIter Uuid nat := canonical_iter.

(** Task 3 waits for 1; task 2 is urgent. *)
Definition sample_tasks : list Task :=
  [Task_new 1 "a"; with_priority (Task_new 2 "b") Critical;
   with_dependency (with_priority (Task_new 3 "c") High) 1].

Lemma topological_sort_tasks_correct_witness :
  exists order, topological_sort_tasks sample_tasks = Some (Ok order) /\
    order ≡ₚ map task_id sample_tasks /\
    forall l1 v l2 u, order = l1 ++ v :: l2 -> depends_on sample_tasks u v -> u ∈ l1.
Proof.
  apply (proj1 (topological_sort_tasks_correct sample_tasks)).
  destruct (topological_sort_tasks_spec sample_tasks) as [(o & _ & Hv & _)|[He _]]; [exact Hv|].
  exfalso. vm_compute in He. discriminate.
Defined.

Lemma topological_sort_tasks_greedy_witness :
  topological_sort_tasks sample_tasks = Some (Ok [2; 1; 3]%N) /\
  heap_le (priority_of (priority_map sample_tasks) 1%N, 1%N)
    (priority_of (priority_map sample_tasks) 2%N, 2%N) = true.
Proof.
  split; [vm_compute; reflexivity|].
  apply (topological_sort_tasks_greedy sample_tasks [2; 1; 3]%N [] 2%N [1; 3]%N 1%N).
  - vm_compute. reflexivity.
  - reflexivity.
  - left.
  - intros u (_ & t & Ht & Hid & Hu).
    unfold sample_tasks in Ht. rewrite !elem_of_cons in Ht. destruct Ht as [->|[->|[->|Ht%not_elem_of_nil]]];
      [simpl in Hu; by apply not_elem_of_nil in Hu|discriminate|discriminate|done].
Defined.
