(* ===== verification/Scoring.v ===== *)
(** * Agent scoring and delegation
    (orchestrator/scoring.rs, orchestrator/hierarchical.rs)

    The weighted score of an agent for a task, in doubles; ranking, choice of
    the best agent, and the manager's delegation. *)

From Stdlib Require Import Sorting.Sorted.
From S2P Require Import Prelude.
From S2P Require Import F64.
From S2P Require Import Resource.
From S2P Require Import Core.
From stdpp Require Import base gmap strings numbers list.

(** ** The code *)

Definition WEIGHT_TOOL_COVERAGE : f64 := f64_lit 35 100.
Definition WEIGHT_COMPLEXITY : f64 := f64_lit 25 100.
Definition WEIGHT_GPU : f64 := f64_lit 10 100.
Definition WEIGHT_DOMAIN : f64 := f64_lit 15 100.
Definition WEIGHT_PERSONALITY : f64 := f64_lit 15 100.

Definition complexity_level (s : string) : N :=
  if eq_ignore_ascii_case s "low" then 1%N
  else if eq_ignore_ascii_case s "high" then 3%N
  else 2%N.

Definition context_str (t : Task) (k : string) : option string :=
  match context t !! k with Some v => as_str v | None => None end.

Definition extract_required_tools (t : Task) : option (list string) :=
  match context t !! "required_tools"%string with
  | None => None
  | Some v => vec_string_of v
  end.

Definition tool_coverage_score (a : AgentDefinition) (pre : option (list string)) : f64 :=
  match pre with
  | None | Some [] => f64_one
  | Some required =>
      let matched := length (List.filter (fun t => bool_decide (t ∈ tools a)) required) in
      f64_div (f64_of_nat matched) (f64_of_nat (length required))
  end.

Definition complexity_score (a : AgentDefinition) (t : Task) : f64 :=
  let task_complexity := default "medium"%string (context_str t "complexity") in
  let agent_level := f64_of_N (complexity_level (complexity a)) in
  let task_level := f64_of_N (complexity_level task_complexity) in
  f64_sub f64_one (f64_div (f64_abs (f64_sub agent_level task_level)) (f64_of_N 3)).

Definition gpu_score (a : AgentDefinition) (t : Task) : f64 :=
  let required := default false
    (match context t !! "gpu_required"%string with Some v => as_bool v | None => None end) in
  if negb required then f64_one
  else if gpu_required a || gpu_preferred a then f64_one else f64_zero.

Definition domain_score (a : AgentDefinition) (t : Task) : f64 :=
  match context_str t "domain" with
  | None => f64_one
  | Some task_domain =>
      match domain a with
      | Some d => if eq_ignore_ascii_case d task_domain then f64_one else f64_zero
      | None => f64_one
      end
  end.

Definition trait_group_of (s : string) : option TraitGroup :=
  let s := to_lowercase s in
  if bool_decide (s = "social"%string) then Some Social
  else if bool_decide (s = "cognitive"%string) then Some Cognitive
  else if bool_decide (s = "behavioral"%string) then Some Behavioral
  else if bool_decide (s = "professional"%string) then Some Professional
  else None.

Definition trait_kinds : list (string * TraitKind) :=
  [("warmth", Warmth); ("empathy", Empathy); ("humor", Humor); ("patience", Patience);
   ("confidence", Confidence); ("creativity", Creativity); ("curiosity", Curiosity);
   ("skepticism", Skepticism); ("directness", Directness); ("precision", Precision);
   ("autonomy", Autonomy); ("pedagogy", Pedagogy); ("formality", Formality);
   ("verbosity", Verbosity); ("risk_tolerance", RiskTolerance)]%string.

Definition trait_kind_of (s : string) : option TraitKind :=
  match List.find (fun nk => bool_decide (nk.1 = to_lowercase s)) trait_kinds with
  | Some nk => Some nk.2
  | None => None
  end.

(** [((x + 1.0) / 2.0) as f64] for an [f32] reading in -1..1. *)
Definition unit_of_reading (x : f32) : f64 :=
  f64_of_f32 (f32_div (f32_add x (f32_of_N 1)) (f32_of_N 2)).

Definition personality_score (a : AgentDefinition) (t : Task) : f64 :=
  match personality a with
  | None => f64_lit 1 2
  | Some profile =>
      let score := f64_lit 1 2 in
      let score :=
        match context_str t "personality_group" with
        | Some name =>
            match trait_group_of name with
            | Some g => unit_of_reading (group_average profile g)
            | None => score
            end
        | None => score
        end in
      match context_str t "personality_trait" with
      | Some name =>
          match trait_kind_of name with
          | Some k => unit_of_reading (trait_normalized profile k)
          | None => score
          end
      | None => score
      end
  end.

Definition score_agent_with_tools (a : AgentDefinition) (t : Task)
    (required_tools : option (list string)) : f64 :=
  let tool := tool_coverage_score a required_tools in
  let complexity := complexity_score a t in
  let gpu := gpu_score a t in
  let domain := domain_score a t in
  let score :=
    f64_add (f64_add (f64_add (f64_mul WEIGHT_TOOL_COVERAGE tool)
      (f64_mul WEIGHT_COMPLEXITY complexity))
      (f64_mul WEIGHT_GPU gpu))
      (f64_mul WEIGHT_DOMAIN domain) in
  let score := f64_add score (f64_mul WEIGHT_PERSONALITY (personality_score a t)) in
  f64_clamp score f64_zero f64_one.

Definition score_agent (a : AgentDefinition) (t : Task) : f64 :=
  score_agent_with_tools a t (extract_required_tools t).

(** Descending by score: the comparator of [b.1.partial_cmp(&a.1)]. *)
Definition by_score_desc {A} (x y : A * f64) : bool := cmp_le y.2 x.2.

Definition rank_agents (agents : list AgentDefinition) (t : Task) : list (nat * f64) :=
  let required := extract_required_tools t in
  sort_by by_score_desc
    (map (fun ia => (ia.1, score_agent_with_tools ia.2 t required)) (enumerate_from 0 agents)).

(** orchestrator/crew_runner.rs *)
Definition pick_best_agent (agents : list AgentDefinition) (t : Task) : option AgentDefinition :=
  match agents with
  | [] => None
  | _ =>
      match head (sort_by by_score_desc (map (fun a => (a, score_agent a t)) agents)) with
      | Some x => Some x.1
      | None => None
      end
  end.

Record ManagerAgent := mkManagerAgent {
  mgr_definition : AgentDefinition;
  mgr_agents : list AgentDefinition;
  mgr_tasks : list Task;
}.

(** One turn of the loop; [None] is the out-of-range index [agents[best_idx]]. *)
Definition delegate_one (manager : AgentDefinition) (agents : list AgentDefinition) (t : Task)
    : option (Uuid * string) :=
  match agents with
  | [] => Some (task_id t, agent_key manager)
  | _ =>
      let best_idx := default (0, f64_zero) (head (rank_agents agents t)) in
      match agents !! best_idx.1 with
      | Some a => Some (task_id t, agent_key a)
      | None => None
      end
  end.

Fixpoint delegate_tasks (manager : AgentDefinition) (agents : list AgentDefinition)
    (ts : list Task) : option (list (Uuid * string)) :=
  match ts with
  | [] => Some []
  | t :: ts =>
      match delegate_one manager agents t, delegate_tasks manager agents ts with
      | Some p, Some ps => Some (p :: ps)
      | _, _ => None
      end
  end.

Definition delegate (m : ManagerAgent) : option (list (Uuid * string)) :=
  delegate_tasks (mgr_definition m) (mgr_agents m) (mgr_tasks m).

(** ** Scores are numbers of the unit interval *)

(** The readings of a profile are documented to lie in -1..1: adding 1 gives a
    non-negative number. *)
Definition reading_ok (x : f32) : Prop := pos_sign (f32_add x (f32_of_N 1)) = true.
Definition profile_ok (a : AgentDefinition) : Prop :=
  match personality a with
  | None => True
  | Some p => (forall g, reading_ok (group_average p g)) /\ (forall k, reading_ok (trait_normalized p k))
  end.

Definition unit_score (x : f64) : Prop :=
  is_nan x = false /\ cmp_le f64_zero x = true /\ cmp_le x f64_one = true.

Lemma unit_of_reading_pos x : reading_ok x -> pos_sign (unit_of_reading x) = true.
Proof. intros H. apply f64_of_f32_pos, SFdiv_pos; [done|reflexivity]. Qed.

Lemma personality_score_pos a t : profile_ok a -> pos_sign (personality_score a t) = true.
Proof.
  unfold profile_ok, personality_score. destruct (personality a) as [p|]; [|done].
  intros [Hg Hk]. repeat case_match; try done; by apply unit_of_reading_pos.
Qed.

Lemma tool_coverage_pos a req :
  (forall l, req = Some l -> (N.of_nat (length l) <= u64_max)%N) ->
  pos_sign (tool_coverage_score a req) = true.
Proof.
  intros Hr. unfold tool_coverage_score. destruct req as [[|r req]|]; [done| |done].
  apply f64_ratio_pos; [simpl; lia|]. by apply Hr.
Qed.

Lemma complexity_level_cases s : complexity_level s ∈ [1; 2; 3]%N.
Proof. unfold complexity_level. repeat case_match; set_solver. Qed.

Lemma complexity_score_pos a t : pos_sign (complexity_score a t) = true.
Proof.
  unfold complexity_score.
  pose proof (complexity_level_cases (complexity a)) as H1.
  pose proof (complexity_level_cases (default "medium"%string (context_str t "complexity"))) as H2.
  rewrite !elem_of_cons, elem_of_nil in H1, H2.
  destruct_or! H1; destruct_or! H2; rewrite H1, H2; vm_compute; reflexivity.
Qed.

Lemma gpu_score_pos a t : pos_sign (gpu_score a t) = true.
Proof. unfold gpu_score. by repeat case_match. Qed.

Lemma domain_score_pos a t : pos_sign (domain_score a t) = true.
Proof. unfold domain_score. by repeat case_match. Qed.

#[local] Hint Resolve personality_score_pos complexity_score_pos gpu_score_pos domain_score_pos
  tool_coverage_pos : agnos.

Lemma score_unit a t req :
  profile_ok a -> (forall l, req = Some l -> (N.of_nat (length l) <= u64_max)%N) ->
  unit_score (score_agent_with_tools a t req).
Proof.
  intros Hp Hr. unfold score_agent_with_tools. apply f64_clamp_range; [|done..].
  apply pos_sign_not_nan. repeat apply f64_add_pos; apply f64_mul_pos; try reflexivity; auto with agnos.
Qed.

(** The tool lists of a task fit the address space. *)
Definition tools_fit (t : Task) : Prop :=
  forall l, extract_required_tools t = Some l -> (N.of_nat (length l) <= u64_max)%N.

(** For every task and every agent with an in-range personality, the score
    is a number between 0.0 and 1.0, never NaN. *)
Theorem score_agent_range a t :
  profile_ok a -> tools_fit t -> unit_score (score_agent a t).
Proof. intros Ha Ht. unfold score_agent. apply score_unit; [exact Ha|exact Ht]. Qed.

(** ** Ranking *)

Section ranking.
Context (agents : list AgentDefinition) (t : Task).
Hypothesis agents_ok : Forall profile_ok agents.
Hypothesis task_ok : tools_fit t.

Lemma by_score_desc_total {A} (x y : A * f64) :
  is_nan x.2 = false -> is_nan y.2 = false -> by_score_desc x y = true \/ by_score_desc y x = true.
Proof. intros. unfold by_score_desc. by apply cmp_le_total. Qed.

Lemma by_score_desc_trans {A} (x y z : A * f64) :
  is_nan x.2 = false -> is_nan y.2 = false -> is_nan z.2 = false ->
  by_score_desc x y = true -> by_score_desc y z = true -> by_score_desc x z = true.
Proof. unfold by_score_desc. intros. by apply (cmp_le_trans _ y.2). Qed.

Lemma score_not_nan a : a ∈ agents -> is_nan (score_agent a t) = false.
Proof.
  intros Ha. rewrite Forall_forall in agents_ok. by destruct (score_unit a t _ (agents_ok a Ha) task_ok).
Qed.

(** The first agent of maximal score. *)
Definition first_best (a : AgentDefinition) : Prop :=
  exists l1 l2, agents = l1 ++ a :: l2 /\
  (forall b, b ∈ agents -> cmp_le (score_agent b t) (score_agent a t) = true) /\
  (forall b, b ∈ l1 -> f64_lt (score_agent b t) (score_agent a t) = true).

Lemma first_best_of_sort {A} (f : A -> AgentDefinition) (l : list A) x :
  map f l = agents ->
  head (sort_by by_score_desc (map (fun y => (y, score_agent (f y) t)) l)) = Some x ->
  exists l1 l2, l = l1 ++ x.1 :: l2 /\
    (forall b, b ∈ agents -> cmp_le (score_agent b t) (score_agent (f x.1) t) = true) /\
    (forall b, b ∈ map f l1 -> f64_lt (score_agent b t) (score_agent (f x.1) t) = true).
Proof.
  intros Hm Hx. set (pairs := map _ l) in Hx.
  assert (forall p, p ∈ pairs -> p.2 = score_agent (f p.1) t /\ f p.1 ∈ agents) as Hpairs.
  { intros p (y & -> & Hy)%list_elem_of_fmap. split; [done|]. rewrite <-Hm.
    apply list_elem_of_fmap. eauto. }
  assert (Forall (fun p : A * f64 => is_nan p.2 = false) pairs) as Hnn.
  { apply Forall_forall. intros p Hp. destruct (Hpairs p Hp) as [-> ?]. by apply score_not_nan. }
  pose proof (sort_by_head_least _ _ _ _ by_score_desc_total by_score_desc_trans Hnn Hx) as Hle.
  apply sort_by_head_first in Hx as (p1 & p2 & Heq & Hlt).
  assert (x.2 = score_agent (f x.1) t /\ f x.1 ∈ agents) as [Hx2 Hx1] by (apply Hpairs; rewrite Heq; set_solver).
  apply fmap_app_inv in Heq as (l1 & l2' & Hp1 & Hp2 & ->).
  symmetry in Hp2. apply fmap_cons_inv in Hp2 as (y & l2 & Hy & -> & ->).
  subst x. simpl in *. exists l1, l2. split; [done|]. split.
  - intros b Hb. rewrite <-Hm in Hb. apply list_elem_of_fmap in Hb as (z & -> & Hz).
    apply (Hle (z, score_agent (f z) t)). unfold pairs. apply list_elem_of_fmap. eauto.
  - intros b (z & -> & Hz)%list_elem_of_fmap.
    assert (f z ∈ agents) by (rewrite <-Hm; apply list_elem_of_fmap; exists z; split; [done|]; set_solver).
    rewrite f64_lt_not_le by (apply score_not_nan; done). apply negb_true_iff.
    apply (Hlt (z, score_agent (f z) t)). rewrite Hp1. apply list_elem_of_fmap. eauto.
Qed.

Lemma sort_head_some {A} (le : A -> A -> bool) l : l <> [] -> exists x, head (sort_by le l) = Some x.
Proof.
  intros Hl. pose proof (length_sort_by le l) as Hlen.
  destruct (sort_by le l); [destruct l; done|eauto].
Qed.

Lemma pick_best_first_best :
  agents <> [] -> exists a, pick_best_agent agents t = Some a /\ first_best a.
Proof.
  intros Hne. unfold pick_best_agent.
  destruct (sort_head_some by_score_desc (map (fun a => (a, score_agent a t)) agents)) as [x Hx];
    [by destruct agents|].
  destruct (first_best_of_sort (fun a => a) agents x (map_id _) Hx) as (l1 & l2 & Heq & Hmax & Hlt).
  exists x.1. split.
  - rewrite Hx. by destruct agents.
  - exists l1, l2. rewrite (map_id l1) in Hlt. exact (conj Heq (conj Hmax Hlt)).
Qed.
End ranking.

(** [C37] [pick_best_agent] returns an agent of maximal score, the first one in
    roster order among equals, and nothing only on an empty roster. *)
Theorem pick_best_agent_optimal agents t :
  Forall profile_ok agents -> tools_fit t ->
  (pick_best_agent agents t = None <-> agents = []) /\
  forall a, pick_best_agent agents t = Some a -> first_best agents t a.
Proof.
  intros Ha Ht. destruct agents as [|a0 agents]; [by split|].
  destruct (pick_best_first_best (a0 :: agents) t Ha Ht) as (a & -> & Hb); [done|].
  split; [done|]. by intros ? [= <-].
Qed.

(** [rank_agents] scores every agent exactly as [score_agent] does. *)
Lemma rank_agents_scores agents t :
  rank_agents agents t =
  map (fun x => (x.1.1, x.2))
    (sort_by by_score_desc (map (fun ia => (ia, score_agent ia.2 t)) (enumerate_from 0 agents))).
Proof.
  unfold rank_agents. rewrite <-(sort_by_map _ by_score_desc by_score_desc) by done.
  by rewrite List.map_map.
Qed.

(** The key a task is delegated to. *)
Definition delegate_key (manager : AgentDefinition) (agents : list AgentDefinition) (t : Task) : string :=
  match pick_best_agent agents t with Some a => agent_key a | None => agent_key manager end.

Lemma first_best_unique_key agents t l1 l2 a l1' l2' b :
  Forall profile_ok agents -> tools_fit t ->
  agents = l1 ++ a :: l2 -> agents = l1' ++ b :: l2' ->
  (forall c, c ∈ agents -> cmp_le (score_agent c t) (score_agent a t) = true) ->
  (forall c, c ∈ agents -> cmp_le (score_agent c t) (score_agent b t) = true) ->
  (forall c, c ∈ l1 -> f64_lt (score_agent c t) (score_agent a t) = true) ->
  (forall c, c ∈ l1' -> f64_lt (score_agent c t) (score_agent b t) = true) ->
  a = b.
Proof.
  intros Hok Ht Ha Hb Hma Hmb Hla Hlb.
  assert (forall c, c ∈ agents -> is_nan (score_agent c t) = false) as Hnn
    by (intros c Hc; exact (score_not_nan agents t Hok Ht c Hc)).
  assert (a ∈ agents) as Hain by (rewrite Ha; apply elem_of_middle).
  assert (b ∈ agents) as Hbin by (rewrite Hb; apply elem_of_middle).
  pose proof Hb as Hab. rewrite Ha in Hab.
  destruct (app_cons_split _ _ _ _ _ _ Hab) as [?|[Hin|Hin]]; [assumption|exfalso..].
  - specialize (Hlb a Hin). rewrite f64_lt_not_le in Hlb by (apply Hnn; assumption).
    rewrite (Hma b Hbin) in Hlb. discriminate.
  - specialize (Hla b Hin). rewrite f64_lt_not_le in Hla by (apply Hnn; assumption).
    rewrite (Hmb a Hain) in Hla. discriminate.
Qed.

Lemma delegate_one_key manager agents t :
  Forall profile_ok agents -> tools_fit t ->
  delegate_one manager agents t = Some (task_id t, delegate_key manager agents t).
Proof.
  intros Ha Ht. unfold delegate_one, delegate_key. destruct agents as [|a0 rest] eqn:E; [done|].
  rewrite <-E in *. assert (agents <> []) as Hne by (by rewrite E). clear a0 rest E.
  destruct (pick_best_first_best agents t Ha Ht) as (a & -> & l1 & l2 & Hl & Hmax & Hlt); [assumption|].
  rewrite rank_agents_scores.
  destruct (sort_head_some by_score_desc
    (map (fun ia => (ia, score_agent ia.2 t)) (enumerate_from 0 agents))) as [x Hx]; [by destruct agents|].
  destruct (first_best_of_sort agents t Ha Ht snd (enumerate_from 0 agents) x
    (enumerate_from_snd 0 agents) Hx) as (m1 & m2 & Hm & Hmax' & Hlt').
  destruct (sort_by by_score_desc _) as [|h tl]; [discriminate|]. injection Hx as ->.
  destruct x as [[i b] s]. simpl in *.
  destruct (enumerate_from_lookup 0 agents i b) as [_ Hi]; [rewrite Hm; apply elem_of_middle|].
  rewrite Nat.sub_0_r in Hi. rewrite Hi. do 2 f_equal. f_equal.
  eapply (first_best_unique_key agents t (map snd m1) (map snd m2) b l1 l2 a); try assumption.
  rewrite <-(enumerate_from_snd 0 agents), Hm, map_app. done.
Qed.

(** Hierarchical delegation never fails and assigns every task, in order,
    to the agent [pick_best_agent] chooses, or to the manager when there are
    no workers. *)
Theorem delegate_tasks_correct manager agents ts :
  Forall profile_ok agents -> Forall tools_fit ts ->
  delegate_tasks manager agents ts =
    Some (map (fun t => (task_id t, delegate_key manager agents t)) ts).
Proof.
  intros Ha. induction ts as [|t ts IH]; intros Hts; simpl; [done|].
  apply Forall_cons in Hts as [Ht Hts]. by rewrite delegate_one_key, IH.
Qed.

(** ** Concrete instances *)

Definition coder : AgentDefinition := with_tools (AgentDefinition_new "coder" "dev" "code") ["git"; "shell"]%string.
Definition writer : AgentDefinition := with_tools (AgentDefinition_new "writer" "doc" "write") ["git"]%string.
Definition shell_task : Task :=
  with_context (Task_new 7 "ship") "required_tools" (Arr [Str "git"; Str "shell"]).

Lemma shell_task_fits : tools_fit shell_task.
Proof. intros l Hl. vm_compute in Hl. injection Hl as <-. vm_compute. discriminate. Qed.

Lemma roster_ok : Forall profile_ok [writer; coder].
Proof. by repeat constructor. Qed.

Lemma score_agent_range_witness : unit_score (score_agent coder shell_task).
Proof. apply (score_agent_range coder shell_task); [exact I|exact shell_task_fits]. Defined.

Lemma pick_best_agent_optimal_witness : first_best [writer; coder] shell_task coder.
Proof.
  apply (proj2 (pick_best_agent_optimal [writer; coder] shell_task roster_ok shell_task_fits)).
  vm_compute. reflexivity.
Defined.

Lemma delegate_tasks_correct_witness :
  delegate_tasks coder [writer; coder] [shell_task] =
    Some (map (fun t => (task_id t, delegate_key coder [writer; coder] t)) [shell_task]) /\
  delegate_key coder [writer; coder] shell_task = "coder"%string.
Proof.
  split; [|vm_compute; reflexivity].
  apply (delegate_tasks_correct coder [writer; coder] [shell_task] roster_ok).
  apply Forall_cons. split; [exact shell_task_fits|apply Forall_nil_2].
Defined.
