(* ===== verification/Text.v ===== *)
(** * Text operations

    [str] is a byte string (UTF-8): the operations of the standard library the
    sources use on it, with byte offsets. Slicing off a character boundary
    panics, which is [None]. *)

From S2P Require Import Prelude.
From Stdlib Require Import Ascii String.
From stdpp Require Import base strings pretty numbers list.

Local Open Scope string_scope.
#[local] Arguments String.append !_ _ / : simpl nomatch.

Definition nl : string := String (ascii_of_nat 10) "".
Definition cr : string := String (ascii_of_nat 13) "".
Definition dquote : string := String (ascii_of_nat 34) "".

Fixpoint str_take (n : nat) (s : string) : string :=
  match n, s with S n, String c s => String c (str_take n s) | _, _ => "" end.
Fixpoint str_drop (n : nat) (s : string) : string :=
  match n, s with S n, String _ s => str_drop n s | _, _ => s end.

Fixpoint str_nth (n : nat) (s : string) : option ascii :=
  match n, s with
  | O, String c _ => Some c
  | S n, String _ s => str_nth n s
  | _, "" => None
  end.

(** A UTF-8 continuation byte is 10xxxxxx. *)
Definition is_continuation (c : ascii) : bool :=
  let n := N_of_ascii c in (128 <=? n)%N && (n <? 192)%N.

(** [str::is_char_boundary]. *)
Definition is_char_boundary (s : string) (i : nat) : bool :=
  if (i =? 0)%nat then true
  else if (i =? String.length s)%nat then true
  else match str_nth i s with Some c => negb (is_continuation c) | None => false end.

(** [&s[..i]] and [&s[i..]]. *)
Definition slice_to (s : string) (i : nat) : option string :=
  if is_char_boundary s i then Some (str_take i s) else None.
Definition slice_from (s : string) (i : nat) : option string :=
  if is_char_boundary s i then Some (str_drop i s) else None.

(** [str::find] of a pattern: offset of the first occurrence. *)
Fixpoint str_find (needle s : string) : option nat :=
  if starts_with needle s then Some 0
  else match s with
       | "" => None
       | String _ s => match str_find needle s with Some i => Some (S i) | None => None end
       end.

(** [trim]: the characters with the Unicode property White_Space, by their UTF-8 bytes. *)
Definition bytes (l : list N) : string := foldr (fun n s => String (ascii_of_N n) s) "" l.

Definition white_chars : list string := map bytes
  ([[9]; [10]; [11]; [12]; [13]; [32]; [194; 133]; [194; 160]; [225; 154; 128];
    [226; 128; 128]; [226; 128; 129]; [226; 128; 130]; [226; 128; 131]; [226; 128; 132];
    [226; 128; 133]; [226; 128; 134]; [226; 128; 135]; [226; 128; 136]; [226; 128; 137];
    [226; 128; 138]; [226; 128; 168]; [226; 128; 169]; [226; 128; 175]; [226; 129; 159];
    [227; 128; 128]])%N.

(** The rest of the text after a leading white-space character. *)
Definition skip_white (s : string) : option string :=
  match List.find (fun w => starts_with w s) white_chars with
  | Some w => Some (str_drop (String.length w) s)
  | None => None
  end.

(** Every turn skips at least one byte. *)
Fixpoint trim_start_turns (turns : nat) (s : string) : string :=
  match turns with
  | O => s
  | S turns => match skip_white s with Some r => trim_start_turns turns r | None => s end
  end.
Definition trim_start (s : string) : string := trim_start_turns (String.length s) s.

(** Cuts at the first position from where on there is only white space. *)
Fixpoint trim_end (s : string) : string :=
  if bool_decide (trim_start s = "") then ""
  else match s with "" => "" | String c s' => String c (trim_end s') end.
Definition trim (s : string) : string := trim_end (trim_start s).

(** [join(sep)] *)
Fixpoint str_join (sep : string) (l : list string) : string :=
  match l with
  | [] => ""
  | [s] => s
  | s :: l => s ++ sep ++ str_join sep l
  end.

(** [s.split(c)] on a character: always at least one piece. *)
Fixpoint str_split (sep : ascii) (s : string) : list string :=
  match s with
  | "" => [""]
  | String c s' =>
      if Ascii.eqb c sep then "" :: str_split sep s'
      else match str_split sep s' with
           | [] => [String c ""]
           | p :: ps => String c p :: ps
           end
  end.

(** ** Facts *)

Lemma str_take_drop n s : str_take n s ++ str_drop n s = s.
Proof. revert s. induction n as [|n IH]; intros [|c s]; simpl; try done. by rewrite IH. Qed.

Lemma length_str_take n s : String.length (str_take n s) = n `min` String.length s.
Proof. revert s. induction n as [|n IH]; intros [|c s]; simpl; try done. by rewrite IH. Qed.

Lemma str_app_assoc (a b c : string) : (a ++ b) ++ c = a ++ b ++ c.
Proof. induction a as [|x a IH]; simpl; [done|]. by rewrite IH. Qed.

Lemma str_app_nil_r (a : string) : a ++ "" = a.
Proof. induction a as [|x a IH]; simpl; [done|]. by rewrite IH. Qed.

Lemma length_str_app (a b : string) : String.length (a ++ b) = String.length a + String.length b.
Proof. induction a as [|x a IH]; simpl; [done|]. by rewrite IH. Qed.

Lemma str_drop_app (a b : string) : str_drop (String.length a) (a ++ b) = b.
Proof. by induction a. Qed.

Lemma str_take_app (a b : string) : str_take (String.length a) (a ++ b) = a.
Proof. induction a as [|x a IH]; simpl; [by destruct b|]. by rewrite IH. Qed.

Lemma str_drop_app_le n (a b : string) :
  n <= String.length a -> str_drop n (a ++ b) = str_drop n a ++ b.
Proof.
  revert a. induction n as [|n IH]; intros [|c a] Hn; simpl in *; try done; [lia|]. apply IH. lia.
Qed.

Lemma starts_with_spec p s : starts_with p s = true <-> exists r, s = p ++ r.
Proof.
  unfold starts_with. revert s. induction p as [|c p IH]; intros s; simpl.
  { split; [intros _; by exists s|]. by destruct s. }
  destruct s as [|d s].
  { split; [done|]. intros [r Hr]. done. }
  cbn [String.prefix]. destruct (ascii_dec c d) as [->|Hne].
  - rewrite IH. split; intros [r Hr]; exists r; [by rewrite Hr|by simplify_eq].
  - split; [done|]. intros [r Hr]. simplify_eq.
Qed.

Lemma starts_with_nil s : starts_with "" s = true.
Proof. by destruct s. Qed.

(** [find] locates an occurrence, and there is none before it. *)
Lemma str_find_Some needle s i :
  str_find needle s = Some i ->
  s = str_take i s ++ needle ++ str_drop (i + String.length needle) s /\
  forall j, j < i -> starts_with needle (str_drop j s) = false.
Proof.
  revert i. induction s as [|c s IH]; intros i; cbn [str_find].
  - destruct (starts_with needle "") eqn:E; [|done]. intros [= <-].
    apply starts_with_spec in E as [r Hr]. destruct needle; [|done]. split; [done|lia].
  - destruct (starts_with needle (String c s)) eqn:E.
    + intros [= <-]. apply starts_with_spec in E as [r Hr]. split; [|lia].
      rewrite Hr. simpl. by rewrite str_drop_app.
    + destruct (str_find needle s) as [k|]; [|done]. intros [= <-].
      destruct (IH k eq_refl) as [Hs Hn]. split; [simpl; by f_equal|].
      intros [|j] Hj; [done|]. simpl. apply Hn. lia.
Qed.

Lemma str_contains_find needle s :
  str_contains needle s = match str_find needle s with Some _ => true | None => false end.
Proof.
  induction s as [|c s IH]; cbn [str_find str_contains].
  - by destruct (starts_with needle "").
  - destruct (starts_with needle (String c s)); [done|]. cbn [orb]. rewrite IH.
    by destruct (str_find needle s).
Qed.

Lemma str_contains_spec needle s :
  str_contains needle s = true <-> exists a b, s = a ++ needle ++ b.
Proof.
  split.
  - rewrite str_contains_find. destruct (str_find needle s) as [i|] eqn:E; [|done].
    apply str_find_Some in E as [Hs _]. eauto.
  - intros (a & b & ->). induction a as [|c a IH].
    + change ("" ++ needle ++ b) with (needle ++ b).
      assert (starts_with needle (needle ++ b) = true) as H by (apply starts_with_spec; eauto).
      destruct (needle ++ b); cbn [str_contains]; by rewrite H.
    + change (String c a ++ needle ++ b) with (String c (a ++ needle ++ b)).
      cbn [str_contains]. rewrite IH. apply orb_true_r.
Qed.

(** Lower-casing is byte-wise. *)
Lemma to_ascii_lowercase_app a b :
  to_ascii_lowercase (a ++ b) = to_ascii_lowercase a ++ to_ascii_lowercase b.
Proof. induction a as [|c a IH]; simpl; [done|]. by rewrite IH. Qed.

Lemma length_to_ascii_lowercase s : String.length (to_ascii_lowercase s) = String.length s.
Proof. induction s as [|c s IH]; simpl; [done|]. by rewrite IH. Qed.

(** [join] and [split] are inverse on pieces without the separator. *)
Fixpoint has_char (c : ascii) (s : string) : bool :=
  match s with "" => false | String d s => Ascii.eqb d c || has_char c s end.

Lemma str_split_join sep s : str_join (String sep "") (str_split sep s) = s.
Proof.
  induction s as [|c s IH]; [done|]. simpl. destruct (Ascii.eqb_spec c sep) as [->|Hne].
  - destruct (str_split sep s) as [|p ps] eqn:E; [|by rewrite <-IH].
    exfalso. destruct s as [|d s]; simpl in E; [done|]. repeat case_match; done.
  - destruct (str_split sep s) as [|p ps]; simpl; [simpl in IH; by subst|].
    destruct ps; simpl in *; by f_equal.
Qed.

Lemma str_split_free c s : has_char c s = false -> str_split c s = [s].
Proof.
  induction s as [|d s IH]; [done|]. cbn [has_char str_split]. intros [-> Hs]%orb_false_iff. by rewrite IH.
Qed.

Lemma str_split_app c a b : has_char c a = false -> str_split c (a ++ String c b) = a :: str_split c b.
Proof.
  induction a as [|d a IH]; cbn [has_char].
  - intros _. simpl. by rewrite Ascii.eqb_refl.
  - intros [Hd Ha]%orb_false_iff. simpl. by rewrite Hd, IH.
Qed.

(** ** Characters *)

(** [chars()]: a character is a byte and the continuation bytes behind it. *)
Fixpoint utf8_chars (s : string) : list string :=
  match s with
  | "" => []
  | String c s' =>
      match utf8_chars s' with
      | String d t :: l => if is_continuation d then String c (String d t) :: l
                           else String c "" :: String d t :: l
      | l => String c "" :: l
      end
  end.

Definition concat_chars (l : list string) : string := foldr String.append "" l.

Lemma concat_utf8_chars s : concat_chars (utf8_chars s) = s.
Proof.
  induction s as [|c s IH]; simpl; [done|]. destruct (utf8_chars s) as [|[|d t] l]; simpl in *.
  - by rewrite <-IH.
  - by rewrite <-IH.
  - destruct (is_continuation d); simpl; by rewrite <-IH.
Qed.

Lemma concat_chars_app a b : concat_chars (a ++ b) = concat_chars a ++ concat_chars b.
Proof. induction a as [|x a IH]; simpl; [done|]. by rewrite IH, str_app_assoc. Qed.

(** ** Decimal numbers *)

Definition digit_value (c : ascii) : option N :=
  let n := N_of_ascii c in if (48 <=? n)%N && (n <=? 57)%N then Some (n - 48)%N else None.
(** The digits of [s] behind those of [acc], up to a bound. *)
Fixpoint parse_digits (max : N) (acc : N) (s : string) : option N :=
  match s with
  | "" => Some acc
  | String c s =>
      match digit_value c with
      | None => None
      | Some d => if (max <? acc * 10 + d)%N then None else parse_digits max (acc * 10 + d)%N s
      end
  end.

Lemma digit_value_char d : (d < 10)%N -> digit_value (pretty_N_char d) = Some d.
Proof.
  intros H. assert (d = 0 \/ d = 1 \/ d = 2 \/ d = 3 \/ d = 4 \/ d = 5 \/ d = 6 \/ d = 7 \/ d = 8 \/ d = 9)%N as Hd by lia.
  repeat destruct Hd as [->|Hd]; try done. by subst.
Qed.

Lemma parse_digits_go max x s : (x <= max)%N -> parse_digits max 0 (pretty_N_go x s) = parse_digits max x s.
Proof.
  revert s. induction (N.lt_wf_0 x) as [x _ IH]. intros s Hx.
  destruct (decide (x = 0)%N) as [->|Hne]; [by rewrite pretty_N_go_0|].
  rewrite pretty_N_go_step by lia. pose proof (N.div_lt x 10 ltac:(lia) ltac:(lia)) as Hlt.
  rewrite IH by lia. cbn [parse_digits]. rewrite digit_value_char by (by apply N.mod_lt).
  replace (x / 10 * 10 + x mod 10)%N with x by (rewrite N.mul_comm; apply N.div_mod; lia).
  destruct (N.ltb_spec max x); [exfalso; lia|done].
Qed.

(** Reading back a number that was printed. *)
Lemma parse_digits_pretty max n : (n <= max)%N -> parse_digits max 0 (pretty n) = Some n.
Proof.
  intros H. unfold pretty, pretty_N. destruct (decide (n = 0)%N) as [->|_].
  - by destruct max.
  - by rewrite parse_digits_go.
Qed.

Lemma parse_digits_bound max acc s n : (acc <= max)%N -> parse_digits max acc s = Some n -> (n <= max)%N.
Proof.
  revert acc. induction s as [|c s IH]; intros acc Ha; cbn [parse_digits]; [by intros [= <-]|].
  destruct (digit_value c) as [d|]; [|done]. destruct (N.ltb_spec max (acc * 10 + d)); [done|by apply IH].
Qed.

(** A printed number has digits only, and at least one. *)
Lemma has_char_pretty_go c x s :
  digit_value c = None -> has_char c s = false -> has_char c (pretty_N_go x s) = false.
Proof.
  intros Hc. revert s. induction (N.lt_wf_0 x) as [x _ IH]. intros s Hs.
  destruct (decide (x = 0)%N) as [->|Hne]; [by rewrite pretty_N_go_0|].
  rewrite pretty_N_go_step by lia. apply IH; [apply N.div_lt; lia|]. cbn [has_char]. rewrite Hs, orb_false_r.
  apply Ascii.eqb_neq. intros E. rewrite <-E, digit_value_char in Hc by (by apply N.mod_lt). done.
Qed.
Lemma has_char_pretty c (n : N) : digit_value c = None -> has_char c (pretty n) = false.
Proof.
  intros Hc. unfold pretty, pretty_N. destruct (decide (n = 0)%N); [|by apply has_char_pretty_go].
  cbn [has_char]. rewrite orb_false_r. apply Ascii.eqb_neq. intros <-. done.
Qed.
Lemma pretty_not_empty (n : N) : pretty n <> "".
Proof.
  intros E. pose proof (parse_digits_pretty n n ltac:(lia)) as H. rewrite E in H. injection H as <-. done.
Qed.
