(* ===== verification/Ssrf.v ===== *)
(** * Outbound URL checks (server/ssrf.rs)

    [is_safe_url] refuses URLs that point into private networks. Addresses are
    octets and 16-bit segments as in [std::net]; the URL parser is a parameter.
    The address tests are shown equal to membership in lists of CIDR blocks. *)

From S2P Require Import Prelude.
From S2P Require Import Text.
From Stdlib Require Import Ascii String.
From stdpp Require Import base strings numbers list.

Local Open Scope string_scope.

(** ** Addresses of [std::net] *)

Record Ipv4Addr := mkIpv4 { o0 : N; o1 : N; o2 : N; o3 : N }.
Record Ipv6Addr := mkIpv6 { s0 : N; s1 : N; s2 : N; s3 : N; s4 : N; s5 : N; s6 : N; s7 : N }.
Inductive IpAddr := V4 (a : Ipv4Addr) | V6 (a : Ipv6Addr).

Definition v4_ok (a : Ipv4Addr) : Prop := (o0 a < 256 /\ o1 a < 256 /\ o2 a < 256 /\ o3 a < 256)%N.
Definition v6_ok (a : Ipv6Addr) : Prop :=
  (s0 a < 65536 /\ s1 a < 65536 /\ s2 a < 65536 /\ s3 a < 65536 /\
   s4 a < 65536 /\ s5 a < 65536 /\ s6 a < 65536 /\ s7 a < 65536)%N.

Section std_net.
Local Open Scope N_scope.

(** [is_private]: 10/8, 172.16/12, 192.168/16 as the standard library tests them. *)
Definition v4_is_private (a : Ipv4Addr) : bool :=
  (o0 a =? 10) || ((o0 a =? 172) && (16 <=? o1 a) && (o1 a <=? 31)) || ((o0 a =? 192) && (o1 a =? 168)).
Definition v4_is_loopback (a : Ipv4Addr) : bool := o0 a =? 127.
Definition v4_is_link_local (a : Ipv4Addr) : bool := (o0 a =? 169) && (o1 a =? 254).
Definition v4_is_unspecified (a : Ipv4Addr) : bool :=
  (o0 a =? 0) && (o1 a =? 0) && (o2 a =? 0) && (o3 a =? 0).

Definition v6_is_loopback (a : Ipv6Addr) : bool :=
  (s0 a =? 0) && (s1 a =? 0) && (s2 a =? 0) && (s3 a =? 0) && (s4 a =? 0) && (s5 a =? 0) &&
  (s6 a =? 0) && (s7 a =? 1).
Definition to_ipv4_mapped (a : Ipv6Addr) : option Ipv4Addr :=
  if (s0 a =? 0) && (s1 a =? 0) && (s2 a =? 0) && (s3 a =? 0) && (s4 a =? 0) && (s5 a =? 65535)
  then Some (mkIpv4 (s6 a / 256) (s6 a mod 256) (s7 a / 256) (s7 a mod 256)) else None.
End std_net.

(** ** The code *)

Definition is_private_ipv4 (v4 : Ipv4Addr) : bool :=
  v4_is_private v4 || v4_is_loopback v4 || v4_is_link_local v4 ||
  ((o0 v4 =? 169)%N && (o1 v4 =? 254)%N) || v4_is_unspecified v4 || (o0 v4 =? 0)%N.

Definition is_private_ip (ip : IpAddr) : bool :=
  match ip with
  | V4 v4 => is_private_ipv4 v4
  | V6 v6 =>
      if v6_is_loopback v6 then true
      else match to_ipv4_mapped v6 with
      | Some mapped => is_private_ipv4 mapped
      | None =>
          if (N.land (s0 v6) 0xfe00 =? 0xfc00)%N then true
          else if (N.land (s0 v6) 0xffc0 =? 0xfe80)%N then true
          else false
      end
  end.

(** [url::Host] and the parts of [url::Url] the check reads. *)
Inductive Host := Domain (d : string) | HostIpv4 (a : Ipv4Addr) | HostIpv6 (a : Ipv6Addr).
Record Url := mkUrl { scheme : string; host : option Host; host_str : option string }.

Definition ends_with (p s : string) : bool :=
  (String.length p <=? String.length s)%nat &&
  bool_decide (str_drop (String.length s - String.length p) s = p).

Definition internal_name (h : string) : bool :=
  let lower := to_ascii_lowercase h in
  String.eqb lower "localhost" || String.eqb lower "127.0.0.1" || String.eqb lower "::1" ||
  String.eqb lower "[::1]" || ends_with ".local" lower || ends_with ".internal" lower ||
  ends_with ".localhost" lower.

Definition is_safe_url (parse : string -> option Url) (url : string) : bool :=
  match parse url with
  | None => false
  | Some parsed =>
      if negb (String.eqb (scheme parsed) "http") && negb (String.eqb (scheme parsed) "https") then false
      else match host_str parsed with
      | None => false
      | Some h =>
          if internal_name h then false
          else
            let private := match host parsed with
                           | Some (HostIpv4 v4) => is_private_ipv4 v4
                           | Some (HostIpv6 v6) => is_private_ip (V6 v6)
                           | _ => false
                           end in
            negb private
      end
  end.

(** ** CIDR blocks *)

Section blocks.
Local Open Scope N_scope.

Definition v4_bits (a : Ipv4Addr) : N := o0 a * 2^24 + o1 a * 2^16 + o2 a * 2^8 + o3 a.
Definition v6_bits (a : Ipv6Addr) : N :=
  s0 a * 2^112 + s1 a * 2^96 + s2 a * 2^80 + s3 a * 2^64 + s4 a * 2^48 + s5 a * 2^32 + s6 a * 2^16 + s7 a.

(** [base/len] contains [addr], for addresses of [w] bits. *)
Definition in_block (w : N) (addr : N) (block : N * N) : Prop :=
  addr / 2^(w - block.2) = block.1 / 2^(w - block.2).

(** 0/8, 10/8, 127/8, 169.254/16, 172.16/12, 192.168/16 *)
Definition private_v4_blocks : list (N * N) :=
  [(0, 8); (10 * 2^24, 8); (127 * 2^24, 8); (169 * 2^24 + 254 * 2^16, 16);
   (172 * 2^24 + 16 * 2^16, 12); (192 * 2^24 + 168 * 2^16, 16)].

(** ::1/128, fc00::/7, fe80::/10 and the IPv4 blocks below ::ffff:0:0/96 *)
Definition private_v6_blocks : list (N * N) :=
  [(1, 128); (0xfc00 * 2^112, 7); (0xfe80 * 2^112, 10)] ++
  map (fun b => (0xffff * 2^32 + b.1, b.2 + 96)) private_v4_blocks.

Lemma div_mul_add a b k : b < k -> (a * k + b) / k = a.
Proof. intros H. rewrite N.div_add_l by lia. rewrite N.div_small by done. lia. Qed.

Lemma in_blocks_cons w addr b l :
  (exists b', In b' (b :: l) /\ in_block w addr b') <-> in_block w addr b \/ exists b', In b' l /\ in_block w addr b'.
Proof. simpl. naive_solver. Qed.
Lemma in_blocks_nil w addr : (exists b', In b' [] /\ in_block w addr b') <-> False.
Proof. simpl. naive_solver. Qed.

Lemma v4_top8 a : v4_ok a -> v4_bits a / 2^24 = o0 a.
Proof.
  unfold v4_ok, v4_bits. intros H.
  replace (_ + o3 a) with (o0 a * 2^24 + (o1 a * 2^16 + o2 a * 2^8 + o3 a)) by lia. apply div_mul_add. lia.
Qed.
Lemma v4_top16 a : v4_ok a -> v4_bits a / 2^16 = o0 a * 2^8 + o1 a.
Proof.
  unfold v4_ok, v4_bits. intros H.
  replace (_ + o3 a) with ((o0 a * 2^8 + o1 a) * 2^16 + (o2 a * 2^8 + o3 a)) by lia. apply div_mul_add. lia.
Qed.
Lemma v4_top12 a : v4_ok a -> v4_bits a / 2^20 = o0 a * 2^4 + o1 a / 2^4.
Proof.
  intros H. replace (2^20) with (2^16 * 2^4) by done. rewrite <-N.Div0.div_div, v4_top16 by done.
  replace (o0 a * 2^8 + o1 a) with (o0 a * 2^4 * 2^4 + o1 a) by lia. by rewrite N.div_add_l.
Qed.

Lemma is_private_ipv4_spec a : v4_ok a ->
  is_private_ipv4 a = true <-> exists b, In b private_v4_blocks /\ in_block 32 (v4_bits a) b.
Proof.
  intros Ha. pose proof Ha as (H0 & H1 & H2 & H3). unfold private_v4_blocks.
  rewrite !in_blocks_cons, in_blocks_nil. unfold in_block. cbn [fst snd].
  change (32 - 8) with 24. change (32 - 16) with 16. change (32 - 12) with 20.
  rewrite v4_top8, v4_top16, v4_top12 by done.
  change (0 / 2^24) with 0. change (10 * 2^24 / 2^24) with 10. change (127 * 2^24 / 2^24) with 127.
  change ((169 * 2^24 + 254 * 2^16) / 2^16) with 43518. change ((172 * 2^24 + 16 * 2^16) / 2^20) with 2753.
  change ((192 * 2^24 + 168 * 2^16) / 2^16) with 49320.
  unfold is_private_ipv4, v4_is_private, v4_is_loopback, v4_is_link_local, v4_is_unspecified.
  rewrite !orb_true_iff, !andb_true_iff, !N.eqb_eq, !N.leb_le.
  assert (16 <= o1 a <= 31 <-> o1 a / 2^4 = 1) as Hdiv.
  { change (2^4) with 16. split; [intros; symmetry; apply N.div_unique with (o1 a - 16); lia|].
    intros Hd. pose proof (N.div_mod' (o1 a) 16) as Hm. rewrite Hd in Hm.
    assert (o1 a mod 16 < 16) by (apply N.mod_lt; lia). clear Hd.
    generalize dependent (o1 a mod 16). intros; lia. }
  assert (o1 a / 2^4 < 16) by (apply N.Div0.div_lt_upper_bound; lia).
  generalize dependent (o1 a / 2^4). intros q Hq Hlt. lia.
Qed.

Lemma land_high x k : x < 2^16 -> k <= 16 -> N.land x (N.ldiff (N.ones 16) (N.ones k)) = x / 2^k * 2^k.
Proof.
  intros Hx Hk. rewrite <-N.shiftr_div_pow2, <-N.shiftl_mul_pow2, <-N.ldiff_ones_r.
  replace (N.land x (N.ldiff (N.ones 16) (N.ones k))) with (N.ldiff (N.land x (N.ones 16)) (N.ones k)).
  - by rewrite N.land_ones, N.mod_small.
  - apply N.bits_inj. intros i. by rewrite !N.ldiff_spec, !N.land_spec, !N.ldiff_spec, andb_assoc.
Qed.

Lemma split_unique a b c d k : b < k -> d < k -> a * k + b = c * k + d <-> a = c /\ b = d.
Proof.
  intros Hb Hd. split; [|by intros [-> ->]]. intros E.
  assert (a = c) as ->; [|lia]. rewrite <-(div_mul_add a b k Hb), E. by apply div_mul_add.
Qed.

(** A block below a common prefix of 96 bits. *)
Lemma in_block_below hi low base len pre : low < 2^32 -> base < 2^32 -> len <= 32 ->
  in_block 128 (hi * 2^32 + low) (pre * 2^32 + base, len + 96) <-> hi = pre /\ in_block 32 low (base, len).
Proof.
  intros Hl Hb Hn. unfold in_block. cbn [fst snd]. replace (128 - (len + 96)) with (32 - len) by lia.
  assert (2^32 = 2^len * 2^(32 - len)) as E by (rewrite <-N.pow_add_r; f_equal; lia).
  assert (forall x y, y < 2^32 -> (x * 2^32 + y) / 2^(32 - len) = x * 2^len + y / 2^(32 - len)) as Hdiv.
  { intros x y _. rewrite E, N.mul_assoc. by rewrite N.div_add_l by (apply N.pow_nonzero; lia). }
  assert (forall y, y < 2^32 -> y / 2^(32 - len) < 2^len) as Hlt.
  { intros y Hy. apply N.Div0.div_lt_upper_bound. rewrite N.mul_comm, <-E. done. }
  rewrite !Hdiv by done. apply split_unique; auto.
Qed.

Definition v6_high (a : Ipv6Addr) : N :=
  s0 a * 2^80 + s1 a * 2^64 + s2 a * 2^48 + s3 a * 2^32 + s4 a * 2^16 + s5 a.
Definition v6_low (a : Ipv6Addr) : N := s6 a * 2^16 + s7 a.

Lemma v6_bits_split a : v6_bits a = v6_high a * 2^32 + v6_low a.
Proof. unfold v6_bits, v6_high, v6_low. lia. Qed.

Lemma v6_top a k : v6_ok a -> k <= 16 -> v6_bits a / 2^(112 + k) = s0 a / 2^k.
Proof.
  unfold v6_ok. intros H Hk. rewrite N.pow_add_r, <-N.Div0.div_div. f_equal. unfold v6_bits.
  replace (_ + s7 a) with (s0 a * 2^112 + (s1 a * 2^96 + s2 a * 2^80 + s3 a * 2^64 + s4 a * 2^48 +
    s5 a * 2^32 + s6 a * 2^16 + s7 a)) by lia. apply div_mul_add. lia.
Qed.

(** The address an IPv4-mapped one stands for has the low 32 bits. *)
Lemma mapped_bits a m : v6_ok a -> to_ipv4_mapped a = Some m -> v4_ok m /\ v4_bits m = v6_low a /\ v6_high a = 65535.
Proof.
  unfold v6_ok, to_ipv4_mapped. intros H. destruct (_ && _) eqn:E; [|done]. intros [= <-].
  rewrite !andb_true_iff, !N.eqb_eq in E. unfold v4_ok, v4_bits, v6_low, v6_high; cbn.
  pose proof (N.div_mod' (s6 a) 256). pose proof (N.div_mod' (s7 a) 256).
  assert (s6 a mod 256 < 256) by (apply N.mod_lt; lia). assert (s7 a mod 256 < 256) by (apply N.mod_lt; lia).
  assert (s6 a / 256 < 256) by (apply N.Div0.div_lt_upper_bound; lia).
  assert (s7 a / 256 < 256) by (apply N.Div0.div_lt_upper_bound; lia). lia.
Qed.

Lemma not_mapped_high a : v6_ok a -> to_ipv4_mapped a = None -> v6_high a <> 65535.
Proof.
  unfold v6_ok, to_ipv4_mapped. intros H. destruct (_ && _) eqn:E; [done|]. intros _ Hh.
  apply not_true_iff_false in E. apply E. rewrite !andb_true_iff, !N.eqb_eq. unfold v6_high in Hh. lia.
Qed.

Lemma v4_blocks_bounded : Forall (fun b => b.1 < 2^32 /\ b.2 <= 32) private_v4_blocks.
Proof. repeat constructor. all: cbn; lia. Qed.

Lemma in_mapped_blocks a : v6_ok a ->
  (exists b, In b (map (fun b => (0xffff * 2^32 + b.1, b.2 + 96)) private_v4_blocks) /\ in_block 128 (v6_bits a) b)
  <-> v6_high a = 65535 /\ exists b, In b private_v4_blocks /\ in_block 32 (v6_low a) b.
Proof.
  intros H. pose proof v4_blocks_bounded as Hb. rewrite List.Forall_forall in Hb.
  assert (v6_low a < 2^32) as Hl by (unfold v6_ok, v6_low in *; lia).
  assert (forall b, In b private_v4_blocks ->
    in_block 128 (v6_bits a) (0xffff * 2^32 + b.1, b.2 + 96) <-> v6_high a = 65535 /\ in_block 32 (v6_low a) b) as Hin.
  { intros [base len] Hin. destruct (Hb _ Hin). rewrite v6_bits_split. by apply in_block_below. }
  split.
  - intros (b & (b0 & <- & Hin0)%in_map_iff & Hblk). apply Hin in Hblk as [? ?]; [|done]. eauto.
  - intros (Hh & b & Hin0 & Hblk). exists (0xffff * 2^32 + b.1, b.2 + 96).
    split; [apply in_map_iff; by exists b|]. by apply Hin.
Qed.

Lemma v6_loopback_spec a : v6_ok a -> v6_is_loopback a = true <-> v6_bits a = 1.
Proof.
  unfold v6_ok, v6_is_loopback, v6_bits. intros H. rewrite !andb_true_iff, !N.eqb_eq. lia.
Qed.

Lemma top_bits_test x k m y : x < 2^16 -> k <= 16 -> m = N.ldiff (N.ones 16) (N.ones k) ->
  (N.land x m =? y * 2^k) = true <-> x / 2^k = y.
Proof.
  intros Hx Hk ->. rewrite land_high by done. rewrite N.eqb_eq, N.mul_cancel_r; [done|].
  apply N.pow_nonzero. lia.
Qed.

Lemma is_private_ipv6_spec a : v6_ok a ->
  is_private_ip (V6 a) = true <-> exists b, In b private_v6_blocks /\ in_block 128 (v6_bits a) b.
Proof.
  intros H. unfold private_v6_blocks. cbn [app]. rewrite !in_blocks_cons, in_mapped_blocks by done.
  unfold in_block at 1 2 3. cbn [fst snd]. change (128 - 128) with 0. change (128 - 7) with (112 + 9).
  change (128 - 10) with (112 + 6). rewrite !v6_top by (done || lia). change (2^0) with 1. rewrite !N.div_1_r.
  change (0xfc00 * 2^112 / 2^(112 + 9)) with 126. change (0xfe80 * 2^112 / 2^(112 + 6)) with 1018.
  rewrite <-v6_loopback_spec by done. unfold is_private_ip.
  assert (s0 a < 2^16) as H0 by (unfold v6_ok in H; lia).
  pose proof (top_bits_test (s0 a) 9 0xfe00 126 H0 ltac:(lia) eq_refl) as Hula.
  pose proof (top_bits_test (s0 a) 6 0xffc0 1018 H0 ltac:(lia) eq_refl) as Hll.
  change (126 * 2^9) with 0xfc00 in Hula. change (1018 * 2^6) with 0xfe80 in Hll.
  destruct (v6_is_loopback a); [tauto|]. destruct (to_ipv4_mapped a) as [m|] eqn:Em.
  - destruct (mapped_bits a m H Em) as (Hm & Hbits & Hh). rewrite is_private_ipv4_spec by done.
    rewrite Hbits. assert (s0 a = 0) as Hs0 by (unfold v6_high, v6_ok in *; lia). rewrite Hs0 in *.
    split; [tauto|]. intros [?|[E|[E|[_ ?]]]]; [done|by vm_compute in E|by vm_compute in E|done].
  - pose proof (not_mapped_high a H Em). destruct (N.land (s0 a) 0xfe00 =? 0xfc00); [tauto|].
    destruct (N.land (s0 a) 0xffc0 =? 0xfe80); [tauto|]. split; [done|].
    intros [?|[?|[?|[? _]]]]; [done|by apply Hula|by apply Hll|done].
Qed.
End blocks.

(** ** What the check promises *)

Definition ip_ok (ip : IpAddr) : Prop := match ip with V4 a => v4_ok a | V6 a => v6_ok a end.

(** The address lies in one of the private blocks of its family. *)
Definition in_private_block (ip : IpAddr) : Prop :=
  match ip with
  | V4 a => exists b, In b private_v4_blocks /\ in_block 32 (v4_bits a) b
  | V6 a => exists b, In b private_v6_blocks /\ in_block 128 (v6_bits a) b
  end.

(** The octet, segment and mask tests of [is_private_ip] are exactly
    membership in the CIDR blocks 0/8, 10/8, 127/8, 169.254/16, 172.16/12,
    192.168/16, their images below ::ffff:0:0/96, ::1/128, fc00::/7 and fe80::/10. *)
Theorem is_private_ip_correct ip : ip_ok ip -> is_private_ip ip = true <-> in_private_block ip.
Proof. destruct ip as [a|a]; [apply is_private_ipv4_spec|apply is_private_ipv6_spec]. Qed.

(** [C24] A URL that passes the check was parsed, uses HTTP(S), does not carry an
    internal name, and if its host is an address, the address is in no private block. *)
Theorem is_safe_url_sound parse url :
  is_safe_url parse url = true ->
  exists u h, parse url = Some u /\ (scheme u = "http" \/ scheme u = "https") /\
    host_str u = Some h /\ internal_name h = false /\
    (forall a, host u = Some (HostIpv4 a) -> v4_ok a -> ~ in_private_block (V4 a)) /\
    (forall a, host u = Some (HostIpv6 a) -> v6_ok a -> ~ in_private_block (V6 a)).
Proof.
  unfold is_safe_url. destruct (parse url) as [u|]; [|done].
  destruct (negb (String.eqb (scheme u) "http") && _) eqn:Es; [done|].
  destruct (host_str u) as [h|] eqn:Eh; [|done]. destruct (internal_name h) eqn:Ei; [done|].
  intros Hp. exists u, h. split_and!; [done| |exact Eh|done| |].
  - apply andb_false_iff in Es as [Es|Es]; apply negb_false_iff, String.eqb_eq in Es; auto.
  - intros a Ha Hok Hb. rewrite Ha in Hp. apply (is_private_ipv4_spec a Hok) in Hb. by rewrite Hb in Hp.
  - intros a Ha Hok Hb. rewrite Ha in Hp. apply (is_private_ipv6_spec a Hok) in Hb. by rewrite Hb in Hp.
Qed.

(** ** Examples *)

Definition toy_parse (url : string) : option Url :=
  if String.eqb url "http://93.184.216.34/" then
    Some (mkUrl "http" (Some (HostIpv4 (mkIpv4 93 184 216 34))) (Some "93.184.216.34"))
  else if String.eqb url "http://localhost./" then
    Some (mkUrl "http" (Some (Domain "localhost.")) (Some "localhost."))
  else if String.eqb url "http://[::]/" then
    Some (mkUrl "http" (Some (HostIpv6 (mkIpv6 0 0 0 0 0 0 0 0))) (Some "[::]"))
  else None.

(** The absolute form of the name and the unspecified IPv6 address pass. *)
Example localhost_with_dot_passes : is_safe_url toy_parse "http://localhost./" = true.
Proof. reflexivity. Qed.
Example unspecified_v6_passes : is_safe_url toy_parse "http://[::]/" = true.
Proof. reflexivity. Qed.

(** The unspecified IPv4 address does not. *)
Example unspecified_v4_private : is_private_ip (V4 (mkIpv4 0 0 0 0)) = true.
Proof. reflexivity. Qed.

Lemma is_private_ip_correct_witness : in_private_block (V6 (mkIpv6 0 0 0 0 0 65535 0xac1f 1)).
Proof.
  apply (is_private_ip_correct (V6 (mkIpv6 0 0 0 0 0 65535 0xac1f 1))); [repeat split; reflexivity|].
  reflexivity.
Defined.

Lemma is_safe_url_sound_witness : ~ in_private_block (V4 (mkIpv4 93 184 216 34)).
Proof.
  destruct (is_safe_url_sound toy_parse "http://93.184.216.34/" eq_refl)
    as (u & h & Hp & _ & _ & _ & Hv4 & _).
  injection Hp as <-. apply Hv4; [reflexivity|repeat split; reflexivity].
Defined.
