(* ===== verification/Middleware.v ===== *)
(** * Request middleware (server/auth.rs, server/rate_limit.rs)

    Authentication admits a request when it is disabled, when the bearer token
    equals the shared secret, or when it is a valid RS256 token. The comparison
    with the secret folds over all bytes; it is shown to be equality. The
    [jsonwebtoken] and [majra] crates are parameters: the first with the laws
    its documentation gives, as a class. *)

From S2P Require Import Prelude.
From S2P Require Import Text.
From Stdlib Require Import Ascii String.
From stdpp Require Import base strings numbers list.

Local Open Scope string_scope.
#[local] Arguments String.append !_ _ / : simpl nomatch.

Definition UNAUTHORIZED : N := 401.
Definition INTERNAL_ERROR : N := 500.
Definition TOO_MANY_REQUESTS : N := 429.

(** ** Comparison of secrets *)

Definition as_bytes (s : string) : list N := map N_of_ascii (list_ascii_of_string s).

(** [if i < a.len() { a[i] } else { 0 }] *)
Definition byte_or_zero (a : list N) (i : nat) : N := default 0%N (a !! i).

Definition constant_time_eq (a b : list N) : bool :=
  let len_diff := N.lxor (N.of_nat (length a)) (N.of_nat (length b)) in
  let result := foldl (fun r i => N.lor r (N.lxor (byte_or_zero a i) (byte_or_zero b i))) 0%N
                  (seq 0 (Nat.max (length a) (length b))) in
  (result =? 0)%N && (len_diff =? 0)%N.

(** ** Configuration *)

Record JwtConfig := mkJwtConfig {
  public_key_pem : string;
  issuer : option string;
  audience : option string;
}.
Definition JwtConfig_new (pem : string) : JwtConfig := mkJwtConfig pem None None.
Definition with_issuer (c : JwtConfig) (i : string) : JwtConfig := mkJwtConfig (public_key_pem c) (Some i) (audience c).
Definition with_audience (c : JwtConfig) (a : string) : JwtConfig := mkJwtConfig (public_key_pem c) (issuer c) (Some a).

Record AuthConfig := mkAuthConfig {
  enabled : bool;
  secret : string;
  jwt : option JwtConfig;
}.
Definition AuthConfig_default : AuthConfig := mkAuthConfig false "" None.
Definition with_secret (s : string) : AuthConfig := mkAuthConfig true s None.
Definition with_jwt (j : JwtConfig) : AuthConfig := mkAuthConfig true "" (Some j).

Record Claims := mkClaims {
  sub : option string;
  iss : option string;
  aud : option string;
  exp : option N;
  iat : option N;
  scope : option string;
}.

(** What [validate_jwt] sets of [jsonwebtoken::Validation]. *)
Record Validation := mkValidation {
  algorithm : string;
  validate_exp : bool;
  validate_aud : bool;
  v_iss : option string;
  v_aud : option string;
}.

(** The crate: keys, and decoding with the checks a validation asks for. *)
Class JwtCrate (Key : Type) := {
  from_rsa_pem : string -> option Key;
  decode : string -> Key -> Validation -> Result Claims string;
  signed_with : string -> Key -> Prop;   (* the RS256 signature verifies *)
  now_secs : N;
  leeway : N;
}.

(** Its documentation: decoding succeeds only for a good signature of the
    algorithm; a present expiry is checked when asked for; an issuer or audience
    that is present must be the expected one. *)
Class JwtLaws (Key : Type) `{!JwtCrate Key} : Prop := {
  decode_signed : forall t k v c, decode t k v = Ok c -> algorithm v = "RS256" -> signed_with t k;
  decode_exp : forall t k v c e, decode t k v = Ok c -> validate_exp v = true -> exp c = Some e ->
    (now_secs <= e + leeway)%N;
  decode_iss : forall t k v c i x, decode t k v = Ok c -> v_iss v = Some i -> iss c = Some x -> x = i;
  decode_aud : forall t k v c a x, decode t k v = Ok c -> validate_aud v = true -> v_aud v = Some a ->
    aud c = Some x -> x = a;
}.

Section auth.
Context {Key : Type} `{!JwtCrate Key}.

Definition jwt_validation (config : JwtConfig) : Validation :=
  mkValidation "RS256" true (match audience config with Some _ => true | None => false end)
    (issuer config) (audience config).

Definition validate_jwt (token : string) (config : JwtConfig) : Result Claims N :=
  match from_rsa_pem (public_key_pem config) with
  | None => Err INTERNAL_ERROR
  | Some key =>
      match decode token key (jwt_validation config) with
      | Err _ => Err UNAUTHORIZED
      | Ok claims =>
          match exp claims with
          | None => Err UNAUTHORIZED
          | Some _ => Ok claims
          end
      end
  end.

(** The token of the header, [None] when it is missing, malformed or empty. *)
Definition bearer_token (header : option string) : option string :=
  match header with
  | Some h =>
      if starts_with "Bearer " h then
        let t := str_drop 7 h in
        if (String.length t =? 0)%nat then None else Some t
      else None
  | None => None
  end.

(** [header]: the [Authorization] header when it is valid text. *)
Definition auth_middleware {Req Resp} (header : Req -> option string) (next : Req -> Resp)
    (config : AuthConfig) (request : Req) : Result Resp N :=
  if negb (enabled config) then Ok (next request)
  else match bearer_token (header request) with
  | None => Err UNAUTHORIZED
  | Some token =>
      match jwt config with
      | Some jwt_config =>
          match validate_jwt token jwt_config with
          | Err e => Err e
          | Ok _ => Ok (next request)
          end
      | None =>
          if negb (constant_time_eq (as_bytes token) (as_bytes (secret config))) then Err UNAUTHORIZED
          else Ok (next request)
      end
  end.
End auth.

(** ** Rate limiting *)

(** The token buckets of [majra]: [check] answers and updates the bucket of a key. *)
Class Limiter (L : Type) := { check_key : string -> L -> bool * L; evict_older : Duration -> L -> nat * L }.

Record RateLimitState (L : Type) := mkRateLimitState { limiter : L; eviction_interval : Duration }.
Arguments mkRateLimitState {L}. Arguments limiter {L}. Arguments eviction_interval {L}.

Section rate_limit.
Context {L : Type} `{!Limiter L}.

Definition RateLimitState_new (l : L) : RateLimitState L := mkRateLimitState l (from_secs 300).
Definition rl_check (key : string) (s : RateLimitState L) : bool * RateLimitState L :=
  let (ok, l) := check_key key (limiter s) in (ok, mkRateLimitState l (eviction_interval s)).
Definition rl_evict_stale (s : RateLimitState L) : nat * RateLimitState L :=
  let (n, l) := evict_older (eviction_interval s) (limiter s) in (n, mkRateLimitState l (eviction_interval s)).

(** [xff] and [xri]: the two headers when they are valid text. *)
Definition extract_client_key (xff xri : option string) : string :=
  match xff with
  | Some s => trim (default "" (head (str_split ","%char s)))
  | None => match xri with Some s => trim s | None => "unknown" end
  end.

(** [None] for the limiter: none was put into the extensions. *)
Definition rate_limit_middleware {Resp} (xff xri : option string) (next : unit -> Resp)
    (s : option (RateLimitState L)) : Result Resp N * option (RateLimitState L) :=
  match s with
  | None => (Ok (next tt), None)
  | Some s =>
      let (ok, s') := rl_check (extract_client_key xff xri) s in
      ((if ok then Ok (next tt) else Err TOO_MANY_REQUESTS), Some s')
  end.
End rate_limit.

(** ** The comparison is equality *)

Lemma lor_fold_zero (f : nat -> N) l r :
  foldl (fun r i => N.lor r (f i)) r l = 0%N <-> r = 0%N /\ Forall (fun i => f i = 0%N) l.
Proof.
  revert r. induction l as [|i l IH]; intros r; simpl; [naive_solver|].
  rewrite IH, Forall_cons, N.lor_eq_0_iff. tauto.
Qed.

Lemma constant_time_eq_spec a b : constant_time_eq a b = true <-> a = b.
Proof.
  unfold constant_time_eq. rewrite andb_true_iff, !N.eqb_eq, lor_fold_zero, N.lxor_eq_0_iff, Forall_forall.
  split.
  - intros [[_ H] Hl]. apply Nat2N.inj in Hl. apply list_eq_same_length with (length a); [done|done|].
    intros i x y Hi Hx Hy. assert (i ∈ seq 0 (length a `max` length b)) as Hin by (apply elem_of_seq; lia).
    apply H, N.lxor_eq in Hin. unfold byte_or_zero in Hin. by rewrite Hx, Hy in Hin.
  - intros ->. split_and!; [done| |done]. intros i _. apply N.lxor_nilpotent.
Qed.

Lemma as_bytes_inj s t : as_bytes s = as_bytes t -> s = t.
Proof.
  unfold as_bytes. revert t. induction s as [|x s IH]; intros [|y t] H; simpl in H; try done.
  injection H as Hxy H. f_equal; [|by apply IH].
  by rewrite <-(ascii_N_embedding x), Hxy, ascii_N_embedding.
Qed.

Lemma bearer_token_spec h t : bearer_token h = Some t <-> h = Some ("Bearer " ++ t) /\ t <> "".
Proof.
  unfold bearer_token. destruct h as [h|]; [|naive_solver].
  destruct (starts_with "Bearer " h) eqn:E.
  - apply starts_with_spec in E as [r ->]. change (str_drop 7 ("Bearer " ++ r)) with r.
    split.
    + destruct r as [|c r]; [done|]. by intros [= <-].
    + intros [[= ->] Ht]. by destruct t.
  - split; [done|]. intros [[= ->] _]. exfalso. apply not_true_iff_false in E. apply E.
    apply starts_with_spec. by exists t.
Qed.

(** ** What is admitted *)

(** What a request has to show, in terms of the [Authorization] header: nothing when
    authentication is off; ["Bearer "] and the shared secret, if there is one; or
    ["Bearer "] and a token that the crate accepts for RS256 under the configured
    key, with the expiry checked and present, and the configured issuer and
    audience. *)
Inductive credentials {Key : Type} `{!JwtCrate Key} (config : AuthConfig) (h : option string) : Prop :=
| cred_disabled : enabled config = false -> credentials config h
| cred_secret : enabled config = true -> jwt config = None ->
    h = Some ("Bearer " ++ secret config) -> secret config <> "" -> credentials config h
| cred_token j t key c e : enabled config = true -> jwt config = Some j ->
    h = Some ("Bearer " ++ t) -> t <> "" -> from_rsa_pem (public_key_pem j) = Some key ->
    decode t key (mkValidation "RS256" true (bool_decide (is_Some (audience j))) (issuer j) (audience j)) = Ok c ->
    exp c = Some e -> credentials config h.

Section admitted.
Context {Key : Type} `{!JwtCrate Key} {Req Resp : Type} (header : Req -> option string) (next : Req -> Resp).

(** With a shared secret a request passes exactly when its header is
    ["Bearer "] followed by the secret, and an empty secret admits nothing;
    every other request is answered 401. *)
Theorem auth_secret_exact config request :
  enabled config = true -> jwt config = None ->
  auth_middleware header next config request =
    if bool_decide (header request = Some ("Bearer " ++ secret config) /\ secret config <> "")
    then Ok (next request) else Err UNAUTHORIZED.
Proof.
  intros He Hj. unfold auth_middleware. rewrite He, Hj. simpl negb. cbn iota.
  destruct (bearer_token (header request)) as [t|] eqn:E.
  - pose proof (proj1 (bearer_token_spec _ _) E) as [Eh Ht].
    destruct (constant_time_eq (as_bytes t) (as_bytes (secret config))) eqn:Ec; simpl.
    + apply constant_time_eq_spec, as_bytes_inj in Ec. rewrite bool_decide_eq_true_2; [done|]. by subst t.
    + rewrite bool_decide_eq_false_2; [done|]. intros [E2 _].
      assert (t = secret config) as ->.
      { rewrite Eh in E2. by injection E2. }
      enough (constant_time_eq (as_bytes (secret config)) (as_bytes (secret config)) = true) by congruence.
      by apply constant_time_eq_spec.
  - rewrite bool_decide_eq_false_2; [done|]. intros H. apply bearer_token_spec in H. congruence.
Qed.

(** The middleware lets through exactly the requests with credentials. *)
Lemma auth_middleware_credentials config request :
  (exists resp, auth_middleware header next config request = Ok resp) <-> credentials config (header request).
Proof.
  unfold auth_middleware. destruct (enabled config) eqn:He; cbn [negb].
  2: { split; [intros _; by apply cred_disabled|by eexists]. }
  destruct (bearer_token (header request)) as [t|] eqn:E.
  2: { split; [by intros [? ?]|]. intros [?|_ _ Hh Hs|j t k c e _ _ Hh Hs _ _ _]; [congruence|..];
       pose proof (proj2 (bearer_token_spec _ _) (conj Hh Hs)); congruence. }
  pose proof (proj1 (bearer_token_spec _ _) E) as [Eh Ht].
  destruct (jwt config) as [j|] eqn:Ej.
  - unfold validate_jwt, jwt_validation.
    replace (match audience j with Some _ => true | None => false end)
      with (bool_decide (is_Some (audience j))) by (by destruct (audience j)).
    destruct (from_rsa_pem (public_key_pem j)) as [key|] eqn:Ek.
    2: { split; [by intros [? ?]|]. intros [|? ?|j' t' k c e ? ? ? ? ? ? ?]; congruence. }
    destruct (decode t key _) as [c|err] eqn:Ed.
    + destruct (exp c) as [e|] eqn:Ee.
      * split; [intros _|by eexists]. by eapply cred_token.
      * split; [by intros [? ?]|]. intros [|? ?|j' t' k c' e ? Hj Hh ? Hk Hd He']; [congruence..|].
        rewrite Eh in Hh. injection Hh as <-. rewrite Ej in Hj. injection Hj as <-. congruence.
    + split; [by intros [? ?]|]. intros [|? ?|j' t' k c' e ? Hj Hh ? Hk Hd He']; [congruence..|].
      rewrite Eh in Hh. injection Hh as <-. rewrite Ej in Hj. injection Hj as <-. congruence.
  - destruct (constant_time_eq (as_bytes t) (as_bytes (secret config))) eqn:Ec; simpl.
    + apply constant_time_eq_spec, as_bytes_inj in Ec. subst t. split; [intros _|by eexists].
      by apply cred_secret.
    + split; [by intros [? ?]|]. intros [|_ _ Hh _|j t' k c' e ? Hj _ _ _ _ _]; [congruence| |congruence].
      rewrite Eh in Hh. injection Hh as ->.
      enough (constant_time_eq (as_bytes (secret config)) (as_bytes (secret config)) = true) by congruence.
      by apply constant_time_eq_spec.
Qed.

(** With a JWT configuration a request that passes carries a token whose
    RS256 signature verifies under the configured key, with an expiry that has
    not passed, and whose issuer and audience, where present, are the expected ones. *)
Theorem auth_jwt_sound `{!JwtLaws Key} config j request resp :
  enabled config = true -> jwt config = Some j ->
  auth_middleware header next config request = Ok resp ->
  resp = next request /\
  exists t key c e, header request = Some ("Bearer " ++ t) /\
    from_rsa_pem (public_key_pem j) = Some key /\ signed_with t key /\
    exp c = Some e /\ (now_secs <= e + leeway)%N /\
    (forall i x, issuer j = Some i -> iss c = Some x -> x = i) /\
    (forall a x, audience j = Some a -> aud c = Some x -> x = a).
Proof.
  intros He Hj. unfold auth_middleware. rewrite He, Hj. simpl negb. cbn iota.
  destruct (bearer_token (header request)) as [t|] eqn:E; [|done].
  apply bearer_token_spec in E as [Eh _]. unfold validate_jwt.
  destruct (from_rsa_pem (public_key_pem j)) as [key|] eqn:Ek; [|done].
  destruct (decode t key (jwt_validation j)) as [c|err] eqn:Ed; [|done].
  destruct (exp c) as [e|] eqn:Ee; [|done]. intros [= <-]. split; [done|].
  exists t, key, c, e. split_and!; [done|done| |done| | |].
  - by eapply decode_signed.
  - by eapply decode_exp.
  - intros i x Hi Hx. by eapply (decode_iss t key (jwt_validation j) c).
  - intros a x Ha Hx. eapply (decode_aud t key (jwt_validation j) c); [done| |done|done].
    simpl. by rewrite Ha.
Qed.
End admitted.

(** ** Examples *)

Example forwarded_first_address : extract_client_key (Some " 10.1.2.3 , 172.16.0.1") (Some "x") = "10.1.2.3".
Proof. vm_compute. reflexivity. Qed.
Example no_proxy_headers : extract_client_key None None = "unknown".
Proof. reflexivity. Qed.

(** A crate that accepts one token, which carries neither issuer nor audience. *)
#[local] Instance toy_crate : JwtCrate string := {|
  from_rsa_pem pem := if String.eqb pem "" then None else Some pem;
  decode t k v := if String.eqb t "tok" then Ok (mkClaims (Some "svc") None None (Some 2000%N) None None)
                  else Err "InvalidToken";
  signed_with t k := t = "tok";
  now_secs := 1000%N;
  leeway := 60%N;
|}.

#[local] Instance toy_crate_laws : JwtLaws string.
Proof.
  split; simpl; intros t k v c *; destruct (String.eqb_spec t "tok"); try done; intros [= <-]; simpl; try done.
  intros _ [= <-]. lia.
Qed.

(** The validation does not require the claims it compares: with an expected
    issuer configured, the token without an issuer is admitted. *)
Example missing_issuer_admitted :
  auth_middleware (fun h : string => Some h) (fun _ => tt)
    (with_jwt (with_issuer (JwtConfig_new "pem") "https://issuer.example")) "Bearer tok" = Ok tt.
Proof. reflexivity. Qed.

Lemma auth_secret_exact_witness :
  auth_middleware (fun h : string => Some h) (fun _ => 200) (with_secret "s3cret") "Bearer s3cret" = Ok 200.
Proof. by rewrite auth_secret_exact. Defined.

Lemma auth_jwt_sound_witness :
  exists t, Some "Bearer tok" = Some ("Bearer " ++ t) /\ signed_with t "pem".
Proof.
  assert (auth_middleware (fun h : string => Some h) (fun _ => tt) (with_jwt (JwtConfig_new "pem"))
    "Bearer tok" = Ok tt) as H by reflexivity.
  destruct (auth_jwt_sound (fun h : string => Some h) (fun _ => tt) (with_jwt (JwtConfig_new "pem"))
    (JwtConfig_new "pem") "Bearer tok" tt eq_refl eq_refl H) as (_ & t & k & c & e & Hh & Hk & Hs & _).
  injection Hk as <-. exists t. split; [exact Hh|exact Hs].
Defined.
