(* ===== verification/OutputValidation.v ===== *)
(** * Structured output validation (orchestrator/output_validation.rs)

    The JSON parser and printer of [serde_json] are parameters. *)

From S2P Require Import Prelude.
From S2P Require Import F64.
From S2P Require Import Resource.
From S2P Require Import Core.
From S2P Require Import Text.
From Stdlib Require Import Ascii String.
From stdpp Require Import base gmap strings numbers list.

Local Open Scope string_scope.
#[local] Arguments String.append !_ _ / : simpl nomatch.

(** ** The code *)

Definition MAX_VALIDATION_RETRIES : nat := 2.

Inductive ValidationResult := Valid | Invalid (error : string).

#[export] Instance ValidationResult_eq_dec : EqDecision ValidationResult.
Proof. solve_decision. Defined.

Definition json_type_name (v : Value) : string :=
  match v with
  | Null => "null" | Bool _ => "boolean" | Num _ => "number"
  | Str _ => "string" | Arr _ => "array" | Obj _ => "object"
  end.

(** [schema.get(k).and_then(f)] *)
Definition json_get_as {A} (f : Value -> option A) (v : Value) (k : string) : option A :=
  match json_get v k with Some x => f x | None => None end.

Definition contains_key (m : list (string * Value)) (k : string) : bool :=
  match obj_get m k with Some _ => true | None => false end.

Fixpoint filter_map {A B} (f : A -> option B) (l : list A) : list B :=
  match l with
  | [] => []
  | x :: l => match f x with Some y => y :: filter_map f l | None => filter_map f l end
  end.

Section validation.
Context (from_str : string -> Result Value string).

Definition check_type (parsed schema : Value) : option string :=
  match json_get_as as_str schema "type" with
  | Some expected =>
      let actual := json_type_name parsed in
      if bool_decide (actual = expected) then None
      else Some ("Expected top-level type " ++ dquote ++ expected ++ dquote
                   ++ ", got " ++ dquote ++ actual ++ dquote)
  | None => None
  end.

Definition missing_keys (required : list Value) (obj : list (string * Value)) : list string :=
  List.filter (fun k => negb (contains_key obj k)) (filter_map as_str required).

Definition check_required (parsed schema : Value) : option string :=
  match json_get_as as_array schema "required" with
  | None => None
  | Some required =>
      match as_object parsed with
      | Some obj =>
          match missing_keys required obj with
          | [] => None
          | missing => Some ("Missing required fields: " ++ str_join ", " missing)
          end
      | None =>
          match required with
          | [] => None
          | _ => Some "Schema requires fields but response is not a JSON object"
          end
      end
  end.

Definition validate_output (output : string) (schema : Value) : ValidationResult :=
  match from_str output with
  | Err e => Invalid ("Response is not valid JSON: " ++ e)
  | Ok parsed =>
      match check_type parsed schema with
      | Some e => Invalid e
      | None => match check_required parsed schema with Some e => Invalid e | None => Valid end
      end
  end.

Definition build_retry_prompt (schema_to_string : Value -> string) (original failed error : string) (schema : Value) : string :=
  original ++ nl ++ nl ++ "Your previous response failed validation." ++ nl
  ++ "Error: " ++ error ++ nl ++ "Your previous response was:" ++ nl ++ "```" ++ nl
  ++ failed ++ nl ++ "```" ++ nl ++ nl
  ++ "Please respond with ONLY valid JSON matching this schema:" ++ nl ++ "```json" ++ nl
  ++ schema_to_string schema ++ nl ++ "```".

Definition start_markers : list string :=
  ["```json" ++ nl; "```json" ++ cr ++ nl; "```" ++ nl; "```" ++ cr ++ nl].

Definition closing_fence (remainder : string) : option nat :=
  match str_find (nl ++ "```") remainder with
  | Some i => Some i
  | None => str_find (cr ++ nl ++ "```") remainder
  end.

(** The [?] on the closing fence leaves the function, not the loop turn. *)
Fixpoint extract_from (markers : list string) (text : string) : option string :=
  match markers with
  | [] => None
  | m :: rest =>
      match str_find m text with
      | None => extract_from rest text
      | Some start =>
          let remainder := str_drop (start + String.length m) text in
          match closing_fence remainder with
          | None => None
          | Some e =>
              let block := trim (str_take e remainder) in
              if bool_decide (block = "") then extract_from rest text else Some block
          end
      end
  end.

Definition extract_json_block (text : string) : option string := extract_from start_markers text.

Definition extract_and_validate (output : string) (schema : Value) : string * ValidationResult :=
  let result := validate_output output schema in
  if bool_decide (result = Valid) then (output, result)
  else
    match extract_json_block output with
    | Some json_str => (json_str, validate_output json_str schema)
    | None => (output, result)
    end.

(** ** Theorems *)

Definition type_conforms (v schema : Value) : Prop :=
  forall ty, json_get_as as_str schema "type" = Some ty -> json_type_name v = ty.

(** Every required field is present; a non-object conforms only to an empty
    requirement list. *)
Definition required_conforms (v schema : Value) : Prop :=
  forall req, json_get_as as_array schema "required" = Some req ->
    match as_object v with
    | Some obj => forall k, Str k ∈ req -> exists x, (k, x) ∈ obj
    | None => req = []
    end.

Definition conforms (output : string) (schema : Value) : Prop :=
  exists v, from_str output = Ok v /\ type_conforms v schema /\ required_conforms v schema.

Lemma elem_of_filter_map {A B} (f : A -> option B) l y :
  y ∈ filter_map f l <-> exists x, x ∈ l /\ f x = Some y.
Proof.
  induction l as [|x l IH]; simpl.
  - split; [by intros ?%not_elem_of_nil|]. by intros (x & ?%not_elem_of_nil & _).
  - setoid_rewrite elem_of_cons. destruct (f x) as [z|] eqn:E; rewrite ?elem_of_cons, IH.
    + split; [naive_solver|]. intros (x' & [->|Hx] & Hf); [left; congruence|eauto].
    + split; [naive_solver|]. intros (x' & [->|Hx] & Hf); [congruence|eauto].
Qed.

Lemma contains_key_spec m k : contains_key m k = true <-> exists x, (k, x) ∈ m.
Proof.
  unfold contains_key, obj_get. split.
  - destruct (List.find _ m) as [[k' x]|] eqn:E; [|done]. intros _.
    apply List.find_some in E as [Hin Hk]. simpl in Hk. apply bool_decide_eq_true in Hk as ->.
    exists x. by apply list_elem_of_In.
  - intros [x Hx]. destruct (List.find _ m) as [[k' x']|] eqn:E; [done|].
    apply List.find_none with (x := (k, x)) in E; [|by apply list_elem_of_In].
    simpl in E. by rewrite bool_decide_eq_false in E.
Qed.

Lemma missing_keys_nil required obj :
  missing_keys required obj = [] <-> forall k, Str k ∈ required -> exists x, (k, x) ∈ obj.
Proof.
  unfold missing_keys. split.
  - intros Hm k Hk. apply contains_key_spec.
    destruct (contains_key obj k) eqn:E; [done|]. exfalso.
    assert (k ∈ List.filter (fun k => negb (contains_key obj k)) (filter_map as_str required)) as Hin.
    { apply elem_of_List_filter. rewrite E. split; [|done]. apply elem_of_filter_map.
      by exists (Str k). }
    rewrite Hm in Hin. by apply not_elem_of_nil in Hin.
  - intros Hall. destruct (List.filter _ _) as [|k l] eqn:E; [done|]. exfalso.
    assert (k ∈ List.filter (fun k => negb (contains_key obj k)) (filter_map as_str required)) as Hin
      by (rewrite E; left).
    apply elem_of_List_filter in Hin as [Hk Hn].
    apply elem_of_filter_map in Hk as (v & Hv & Hs). destruct v; simplify_eq/=.
    apply Hall, contains_key_spec in Hv. by rewrite Hv in Hn.
Qed.

Lemma check_type_None v schema : check_type v schema = None <-> type_conforms v schema.
Proof.
  unfold check_type, type_conforms. destruct (json_get_as as_str schema "type") as [ty|]; [|naive_solver].
  case_bool_decide; split; naive_solver.
Qed.

Lemma check_required_None v schema : check_required v schema = None <-> required_conforms v schema.
Proof.
  unfold check_required, required_conforms.
  destruct (json_get_as as_array schema "required") as [req|]; [|naive_solver].
  destruct (as_object v) as [obj|].
  - pose proof (missing_keys_nil req obj) as Hm.
    destruct (missing_keys req obj); split; try done; naive_solver.
  - destruct req; split; naive_solver.
Qed.

Lemma validate_output_Valid output schema :
  validate_output output schema = Valid <-> conforms output schema.
Proof.
  unfold validate_output, conforms. destruct (from_str output) as [v|e]; [|naive_solver].
  pose proof (check_type_None v schema). pose proof (check_required_None v schema).
  destruct (check_type v schema); [naive_solver|].
  destruct (check_required v schema); naive_solver.
Qed.

(** An output is accepted exactly when it parses, its JSON type is the
    schema's, and every required field is present. *)
Theorem validate_output_correct output schema :
  validate_output output schema = Valid <-> conforms output schema.
Proof. apply validate_output_Valid. Qed.

Lemma trim_start_suffix s : exists a, s = a ++ trim_start s.
Proof.
  unfold trim_start. generalize (String.length s) as n. intros n. revert s.
  induction n as [|n IH]; intros s; simpl; [by exists ""|].
  unfold skip_white. destruct (List.find _ white_chars) as [w|]; [|by exists ""].
  destruct (IH (str_drop (String.length w) s)) as [a Ha].
  exists (str_take (String.length w) s ++ a).
  by rewrite str_app_assoc, <-Ha, str_take_drop.
Qed.

Lemma trim_end_prefix s : exists b, s = trim_end s ++ b.
Proof.
  induction s as [|c s [b IH]]; [by exists ""|]. cbn [trim_end].
  destruct (bool_decide _); [by exists (String c s)|].
  exists b. simpl. by rewrite <-IH.
Qed.

Lemma trim_contains s : str_contains (trim s) s = true.
Proof.
  apply str_contains_spec. destruct (trim_start_suffix s) as [a Ha].
  destruct (trim_end_prefix (trim_start s)) as [b Hb]. exists a, b. unfold trim. by rewrite <-Hb.
Qed.

Lemma extract_from_spec markers text block :
  extract_from markers text = Some block -> block <> "" /\ str_contains block text = true.
Proof.
  induction markers as [|m ms IH]; simpl; [done|].
  destruct (str_find m text) as [start|] eqn:Ef; [|done].
  destruct (closing_fence _) as [e|]; [|done]. case_bool_decide as Hb; [done|].
  intros [= <-]. split; [done|]. set (r := str_drop (start + String.length m) text) in *.
  pose proof (trim_contains (str_take e r)) as Hc. apply str_contains_spec in Hc as (a & b & Hab).
  apply str_contains_spec.
  exists (str_take (start + String.length m) text ++ a), (b ++ str_drop e r).
  rewrite <-(str_take_drop (start + String.length m) text) at 1. fold r.
  rewrite <-(str_take_drop e r) at 1. rewrite Hab at 1. by rewrite !str_app_assoc.
Qed.

(** [extract_and_validate] only ever accepts text that conforms to the
    schema and comes verbatim from the response. *)
Theorem extract_and_validate_sound output schema text :
  extract_and_validate output schema = (text, Valid) ->
  conforms text schema /\ str_contains text output = true.
Proof.
  unfold extract_and_validate. case_bool_decide as Hv.
  - intros [= <- _]. split; [by apply validate_output_Valid|].
    apply str_contains_spec. exists "", "". simpl. by rewrite str_app_nil_r.
  - destruct (extract_json_block output) as [block|] eqn:Eb.
    + intros [= <- Hval]. split; [by apply validate_output_Valid|].
      by apply (extract_from_spec start_markers output) in Eb as [_ ?].
    + intros [= <- ?]. done.
Qed.
End validation.

(** A parser that knows one document. *)
Definition toy_from_str (s : string) : Result Value string :=
  if bool_decide (s = "{}") then Ok (Obj []) else Err "expected value".

Lemma extract_and_validate_sound_witness :
  let out := ("```json" ++ nl ++ "{}" ++ nl ++ "```")%string in
  conforms toy_from_str "{}" (Obj [("type"%string, Str "object")]) /\ str_contains "{}" out = true.
Proof.
  apply (extract_and_validate_sound toy_from_str _ (Obj [("type"%string, Str "object")])).
  vm_compute. reflexivity.
Defined.
