(* ===== verification/Llm.v ===== *)
(** * Model routing and inference retries (llm/router.rs, llm/retry.rs,
    llm/inference_queue.rs)

    The routing matrix, the exponential backoff and the retry loop around an
    inference call. The call is any state-passing function: the client it
    stands for is an external service. *)

From S2P Require Import Prelude.
From S2P Require Import F64.
From S2P Require Import Resource.
From S2P Require Import Core.
From stdpp Require Import base gmap strings numbers list.

(** ** Routing *)

Inductive ModelTier := Fast | Capable | Premium.
Inductive TaskType := Summarize | Classify | Code | Plan | Reason | Research | MultiStep.
Inductive Complexity := Simple | Medium | Complex.

#[export] Instance ModelTier_eq_dec : EqDecision ModelTier.
Proof. solve_decision. Defined.

Record TaskProfile := TaskProfile_new { task_type : TaskType; task_complexity : Complexity }.

Definition route (p : TaskProfile) : ModelTier :=
  match task_type p, task_complexity p with
  | (Summarize | Classify), (Simple | Medium) => Fast
  | (Summarize | Classify), Complex => Capable
  | (Code | Plan | Reason), (Simple | Medium) => Capable
  | (Code | Plan | Reason), Complex => Premium
  | (Research | MultiStep), Simple => Capable
  | (Research | MultiStep), (Medium | Complex) => Premium
  end.

Definition default_model (t : ModelTier) : string :=
  match t with
  | Fast => "llama3"
  | Capable => "llama3:70b"
  | Premium => "llama3:405b"
  end.

Definition parse_complexity (s : string) : Complexity :=
  if eq_ignore_ascii_case s "low" || eq_ignore_ascii_case s "simple" then Simple
  else if eq_ignore_ascii_case s "high" || eq_ignore_ascii_case s "complex" then Complex
  else Medium.

Definition tier_rank (t : ModelTier) : nat :=
  match t with Fast => 0 | Capable => 1 | Premium => 2 end.
Definition complexity_rank (c : Complexity) : nat :=
  match c with Simple => 0 | Medium => 1 | Complex => 2 end.

(** Routing is monotone: a harder task never gets a weaker tier. *)
Lemma route_monotone ty c1 c2 :
  complexity_rank c1 <= complexity_rank c2 ->
  tier_rank (route (TaskProfile_new ty c1)) <= tier_rank (route (TaskProfile_new ty c2)).
Proof. destruct ty, c1, c2; simpl; lia. Qed.

(** ** Backoff *)

Record RetryConfig := mkRetryConfig {
  max_retries : N;
  base_delay : Duration;
  max_delay : Duration;
  jitter : bool;
}.

Definition RetryConfig_default : RetryConfig := mkRetryConfig 3 (from_millis 500) (from_secs 30) true.
Definition RetryConfig_none : RetryConfig := mkRetryConfig 0 (from_millis 500) (from_secs 30) true.
Definition aggressive : RetryConfig := mkRetryConfig 5 (from_millis 250) (from_secs 60) true.

(** [Duration::MAX] in nanoseconds. *)
Definition duration_max : Duration := (u64_max * 1000000000 + 999999999)%N.

Definition duration_saturating_mul (d : Duration) (k : N) : Duration := N.min (d * k) duration_max.

(** [d1 + d2] on durations panics on overflow. *)
Definition duration_add (d1 d2 : Duration) : option Duration :=
  if (d1 + d2 <=? duration_max)%N then Some (d1 + d2)%N else None.

(** [1u32.checked_shl(attempt).unwrap_or(u32::MAX)] *)
Definition shl_factor (attempt : N) : N :=
  if (attempt <? 32)%N then (2 ^ attempt)%N else u32_max.

(** [draw r] is the value [random_range(0..=r)] returns. *)
Definition compute_delay (config : RetryConfig) (attempt : N) (draw : N -> N) : option Duration :=
  let exp_delay := duration_saturating_mul (base_delay config) (shl_factor attempt) in
  let capped := N.min exp_delay (max_delay config) in
  if jitter config then
    let jitter_range := (((capped / 1000000) mod 2 ^ 64) / 4)%N in
    if (0 <? jitter_range)%N then duration_add capped (from_millis (draw jitter_range))
    else Some capped
  else Some capped.

Definition retryable_markers : list string :=
  ["rate limit"; "429"; "503"; "502"; "timeout"; "timed out"; "connection reset";
   "connection refused"; "temporarily unavailable"; "service unavailable"; "server error";
   "500"; "overloaded"; "capacity"]%string.

Definition is_retryable (error_msg : string) : bool :=
  existsb (fun m => str_contains m (to_ascii_lowercase error_msg)) retryable_markers.

(** ** The retry loop *)

Section retry.
Context {T E S : Type} (to_string : E -> string) (call : S -> Result T E * S).
Context (config : RetryConfig) (draw : N -> N -> N).

(** One [for] turn per unit of fuel; the delays slept are returned with the
    result. [None] is a panic: the overflow in [compute_delay], or the
    [unreachable!] after the loop. *)
Fixpoint retry_loop (turns : nat) (attempt : N) (s : S) (slept : list Duration)
    : option (Result T E * S * list Duration) :=
  match turns with
  | O => None
  | Datatypes.S turns =>
      let (r, s') := call s in
      match r with
      | Ok v => Some (Ok v, s', slept)
      | Err e =>
          if (max_retries config <=? attempt)%N then Some (Err e, s', slept)
          else if negb (is_retryable (to_string e)) then Some (Err e, s', slept)
          else
            match compute_delay config attempt (draw attempt) with
            | None => None
            | Some d => retry_loop turns (attempt + 1) s' (slept ++ [d])
            end
      end
  end.

Definition with_retry (s : S) : option (Result T E * S * list Duration) :=
  retry_loop (Datatypes.S (N.to_nat (max_retries config))) 0 s [].

(** *** Its specification *)

(** State and answer of the [n]-th call when all calls are made. *)
Fixpoint state_at (n : nat) (s : S) : S :=
  match n with O => s | Datatypes.S n => state_at n (call s).2 end.
Definition answer_at (n : nat) (s : S) : Result T E := (call (state_at n s)).1.

Definition transient (r : Result T E) : Prop :=
  match r with Ok _ => False | Err e => is_retryable (to_string e) = true end.

Definition draws_ok : Prop := forall a r, (draw a r <= r)%N.

Definition delay_bound : N := (max_delay config + max_delay config / 4)%N.

Lemma capped_le attempt :
  (N.min (duration_saturating_mul (base_delay config) (shl_factor attempt)) (max_delay config)
   <= max_delay config)%N.
Proof. apply N.le_min_r. Qed.

Lemma jitter_le (capped r : N) :
  (r <= (capped / 1000000) mod 2 ^ 64 / 4)%N -> (from_millis r <= capped / 4)%N.
Proof.
  intros Hr. unfold from_millis.
  assert ((capped / 1000000) mod 2 ^ 64 <= capped / 1000000)%N as Hm by (apply N.Div0.mod_le).
  pose proof (N.Div0.mul_div_le ((capped / 1000000) mod 2 ^ 64) 4).
  pose proof (N.Div0.mul_div_le capped 1000000).
  apply N.div_le_lower_bound; lia.
Qed.

Lemma compute_delay_within attempt :
  draws_ok -> (delay_bound <= duration_max)%N ->
  exists d, compute_delay config attempt (draw attempt) = Some d /\
    (N.min (duration_saturating_mul (base_delay config) (shl_factor attempt)) (max_delay config)
     <= d <= delay_bound)%N.
Proof.
  intros Hd Hb. unfold compute_delay. pose proof (capped_le attempt) as Hc.
  set (c := N.min _ _) in *. clearbody c. unfold delay_bound in *.
  assert (c / 4 <= max_delay config / 4)%N as H4 by (apply N.Div0.div_le_mono; exact Hc).
  pose proof (jitter_le c (draw attempt (c / 1000000 mod 2 ^ 64 / 4)) (Hd _ _)) as Hj.
  generalize dependent (c / 4)%N. generalize dependent (max_delay config / 4)%N.
  intros m4 Hb c4 H4 Hj.
  destruct (jitter config); [|exists c; split; [done|lia]].
  case_match; [|exists c; split; [done|lia]].
  set (j := from_millis _) in *. clearbody j.
  unfold duration_add. assert (c + j <= duration_max)%N as Hle by lia.
  apply N.leb_le in Hle. rewrite Hle. eexists. split; [done|lia].
Qed.

Lemma retry_loop_spec turns attempt s slept :
  draws_ok -> (delay_bound <= duration_max)%N ->
  (attempt <= max_retries config)%N ->
  turns = Datatypes.S (N.to_nat (max_retries config - attempt)) ->
  exists k delays,
    retry_loop turns attempt s slept = Some (answer_at k s, state_at (Datatypes.S k) s, slept ++ delays) /\
    (attempt + N.of_nat k <= max_retries config)%N /\ length delays = k /\
    Forall (fun d => (d <= delay_bound)%N) delays /\
    (forall j, j < k -> transient (answer_at j s)) /\
    ((attempt + N.of_nat k = max_retries config)%N \/ ~ transient (answer_at k s)).
Proof.
  intros Hd Hb. revert attempt s slept. induction turns as [|turns IH]; intros attempt s slept Ha Ht; [done|].
  cbn [retry_loop]. destruct (call s) as [r s'] eqn:Hcall.
  assert (answer_at 0 s = r) as Hr by (unfold answer_at; simpl; by rewrite Hcall).
  assert (~ transient r \/ attempt = max_retries config ->
    exists k delays, Some (r, s', slept) = Some (answer_at k s, state_at (Datatypes.S k) s, slept ++ delays) /\
    (attempt + N.of_nat k <= max_retries config)%N /\ length delays = k /\
    Forall (fun d => (d <= delay_bound)%N) delays /\ (forall j, j < k -> transient (answer_at j s)) /\
    ((attempt + N.of_nat k = max_retries config)%N \/ ~ transient (answer_at k s))) as Hstop.
  { intros Hs. exists 0, []. rewrite Hr, app_nil_r. simpl. rewrite Hcall. simpl.
    split_and!; try done; try lia. destruct Hs; [by right|left; lia]. }
  destruct r as [v|e].
  { apply Hstop. left. by intros []. }
  destruct (N.leb_spec (max_retries config) attempt) as [Hle|Hlt]; [apply Hstop; right; lia|].
  destruct (is_retryable (to_string e)) eqn:Hret; cbn [negb]; last first.
  { apply Hstop. left. simpl. by rewrite Hret. }
  clear Hstop. destruct (compute_delay_within attempt Hd Hb) as (d & -> & _ & Hdb).
  destruct (IH (attempt + 1)%N s' (slept ++ [d])) as (k & ds & -> & Hk & Hlen & Hf & Htr & Hend); [lia|lia|].
  assert (forall j, answer_at (Datatypes.S j) s = answer_at j s') as Hshift
    by (intros j; unfold answer_at; simpl; by rewrite Hcall).
  exists (Datatypes.S k), (d :: ds). rewrite Hshift, <-app_assoc. simpl. rewrite Hcall. simpl.
  split_and!; try done; try lia; [by constructor| |].
  - intros [|j] Hj; [by rewrite Hr|]. rewrite Hshift. apply Htr. lia.
  - destruct Hend; [left; lia|by right].
Qed.
End retry.

(** [with_retry] never panics and makes [k+1] calls, [k <= max_retries]:
    the first [k] failed with retryable errors, and it stops at the first
    success, the first non-retryable error, or the last allowed attempt,
    returning exactly that call's answer; it slept [k] times, each at most
    [max_delay] plus a quarter. *)
Theorem with_retry_correct {T E S} (to_string : E -> string) (call : S -> Result T E * S)
    config draw s :
  draws_ok draw -> (delay_bound config <= duration_max)%N ->
  exists k delays,
    with_retry to_string call config draw s =
      Some (answer_at call k s, state_at call (Datatypes.S k) s, delays) /\
    (N.of_nat k <= max_retries config)%N /\ length delays = k /\
    Forall (fun d => (d <= delay_bound config)%N) delays /\
    (forall j, j < k -> transient to_string (answer_at call j s)) /\
    (N.of_nat k = max_retries config \/ ~ transient to_string (answer_at call k s)).
Proof.
  intros Hd Hb. unfold with_retry.
  destruct (retry_loop_spec to_string call config draw (Datatypes.S (N.to_nat (max_retries config))) 0 s [])
    as (k & ds & Heq & Hk & Hl & Hf & Ht & He); [done|done|lia|rewrite N.sub_0_r; reflexivity|].
  rewrite N.add_0_l in *. exists k, ds. split_and!; done.
Qed.

(** A client that is rate limited twice and then answers. *)
Definition flaky (n : nat) : Result string string * nat :=
  (match n with O => Ok "answer"%string | _ => Err "HTTP 429"%string end, pred n).

Lemma with_retry_correct_witness :
  with_retry (fun e => e) flaky RetryConfig_default (fun _ r => r) 2 =
    Some (Ok "answer"%string, 0, [from_millis 625; from_millis 1250]) /\
  exists k delays,
    with_retry (fun e => e) flaky RetryConfig_default (fun _ r => r) 2 =
      Some (answer_at flaky k 2, state_at flaky (Datatypes.S k) 2, delays) /\
    (N.of_nat k <= 3)%N.
Proof.
  split; [vm_compute; reflexivity|].
  destruct (with_retry_correct (fun e => e) flaky RetryConfig_default (fun _ r => r) 2)
    as (k & ds & H1 & H2 & _); [intros a r; apply N.le_refl|vm_compute; discriminate|].
  exists k, ds. split; [exact H1|exact H2].
Defined.

(** ** Queue priorities (inference_queue.rs)

    The queue itself is the external [majra] crate. *)

(** Planning is ai-hwaccel's: the router hands its arguments on. *)
Definition suggest_quantization {Registry Quant : Type} (crate_suggest : Registry -> N -> Quant)
    (model_params : N) (registry : Registry) : Quant :=
  crate_suggest registry model_params.
Definition estimate_model_memory {Quant : Type} (estimate_memory : N -> Quant -> N) (model_params : N) (quant : Quant) : N :=
  estimate_memory model_params quant.

Inductive MajraPriority := PBackground | PLow | PNormal | PHigh | PCritical.

Definition map_priority (p : TaskPriority) : MajraPriority :=
  match p with
  | Background => PBackground | Low => PLow | Normal => PNormal | High => PHigh | Critical => PCritical
  end.
