(* ===== verification/TaskExec.v ===== *)
(** * Executing one task (orchestrator/crew_runner.rs, [execute_task] and its helpers)

    The inference client, the response cache, the cost tracker, the clock and
    the JSON printer belong to external crates: they are the operations of a
    record [Env] over a world [W] that every operation may change. *)

From S2P Require Import Prelude.
From S2P Require Import F64.
From S2P Require Import Resource.
From S2P Require Import Core.
From S2P Require Import Text.
From S2P Require Import PromptGuard.
From S2P Require Import OutputValidation.
From S2P Require Import Llm.
From Stdlib Require Import Ascii String.
From stdpp Require Import base gmap strings numbers list.

Local Open Scope string_scope.
#[local] Arguments String.append !_ _ / : simpl nomatch.

(** ** Messages and requests *)

Inductive Role := User | Assistant.
Record Message := mkMessage { msg_role : Role; msg_content : string }.

Record InferenceRequest := mkInferenceRequest {
  req_model : string;
  req_prompt : string;
  req_system : option string;
  req_messages : list Message;
  req_max_tokens : option N;
  req_temperature : option f64;
}.

Record TokenUsage := mkTokenUsage { prompt_tokens : N; completion_tokens : N; total_tokens : N }.
Record InferenceResponse := mkInferenceResponse {
  resp_text : string;
  resp_model : string;
  resp_provider : string;
  resp_latency_ms : N;
  resp_usage : TokenUsage;
}.

Inductive ProviderType := OpenAi | Anthropic | DeepSeek | Google | Grok | Mistral | Ollama.

(** server/sse.rs *)
Record CrewEvent := mkCrewEvent { ev_crew_id : string; ev_type : string; ev_data : Value }.

(** ** The environment *)

Record Env (W : Type) := mkEnv {
  infer : InferenceRequest -> W -> Result InferenceResponse string * W;
  cache_key : string -> list Message -> string;
  cache_get : string -> W -> option string * W;
  cache_insert : string -> string -> W -> W;
  record_cost : ProviderType -> string -> TokenUsage -> W -> f64 * W;
  elapsed_ms : W -> W -> N;                      (* start, now *)
  json_from_str : string -> Result Value string;
  schema_to_string : Value -> string;
  context_to_json : gmap string Value -> string; (* [to_string_pretty] *)
  uuid_to_string : Uuid -> string;
  retry_draw : N -> N -> N;
}.
Arguments infer {W}. Arguments cache_key {W}. Arguments cache_get {W}.
Arguments cache_insert {W}. Arguments record_cost {W}. Arguments elapsed_ms {W}.
Arguments json_from_str {W}. Arguments schema_to_string {W}. Arguments context_to_json {W}.
Arguments uuid_to_string {W}. Arguments retry_draw {W}.

(** ** Helpers *)

Definition infer_provider (model : string) : ProviderType :=
  let m := to_lowercase model in
  if starts_with "gpt-" m || starts_with "o1" m || starts_with "o3" m then OpenAi
  else if starts_with "claude" m then Anthropic
  else if starts_with "deepseek" m then DeepSeek
  else if starts_with "gemini" m then Google
  else if starts_with "grok" m then Grok
  else if starts_with "mistral" m || starts_with "mixtral" m then Mistral
  else Ollama.

Definition build_system_prompt (agent : option AgentDefinition) : string :=
  match agent with
  | None => "You are a helpful AI assistant executing tasks within a crew."
  | Some a =>
      let prompt := "You are " ++ agent_name a ++ ", a " ++ role a ++ "." ++ nl ++ nl
                      ++ "Goal: " ++ goal a in
      let prompt := match backstory a with
                    | Some b => prompt ++ nl ++ nl ++ "Backstory: " ++ b | None => prompt end in
      let prompt := match domain a with
                    | Some d => prompt ++ nl ++ nl ++ "Domain expertise: " ++ d | None => prompt end in
      let prompt := match tools a with
                    | [] => prompt
                    | ts => prompt ++ nl ++ nl ++ "Available tools: " ++ str_join ", " ts end in
      match personality a with
      | Some p =>
          let disposition := compose_prompt p in
          if bool_decide (disposition = "") then prompt else prompt ++ nl ++ disposition
      | None => prompt
      end
  end.

Definition known_prefixes : list string :=
  ["ollama"; "openai"; "anthropic"; "groq"; "deepseek"; "mistral"; "together";
   "fireworks"; "anyscale"; "perplexity"; "bedrock"; "azure"].

Definition strip_provider_prefix (model : string) : string :=
  match str_find "/" model with
  | Some idx =>
      if bool_decide (str_take idx model ∈ known_prefixes) then str_drop (idx + 1) model else model
  | None => model
  end.

Definition select_model (agent : option AgentDefinition) : string :=
  match agent with
  | Some a =>
      match llm_model a with
      | Some m => strip_provider_prefix m
      | None => default_model (route (TaskProfile_new Reason (parse_complexity (complexity a))))
      end
  | None => default_model Capable
  end.

Definition mood_adjusted_temperature (p : PersonalityProfile) (base : f64) : f64 :=
  let creativity := f64_of_f32 (trait_normalized p Creativity) in
  let curiosity := f64_of_f32 (trait_normalized p Curiosity) in
  let precision := f64_of_f32 (trait_normalized p Precision) in
  let risk := f64_of_f32 (trait_normalized p RiskTolerance) in
  let confidence := f64_of_f32 (trait_normalized p Confidence) in
  let delta :=
    f64_sub (f64_sub (f64_add (f64_add (f64_mul creativity (f64_lit 15 100))
      (f64_mul curiosity (f64_lit 1 10))) (f64_mul risk (f64_lit 1 10)))
      (f64_mul precision (f64_lit 15 100))) (f64_mul confidence (f64_lit 5 100)) in
  f64_clamp (f64_add base delta) (f64_lit 1 10) (f64_lit 15 10).

(** [serde_json::json!] of a float: non-finite values become [null]. *)
Definition json_f64 (x : f64) : Value :=
  match x with
  | SpecFloat.S754_infinity _ | SpecFloat.S754_nan => Null
  | _ => Num (Float x)
  end.
Definition json_u64 (n : N) : Value := Num (PosInt n).

(** ** [execute_task]

    The answer is a panic (of [sanitize]) or the result, the world and the
    events sent. *)

Section execute.
Context {W : Type} (env : Env W).

Definition task_messages (t : Task) : option (list Message) :=
  if bool_decide (context t = ∅) then Some []
  else match sanitize (context_to_json env (context t)) "context" with
       | None => None
       | Some (ctx, _) =>
           Some [mkMessage User ctx; mkMessage Assistant "Understood, I have the context."]
       end.

Definition task_prompt (t : Task) : option string :=
  match sanitize (description t) "task_description" with
  | None => None
  | Some (msg, _) =>
      match expected_output t with
      | None => Some msg
      | Some e => match sanitize e "expected_output" with
                  | None => None
                  | Some (exp, _) => Some (msg ++ nl ++ nl ++ exp)
                  end
      end
  end.

Definition task_temperature (agent : option AgentDefinition) : f64 :=
  let temperature := f64_lit 7 10 in
  match agent with
  | Some a => match personality a with
              | Some p => mood_adjusted_temperature p temperature
              | None => temperature
              end
  | None => temperature
  end.

Definition task_request (t : Task) (agent : option AgentDefinition) : option InferenceRequest :=
  match task_messages t, task_prompt t with
  | Some messages, Some prompt =>
      Some (mkInferenceRequest (select_model agent) prompt
              (Some (wrap_system_prompt (build_system_prompt agent))) messages (Some 4096%N)
              (Some (task_temperature agent)))
  | _, _ => None
  end.

(** [with_retry(&RetryConfig::default(), .., || client.infer(req))] *)
Definition infer_with_retry (req : InferenceRequest) (w : W)
    : option (Result InferenceResponse string * W) :=
  match with_retry (fun e => e) (infer env req) RetryConfig_default (retry_draw env) w with
  | Some (r, w', _) => Some (r, w')
  | None => None
  end.

(** The [for attempt in 1..=MAX_VALIDATION_RETRIES] loop. *)
Fixpoint validate_loop (attempts : nat) (schema : Value) (original_prompt : string)
    (req : InferenceRequest) (resp : Result InferenceResponse string) (w : W)
    : option (Result InferenceResponse string * W) :=
  match attempts with
  | O => Some (resp, w)
  | S attempts =>
      match resp with
      | Err _ => Some (resp, w)
      | Ok r =>
          match extract_and_validate (json_from_str env) (resp_text r) schema with
          | (_, Valid) => Some (resp, w)
          | (extracted, Invalid err) =>
              match sanitize extracted "failed_output" with
              | None => None
              | Some (sanitized, _) =>
                  let req' := mkInferenceRequest (req_model req)
                    (build_retry_prompt (schema_to_string env) original_prompt sanitized err schema)
                    (req_system req) (req_messages req) (req_max_tokens req)
                    (Some (f64_lit 1 10)) in
                  match infer_with_retry req' w with
                  | None => None
                  | Some (resp', w') => validate_loop attempts schema original_prompt req' resp' w'
                  end
              end
          end
      end
  end.

Definition token_event (t : Task) (text : string) : CrewEvent :=
  mkCrewEvent
    (default "unknown" (match context t !! "crew_id" with Some v => as_str v | None => None end))
    "token"
    (Obj [("task_id", Str (uuid_to_string env (task_id t))); ("token", Str text);
          ("complete", Bool true)]).

Definition success_metadata (r : InferenceResponse) (cost : f64) (ms : N) : gmap string Value :=
  <["task_duration_ms" := json_u64 ms]> (<["cost_usd" := json_f64 cost]>
  (<["tokens" := Obj [("prompt", json_u64 (prompt_tokens (resp_usage r)));
                      ("completion", json_u64 (completion_tokens (resp_usage r)));
                      ("total", json_u64 (total_tokens (resp_usage r)))]]>
  (<["latency_ms" := json_u64 (resp_latency_ms r)]>
  (<["provider" := Str (resp_provider r)]> {["model" := Str (resp_model r)]})))).

Definition finish_ok (t : Task) (ck : string) (events : bool) (start : W) (r : InferenceResponse)
    (w : W) : TaskResult * W * list CrewEvent :=
  let w1 := cache_insert env ck (resp_text r) w in
  let ms := elapsed_ms env start w1 in
  let (cost, w2) := record_cost env (infer_provider (resp_model r)) (resp_model r) (resp_usage r) w1 in
  (mkTaskResult (task_id t) (resp_text r) Completed (success_metadata r cost ms), w2,
   if events then [token_event t (resp_text r)] else []).

Definition finish_err (t : Task) (start : W) (e : string) (w : W)
    : TaskResult * W * list CrewEvent :=
  (mkTaskResult (task_id t) ("LLM error: " ++ e) Failed
     (<["task_duration_ms" := json_u64 (elapsed_ms env start w)]> {["error" := Str e]}), w, []).

Definition execute_llm (t : Task) (agent : option AgentDefinition) (events : bool) (w : W)
    : option (TaskResult * W * list CrewEvent) :=
  match task_request t agent with
  | None => None
  | Some req =>
      let ck := cache_key env (req_model req) (req_messages req) in
      match cache_get env ck w with
      | (Some cached, w1) =>
          Some (mkTaskResult (task_id t) cached Completed
                  (<["task_duration_ms" := json_u64 (elapsed_ms env w w1)]>
                     (<["cached" := Bool true]> {["model" := Str (req_model req)]})), w1, [])
      | (None, w1) =>
          match infer_with_retry req w1 with
          | None => None
          | Some (resp, w2) =>
              let final :=
                match output_schema t with
                | None => Some (resp, w2)
                | Some schema =>
                    validate_loop MAX_VALIDATION_RETRIES schema (req_prompt req) req resp w2
                end in
              match final with
              | None => None
              | Some (Ok r, w3) => Some (finish_ok t ck events w r w3)
              | Some (Err e, w3) => Some (finish_err t w e w3)
              end
          end
      end
  end.

(** [llm] tells whether a client is attached; [events] whether a sender is. *)
Definition execute_task (llm : bool) (t : Task) (agent : option AgentDefinition) (events : bool)
    (w : W) : option (TaskResult * W * list CrewEvent) :=
  if llm then execute_llm t agent events w
  else Some (mkTaskResult (task_id t) (description t) Completed
               {["task_duration_ms" := json_u64 (elapsed_ms env w w)]}, w, []).
End execute.

(** ** Theorems *)

Section execute_theorems.
Context {W : Type} (env : Env W).

(** What every answer of [execute_task] has in common. *)
Record result_ok (t : Task) (r : TaskResult) : Prop := {
  ro_id : res_task_id r = task_id t;
  ro_status : res_status r = Completed \/ res_status r = Failed;
  ro_no_agent : metadata r !! "agent" = None;
  ro_duration : exists ms, metadata r !! "task_duration_ms" = Some (json_u64 ms);
  ro_failed : res_status r = Failed -> exists e, output r = "LLM error: " ++ e;
}.

Lemma finish_ok_result t ck events start r w :
  result_ok t (finish_ok env t ck events start r w).1.1.
Proof.
  unfold finish_ok. destruct (record_cost _ _ _ _ _) as [cost w2]. simpl.
  split; simpl; [done|by left|reflexivity| |done]. eexists. reflexivity.
Qed.

Lemma execute_task_ok llm t agent events w r w' evs :
  execute_task env llm t agent events w = Some (r, w', evs) -> result_ok t r.
Proof.
  unfold execute_task. destruct llm.
  - unfold execute_llm. destruct (task_request env t agent) as [req|]; [|done].
    destruct (cache_get _ _ _) as [[cached|] w1].
    + intros [= <- _ _]. split; simpl; [done|by left|reflexivity| |done]. eexists. reflexivity.
    + destruct (infer_with_retry env req w1) as [[resp w2]|]; [|done].
      destruct (match output_schema t with Some _ => _ | None => _ end) as [[[ok|e] w3]|]; [| |done].
      * intros Heq. pose proof (finish_ok_result t (cache_key env (req_model req) (req_messages req))
          events w ok w3) as Hr. injection Heq as Heq. by rewrite Heq in Hr.
      * intros [= <- _ _]. split; simpl; [done|by right|reflexivity| |by eexists].
        eexists. reflexivity.
  - intros [= <- _ _]. split; simpl; [done|by left|reflexivity| |done]. eexists. reflexivity.
Qed.

(** Without a client the answer is the placeholder, and never a panic. *)
Lemma execute_placeholder t agent events w :
  exists r, execute_task env false t agent events w = Some (r, w, []) /\
    output r = description t /\ res_status r = Completed.
Proof. by eexists. Qed.

(** The cache key is made of the model and the context messages only: for
    a task without context, a cached answer for its model is returned
    whatever the description, the expected output and the schema of the task are. *)
Theorem cached_answer_ignores_task t agent events w out w' :
  context t = ∅ -> is_Some (task_prompt t) ->
  cache_get env (cache_key env (select_model agent) []) w = (Some out, w') ->
  exists r, execute_task env true t agent events w = Some (r, w', []) /\
    output r = out /\ res_status r = Completed.
Proof.
  intros Hc [p Hp] Hg. unfold execute_task, execute_llm, task_request, task_messages.
  rewrite bool_decide_eq_true_2, Hp by done. simpl. rewrite Hg. by eexists.
Qed.

(** A client that always gives the same answer, whatever the state of the world. *)
Definition constant_client (resp : InferenceResponse) : Prop :=
  forall req w, infer env req w = (Ok resp, w).

Lemma constant_infer resp req w :
  constant_client resp -> infer_with_retry env req w = Some (Ok resp, w).
Proof. intros Hc. unfold infer_with_retry, with_retry. simpl. by rewrite Hc. Qed.

Lemma constant_validate resp n schema prompt req w :
  constant_client resp ->
  is_Some (sanitize (extract_and_validate (json_from_str env) (resp_text resp) schema).1 "failed_output") ->
  validate_loop env n schema prompt req (Ok resp) w = Some (Ok resp, w).
Proof.
  intros Hc [[s sc] Hs]. revert req. induction n as [|n IH]; intros req; [done|]. cbn [validate_loop].
  destruct (extract_and_validate _ _ _) as [extracted [|err]] eqn:E; [done|].
  cbn [fst] in Hs. rewrite Hs, (constant_infer resp) by done. apply IH.
Qed.

(** Exhausting the validation retries is not a failure: when the client
    keeps returning an answer that does not conform to the task's schema, the
    task still ends [Completed] with that answer as its output. *)
Theorem nonconforming_output_completes t agent events w resp schema :
  output_schema t = Some schema -> constant_client resp ->
  is_Some (task_request env t agent) ->
  is_Some (sanitize (extract_and_validate (json_from_str env) (resp_text resp) schema).1 "failed_output") ->
  (forall k w, cache_get env k w = (None, w)) ->
  exists r w' evs, execute_task env true t agent events w = Some (r, w', evs) /\
    res_status r = Completed /\ output r = resp_text resp.
Proof.
  intros Hs Hc [req Hr] Hsan Hcache. unfold execute_task, execute_llm.
  rewrite Hr, Hcache, (constant_infer resp) by done. rewrite Hs, (constant_validate resp) by done.
  unfold finish_ok. destruct (record_cost _ _ _ _ _) as [cost w2]. by do 3 eexists.
Qed.
End execute_theorems.

(** The traits are numbers and their weighted sum does not overflow to NaN. *)
Lemma mood_temperature_range p base :
  is_nan (f64_add base
    (f64_sub (f64_sub (f64_add (f64_add (f64_mul (f64_of_f32 (trait_normalized p Creativity)) (f64_lit 15 100))
      (f64_mul (f64_of_f32 (trait_normalized p Curiosity)) (f64_lit 1 10)))
      (f64_mul (f64_of_f32 (trait_normalized p RiskTolerance)) (f64_lit 1 10)))
      (f64_mul (f64_of_f32 (trait_normalized p Precision)) (f64_lit 15 100)))
      (f64_mul (f64_of_f32 (trait_normalized p Confidence)) (f64_lit 5 100)))) = false ->
  cmp_le (f64_lit 1 10) (mood_adjusted_temperature p base) = true /\
  cmp_le (mood_adjusted_temperature p base) (f64_lit 15 10) = true.
Proof.
  intros Hn. unfold mood_adjusted_temperature.
  destruct (f64_clamp_range _ (f64_lit 1 10) (f64_lit 15 10) Hn) as (_ & H1 & H2);
    [reflexivity|reflexivity|reflexivity|exact (conj H1 H2)].
Qed.

(** ** Concrete instances *)

(** A world that is a cache; the client answers "42". *)
Definition answer_42 : InferenceResponse :=
  mkInferenceResponse "42" "llama3:70b" "ollama" 5 (mkTokenUsage 1 1 2).

Definition toy_env : Env (gmap string string) := {|
  infer _ w := (Ok answer_42, w);
  cache_key m _ := m;
  cache_get k w := (w !! k, w);
  cache_insert k v w := <[k := v]> w;
  record_cost _ _ _ w := (f64_zero, w);
  elapsed_ms _ _ := 0%N;
  json_from_str s := Err "unsupported";
  schema_to_string _ := "{}";
  context_to_json _ := "{}";
  uuid_to_string _ := "id";
  retry_draw _ _ := 0%N;
|}.

(** The same environment with a cache that never holds anything. *)
Definition nocache_env : Env (gmap string string) := {|
  infer _ w := (Ok answer_42, w);
  cache_key m _ := m;
  cache_get k w := (None, w);
  cache_insert k v w := w;
  record_cost _ _ _ w := (f64_zero, w);
  elapsed_ms _ _ := 0%N;
  json_from_str s := Err "unsupported";
  schema_to_string _ := "{}";
  context_to_json _ := "{}";
  uuid_to_string _ := "id";
  retry_draw _ _ := 0%N;
|}.

Lemma cached_answer_ignores_task_witness :
  exists r, execute_task toy_env true (Task_new 2 "What is the capital of France?") None false
              {["llama3:70b" := "42"]} = Some (r, {["llama3:70b" := "42"]}, []) /\
    output r = "42" /\ res_status r = Completed.
Proof.
  apply (cached_answer_ignores_task toy_env).
  - reflexivity.
  - eexists. vm_compute. reflexivity.
  - vm_compute. reflexivity.
Defined.

Lemma nonconforming_output_completes_witness :
  exists r w' evs, execute_task nocache_env true (with_output_schema (Task_new 2 "json please") (Obj []))
      None false ∅ = Some (r, w', evs) /\ res_status r = Completed /\ output r = "42".
Proof.
  apply (nonconforming_output_completes nocache_env _ None false ∅ answer_42 (Obj [])).
  - reflexivity.
  - intros req w. reflexivity.
  - eexists. vm_compute. reflexivity.
  - eexists. vm_compute. reflexivity.
  - intros k w. reflexivity.
Defined.
