(* ===== verification/CrewRunner.v ===== *)
(** * Running a crew (orchestrator/crew_runner.rs)

    The three execution modes of [CrewRunner] over the task executor of
    [TaskExec]. Concurrency: the tasks of a [JoinSet] are taken in the order in
    which they complete, an arbitrary permutation chosen by the runtime
    ([completion_order]); whatever other tasks do to the cache, the client or
    the cost tracker in between is part of the world's own operations. A panic
    inside a spawned task becomes a join error, a panic of the runner itself
    ends the run. *)

From S2P Require Import Prelude.
From S2P Require Import F64.
From S2P Require Import Resource.
From S2P Require Import Core.
From S2P Require Import Kahn.
From S2P Require Import TopoTasks.
From S2P Require Import Scoring.
From S2P Require Import Text.
From S2P Require Import PromptGuard.
From S2P Require Import OutputValidation.
From S2P Require Import Llm.
From S2P Require Import TaskExec.
From Stdlib Require Import String.
From stdpp Require Import base gmap strings numbers list.

Local Open Scope string_scope.
#[local] Arguments String.append !_ _ / : simpl nomatch.

(** [Semaphore::MAX_PERMITS] of tokio, [usize::MAX >> 3]. *)
Definition MAX_PERMITS : N := N.shiftr u64_max 3.

(** What the runtime decides. *)
Record Runtime (W : Type) := mkRuntime {
  poll_cancelled : W -> bool * W;          (* [cancelled.load(Acquire)] *)
  completion_order : W -> nat -> list nat;
  after_panic : W -> W;
  join_error : string;
}.
Arguments poll_cancelled {W}. Arguments completion_order {W}.
Arguments after_panic {W}. Arguments join_error {W}.

Record CrewRunner := mkCrewRunner {
  spec : CrewSpec;
  event_tx : bool;      (* a sender is attached *)
  llm : bool;           (* a client is attached *)
  audit : bool;         (* an audit chain is attached *)
}.

Definition CrewRunner_new (s : CrewSpec) : CrewRunner := mkCrewRunner s false false false.
Definition with_llm (r : CrewRunner) : CrewRunner := mkCrewRunner (spec r) (event_tx r) true (audit r).
Definition with_audit (r : CrewRunner) : CrewRunner := mkCrewRunner (spec r) (event_tx r) (llm r) true.
Definition with_events (r : CrewRunner) : CrewRunner := mkCrewRunner (spec r) true (llm r) (audit r).

Inductive LogEntry :=
| Sent (e : CrewEvent)
| Audited (event level message : string) (metadata : Value).

Inductive Joined := JOk (r : TaskResult) | JErr.

Definition debug_status (s : TaskStatus) : string :=
  match s with
  | Pending => "Pending" | Queued => "Queued" | Running => "Running"
  | Completed => "Completed" | Failed => "Failed" | Cancelled => "Cancelled"
  end.
Definition debug_crew_status (s : CrewStatus) : string :=
  match s with
  | CPending => "Pending" | CRunning => "Running" | CCompleted => "Completed"
  | CFailed => "Failed" | CCancelled => "Cancelled"
  end.

Section runner.
Context {W : Type} (env : Env W) (rt : Runtime W).
Context `{!HashIter Uuid nat} `{!HashIter Uuid f64}.
Context (r : CrewRunner).

Definition emit (event_type : string) (data : Value) : list LogEntry :=
  if event_tx r then [Sent (mkCrewEvent (uuid_to_string env (crew_id (spec r))) event_type data)]
  else [].

Definition audit_record (event level message : string) (metadata : Value) : list LogEntry :=
  if audit r then [Audited event level message metadata] else [].

Definition opt_str (o : option string) : Value :=
  match o with Some s => Str s | None => Null end.

Definition task_started (t : Task) (agent : option AgentDefinition) : list LogEntry :=
  emit "task_started"
    (Obj [("task_id", Str (uuid_to_string env (task_id t))); ("description", Str (description t));
          ("agent", opt_str (option_map agent_key agent))]).

Definition task_completed (tr : TaskResult) : list LogEntry :=
  emit "task_completed"
    (Obj [("task_id", Str (uuid_to_string env (res_task_id tr)));
          ("status", Str (debug_status (res_status tr)))]).

(** ** Sequential *)

Definition seq_step (t : Task) (w : W) : option (TaskResult * Task * W * list LogEntry) :=
  let agent := pick_best_agent (agents (spec r)) t in
  let t1 := set_status Queued t in
  let started := task_started t1 agent in
  let t2 := set_status Running t1 in
  match execute_task env (llm r) t2 agent (event_tx r) w with
  | None => None
  | Some (result, w', evs) =>
      let t3 := set_status (res_status result) t2 in
      let level := if bool_decide (res_status result = Completed) then "info" else "error" in
      Some (result, t3, w',
        started ++ map Sent evs ++ task_completed result ++
        audit_record "task_completed" level (description t3)
          (Obj [("crew_id", Str (uuid_to_string env (crew_id (spec r))));
                ("task_id", Str (uuid_to_string env (res_task_id result)));
                ("status", Str (debug_status (res_status result)));
                ("agent", opt_str (option_map agent_key agent))]))%list
  end.

(** Returns the results, the task list with its new statuses, the world and the log. *)
Fixpoint run_sequential (ts : list Task) (w : W)
    : Outcome (list TaskResult * list Task * W * list LogEntry) :=
  match ts with
  | [] => Returns ([], [], w, [])
  | t :: rest =>
      let (cancelled, w1) := poll_cancelled rt w in
      if cancelled then Returns ([], ts, w1, [])
      else
        match seq_step t w1 with
        | None => Panics
        | Some (result, t', w2, log) =>
            match run_sequential rest w2 with
            | Returns (results, ts', w3, log') =>
                Returns (result :: results, t' :: ts', w3, (log ++ log')%list)
            | Panics => Panics
            | Hangs => Hangs
            end
        end
  end.

(** ** Spawned tasks *)

(** A panic in [execute_task] is caught by the join handle, where panics unwind;
    under the release profile, which aborts on a panic, [JErr] does not occur. *)
Definition spawn_execute (t : Task) (agent : option AgentDefinition) (w : W) : Joined * W :=
  match execute_task env (llm r) t agent false w with
  | Some (result, w', _) => (JOk result, w')
  | None => (JErr, after_panic rt w)
  end.

Definition cancelled_result (t : Task) : TaskResult :=
  mkTaskResult (task_id t) "crew cancelled" Failed ∅.

(** The body of a parallel task. The semaphore is never closed, so [acquire]
    fails never and blocks forever when it has no permit at all. *)
Definition parallel_body (max_concurrency : N) (t : Task) (agent : option AgentDefinition) (w : W)
    : Outcome (Joined * W) :=
  let (c1, w1) := poll_cancelled rt w in
  if c1 then Returns (JOk (cancelled_result t), w1)
  else if (max_concurrency =? 0)%N then Hangs
  else
    let (c2, w2) := poll_cancelled rt w1 in
    if c2 then Returns (JOk (cancelled_result t), w2)
    else Returns (spawn_execute t agent w2).

(** [while let Some(res) = join_set.join_next().await]: outcomes in completion order. *)
Fixpoint join_all (body : Task -> option AgentDefinition -> W -> Outcome (Joined * W))
    (items : list (Task * option AgentDefinition)) (order : list nat) (w : W)
    : Outcome (list Joined * W) :=
  match order with
  | [] => Returns ([], w)
  | i :: order =>
      match items !! i with
      | None => Panics
      | Some (t, agent) =>
          match body t agent w with
          | Returns (j, w1) =>
              match join_all body items order w1 with
              | Returns (js, w2) => Returns (j :: js, w2)
              | Panics => Panics
              | Hangs => Hangs
              end
          | Panics => Panics
          | Hangs => Hangs
          end
      end
  end.

(** ** Parallel *)

Definition nil_uuid : Uuid := 0%N.

Definition panicked_result : TaskResult :=
  mkTaskResult nil_uuid ("task panicked: " ++ join_error rt) Failed ∅.

Definition parallel_result (j : Joined) : TaskResult :=
  match j with JOk tr => tr | JErr => panicked_result end.

Definition parallel_log (j : Joined) : list LogEntry :=
  match j with JOk tr => task_completed tr | JErr => [] end.

Definition status_map (results : list TaskResult) : gmap Uuid TaskStatus :=
  foldl (fun m tr => <[res_task_id tr := res_status tr]> m) ∅ results.

Definition apply_statuses (m : gmap Uuid TaskStatus) (t : Task) : Task :=
  match m !! task_id t with Some s => set_status s t | None => t end.

(** [Semaphore::new] panics above [MAX_PERMITS]. *)
Definition run_parallel (max_concurrency : N) (ts : list Task) (w : W)
    : Outcome (list TaskResult * list Task * W * list LogEntry) :=
  if (MAX_PERMITS <? max_concurrency)%N then Panics else
  let queued := map (set_status Queued) ts in
  let snapshots := map (fun t => (t, pick_best_agent (agents (spec r)) t)) queued in
  let started := List.flat_map (fun ta => task_started ta.1 ta.2) snapshots in
  match join_all (parallel_body max_concurrency) snapshots
          (completion_order rt w (length snapshots)) w with
  | Returns (js, w') =>
      let results := map parallel_result js in
      Returns (results, map (apply_statuses (status_map results)) queued, w',
               (started ++ List.flat_map parallel_log js)%list)
  | Panics => Panics
  | Hangs => Hangs
  end.

(** ** DAG *)

Record DagState := mkDagState {
  dg_tasks : list Task;
  dg_completed : gset Uuid;
  dg_results : list TaskResult;
  dg_remaining : list Uuid;
  dg_world : W;
  dg_log : list LogEntry;
}.

Definition dep_sets (ts : list Task) : gmap Uuid (gset Uuid) :=
  foldl (fun m t => <[task_id t := list_to_set (dependencies t)]> m) ∅ ts.

Definition task_map (ts : list Task) : gmap Uuid nat :=
  foldl (fun m it => <[task_id it.2 := it.1]> m) ∅ (enumerate_from 0 ts).

(** [dep_sets.get(id).is_none_or(|deps| deps.is_subset(&completed))] *)
Definition deps_met (deps : gmap Uuid (gset Uuid)) (completed : gset Uuid) (id : Uuid) : bool :=
  match deps !! id with Some d => bool_decide (d ⊆ completed) | None => true end.

(** The [for id in &ready] loop: mark queued, choose an agent, take a snapshot. *)
Fixpoint prepare_wave (tmap : gmap Uuid nat) (ready : list Uuid) (ts : list Task)
    : option (list (Task * option AgentDefinition) * list Task * list LogEntry) :=
  match ready with
  | [] => Some ([], ts, [])
  | id :: ready =>
      match tmap !! id with
      | None => None
      | Some idx =>
          match ts !! idx with
          | None => None
          | Some t =>
              let t' := set_status Queued t in
              let ts' := <[idx := t']> ts in
              let agent := pick_best_agent (agents (spec r)) t' in
              match prepare_wave tmap ready ts' with
              | None => None
              | Some (items, ts'', log) =>
                  Some ((t', agent) :: items, ts'', (task_started t' agent ++ log)%list)
              end
          end
      end
  end.

Definition update_status (tmap : gmap Uuid nat) (tr : TaskResult) (ts : list Task) : list Task :=
  match tmap !! res_task_id tr with
  | Some idx => alter (set_status (res_status tr)) idx ts
  | None => ts
  end.

(** The body of the join loop; the flag is [wave_failed]. *)
Definition absorb (tmap : gmap Uuid nat) (acc : DagState * bool) (j : Joined) : DagState * bool :=
  let (s, failed) := acc in
  match j with
  | JErr => (s, true)
  | JOk tr =>
      let is_failed := bool_decide (res_status tr = Failed) in
      (mkDagState (update_status tmap tr (dg_tasks s))
         (if is_failed then dg_completed s else {[res_task_id tr]} ∪ dg_completed s)
         (dg_results s ++ [tr]) (dg_remaining s) (dg_world s) (dg_log s ++ task_completed tr)%list,
       failed || is_failed)
  end.

(** One turn of [while !remaining.is_empty()]: [inl] leaves the loop. *)
Definition dag_turn (deps : gmap Uuid (gset Uuid)) (tmap : gmap Uuid nat) (s : DagState)
    : Outcome (Result DagState AgnosaiError + DagState) :=
  let (cancelled, w1) := poll_cancelled rt (dg_world s) in
  if cancelled then
    Returns (inl (Ok (mkDagState (dg_tasks s) (dg_completed s) (dg_results s) (dg_remaining s)
                        w1 (dg_log s))))
  else
    let ready := List.filter (deps_met deps (dg_completed s)) (dg_remaining s) in
    let not_ready := List.filter (fun id => negb (deps_met deps (dg_completed s) id)) (dg_remaining s) in
    match ready with
    | [] => Returns (inl (Err (Scheduling "DAG deadlock: no ready tasks but remaining exist")))
    | _ =>
        match prepare_wave tmap ready (dg_tasks s) with
        | None => Panics
        | Some (items, ts', log) =>
            match join_all (fun t a w => Returns (spawn_execute t a w)) items
                    (completion_order rt w1 (length items)) w1 with
            | Panics => Panics
            | Hangs => Hangs
            | Returns (js, w2) =>
                let s1 := mkDagState ts' (dg_completed s) (dg_results s) not_ready w2
                            (dg_log s ++ log)%list in
                let (s2, wave_failed) := foldl (absorb tmap) (s1, false) js in
                if wave_failed && negb (bool_decide (not_ready = [])) then
                  if existsb (deps_met deps (dg_completed s2)) not_ready then Returns (inr s2)
                  else Returns (inl (Ok s2))
                else Returns (inr s2)
            end
        end
    end.

(** [Hangs] when the fuel runs out. *)
Fixpoint dag_loop (fuel : nat) (deps : gmap Uuid (gset Uuid)) (tmap : gmap Uuid nat) (s : DagState)
    : Outcome (Result DagState AgnosaiError) :=
  match dg_remaining s with
  | [] => Returns (Ok s)
  | _ =>
      match fuel with
      | O => Hangs
      | S fuel =>
          match dag_turn deps tmap s with
          | Returns (inl res) => Returns res
          | Returns (inr s') => dag_loop fuel deps tmap s'
          | Panics => Panics
          | Hangs => Hangs
          end
      end
  end.

Definition run_dag (ts : list Task) (w : W) : Outcome (Result DagState AgnosaiError) :=
  match topological_sort_tasks ts with
  | None => Panics
  | Some (Err e) => Returns (Err e)
  | Some (Ok order) =>
      dag_loop (length order) (dep_sets ts) (task_map ts)
        (mkDagState ts ∅ [] order w [])
  end.

(** ** The whole run *)

Definition meta_f64 (tr : TaskResult) (k : string) : option f64 :=
  match metadata tr !! k with Some v => as_f64 v | None => None end.

Definition positive_cost (tr : TaskResult) : option f64 :=
  match meta_f64 tr "cost_usd" with
  | Some c => if f64_gt c f64_zero then Some c else None
  | None => None
  end.

Definition task_ms_of (results : list TaskResult) : gmap Uuid N :=
  foldl (fun m tr =>
    match metadata tr !! "task_duration_ms" with
    | Some v => match as_u64 v with Some ms => <[res_task_id tr := ms]> m | None => m end
    | None => m
    end) ∅ results.

Definition task_cost_of (results : list TaskResult) : gmap Uuid f64 :=
  foldl (fun m tr =>
    match positive_cost tr with Some c => <[res_task_id tr := c]> m | None => m end) ∅ results.

Definition agent_cost_of (results : list TaskResult) : gmap string f64 :=
  foldl (fun m tr =>
    match positive_cost tr, match metadata tr !! "agent" with Some v => as_str v | None => None end with
    | Some c, Some key => <[key := f64_add (default f64_zero (m !! key)) c]> m
    | _, _ => m
    end) ∅ results.

Definition build_profile (sandbox_strength : option N) (wall : N) (results : list TaskResult) : CrewProfile :=
  let costs := task_cost_of results in
  mkCrewProfile wall (task_ms_of results) (length results)
    (foldl f64_add f64_zero (hash_values costs)) (agent_cost_of results) costs sandbox_strength.

Definition final_status (cancelled : bool) (results : list TaskResult) : CrewStatus :=
  if cancelled then CCancelled
  else if forallb (fun tr => bool_decide (res_status tr = Completed)) results then CCompleted
  else CFailed.

(** The part of [run] that depends on the process mode. *)
Definition run_mode (w : W)
    : Outcome (Result (list TaskResult * list Task * W * list LogEntry) AgnosaiError) :=
  let lift o := match o with
                | Returns x => Returns (Ok x) | Panics => Panics | Hangs => Hangs end in
  match process (spec r) with
  | Sequential | Hierarchical _ => lift (run_sequential (tasks (spec r)) w)
  | Parallel n => lift (run_parallel n (tasks (spec r)) w)
  | Dag =>
      match run_dag (tasks (spec r)) w with
      | Returns (Ok s) => Returns (Ok (dg_results s, dg_tasks s, dg_world s, dg_log s))
      | Returns (Err e) => Returns (Err e)
      | Panics => Panics
      | Hangs => Hangs
      end
  end.

Record RunOutput := mkRunOutput {
  out_state : CrewState;
  out_tasks : list Task;
  out_world : W;
  out_log : list LogEntry;
}.

Definition run (sandbox_strength : option N) (w : W) : Outcome (Result RunOutput AgnosaiError) :=
  let started := emit "crew_started"
    (Obj [("name", Str (crew_name (spec r))); ("task_count", json_u64 (N.of_nat (length (tasks (spec r)))))]) in
  match run_mode w with
  | Panics => Panics
  | Hangs => Hangs
  | Returns (Err e) => Returns (Err e)
  | Returns (Ok (results, ts, w1, log)) =>
      let wall := elapsed_ms env w w1 in
      let (cancelled, w2) := poll_cancelled rt w1 in
      let status := final_status cancelled results in
      Returns (Ok (mkRunOutput
        (mkCrewState (crew_id (spec r)) status results
           (Some (build_profile sandbox_strength wall results)))
        ts w2
        (started ++ log ++ emit "crew_completed"
           (Obj [("status", Str (debug_crew_status status));
                 ("task_count", json_u64 (N.of_nat (length results)));
                 ("wall_ms", json_u64 wall)]))%list))
  end.
End runner.
