(* ===== verification/CrewRunnerProofs.v ===== *)
(** * Theorems on crew execution

    What a run promises in each mode: one result per task, dependencies before
    dependents, termination, and when a crew counts as completed. *)

From S2P Require Import Prelude.
From S2P Require Import F64.
From S2P Require Import Resource.
From S2P Require Import Core.
From S2P Require Import Kahn.
From S2P Require Import TopoTasks.
From S2P Require Import Scoring.
From S2P Require Import Text.
From S2P Require Import PromptGuard.
From S2P Require Import OutputValidation.
From S2P Require Import Llm.
From S2P Require Import TaskExec.
From S2P Require Import CrewRunner.
From Stdlib Require Import String.
From stdpp Require Import base gmap strings numbers relations list.


Section proofs.
Context {W : Type} (env : Env W) (rt : Runtime W).
Context `{!HashIter Uuid nat} `{!HashIter Uuid f64}.
Context (r : CrewRunner).

(** The completion order is a permutation of the spawned tasks. *)
Definition fair_runtime : Prop :=
  forall w n, completion_order rt w n ≡ₚ seq 0 n.

(** Nobody asks for cancellation. *)
Definition never_cancelled : Prop := forall w, (poll_cancelled rt w).1 = false.

(** ** Sequential mode *)

(** The executor's result for a task, up to the task's status. *)
Definition runs_to (t : Task) (tr : TaskResult) (t' : Task) : Prop :=
  result_ok t tr /\ t' = set_status (res_status tr) t.

Lemma seq_step_runs t w tr t' w' log :
  seq_step env r t w = Some (tr, t', w', log) -> runs_to t tr t'.
Proof.
  unfold seq_step. destruct (execute_task _ _ _ _ _ _) as [[[res w1] evs]|] eqn:E; [|done].
  intros [= <- <- _ _]. apply execute_task_ok in E as [H1 H2 H3 H4 H5]. by split.
Qed.

Lemma run_sequential_spec ts w results ts' w' log :
  run_sequential env rt r ts w = Returns (results, ts', w', log) ->
  exists k done_, k <= length ts /\ ts' = (done_ ++ drop k ts)%list /\
    length results = k /\ length done_ = k /\
    (forall i t tr, ts !! i = Some t -> results !! i = Some tr ->
       exists t', done_ !! i = Some t' /\ runs_to t tr t') /\
    (never_cancelled -> k = length ts).
Proof.
  revert w results ts' w' log. induction ts as [|t ts IH]; intros w results ts' w' log; simpl.
  { intros [= <- <- <- <-]. exists 0, []. by split_and!. }
  destruct (poll_cancelled rt w) as [[] w1] eqn:Hp.
  { intros [= <- <- <- <-]. exists 0, []. split_and!; try done; [simpl; lia|].
    intros Hn. specialize (Hn w). by rewrite Hp in Hn. }
  destruct (seq_step env r t w1) as [[[[tr t'] w2] log1]|] eqn:Hs; [|done].
  apply seq_step_runs in Hs.
  destruct (run_sequential env rt r ts w2) as [[[[rs ts2] w3] log2]| |] eqn:Hr; [|done|done].
  intros [= <- <- <- <-].
  destruct (IH _ _ _ _ _ Hr) as (k & d & Hk & -> & Hlr & Hld & Hall & Hn).
  exists (S k), (t' :: d). simpl. split_and!; try done; [lia|lia|lia| |intros ?; f_equal; auto].
  intros [|i] u tru Hu Hru; simpl in *; [|by eapply Hall]. simplify_eq. eauto.
Qed.

(** [C8] A sequential run that returns has executed a prefix of the tasks in
    list order, one result each; every executed task carries its result's
    status, the others are untouched; without cancellation the prefix is the
    whole list. *)
Theorem run_sequential_correct ts w results ts' w' log :
  run_sequential env rt r ts w = Returns (results, ts', w', log) ->
  length results <= length ts /\
  map res_task_id results = take (length results) (map task_id ts) /\
  drop (length results) ts' = drop (length results) ts /\
  (forall i t' tr, ts' !! i = Some t' -> results !! i = Some tr -> status t' = res_status tr) /\
  (never_cancelled -> length results = length ts).
Proof.
  intros (k & d & Hk & -> & Hlr & Hld & Hall & Hn)%run_sequential_spec.
  rewrite Hlr. split_and!; [done| | | |done].
  - apply list_eq. intros i. destruct (decide (i < k)) as [Hi|Hi].
    + rewrite lookup_take by done. rewrite !list_lookup_fmap.
      destruct (lookup_lt_is_Some_2 results i) as [tr Htr]; [lia|].
      destruct (lookup_lt_is_Some_2 ts i) as [t Ht]; [lia|].
      rewrite Htr, Ht. simpl. destruct (Hall i t tr Ht Htr) as (t' & _ & Hr & _).
      rewrite ?decide_True by done. f_equal. exact (ro_id _ _ Hr).
    + rewrite !lookup_ge_None_2; [done|rewrite length_take; lia|rewrite length_fmap; lia].
  - rewrite drop_app_length' by done. done.
  - intros i t' tr Ht' Htr. assert (i < length d) as Hi by (apply lookup_lt_Some in Htr; lia).
    rewrite lookup_app_l in Ht' by done.
    destruct (lookup_lt_is_Some_2 ts i) as [t Ht]; [lia|].
    destruct (Hall i t tr Ht Htr) as (t2 & Ht2 & _ & ->). simplify_eq. done.
Qed.

(** ** Join sets *)

Lemma lookup_seq_all {A} (l : list A) : omap (fun i => l !! i) (seq 0 (length l)) = l.
Proof.
  assert (forall k (l' pre : list A), l = pre ++ l' -> length pre = k ->
    omap (fun i => l !! i) (seq k (length l')) = l') as H.
  { intros k l'. revert k. induction l' as [|x l' IH]; intros k pre Hl Hk; simpl; [done|].
    rewrite Hl at 1. rewrite list_lookup_middle by done.
    f_equal. apply (IH (S k) (pre ++ [x])); [by rewrite <-app_assoc|rewrite length_app; simpl; lia]. }
  by apply (H 0 l []).
Qed.

(** [join_all] pairs each outcome with a distinct spawned task. *)
Lemma join_all_spec (R : Task -> Joined -> Prop)
    (body : Task -> option AgentDefinition -> W -> Outcome (Joined * W)) items order w js w' :
  (forall t a w j w', body t a w = Returns (j, w') -> R t j) ->
  order ≡ₚ seq 0 (length items) ->
  join_all body items order w = Returns (js, w') ->
  exists ts, ts ≡ₚ map fst items /\ Forall2 R ts js.
Proof.
  intros HR Hord Hj. exists (omap (fun i => items !! i) order).*1. split.
  { rewrite Hord. by rewrite lookup_seq_all. }
  clear Hord. revert w js Hj. induction order as [|i order IH]; intros w js; simpl.
  { intros [= <- <-]. constructor. }
  destruct (items !! i) as [[t a]|]; [|done].
  destruct (body t a w) as [[j w1]| |] eqn:Hb; [|done|done].
  destruct (join_all body items order w1) as [[js2 w2]| |] eqn:Hj; [|done|done].
  intros [= <- <-]. simpl. constructor; [by eapply HR|by eapply IH].
Qed.

(** A body that always answers makes [join_all] answer. *)
Lemma join_all_total (body : Task -> option AgentDefinition -> W -> Outcome (Joined * W)) items order w :
  (forall t a w, exists jw, body t a w = Returns jw) ->
  (forall i, i ∈ order -> i < length items) ->
  exists js w', join_all body items order w = Returns (js, w').
Proof.
  intros Hb. revert w. induction order as [|i order IH]; intros w Hi; simpl; [by do 2 eexists|].
  destruct (lookup_lt_is_Some_2 items i) as [[t a] ->]; [apply Hi; left|].
  destruct (Hb t a w) as [[j w1] ->].
  destruct (IH w1) as (js & w' & ->); [intros; apply Hi; by right|]. by do 2 eexists.
Qed.

Definition joined_for (t : Task) (j : Joined) : Prop :=
  match j with
  | JOk tr => res_task_id tr = task_id t /\ (res_status tr = Completed \/ res_status tr = Failed) /\
              metadata tr !! "agent"%string = None
  | JErr => True
  end.

Lemma spawn_execute_joined t a w : joined_for t (spawn_execute env rt r t a w).1.
Proof.
  unfold spawn_execute. destruct (execute_task _ _ _ _ _ _) as [[[tr w1] evs]|] eqn:E; [|done].
  apply execute_task_ok in E as [H1 H2 H3 _ _]. done.
Qed.

Lemma parallel_body_joined n t a w j w' :
  parallel_body env rt r n t a w = Returns (j, w') -> joined_for t j.
Proof.
  unfold parallel_body. destruct (poll_cancelled rt w) as [[] w1].
  { intros [= <- <-]. simpl. split_and!; auto. }
  destruct (n =? 0)%N; [done|]. destruct (poll_cancelled rt w1) as [[] w2].
  { intros [= <- <-]. simpl. split_and!; auto. }
  intros Hs. pose proof (spawn_execute_joined t a w2) as Hj.
  injection Hs as Hs. by rewrite Hs in Hj.
Qed.

(** ** Parallel mode *)

Definition parallel_answer (id : Uuid) (tr : TaskResult) : Prop :=
  ((res_task_id tr = id /\ (res_status tr = Completed \/ res_status tr = Failed)) \/
   (res_task_id tr = nil_uuid /\ res_status tr = Failed)) /\
  metadata tr !! "agent"%string = None.

Lemma parallel_results n ts w results ts' w' log :
  fair_runtime -> run_parallel env rt r n ts w = Returns (results, ts', w', log) ->
  exists perm, perm ≡ₚ map task_id ts /\ Forall2 parallel_answer perm results.
Proof.
  intros Hfair. unfold run_parallel. destruct (_ <? n)%N; [done|]. set (queued := map (set_status Queued) ts).
  set (items := map (fun t => (t, pick_best_agent (agents (spec r)) t)) queued).
  destruct (join_all _ items _ w) as [[js w1]| |] eqn:Hj; [|done|done]. intros [= <- _ _ _].
  destruct (join_all_spec joined_for _ _ _ _ _ _ (fun t a w j w' => parallel_body_joined n t a w j w')
    (Hfair _ _) Hj) as (ts0 & Hp & Hf).
  exists (map task_id ts0). split.
  { rewrite Hp. unfold items, queued. by rewrite !List.map_map. }
  clear -Hf. induction Hf as [|t j ts0 js Hj Hf IH]; simpl; constructor; [|done].
  destruct j as [tr|]; simpl in *; unfold parallel_answer; [|split; [by right|done]].
  destruct Hj as (? & ? & ?). split; [by left|done].
Qed.

(** What one spawned task does from the world it finds to the world it leaves: it
    sees the cancellation before or after it got its permit, it runs, or it panics. *)
Inductive parallel_outcome : Task * option AgentDefinition -> W -> TaskResult -> W -> Prop :=
| po_cancelled_early t a w w1 : poll_cancelled rt w = (true, w1) ->
    parallel_outcome (t, a) w (mkTaskResult (task_id t) "crew cancelled" Failed ∅) w1
| po_cancelled_late t a w w1 w2 : poll_cancelled rt w = (false, w1) -> poll_cancelled rt w1 = (true, w2) ->
    parallel_outcome (t, a) w (mkTaskResult (task_id t) "crew cancelled" Failed ∅) w2
| po_ran t a w w1 w2 w3 tr evs : poll_cancelled rt w = (false, w1) -> poll_cancelled rt w1 = (false, w2) ->
    execute_task env (llm r) t a false w2 = Some (tr, w3, evs) -> parallel_outcome (t, a) w tr w3
| po_panicked t a w w1 w2 : poll_cancelled rt w = (false, w1) -> poll_cancelled rt w1 = (false, w2) ->
    execute_task env (llm r) t a false w2 = None ->
    parallel_outcome (t, a) w
      (mkTaskResult nil_uuid ("task panicked: " ++ join_error rt)%string Failed ∅) (after_panic rt w2).

(** The spawned tasks in the order of their completion, with their results. *)
Inductive parallel_trace : list (Task * option AgentDefinition) -> W -> list TaskResult -> W -> Prop :=
| pt_done w : parallel_trace [] w [] w
| pt_next x xs w tr w1 trs w2 : parallel_outcome x w tr w1 -> parallel_trace xs w1 trs w2 ->
    parallel_trace (x :: xs) w (tr :: trs) w2.

Lemma parallel_body_outcome n t a w j w' :
  parallel_body env rt r n t a w = Returns (j, w') -> parallel_outcome (t, a) w (parallel_result rt j) w'.
Proof.
  unfold parallel_body. destruct (poll_cancelled rt w) as [[] w1] eqn:E1.
  { intros [= <- <-]. by apply po_cancelled_early. }
  destruct (n =? 0)%N; [done|]. destruct (poll_cancelled rt w1) as [[] w2] eqn:E2.
  { intros [= <- <-]. by eapply po_cancelled_late. }
  intros [= Hs]. unfold spawn_execute in Hs.
  destruct (execute_task _ _ _ _ _ _) as [[[tr w3] evs]|] eqn:Ex; injection Hs as <- <-;
    [by eapply po_ran|by eapply po_panicked].
Qed.

Lemma join_all_trace n items order w js w' :
  join_all (parallel_body env rt r n) items order w = Returns (js, w') ->
  parallel_trace (omap (fun i => items !! i) order) w (map (parallel_result rt) js) w'.
Proof.
  revert w js. induction order as [|i order IH]; intros w js; simpl; [intros [= <- <-]; constructor|].
  destruct (items !! i) as [[t a]|]; [|done]. destruct (parallel_body _ _ _ _ _ _ _) as [[j w1]| |] eqn:Eb; [|done..].
  destruct (join_all _ items order w1) as [[js2 w2]| |] eqn:Ej; [|done..]. intros [= <- <-].
  eapply pt_next; [by eapply parallel_body_outcome|by apply IH].
Qed.

(** The status map holds the status of the last result with the id, if there is one. *)
Lemma status_map_lookup results id :
  match status_map results !! id with
  | Some s => exists tr, tr ∈ results /\ res_task_id tr = id /\ res_status tr = s
  | None => id ∉ map res_task_id results
  end.
Proof.
  unfold status_map. induction results as [|tr results IH] using rev_ind; simpl.
  { rewrite lookup_empty. apply not_elem_of_nil. }
  rewrite foldl_app. simpl. destruct (decide (res_task_id tr = id)) as [<-|Hne].
  - rewrite lookup_insert_eq. exists tr. split; [|done]. apply elem_of_app. right. by left.
  - rewrite lookup_insert_ne by done. destruct (foldl _ _ results !! id) as [s|].
    + destruct IH as (tr' & ? & ?). exists tr'. split; [|done]. apply elem_of_app. by left.
    + rewrite map_app, elem_of_app. simpl. intros [?|Hin%list_elem_of_singleton]; [done|by subst].
Qed.


(** ** DAG mode *)

Lemma task_map_sound ts id i :
  task_map ts !! id = Some i -> exists t, ts !! i = Some t /\ task_id t = id.
Proof.
  unfold task_map.
  assert (forall l (m : gmap Uuid nat), (forall id i, m !! id = Some i -> exists t, ts !! i = Some t /\ task_id t = id) ->
    (forall i t, (i, t) ∈ l -> ts !! i = Some t) ->
    forall id i, foldl (fun m it => <[task_id it.2 := it.1]> m) m l !! id = Some i ->
    exists t, ts !! i = Some t /\ task_id t = id) as H.
  { induction l as [|[j u] l IH]; intros m Hm Hl id' i'; simpl; [apply Hm|].
    apply IH; [|intros; apply Hl; by right]. intros id2 i2 H2.
    destruct (decide (task_id u = id2)) as [Heq|Hne].
    - rewrite Heq, lookup_insert_eq in H2. simplify_eq. exists u. split; [|done]. apply Hl. left.
    - rewrite lookup_insert_ne in H2 by done. by apply Hm. }
  apply (H (enumerate_from 0 ts) ∅); [intros ??; by rewrite lookup_empty|].
  intros j u [_ Hu]%enumerate_from_lookup. by rewrite Nat.sub_0_r in Hu.
Qed.

Lemma foldl_insert_is_Some {A B} (f : A -> Uuid) (g : A -> B) (l : list A) (m : gmap Uuid B) id :
  is_Some (m !! id) \/ id ∈ map f l ->
  is_Some (foldl (fun m x => <[f x := g x]> m) m l !! id).
Proof.
  revert m. induction l as [|x l IH]; intros m; simpl.
  { intros [?|?%not_elem_of_nil]; done. }
  intros H. apply IH. destruct (decide (f x = id)) as [->|Hne].
  { left. rewrite lookup_insert_eq. eauto. }
  rewrite lookup_insert_ne by done. rewrite elem_of_cons in H. naive_solver.
Qed.

Lemma task_map_complete ts id : id ∈ map task_id ts -> is_Some (task_map ts !! id).
Proof.
  intros Hid. unfold task_map. apply foldl_insert_is_Some. right.
  assert (map (fun it : nat * Task => task_id it.2) (enumerate_from 0 ts) = map task_id ts) as ->; [|done].
  rewrite <-(enumerate_from_snd 0 ts) at 2. by rewrite List.map_map.
Qed.

Lemma dep_sets_lookup ts t :
  NoDup (map task_id ts) -> t ∈ ts -> dep_sets ts !! task_id t = Some (list_to_set (dependencies t)).
Proof.
  unfold dep_sets. generalize (∅ : gmap Uuid (gset Uuid)) as m.
  induction ts as [|u ts IH]; intros m Hnd Ht; [by apply not_elem_of_nil in Ht|]. simpl in *.
  apply NoDup_cons in Hnd as [Hu Hnd]. apply elem_of_cons in Ht as [<-|Ht]; [|by apply IH].
  clear IH. assert (forall l (m : gmap Uuid (gset Uuid)), task_id t ∉ map task_id l ->
    foldl (fun m t => <[task_id t := list_to_set (dependencies t)]> m) m l !! task_id t = m !! task_id t) as Hk.
  { induction l as [|v l IHl]; intros m' Hn; simpl; [done|]. simpl in Hn.
    apply not_elem_of_cons in Hn as [? ?]. rewrite IHl by done. by rewrite lookup_insert_ne. }
  rewrite Hk by done. by rewrite lookup_insert_eq.
Qed.

Section dag.
Context (ts : list Task).
Hypothesis ids_nodup : NoDup (map task_id ts).
Hypothesis fair : fair_runtime.

Abbreviation deps := (dep_sets ts).
Abbreviation tmap := (task_map ts).

(** [d] has succeeded among the given results. *)
Definition succeeded (results : list TaskResult) (d : Uuid) : Prop :=
  exists tr, tr ∈ results /\ res_task_id tr = d /\ res_status tr <> Failed.

(** Every result comes after successes of all its dependencies. *)
Definition deps_first (results : list TaskResult) : Prop :=
  forall l1 tr l2, results = l1 ++ tr :: l2 ->
  forall D d, deps !! res_task_id tr = Some D -> d ∈ D -> succeeded l1 d.

Definition no_panics : Prop := forall t a w, (spawn_execute env rt r t a w).1 <> JErr.

(** [wave]: ids of the current wave not joined yet. *)
Record dag_inv (wave : list Uuid) (s : DagState (W := W)) : Prop := {
  di_ids : map task_id (dg_tasks s) = map task_id ts;
  di_known : forall id, id ∈ map res_task_id (dg_results s) ++ wave ++ dg_remaining s -> id ∈ map task_id ts;
  di_nodup : NoDup (map res_task_id (dg_results s) ++ wave ++ dg_remaining s);
  di_completed : forall d, d ∈ dg_completed s <-> succeeded (dg_results s) d;
  di_deps : deps_first (dg_results s);
  di_wave : forall id D, id ∈ wave -> deps !! id = Some D -> D ⊆ dg_completed s;
  di_all : no_panics ->
    map res_task_id (dg_results s) ++ wave ++ dg_remaining s ≡ₚ map task_id ts;
  di_meta : Forall (fun tr => metadata tr !! "agent"%string = None) (dg_results s);
}.

Lemma succeeded_snoc results tr d :
  succeeded (results ++ [tr]) d <-> succeeded results d \/ (res_task_id tr = d /\ res_status tr <> Failed).
Proof.
  unfold succeeded. setoid_rewrite elem_of_app. setoid_rewrite list_elem_of_singleton. naive_solver.
Qed.

Lemma deps_first_snoc results tr :
  deps_first results ->
  (forall D d, deps !! res_task_id tr = Some D -> d ∈ D -> succeeded results d) ->
  deps_first (results ++ [tr]).
Proof.
  intros Hd Ht l1 x l2 Heq. destruct l2 as [|y l2 _] using rev_ind.
  - apply app_inj_tail in Heq as [-> ->]. done.
  - rewrite app_comm_cons, app_assoc in Heq. apply app_inj_tail in Heq as [Heq _]. by apply (Hd l1 x l2).
Qed.

Lemma update_status_ids tr l : map task_id (update_status tmap tr l) = map task_id l.
Proof.
  unfold update_status. destruct (tmap !! res_task_id tr) as [i|]; [|done].
  revert i. induction l as [|t l IH]; intros [|i]; simpl; try done. f_equal. apply IH.
Qed.

Lemma absorb_inv t wave s failed j :
  dag_inv (task_id t :: wave) s -> joined_for t j -> (no_panics -> j <> JErr) ->
  let '(s', failed') := absorb env r tmap (s, failed) j in
  dag_inv wave s' /\ dg_remaining s' = dg_remaining s /\ dg_world s' = dg_world s /\
  (exists new, dg_results s' = dg_results s ++ new) /\
  (failed' = true -> failed = true \/ j = JErr \/ exists tr, tr ∈ dg_results s' /\ res_status tr = Failed).
Proof.
  intros [H1 H2 H3 H4 H5 H6 H7 H8] Hj Hnp. destruct j as [tr|]; simpl.
  - destruct Hj as (Hid & Hst & Hm).
    assert (map res_task_id (dg_results s ++ [tr]) ++ wave ++ dg_remaining s =
            map res_task_id (dg_results s) ++ (task_id t :: wave) ++ dg_remaining s) as Hids.
    { rewrite map_app. simpl. by rewrite <-app_assoc, Hid. }
    assert (forall d, d ∈ (if bool_decide (res_status tr = Failed) then dg_completed s
              else {[res_task_id tr]} ∪ dg_completed s) <-> succeeded (dg_results s ++ [tr]) d) as Hc.
    { intros d. rewrite succeeded_snoc, <-H4. case_bool_decide; set_solver. }
    split_and!; [split; simpl|done|done|by eexists|].
    + by rewrite update_status_ids.
    + intros id. rewrite Hids. apply H2.
    + by rewrite Hids.
    + done.
    + apply deps_first_snoc; [done|]. intros D d HD Hd. apply H4.
      rewrite Hid in HD. apply (H6 (task_id t) D); [left|done|done].
    + intros id D Hid' HD d Hd. apply Hc, succeeded_snoc. left. apply H4.
      apply (H6 id D); [by right|done|done].
    + intros Hn. rewrite Hids. by apply H7.
    + apply Forall_app. split; [done|]. by repeat constructor.
    + intros [?|Hf]%orb_true_iff; [by left|]. right. right. apply bool_decide_eq_true in Hf.
      exists tr. split; [|done]. apply elem_of_app. right. left.
  - split; [|split; [done|split; [done|split; [exists []; by rewrite app_nil_r|auto]]]].
    split; try done.
    + intros id Hin. apply H2. set_solver.
    + apply NoDup_app in H3 as (Hn1 & Hd & [_ Hn2]%NoDup_cons). apply NoDup_app.
      split; [done|]. split; [|done]. intros x Hx Hin. apply (Hd x Hx). by right.
    + intros id D Hin. apply H6. by right.
    + intros Hn. exfalso. by apply (Hnp Hn).
Qed.

Lemma absorb_all_inv wts js s failed :
  Forall2 joined_for wts js -> (no_panics -> Forall (fun j => j <> JErr) js) ->
  dag_inv (map task_id wts) s ->
  let '(s', failed') := foldl (absorb env r tmap) (s, failed) js in
  dag_inv [] s' /\ dg_remaining s' = dg_remaining s /\ dg_world s' = dg_world s /\
  (no_panics -> failed' = true -> failed = true \/ exists tr, tr ∈ dg_results s' /\ res_status tr = Failed).
Proof.
  intros Hf. revert s failed. induction Hf as [|t j wts js Hj Hf IH]; intros s failed Hnp Hi.
  { simpl. split_and!; auto. }
  assert (no_panics -> j <> JErr) as Hnpj.
  { intros Hn. by apply Hnp, Forall_cons in Hn as [? _]. }
  pose proof (absorb_inv t (map task_id wts) s failed j Hi Hj Hnpj) as Ha.
  change (foldl (absorb env r tmap) (s, failed) (j :: js)) with
    (foldl (absorb env r tmap) (absorb env r tmap (s, failed) j) js).
  destruct (absorb env r tmap (s, failed) j) as [s1 f1].
  destruct Ha as (Hi1 & Hr1 & Hw1 & _ & Hfail1).
  assert (no_panics -> Forall (fun j => j <> JErr) js) as Hnp'.
  { intros Hn. by apply Hnp, Forall_cons in Hn as [_ ?]. }
  specialize (IH s1 f1 Hnp' Hi1).
  assert (exists new, dg_results (foldl (absorb env r tmap) (s1, f1) js).1 = dg_results s1 ++ new) as Hgrow.
  { clear. revert s1 f1. induction js as [|j js IH]; intros s1 f1; simpl; [exists []; by rewrite app_nil_r|].
    destruct j as [tr|]; simpl; [|apply IH].
    destruct (IH (mkDagState (update_status tmap tr (dg_tasks s1))
      (if bool_decide (res_status tr = Failed) then dg_completed s1 else {[res_task_id tr]} ∪ dg_completed s1)
      (dg_results s1 ++ [tr]) (dg_remaining s1) (dg_world s1) (dg_log s1 ++ task_completed env r tr))
      (f1 || bool_decide (res_status tr = Failed))) as [new Hn].
    exists ([tr] ++ new). simpl in *. rewrite Hn. by rewrite <-app_assoc. }
  destruct (foldl (absorb env r tmap) (s1, f1) js) as [s2 f2].
  destruct IH as (Hi2 & Hr2 & Hw2 & Hf2). split_and!; [done|congruence|congruence|].
  intros Hn Hft. destruct (Hf2 Hn Hft) as [Hf1|?]; [|by right].
  destruct (Hfail1 Hf1) as [?|[->|(tr & Htr & ?)]]; [by left| |].
  - exfalso. apply Hnp, Forall_cons in Hn as [? _]. done.
  - right. exists tr. split; [|done]. destruct Hgrow as [new2 Hg]. simpl in Hg. rewrite Hg.
    apply elem_of_app. by left.
Qed.

Lemma prepare_wave_spec ready l :
  map task_id l = map task_id ts -> (forall id, id ∈ ready -> id ∈ map task_id ts) ->
  exists items l' log, prepare_wave env r tmap ready l = Some (items, l', log) /\
    map (fun x => task_id x.1) items = ready /\ map task_id l' = map task_id ts.
Proof.
  revert l. induction ready as [|id ready IH]; intros l Hl Hk; simpl; [by do 3 eexists|].
  destruct (task_map_complete ts id) as [i Hi]; [apply Hk; left|]. rewrite Hi.
  destruct (task_map_sound _ _ _ Hi) as (t0 & Ht0 & Hid).
  assert (exists t, l !! i = Some t /\ task_id t = id) as (t & Ht & Hti).
  { assert (map task_id l !! i = Some id) as Hm by (rewrite Hl, list_lookup_fmap, Ht0; by f_equal/=).
    rewrite list_lookup_fmap in Hm. destruct (l !! i) as [t|]; simplify_eq/=. eauto. }
  rewrite Ht.
  destruct (IH (<[i := set_status Queued t]> l)) as (items & l' & log & -> & Hm & Hl').
  - rewrite <-Hl. rewrite list_fmap_insert. apply list_insert_id.
    rewrite list_lookup_fmap, Ht. done.
  - intros id' Hin. apply Hk. by right.
  - do 3 eexists. split; [done|]. simpl. by rewrite Hm, Hti.
Qed.

Definition exit_reason (s : DagState (W := W)) : Prop :=
  dg_remaining s = [] \/ (poll_cancelled rt (dg_world s)).1 = true \/
  (exists tr, tr ∈ dg_results s /\ res_status tr = Failed).

(** A cancellation request is never withdrawn. *)
Definition sticky_cancel : Prop :=
  forall w w1, poll_cancelled rt w = (true, w1) -> (poll_cancelled rt w1).1 = true.

Lemma filter_partition (f : Uuid -> bool) l :
  List.filter f l ++ List.filter (fun x => negb (f x)) l ≡ₚ l.
Proof.
  induction l as [|x l IH]; simpl; [done|]. destruct (f x); simpl; [by rewrite IH|].
  rewrite <-Permutation_middle. by rewrite IH.
Qed.

Lemma start_wave_inv s ready not_ready l' w log :
  dag_inv [] s -> ready ++ not_ready ≡ₚ dg_remaining s ->
  (forall id, id ∈ ready -> deps_met deps (dg_completed s) id = true) ->
  map task_id l' = map task_id ts ->
  dag_inv ready (mkDagState l' (dg_completed s) (dg_results s) not_ready w log).
Proof.
  intros [H1 H2 H3 H4 H5 H6 H7 H8] Hp Hr Hl. split; simpl in *; [done| | |done|done| | |done].
  - intros id. rewrite Hp. apply H2.
  - by rewrite Hp.
  - intros id D Hin HD. specialize (Hr id Hin). unfold deps_met in Hr. rewrite HD in Hr.
    by apply bool_decide_eq_true in Hr.
  - intros Hn. rewrite Hp. by apply H7.
Qed.

(** A wave always joins, each outcome belonging to a distinct task of it. *)
Lemma run_wave items w1 :
  exists js w2 wts,
    join_all (fun t a w => Returns (spawn_execute env rt r t a w)) items
      (completion_order rt w1 (length items)) w1 = Returns (js, w2) /\
    wts ≡ₚ map fst items /\ Forall2 joined_for wts js /\
    (no_panics -> Forall (fun j => j <> JErr) js).
Proof.
  destruct (join_all_total (fun t a w => Returns (spawn_execute env rt r t a w)) items
    (completion_order rt w1 (length items)) w1) as (js & w2 & Hj).
  { intros; by eexists. }
  { intros i. rewrite (fair w1 (length items)), elem_of_seq. lia. }
  assert (forall t a w j w', Returns (spawn_execute env rt r t a w) = Returns (j, w') ->
    joined_for t j /\ (no_panics -> j <> JErr)) as HR.
  { intros t a w j w' [= Heq]. pose proof (spawn_execute_joined t a w) as Hsj.
    assert ((spawn_execute env rt r t a w).1 = j) as <- by (by rewrite Heq).
    split; [done|]. intros Hn. apply Hn. }
  destruct (join_all_spec (fun t j => joined_for t j /\ (no_panics -> j <> JErr)) _ _ _ _ _ _
    HR (fair w1 _) Hj) as (wts & Hwts & Hf).
  exists js, w2, wts. split_and!; [done|done|eapply Forall2_impl; [exact Hf|by intros ?? []]|].
  intros Hn. clear -Hf Hn. induction Hf as [|t j wts js [_ Hj] Hf IH]; constructor; auto.
Qed.

Lemma dag_turn_spec s :
  dag_inv [] s -> dg_remaining s <> [] ->
  (exists e, dag_turn env rt r deps tmap s = Returns (inl (Err e))) \/
  (exists s', dag_turn env rt r deps tmap s = Returns (inl (Ok s')) /\ dag_inv [] s' /\
     (sticky_cancel -> no_panics -> exit_reason s')) \/
  (exists s', dag_turn env rt r deps tmap s = Returns (inr s') /\ dag_inv [] s' /\
     length (dg_remaining s') < length (dg_remaining s)).
Proof.
  intros Hi Hne. unfold dag_turn. destruct (poll_cancelled rt (dg_world s)) as [[] w1] eqn:Hp.
  { right. left. eexists. split; [done|]. split.
    - destruct Hi. by split.
    - intros Hst _. right. left. simpl. by eapply Hst. }
  set (ready := List.filter (deps_met deps (dg_completed s)) (dg_remaining s)).
  set (not_ready := List.filter (fun id => negb (deps_met deps (dg_completed s) id)) (dg_remaining s)).
  assert (ready ++ not_ready ≡ₚ dg_remaining s) as Hperm by apply filter_partition.
  assert (forall id, id ∈ ready -> deps_met deps (dg_completed s) id = true) as Hready.
  { intros id Hin. by apply elem_of_List_filter in Hin as [_ ?]. }
  clearbody ready not_ready. destruct ready as [|id0 ready0]; [left; by eexists|].
  set (ready := id0 :: ready0) in *. right.
  destruct (prepare_wave_spec ready (dg_tasks s)) as (items & l' & log & Hprep & Hids & Hl').
  { apply (di_ids _ _ Hi). }
  { intros id Hin. apply (di_known _ _ Hi). simpl. rewrite elem_of_app, <-Hperm, elem_of_app. auto. }
  rewrite Hprep.
  destruct (run_wave items w1) as (js & w2 & wts & -> & Hwts & Hjf & Hnp).
  assert (map task_id wts ≡ₚ ready) as Hwr.
  { rewrite Hwts, List.map_map. by rewrite Hids. }
  pose proof (absorb_all_inv wts js
    (mkDagState l' (dg_completed s) (dg_results s) not_ready w2 (dg_log s ++ log)) false Hjf Hnp) as Ha.
  destruct (foldl (absorb env r tmap) _ js) as [s2 wave_failed].
  destruct Ha as (Hi2 & Hr2 & Hw2 & Hf2).
  { eapply start_wave_inv; [done|by rewrite Hwr| |done].
    intros id. rewrite Hwr. apply Hready. }
  simpl in Hr2.
  assert (length (dg_remaining s2) < length (dg_remaining s)) as Hlt.
  { rewrite Hr2, <-(Permutation_length Hperm), length_app. unfold ready. simpl. lia. }
  destruct (wave_failed && negb (bool_decide (not_ready = []))) eqn:Hwf;
    [|right; eexists; split; [done|]; split; done].
  destruct (existsb _ not_ready); [right; eexists; split; [done|]; split; done|].
  left. eexists. split; [done|]. split; [done|]. intros _ Hn. right. right.
  apply andb_true_iff in Hwf as [Hwf _]. destruct (Hf2 Hn Hwf) as [?|?]; done.
Qed.

Lemma dag_loop_spec fuel s :
  dag_inv [] s -> length (dg_remaining s) <= fuel ->
  (exists e, dag_loop env rt r fuel deps tmap s = Returns (Err e)) \/
  (exists s', dag_loop env rt r fuel deps tmap s = Returns (Ok s') /\ dag_inv [] s' /\
     (sticky_cancel -> no_panics -> exit_reason s')).
Proof.
  revert s. induction fuel as [|fuel IH]; intros s Hi Hf; simpl;
    destruct (dg_remaining s) as [|x rest] eqn:Hrem;
    try (right; eexists; split; [done|]; split; [done|]; by left).
  { simpl in Hf. lia. }
  destruct (dag_turn_spec s Hi) as [[e ->]|[(s' & -> & Hi' & He)|(s' & -> & Hi' & Hlt)]].
  - by rewrite Hrem.
  - left. by eexists.
  - right. eexists. done.
  - apply IH; [done|]. rewrite Hrem in Hlt. simpl in *. lia.
Qed.
End dag.

Lemma dag_start_inv ts order w :
  NoDup (map task_id ts) -> order ≡ₚ map task_id ts ->
  dag_inv ts [] (mkDagState ts ∅ [] order w []).
Proof.
  intros Hnd Hp. split; simpl; try done.
  - intros id. by rewrite Hp.
  - by rewrite Hp.
  - intros d. split; [set_solver|]. intros (tr & ?%not_elem_of_nil & _). done.
  - intros l1 tr l2 Heq. by destruct l1.
  - intros id D ?%not_elem_of_nil. done.
Qed.

Lemma run_dag_spec ts w :
  fair_runtime ->
  (exists e, run_dag env rt r ts w = Returns (Err e)) \/
  (exists s, run_dag env rt r ts w = Returns (Ok s) /\ NoDup (map task_id ts) /\ dag_inv ts [] s /\
     (sticky_cancel -> no_panics -> exit_reason s)).
Proof.
  intros Hfair. unfold run_dag.
  destruct (topological_sort_tasks_spec ts) as [(order & -> & [Hnd _] & Hno & Hmem & _)|[-> _]];
    [|left; by eexists].
  assert (order ≡ₚ map task_id ts) as Hp.
  { apply NoDup_Permutation; [done|done|]. intros v. rewrite Hmem. unfold task_ids.
    by rewrite elem_of_list_to_set. }
  destruct (dag_loop_spec ts Hnd Hfair (length order) (mkDagState ts ∅ [] order w []))
    as [?|(s & -> & Hi & He)]; [by apply dag_start_inv|done|by left|]. right. by eexists.
Qed.

(** [C5] DAG execution always returns: the wave loop terminates, and no task
    lookup fails, for every task list and every scheduling of the waves. *)
Theorem run_dag_total ts w :
  fair_runtime -> exists res, run_dag env rt r ts w = Returns res.
Proof.
  intros Hf. destruct (run_dag_spec ts w Hf) as [[e ->]|(s & -> & _)]; by eexists.
Qed.

(** [C1] Dependencies first: when a DAG run returns results, every task has at
    most one, and a task has one only if each id it depends on has an earlier,
    successful result. *)
Theorem run_dag_respects_dependencies ts w s :
  fair_runtime -> run_dag env rt r ts w = Returns (Ok s) ->
  NoDup (map res_task_id (dg_results s)) /\
  forall l1 tr l2, dg_results s = l1 ++ tr :: l2 ->
    exists t, t ∈ ts /\ task_id t = res_task_id tr /\
      forall d, d ∈ dependencies t -> succeeded l1 d.
Proof.
  intros Hf Heq. destruct (run_dag_spec ts w Hf) as [[e He]|(s' & Hs & Hnd & Hi & _)]; [congruence|].
  rewrite Heq in Hs. injection Hs as <-. split.
  { pose proof (di_nodup _ _ _ Hi) as H. by apply NoDup_app in H as (? & _). }
  intros l1 tr l2 Hl.
  assert (res_task_id tr ∈ map task_id ts) as Hin.
  { apply (di_known _ _ _ Hi). rewrite Hl, map_app. simpl. set_solver. }
  apply list_elem_of_fmap in Hin as (t & Hid & Ht). exists t. split_and!; [done|done|].
  intros d Hd. apply (di_deps _ _ _ Hi l1 tr l2 Hl (list_to_set (dependencies t))).
  - rewrite Hid. by apply dep_sets_lookup.
  - by apply elem_of_list_to_set.
Qed.

(** ** Whole runs *)

Lemma run_sequential_exit ts w results ts' w' log :
  sticky_cancel -> run_sequential env rt r ts w = Returns (results, ts', w', log) ->
  length results = length ts \/ (poll_cancelled rt w').1 = true.
Proof.
  intros Hst. revert w results ts' w' log. induction ts as [|t ts IH]; intros w results ts' w' log; simpl.
  { intros [= <- <- <- <-]. by left. }
  destruct (poll_cancelled rt w) as [[] w1] eqn:Hp.
  { intros [= <- <- <- <-]. right. by eapply Hst. }
  destruct (seq_step env r t w1) as [[[[tr t'] w2] log1]|]; [|done].
  destruct (run_sequential env rt r ts w2) as [[[[rs ts2] w3] log2]| |] eqn:Hr; [|done|done].
  intros [= <- <- <- <-]. destruct (IH _ _ _ _ _ Hr) as [?|?]; [left; simpl; lia|by right].
Qed.

Lemma all_completed results :
  forallb (fun tr => bool_decide (res_status tr = Completed)) results = true ->
  Forall (fun tr => res_status tr = Completed) results.
Proof.
  intros Hf. apply Forall_forall. intros tr Htr. rewrite forallb_forall in Hf.
  apply list_elem_of_In, Hf in Htr. by apply bool_decide_eq_true in Htr.
Qed.

(** Each mode accounts for every task when all results are completed and
    there was no cancellation. *)
Lemma run_mode_all w results ts' w1 log :
  fair_runtime -> sticky_cancel -> no_panics ->
  run_mode env rt r w = Returns (Ok (results, ts', w1, log)) ->
  (poll_cancelled rt w1).1 = false -> Forall (fun tr => res_status tr = Completed) results ->
  map res_task_id results ≡ₚ map task_id (tasks (spec r)).
Proof.
  intros Hfair Hst Hnp Hrun Hpoll Hall.
  assert (forall ts w, run_sequential env rt r ts w = Returns (results, ts', w1, log) ->
    map res_task_id results ≡ₚ map task_id ts) as Hseq.
  { intros ts w0 Hs. pose proof (run_sequential_exit _ _ _ _ _ _ Hst Hs) as [Hlen|?]; [|congruence].
    destruct (run_sequential_spec _ _ _ _ _ _ Hs) as (k & d & Hk & _ & Hlr & Hld & Hres & _).
    assert (map res_task_id results = map task_id ts) as ->; [|done].
    apply list_eq. intros i. rewrite !list_lookup_fmap.
    destruct (results !! i) as [tr|] eqn:Htr.
    - destruct (lookup_lt_is_Some_2 ts i) as [t Ht]; [apply lookup_lt_Some in Htr; lia|].
      rewrite Ht. destruct (Hres i t tr Ht Htr) as (t2 & _ & Hro & _). simpl. f_equal. exact (ro_id _ _ Hro).
    - rewrite (lookup_ge_None_2 ts i); [done|]. apply lookup_ge_None in Htr. lia. }
  unfold run_mode in Hrun. destruct (process (spec r)) as [|m| |n].
  - destruct (run_sequential _ _ _ _ _) eqn:E; simplify_eq. by eapply Hseq.
  - destruct (run_sequential _ _ _ _ _) eqn:E; simplify_eq. by eapply Hseq.
  - destruct (run_dag_spec (tasks (spec r)) w Hfair) as [[e He]|(s & Hs & _ & Hi & Hex)];
      [rewrite He in Hrun; done|]. rewrite Hs in Hrun. simplify_eq.
    destruct (Hex Hst Hnp) as [Hrem|[?|(tr & Htr & Hf)]]; [|congruence|].
    + pose proof (di_all _ _ _ Hi Hnp) as Hp. simpl in Hp. by rewrite Hrem, app_nil_r in Hp.
    + rewrite Forall_forall in Hall. apply Hall in Htr. congruence.
  - destruct (run_parallel _ _ _ _ _ _) eqn:E; simplify_eq.
    destruct (parallel_results _ _ _ _ _ _ _ Hfair E) as (perm & Hp & Hf).
    rewrite <-Hp. assert (map res_task_id results = perm) as ->; [|done].
    clear -Hf Hall. induction Hf as [|id tr perm results Hr Hf IH]; simpl; [done|].
    apply Forall_cons in Hall as [Hc Hall]. rewrite IH by done. f_equal.
    destruct Hr as [[[? _]|[_ ?]] _]; congruence.
Qed.

(** [C7] A crew reported [Completed] has a completed result for each of its
    tasks, in every process mode, provided no task panics and cancellation
    requests are not withdrawn. *)
Theorem completed_crew_ran_every_task strength w out :
  fair_runtime -> sticky_cancel -> no_panics ->
  run env rt r strength w = Returns (Ok out) ->
  crew_status (out_state out) = CCompleted ->
  map res_task_id (results (out_state out)) ≡ₚ map task_id (tasks (spec r)) /\
  Forall (fun tr => res_status tr = Completed) (results (out_state out)).
Proof.
  intros Hfair Hst Hnp Hrun Hc. unfold run in Hrun.
  destruct (run_mode env rt r w) as [[[[[res ts'] w1] log]|e]| |] eqn:Hm; try done.
  destruct (poll_cancelled rt w1) as [c w2] eqn:Hp. simplify_eq. simpl in *.
  unfold final_status in Hc. destruct c; [done|]. case_match eqn:Hf; [|done].
  apply all_completed in Hf. split; [|done].
  eapply run_mode_all; [done|done|done|done|by rewrite Hp|done].
Qed.

Lemma agent_cost_none results :
  Forall (fun tr => metadata tr !! "agent"%string = None) results -> agent_cost_of results = ∅.
Proof.
  unfold agent_cost_of. induction results as [|tr l IH]; [done|].
  intros [Ha Hl]%Forall_cons. simpl. rewrite Ha.
  destruct (positive_cost tr); by apply IH.
Qed.

Lemma run_mode_no_agent w results ts' w1 log :
  fair_runtime -> run_mode env rt r w = Returns (Ok (results, ts', w1, log)) ->
  Forall (fun tr => metadata tr !! "agent"%string = None) results.
Proof.
  intros Hfair Hrun.
  assert (forall ts w, run_sequential env rt r ts w = Returns (results, ts', w1, log) ->
    Forall (fun tr => metadata tr !! "agent"%string = None) results) as Hseq.
  { intros ts w0 (k & d & Hk & _ & Hlr & Hld & Hall & _)%run_sequential_spec.
    apply Forall_lookup_2. intros i tr Htr.
    destruct (lookup_lt_is_Some_2 ts i) as [t Ht]; [apply lookup_lt_Some in Htr; lia|].
    destruct (Hall i t tr Ht Htr) as (t' & _ & Hro & _). exact (ro_no_agent _ _ Hro). }
  unfold run_mode in Hrun. destruct (process (spec r)) as [|m| |n].
  - destruct (run_sequential _ _ _ _ _) eqn:E; simplify_eq. by eapply Hseq.
  - destruct (run_sequential _ _ _ _ _) eqn:E; simplify_eq. by eapply Hseq.
  - destruct (run_dag_spec (tasks (spec r)) w Hfair) as [[e He]|(s & Hs & _ & Hi & _)];
      [rewrite He in Hrun; done|]. rewrite Hs in Hrun. simplify_eq. apply (di_meta _ _ _ Hi).
  - destruct (run_parallel _ _ _ _ _ _) eqn:E; simplify_eq.
    destruct (parallel_results _ _ _ _ _ _ _ Hfair E) as (perm & _ & Hf).
    clear -Hf. induction Hf as [|id tr perm results [_ Hr] Hf IH]; by constructor.
Qed.

(** The per-agent cost breakdown of a finished run is always empty: it is
    read from a metadata entry that no task result has. *)
Theorem agent_costs_never_recorded strength w out p :
  fair_runtime -> run env rt r strength w = Returns (Ok out) ->
  profile (out_state out) = Some p -> agent_cost_usd p = ∅.
Proof.
  intros Hfair Hrun Hp. unfold run in Hrun.
  destruct (run_mode env rt r w) as [[[[[res ts'] w1] log]|e]| |] eqn:Hm; try done.
  destruct (poll_cancelled rt w1) as [c w2]. simplify_eq. simpl in *. simplify_eq. simpl.
  apply agent_cost_none. by eapply run_mode_no_agent.
Qed.
End proofs.

(** ** Two corners of the DAG mode *)

Section corners.
Context {W : Type} (env : Env W) (rt : Runtime W).
Context `{!HashIter Uuid nat} `{!HashIter Uuid f64}.
Context (r : CrewRunner) (t : Task).
Hypothesis fair : fair_runtime rt.
Hypothesis quiet : never_cancelled rt.

Lemma topological_singleton :
  task_id t ∉ dependencies t -> topological_sort_tasks [t] = Some (Ok [task_id t]).
Proof.
  clear fair quiet. intros Hd. destruct (topological_sort_tasks_spec [t]) as [(o & Ho & [Hnd _] & Hno & Hm & _)|[_ Hn]].
  - rewrite Ho. do 2 f_equal. apply Permutation_singleton_r.
    apply NoDup_Permutation; [done|by repeat constructor; set_solver|].
    intros v. rewrite Hm. unfold task_ids. simpl. set_solver.
  - exfalso. apply Hn. split; [apply NoDup_singleton|].
    assert (forall u v, ~ depends_on [t] u v) as Hno.
    { intros u v (Hu & t' & ->%list_elem_of_singleton & <- & Hin).
      unfold task_ids in Hu. simpl in Hu. rewrite elem_of_union, elem_of_singleton in Hu.
      destruct Hu as [->|Hu]; [done|set_solver]. }
    intros v Hc. destruct Hc as [x y Hxy|x y z Hxy _]; by apply Hno in Hxy.
Qed.

Lemma dep_sets_singleton : dep_sets [t] !! task_id t = Some (list_to_set (dependencies t)).
Proof. unfold dep_sets. simpl. apply lookup_insert_eq. Qed.

(** A dependency on an id that is no task of the crew passes the
    topological sort, which ignores it, but the task can never become ready:
    the run ends with the deadlock error. *)
Theorem unknown_dependency_deadlocks d w :
  d ∈ dependencies t -> task_id t ∉ dependencies t ->
  topological_sort_tasks [t] = Some (Ok [task_id t]) /\
  run_dag env rt r [t] w =
    Returns (Err (Scheduling "DAG deadlock: no ready tasks but remaining exist")).
Proof.
  clear fair. intros Hd Hself. split; [by apply topological_singleton|].
  unfold run_dag. rewrite topological_singleton by done. cbn [dag_loop dg_remaining length].
  unfold dag_turn. cbn [dg_world dg_remaining dg_completed].
  pose proof (quiet w) as Hq. destruct (poll_cancelled rt w) as [c w1]. simpl in Hq. subst c.
  cbn [List.filter]. unfold deps_met. rewrite dep_sets_singleton.
  rewrite bool_decide_eq_false_2; [done|]. set_solver.
Qed.

(** In DAG mode a task that panics leaves no result behind, so a crew
    whose only task panicked is reported [Completed]. *)
Theorem panicked_dag_task_completes strength w :
  process (spec r) = Dag -> tasks (spec r) = [t] -> dependencies t = [] ->
  (forall w, execute_task env (llm r) (set_status Queued t)
               (pick_best_agent (agents (spec r)) (set_status Queued t)) false w = None) ->
  exists out, run env rt r strength w = Returns (Ok out) /\
    crew_status (out_state out) = CCompleted /\ results (out_state out) = [].
Proof.
  intros Hdag Hts Hdeps Hpanic. unfold run, run_mode. rewrite Hdag, Hts.
  unfold run_dag. rewrite topological_singleton by (rewrite Hdeps; apply not_elem_of_nil).
  cbn [dag_loop dg_remaining length]. unfold dag_turn. cbn [dg_world dg_remaining dg_completed dg_tasks].
  pose proof (quiet w) as Hq. destruct (poll_cancelled rt w) as [c w1]. simpl in Hq. subst c.
  cbn [List.filter]. unfold deps_met. rewrite dep_sets_singleton, Hdeps.
  rewrite bool_decide_eq_true_2 by set_solver. cbn [negb prepare_wave].
  assert (task_map [t] !! task_id t = Some 0) as -> by (unfold task_map; simpl; apply lookup_insert_eq).
  cbn [lookup list_lookup]. cbn [length].
  assert (completion_order rt w1 1 = [0]) as -> by (apply Permutation_singleton_r, (fair w1 1)).
  cbn [join_all lookup list_lookup]. unfold spawn_execute. rewrite Hpanic.
  cbn [foldl absorb dg_remaining dg_completed]. rewrite bool_decide_eq_true_2 by done.
  cbn [andb negb dag_loop dg_remaining dg_results dg_tasks dg_world dg_log].
  pose proof (quiet (after_panic rt w1)) as Hq.
  destruct (poll_cancelled rt (after_panic rt w1)) as [c w2]. simpl in Hq. subst c.
  eexists. split; [done|]. by split.
Qed.
End corners.

(** ** Concrete instances *)

#[local] Instance nat_iter : HashIter Uuid nat := canonical_iter.
#[local] Instance cost_iter : HashIter Uuid f64 := canonical_iter.

(** A runtime that completes tasks in reverse order and is never cancelled. *)
Definition lifo_rt {W} : Runtime W := {|
  poll_cancelled w := (false, w);
  completion_order _ n := rev (seq 0 n);
  after_panic w := w;
  join_error := "task 7 panicked";
|}.

Lemma lifo_fair {W} : fair_runtime (lifo_rt (W := W)).
Proof. intros w n. simpl. symmetry. apply Permutation_rev. Qed.
Lemma lifo_quiet {W} : never_cancelled (lifo_rt (W := W)).
Proof. by intros w. Qed.
Lemma lifo_sticky {W} : sticky_cancel (lifo_rt (W := W)).
Proof. by intros w w1. Qed.

Definition diamond : list Task :=
  [Task_new 1 "plan"; with_dependency (Task_new 2 "code") 1; with_dependency (Task_new 3 "docs") 1;
   with_dependency (with_dependency (Task_new 4 "ship") 2) 3].
Definition diamond_runner (p : ProcessMode) : CrewRunner :=
  CrewRunner_new (with_process (with_tasks (CrewSpec_new 9 "demo") diamond) p).

Lemma placeholder_no_panics p : no_panics toy_env lifo_rt (diamond_runner p).
Proof. intros t a w. done. Qed.

Lemma run_sequential_correct_witness :
  let run := run_sequential toy_env lifo_rt (diamond_runner Sequential) diamond ∅ in
  match run with
  | Returns (results, ts', _, _) => length results = 4 /\ map res_task_id results = [1; 2; 3; 4]%N
  | _ => False
  end.
Proof.
  destruct (run_sequential toy_env lifo_rt (diamond_runner Sequential) diamond ∅)
    as [[[[res ts'] w'] log]| |] eqn:E; [|vm_compute in E; discriminate..].
  destruct (run_sequential_correct _ _ _ _ _ _ _ _ _ E) as (_ & Hids & _ & _ & Hall).
  specialize (Hall lifo_quiet). simpl. split; [exact Hall|]. rewrite Hall in Hids. exact Hids.
Defined.


Lemma run_dag_total_witness :
  exists res, run_dag toy_env lifo_rt (diamond_runner Dag) diamond ∅ = Returns res.
Proof. apply run_dag_total. apply lifo_fair. Defined.

Lemma run_dag_respects_dependencies_witness :
  match run_dag toy_env lifo_rt (diamond_runner Dag) diamond ∅ with
  | Returns (Ok s) => map res_task_id (dg_results s) = [1; 2; 3; 4]%N /\ NoDup (map res_task_id (dg_results s))
  | _ => False
  end.
Proof.
  destruct (run_dag toy_env lifo_rt (diamond_runner Dag) diamond ∅) as [[s|e]| |] eqn:E;
    [|vm_compute in E; discriminate..].
  split.
  - vm_compute in E. injection E as <-. reflexivity.
  - exact (proj1 (run_dag_respects_dependencies _ _ _ _ _ _ lifo_fair E)).
Defined.

Lemma completed_crew_ran_every_task_witness :
  match run toy_env lifo_rt (diamond_runner Dag) None ∅ with
  | Returns (Ok out) => map res_task_id (results (out_state out)) ≡ₚ [1; 2; 3; 4]%N
  | _ => False
  end.
Proof.
  destruct (run toy_env lifo_rt (diamond_runner Dag) None ∅) as [[out|e]| |] eqn:E;
    [|vm_compute in E; discriminate..].
  apply (completed_crew_ran_every_task toy_env lifo_rt (diamond_runner Dag) None ∅ out
    lifo_fair lifo_sticky (placeholder_no_panics Dag) E).
  vm_compute in E. injection E as <-. reflexivity.
Defined.

Lemma agent_costs_never_recorded_witness :
  match run toy_env lifo_rt (diamond_runner (Parallel 2)) None ∅ with
  | Returns (Ok out) => match profile (out_state out) with
                        | Some p => agent_cost_usd p = ∅ | None => False end
  | _ => False
  end.
Proof.
  destruct (run toy_env lifo_rt (diamond_runner (Parallel 2)) None ∅) as [[out|e]| |] eqn:E;
    [|vm_compute in E; discriminate..].
  destruct (profile (out_state out)) as [p|] eqn:Hp.
  - exact (agent_costs_never_recorded _ _ _ _ _ _ _ lifo_fair E Hp).
  - vm_compute in E. injection E as <-. discriminate Hp.
Defined.

Lemma unknown_dependency_deadlocks_witness :
  run_dag toy_env lifo_rt (diamond_runner Dag) [with_dependency (Task_new 1 "a") 99] ∅ =
    Returns (Err (Scheduling "DAG deadlock: no ready tasks but remaining exist")).
Proof.
  apply (proj2 (unknown_dependency_deadlocks toy_env lifo_rt (diamond_runner Dag)
    (with_dependency (Task_new 1 "a") 99) lifo_quiet 99%N ∅ ltac:(left) ltac:(vm_compute; set_solver))).
Defined.

(** 50,000 ASCII bytes and a two-byte character across the limit. *)
Definition long_text : string :=
  String.append (string_of_list_ascii (repeat (Ascii.ascii_of_nat 97) (N.to_nat 49999)))
    (string_of_list_ascii [Ascii.ascii_of_nat 195; Ascii.ascii_of_nat 169]).
Definition long_runner : CrewRunner :=
  with_llm (CrewRunner_new (with_process (with_tasks (CrewSpec_new 9 "demo") [Task_new 1 long_text]) Dag)).

Lemma panicked_dag_task_completes_witness :
  exists out, run toy_env lifo_rt long_runner None ∅ = Returns (Ok out) /\
    crew_status (out_state out) = CCompleted /\ results (out_state out) = [].
Proof.
  apply (panicked_dag_task_completes toy_env lifo_rt long_runner (Task_new 1 long_text) lifo_fair lifo_quiet);
    [reflexivity|reflexivity|reflexivity|].
  intros w. vm_compute. reflexivity.
Defined.
