(* ===== verification/DagProgress.v ===== *)
(** * Progress of DAG execution (orchestrator/crew_runner.rs)

    When the task graph is acyclic, every dependency is a task of the crew and
    no task fails, the wave loop always finds a ready task: it never reports
    the deadlock error and runs every task. With a failure the error can occur:
    [failure_then_success_deadlocks]. *)

From S2P Require Import Prelude.
From S2P Require Import F64.
From S2P Require Import Resource.
From S2P Require Import Core.
From S2P Require Import Kahn.
From S2P Require Import TopoTasks.
From S2P Require Import Scoring.
From S2P Require Import Llm.
From S2P Require Import TaskExec.
From S2P Require Import CrewRunner.
From S2P Require Import CrewRunnerProofs.
From Stdlib Require Import String.
From stdpp Require Import base gmap strings numbers relations list.

(** Every dependency names a task of the list. *)
Definition deps_known (ts : list Task) : Prop :=
  forall t d, t ∈ ts -> d ∈ dependencies t -> d ∈ map task_id ts.

Section progress.
Context {W : Type} (env : Env W) (rt : Runtime W).
Context `{!HashIter Uuid nat} `{!HashIter Uuid f64}.
Context (r : CrewRunner) (ts : list Task).
Hypothesis fair : fair_runtime rt.
Hypothesis valid : tasks_valid ts.
Hypothesis known : deps_known ts.

(** Every execution of a task succeeds. *)
Definition all_succeed : Prop := forall t a w, exists tr w',
  spawn_execute env rt r t a w = (JOk tr, w') /\ res_status tr = Completed.

Hypothesis succeed : all_succeed.

Abbreviation deps := (dep_sets ts).
Abbreviation tmap := (task_map ts).

Definition clean (s : DagState (W := W)) : Prop := Forall (fun tr => res_status tr = Completed) (dg_results s).
Definition good_join (j : Joined) : Prop := exists tr, j = JOk tr /\ res_status tr = Completed.

Lemma succeed_no_panics : no_panics env rt r.
Proof. intros t a w. destruct (succeed t a w) as (tr & w' & -> & _). done. Qed.

Lemma absorb_clean s failed js : Forall good_join js -> clean s ->
  clean (foldl (absorb env r tmap) (s, failed) js).1 /\
  (foldl (absorb env r tmap) (s, failed) js).2 = failed.
Proof.
  intros Hj. revert s failed. induction Hj as [|j js (tr & -> & Htr) _ IH]; intros s failed Hc; [done|].
  simpl. rewrite bool_decide_eq_false_2 by congruence. rewrite orb_false_r. apply IH.
  apply Forall_app. by repeat constructor.
Qed.

(** Some remaining task has all its dependencies completed. *)
Lemma some_ready s : dag_inv env rt r ts [] s -> clean s -> dg_remaining s <> [] ->
  exists id, id ∈ dg_remaining s /\ deps_met deps (dg_completed s) id = true.
Proof.
  intros Hi Hc Hne. destruct valid as [Hnd Hac].
  pose proof (di_all _ _ _ _ _ _ Hi succeed_no_panics) as Hall. simpl in Hall.
  destruct (List.filter (deps_met deps (dg_completed s)) (dg_remaining s)) as [|id l] eqn:E.
  2:{ exists id. apply elem_of_List_filter. rewrite E. left. }
  exfalso. destruct (no_source_cycle (depends_on ts) (list_to_set (dg_remaining s))) as [v Hv].
  { destruct (dg_remaining s) as [|x l]; [done|]. simpl. set_solver. }
  2:{ by apply (Hac v). }
  intros v Hv%elem_of_list_to_set.
  assert (deps_met deps (dg_completed s) v = false) as Hd.
  { destruct (deps_met _ _ v) eqn:Hm; [|done]. assert (v ∈ ([] : list Uuid)) as []%not_elem_of_nil.
    rewrite <-E. by apply elem_of_List_filter. }
  assert (v ∈ map task_id ts) as Hvt by (rewrite <-Hall, elem_of_app; by right).
  apply list_elem_of_fmap in Hvt as (t & -> & Ht). unfold deps_met in Hd.
  rewrite dep_sets_lookup in Hd by done. apply bool_decide_eq_false in Hd.
  destruct (decide (Exists (fun d => d ∉ dg_completed s) (dependencies t)))
    as [(d & Hdd & Hdc)%Exists_exists|Hn].
  - exists d. rewrite elem_of_list_to_set.
    assert (d ∈ map task_id ts) as Hdt by (by eapply known). split.
    + rewrite <-Hall in Hdt. apply elem_of_app in Hdt as [Hr|?]; [|done]. exfalso. apply Hdc.
      apply (di_completed _ _ _ _ _ _ Hi). apply list_elem_of_fmap in Hr as (tr & -> & Htr).
      exists tr. split_and!; [done|done|]. unfold clean in Hc. rewrite Forall_forall in Hc. by rewrite (Hc tr Htr).
    + split; [by apply elem_of_list_to_set|]. by exists t.
  - exfalso. apply Hd. intros d Hdd%elem_of_list_to_set. destruct (decide (d ∈ dg_completed s)); [done|].
    exfalso. apply Hn, Exists_exists. by exists d.
Qed.

(** A turn leaves the loop only on cancellation. *)
Lemma dag_turn_progress s : dag_inv env rt r ts [] s -> clean s -> dg_remaining s <> [] ->
  exists s', dag_inv env rt r ts [] s' /\ clean s' /\
    ((dag_turn env rt r deps tmap s = Returns (inl (Ok s')) /\ (poll_cancelled rt (dg_world s)).1 = true) \/
     (dag_turn env rt r deps tmap s = Returns (inr s') /\
      length (dg_remaining s') < length (dg_remaining s))).
Proof.
  intros Hi Hc Hne. destruct valid as [Hnd _].
  assert (Hturn := dag_turn_spec env rt r ts Hnd fair s Hi Hne). revert Hturn.
  unfold dag_turn. destruct (poll_cancelled rt (dg_world s)) as [[] w1].
  { intros [[e [=]]|[(s' & [= <-] & Hi' & _)|(s' & [=] & _)]]. eexists. split; [exact Hi'|]. by split; [|left]. }
  destruct (some_ready s Hi Hc Hne) as (id & Hid & Hm).
  destruct (List.filter (deps_met deps (dg_completed s)) (dg_remaining s)) as [|x l] eqn:E.
  { exfalso. assert (id ∈ ([] : list Uuid)) as []%not_elem_of_nil. rewrite <-E. by apply elem_of_List_filter. }
  destruct (prepare_wave env r tmap (x :: l) (dg_tasks s)) as [[[items ts'] log]|].
  2:{ intros [[? [=]]|[(s' & [=] & _)|(s' & [=] & _)]]. }
  destruct (join_all _ _ _ _) as [[js w2]| |] eqn:Hj;
    [|intros [[? [=]]|[(s' & [=] & _)|(s' & [=] & _)]]..].
  assert (forall t a w j w', Returns (spawn_execute env rt r t a w) = Returns (j, w') -> good_join j) as HR.
  { intros t a w j w' Ej. destruct (succeed t a w) as (tr & w'' & Hs & Hst).
    rewrite Hs in Ej. injection Ej as <- _. by exists tr. }
  destruct (join_all_spec (fun _ => good_join) _ _ _ _ _ _ HR (fair w1 (length items)) Hj) as (wts & _ & Hf).
  assert (Forall good_join js) as Hg by (clear -Hf; induction Hf; by constructor).
  match goal with |- context [foldl _ (?s0, false) js] =>
    pose proof (absorb_clean s0 false js Hg Hc) as [Hc2 Hf2];
    destruct (foldl (absorb env r tmap) (s0, false) js) as [s2 wf] end.
  simpl in Hc2, Hf2. subst wf. simpl.
  intros [[? [=]]|[(s' & [=] & _)|(s' & [= <-] & Hi' & Hlt)]]. exists s2. auto.
Qed.

Lemma dag_loop_progress fuel s : dag_inv env rt r ts [] s -> clean s -> length (dg_remaining s) <= fuel ->
  exists s', dag_loop env rt r fuel deps tmap s = Returns (Ok s') /\ dag_inv env rt r ts [] s' /\ clean s' /\
    (never_cancelled rt -> dg_remaining s' = []).
Proof.
  revert s. induction fuel as [|fuel IH]; intros s Hi Hc Hf; simpl;
    destruct (dg_remaining s) as [|x l] eqn:E; try (by eexists); [simpl in Hf; lia|].
  destruct (dag_turn_progress s Hi Hc ltac:(by rewrite E)) as (s' & Hi' & Hc' & [[-> Hp]|[-> Hlt]]).
  - exists s'. split_and!; [done..|]. intros Hq. by rewrite Hq in Hp.
  - apply IH; [done|done|]. rewrite E in Hlt. simpl in *. lia.
Qed.

(** The run succeeds, without the deadlock error, and unless it is cancelled
    every task has a result. *)
Lemma run_dag_progress w :
  exists s, run_dag env rt r ts w = Returns (Ok s) /\ clean s /\
    (never_cancelled rt -> map res_task_id (dg_results s) ≡ₚ map task_id ts).
Proof.
  destruct valid as [Hnd Hac]. unfold run_dag.
  destruct (topological_sort_tasks_spec ts) as [(order & -> & _ & Hno & Hmem & _)|[_ []]]; [|done].
  assert (order ≡ₚ map task_id ts) as Hp.
  { apply NoDup_Permutation; [done|done|]. intros v. rewrite Hmem. unfold task_ids.
    by rewrite elem_of_list_to_set. }
  destruct (dag_loop_progress (length order) (mkDagState ts ∅ [] order w [])) as (s & -> & Hi & Hc & Hr).
  { by apply dag_start_inv. } { constructor. } { done. }
  exists s. split_and!; [done|done|]. intros Hq. pose proof (di_all _ _ _ _ _ _ Hi succeed_no_panics) as Hall.
  by rewrite (Hr Hq), app_nil_r in Hall.
Qed.
End progress.

(** ** A failure with an independent chain *)

#[local] Instance nat_iter : HashIter Uuid nat := canonical_iter.

(** The toy client, except that one prompt always fails. *)
Definition failing_env : Env (gmap string string) := {|
  infer req w :=
    if str_contains "broken" (req_prompt req) then (Err "connection refused"%string, w)
    else infer toy_env req w;
  cache_key m _ := m;
  cache_get _ w := (None, w);
  cache_insert _ _ w := w;
  record_cost := record_cost toy_env;
  elapsed_ms := elapsed_ms toy_env;
  json_from_str := json_from_str toy_env;
  schema_to_string := schema_to_string toy_env;
  context_to_json := context_to_json toy_env;
  uuid_to_string := uuid_to_string toy_env;
  retry_draw := retry_draw toy_env;
|}.

(** Tasks 1 and 2 are independent; 3 needs 2, 4 needs 1. *)
Definition two_chains : list Task :=
  [Task_new 1 "broken"; Task_new 2 "plan"; with_dependency (Task_new 3 "code") 2;
   with_dependency (Task_new 4 "ship") 1].
Definition two_chains_runner : CrewRunner :=
  mkCrewRunner (with_process (with_tasks (CrewSpec_new 9 "demo") two_chains) Dag) false true false.

(** Task 1 fails in the first wave. Task 3 can still run, so the loop goes on;
    its wave succeeds, and the next turn finds only task 4, which waits for
    task 1 for ever. The guard that skips tasks behind a failure looks at the
    failures of the last wave only: the run ends with the deadlock error, and
    the results of tasks 1, 2 and 3 are lost. *)
Example failure_then_success_deadlocks :
  run_dag failing_env lifo_rt two_chains_runner two_chains ∅ =
    Returns (Err (Scheduling "DAG deadlock: no ready tasks but remaining exist")).
Proof. vm_compute. reflexivity. Qed.

(** Without task 3 the same failure is skipped over and the results are kept. *)
Example failure_in_last_wave_skips :
  match run_dag failing_env lifo_rt two_chains_runner
          [Task_new 1 "broken"; Task_new 2 "plan"; with_dependency (Task_new 4 "ship") 1] ∅ with
  | Returns (Ok s) => map res_task_id (dg_results s) = [1; 2]%N \/ map res_task_id (dg_results s) = [2; 1]%N
  | _ => False
  end.
Proof. vm_compute. tauto. Qed.
