(* ===== verification/Gpu.v ===== *)
(** * Accelerator memory scheduling (fleet/gpu.rs)

    [ComputeScheduler] hands out device memory to tasks. The state is a list of
    devices and a map of allocations; every operation is a function on it, with
    [None] for the panics (overflow of a counter, index out of range). *)

From S2P Require Import Prelude.
From S2P Require Import F64.
From S2P Require Import Resource.
From stdpp Require Import base gmap fin_maps strings numbers list.

Local Open Scope N_scope.

(** ** The code *)

Record ComputeAllocation := mkComputeAllocation {
  alloc_task_id : Uuid;
  device_index : nat;
  memory_mb : N;
}.
Definition vram_mb (a : ComputeAllocation) : N := memory_mb a.

Record DeviceState := mkDeviceState {
  ds_device : ComputeDevice;
  memory_used_mb : N;
}.

Definition ds_available (d : DeviceState) : N :=
  saturating_sub (memory_total_mb (ds_device d)) (memory_used_mb d).

Record ComputeScheduler := mkComputeScheduler {
  gpu_devices : list DeviceState;
  allocations : gmap Uuid ComputeAllocation;
}.

Record GpuDevice := mkGpuDevice {
  gpu_index : nat;
  gpu_name : string;
  vram_total_mb : N;
  vram_used_mb : N;
}.
Definition vram_available_mb (g : GpuDevice) : N := saturating_sub (vram_total_mb g) (vram_used_mb g).

Definition ComputeScheduler_new : ComputeScheduler := mkComputeScheduler [] ∅.

Definition add_device (s : ComputeScheduler) (name : string) (a : AcceleratorType) (total : N)
    : ComputeScheduler :=
  mkComputeScheduler
    (gpu_devices s ++ [mkDeviceState (mkComputeDevice (length (gpu_devices s)) name a total total) 0])
    (allocations s).

Definition add_gpu (s : ComputeScheduler) (name : string) (total : N) : ComputeScheduler :=
  add_device s name Cuda total.

Definition compute_devices (s : ComputeScheduler) : list ComputeDevice := map ds_device (gpu_devices s).

Definition gpu_view (d : DeviceState) : GpuDevice :=
  mkGpuDevice (dev_index (ds_device d)) (dev_name (ds_device d)) (memory_total_mb (ds_device d))
    (memory_used_mb d).

Definition scheduler_devices (s : ComputeScheduler) : list GpuDevice := map gpu_view (gpu_devices s).

(** [accel.is_none_or(|a| ds.device.accelerator == a)] *)
Definition accel_matches (accel : option AcceleratorType) (d : DeviceState) : bool :=
  match accel with None => true | Some a => bool_decide (accelerator (ds_device d) = a) end.

Definition scheduler_devices_of_type (s : ComputeScheduler) (a : AcceleratorType) : list ComputeDevice :=
  map ds_device (List.filter (accel_matches (Some a)) (gpu_devices s)).

Definition scheduler_total_memory (s : ComputeScheduler) (accel : option AcceleratorType) : option N :=
  u64_sum (map (fun d => memory_total_mb (ds_device d)) (List.filter (accel_matches accel) (gpu_devices s))).

Definition available_memory_mb (s : ComputeScheduler) (accel : option AcceleratorType) : option N :=
  u64_sum (map ds_available (List.filter (accel_matches accel) (gpu_devices s))).

Definition total_vram_mb (s : ComputeScheduler) : option N := scheduler_total_memory s None.
Definition available_vram_mb (s : ComputeScheduler) : option N := available_memory_mb s None.

Definition by_available (x y : nat * DeviceState) : bool := ds_available x.2 <=? ds_available y.2.

(** The device [allocate] chooses: the last one of maximal free memory. *)
Definition candidates (s : ComputeScheduler) (mb : N) (accel : option AcceleratorType)
    : list (nat * DeviceState) :=
  List.filter (fun x => mb <=? ds_available x.2)
    (List.filter (fun x => accel_matches accel x.2) (enumerate_from 0 (gpu_devices s))).

(** Set the used counter and keep [memory_available_mb] in sync. *)
Definition with_used (d : DeviceState) (used : N) : DeviceState :=
  let d' := mkDeviceState (ds_device d) used in
  mkDeviceState (with_available (ds_device d) (ds_available d')) used.

Definition allocate (s : ComputeScheduler) (task_id : Uuid) (mb : N) (accel : option AcceleratorType)
    : option (option ComputeAllocation * ComputeScheduler) :=
  match max_by by_available (candidates s mb accel) with
  | None => Some (None, s)
  | Some (best_idx, d) =>
      match u64_add (memory_used_mb d) mb with
      | None => None
      | Some used =>
          let alloc := mkComputeAllocation task_id best_idx mb in
          Some (Some alloc,
                mkComputeScheduler (<[best_idx := with_used d used]> (gpu_devices s))
                  (<[task_id := alloc]> (allocations s)))
      end
  end.

Definition release (s : ComputeScheduler) (task_id : Uuid) : option (bool * ComputeScheduler) :=
  match allocations s !! task_id with
  | None => Some (false, s)
  | Some alloc =>
      match gpu_devices s !! device_index alloc with
      | None => None
      | Some d =>
          Some (true,
            mkComputeScheduler
              (<[device_index alloc := with_used d (saturating_sub (memory_used_mb d) (memory_mb alloc))]>
                 (gpu_devices s))
              (delete task_id (allocations s)))
      end
  end.

Definition best_device (s : ComputeScheduler) : option GpuDevice :=
  match max_by (fun x y => ds_available x <=? ds_available y) (gpu_devices s) with
  | Some d => Some (gpu_view d)
  | None => None
  end.

Definition list_allocations `{!HashIter Uuid ComputeAllocation} (s : ComputeScheduler)
    : list ComputeAllocation := hash_values (allocations s).

(** ** Invariants *)

(** Memory of the recorded allocations on device [i]. *)
Definition charge (i : nat) (a : ComputeAllocation) : N :=
  if decide (device_index a = i) then memory_mb a else 0.
Definition allocated_on (m : gmap Uuid ComputeAllocation) (i : nat) : N :=
  map_fold (fun _ a acc => charge i a + acc) 0 m.

Record device_wf (i : nat) (d : DeviceState) : Prop := {
  dw_used : memory_used_mb d <= memory_total_mb (ds_device d);
  dw_total : memory_total_mb (ds_device d) <= u64_max;
  dw_sync : memory_available_mb (ds_device d) = ds_available d;
  dw_index : dev_index (ds_device d) = i;
}.

(** Devices are consistent, and no allocation is larger than what its device
    has recorded as used. *)
Record scheduler_wf (s : ComputeScheduler) : Prop := {
  sw_devices : forall i d, gpu_devices s !! i = Some d -> device_wf i d;
  sw_covers : forall i d, gpu_devices s !! i = Some d -> allocated_on (allocations s) i <= memory_used_mb d;
  sw_range : forall id a, allocations s !! id = Some a ->
    (device_index a < length (gpu_devices s))%nat /\ alloc_task_id a = id;
}.

(** No memory is leaked: the used counters are exactly the allocations. *)
Definition no_leak (s : ComputeScheduler) : Prop :=
  forall i d, gpu_devices s !! i = Some d -> memory_used_mb d = allocated_on (allocations s) i.

Lemma allocated_on_insert m i id a :
  m !! id = None -> allocated_on (<[id := a]> m) i = charge i a + allocated_on m i.
Proof.
  intros Hm. unfold allocated_on. apply (map_fold_insert_L (fun _ a acc => charge i a + acc)); [|done].
  intros. lia.
Qed.

Lemma allocated_on_delete m i id a :
  m !! id = Some a -> allocated_on m i = charge i a + allocated_on (delete id m) i.
Proof.
  intros Hm. unfold allocated_on. apply (map_fold_delete_L (fun _ a acc => charge i a + acc)); [|done].
  intros. lia.
Qed.

Lemma allocated_on_empty i : allocated_on ∅ i = 0.
Proof. apply map_fold_empty. Qed.

Lemma allocated_on_out m n i :
  (forall id a, m !! id = Some a -> (device_index a < n)%nat) -> (n <= i)%nat -> allocated_on m i = 0.
Proof.
  intros Hm Hi. revert Hm. induction m as [|id a m Hid IH] using map_ind; intros Hm; [apply allocated_on_empty|].
  rewrite allocated_on_insert by done. rewrite IH.
  - unfold charge. rewrite decide_False; [done|]. specialize (Hm id a). rewrite lookup_insert_eq in Hm.
    specialize (Hm eq_refl). lia.
  - intros id' a' H'. apply (Hm id'). rewrite lookup_insert_ne; [done|]. intros ->. congruence.
Qed.

Lemma charge_self a : charge (device_index a) a = memory_mb a.
Proof. unfold charge. by rewrite decide_True. Qed.

(** Replacing an allocation under the same id never increases the charge by
    more than the new amount. *)
Lemma allocated_on_insert_le m i id a :
  allocated_on (<[id := a]> m) i <= charge i a + allocated_on m i.
Proof.
  rewrite <-insert_delete_eq. rewrite allocated_on_insert by apply lookup_delete_eq.
  destruct (m !! id) as [b|] eqn:E.
  - rewrite (allocated_on_delete m i id b E). lia.
  - by rewrite delete_id.
Qed.

(** ** What the operations do *)

Lemma candidates_spec s mb accel i d :
  (i, d) ∈ candidates s mb accel <->
  gpu_devices s !! i = Some d /\ accel_matches accel d = true /\ mb <= ds_available d.
Proof.
  unfold candidates. rewrite !elem_of_List_filter. simpl. rewrite N.leb_le. split.
  - intros [[Hin Ha] Hm]. apply enumerate_from_lookup in Hin as [_ Hi]. by rewrite Nat.sub_0_r in Hi.
  - intros (Hi & Ha & Hm). split_and!; [|done|done].
    assert (forall (l : list DeviceState) k j, l !! j = Some d -> (k + j, d)%nat ∈ enumerate_from k l) as H.
    { clear. induction l as [|x l IH]; intros k j Hj; [done|]. destruct j as [|j]; simplify_eq/=.
      - rewrite Nat.add_0_r. left.
      - right. rewrite Nat.add_succ_r. by apply (IH (S k)). }
    by apply (H _ 0%nat).
Qed.

Lemma by_available_max s mb accel i d y :
  max_by by_available (candidates s mb accel) = Some (i, d) -> y ∈ candidates s mb accel ->
  ds_available y.2 <= ds_available d.
Proof.
  intros Hm Hy. apply N.leb_le.
  apply (max_by_upper by_available (fun _ => True)) with (l := candidates s mb accel) (m := (i, d)); try done.
  - intros a b _ _. unfold by_available. rewrite !N.leb_le. lia.
  - intros a b c _ _ _. unfold by_available. rewrite !N.leb_le. lia.
  - by apply Forall_true.
Qed.

Lemma with_used_wf i d used :
  device_wf i d -> used <= memory_total_mb (ds_device d) -> device_wf i (with_used d used).
Proof. intros [H1 H2 H3 H4] Hu. by split. Qed.

Lemma allocate_spec s id mb accel :
  scheduler_wf s ->
  (allocate s id mb accel = Some (None, s) /\ candidates s mb accel = []) \/
  exists i d, gpu_devices s !! i = Some d /\ accel_matches accel d = true /\ mb <= ds_available d /\
    (forall y, y ∈ candidates s mb accel -> ds_available y.2 <= ds_available d) /\
    allocate s id mb accel = Some (Some (mkComputeAllocation id i mb),
      mkComputeScheduler (<[i := with_used d (memory_used_mb d + mb)]> (gpu_devices s))
        (<[id := mkComputeAllocation id i mb]> (allocations s))).
Proof.
  intros Hwf. unfold allocate. destruct (max_by by_available (candidates s mb accel)) as [[i d]|] eqn:E.
  - right. pose proof (max_by_elem _ _ _ E) as Hin. apply candidates_spec in Hin as (Hi & Ha & Hm).
    exists i, d. split_and!; [done|done|done|intros y; by apply (by_available_max s mb accel i)|].
    destruct (sw_devices _ Hwf _ _ Hi) as [H1 H2 _ _]. unfold ds_available, saturating_sub in Hm.
    unfold u64_add. assert (memory_used_mb d + mb <= u64_max) as Hle by lia.
    apply N.leb_le in Hle. by rewrite Hle.
  - left. split; [done|]. by apply (max_by_None by_available).
Qed.

Lemma allocate_wf s id mb accel a s' :
  scheduler_wf s -> allocate s id mb accel = Some (a, s') -> scheduler_wf s'.
Proof.
  intros Hwf Ha. destruct (allocate_spec s id mb accel Hwf) as [[He _]|(i & d & Hi & _ & Hm & _ & He)];
    rewrite He in Ha; simplify_eq; [done|]. pose proof Hwf as [H1 H2 H3].
  assert (i < length (gpu_devices s))%nat as Hlt by (by eapply lookup_lt_Some).
  pose proof (H1 i d Hi) as Hd. destruct Hd as [Hu Ht Hs Hx]. unfold ds_available, saturating_sub in Hm.
  split; simpl.
  - intros j e Hj. apply list_lookup_insert_Some in Hj as [(-> & <- & _)|[_ Hj]]; [|by apply H1].
    apply with_used_wf; [by apply H1|lia].
  - intros j e Hj. pose proof (allocated_on_insert_le (allocations s) j id (mkComputeAllocation id i mb)) as Hle.
    apply list_lookup_insert_Some in Hj as [(-> & <- & _)|[Hne Hj]].
    + specialize (H2 j d Hi). unfold charge in Hle. simpl in Hle. rewrite decide_True in Hle by done. simpl. lia.
    + specialize (H2 j e Hj). unfold charge in Hle. simpl in Hle. rewrite decide_False in Hle by done. lia.
  - intros id' a' Hl. rewrite length_insert.
    apply lookup_insert_Some in Hl as [[-> <-]|[_ Hl]]; [done|by apply (H3 id')].
Qed.

Lemma release_spec s id :
  scheduler_wf s ->
  match allocations s !! id with
  | None => release s id = Some (false, s)
  | Some a => exists d, gpu_devices s !! device_index a = Some d /\ memory_mb a <= memory_used_mb d /\
      release s id = Some (true,
        mkComputeScheduler (<[device_index a := with_used d (memory_used_mb d - memory_mb a)]> (gpu_devices s))
          (delete id (allocations s)))
  end.
Proof.
  intros [H1 H2 H3]. unfold release. destruct (allocations s !! id) as [a|] eqn:E; [|done].
  destruct (H3 _ _ E) as [Hlt _]. destruct (lookup_lt_is_Some_2 _ _ Hlt) as [d Hd]. rewrite Hd.
  exists d. split_and!; [done| |done]. specialize (H2 _ _ Hd).
  rewrite (allocated_on_delete _ _ _ _ E), charge_self in H2. lia.
Qed.

Lemma release_wf s id b s' :
  scheduler_wf s -> release s id = Some (b, s') -> scheduler_wf s'.
Proof.
  intros Hwf Hr. pose proof (release_spec s id Hwf) as Hs.
  destruct (allocations s !! id) as [a|] eqn:E; [|rewrite Hs in Hr; by simplify_eq].
  destruct Hs as (d & Hd & Hle & Hs). rewrite Hs in Hr. simplify_eq. destruct Hwf as [H1 H2 H3]. split; simpl.
  - intros j e Hj. apply list_lookup_insert_Some in Hj as [(<- & <- & _)|[_ Hj]]; [|by apply H1].
    apply with_used_wf; [by apply H1|]. destruct (H1 _ _ Hd). lia.
  - intros j e Hj. apply list_lookup_insert_Some in Hj as [(<- & <- & _)|[Hne Hj]].
    + specialize (H2 _ _ Hd). rewrite (allocated_on_delete _ _ _ _ E), charge_self in H2. simpl. lia.
    + specialize (H2 _ _ Hj). rewrite (allocated_on_delete _ _ _ _ E) in H2. lia.
  - intros id' a' Hl. rewrite length_insert. apply lookup_delete_Some in Hl as [_ Hl]. by apply (H3 id').
Qed.

Lemma add_device_wf s name a total :
  scheduler_wf s -> total <= u64_max -> scheduler_wf (add_device s name a total).
Proof.
  intros [H1 H2 H3] Ht. split; simpl.
  - intros i d Hi. apply lookup_app_Some in Hi as [Hi|[Hge Hi]]; [by apply H1|].
    destruct (i - length (gpu_devices s))%nat eqn:E; simplify_eq/=.
    split; simpl; [lia|done| |lia]. unfold ds_available, saturating_sub. simpl. lia.
  - intros i d Hi. apply lookup_app_Some in Hi as [Hi|[Hge Hi]]; [by apply H2|].
    destruct (i - length (gpu_devices s))%nat eqn:E; simplify_eq/=.
    rewrite (allocated_on_out _ (length (gpu_devices s)) i); [done| |lia].
    intros id b Hb. by destruct (H3 id b Hb).
  - intros id b Hb. rewrite length_app. destruct (H3 id b Hb). simpl. split; [lia|done].
Qed.

(** ** Conservation of memory *)

Lemma scheduler_new_wf : scheduler_wf ComputeScheduler_new.
Proof. split; [done|done|]. simpl. intros id a. by rewrite lookup_empty. Qed.

(** Any sequence of operations: a task may allocate again while it holds memory. *)
Inductive gpu_op :=
| OpAdd (name : string) (a : AcceleratorType) (total : N)
| OpAllocate (id : Uuid) (mb : N) (accel : option AcceleratorType)
| OpRelease (id : Uuid).

Definition gpu_exec (s : ComputeScheduler) (op : gpu_op) : option ComputeScheduler :=
  match op with
  | OpAdd name a total => Some (add_device s name a total)
  | OpAllocate id mb accel => option_map snd (allocate s id mb accel)
  | OpRelease id => option_map snd (release s id)
  end.

Fixpoint gpu_run (s : ComputeScheduler) (ops : list gpu_op) : option ComputeScheduler :=
  match ops with
  | [] => Some s
  | op :: ops => match gpu_exec s op with Some s' => gpu_run s' ops | None => None end
  end.

Definition op_u64 (op : gpu_op) : Prop :=
  match op with OpAdd _ _ total => total <= u64_max | _ => True end.

Lemma gpu_exec_safe s op :
  scheduler_wf s -> op_u64 op -> exists s', gpu_exec s op = Some s' /\ scheduler_wf s'.
Proof.
  intros Hwf Hop. destruct op as [name a total|id mb accel|id]; simpl in *.
  - eexists. split; [done|]. by apply add_device_wf.
  - destruct (allocate_spec s id mb accel Hwf) as [[He _]|(i & d & _ & _ & _ & _ & He)];
      rewrite He; eexists; (split; [done|]); by eapply allocate_wf.
  - pose proof (release_spec s id Hwf) as Hs. destruct (allocations s !! id) as [a|].
    + destruct Hs as (d & _ & _ & Hs). rewrite Hs. eexists. split; [done|]. by eapply release_wf.
    + rewrite Hs. by eexists.
Qed.

Lemma gpu_run_wf ops s :
  scheduler_wf s -> Forall op_u64 ops -> exists s', gpu_run s ops = Some s' /\ scheduler_wf s'.
Proof.
  revert s. induction ops as [|op ops IH]; intros s Hwf Hops; simpl; [by eexists|].
  apply Forall_cons in Hops as [Hop Hops].
  destruct (gpu_exec_safe s op Hwf Hop) as (s' & -> & Hwf'). by apply IH.
Qed.

(** The records an operation overwrites: the one of a task that is given memory
    while it holds some. *)
Definition overwritten (s : ComputeScheduler) (op : gpu_op) : list ComputeAllocation :=
  match op with
  | OpAllocate id mb accel =>
      match allocate s id mb accel with
      | Some (Some _, _) => option_list (allocations s !! id)
      | _ => []
      end
  | _ => []
  end.
Fixpoint run_overwritten (s : ComputeScheduler) (ops : list gpu_op) : list ComputeAllocation :=
  match ops with
  | [] => []
  | op :: ops =>
      (overwritten s op ++ match gpu_exec s op with Some s' => run_overwritten s' ops | None => [] end)%list
  end.

Definition charges (i : nat) (l : list ComputeAllocation) : N := foldr (fun a acc => charge i a + acc) 0 l.

(** Every byte in use is on record or was on a record that got overwritten. *)
Definition accounted (lost : list ComputeAllocation) (s : ComputeScheduler) : Prop :=
  (forall i d, gpu_devices s !! i = Some d ->
     memory_used_mb d = allocated_on (allocations s) i + charges i lost) /\
  Forall (fun a => (device_index a < length (gpu_devices s))%nat) lost.

Lemma charges_app i l k : charges i (l ++ k) = charges i l + charges i k.
Proof. unfold charges. induction l as [|a l IH]; simpl; [done|]. rewrite IH. lia. Qed.

Lemma charges_out i n l : Forall (fun a => (device_index a < n)%nat) l -> (n <= i)%nat -> charges i l = 0.
Proof.
  intros Hl Hi. induction Hl as [|a l Ha _ IH]; [done|]. simpl. rewrite IH. unfold charge.
  rewrite decide_False by lia. done.
Qed.

(** Replacing or adding a record charges the new one and loses the old one. *)
Lemma allocated_on_replace m i id a :
  allocated_on (<[id := a]> m) i + charges i (option_list (m !! id)) = charge i a + allocated_on m i.
Proof.
  destruct (m !! id) as [b|] eqn:E; simpl.
  - rewrite <-insert_delete_eq, allocated_on_insert by apply lookup_delete_eq.
    rewrite (allocated_on_delete m i id b E). lia.
  - rewrite allocated_on_insert by done. lia.
Qed.

Lemma accounted_allocate lost s id mb accel s' :
  scheduler_wf s -> accounted lost s -> gpu_exec s (OpAllocate id mb accel) = Some s' ->
  accounted (lost ++ overwritten s (OpAllocate id mb accel)) s'.
Proof.
  intros Hwf [Ha Hl] He. cbn [gpu_exec overwritten] in *.
  destruct (allocate_spec s id mb accel Hwf) as [[E _]|(i & d & Hi & _ & _ & _ & E)]; rewrite E in *; simplify_eq/=.
  { rewrite app_nil_r. by split. }
  split.
  - intros j e Hj. rewrite charges_app. simpl in *.
    pose proof (allocated_on_replace (allocations s) j id (mkComputeAllocation id i mb)) as Hr.
    apply list_lookup_insert_Some in Hj as [(-> & <- & _)|[Hne Hj]].
    + unfold charge in Hr. simpl in Hr. rewrite decide_True in Hr by done. specialize (Ha _ _ Hi). simpl in *. lia.
    + unfold charge in Hr. simpl in Hr. rewrite decide_False in Hr by done. specialize (Ha j e Hj). lia.
  - simpl. rewrite length_insert. apply Forall_app. split; [done|].
    destruct (allocations s !! id) as [b|] eqn:Eb; simpl; [|constructor].
    constructor; [|constructor]. by apply (sw_range _ Hwf id b).
Qed.

Lemma accounted_release lost s id s' :
  scheduler_wf s -> accounted lost s -> gpu_exec s (OpRelease id) = Some s' -> accounted lost s'.
Proof.
  intros Hwf [Ha Hl] He. cbn [gpu_exec] in He. pose proof (release_spec s id Hwf) as Hs.
  destruct (allocations s !! id) as [a|] eqn:E; [|rewrite Hs in He; simplify_eq/=; by split].
  destruct Hs as (d & Hd & Hle & Hs). rewrite Hs in He. simplify_eq/=. split; simpl; [|by rewrite length_insert].
  intros j e Hj. apply list_lookup_insert_Some in Hj as [(<- & <- & _)|[Hne Hj]].
  - specialize (Ha _ _ Hd). rewrite (allocated_on_delete _ _ _ _ E), charge_self in Ha. simpl. lia.
  - specialize (Ha _ _ Hj). rewrite (allocated_on_delete _ _ _ _ E) in Ha. unfold charge in Ha.
    rewrite decide_False in Ha by done. lia.
Qed.

Lemma accounted_add lost s name a total :
  scheduler_wf s -> accounted lost s -> accounted lost (add_device s name a total).
Proof.
  intros Hwf [Ha Hl]. split; simpl.
  - intros i d Hi. apply lookup_app_Some in Hi as [Hi|[Hge Hi]]; [by apply Ha|].
    destruct (i - length (gpu_devices s))%nat eqn:E; simplify_eq/=.
    rewrite (charges_out i _ _ Hl) by lia. rewrite (allocated_on_out _ (length (gpu_devices s)) i); [done| |lia].
    intros id b Hb. by destruct (sw_range _ Hwf id b Hb).
  - rewrite length_app. eapply Forall_impl; [exact Hl|]. simpl. lia.
Qed.

Lemma accounted_run ops lost s s' :
  scheduler_wf s -> Forall op_u64 ops -> accounted lost s -> gpu_run s ops = Some s' ->
  scheduler_wf s' /\ accounted (lost ++ run_overwritten s ops) s'.
Proof.
  revert lost s. induction ops as [|op ops IH]; intros lost s Hwf Hops Ha Hr; cbn [gpu_run run_overwritten] in *.
  { simplify_eq. by rewrite app_nil_r. }
  apply Forall_cons in Hops as [Hop Hops]. destruct (gpu_exec_safe s op Hwf Hop) as (s1 & E & Hwf1). rewrite E in Hr |- *.
  rewrite app_assoc. apply IH; [done..| |done].
  destruct op as [name a total|id mb accel|id].
  - cbn in E. simplify_eq. cbn [overwritten]. rewrite app_nil_r. by apply accounted_add.
  - by apply (accounted_allocate lost s).
  - cbn [overwritten]. rewrite app_nil_r. by apply (accounted_release lost s id).
Qed.

(** [C3] Memory is conserved, whatever is asked of the scheduler: after any sequence
    of operations, also when a task allocates while it holds memory, the used
    memory of a device is the sum of the recorded allocations on it plus the sum
    of the records that such allocations have overwritten, so it is exactly the
    recorded sum as long as no task allocates twice; it never exceeds the device's
    total, and the published [memory_available_mb] is the difference. *)
Theorem gpu_memory_conserved ops s i d :
  Forall op_u64 ops -> gpu_run ComputeScheduler_new ops = Some s -> gpu_devices s !! i = Some d ->
  memory_used_mb d = allocated_on (allocations s) i + charges i (run_overwritten ComputeScheduler_new ops) /\
  memory_used_mb d <= memory_total_mb (ds_device d) /\
  memory_available_mb (ds_device d) = memory_total_mb (ds_device d) - memory_used_mb d.
Proof.
  intros Hops Hr Hi.
  assert (accounted [] ComputeScheduler_new) as H0 by (by split).
  destruct (accounted_run ops [] _ _ scheduler_new_wf Hops H0 Hr) as [Hwf [Ha _]].
  destruct (sw_devices _ Hwf _ _ Hi) as [H1 H2 H3 H4]. split_and!; [by apply Ha|done|done].
Qed.

(** [C28] No sequence of operations panics (no counter overflows, no index is
    out of range) or makes a device promise more memory than it has, even when
    a task allocates twice. *)
Theorem gpu_run_safe ops :
  Forall op_u64 ops ->
  exists s, gpu_run ComputeScheduler_new ops = Some s /\
    forall i d, gpu_devices s !! i = Some d ->
      allocated_on (allocations s) i <= memory_used_mb d <= memory_total_mb (ds_device d).
Proof.
  intros Hops. destruct (gpu_run_wf ops _ scheduler_new_wf Hops) as (s & Hs & Hwf).
  exists s. split; [done|]. intros i d Hi. split; [by apply (sw_covers _ Hwf)|].
  by destruct (sw_devices _ Hwf _ _ Hi).
Qed.

(** ** Allocation chooses well, and releasing undoes it *)

(** [allocate] fails, changing nothing, exactly when no device of the
    requested kind has enough free memory; otherwise it takes the memory from a
    matching device with the most free memory. *)
Theorem allocate_best_fit s id mb accel :
  scheduler_wf s ->
  (allocate s id mb accel = Some (None, s) <->
     forall i d, gpu_devices s !! i = Some d -> accel_matches accel d = true -> ds_available d < mb) /\
  (forall a s', allocate s id mb accel = Some (Some a, s') ->
     exists d, gpu_devices s !! device_index a = Some d /\ accel_matches accel d = true /\
       mb <= ds_available d /\ memory_mb a = mb /\ allocations s' !! id = Some a /\
       (forall j e, gpu_devices s !! j = Some e -> accel_matches accel e = true ->
          ds_available e <= ds_available d) /\
       (forall j, j <> device_index a -> gpu_devices s' !! j = gpu_devices s !! j)).
Proof.
  intros Hwf. destruct (allocate_spec s id mb accel Hwf) as [[He Hc]|(i & d & Hi & Ha & Hm & Hmax & He)].
  - split; [|intros a s' ?; congruence]. split; [|done]. intros _ j e Hj Hae.
    destruct (decide (mb <= ds_available e)) as [Hle|]; [|lia]. exfalso.
    assert ((j, e) ∈ candidates s mb accel) as Hin by (by apply candidates_spec).
    rewrite Hc in Hin. by apply not_elem_of_nil in Hin.
  - split.
    + split; [congruence|]. intros Hno. specialize (Hno i d Hi Ha). lia.
    + intros a s' Heq. rewrite He in Heq. simplify_eq. exists d. simpl. split_and!; try done.
      * apply lookup_insert_eq.
      * intros j e Hj Hae. destruct (decide (mb <= ds_available e)); [|lia].
        apply (Hmax (j, e)), candidates_spec. done.
      * intros j Hj. by apply list_lookup_insert_ne.
Qed.

Lemma with_used_restore i d u :
  device_wf i d -> with_used (with_used d u) (memory_used_mb d) = d.
Proof.
  intros [_ _ Hs _]. destruct d as [[ix nm ac tot av] used]. unfold with_used, ds_available in *.
  simpl in *. by rewrite <-Hs.
Qed.

(** Releasing a fresh allocation gives back the scheduler as it was. *)
Theorem allocate_release_roundtrip s id mb accel a s' :
  scheduler_wf s -> allocations s !! id = None ->
  allocate s id mb accel = Some (Some a, s') -> release s' id = Some (true, s).
Proof.
  intros Hwf Hid Ha.
  destruct (allocate_spec s id mb accel Hwf) as [[He _]|(i & d & Hi & _ & _ & _ & He)];
    rewrite He in Ha; simplify_eq. unfold release. simpl.
  assert (i < length (gpu_devices s))%nat as Hlt by (by eapply lookup_lt_Some).
  rewrite lookup_insert_eq. simpl. rewrite list_lookup_insert_eq by done. simpl.
  unfold saturating_sub. rewrite N.add_sub.
  rewrite (with_used_restore i) by (by apply (sw_devices _ Hwf)).
  rewrite list_insert_insert_eq, list_insert_id by done.
  rewrite delete_insert_id by done. by destruct s.
Qed.

(** Allocating again for a task that still holds memory overwrites its
    record: the old memory stays used and no release can return it. *)
Theorem double_allocation_leaks s id mb accel a0 a s1 b s2 :
  scheduler_wf s -> no_leak s -> allocations s !! id = Some a0 -> 0 < memory_mb a0 ->
  allocate s id mb accel = Some (Some a, s1) -> release s1 id = Some (b, s2) ->
  allocations s2 !! id = None /\
  exists d, gpu_devices s2 !! device_index a0 = Some d /\
    memory_used_mb d = allocated_on (allocations s2) (device_index a0) + memory_mb a0.
Proof.
  intros Hwf Hn Hid Hpos Ha Hr.
  destruct (allocate_spec s id mb accel Hwf) as [[He _]|(i & d & Hi & _ & _ & _ & He)];
    rewrite He in Ha; simplify_eq.
  assert (i < length (gpu_devices s))%nat as Hlt by (by eapply lookup_lt_Some).
  unfold release in Hr. simpl in Hr. rewrite lookup_insert_eq in Hr. simpl in Hr.
  rewrite list_lookup_insert_eq in Hr by done. simplify_eq. simpl.
  rewrite lookup_delete_eq. split; [done|].
  destruct (sw_range _ Hwf _ _ Hid) as [Hlt0 _].
  destruct (lookup_lt_is_Some_2 _ _ Hlt0) as [d0 Hd0].
  rewrite delete_insert_eq, list_insert_insert_eq.
  pose proof (Hn _ _ Hd0) as Hu. rewrite (allocated_on_delete _ _ _ _ Hid), charge_self in Hu.
  destruct (decide (device_index a0 = i)) as [Heq|Hne].
  - rewrite Heq in Hd0, Hu |- *. simplify_eq. rewrite list_lookup_insert_eq by done.
    eexists. split; [done|]. simpl. unfold saturating_sub. lia.
  - rewrite list_lookup_insert_ne by done. exists d0. split; [done|lia].
Qed.

(** ** Concrete instances *)

Definition two_gpus : ComputeScheduler :=
  add_gpu (add_gpu ComputeScheduler_new "a" 100) "b" 200.

Lemma two_gpus_wf : scheduler_wf two_gpus.
Proof. repeat (apply add_device_wf; [|vm_compute; discriminate]). apply scheduler_new_wf. Qed.

Definition after_alloc : ComputeScheduler :=
  match allocate two_gpus 7 50 None with Some (_, s) => s | None => two_gpus end.

Lemma after_alloc_wf : scheduler_wf after_alloc.
Proof.
  eapply (allocate_wf two_gpus 7 50 None (Some (mkComputeAllocation 7 1 50))); [apply two_gpus_wf|].
  vm_compute. reflexivity.
Qed.

Lemma after_alloc_no_leak : no_leak after_alloc.
Proof. intros [|[|i]] d Hd; vm_compute in Hd; try discriminate Hd; injection Hd as <-; vm_compute; reflexivity. Qed.

(** A task that allocates twice and releases once leaves its first record charged. *)
Lemma gpu_memory_conserved_witness :
  let ops := [OpAdd "a" Cuda 100; OpAllocate 1 60 None; OpAllocate 2 10 None; OpAllocate 1 20 None; OpRelease 1] in
  exists s d, gpu_run ComputeScheduler_new ops = Some s /\ gpu_devices s !! 0%nat = Some d /\
    memory_used_mb d = allocated_on (allocations s) 0 + 60 /\ memory_used_mb d = 70.
Proof.
  intros ops. eexists _, _. split; [vm_compute; reflexivity|]. split; [reflexivity|]. split; [|reflexivity].
  refine (proj1 (gpu_memory_conserved ops _ 0 _ _ _ _)); [|vm_compute; reflexivity|reflexivity].
  repeat (apply Forall_cons; split; [vm_compute; first [discriminate|exact I]|]). apply Forall_nil_2.
Defined.

Lemma gpu_run_safe_witness :
  exists s, gpu_run ComputeScheduler_new [OpAdd "a" Cuda 100; OpAllocate 1 60 None; OpAllocate 1 40 None;
              OpRelease 1; OpRelease 1] = Some s /\
    forall i d, gpu_devices s !! i = Some d ->
      allocated_on (allocations s) i <= memory_used_mb d <= memory_total_mb (ds_device d).
Proof.
  apply gpu_run_safe. repeat (apply Forall_cons; split; [vm_compute; first [discriminate|exact I]|]).
  apply Forall_nil_2.
Defined.

Lemma allocate_best_fit_witness :
  exists d, gpu_devices two_gpus !! 1%nat = Some d /\ 50 <= ds_available d.
Proof.
  destruct (proj2 (allocate_best_fit two_gpus 7 50 None two_gpus_wf)
    (mkComputeAllocation 7 1 50) after_alloc) as (d & Hd & _ & Hm & _); [vm_compute; reflexivity|].
  exists d. exact (conj Hd Hm).
Defined.

Lemma allocate_release_roundtrip_witness : release after_alloc 7 = Some (true, two_gpus).
Proof.
  apply (allocate_release_roundtrip two_gpus 7 50 None (mkComputeAllocation 7 1 50));
    [apply two_gpus_wf|reflexivity|vm_compute; reflexivity].
Defined.

Lemma double_allocation_leaks_witness :
  exists s1 s2, allocate after_alloc 7 30 None = Some (Some (mkComputeAllocation 7 1 30), s1) /\
    release s1 7 = Some (true, s2) /\ allocations s2 !! 7 = None /\
    exists d, gpu_devices s2 !! 1%nat = Some d /\ memory_used_mb d = allocated_on (allocations s2) 1 + 50.
Proof.
  eexists _, _. split; [vm_compute; reflexivity|]. split; [vm_compute; reflexivity|].
  eapply (double_allocation_leaks after_alloc 7 30 None (mkComputeAllocation 7 1 50)
    (mkComputeAllocation 7 1 30)).
  - apply after_alloc_wf.
  - apply after_alloc_no_leak.
  - vm_compute; reflexivity.
  - vm_compute; reflexivity.
  - vm_compute; reflexivity.
  - vm_compute; reflexivity.
Defined.
