(* ===== verification/Registry.v ===== *)
(** * Node registry (fleet/registry.rs)

    Heartbeats and the time-to-live sweep. The clock readings ([Instant::now],
    [Utc::now]) and fresh node ids are arguments. *)

From S2P Require Import Prelude.
From S2P Require Import F64.
From S2P Require Import Resource.
From stdpp Require Import base gmap fin_maps strings numbers list.

Local Open Scope N_scope.

Abbreviation NodeId := string (only parsing).

Inductive NodeStatus := Online | Suspect | Offline | Draining.
#[export] Instance NodeStatus_eq_dec : EqDecision NodeStatus.
Proof. solve_decision. Defined.

Record NodeInfo := mkNodeInfo {
  node_id : NodeId;
  hostname : string;
  address : string;
  node_status : NodeStatus;
  gpu_count : N;
  gpu_vram_mb : N;
  capabilities : list string;
  node_hardware : HardwareInventory;
  last_heartbeat : Z;                 (* UTC *)
  registered_at : Instant;
  last_heartbeat_instant : Instant;
}.

Definition NodeInfo_new (id : string) (gpus vram : N) (now : Instant) (utc : Z) : NodeInfo :=
  mkNodeInfo id id "" Online gpus vram [] HardwareInventory_default utc now now.

Definition set_node_status (st : NodeStatus) (n : NodeInfo) : NodeInfo :=
  mkNodeInfo (node_id n) (hostname n) (address n) st (gpu_count n) (gpu_vram_mb n) (capabilities n)
    (node_hardware n) (last_heartbeat n) (registered_at n) (last_heartbeat_instant n).
Definition with_node_hardware (n : NodeInfo) (hw : HardwareInventory) : NodeInfo :=
  mkNodeInfo (node_id n) (hostname n) (address n) (node_status n) (gpu_count n) (gpu_vram_mb n)
    (capabilities n) hw (last_heartbeat n) (registered_at n) (last_heartbeat_instant n).
Definition with_node_capabilities (n : NodeInfo) (caps : list string) : NodeInfo :=
  mkNodeInfo (node_id n) (hostname n) (address n) (node_status n) (gpu_count n) (gpu_vram_mb n)
    caps (node_hardware n) (last_heartbeat n) (registered_at n) (last_heartbeat_instant n).
Definition satisfies_hardware (n : NodeInfo) (req : HardwareRequirement) : bool :=
  satisfies (node_hardware n) req.
Definition has_gpu (n : NodeInfo) : bool := 0 <? gpu_count n.

Record NodeRegistry := mkNodeRegistry {
  nodes : gmap NodeId NodeInfo;
  heartbeat_ttl : Duration;
  offline_ttl : Duration;
}.

Definition with_ttl (hb off : Duration) : NodeRegistry := mkNodeRegistry ∅ hb off.
Definition NodeRegistry_new : NodeRegistry := with_ttl (from_secs 30) (from_secs 90).

Definition set_nodes (r : NodeRegistry) (m : gmap NodeId NodeInfo) : NodeRegistry :=
  mkNodeRegistry m (heartbeat_ttl r) (offline_ttl r).

(** [u32::try_from(n).unwrap_or(u32::MAX)] *)
Definition to_u32_saturating (n : N) : N := if n <=? u32_max then n else u32_max.

Definition register (r : NodeRegistry) (fresh : NodeId) (now : Instant) (utc : Z)
    (host addr : string) (gpus vram : N) (caps : list string) : NodeId * NodeRegistry :=
  let info := mkNodeInfo fresh host addr Online (to_u32_saturating gpus) vram caps
                HardwareInventory_default utc now now in
  (fresh, set_nodes r (<[fresh := info]> (nodes r))).

Definition touch (now : Instant) (utc : Z) (n : NodeInfo) : NodeInfo :=
  mkNodeInfo (node_id n) (hostname n) (address n) Online (gpu_count n) (gpu_vram_mb n)
    (capabilities n) (node_hardware n) utc (registered_at n) now.

Definition heartbeat (r : NodeRegistry) (now : Instant) (utc : Z) (id : NodeId) : bool * NodeRegistry :=
  match nodes r !! id with
  | Some n => (true, set_nodes r (<[id := touch now utc n]> (nodes r)))
  | None => (false, r)
  end.

Definition unregister (r : NodeRegistry) (id : NodeId) : bool * NodeRegistry :=
  (match nodes r !! id with Some _ => true | None => false end, set_nodes r (delete id (nodes r))).

Definition get (r : NodeRegistry) (id : NodeId) : option NodeInfo := nodes r !! id.

Definition sweep_node (r : NodeRegistry) (now : Instant) (n : NodeInfo) : NodeInfo :=
  let elapsed := duration_since now (last_heartbeat_instant n) in
  if offline_ttl r <=? elapsed then set_node_status Offline n
  else if heartbeat_ttl r <=? elapsed then set_node_status Suspect n
  else n.

Definition update_statuses (r : NodeRegistry) (now : Instant) : NodeRegistry :=
  set_nodes r (sweep_node r now <$> nodes r).

Definition is_online (n : NodeInfo) : bool := bool_decide (node_status n = Online).

Section queries.
Context `{!HashIter NodeId NodeInfo}.

Definition list_nodes (r : NodeRegistry) : list NodeInfo := hash_values (nodes r).
Definition list_online (r : NodeRegistry) : list NodeInfo := List.filter is_online (hash_values (nodes r)).
Definition count (r : NodeRegistry) : nat := size (nodes r).
Definition count_online (r : NodeRegistry) : nat := length (list_online r).
Definition find_by_capability (r : NodeRegistry) (cap : string) : list NodeInfo :=
  List.filter (fun n => is_online n && existsb (fun c => bool_decide (c = cap)) (capabilities n))
    (hash_values (nodes r)).
End queries.

(** ** Theorems *)

Section theorems.
Context `{!HashIter NodeId NodeInfo}.

Lemma sweep_online r now n :
  node_status (sweep_node r now n) = Online ->
  sweep_node r now n = n /\ duration_since now (last_heartbeat_instant n) < heartbeat_ttl r /\
  duration_since now (last_heartbeat_instant n) < offline_ttl r.
Proof.
  unfold sweep_node. destruct (N.leb_spec (offline_ttl r) (duration_since now (last_heartbeat_instant n)));
    [done|].
  by destruct (N.leb_spec (heartbeat_ttl r) (duration_since now (last_heartbeat_instant n))).
Qed.

Lemma sweep_fresh r now n :
  duration_since now (last_heartbeat_instant n) < heartbeat_ttl r ->
  duration_since now (last_heartbeat_instant n) < offline_ttl r -> sweep_node r now n = n.
Proof.
  intros H1 H2. unfold sweep_node.
  destruct (N.leb_spec (offline_ttl r) (duration_since now (last_heartbeat_instant n))); [lia|].
  by destruct (N.leb_spec (heartbeat_ttl r) (duration_since now (last_heartbeat_instant n))); [lia|].
Qed.

(** After a sweep, the online nodes are exactly the nodes that were
    online and whose last heartbeat is younger than both limits; stale nodes
    never appear online, whatever order the map is swept in. *)
Theorem online_nodes_are_fresh r now n :
  n ∈ list_online (update_statuses r now) <->
  (exists id, nodes r !! id = Some n) /\ node_status n = Online /\
  duration_since now (last_heartbeat_instant n) < heartbeat_ttl r /\
  duration_since now (last_heartbeat_instant n) < offline_ttl r.
Proof.
  unfold list_online. rewrite elem_of_List_filter, elem_of_hash_values. unfold update_statuses. simpl.
  setoid_rewrite lookup_fmap. unfold is_online. rewrite bool_decide_eq_true. split.
  - intros [[id Hid] Ho]. destruct (nodes r !! id) as [n0|] eqn:E; [|done]. injection Hid as <-.
    destruct (sweep_online r now n0 Ho) as (-> & H1 & H2).
    rewrite (sweep_fresh r now n0 H1 H2) in Ho. eauto.
  - intros ([id Hid] & Ho & H1 & H2). split; [|done]. exists id. rewrite Hid. simpl.
    by rewrite sweep_fresh.
Qed.

(** A heartbeat makes a known node survive every sweep until a limit
    elapses, and says nothing about unknown nodes. *)
Theorem heartbeat_keeps_online r id n t utc now :
  nodes r !! id = Some n ->
  duration_since now t < heartbeat_ttl r -> duration_since now t < offline_ttl r ->
  exists r', heartbeat r t utc id = (true, r') /\
    touch t utc n ∈ list_online (update_statuses r' now).
Proof.
  intros Hid H1 H2. unfold heartbeat. rewrite Hid. eexists. split; [done|].
  unfold list_online. rewrite elem_of_List_filter, elem_of_hash_values. split; [|done].
  exists id. unfold update_statuses. simpl. rewrite lookup_fmap, lookup_insert_eq. simpl.
  by rewrite sweep_fresh.
Qed.
End theorems.

(** Sweeping twice at the same time changes nothing more. *)
Lemma update_statuses_idempotent r now :
  update_statuses (update_statuses r now) now = update_statuses r now.
Proof.
  unfold update_statuses, set_nodes. simpl. f_equal. rewrite <-map_fmap_compose.
  apply map_fmap_ext. intros id n _. simpl. unfold sweep_node at 1. simpl.
  unfold sweep_node.
  destruct (offline_ttl r <=? duration_since now (last_heartbeat_instant n)) eqn:E1; simpl; [by rewrite E1|].
  destruct (heartbeat_ttl r <=? duration_since now (last_heartbeat_instant n)) eqn:E2; simpl;
    [by rewrite E1, E2|by rewrite E1, E2].
Qed.

#[local] Instance node_iter : HashIter string NodeInfo := canonical_iter.

Lemma heartbeat_keeps_online_witness :
  exists r', heartbeat (mkNodeRegistry {["n1" := NodeInfo_new "n1" 0 0 0 0]} (from_secs 30) (from_secs 90))
      (from_secs 100) 0 "n1" = (true, r') /\
    touch (from_secs 100) 0 (NodeInfo_new "n1" 0 0 0 0)
      ∈ list_online (update_statuses r' (from_secs 120)).
Proof.
  apply (heartbeat_keeps_online (mkNodeRegistry {["n1" := NodeInfo_new "n1" 0 0 0 0]} (from_secs 30) (from_secs 90))
    "n1" (NodeInfo_new "n1" 0 0 0 0)); vm_compute; reflexivity.
Defined.
