(* ===== verification/Placement.v ===== *)
(** * Placement (fleet/placement.rs)

    Scoring and ranking of nodes under the five policies, in doubles. *)

From S2P Require Import Prelude.
From S2P Require Import F64.
From S2P Require Import Resource.
From S2P Require Import Registry.
From stdpp Require Import base gmap strings numbers list.

Inductive PlacementPolicy := GpuAffinity | Balanced | Locality | Cost | Manual.

Record PlacementRequest := mkPlacementRequest {
  policy : PlacementPolicy;
  required_gpu : bool;
  min_gpu_vram_mb : N;
  required_capabilities : list string;
  preferred_node : option NodeId;
  req_hardware : option HardwareRequirement;
}.

Definition PlacementRequest_new (p : PlacementPolicy) : PlacementRequest :=
  mkPlacementRequest p false 0 [] None None.
Definition with_required_gpu (r : PlacementRequest) (b : bool) : PlacementRequest :=
  mkPlacementRequest (policy r) b (min_gpu_vram_mb r) (required_capabilities r) (preferred_node r) (req_hardware r).
Definition with_min_gpu_vram_mb (r : PlacementRequest) (mb : N) : PlacementRequest :=
  mkPlacementRequest (policy r) (required_gpu r) mb (required_capabilities r) (preferred_node r) (req_hardware r).
Definition with_capabilities (r : PlacementRequest) (caps : list string) : PlacementRequest :=
  mkPlacementRequest (policy r) (required_gpu r) (min_gpu_vram_mb r) caps (preferred_node r) (req_hardware r).
Definition with_preferred_node (r : PlacementRequest) (id : NodeId) : PlacementRequest :=
  mkPlacementRequest (policy r) (required_gpu r) (min_gpu_vram_mb r) (required_capabilities r) (Some id) (req_hardware r).
Definition with_hardware (r : PlacementRequest) (hw : HardwareRequirement) : PlacementRequest :=
  mkPlacementRequest (policy r) (required_gpu r) (min_gpu_vram_mb r) (required_capabilities r) (preferred_node r) (Some hw).

Record PlacementResult := mkPlacementResult { placed_node : NodeId; placed_score : f64 }.

(** The early returns of [score_node]: [false] scores 0.0. *)
Definition qualifies (r : PlacementRequest) (n : NodeInfo) : bool :=
  if negb (is_online n) then false
  else match req_hardware r with
       | Some hw => satisfies_hardware n hw
       | None =>
           if required_gpu r && negb (has_gpu n) then false
           else negb ((0 <? min_gpu_vram_mb r)%N && (gpu_vram_mb n <? min_gpu_vram_mb r)%N)
       end.

Definition policy_score (r : PlacementRequest) (n : NodeInfo) (index count : nat) : f64 :=
  match policy r with
  | GpuAffinity =>
      if negb (has_gpu n) then f64_zero
      else f64_min (f64_div (f64_of_N (gpu_vram_mb n)) (f64_of_N 1000000)) f64_one
  | Balanced =>
      if (count <=? 1)%nat then f64_one
      else f64_sub f64_one (f64_div (f64_of_nat index) (f64_of_nat count))
  | Locality =>
      match required_capabilities r with
      | [] => f64_one
      | caps =>
          let matched := length (List.filter (fun c => bool_decide (c ∈ capabilities n)) caps) in
          f64_div (f64_of_nat matched) (f64_of_nat (length caps))
      end
  | Cost =>
      let resource_weight := f64_add (f64_of_N (gpu_count n)) (f64_of_N (gpu_vram_mb n)) in
      f64_div f64_one (f64_add f64_one resource_weight)
  | Manual =>
      match preferred_node r with
      | Some p => if bool_decide (p = node_id n) then f64_one else f64_zero
      | None => f64_zero
      end
  end.

Definition score_node (r : PlacementRequest) (n : NodeInfo) (index count : nat) : f64 :=
  if qualifies r n then policy_score r n index count else f64_zero.

Definition by_placement (x y : PlacementResult) : bool := cmp_le (placed_score y) (placed_score x).

Definition scored_nodes (r : PlacementRequest) (ns : list NodeInfo) : list PlacementResult :=
  List.filter (fun p => f64_gt (placed_score p) f64_zero)
    (map (fun x => mkPlacementResult (node_id x.2) (score_node r x.2 x.1 (length ns)))
       (enumerate_from 0 ns)).

Definition rank_nodes (r : PlacementRequest) (ns : list NodeInfo) : list PlacementResult :=
  sort_by by_placement (scored_nodes r ns).

Definition place (r : PlacementRequest) (ns : list NodeInfo) : option PlacementResult :=
  head (rank_nodes r ns).

(** ** Theorems *)

(** Sizes that fit the machine. *)
Definition request_fits (r : PlacementRequest) (ns : list NodeInfo) : Prop :=
  (N.of_nat (length ns) <= u64_max)%N /\ (N.of_nat (length (required_capabilities r)) <= u64_max)%N.

Lemma policy_score_not_nan r n i c :
  (N.of_nat c <= u64_max)%N -> (N.of_nat (length (required_capabilities r)) <= u64_max)%N ->
  is_nan (policy_score r n i c) = false.
Proof.
  intros Hc Hr. unfold policy_score. destruct (policy r).
  - destruct (has_gpu n); simpl; [|done]. apply f64_min_not_nan; [|done].
    apply pos_sign_not_nan, f64_div_pos; [apply f64_of_N_pos|reflexivity].
  - destruct (Nat.leb_spec c 1); [done|]. apply f64_sub_not_nan; [reflexivity|].
    apply pos_sign_not_nan, f64_ratio_pos; lia.
  - destruct (required_capabilities r) as [|c0 caps]; [done|].
    apply pos_sign_not_nan, f64_ratio_pos; [simpl; lia|done].
  - apply pos_sign_not_nan, f64_div_finite_pos; [reflexivity|].
    repeat apply f64_add_pos; try apply f64_of_N_pos. reflexivity.
  - by repeat case_match.
Qed.

Lemma zero_not_chosen : f64_gt f64_zero f64_zero = false.
Proof. reflexivity. Qed.

Lemma scored_nodes_elem r ns p :
  p ∈ scored_nodes r ns ->
  exists i n, ns !! i = Some n /\ placed_node p = node_id n /\ qualifies r n = true /\
    placed_score p = policy_score r n i (length ns) /\ f64_gt (placed_score p) f64_zero = true.
Proof.
  unfold scored_nodes. intros [Hin Hgt]%elem_of_List_filter.
  apply list_elem_of_fmap in Hin as ([i n] & -> & Hin).
  apply enumerate_from_lookup in Hin as [_ Hi]. rewrite Nat.sub_0_r in Hi. simpl in *.
  unfold score_node in *. destruct (qualifies r n) eqn:Hq; [|by rewrite zero_not_chosen in Hgt].
  exists i, n. done.
Qed.

(** A chosen node is one of the scored ones. *)
Lemma place_elem r ns p : place r ns = Some p -> p ∈ scored_nodes r ns.
Proof.
  unfold place, rank_nodes. intros Hp. apply (elem_of_sort_by by_placement).
  destruct (sort_by _ _); simplify_eq/=. left.
Qed.

Lemma scored_nodes_not_nan r ns :
  request_fits r ns -> Forall (fun p => is_nan (placed_score p) = false) (scored_nodes r ns).
Proof.
  intros [Hn Hc]. apply Forall_forall. intros p (i & n & _ & _ & _ & -> & _)%scored_nodes_elem.
  by apply policy_score_not_nan.
Qed.

Lemma by_placement_total x y :
  is_nan (placed_score x) = false -> is_nan (placed_score y) = false ->
  by_placement x y = true \/ by_placement y x = true.
Proof. intros. by apply cmp_le_total. Qed.

Lemma by_placement_trans x y z :
  is_nan (placed_score x) = false -> is_nan (placed_score y) = false -> is_nan (placed_score z) = false ->
  by_placement x y = true -> by_placement y z = true -> by_placement x z = true.
Proof. unfold by_placement. intros. by apply (cmp_le_trans _ (placed_score y)). Qed.

(** [place] only ever chooses a node that is online and meets the request
    (the hardware requirement, or the GPU and VRAM limits when there is none),
    with a positive score that no other candidate beats; it returns nothing
    exactly when no node has a positive score. *)
Theorem place_correct r ns :
  request_fits r ns ->
  (place r ns = None <-> scored_nodes r ns = []) /\
  (forall p, place r ns = Some p ->
     (exists i n, ns !! i = Some n /\ placed_node p = node_id n /\ node_status n = Online /\
        qualifies r n = true /\ placed_score p = policy_score r n i (length ns)) /\
     f64_gt (placed_score p) f64_zero = true /\
     forall q, q ∈ scored_nodes r ns -> cmp_le (placed_score q) (placed_score p) = true).
Proof.
  intros Hf. unfold place, rank_nodes. split.
  - pose proof (length_sort_by by_placement (scored_nodes r ns)) as Hl.
    destruct (sort_by _ _) as [|x l]; simpl in *; [|split; [done|intros Hnil; by rewrite Hnil in Hl]].
    split; [|done]. intros _. by destruct (scored_nodes r ns).
  - intros p Hp. pose proof (sort_by_head_least by_placement _ _ _ by_placement_total by_placement_trans
      (scored_nodes_not_nan r ns Hf) Hp) as Hle.
    pose proof (place_elem r ns p Hp) as Hin.
    destruct (scored_nodes_elem r ns p Hin) as (i & n & Hi & Hid & Hq & Hs & Hgt).
    split_and!; [|done|done]. exists i, n. split_and!; try done.
    unfold qualifies in Hq. destruct (is_online n) eqn:Ho; [|done]. by apply bool_decide_eq_true in Ho.
Qed.

(** Under the manual policy only the preferred node can be chosen. *)
Theorem place_manual r ns p :
  request_fits r ns -> policy r = Manual -> place r ns = Some p ->
  preferred_node r = Some (placed_node p).
Proof.
  intros Hf Hm Hp%place_elem. rename Hp into Hin.
  destruct (scored_nodes_elem r ns p Hin) as (i & n & _ & Hid & _ & Hs & Hgt).
  rewrite Hs in Hgt. unfold policy_score in Hgt. rewrite Hm in Hgt.
  destruct (preferred_node r) as [pn|]; [|vm_compute in Hgt; done].
  case_bool_decide as Heq; [by subst pn; rewrite Hid|vm_compute in Hgt; done].
Qed.

(** ** Concrete instances *)

Definition small_node : NodeInfo := NodeInfo_new "small" 1 8000 0 0.
Definition big_node : NodeInfo := NodeInfo_new "big" 4 80000 0 0.

Lemma place_correct_witness :
  exists i n, [small_node; big_node] !! i = Some n /\ node_id n = "big"%string /\ node_status n = Online.
Proof.
  destruct (proj2 (place_correct (PlacementRequest_new GpuAffinity) [small_node; big_node]
    ltac:(split; vm_compute; discriminate))
    (mkPlacementResult "big" (f64_div (f64_of_N 80000) (f64_of_N 1000000))))
    as [(i & n & Hi & Hid & Ho & _) _]; [vm_compute; reflexivity|].
  exists i, n. exact (conj Hi (conj (eq_sym Hid) Ho)).
Defined.

Lemma place_manual_witness :
  preferred_node (with_preferred_node (PlacementRequest_new Manual) "small") = Some "small"%string.
Proof.
  apply (place_manual (with_preferred_node (PlacementRequest_new Manual) "small") [small_node; big_node]
    (mkPlacementResult "small" f64_one)); [split; vm_compute; discriminate|reflexivity|vm_compute; reflexivity].
Defined.
