(* ===== verification/FleetState.v ===== *)
(** * Distributed crew state (fleet/state.rs)

    Runs, progress reports, barriers and checkpoints. Clock readings and fresh
    run ids are arguments. *)

From S2P Require Import Prelude.
From S2P Require Import F64.
From S2P Require Import Resource.
From S2P Require Import Core.
From stdpp Require Import base gmap fin_maps fin_sets strings numbers list.

Abbreviation NodeId := string (only parsing).

Inductive CrewPhase :=
| Initializing
| PhRunning
| WaitingBarrier (name : string)
| Checkpointing
| PhCompleted
| PhFailed (reason : string)
| PhCancelled.

#[export] Instance CrewPhase_eq_dec : EqDecision CrewPhase.
Proof. solve_decision. Defined.

Record NodeProgress := mkNodeProgress {
  np_node_id : NodeId;
  tasks_completed : N;
  tasks_total : N;
  current_task : option string;
  last_update : Z;
}.

Record Checkpoint := mkCheckpoint {
  ck_name : string;
  ck_created_at : Z;
  node_states : gmap NodeId Value;
}.

Record DistributedCrewState := mkDistributedCrewState {
  run_id : Uuid;
  phase : CrewPhase;
  is_checkpointing : bool;
  participating_nodes : gset NodeId;
  node_progress : gmap NodeId NodeProgress;
  checkpoints : list Checkpoint;
  created_at : Z;
  updated_at : Z;
}.

Inductive BarrierResult := Waiting (n : nat) | AllReached | UnknownRun | UnknownNode.

Record CrewStateManager := mkCrewStateManager {
  states : gmap Uuid DistributedCrewState;
  barriers : gmap Uuid (gmap string (gset NodeId));
}.

Definition CrewStateManager_new : CrewStateManager := mkCrewStateManager ∅ ∅.
Definition MAX_RETAINED_RUNS : nat := 1000.

Definition is_terminal (p : CrewPhase) : bool :=
  match p with PhCompleted | PhFailed _ | PhCancelled => true | _ => false end.

Definition set_phase (p : CrewPhase) (now : Z) (s : DistributedCrewState) : DistributedCrewState :=
  mkDistributedCrewState (run_id s) p (is_checkpointing s) (participating_nodes s) (node_progress s)
    (checkpoints s) (created_at s) now.

Definition put_state (m : CrewStateManager) (id : Uuid) (s : DistributedCrewState) : CrewStateManager :=
  mkCrewStateManager (<[id := s]> (states m)) (barriers m).

Section manager.
Context `{!HashIter Uuid DistributedCrewState} `{!HashIter string (gset NodeId)}
        `{!HashIter NodeId NodeProgress}.

Definition evict_if_needed (m : CrewStateManager) : CrewStateManager :=
  if (MAX_RETAINED_RUNS <=? size (states m))%nat then
    let to_remove := map fst (List.filter (fun ks => is_terminal (phase ks.2)) (hash_iter (states m))) in
    foldl (fun m id => mkCrewStateManager (delete id (states m)) (delete id (barriers m))) m to_remove
  else m.

Definition create_run (m : CrewStateManager) (fresh : Uuid) (now : Z) (nodes : gset NodeId)
    (tasks_per_node : N) : Uuid * CrewStateManager :=
  let m := evict_if_needed m in
  let progress := set_to_map (fun id => (id, mkNodeProgress id 0 tasks_per_node None now)) nodes in
  let st := mkDistributedCrewState fresh Initializing false nodes progress [] now now in
  (fresh, put_state m fresh st).

Definition get_run (m : CrewStateManager) (id : Uuid) : option DistributedCrewState := states m !! id.

Definition start_if_initializing (p : CrewPhase) : CrewPhase :=
  match p with Initializing => PhRunning | _ => p end.

Definition report_progress (m : CrewStateManager) (now : Z) (id : Uuid) (node : NodeId)
    (completed : N) (current : option string) : bool * CrewStateManager :=
  match states m !! id with
  | None => (false, m)
  | Some s =>
      match node_progress s !! node with
      | None => (false, m)
      | Some p =>
          let p' := mkNodeProgress (np_node_id p) completed (tasks_total p) current now in
          (true, put_state m id
             (mkDistributedCrewState (run_id s) (start_if_initializing (phase s)) (is_checkpointing s)
                (participating_nodes s) (<[node := p']> (node_progress s)) (checkpoints s)
                (created_at s) now))
      end
  end.

(** The nodes recorded at a barrier. *)
Definition arrived (m : CrewStateManager) (id : Uuid) (barrier : string) : gset NodeId :=
  default ∅ (default ∅ (barriers m !! id) !! barrier).

Definition reach_barrier (m : CrewStateManager) (now : Z) (id : Uuid) (node : NodeId) (barrier : string)
    : BarrierResult * CrewStateManager :=
  match states m !! id with
  | None => (UnknownRun, m)
  | Some s =>
      if bool_decide (node ∈ participating_nodes s) then
        let arrived' := {[node]} ∪ arrived m id barrier in
        let barriers' := <[id := <[barrier := arrived']> (default ∅ (barriers m !! id))]> (barriers m) in
        let total := size (participating_nodes s) in
        let reached := size arrived' in
        if (total <=? reached)%nat then
          (AllReached, mkCrewStateManager (<[id := set_phase PhRunning now s]> (states m)) barriers')
        else
          (Waiting (total - reached),
           mkCrewStateManager (<[id := set_phase (WaitingBarrier barrier) now s]> (states m)) barriers')
      else (UnknownNode, m)
  end.

Definition force_barrier (m : CrewStateManager) (now : Z) (id : Uuid) (barrier : string)
    : bool * CrewStateManager :=
  match states m !! id with
  | None => (false, m)
  | Some s =>
      let barriers' := match barriers m !! id with
                       | Some rb => <[id := delete barrier rb]> (barriers m)
                       | None => barriers m
                       end in
      (true, mkCrewStateManager (<[id := set_phase PhRunning now s]> (states m)) barriers')
  end.

Definition remove_node (m : CrewStateManager) (now : Z) (id : Uuid) (node : NodeId)
    : bool * CrewStateManager :=
  match states m !! id with
  | None => (false, m)
  | Some s =>
      let nodes' := participating_nodes s ∖ {[node]} in
      let s1 := mkDistributedCrewState (run_id s) (phase s) (is_checkpointing s) nodes'
                  (delete node (node_progress s)) (checkpoints s) (created_at s) now in
      match barriers m !! id with
      | None => (true, mkCrewStateManager (<[id := s1]> (states m)) (barriers m))
      | Some rb =>
          let satisfied := map fst (List.filter (fun ba => bool_decide (nodes' ⊆ ba.2)) (hash_iter rb)) in
          let rb' := foldl (fun rb b => delete b rb) rb satisfied in
          let ph := foldl (fun p b => if bool_decide (p = WaitingBarrier b) then PhRunning else p)
                      (phase s) satisfied in
          let s2 := mkDistributedCrewState (run_id s) ph (is_checkpointing s) nodes'
                      (delete node (node_progress s)) (checkpoints s) (created_at s) now in
          (true, mkCrewStateManager (<[id := s2]> (states m)) (<[id := rb']> (barriers m)))
      end
  end.

Definition checkpoint (m : CrewStateManager) (now : Z) (id : Uuid) (name : string)
    (ns : gmap NodeId Value) : bool * CrewStateManager :=
  match states m !! id with
  | None => (false, m)
  | Some s =>
      (true, put_state m id
         (mkDistributedCrewState (run_id s) (start_if_initializing (phase s)) false (participating_nodes s)
            (node_progress s) (checkpoints s ++ [mkCheckpoint name now ns]) (created_at s) now))
  end.

Definition finish (p : CrewPhase) (m : CrewStateManager) (now : Z) (id : Uuid) : bool * CrewStateManager :=
  match states m !! id with
  | None => (false, m)
  | Some s => (true, put_state m id (set_phase p now s))
  end.
Definition complete := finish PhCompleted.
Definition fail (m : CrewStateManager) (now : Z) (id : Uuid) (reason : string) := finish (PhFailed reason) m now id.
Definition cancel := finish PhCancelled.

Definition active_runs (m : CrewStateManager) : list Uuid :=
  map run_id (List.filter (fun s => negb (is_terminal (phase s))) (hash_values (states m))).

(** [None] is the overflow of a counter; [Some None] an unknown run. *)
Definition overall_progress (m : CrewStateManager) (id : Uuid) : option (option f64) :=
  match states m !! id with
  | None => Some None
  | Some s =>
      let ps := hash_values (node_progress s) in
      match u64_sum (map tasks_completed ps), u64_sum (map tasks_total ps) with
      | Some completed, Some total =>
          if (total =? 0)%N then Some (Some f64_one)
          else Some (Some (f64_div (f64_of_N completed) (f64_of_N total)))
      | _, _ => None
      end
  end.
End manager.

(** ** Theorems *)

(** The operations as steps of a state machine; [removal] says whether nodes may
    be taken out of a run. *)
Inductive fleet_step `{!HashIter Uuid DistributedCrewState} `{!HashIter string (gset NodeId)}
    (removal : bool) : CrewStateManager -> CrewStateManager -> Prop :=
| st_create m fresh now ns k : states m !! fresh = None ->
    fleet_step removal m (create_run m fresh now ns k).2
| st_report m now id node c cur : fleet_step removal m (report_progress m now id node c cur).2
| st_reach m now id node b : fleet_step removal m (reach_barrier m now id node b).2
| st_force m now id b : fleet_step removal m (force_barrier m now id b).2
| st_remove m now id node : removal = true -> fleet_step removal m (remove_node m now id node).2
| st_checkpoint m now id name ns : fleet_step removal m (checkpoint m now id name ns).2
| st_finish p m now id : is_terminal p = true -> fleet_step removal m (finish p m now id).2.

Section theorems.
Context `{!HashIter Uuid DistributedCrewState} `{!HashIter string (gset NodeId)}
        `{!HashIter NodeId NodeProgress}.
Implicit Types m : CrewStateManager.

Inductive fleet_reachable (removal : bool) : CrewStateManager -> Prop :=
| fr_new : fleet_reachable removal CrewStateManager_new
| fr_step m m' : fleet_reachable removal m -> fleet_step removal m m' -> fleet_reachable removal m'.

(** Only participants are recorded at barriers, and only known runs have any. *)
Record arrivals_ok m : Prop := {
  ao_sub : forall id s b, states m !! id = Some s -> arrived m id b ⊆ participating_nodes s;
  ao_dom : forall id, states m !! id = None -> barriers m !! id = None;
}.

(** An operation that keeps the barriers and the participants of every run. *)
Lemma arrivals_ok_put m id s s' :
  arrivals_ok m -> states m !! id = Some s -> participating_nodes s' = participating_nodes s ->
  arrivals_ok (put_state m id s').
Proof.
  intros [H1 H2] Hs Hp. split; simpl.
  - intros id' t b Ht. apply lookup_insert_Some in Ht as [[<- <-]|[_ Ht]]; [|by apply H1].
    rewrite Hp. by apply H1.
  - intros id'. rewrite lookup_insert_None. intros [? _]. by apply H2.
Qed.

Lemma arrivals_ok_barriers m id s s' rb :
  arrivals_ok m -> states m !! id = Some s -> participating_nodes s' = participating_nodes s ->
  (forall b, default ∅ (rb !! b) ⊆ participating_nodes s) ->
  arrivals_ok (mkCrewStateManager (<[id := s']> (states m)) (<[id := rb]> (barriers m))).
Proof.
  intros [H1 H2] Hs Hp Hrb. split; simpl.
  - intros id' t b Ht. unfold arrived. simpl.
    apply lookup_insert_Some in Ht as [[<- <-]|[Hne Ht]].
    + rewrite lookup_insert_eq. simpl. rewrite Hp. apply Hrb.
    + rewrite lookup_insert_ne by done. by apply (H1 id').
  - intros id'. rewrite lookup_insert_None. intros [? ?]. rewrite lookup_insert_ne by done. by apply H2.
Qed.

Lemma evict_arrivals m : arrivals_ok m -> arrivals_ok (evict_if_needed m).
Proof.
  unfold evict_if_needed. case_match; [|done].
  generalize (map fst (List.filter (fun ks => is_terminal (phase ks.2)) (hash_iter (states m)))) as ids.
  intros ids. clear H. revert m. induction ids as [|id ids IH]; intros m Hok; simpl; [done|].
  apply IH. destruct Hok as [H1 H2]. split; simpl.
  - intros id' s b Hs. apply lookup_delete_Some in Hs as [Hne Hs]. unfold arrived. simpl.
    rewrite lookup_delete_ne by done. by apply (H1 id').
  - intros id'. rewrite !lookup_delete_None. intros [->|?]; [by left|right; by apply H2].
Qed.

(** Eviction only drops finished runs. *)
Lemma evict_keeps m id s :
  states m !! id = Some s -> is_terminal (phase s) = false ->
  states (evict_if_needed m) !! id = Some s /\ barriers (evict_if_needed m) !! id = barriers m !! id.
Proof.
  intros Hs Hp. unfold evict_if_needed. case_match; [|done].
  assert (id ∉ map fst (List.filter (fun ks => is_terminal (phase ks.2)) (hash_iter (states m)))) as Hni.
  { intros ([id' s'] & -> & Hin)%list_elem_of_fmap. apply elem_of_List_filter in Hin as [Hin Ht].
    apply elem_of_hash_iter in Hin. simpl in *. simplify_eq. congruence. }
  revert Hni. generalize (map fst (List.filter (fun ks => is_terminal (phase ks.2)) (hash_iter (states m)))) as ids.
  intros ids. clear H. revert m Hs. induction ids as [|id' ids IH]; intros m Hs Hni; simpl; [done|].
  apply not_elem_of_cons in Hni as [Hne Hni].
  destruct (IH (mkCrewStateManager (delete id' (states m)) (delete id' (barriers m)))) as [-> ->];
    [simpl; by rewrite lookup_delete_ne|done|]. simpl. by rewrite lookup_delete_ne.
Qed.

Lemma evict_None m id : states m !! id = None -> states (evict_if_needed m) !! id = None.
Proof.
  unfold evict_if_needed. case_match; [|done].
  generalize (map fst (List.filter (fun ks => is_terminal (phase ks.2)) (hash_iter (states m)))) as ids.
  intros ids. clear H. revert m. induction ids as [|id' ids IH]; intros m Hs; simpl; [done|].
  apply IH. simpl. rewrite lookup_delete_None. by right.
Qed.

Lemma create_arrivals m fresh now ns k :
  arrivals_ok m -> states m !! fresh = None -> arrivals_ok (create_run m fresh now ns k).2.
Proof.
  intros Hok Hf. pose proof (evict_None m fresh Hf) as Hf'. destruct (evict_arrivals m Hok) as [H1 H2].
  split; simpl.
  - intros id s b Hs. apply lookup_insert_Some in Hs as [[<- <-]|[_ Hs]]; [|by apply (H1 id)].
    unfold arrived. simpl. rewrite (H2 fresh) by done. simpl. rewrite lookup_empty. set_solver.
  - intros id. rewrite lookup_insert_None. intros [? _]. by apply H2.
Qed.

Lemma reach_arrivals m now id node b : arrivals_ok m -> arrivals_ok (reach_barrier m now id node b).2.
Proof.
  intros Hok. unfold reach_barrier. destruct (states m !! id) as [s|] eqn:Hs; [|done].
  case_bool_decide as Hn; [|done]. pose proof Hok as [H1 _].
  assert (forall b', default ∅ (<[b := {[node]} ∪ arrived m id b]> (default ∅ (barriers m !! id)) !! b')
            ⊆ participating_nodes s) as Hsub.
  { intros b'. destruct (decide (b = b')) as [->|Hne].
    - rewrite lookup_insert_eq. simpl. specialize (H1 id s b' Hs). set_solver.
    - rewrite lookup_insert_ne by done. apply (H1 id s b' Hs). }
  case_match; simpl; by eapply arrivals_ok_barriers.
Qed.

Lemma fleet_reachable_arrivals m : fleet_reachable false m -> arrivals_ok m.
Proof.
  induction 1 as [|m m' _ IH Hst].
  { split; simpl; [|done]. intros id s b. by rewrite lookup_empty. }
  destruct Hst as [m fresh now ns k Hf|m now id node c cur|m now id node b|m now id b|
                   m now id node Hr|m now id name ns|p m now id Hp].
  - by apply create_arrivals.
  - unfold report_progress. destruct (states m !! id) as [s|] eqn:Hs; [|done].
    destruct (node_progress s !! node); [|done]. by eapply arrivals_ok_put.
  - by apply reach_arrivals.
  - unfold force_barrier. destruct (states m !! id) as [s|] eqn:Hs; [|done]. simpl.
    destruct (barriers m !! id) as [rb|] eqn:Hb; [|by eapply (arrivals_ok_put m id s)].
    eapply arrivals_ok_barriers; [done|done|done|]. intros b'.
    pose proof (ao_sub _ IH id s b' Hs) as Hsub. unfold arrived in Hsub. rewrite Hb in Hsub. simpl in Hsub.
    destruct (decide (b = b')) as [->|]; [rewrite lookup_delete_eq; set_solver|by rewrite lookup_delete_ne].
  - done.
  - unfold checkpoint. destruct (states m !! id) as [s|] eqn:Hs; [|done]. by eapply arrivals_ok_put.
  - unfold finish. destruct (states m !! id) as [s|] eqn:Hs; [|done]. by eapply arrivals_ok_put.
Qed.

Lemma reach_barrier_counts m now id s node b :
  arrivals_ok m -> states m !! id = Some s -> node ∈ participating_nodes s ->
  let here := {[node]} ∪ arrived m id b in
  (here = participating_nodes s /\ (reach_barrier m now id node b).1 = AllReached) \/
  (exists k, (reach_barrier m now id node b).1 = Waiting k /\
     k = size (participating_nodes s ∖ here) /\ 0 < k).
Proof.
  intros [H1 _] Hs Hn here. unfold reach_barrier. rewrite Hs, bool_decide_eq_true_2 by done.
  fold here. assert (here ⊆ participating_nodes s) as Hsub by (specialize (H1 id s b Hs); set_solver).
  pose proof (size_difference (participating_nodes s) here) as Hd.
  destruct (Nat.leb_spec (size (participating_nodes s)) (size here)) as [Hle|Hlt]; simpl.
  - left. split; [|done]. apply leibniz_equiv. by apply set_subseteq_size_equiv.
  - right. eexists. split; [done|]. rewrite Hd by done. lia.
Qed.

(** In a run from which no node was removed, [reach_barrier] answers
    [AllReached] exactly when every participant has arrived, and otherwise
    [Waiting] with the exact number of participants that are missing. *)
Theorem reach_barrier_correct m now id s node b :
  fleet_reachable false m -> states m !! id = Some s -> node ∈ participating_nodes s ->
  let here := {[node]} ∪ arrived m id b in
  ((reach_barrier m now id node b).1 = AllReached <-> here = participating_nodes s) /\
  (here <> participating_nodes s ->
     (reach_barrier m now id node b).1 = Waiting (size (participating_nodes s ∖ here))).
Proof.
  intros Hr Hs Hn here. apply fleet_reachable_arrivals in Hr.
  destruct (reach_barrier_counts m now id s node b Hr Hs Hn) as [[He Hres]|(k & Hres & Hkk & Hk)];
    rewrite Hres; subst here.
  - by split.
  - rewrite Hkk in Hk |- *. split; [|done]. split; [done|]. intros He. exfalso. rewrite He in Hk.
    rewrite difference_diag_L, size_empty in Hk. lia.
Qed.

(** Creating a run never evicts one that is still in progress, nor its
    barrier records. *)
Theorem create_run_keeps_active m fresh now ns k id s :
  states m !! id = Some s -> is_terminal (phase s) = false -> id <> fresh ->
  states (create_run m fresh now ns k).2 !! id = Some s /\
  forall b, arrived (create_run m fresh now ns k).2 id b = arrived m id b.
Proof.
  intros Hs Hp Hne. destruct (evict_keeps m id s Hs Hp) as [H1 H2]. simpl.
  rewrite lookup_insert_ne by done. split; [done|]. intros b. unfold arrived. simpl. by rewrite H2.
Qed.

(** A barrier call on a finished run sets it running again. *)
Theorem barrier_revives_finished_run m now id s node b :
  states m !! id = Some s -> is_terminal (phase s) = true -> node ∈ participating_nodes s ->
  exists s', states (reach_barrier m now id node b).2 !! id = Some s' /\ is_terminal (phase s') = false.
Proof.
  intros Hs _ Hn. unfold reach_barrier. rewrite Hs, bool_decide_eq_true_2 by done.
  case_match; simpl; rewrite lookup_insert_eq; by eexists.
Qed.
End theorems.

(** ** Concrete instances *)

#[local] Instance run_iter : HashIter Uuid DistributedCrewState := canonical_iter.
#[local] Instance barrier_iter : HashIter string (gset string) := canonical_iter.
#[local] Instance progress_iter : HashIter string NodeProgress := canonical_iter.

Definition abc : gset string := {["a"; "b"; "c"]}%string.
Definition m0 : CrewStateManager := (create_run CrewStateManager_new 1 0 abc 2).2.
Definition m1 : CrewStateManager := (reach_barrier m0 1 1 "a" "sync").2.
Definition m2 : CrewStateManager := (remove_node m1 2 1 "a").2.

Lemma m1_reachable : fleet_reachable false m1.
Proof.
  eapply fr_step; [eapply fr_step; [apply fr_new|]|].
  - apply (st_create false CrewStateManager_new 1 0 abc 2). reflexivity.
  - apply (st_reach false m0).
Qed.

Definition run_of (m : CrewStateManager) : DistributedCrewState :=
  default (mkDistributedCrewState 0 Initializing false ∅ ∅ [] 0 0) (states m !! 1%N).

Lemma reach_barrier_correct_witness :
  (reach_barrier m1 5 1 "b" "sync").1 = Waiting (size (participating_nodes (run_of m1) ∖ {["b"; "a"]})).
Proof.
  assert ({["b"%string]} ∪ arrived m1 1 "sync" = {["b"; "a"]}%string) as Ha by (vm_compute; reflexivity).
  rewrite <-Ha.
  apply (proj2 (reach_barrier_correct m1 5 1 (run_of m1) "b" "sync" m1_reachable
    ltac:(vm_compute; reflexivity) ltac:(apply (bool_decide_unpack _); vm_compute; exact I))).
  apply (bool_decide_unpack _). vm_compute. exact I.
Defined.

Lemma create_run_keeps_active_witness :
  states (create_run m1 2 9 {["d"]}%string 1).2 !! 1%N = Some (run_of m1).
Proof.
  apply (create_run_keeps_active m1 2 9 {["d"]}%string 1 1 (run_of m1)); [vm_compute; reflexivity..|discriminate].
Defined.

Lemma barrier_revives_finished_run_witness :
  exists s', states (reach_barrier (complete m0 3 1).2 4 1 "a" "late").2 !! 1%N = Some s' /\
    is_terminal (phase s') = false.
Proof.
  apply (barrier_revives_finished_run (complete m0 3 1).2 4 1 (run_of (complete m0 3 1).2) "a" "late");
    [vm_compute; reflexivity..|apply (bool_decide_unpack _); vm_compute; exact I].
Defined.

(** After a node that had arrived is removed, its arrival still counts: with
    participants [b] and [c] left, [b] alone opens the barrier although [c] has
    not arrived. *)
Theorem barrier_opens_early_after_removal :
  participating_nodes (run_of m2) = {["b"; "c"]}%string /\
  (reach_barrier m2 3 1 "b" "sync").1 = AllReached /\
  "c"%string ∉ arrived (reach_barrier m2 3 1 "b" "sync").2 1 "sync".
Proof.
  split; [vm_compute; reflexivity|]. split; [vm_compute; reflexivity|].
  apply (bool_decide_unpack _). vm_compute. exact I.
Qed.

(** Reported progress is not checked against the total, so the overall
    fraction can exceed 1.0. *)
Theorem overall_progress_exceeds_one :
  exists x, overall_progress (report_progress m0 1 1 "a" 9 None).2 1 = Some (Some x) /\ f64_gt x f64_one = true.
Proof. eexists. split; vm_compute; reflexivity. Qed.
