(* ===== verification/PubSub.v ===== *)
(** * Topic matching and publish/subscribe (orchestrator/pubsub.rs)

    Patterns and topics are split on dots; [*] matches one segment, [#] any
    number. The channels are those of [tokio]: a subscription keeps the
    messages sent to it, oldest first. *)

From S2P Require Import Prelude.
From S2P Require Import F64.
From S2P Require Import Resource.
From S2P Require Import Core.
From S2P Require Import Text.
From Stdlib Require Import Ascii String.
From stdpp Require Import base gmap fin_maps strings numbers list.

Definition MAX_SUBSCRIPTION_PATTERNS : nat := N.to_nat 10000.
Definition MAX_MATCH_DEPTH : nat := 32.

(** ** The matcher *)

(** [&topic[i..]] for [i in 0..=topic.len()] *)
Fixpoint tails {A} (l : list A) : list (list A) :=
  l :: match l with [] => [] | _ :: l' => tails l' end.

Fixpoint matches_recursive_inner (pattern topic : list string) (depth : nat) : bool :=
  if (MAX_MATCH_DEPTH <? depth)%nat then false
  else
    match pattern with
    | [] => match topic with [] => true | _ => false end
    | p :: rest_pat =>
        if bool_decide (p = "#"%string) then
          match rest_pat with
          | [] => true
          | _ => existsb (fun tl => matches_recursive_inner rest_pat tl (S depth)) (tails topic)
          end
        else
          match topic with
          | [] => forallb (fun s => bool_decide (s = "#"%string)) (p :: rest_pat)
          | t :: rest_topic =>
              if bool_decide (p = "*"%string) then matches_recursive_inner rest_pat rest_topic (S depth)
              else if bool_decide (p = t) then matches_recursive_inner rest_pat rest_topic (S depth)
              else false
          end
    end.

Definition matches_recursive (pattern topic : list string) : bool :=
  matches_recursive_inner pattern topic 0.

Definition segments (s : string) : list string := str_split "."%char s.

(** The two buffers of the code (an array of 16 or a [Vec]) hold the same segments. *)
Definition matches_pattern (pattern topic : string) : bool :=
  matches_recursive (segments pattern) (segments topic).

(** ** The hub *)

Record TopicMessage := mkTopicMessage { topic : string; payload : Value; timestamp : Z }.

(** pattern -> messages sent so far on its channel *)
Record PubSub := mkPubSub { subscriptions : gmap string (list TopicMessage) }.
Definition PubSub_new : PubSub := mkPubSub ∅.

(** [true]: a receiver was returned. *)
Definition subscribe (h : PubSub) (pattern : string) : bool * PubSub :=
  match subscriptions h !! pattern with
  | Some _ => (true, h)
  | None =>
      if (MAX_SUBSCRIPTION_PATTERNS <=? size (subscriptions h))%nat then (false, h)
      else (true, mkPubSub (<[pattern := []]> (subscriptions h)))
  end.

Definition publish (h : PubSub) (now : Z) (t : string) (v : Value) : PubSub :=
  let msg := mkTopicMessage t v now in
  mkPubSub (map_imap (fun pattern msgs =>
    Some (if matches_pattern pattern t then msgs ++ [msg] else msgs)) (subscriptions h)).

Definition unsubscribe_all (h : PubSub) (pattern : string) : PubSub :=
  mkPubSub (delete pattern (subscriptions h)).

Definition pattern_count (h : PubSub) : nat := size (subscriptions h).

(** ** What a pattern means *)

Inductive Matches : list string -> list string -> Prop :=
| M_nil : Matches [] []
| M_hash_zero ps ts : Matches ps ts -> Matches ("#"%string :: ps) ts
| M_hash_more ps t ts : Matches ("#"%string :: ps) ts -> Matches ("#"%string :: ps) (t :: ts)
| M_star ps t ts : Matches ps ts -> Matches ("*"%string :: ps) (t :: ts)
| M_literal s ps ts : s <> "#"%string -> s <> "*"%string -> Matches ps ts -> Matches (s :: ps) (s :: ts).

Lemma elem_of_tails {A} (l tl : list A) : tl ∈ tails l <-> exists pre, l = pre ++ tl.
Proof.
  induction l as [|x l IH]; cbn [tails].
  - rewrite list_elem_of_singleton. split; [intros ->; by exists []|]. intros [[|] ?]; by simplify_eq.
  - rewrite elem_of_cons, IH. split.
    + intros [->|[pre ->]]; [by exists []|by exists (x :: pre)].
    + intros [[|y pre] Heq]; simplify_eq/=; [by left|right; eauto].
Qed.

Lemma matches_hash ps ts : Matches ("#"%string :: ps) ts <-> exists pre tl, ts = pre ++ tl /\ Matches ps tl.
Proof.
  split.
  - intros H. remember ("#"%string :: ps) as q eqn:Hq. induction H as [|ps' ts H IH|ps' t ts H IH|ps' t ts H IH|s ps' ts H1 H2 H IH];
      simplify_eq.
    + by exists [], ts.
    + destruct (IH eq_refl) as (pre & tl & -> & Hm). by exists (t :: pre), tl.
  - intros (pre & tl & -> & Hm). induction pre as [|x pre IH]; simpl; [by apply M_hash_zero|by apply M_hash_more].
Qed.

Lemma matches_hash_all ts : Matches ["#"%string] ts.
Proof. apply matches_hash. exists ts, []. rewrite app_nil_r. split; [done|constructor]. Qed.

Lemma all_hash_matches ps : forallb (fun s => bool_decide (s = "#"%string)) ps = true -> Matches ps [].
Proof.
  induction ps as [|p ps IH]; simpl; [constructor|]. intros [->%bool_decide_eq_true H]%andb_true_iff.
  apply M_hash_zero. by apply IH.
Qed.

Lemma matches_nil_all_hash ps : Matches ps [] -> forallb (fun s => bool_decide (s = "#"%string)) ps = true.
Proof.
  intros H. remember [] as ts eqn:Ht. induction H; simplify_eq; [done|]. simpl. by rewrite IHMatches.
Qed.

Lemma matches_inner_sound pattern topic depth :
  matches_recursive_inner pattern topic depth = true -> Matches pattern topic.
Proof.
  revert topic depth. induction pattern as [|p ps IH]; intros topic depth; cbn [matches_recursive_inner];
    destruct (MAX_MATCH_DEPTH <? depth)%nat; try done.
  { destruct topic; [constructor|done]. }
  case_bool_decide as Hh.
  - subst p. destruct ps as [|p' ps']; [intros _; apply matches_hash_all|].
    intros (tl & Htl & Hm)%existsb_exists. apply list_elem_of_In, elem_of_tails in Htl as [pre ->].
    apply matches_hash. eauto.
  - destruct topic as [|t ts]; [apply all_hash_matches|].
    case_bool_decide as Hs; [subst p; intros Hm; constructor; by eapply IH|].
    case_bool_decide as Ht; [|done]. subst p. intros Hm. constructor; [done|done|by eapply IH].
Qed.

Lemma matches_inner_complete pattern topic depth :
  Matches pattern topic -> depth + length pattern <= MAX_MATCH_DEPTH ->
  matches_recursive_inner pattern topic depth = true.
Proof.
  intros H. revert depth. induction H as [|ps ts H IH|ps t ts H IH|ps t ts H IH|s ps ts H1 H2 H IH];
    intros depth Hd; cbn [matches_recursive_inner length] in *;
    rewrite (proj2 (Nat.ltb_ge _ _)) by lia.
  - done.
  - rewrite bool_decide_eq_true_2 by done. destruct ps as [|p ps']; [done|].
    apply existsb_exists. exists ts. split; [apply list_elem_of_In, elem_of_tails; by exists []|].
    apply IH. simpl in *. lia.
  - rewrite bool_decide_eq_true_2 by done. destruct ps as [|p ps']; [done|].
    specialize (IH depth Hd). rewrite (proj2 (Nat.ltb_ge _ _)) in IH by (simpl in *; lia).
    rewrite bool_decide_eq_true_2 in IH by done. apply existsb_exists in IH as (tl & Htl & Hm).
    apply existsb_exists. exists tl. split; [|done]. apply list_elem_of_In. apply list_elem_of_In in Htl.
    apply elem_of_tails in Htl as [pre ->]. apply elem_of_tails. by exists (t :: pre).
  - rewrite bool_decide_eq_false_2, bool_decide_eq_true_2 by done. apply IH. lia.
  - rewrite !bool_decide_eq_false_2, bool_decide_eq_true_2 by done. apply IH. lia.
Qed.

(** [C35] The recursive matcher decides the declarative meaning of wildcard
    patterns for every pattern of at most 32 segments and every topic, and
    never accepts a topic wrongly, whatever the length. *)
Theorem matches_pattern_correct pattern topic :
  (matches_pattern pattern topic = true -> Matches (segments pattern) (segments topic)) /\
  (length (segments pattern) <= MAX_MATCH_DEPTH ->
   Matches (segments pattern) (segments topic) -> matches_pattern pattern topic = true).
Proof.
  split; [apply matches_inner_sound|]. intros Hl Hm. by apply matches_inner_complete.
Qed.

Lemma literal_matches l : Forall (fun s => s <> "#"%string /\ s <> "*"%string) l -> Matches l l.
Proof. induction 1 as [|s l [? ?] _ IH]; by constructor. Qed.

Lemma literal_too_deep l depth :
  Forall (fun s => s <> "#"%string /\ s <> "*"%string) l -> MAX_MATCH_DEPTH < depth + length l ->
  matches_recursive_inner l l depth = false.
Proof.
  intros Hl. revert depth. induction Hl as [|s l [H1 H2] _ IH]; intros depth Hd; cbn [matches_recursive_inner length] in *.
  - rewrite (proj2 (Nat.ltb_lt _ _)) by lia. done.
  - destruct (MAX_MATCH_DEPTH <? depth)%nat; [done|].
    rewrite !bool_decide_eq_false_2, bool_decide_eq_true_2 by done. apply IH. lia.
Qed.

(** Beyond the recursion limit, a literal pattern of more than 32 segments
    does not match even the topic it spells. *)
Theorem long_literal_never_matches l :
  Forall (fun s => s <> "#"%string /\ s <> "*"%string) l -> MAX_MATCH_DEPTH < length l ->
  Matches l l /\ matches_recursive l l = false.
Proof.
  intros Hl Hd. split; [by apply literal_matches|]. by apply literal_too_deep.
Qed.

(** Publishing appends the message to exactly the subscriptions whose
    pattern matches, and leaves the others alone. *)
Theorem publish_delivers h now t v pattern :
  subscriptions (publish h now t v) !! pattern =
  match subscriptions h !! pattern with
  | None => None
  | Some msgs => Some (if matches_pattern pattern t then msgs ++ [mkTopicMessage t v now] else msgs)
  end.
Proof. unfold publish. simpl. rewrite map_lookup_imap. by destruct (subscriptions h !! pattern). Qed.

(** The number of patterns never exceeds the limit. *)
Lemma subscribe_bounded h pattern :
  pattern_count h <= MAX_SUBSCRIPTION_PATTERNS ->
  pattern_count (subscribe h pattern).2 <= MAX_SUBSCRIPTION_PATTERNS.
Proof.
  unfold subscribe, pattern_count. intros Hb. destruct (subscriptions h !! pattern) eqn:E; [done|].
  destruct (Nat.leb_spec MAX_SUBSCRIPTION_PATTERNS (size (subscriptions h))); [done|].
  simpl. rewrite map_size_insert_None by done. lia.
Qed.

Lemma matches_pattern_correct_witness :
  matches_pattern "agent.#.done" "agent.a.b.done" = true /\
  Matches (segments "agent.#.done") (segments "agent.a.b.done").
Proof.
  split; [vm_compute; reflexivity|]. apply matches_pattern_correct. vm_compute. reflexivity.
Defined.

Lemma long_literal_never_matches_witness :
  Matches (repeat "a"%string 33) (repeat "a"%string 33) /\
  matches_recursive (repeat "a"%string 33) (repeat "a"%string 33) = false.
Proof.
  apply long_literal_never_matches; [|vm_compute; lia].
  apply Forall_forall. intros s Hs. apply list_elem_of_In, repeat_spec in Hs. subst s. split; discriminate.
Defined.
