(* ===== verification/Relay.v ===== *)
(** * Inter-node relay (fleet/relay.rs)

    Sequence numbers, addressing and duplicate suppression. The channel to the
    local subscribers is the list of messages sent on it. *)

From Stdlib Require Import Sorting.Sorted.
From S2P Require Import Prelude.
From S2P Require Import F64.
From S2P Require Import Resource.
From S2P Require Import Core.
From stdpp Require Import base gmap fin_maps strings numbers list.

Record RelayMessage := mkRelayMessage {
  seq_no : N;
  from : string;
  to : string;
  relay_topic : string;
  relay_payload : Value;
  relay_timestamp : Z;
}.

Record IncomingMessage := mkIncomingMessage { message : RelayMessage; is_broadcast : bool }.

Record RelayStats := mkRelayStats {
  messages_sent : N;
  messages_received : N;
  duplicates_dropped : N;
}.

Record Relay := mkRelay {
  relay_node_id : string;
  next_seq : N;
  seen : gmap string N;
  tx : list IncomingMessage;
  stats : RelayStats;
}.

Definition Relay_new (id : string) : Relay := mkRelay id 1 ∅ [] (mkRelayStats 0 0 0).

Definition Relay_with_defaults (id : string) : Relay := Relay_new id.
Definition RelayMessage_new (now : Z) (seq : N) (from to topic : string) (payload : Value) : RelayMessage :=
  mkRelayMessage seq from to topic payload now.
(** A subscriber sees the messages sent to the channel from here on. *)
Definition relay_subscribe (r : Relay) : nat := length (tx r).
Definition node_id (r : Relay) : string := relay_node_id r.
Definition relay_stats (r : Relay) : RelayStats := stats r.

Definition is_broadcast_addr (to : string) : bool := bool_decide (to = ""%string).

Definition send (r : Relay) (now : Z) (to topic : string) (v : Value) : N * Relay :=
  let seq := next_seq r in
  let msg := mkRelayMessage seq (relay_node_id r) to topic v now in
  (seq, mkRelay (relay_node_id r) (u64_wrapping_add seq 1) (seen r)
          (tx r ++ [mkIncomingMessage msg (is_broadcast_addr to)])
          (mkRelayStats (messages_sent (stats r) + 1) (messages_received (stats r)) (duplicates_dropped (stats r)))).

Definition broadcast (r : Relay) (now : Z) (topic : string) (v : Value) : N * Relay := send r now "" topic v.

(** Messages this relay does not handle: its own, and those for other nodes. *)
Definition for_me (r : Relay) (msg : RelayMessage) : bool :=
  negb (bool_decide (from msg = relay_node_id r)) &&
  (is_broadcast_addr (to msg) || bool_decide (to msg = relay_node_id r)).

Definition last_seen (r : Relay) (sender : string) : N := default 0%N (seen r !! sender).

Definition receive (r : Relay) (msg : RelayMessage) : option IncomingMessage * Relay :=
  if negb (for_me r msg) then (None, r)
  else
    let last := last_seen r (from msg) in
    if (seq_no msg <=? last)%N then
      (* the [entry(..).or_insert(0)] stays in the map *)
      (None, mkRelay (relay_node_id r) (next_seq r) (<[from msg := last]> (seen r)) (tx r)
               (mkRelayStats (messages_sent (stats r)) (messages_received (stats r))
                  (duplicates_dropped (stats r) + 1)))
    else
      let incoming := mkIncomingMessage msg (is_broadcast_addr (to msg)) in
      (Some incoming, mkRelay (relay_node_id r) (next_seq r) (<[from msg := seq_no msg]> (seen r))
               (tx r ++ [incoming])
               (mkRelayStats (messages_sent (stats r)) (messages_received (stats r) + 1)
                  (duplicates_dropped (stats r)))).

(** A stream of arrivals: the messages accepted, and the final state. *)
Fixpoint receive_all (r : Relay) (msgs : list RelayMessage) : list RelayMessage * Relay :=
  match msgs with
  | [] => ([], r)
  | m :: msgs =>
      let (o, r1) := receive r m in
      let (acc, r2) := receive_all r1 msgs in
      (match o with Some i => message i :: acc | None => acc end, r2)
  end.

(** ** Theorems *)

Lemma receive_node r msg : relay_node_id (receive r msg).2 = relay_node_id r.
Proof. unfold receive. by repeat case_match. Qed.

Lemma receive_last_seen r msg sender :
  last_seen (receive r msg).2 sender =
  match (receive r msg).1 with
  | Some _ => if decide (from msg = sender) then seq_no msg else last_seen r sender
  | None => last_seen r sender
  end.
Proof.
  unfold receive. destruct (negb (for_me r msg)); [done|].
  destruct (N.leb_spec (seq_no msg) (last_seen r (from msg))) as [Hle|Hlt]; simpl; unfold last_seen in *; simpl.
  - destruct (decide (from msg = sender)) as [->|Hne]; [by rewrite lookup_insert_eq|].
    by rewrite lookup_insert_ne.
  - case_decide as Hs; [subst; by rewrite lookup_insert_eq|]. by rewrite lookup_insert_ne.
Qed.

Lemma receive_accept r msg i :
  (receive r msg).1 = Some i ->
  message i = msg /\ for_me r msg = true /\ (last_seen r (from msg) < seq_no msg)%N.
Proof.
  unfold receive. destruct (for_me r msg); simpl; [|done].
  destruct (N.leb_spec (seq_no msg) (last_seen r (from msg))); [done|]. intros [= <-]. done.
Qed.

Lemma receive_new r m :
  for_me r m = true -> (last_seen r (from m) < seq_no m)%N ->
  exists r' i, receive r m = (Some i, r') /\ message i = m /\ relay_node_id r' = relay_node_id r /\
    last_seen r' (from m) = seq_no m /\ duplicates_dropped (stats r') = duplicates_dropped (stats r).
Proof.
  intros Hf Hlt. unfold receive. rewrite Hf. simpl.
  destruct (N.leb_spec (seq_no m) (last_seen r (from m))); [lia|].
  do 2 eexists. split; [done|]. unfold last_seen. simpl. by rewrite lookup_insert_eq.
Qed.

Lemma receive_dup r m :
  for_me r m = true -> (seq_no m <= last_seen r (from m))%N ->
  exists r', receive r m = (None, r') /\
    duplicates_dropped (stats r') = (duplicates_dropped (stats r) + 1)%N.
Proof.
  intros Hf Hle. unfold receive. rewrite Hf. simpl.
  destruct (N.leb_spec (seq_no m) (last_seen r (from m))); [|lia]. by eexists.
Qed.

Definition from_sender (sender : string) (msgs : list RelayMessage) : list N :=
  map seq_no (List.filter (fun m => bool_decide (from m = sender)) msgs).

Lemma receive_all_above r msgs sender :
  Forall (fun n => last_seen r sender < n)%N (from_sender sender (receive_all r msgs).1) /\
  StronglySorted N.lt (from_sender sender (receive_all r msgs).1).
Proof.
  revert r. induction msgs as [|m msgs IH]; intros r; cbn [receive_all]; [by repeat constructor|].
  pose proof (receive_last_seen r m sender) as Hl. pose proof (receive_accept r m) as Ha.
  destruct (receive r m) as [[i|] r1]; simpl in Hl, Ha; destruct (IH r1) as [H1 H2];
    destruct (receive_all r1 msgs) as [acc r2]; simpl in *.
  - destruct (Ha i eq_refl) as (-> & _ & Hlt). unfold from_sender in *. simpl.
    case_bool_decide as Hs; simpl.
    + subst sender. rewrite decide_True in Hl by done. rewrite Hl in H1. split.
      * constructor; [done|]. eapply Forall_impl; [exact H1|]. simpl. lia.
      * by constructor.
    + rewrite decide_False in Hl by done. rewrite Hl in H1. done.
  - rewrite Hl in H1. done.
Qed.

(** [C36] Whatever arrives, in whatever order and however often, the messages
    accepted from one sender have strictly increasing sequence numbers: every
    message is delivered at most once, and in order. *)
Theorem receive_at_most_once r msgs sender :
  StronglySorted N.lt (from_sender sender (receive_all r msgs).1) /\
  NoDup (from_sender sender (receive_all r msgs).1).
Proof.
  destruct (receive_all_above r msgs sender) as [_ Hs]. split; [done|].
  induction Hs as [|x l Hs IH Hx]; constructor; [|done].
  intros Hin. rewrite Forall_forall in Hx. apply Hx in Hin. lia.
Qed.

(** Addressed to this relay by other nodes, in increasing order per sender. *)
Fixpoint in_order (r : Relay) (last : gmap string N) (msgs : list RelayMessage) : Prop :=
  match msgs with
  | [] => True
  | m :: msgs =>
      for_me r m = true /\ (default 0%N (last !! from m) < seq_no m)%N /\
      in_order r (<[from m := seq_no m]> last) msgs
  end.

Lemma receive_all_in_order r0 r msgs :
  relay_node_id r = relay_node_id r0 -> in_order r0 (seen r) msgs ->
  (receive_all r msgs).1 = msgs.
Proof.
  revert r. induction msgs as [|m msgs IH]; intros r Hid Ho; [done|]. destruct Ho as (Hf & Hlt & Ho).
  cbn [receive_all]. unfold receive.
  assert (for_me r m = true) as -> by (unfold for_me in *; by rewrite Hid). simpl.
  destruct (N.leb_spec (seq_no m) (last_seen r (from m))) as [Hle|_]; [unfold last_seen in Hle; lia|].
  specialize (IH (mkRelay (relay_node_id r) (next_seq r) (<[from m := seq_no m]> (seen r))
    (tx r ++ [mkIncomingMessage m (is_broadcast_addr (to m))])
    (mkRelayStats (messages_sent (stats r)) (messages_received (stats r) + 1) (duplicates_dropped (stats r)))) Hid Ho).
  destruct (receive_all _ msgs) as [acc r2]. simpl in *. by rewrite IH.
Qed.

(** Nothing is lost when messages arrive in the order they were sent: all
    of them are accepted, gaps in the numbering included. *)
Theorem receive_complete r msgs :
  in_order r (seen r) msgs -> (receive_all r msgs).1 = msgs.
Proof. intros Ho. by apply (receive_all_in_order r). Qed.

(** A message that is overtaken by a later one of the same sender is dropped
    and counted as a duplicate, although it was never delivered. *)
Theorem overtaken_message_dropped r m1 m2 :
  from m1 = from m2 -> (last_seen r (from m1) < seq_no m1)%N -> (seq_no m1 < seq_no m2)%N ->
  for_me r m1 = true -> for_me r m2 = true ->
  (receive_all r [m2; m1]).1 = [m2] /\
  duplicates_dropped (stats (receive_all r [m2; m1]).2) = (duplicates_dropped (stats r) + 1)%N.
Proof.
  intros Hf H1 H12 Hm1 Hm2. rewrite Hf in H1.
  destruct (receive_new r m2 Hm2) as (r1 & i & Hr1 & Hi & Hid & Hlast & Hdup); [lia|].
  destruct (receive_dup r1 m1) as (r2 & Hr2 & Hdup2).
  { unfold for_me in *. by rewrite Hid. }
  { rewrite Hf, Hlast. lia. }
  cbn [receive_all]. rewrite Hr1, Hr2. simpl. rewrite Hi, Hdup2, Hdup. done.
Qed.

(** Sent messages are numbered consecutively from 1 (below the wrap-around). *)
Lemma send_numbers r now to topic v :
  (next_seq r < 2 ^ 64 - 1)%N ->
  (send r now to topic v).1 = next_seq r /\ next_seq (send r now to topic v).2 = (next_seq r + 1)%N.
Proof.
  intros Hb. unfold send, u64_wrapping_add. simpl. split; [done|]. rewrite N.mod_small; lia.
Qed.

Definition msg (n : N) : RelayMessage := mkRelayMessage n "n1" "" "t" Null 0.

Lemma receive_complete_witness : (receive_all (Relay_new "n2") [msg 1; msg 2; msg 5]).1 = [msg 1; msg 2; msg 5].
Proof. apply receive_complete. vm_compute. repeat split. Defined.

Lemma overtaken_message_dropped_witness :
  (receive_all (Relay_new "n2") [msg 2; msg 1]).1 = [msg 2] /\
  duplicates_dropped (stats (receive_all (Relay_new "n2") [msg 2; msg 1]).2) = 1%N.
Proof.
  apply (overtaken_message_dropped (Relay_new "n2") (msg 1) (msg 2)); vm_compute; reflexivity.
Defined.
