(* ===== verification/Federation.v ===== *)
(** * Cluster federation (fleet/federation.rs)

    Terms, coordinator election, liveness and eviction of peer clusters. The term
    counter is incremented with [+=]: a build with overflow checks panics at the
    largest term, the release profile (which has none) wraps to 0; the operations
    that increment it take the build as an argument. *)

From S2P Require Import Prelude.
From stdpp Require Import base gmap fin_maps strings numbers list.

Abbreviation ClusterId := string (only parsing).

Inductive FederationRole := Coordinator | Follower | Candidate.
Inductive ClusterStatus := COnline | CSuspect | COffline.
#[export] Instance FederationRole_eq_dec : EqDecision FederationRole.
Proof. solve_decision. Defined.
#[export] Instance ClusterStatus_eq_dec : EqDecision ClusterStatus.
Proof. solve_decision. Defined.

Record ClusterInfo := mkClusterInfo {
  cl_id : ClusterId;
  endpoint : string;
  cl_status : ClusterStatus;
  cl_role : FederationRole;
  node_count : N;
  cl_last_heartbeat : Z;
  cl_last_instant : Instant;
}.

Record ElectionState := mkElectionState {
  term : N;
  elected : option ClusterId;
  term_started : Instant;
}.

Record FederationConfig := mkFederationConfig {
  cluster_id : ClusterId;
  cfg_endpoint : string;
  seeds : list string;
  suspect_timeout : Duration;
  offline_timeout : Duration;
  election_timeout : Duration;
}.
Definition FederationConfig_default : FederationConfig :=
  mkFederationConfig "" "" [] (from_secs 10) (from_secs 30) (from_secs 5).

Record FederationManager := mkFederationManager {
  config : FederationConfig;
  fed_role : FederationRole;
  clusters : gmap ClusterId ClusterInfo;
  election : ElectionState;
}.

Definition FederationManager_new (now : Instant) (c : FederationConfig) : FederationManager :=
  mkFederationManager c Follower ∅ (mkElectionState 0 None now).

Definition set_clusters (m : FederationManager) (cs : gmap ClusterId ClusterInfo) : FederationManager :=
  mkFederationManager (config m) (fed_role m) cs (election m).

Definition fed_heartbeat (m : FederationManager) (now : Instant) (utc : Z) (id ep : string) (count : N)
    : FederationManager :=
  let role := match clusters m !! id with Some c => cl_role c | None => Follower end in
  let cid := match clusters m !! id with Some c => cl_id c | None => id end in
  set_clusters m (<[id := mkClusterInfo cid ep COnline role count utc now]> (clusters m)).

Definition with_cl_status (st : ClusterStatus) (c : ClusterInfo) : ClusterInfo :=
  mkClusterInfo (cl_id c) (endpoint c) st (cl_role c) (node_count c) (cl_last_heartbeat c) (cl_last_instant c).
Definition with_cl_role (r : FederationRole) (c : ClusterInfo) : ClusterInfo :=
  mkClusterInfo (cl_id c) (endpoint c) (cl_status c) r (node_count c) (cl_last_heartbeat c) (cl_last_instant c).

Definition check_cluster (m : FederationManager) (now : Instant) (c : ClusterInfo) : ClusterInfo :=
  let elapsed := duration_since now (cl_last_instant c) in
  if (offline_timeout (config m) <? elapsed)%N && negb (bool_decide (cl_status c = COffline))
  then with_cl_status COffline c
  else if (suspect_timeout (config m) <? elapsed)%N && bool_decide (cl_status c = COnline)
  then with_cl_status CSuspect c
  else c.

Definition check_liveness (m : FederationManager) (now : Instant) : FederationManager :=
  set_clusters m (check_cluster m now <$> clusters m).

(** [self.election.term += 1]; [None] is the panic of a build with overflow checks. *)
Definition next_term (overflow_checks : bool) (t : N) : option N :=
  if overflow_checks then u64_add t 1 else Some (u64_wrapping_add t 1).

Definition start_election (overflow_checks : bool) (m : FederationManager) (now : Instant) : option (N * FederationManager) :=
  match next_term overflow_checks (term (election m)) with
  | None => None
  | Some t => Some (t, mkFederationManager (config m) Candidate (clusters m) (mkElectionState t None now))
  end.

Definition declare_coordinator (m : FederationManager) (t : N) (id : ClusterId) : bool * FederationManager :=
  if (t <? term (election m))%N then (false, m)
  else
    let role := if bool_decide (id = cluster_id (config m)) then Coordinator else Follower in
    let cs := with_cl_role Follower <$> clusters m in
    let cs := match cs !! id with Some c => <[id := with_cl_role Coordinator c]> cs | None => cs end in
    (true, mkFederationManager (config m) role cs
             (mkElectionState t (Some id) (term_started (election m)))).

Section federation.
Context `{!HashIter ClusterId ClusterInfo}.

(** [dedup] removes consecutive repetitions. *)
Fixpoint dedup (l : list string) : list string :=
  match l with
  | [] => []
  | x :: l' => match l' with
               | y :: _ => if bool_decide (x = y) then dedup l' else x :: dedup l'
               | [] => [x]
               end
  end.

Definition candidates (m : FederationManager) : list ClusterId :=
  dedup (sort_strings
    (map cl_id (List.filter (fun c => bool_decide (cl_status c = COnline)) (hash_values (clusters m)))
     ++ [cluster_id (config m)])).

Definition elect_by_lowest_id (overflow_checks : bool) (m : FederationManager) (now : Instant)
    : option (option ClusterId * FederationManager) :=
  match start_election overflow_checks m now with
  | None => None
  | Some (t, m1) =>
      match head (candidates m1) with
      | Some winner => Some (Some winner, (declare_coordinator m1 t winner).2)
      | None => Some (None, m1)
      end
  end.

Definition federation_role (m : FederationManager) : FederationRole := fed_role m.
Definition federation_term (m : FederationManager) : N := term (election m).
Definition all_clusters (m : FederationManager) : list ClusterInfo := hash_values (clusters m).
Definition coordinator (m : FederationManager) : option ClusterId := elected (election m).
Definition is_coordinator (m : FederationManager) : bool := bool_decide (fed_role m = Coordinator).

Definition online_clusters (m : FederationManager) : list ClusterInfo :=
  List.filter (fun c => bool_decide (cl_status c = COnline)) (hash_values (clusters m)).
Definition cluster_count (m : FederationManager) : nat := size (clusters m).

Definition evict_offline (m : FederationManager) (now : Instant) (ttl : Duration)
    : list ClusterId * FederationManager :=
  let evicted := map fst (List.filter
    (fun kc => bool_decide (cl_status kc.2 = COffline) &&
               (ttl <? duration_since now (cl_last_instant kc.2))%N) (hash_iter (clusters m))) in
  (evicted, set_clusters m (foldl (fun cs id => delete id cs) (clusters m) evicted)).
End federation.

(** ** Invariants over all operations *)

Inductive fed_step `{!HashIter ClusterId ClusterInfo} (overflow_checks : bool) : FederationManager -> FederationManager -> Prop :=
| fs_heartbeat m now utc id ep n : fed_step overflow_checks m (fed_heartbeat m now utc id ep n)
| fs_liveness m now : fed_step overflow_checks m (check_liveness m now)
| fs_start m now t m' : start_election overflow_checks m now = Some (t, m') -> fed_step overflow_checks m m'
| fs_declare m t id : (t <= u64_max)%N -> fed_step overflow_checks m (declare_coordinator m t id).2
| fs_elect m now w m' : elect_by_lowest_id overflow_checks m now = Some (w, m') -> fed_step overflow_checks m m'
| fs_evict m now ttl : fed_step overflow_checks m (evict_offline m now ttl).2.

Section theorems.
Context `{!HashIter ClusterId ClusterInfo} (overflow_checks : bool).
Implicit Types m : FederationManager.

Lemma head_dedup l : head (dedup l) = head l.
Proof.
  induction l as [|x [|y l] IH]; [done|done|].
  transitivity (head (if bool_decide (x = y) then dedup (y :: l) else x :: dedup (y :: l))); [done|].
  case_bool_decide as E; [|done]. subst y. by rewrite IH.
Qed.

(** The winner: least id among the online peers and this cluster. *)
Lemma candidates_head m :
  exists w, head (candidates m) = Some w /\
    (w = cluster_id (config m) \/ exists c, c ∈ online_clusters m /\ cl_id c = w) /\
    string_le w (cluster_id (config m)) = true /\
    forall c, c ∈ online_clusters m -> string_le w (cl_id c) = true.
Proof.
  unfold candidates, online_clusters. rewrite head_dedup.
  set (l := map cl_id _ ++ [cluster_id (config m)]).
  assert (exists w, head (sort_strings l) = Some w) as [w Hw].
  { unfold sort_strings. pose proof (length_sort_by string_le l) as Hlen.
    destruct (sort_by string_le l); [|eauto]. subst l. rewrite length_app in Hlen. simpl in Hlen. lia. }
  exists w. pose proof (sort_by_head_least string_le (fun _ => True) l w
    (fun x y _ _ => string_le_total x y) (fun x y z _ _ _ => string_le_trans x y z)
    (proj2 (Forall_forall _ _) (fun _ _ => I)) Hw) as Hle.
  assert (w ∈ l) as Hin.
  { apply (elem_of_sort_by string_le). unfold sort_strings in Hw. destruct (sort_by _ _); simplify_eq/=. left. }
  split_and!; [done| | |].
  - apply elem_of_app in Hin as [Hin|Hin%list_elem_of_singleton]; [|by left]. right.
    apply list_elem_of_fmap in Hin as (c & -> & Hc). eauto.
  - apply Hle. apply elem_of_app. right. left.
  - intros c Hc. apply Hle. apply elem_of_app. left. apply list_elem_of_fmap. eauto.
Qed.

Lemma next_term_small t : (t < u64_max)%N -> next_term overflow_checks t = Some (t + 1)%N.
Proof.
  intros Ht. unfold next_term, u64_add, u64_wrapping_add. destruct overflow_checks.
  - by rewrite (proj2 (N.leb_le _ _)) by lia.
  - rewrite N.mod_small; [done|]. unfold u64_max in Ht. lia.
Qed.

(** The next term is greater, or the largest one has wrapped. *)
Lemma next_term_cases t t' : (t <= u64_max)%N -> next_term overflow_checks t = Some t' ->
  (t' <= u64_max)%N /\ (t' = t + 1 \/ overflow_checks = false /\ t = u64_max /\ t' = 0)%N.
Proof.
  intros Ht H. destruct (N.eq_dec t u64_max) as [->|Hne].
  - unfold next_term in H. destruct overflow_checks; [done|]. vm_compute in H. injection H as <-. split; [done|by right].
  - rewrite next_term_small in H by lia. injection H as <-. split; [lia|by left].
Qed.

Lemma elect_spec m now :
  (term (election m) < u64_max)%N ->
  exists w m', elect_by_lowest_id overflow_checks m now = Some (Some w, m') /\
    term (election m') = (term (election m) + 1)%N /\ elected (election m') = Some w /\
    config m' = config m /\ (fed_role m' = Coordinator <-> w = cluster_id (config m)) /\
    (w = cluster_id (config m) \/ exists c, c ∈ online_clusters m /\ cl_id c = w) /\
    string_le w (cluster_id (config m)) = true /\
    forall c, c ∈ online_clusters m -> string_le w (cl_id c) = true.
Proof.
  intros Ht. unfold elect_by_lowest_id, start_election. rewrite next_term_small by done. set (m1 := mkFederationManager _ _ _ _).
  destruct (candidates_head m1) as (w & Hw & Hfrom & Hself & Hmin). rewrite Hw.
  eexists _, _. split; [done|]. unfold declare_coordinator. simpl. rewrite N.ltb_irrefl. simpl.
  split_and!; try done. case_bool_decide; split; done.
Qed.

(** An election raises the term by one and elects the least id among this
    cluster and the peers it sees online; it declares itself coordinator
    exactly when that is its own id. *)
Theorem elect_by_lowest_id_correct m now :
  (term (election m) < u64_max)%N ->
  exists w m', elect_by_lowest_id overflow_checks m now = Some (Some w, m') /\
    term (election m') = (term (election m) + 1)%N /\ coordinator m' = Some w /\
    (is_coordinator m' = true <-> w = cluster_id (config m)) /\
    (w = cluster_id (config m) \/ exists c, c ∈ online_clusters m /\ cl_id c = w) /\
    string_le w (cluster_id (config m)) = true /\
    forall c, c ∈ online_clusters m -> string_le w (cl_id c) = true.
Proof.
  intros Ht. destruct (elect_spec m now Ht) as (w & m' & H1 & H2 & H3 & _ & H5 & H6 & H7 & H8).
  exists w, m'. unfold is_coordinator. rewrite bool_decide_eq_true. split_and!; done.
Qed.

(** What a cluster takes part in an election with. *)
Definition electorate m (id : ClusterId) : Prop :=
  id = cluster_id (config m) \/ exists c, c ∈ online_clusters m /\ cl_id c = id.

(** [C34] Agreement: two clusters that see the same set of live clusters (each
    counting itself) elect the same coordinator, whatever the order in which
    their maps are iterated. *)
Theorem election_agreement m1 m2 now1 now2 :
  (term (election m1) < u64_max)%N -> (term (election m2) < u64_max)%N ->
  (forall id, electorate m1 id <-> electorate m2 id) ->
  exists w m1' m2', elect_by_lowest_id overflow_checks m1 now1 = Some (Some w, m1') /\
                    elect_by_lowest_id overflow_checks m2 now2 = Some (Some w, m2').
Proof.
  intros Ht1 Ht2 He.
  destruct (elect_spec m1 now1 Ht1) as (w1 & m1' & E1 & _ & _ & _ & _ & F1 & S1 & M1).
  destruct (elect_spec m2 now2 Ht2) as (w2 & m2' & E2 & _ & _ & _ & _ & F2 & S2 & M2).
  assert (forall m w, string_le w (cluster_id (config m)) = true ->
    (forall c, c ∈ online_clusters m -> string_le w (cl_id c) = true) ->
    forall id, electorate m id -> string_le w id = true) as Hmin.
  { intros m w Hs Hc id [->|(c & Hin & <-)]; auto. }
  assert (w1 = w2) as ->.
  { apply string_le_antisym; [eapply Hmin; [exact S1|exact M1|apply He; exact F2]|].
    eapply Hmin; [exact S2|exact M2|apply He; exact F1]. }
  exists w2, m1', m2'. by split.
Qed.

(** Own role, own term and peer roles are consistent. *)
Record fed_inv m : Prop := {
  fi_role : fed_role m = Coordinator <-> elected (election m) = Some (cluster_id (config m));
  fi_single : forall id1 id2 c1 c2, clusters m !! id1 = Some c1 -> clusters m !! id2 = Some c2 ->
    cl_role c1 = Coordinator -> cl_role c2 = Coordinator -> id1 = id2;
  fi_term : (term (election m) <= u64_max)%N;
}.

(** The term of [m'] against that of [m]. *)
Definition term_moves m m' : Prop :=
  (term (election m) <= term (election m'))%N \/
  overflow_checks = false /\ term (election m) = u64_max /\ term (election m') = 0%N.

Lemma declare_inv m t id : (t <= u64_max)%N -> fed_inv m -> fed_inv (declare_coordinator m t id).2.
Proof.
  intros Hle Hi. unfold declare_coordinator. destruct (t <? term (election m))%N; [done|]. split; simpl.
  - case_bool_decide; split; naive_solver.
  - assert (forall i c, match (with_cl_role Follower <$> clusters m) !! id with
      | Some c => <[id:=with_cl_role Coordinator c]> (with_cl_role Follower <$> clusters m)
      | None => with_cl_role Follower <$> clusters m end !! i = Some c ->
      cl_role c = Coordinator -> i = id) as H.
    { intros i c Hc Hr.
      assert ((with_cl_role Follower <$> clusters m) !! i = Some c -> i = id) as Hold.
      { rewrite lookup_fmap. destruct (clusters m !! i); simpl; [|done]. intros [= <-]. done. }
      destruct ((with_cl_role Follower <$> clusters m) !! id) as [c'|]; [|by apply Hold].
      apply lookup_insert_Some in Hc as [[<- _]|[_ Hc]]; [done|by apply Hold]. }
    intros id1 id2 c1 c2 H1 H2 R1 R2. rewrite (H _ _ H1 R1), (H _ _ H2 R2). done.
  - done.
Qed.

Lemma start_inv m now t m' :
  fed_inv m -> start_election overflow_checks m now = Some (t, m') ->
  fed_inv m' /\ term_moves m m' /\ config m' = config m /\ term (election m') = t.
Proof.
  intros [H1 H2 H3]. unfold start_election. destruct (next_term _ _) as [t0|] eqn:E; [|done]. intros [= <- <-].
  destruct (next_term_cases _ _ H3 E) as [Hb Hc]. split_and!; [|unfold term_moves; cbn; destruct Hc; [left; lia|by right]|done..].
  by split.
Qed.

Lemma fed_inv_clusters m cs :
  fed_inv m ->
  (forall id c, cs !! id = Some c -> cl_role c = Coordinator ->
     exists c', clusters m !! id = Some c' /\ cl_role c' = Coordinator) ->
  fed_inv (set_clusters m cs).
Proof.
  intros [H1 H2 H3] Hc. split; [done| |done]. simpl. intros id1 id2 c1 c2 L1 L2 R1 R2.
  destruct (Hc _ _ L1 R1) as (c1' & L1' & R1'). destruct (Hc _ _ L2 R2) as (c2' & L2' & R2'). by eapply H2.
Qed.

Lemma declare_moves m t id :
  (term (election m) <= term (election (declare_coordinator m t id).2))%N /\
  ((term (election m) <= t)%N -> term (election (declare_coordinator m t id).2) = t) /\
  config (declare_coordinator m t id).2 = config m.
Proof. unfold declare_coordinator. destruct (N.ltb_spec t (term (election m))); simpl; split_and!; [done|lia|done|lia|done|done]. Qed.

Lemma fed_step_ok m m' :
  fed_step overflow_checks m m' -> fed_inv m -> fed_inv m' /\ term_moves m m' /\ config m' = config m.
Proof.
  intros Hs Hi. destruct Hs as [m now utc id ep n|m now|m now t m' He|m t id Hle|m now w m' He|m now ttl].
  - split; [|split; [by left|done]]. apply fed_inv_clusters; [done|]. intros id' c Hc Hr.
    apply lookup_insert_Some in Hc as [[<- <-]|[_ Hc]]; [|eauto]. simpl in Hr.
    destruct (clusters m !! id) as [c'|]; [eauto|done].
  - split; [|split; [by left|done]]. apply fed_inv_clusters; [done|]. intros id c. rewrite lookup_fmap.
    destruct (clusters m !! id) as [c'|]; simpl; [|done]. intros [= <-] Hr. exists c'. split; [done|].
    unfold check_cluster in Hr. by repeat case_match.
  - destruct (start_inv _ _ _ _ Hi He) as (H1 & H2 & H3 & _). by split_and!.
  - destruct (declare_moves m t id) as (H1 & _ & H3). split_and!; [by apply declare_inv|by left|done].
  - unfold elect_by_lowest_id in He. destruct (start_election overflow_checks m now) as [[t m1]|] eqn:Hst; [|done].
    destruct (start_inv _ _ _ _ Hi Hst) as (Hi1 & Hm1 & Hc1 & Ht1).
    destruct (head (candidates m1)) as [w'|]; simplify_eq; [|done].
    destruct (declare_moves m1 (term (election m1)) w') as (_ & Heq & Hc2). rewrite Hc2.
    split_and!; [apply declare_inv; [apply (fi_term _ Hi1)|done]| |done].
    unfold term_moves in *. by rewrite Heq.
  - split; [|split; [by left|done]]. apply fed_inv_clusters; [done|]. intros id c Hc Hr. exists c. split; [|done].
    revert Hc. generalize (map fst (List.filter (fun kc => bool_decide (cl_status kc.2 = COffline) &&
      (ttl <? duration_since now (cl_last_instant kc.2))%N) (hash_iter (clusters m)))) as ids.
    intros ids. generalize (clusters m) as cs. induction ids as [|i ids IH]; intros cs; simpl; [done|].
    intros Hc. apply IH in Hc. by apply lookup_delete_Some in Hc as [_ ?].
Qed.

Inductive fed_reachable m0 : FederationManager -> Prop :=
| fed_init : fed_reachable m0 m0
| fed_next m m' : fed_reachable m0 m -> fed_step overflow_checks m m' -> fed_reachable m0 m'.

(** [C33] Along any sequence of operations from a fresh manager, in a build with or
    without overflow checks: the cluster believes itself coordinator exactly when
    it is the one elected, at most one known peer carries the coordinator role, and
    the term never decreases, with one exception: without overflow checks (the
    release profile) an election started in the largest term wraps it to 0 (see
    [term_wraps]); with them it panics instead. *)
Theorem federation_consistent now c m :
  fed_reachable (FederationManager_new now c) m ->
  (fed_role m = Coordinator <-> elected (election m) = Some (cluster_id c)) /\
  (forall id1 id2 c1 c2, clusters m !! id1 = Some c1 -> clusters m !! id2 = Some c2 ->
     cl_role c1 = Coordinator -> cl_role c2 = Coordinator -> id1 = id2) /\
  (forall m', fed_step overflow_checks m m' ->
     (term (election m) <= term (election m'))%N \/
     overflow_checks = false /\ term (election m) = u64_max /\ term (election m') = 0%N) /\
  (overflow_checks = true -> term (election m) = u64_max -> forall now, start_election overflow_checks m now = None).
Proof.
  intros Hr.
  assert (fed_inv m /\ config m = c) as [Hi Hc].
  { induction Hr as [|m1 m2 Hr [Hi Hc] Hs].
    - split; [|done]. split; simpl; [done|done|unfold u64_max; lia].
    - destruct (fed_step_ok _ _ Hs Hi) as (Hi' & _ & Hc'). split; [done|congruence]. }
  split_and!.
  - rewrite <-Hc. apply (fi_role _ Hi).
  - apply (fi_single _ Hi).
  - intros m' Hs. by apply (fed_step_ok _ _ Hs Hi).
  - intros E Ht now'. unfold start_election, next_term. by rewrite E, Ht.
Qed.
End theorems.

(** A term can be won twice: a second declaration for the current term, by
    another cluster, is accepted and replaces the coordinator. *)
Theorem same_term_redeclared m t id1 id2 :
  (term (election m) <= t)%N ->
  let m1 := (declare_coordinator m t id1).2 in
  (declare_coordinator m t id1).1 = true /\ (declare_coordinator m1 t id2).1 = true /\
  coordinator m1 = Some id1 /\ coordinator (declare_coordinator m1 t id2).2 = Some id2 /\
  term (election (declare_coordinator m1 t id2).2) = t.
Proof.
  intros Ht. unfold declare_coordinator at 1 2.
  destruct (N.ltb_spec t (term (election m))); [lia|]. simpl.
  unfold declare_coordinator. simpl. rewrite N.ltb_irrefl. by split_and!.
Qed.

(** A peer can declare any term; after the largest one a release build starts again
    at 0. *)
Theorem term_wraps m id now :
  let m1 := (declare_coordinator m u64_max id).2 in
  (term (election m) <= u64_max)%N ->
  term (election m1) = u64_max /\
  start_election true m1 now = None /\
  exists m2, start_election false m1 now = Some (0%N, m2) /\ term (election m2) = 0%N.
Proof.
  intros m1 Hle. destruct (declare_moves m u64_max id) as (_ & Ht & _). specialize (Ht Hle). fold m1 in Ht.
  unfold start_election, next_term. rewrite Ht. split_and!; [done|done|]. eexists. split; reflexivity.
Qed.

#[local] Instance cluster_iter : HashIter string ClusterInfo := canonical_iter.

Definition fed_a : FederationManager :=
  fed_heartbeat (FederationManager_new 0 (mkFederationConfig "a" "" [] 1 1 1)) 0 0 "b" "b:1" 3.
Definition fed_b : FederationManager :=
  fed_heartbeat (FederationManager_new 0 (mkFederationConfig "b" "" [] 1 1 1)) 0 0 "a" "a:1" 3.

Lemma elect_by_lowest_id_correct_witness :
  exists w m', elect_by_lowest_id false fed_b 5 = Some (Some w, m') /\ coordinator m' = Some w /\
    string_le w "b" = true.
Proof.
  destruct (elect_by_lowest_id_correct false fed_b 5) as (w & m' & H1 & _ & H3 & _ & _ & H6 & _);
    [vm_compute; reflexivity|]. exists w, m'. exact (conj H1 (conj H3 H6)).
Defined.

Lemma election_agreement_witness :
  exists w m1' m2', elect_by_lowest_id false fed_a 1 = Some (Some w, m1') /\
                    elect_by_lowest_id false fed_b 2 = Some (Some w, m2').
Proof.
  apply (election_agreement false fed_a fed_b 1 2); [vm_compute; reflexivity..|].
  intros id. split; (intros [->|(c & Hc & <-)];
    [right; eexists; split; [left|reflexivity]|]);
    vm_compute in Hc; apply list_elem_of_singleton in Hc; subst c; left; reflexivity.
Defined.

Lemma federation_consistent_witness :
  fed_role fed_a = Coordinator <-> elected (election fed_a) = Some "a"%string.
Proof.
  apply (federation_consistent false 0 (mkFederationConfig "a" "" [] 1 1 1) fed_a).
  eapply fed_next; [apply fed_init|]. apply fs_heartbeat.
Defined.

Lemma same_term_redeclared_witness :
  coordinator (declare_coordinator (declare_coordinator fed_a 1 "a").2 1 "b").2 = Some "b"%string.
Proof. apply (same_term_redeclared fed_a 1 "a" "b"). vm_compute. discriminate. Defined.

Lemma term_wraps_witness :
  start_election true (declare_coordinator fed_a u64_max "b").2 7 = None /\
  fst <$> start_election false (declare_coordinator fed_a u64_max "b").2 7 = Some 0%N.
Proof.
  destruct (term_wraps fed_a "b" 7) as (_ & H1 & m2 & H2 & _); [vm_compute; discriminate|].
  split; [exact H1|]. by rewrite H2.
Defined.
