(* ===== verification/Coordinator.v ===== *)
(** * Fleet coordinator and topology scores (fleet/coordinator.rs, fleet/topology.rs)

    Fan-out of tasks to nodes, failover with bounded retries, and the
    interconnect score of a node. *)

From S2P Require Import Prelude.
From S2P Require Import F64.
From S2P Require Import Resource.
From S2P Require Import Core.
From S2P Require Import FleetState.
From stdpp Require Import base gmap fin_maps fin_sets strings numbers list.

Inductive FleetTaskStatus := FPending | FAssigned | FRunning | FCompleted | FFailed | FReassigned.
#[export] Instance FleetTaskStatus_eq_dec : EqDecision FleetTaskStatus.
Proof. solve_decision. Defined.

Record FleetTask := mkFleetTask {
  ft_task_id : Uuid;
  ft_description : string;
  assigned_node : option NodeId;
  ft_status : FleetTaskStatus;
}.

Inductive FailoverAction := Retry | Exhausted | UnknownTask.

Definition MAX_RETAINED_TASKS : nat := N.to_nat 10000.

Record FleetCoordinator := mkFleetCoordinator {
  state_manager : CrewStateManager;
  fleet_tasks : gmap Uuid FleetTask;
  fleet_max_retries : N;
  retry_counts : gmap Uuid N;
}.

Definition with_max_retries (n : N) : FleetCoordinator :=
  mkFleetCoordinator CrewStateManager_new ∅ n ∅.
Definition FleetCoordinator_new : FleetCoordinator := with_max_retries 3.

(** The sharding planner belongs to ai-hwaccel. *)
Definition plan_sharding {Registry Quant Plan : Type} (crate_plan : Registry -> N -> Quant -> Plan)
    (model_params : N) (quant : Quant) (registry : Registry) : Plan :=
  crate_plan registry model_params quant.

Definition set_tasks (c : FleetCoordinator) (ts : gmap Uuid FleetTask) : FleetCoordinator :=
  mkFleetCoordinator (state_manager c) ts (fleet_max_retries c) (retry_counts c).
Definition with_ft_status (st : FleetTaskStatus) (t : FleetTask) : FleetTask :=
  mkFleetTask (ft_task_id t) (ft_description t) (assigned_node t) st.

Definition is_finished (t : FleetTask) : bool :=
  bool_decide (ft_status t = FCompleted) || bool_decide (ft_status t = FFailed).

Section coordinator.
Context `{!HashIter Uuid DistributedCrewState} `{!HashIter Uuid FleetTask} `{!HashIter NodeId N}.

Definition evict_completed_tasks (c : FleetCoordinator) : FleetCoordinator :=
  if (MAX_RETAINED_TASKS <=? size (fleet_tasks c))%nat then
    let to_remove := map fst (List.filter (fun kt => is_finished kt.2) (hash_iter (fleet_tasks c))) in
    foldl (fun c id => mkFleetCoordinator (state_manager c) (delete id (fleet_tasks c))
                         (fleet_max_retries c) (delete id (retry_counts c))) c to_remove
  else c.

(** The loop over [tasks]: nodes used, tasks per node, registered tasks. *)
Definition fan_out_one (assignment : gmap Uuid NodeId)
    (acc : gset NodeId * gmap NodeId N * gmap Uuid FleetTask) (task : Uuid * string) :=
  let '(nodes, per_node, ts) := acc in
  match assignment !! task.1 with
  | Some n =>
      ({[n]} ∪ nodes, <[n := (default 0 (per_node !! n) + 1)%N]> per_node,
       <[task.1 := mkFleetTask task.1 task.2 (Some n) FAssigned]> ts)
  | None => (nodes, per_node, <[task.1 := mkFleetTask task.1 task.2 None FPending]> ts)
  end.

Definition fan_out (c : FleetCoordinator) (fresh : Uuid) (now : Z) (tasks : list (Uuid * string))
    (assignments : list (Uuid * NodeId)) : Uuid * FleetCoordinator :=
  let c := evict_completed_tasks c in
  let assignment := foldl (fun m an => <[an.1 := an.2]> m) ∅ assignments in
  let '(nodes, per_node, ts) := foldl (fan_out_one assignment) (∅, ∅, fleet_tasks c) tasks in
  let max_tasks := default 0%N (max_by N.leb (hash_values per_node)) in
  let (id, sm) := create_run (state_manager c) fresh now nodes max_tasks in
  (id, mkFleetCoordinator sm ts (fleet_max_retries c) (retry_counts c)).

Definition task_completed (c : FleetCoordinator) (id : Uuid) : bool * FleetCoordinator :=
  match fleet_tasks c !! id with
  | None => (false, c)
  | Some t => (true, set_tasks c (<[id := with_ft_status FCompleted t]> (fleet_tasks c)))
  end.

Definition task_failed (c : FleetCoordinator) (id : Uuid) : FailoverAction * FleetCoordinator :=
  match fleet_tasks c !! id with
  | None => (UnknownTask, c)
  | Some t =>
      let count := (default 0 (retry_counts c !! id) + 1)%N in
      let retry := (count <? fleet_max_retries c)%N in
      let st := if retry then FReassigned else FFailed in
      (if retry then Retry else Exhausted,
       mkFleetCoordinator (state_manager c) (<[id := with_ft_status st t]> (fleet_tasks c))
         (fleet_max_retries c) (<[id := count]> (retry_counts c)))
  end.

Definition tasks_for_node (c : FleetCoordinator) (n : NodeId) : list FleetTask :=
  List.filter (fun t => bool_decide (assigned_node t = Some n)) (hash_values (fleet_tasks c)).

Definition is_complete (c : FleetCoordinator) : bool :=
  forallb is_finished (hash_values (fleet_tasks c)).

Definition completion_pct (c : FleetCoordinator) : f64 :=
  if bool_decide (fleet_tasks c = ∅) then f64_one
  else
    let completed := length (List.filter (fun t => bool_decide (ft_status t = FCompleted))
                               (hash_values (fleet_tasks c))) in
    f64_div (f64_of_nat completed) (f64_of_nat (size (fleet_tasks c))).

Definition pending_reassignment (c : FleetCoordinator) : list FleetTask :=
  List.filter (fun t => bool_decide (ft_status t = FReassigned)) (hash_values (fleet_tasks c)).

Definition reassign (c : FleetCoordinator) (id : Uuid) (n : NodeId) : bool * FleetCoordinator :=
  match fleet_tasks c !! id with
  | None => (false, c)
  | Some t =>
      (true, set_tasks c (<[id := mkFleetTask (ft_task_id t) (ft_description t) (Some n) FAssigned]>
                            (fleet_tasks c)))
  end.

(** ** Theorems *)

Lemma task_failed_known c id t k :
  fleet_tasks c !! id = Some t -> default 0%N (retry_counts c !! id) = k ->
  exists t', (task_failed c id).1 = (if (k + 1 <? fleet_max_retries c)%N then Retry else Exhausted) /\
    fleet_tasks (task_failed c id).2 !! id = Some t' /\
    ft_status t' = (if (k + 1 <? fleet_max_retries c)%N then FReassigned else FFailed) /\
    retry_counts (task_failed c id).2 !! id = Some (k + 1)%N /\
    fleet_max_retries (task_failed c id).2 = fleet_max_retries c.
Proof.
  intros Ht <-. unfold task_failed. rewrite Ht. simpl. rewrite !lookup_insert_eq.
  eexists. by split_and!.
Qed.

(** The coordinator reports completion exactly when every registered task
    is completed or has terminally failed. *)
Theorem is_complete_correct c :
  is_complete c = true <->
  forall id t, fleet_tasks c !! id = Some t -> ft_status t = FCompleted \/ ft_status t = FFailed.
Proof.
  unfold is_complete. rewrite forallb_forall. split.
  - intros H id t Ht. specialize (H t). rewrite <-list_elem_of_In, elem_of_hash_values in H.
    specialize (H (ex_intro _ id Ht)). unfold is_finished in H.
    apply orb_true_iff in H as [?%bool_decide_eq_true|?%bool_decide_eq_true]; auto.
  - intros H t Ht. apply list_elem_of_In, elem_of_hash_values in Ht as [id Ht]. unfold is_finished.
    destruct (H id t Ht) as [->| ->]; [|rewrite orb_true_r]; done.
Qed.

Lemma fan_out_fold assignment tasks acc id :
  NoDup (map fst tasks) ->
  (foldl (fan_out_one assignment) acc tasks).2 !! id =
  match List.find (fun t => bool_decide (t.1 = id)) tasks with
  | Some t => Some (mkFleetTask t.1 t.2 (assignment !! t.1)
                      (match assignment !! t.1 with Some _ => FAssigned | None => FPending end))
  | None => acc.2 !! id
  end.
Proof.
  revert acc. induction tasks as [|[tid d] tasks IH]; intros [[ns pn] ts] Hnd; cbn [foldl List.find fst]; [done|].
  simpl in Hnd. apply NoDup_cons in Hnd as [Hni Hnd].
  assert (forall x, (fan_out_one assignment (ns, pn, ts) x).2 =
    <[x.1 := mkFleetTask x.1 x.2 (assignment !! x.1)
       (match assignment !! x.1 with Some _ => FAssigned | None => FPending end)]> ts) as Hone.
  { intros x. unfold fan_out_one. by destruct (assignment !! x.1). }
  rewrite IH by done. case_bool_decide as E.
  - subst id. destruct (List.find _ tasks) as [t|] eqn:Ef.
    + exfalso. apply List.find_some in Ef as [Hin He]. apply bool_decide_eq_true in He.
      apply Hni. rewrite <-He. apply list_elem_of_fmap. exists t. split; [done|]. by apply list_elem_of_In.
    + rewrite Hone. simpl. by rewrite lookup_insert_eq.
  - destruct (List.find _ tasks); [done|]. rewrite Hone. simpl. by rewrite lookup_insert_ne.
Qed.
End coordinator.

(** ** Topology scores *)

Inductive InterconnectType := Pcie | NvLink | Xgmi | Cxl.

Record DeviceLink := mkDeviceLink {
  device_a : nat;
  device_b : nat;
  interconnect : InterconnectType;
  bandwidth_gbps : f64;
}.
Record NodeTopology := mkNodeTopology { links : list DeviceLink }.

Definition high_bandwidth (t : NodeTopology) : nat :=
  length (List.filter (fun l => f64_ge (bandwidth_gbps l) (f64_of_N 50)) (links t)).

Definition topology_score (t : NodeTopology) (inv : HardwareInventory) : f64 :=
  let n := length (List.filter (fun d => negb (bool_decide (accelerator d = Cpu))) (devices inv)) in
  if (n <=? 1)%nat then f64_one
  else match links t with
       | [] => f64_zero
       | _ =>
           let total_pairs := (n * (n - 1) / 2)%nat in
           if (total_pairs =? 0)%nat then f64_one
           else f64_div (f64_of_nat (high_bandwidth t)) (f64_of_nat total_pairs)
       end.

Definition supports_tensor_parallel (t : NodeTopology) (device_count : nat) : bool :=
  if (device_count <=? 1)%nat then true else (device_count - 1 <=? high_bandwidth t)%nat.

(** A node with more fast links is at least as capable. *)
Lemma supports_tensor_parallel_monotone t1 t2 n k :
  high_bandwidth t1 <= high_bandwidth t2 -> k <= n ->
  supports_tensor_parallel t1 n = true -> supports_tensor_parallel t2 k = true.
Proof.
  unfold supports_tensor_parallel. intros Hh Hk.
  destruct (Nat.leb_spec n 1), (Nat.leb_spec k 1); try done; rewrite ?Nat.leb_le; lia.
Qed.

(** Links are counted with repetition, so the topology score, documented to
    lie between 0.0 and 1.0, can exceed 1.0. *)
Theorem topology_score_exceeds_one :
  let l := mkDeviceLink 0 1 NvLink (f64_of_N 300) in
  let inv := mkHardwareInventory 8 0
    [ComputeDevice_new 0 "g0" Cuda 80; ComputeDevice_new 1 "g1" Cuda 80] in
  f64_gt (topology_score (mkNodeTopology [l; l]) inv) f64_one = true.
Proof. vm_compute. reflexivity. Qed.
