(* ===== verification/FleetRun.v ===== *)
(** * The coordinator in use (fleet/coordinator.rs with fleet/state.rs)

    Any sequence of calls of the coordinator's public operations, with any
    arguments: crews are fanned out with any assignment of nodes, any task is
    reported completed or failed at any time, and any task is given to any node.
    The operations do not restrict their callers, and neither does this file. *)

From S2P Require Import Prelude.
From S2P Require Import F64.
From S2P Require Import Resource.
From S2P Require Import Core.
From S2P Require Import FleetState.
From S2P Require Import Coordinator.
From stdpp Require Import base gmap fin_maps strings numbers list.

Section calls.
Context `{!HashIter Uuid DistributedCrewState} `{!HashIter Uuid FleetTask} `{!HashIter NodeId N}.

Inductive CoordinatorCall :=
| CallFanOut (run : Uuid) (utc : Z) (tasks : list (Uuid * string)) (assignments : list (Uuid * NodeId))
| CallCompleted (id : Uuid)
| CallFailed (id : Uuid)
| CallReassign (id : Uuid) (n : NodeId).

Definition coordinator_apply (c : FleetCoordinator) (call : CoordinatorCall) : FleetCoordinator :=
  match call with
  | CallFanOut run utc tasks assignments => (fan_out c run utc tasks assignments).2
  | CallCompleted id => (task_completed c id).2
  | CallFailed id => (task_failed c id).2
  | CallReassign id n => (reassign c id n).2
  end.
Definition coordinator_run (c : FleetCoordinator) (l : list CoordinatorCall) : FleetCoordinator :=
  foldl coordinator_apply c l.

Definition is_fan_out (call : CoordinatorCall) : bool := match call with CallFanOut _ _ _ _ => true | _ => false end.
Definition run_ids (l : list CoordinatorCall) : list Uuid :=
  omap (fun call => match call with CallFanOut run _ _ _ => Some run | _ => None end) l.

(** ** Failover *)

(** What the coordinator answers to the failures reported for a task. *)
Fixpoint failure_answers (c : FleetCoordinator) (id : Uuid) (l : list CoordinatorCall) : list FailoverAction :=
  match l with
  | [] => []
  | call :: l =>
      let rest := failure_answers (coordinator_apply c call) id l in
      match call with
      | CallFailed id' => if decide (id' = id) then (task_failed c id).1 :: rest else rest
      | _ => rest
      end
  end.

(** A call that is no fan-out and no failure of the task leaves its count alone. *)
Lemma other_call_keeps_count c id call :
  is_fan_out call = false -> call <> CallFailed id -> is_Some (fleet_tasks c !! id) ->
  retry_counts (coordinator_apply c call) !! id = retry_counts c !! id /\
  fleet_max_retries (coordinator_apply c call) = fleet_max_retries c /\
  is_Some (fleet_tasks (coordinator_apply c call) !! id).
Proof.
  intros Hf Hne Hid. destruct call as [run utc tasks asg|k|k|k n]; [done|..]; cbn [coordinator_apply];
    unfold task_completed, task_failed, reassign; destruct (fleet_tasks c !! k) as [t|]; cbn; [|done| |done| |done];
    rewrite ?lookup_insert_is_Some; (split_and!; [|done|destruct (decide (k = id)); tauto]); [done| |done].
  rewrite lookup_insert_ne; [done|]. intros ->. done.
Qed.

Lemma failure_answers_spec c id l k :
  is_Some (fleet_tasks c !! id) -> default 0%N (retry_counts c !! id) = k ->
  forallb (fun call => negb (is_fan_out call)) l = true ->
  failure_answers c id l =
    map (fun i => if (k + N.of_nat i + 1 <? fleet_max_retries c)%N then Retry else Exhausted)
      (seq 0 (length (failure_answers c id l))).
Proof.
  revert c k. induction l as [|call l IH]; intros c k [t Ht] Hk Hno; [done|].
  cbn [forallb] in Hno. apply andb_prop in Hno as [Hf%negb_true_iff Hno]. cbn [failure_answers].
  assert (call <> CallFailed id -> failure_answers (coordinator_apply c call) id l =
    map (fun i => if (k + N.of_nat i + 1 <? fleet_max_retries c)%N then Retry else Exhausted)
      (seq 0 (length (failure_answers (coordinator_apply c call) id l)))) as Hother.
  { intros Hne. destruct (other_call_keeps_count c id call Hf Hne) as (Hr & Hm & Hs); [by exists t|].
    rewrite <-Hm. apply IH; [done|by rewrite Hr|done]. }
  destruct call as [| |id'|]; [done|by apply Hother| |by apply Hother].
  case_decide as E; [subst id'|apply Hother; by intros [= ->]].
  destruct (task_failed_known c id t k Ht Hk) as (t' & Ha & Ht' & _ & Hr & Hm).
  cbn [coordinator_apply length seq map]. rewrite Ha, N.add_0_r. f_equal.
  rewrite (IH _ (k + 1)%N) by (first [by exists t'|by rewrite Hr|done]). rewrite length_map, length_seq, Hm.
  rewrite <-seq_shift, List.map_map. apply map_ext. intros i.
  by replace (k + 1 + N.of_nat i + 1)%N with (k + N.of_nat (S i) + 1)%N by lia.
Qed.


(** ** The runs the coordinator creates *)

(** Eviction forgets some finished tasks, with their counts, and nothing else. *)
Lemma forget_lookup ids c id :
  let c' := foldl (fun c id => mkFleetCoordinator (state_manager c) (delete id (fleet_tasks c))
                     (fleet_max_retries c) (delete id (retry_counts c))) c ids in
  fleet_tasks c' !! id = (if decide (id ∈ ids) then None else fleet_tasks c !! id) /\
  retry_counts c' !! id = (if decide (id ∈ ids) then None else retry_counts c !! id) /\
  state_manager c' = state_manager c /\ fleet_max_retries c' = fleet_max_retries c.
Proof.
  revert c. induction ids as [|k ids IH]; intros c; cbn [foldl]; [done|].
  destruct (IH (mkFleetCoordinator (state_manager c) (delete k (fleet_tasks c)) (fleet_max_retries c)
    (delete k (retry_counts c)))) as (-> & -> & -> & ->). simpl.
  destruct (decide (id ∈ ids)) as [Hin|Hni]; [by rewrite !decide_True by (by right)|].
  destruct (decide (id = k)) as [<-|Hne].
  - rewrite !lookup_delete_eq, !decide_True by (by left). done.
  - rewrite !lookup_delete_ne, !decide_False by (done || (by rewrite elem_of_cons; tauto)). done.
Qed.

Lemma evict_completed_lookup c id :
  let c' := evict_completed_tasks c in
  state_manager c' = state_manager c /\ fleet_max_retries c' = fleet_max_retries c /\
  ((fleet_tasks c' !! id = fleet_tasks c !! id /\ retry_counts c' !! id = retry_counts c !! id) \/
   (exists t, fleet_tasks c !! id = Some t /\ is_finished t = true /\
      fleet_tasks c' !! id = None /\ retry_counts c' !! id = None)).
Proof.
  unfold evict_completed_tasks. case_match; [|split_and!; by try left].
  match goal with |- context [foldl _ c ?l] => set (ids := l) end.
  destruct (forget_lookup ids c id) as (-> & -> & -> & ->). split_and!; [done..|].
  destruct (decide (id ∈ ids)) as [Hin|]; [right|by left].
  apply list_elem_of_fmap in Hin as ([id' t] & -> & [Hin Hf]%elem_of_List_filter).
  apply elem_of_hash_iter in Hin. by exists t.
Qed.

Lemma create_run_fresh m fresh now ns k :
  map_Forall (fun _ s => is_terminal (phase s) = false) (states m) ->
  states (create_run m fresh now ns k).2 =
    <[fresh := mkDistributedCrewState fresh Initializing false ns
        (set_to_map (fun id => (id, mkNodeProgress id 0 k None now)) ns) [] now now]> (states m).
Proof.
  intros Hm. unfold create_run. cbn [snd put_state states]. f_equal. apply map_eq. intros id.
  destruct (states m !! id) as [s|] eqn:E; [by eapply evict_keeps, Hm|by apply evict_None].
Qed.

Lemma fan_out_runs c run utc tasks asg :
  map_Forall (fun _ s => is_terminal (phase s) = false) (states (state_manager c)) ->
  exists ns k, states (state_manager (fan_out c run utc tasks asg).2) =
    <[run := mkDistributedCrewState run Initializing false ns
        (set_to_map (fun id => (id, mkNodeProgress id 0 k None utc)) ns) [] utc utc]> (states (state_manager c)).
Proof.
  intros Hm. unfold fan_out. destruct (foldl _ (_, fleet_tasks _) tasks) as [[ns pn] ts].
  destruct (evict_completed_lookup c 0%N) as (Hs & _). rewrite Hs.
  exists ns, (default 0%N (max_by N.leb (hash_values pn))). by apply create_run_fresh.
Qed.

Lemma quiet_call c call :
  is_fan_out call = false -> state_manager (coordinator_apply c call) = state_manager c.
Proof. destruct call; try done; intros _; cbn; unfold reassign, task_completed, task_failed; by case_match. Qed.

(** [C40] No run the coordinator creates ever makes progress: the coordinator only
    hands out its state manager for reading and tells it about no report, so
    after any sequence of calls the state manager holds every run ever fanned out, all
    still initializing with nothing completed on any node. None is ever evicted,
    whatever the limit on retained runs. *)
Theorem fan_out_runs_never_start max l :
  let runs := states (state_manager (coordinator_run (with_max_retries max) l)) in
  (forall id, is_Some (runs !! id) <-> id ∈ run_ids l) /\
  (forall id s, runs !! id = Some s ->
     phase s = Initializing /\ forall n p, node_progress s !! n = Some p -> tasks_completed p = 0%N).
Proof.
  cbv zeta. induction l as [|call l [Hids Hst]] using rev_ind.
  { split; [|done]. intros id. rewrite elem_of_nil. simpl. rewrite lookup_empty. split; [by intros []|done]. }
  unfold coordinator_run, run_ids in *. rewrite foldl_app, omap_app. cbn [foldl]. setoid_rewrite elem_of_app.
  set (c := foldl coordinator_apply (with_max_retries max) l) in *.
  destruct (is_fan_out call) eqn:Hf.
  - destruct call as [run utc tasks asg| | |]; try done. cbn [coordinator_apply].
    destruct (fan_out_runs c run utc tasks asg) as (ns & k & E);
      [intros id s Hs; by rewrite (proj1 (Hst id s Hs))|]. rewrite E. split.
    + intros id. simpl. rewrite lookup_insert_is_Some, list_elem_of_singleton, Hids.
      destruct (decide (run = id)) as [->|]; naive_solver.
    + intros id s [[<- <-]|[_ Hs]]%lookup_insert_Some; [|by apply (Hst id)]. split; [done|].
      intros n p Hp. simpl in Hp. apply lookup_set_to_map in Hp as (m & _ & Hm); [|intros; simplify_eq; done].
      by simplify_eq.
  - rewrite (quiet_call c call Hf). split; [|done].
    intros id. rewrite Hids. destruct call; try done; simpl; rewrite elem_of_nil; tauto.
Qed.
End calls.

(** ** A run of calls *)

#[local] Instance fleet_task_iter : HashIter Uuid FleetTask := canonical_iter.
#[local] Instance dist_iter : HashIter Uuid DistributedCrewState := canonical_iter.
#[local] Instance count_iter : HashIter string N := canonical_iter.

Definition two_tasks : FleetCoordinator :=
  coordinator_run (with_max_retries 3)
    [CallFanOut 7 1 [(1%N, "train"); (2%N, "report")] [(1%N, "gpu"); (2%N, "cpu")]]%string.

