(* ===== verification/Ipc.v ===== *)
(** * Length-prefixed IPC (orchestrator/ipc.rs)

    [write_frame] and [read_frame] over a byte stream, [send] and [recv] on top
    of them. The Unix socket and the JSON codec are not part of the repository:
    the socket is an instance of the class [Stream], whose laws [StreamLaws]
    state what a connected socket does, and the codec is a pair of parameters.
    Binding, accepting and connecting are the operating system's answers with the
    errors the code makes of them; a connection has one stream each way. *)

From S2P Require Import Prelude.
From S2P Require Import F64.
From S2P Require Import Resource.
From S2P Require Import Core.
From Stdlib Require Import Strings.Byte String.
From stdpp Require Import base gmap strings pretty numbers list.

Local Open Scope string_scope.
#[local] Arguments String.append !_ _ / : simpl nomatch.

(** ** Sockets *)

Inductive IoError := UnexpectedEof (text : string) | OtherIo (text : string).

Definition io_text (e : IoError) : string :=
  match e with UnexpectedEof s | OtherIo s => s end.

(** One direction of a connection: what is written at one end is read at the other. *)
Class Stream (S : Type) := {
  write_all : S -> list byte -> Result unit IoError * S;
  flush : S -> Result unit IoError * S;
  read_exact : S -> nat -> Result (list byte) IoError * S;
}.

(** [pending s]: the bytes that are written and not yet read. A write that
    succeeds appends them all, a read that finds enough bytes takes exactly
    those, in order. *)
Class StreamLaws (S : Type) `{!Stream S} := {
  pending : S -> list byte;
  write_all_ok s bs s' : write_all s bs = (Ok tt, s') -> pending s' = (pending s ++ bs)%list;
  flush_ok s r s' : flush s = (r, s') -> pending s' = pending s;
  read_exact_ok s n : (n <= length (pending s))%nat ->
    exists s', read_exact s n = (Ok (take n (pending s)), s') /\ pending s' = drop n (pending s);
  read_exact_sound s n bs s' : read_exact s n = (Ok bs, s') ->
    bs = take n (pending s) /\ length bs = n /\ pending s' = drop n (pending s);
}.

(** ** Words as bytes *)

Definition MAX_FRAME_SIZE : N := (16 * 1024 * 1024)%N.

Definition byte_of (n : N) : byte := default x00 (Byte.of_N (n mod 256)%N).

(** [u32::to_be_bytes] and [u32::from_be_bytes] *)
Definition to_be_bytes (n : N) : list byte :=
  [byte_of (n / 2 ^ 24); byte_of (n / 2 ^ 16); byte_of (n / 2 ^ 8); byte_of n]%N.

Definition from_be_bytes (bs : list byte) : N :=
  foldl (fun acc b => acc * 256 + Byte.to_N b)%N 0%N bs.

(** ** Frames *)

Section frames.
Context {S : Type} `{!Stream S}.

Definition ipc_error {A} (text : string) : Result A AgnosaiError := Err (Ipc text).

Definition too_large (len : N) : string :=
  "frame size " ++ pretty len ++ " exceeds maximum " ++ pretty MAX_FRAME_SIZE.

Definition write_frame (s : S) (data : list byte) : Result unit AgnosaiError * S :=
  let size := N.of_nat (length data) in
  if (u32_max <? size)%N then (ipc_error ("frame too large: " ++ pretty size ++ " bytes"), s)
  else if (MAX_FRAME_SIZE <? size)%N then (ipc_error (too_large size), s)
  else
    match write_all s (to_be_bytes size) with
    | (Err e, s1) => (ipc_error ("write length failed: " ++ io_text e), s1)
    | (Ok _, s1) =>
        match write_all s1 data with
        | (Err e, s2) => (ipc_error ("write payload failed: " ++ io_text e), s2)
        | (Ok _, s2) =>
            match flush s2 with
            | (Err e, s3) => (ipc_error ("flush failed: " ++ io_text e), s3)
            | (Ok _, s3) => (Ok tt, s3)
            end
        end
    end.

Definition read_frame (s : S) : Result (list byte) AgnosaiError * S :=
  match read_exact s 4 with
  | (Err (UnexpectedEof _), s1) => (ipc_error "peer disconnected (EOF on length read)", s1)
  | (Err e, s1) => (ipc_error ("read length failed: " ++ io_text e), s1)
  | (Ok len_buf, s1) =>
      let len := from_be_bytes len_buf in
      if (len =? 0)%N then (ipc_error "empty frame (zero-length)", s1)
      else if (MAX_FRAME_SIZE <? len)%N then (ipc_error (too_large len), s1)
      else
        match read_exact s1 (N.to_nat len) with
        | (Err (UnexpectedEof _), s2) =>
            (ipc_error ("peer disconnected mid-frame (expected " ++ pretty len ++ " bytes)"), s2)
        | (Err e, s2) => (ipc_error ("read payload failed: " ++ io_text e), s2)
        | (Ok buf, s2) => (Ok buf, s2)
        end
  end.
End frames.

(** ** Messages *)

Section messages.
Context {S : Type} `{!Stream S}.
Context (to_vec : Value -> Result (list byte) string) (from_slice : list byte -> Result Value string).

Definition ipc_send (s : S) (payload : Value) : Result unit AgnosaiError * S :=
  match to_vec payload with
  | Err e => (Err (Serialization e), s)
  | Ok data => write_frame s data
  end.

Definition ipc_recv (s : S) : Result Value AgnosaiError * S :=
  match read_frame s with
  | (Err e, s1) => (Err e, s1)
  | (Ok data, s1) =>
      match from_slice data with
      | Err e => (Err (Serialization e), s1)
      | Ok value => (Ok value, s1)
      end
  end.

(** A producer that sends a list of payloads and a consumer that receives [n]. *)
Fixpoint send_all (s : S) (vs : list Value) : Result unit AgnosaiError * S :=
  match vs with
  | [] => (Ok tt, s)
  | v :: vs => match ipc_send s v with
               | (Ok _, s1) => send_all s1 vs
               | (Err e, s1) => (Err e, s1)
               end
  end.

Fixpoint recv_all (s : S) (n : nat) : Result (list Value) AgnosaiError * S :=
  match n with
  | O => (Ok [], s)
  | Datatypes.S n =>
      match ipc_recv s with
      | (Err e, s1) => (Err e, s1)
      | (Ok v, s1) => match recv_all s1 n with
                      | (Ok vs, s2) => (Ok (v :: vs), s2)
                      | (Err e, s2) => (Err e, s2)
                      end
      end
  end.
End messages.

(** ** Sockets and connections *)

Inductive RemoveError := NotFound | OtherRemove (text : string).

(** [removed], [bound]: the answers of [remove_file] and of [UnixListener::bind]. *)
Definition IpcServer_bind {L : Type} (removed : Result unit RemoveError) (bound : Result L string)
    : Result L AgnosaiError :=
  let go := match bound with Ok l => Ok l | Err e => ipc_error ("failed to bind socket: " ++ e) end in
  match removed with
  | Ok _ | Err NotFound => go
  | Err (OtherRemove e) => ipc_error ("failed to remove stale socket: " ++ e)
  end.
Definition IpcServer_accept {C : Type} (accepted : Result C string) : Result C AgnosaiError :=
  match accepted with Ok c => Ok c | Err e => ipc_error ("accept failed: " ++ e) end.
Definition IpcClient_connect {C : Type} (connected : Result C string) : Result C AgnosaiError :=
  match connected with Ok c => Ok c | Err e => ipc_error ("connect failed: " ++ e) end.

(** The two streams of a connection. *)
Record Duplex (S : Type) := mkDuplex { to_server : S; to_client : S }.
Arguments mkDuplex {S}. Arguments to_server {S}. Arguments to_client {S}.

Section endpoints.
Context {S : Type} `{!Stream S}.
Context (to_vec : Value -> Result (list byte) string) (from_slice : list byte -> Result Value string).

Definition IpcClient_send (d : Duplex S) (payload : Value) : Result unit AgnosaiError * Duplex S :=
  let '(r, s) := ipc_send to_vec (to_server d) payload in (r, mkDuplex s (to_client d)).
Definition IpcClient_recv (d : Duplex S) : Result Value AgnosaiError * Duplex S :=
  let '(r, s) := ipc_recv from_slice (to_client d) in (r, mkDuplex (to_server d) s).
Definition IpcConnection_send (d : Duplex S) (payload : Value) : Result unit AgnosaiError * Duplex S :=
  let '(r, s) := ipc_send to_vec (to_client d) payload in (r, mkDuplex (to_server d) s).
Definition IpcConnection_recv (d : Duplex S) : Result Value AgnosaiError * Duplex S :=
  let '(r, s) := ipc_recv from_slice (to_server d) in (r, mkDuplex s (to_client d)).

(** A client that asks and waits, and a server that answers each request. *)
Definition ask (answer : Value -> Value) (d : Duplex S) (v : Value) : Result Value AgnosaiError * Duplex S :=
  match IpcClient_send d v with
  | (Err e, d) => (Err e, d)
  | (Ok _, d) =>
      match IpcConnection_recv d with
      | (Err e, d) => (Err e, d)
      | (Ok q, d) =>
          match IpcConnection_send d (answer q) with
          | (Err e, d) => (Err e, d)
          | (Ok _, d) => IpcClient_recv d
          end
      end
  end.
Fixpoint converse (answer : Value -> Value) (d : Duplex S) (vs : list Value) : Result (list Value) AgnosaiError * Duplex S :=
  match vs with
  | [] => (Ok [], d)
  | v :: vs =>
      match ask answer d v with
      | (Err e, d) => (Err e, d)
      | (Ok a, d) =>
          match converse answer d vs with
          | (Ok l, d) => (Ok (a :: l), d)
          | (Err e, d) => (Err e, d)
          end
      end
  end.
End endpoints.

(** ** Encoding lemmas *)

Lemma byte_of_to_N n : Byte.to_N (byte_of n) = (n mod 256)%N.
Proof.
  unfold byte_of. destruct (Byte.of_N (n mod 256)) as [b|] eqn:E; simpl.
  - by apply Byte.to_of_N.
  - apply Byte.of_N_None_iff in E. pose proof (N.mod_lt n 256 ltac:(lia)). lia.
Qed.

Lemma be_bytes_roundtrip n : (n < 2 ^ 32)%N -> from_be_bytes (to_be_bytes n) = n.
Proof.
  intros Hn. unfold from_be_bytes, to_be_bytes. cbn [foldl].
  rewrite !byte_of_to_N.
  change (2 ^ 24)%N with (256 * (256 * 256))%N. change (2 ^ 16)%N with (256 * 256)%N.
  change (2 ^ 8)%N with 256%N.
  rewrite <- !N.Div0.div_div.
  assert (n / 256 / (256 * 256) < 256)%N as Hs.
  { rewrite N.Div0.div_div. apply N.Div0.div_lt_upper_bound. exact Hn. }
  rewrite <- N.Div0.div_div in Hs.
  pose proof (N.div_mod' n 256). pose proof (N.div_mod' (n / 256) 256).
  pose proof (N.div_mod' (n / 256 / 256) 256).
  rewrite (N.mod_small (n / 256 / 256 / 256)) by exact Hs. lia.
Qed.

Lemma byte_of_exact n b : (n mod 256)%N = Byte.to_N b -> byte_of n = b.
Proof. intros H. unfold byte_of. by rewrite H, Byte.of_to_N. Qed.

Lemma div_mod_step q r : (r <= 255)%N -> ((q * 256 + r) / 256 = q /\ (q * 256 + r) mod 256 = r)%N.
Proof.
  intros Hr. split; symmetry;
    [apply (N.div_unique _ _ _ r)|apply (N.mod_unique _ _ q)]; lia.
Qed.

Lemma be_bytes_of_list bs : length bs = 4 -> to_be_bytes (from_be_bytes bs) = bs.
Proof.
  destruct bs as [|a [|b [|c [|d [|]]]]]; try discriminate. intros _.
  unfold from_be_bytes, to_be_bytes. cbn [foldl].
  change (2 ^ 24)%N with (256 * (256 * 256))%N. change (2 ^ 16)%N with (256 * 256)%N.
  change (2 ^ 8)%N with 256%N. rewrite <- !N.Div0.div_div.
  pose proof (Byte.to_N_bounded a) as Ha. pose proof (Byte.to_N_bounded b) as Hb.
  pose proof (Byte.to_N_bounded c) as Hc. pose proof (Byte.to_N_bounded d) as Hd.
  repeat f_equal; apply byte_of_exact;
    rewrite ?(proj1 (div_mod_step _ _ Hd)), ?(proj1 (div_mod_step _ _ Hc)),
      ?(proj1 (div_mod_step _ _ Hb)); apply div_mod_step; assumption.
Qed.

Lemma from_be_bytes_bound bs : (from_be_bytes bs < 256 ^ N.of_nat (length bs))%N.
Proof.
  unfold from_be_bytes. induction bs as [|b bs IH] using rev_ind; [simpl; lia|].
  rewrite foldl_app, length_app. simpl foldl. simpl length.
  replace (N.of_nat (length bs + 1)) with (N.succ (N.of_nat (length bs))) by lia.
  rewrite N.pow_succ_r'. pose proof (Byte.to_N_bounded b). nia.
Qed.

(** ** One frame *)

Section frame_proofs.
Context {S : Type} `{!Stream S} `{!StreamLaws S}.

Definition frame (data : list byte) : list byte :=
  (to_be_bytes (N.of_nat (length data)) ++ data)%list.

Lemma write_frame_pending s data s' :
  write_frame s data = (Ok tt, s') ->
  pending s' = (pending s ++ frame data)%list /\ (N.of_nat (length data) <= MAX_FRAME_SIZE)%N.
Proof.
  unfold write_frame. intros H.
  destruct (N.ltb_spec u32_max (N.of_nat (length data))); [discriminate H|].
  destruct (N.ltb_spec MAX_FRAME_SIZE (N.of_nat (length data))); [discriminate H|].
  destruct (write_all s _) as [[[]|] s1] eqn:W1; [|discriminate H].
  destruct (write_all s1 _) as [[[]|] s2] eqn:W2; [|discriminate H].
  destruct (flush s2) as [[[]|] s3] eqn:F; [|discriminate H].
  injection H as <-. apply write_all_ok in W1, W2. apply flush_ok in F.
  split; [|assumption]. rewrite F, W2, W1. unfold frame. by rewrite app_assoc.
Qed.

Lemma read_frame_pending s data rest :
  pending s = (frame data ++ rest)%list -> data <> [] ->
  (N.of_nat (length data) <= MAX_FRAME_SIZE)%N ->
  exists s', read_frame s = (Ok data, s') /\ pending s' = rest.
Proof.
  intros Hp Hne Hlen. unfold read_frame, frame in *.
  destruct (read_exact_ok s 4) as (s1 & -> & P1).
  { rewrite Hp, !length_app. simpl. lia. }
  assert (take 4 (pending s) = to_be_bytes (N.of_nat (length data))) as -> by (by rewrite Hp).
  assert (pending s1 = (data ++ rest)%list) as P1' by (by rewrite P1, Hp).
  rewrite be_bytes_roundtrip by (unfold MAX_FRAME_SIZE in *; lia).
  destruct (N.eqb_spec (N.of_nat (length data)) 0); [destruct data; [done|simpl in *; lia]|].
  destruct (N.ltb_spec MAX_FRAME_SIZE (N.of_nat (length data))); [lia|].
  rewrite Nat2N.id.
  destruct (read_exact_ok s1 (length data)) as (s2 & -> & P2).
  { rewrite P1', length_app. lia. }
  exists s2. rewrite P2, P1', take_app_length, drop_app_length. done.
Qed.

(** Whatever bytes a peer sends, a frame that [read_frame] accepts holds
    between 1 byte and 16 MiB, is announced by the length word in front of it,
    and reading it takes exactly these bytes from the stream. *)
Theorem read_frame_bounded s data s' :
  read_frame s = (Ok data, s') ->
  pending s = (frame data ++ pending s')%list /\
  (1 <= N.of_nat (length data) <= MAX_FRAME_SIZE)%N.
Proof.
  unfold read_frame. intros H.
  destruct (read_exact s 4) as [[len_buf|[]] s1] eqn:R1; try discriminate H.
  apply read_exact_sound in R1 as (Hbuf & L1 & P1).
  pose proof (from_be_bytes_bound len_buf) as Hb. rewrite L1 in Hb.
  destruct (N.eqb_spec (from_be_bytes len_buf) 0); [discriminate H|].
  destruct (N.ltb_spec MAX_FRAME_SIZE (from_be_bytes len_buf)); [discriminate H|].
  destruct (read_exact s1 _) as [[buf|[]] s2] eqn:R2; try discriminate H.
  injection H as <- <-. apply read_exact_sound in R2 as (Hd & L2 & P2).
  rewrite L2, N2Nat.id. split; [|lia].
  unfold frame. rewrite L2, N2Nat.id. rewrite be_bytes_of_list by exact L1.
  rewrite Hd, P2, P1, Hbuf, <- app_assoc, take_drop. by rewrite take_drop.
Qed.
End frame_proofs.

(** ** Message round trip *)

Section message_proofs.
Context {S : Type} `{!Stream S} `{!StreamLaws S}.
Context (to_vec : Value -> Result (list byte) string) (from_slice : list byte -> Result Value string).

(** A JSON text is never empty. *)
Definition prints_text : Prop := forall v, to_vec v <> Ok [].
(** The value is one that the codec reads back as it printed it: not all are, since
    serde_json reads some floats back as a neighbour and refuses nesting beyond 128. *)
Definition reads_back (v : Value) : Prop := forall bs, to_vec v = Ok bs -> from_slice bs = Ok v.

Lemma recv_pending (codec : prints_text) s v bs rest :
  reads_back v -> to_vec v = Ok bs -> pending s = (frame bs ++ rest)%list ->
  (N.of_nat (length bs) <= MAX_FRAME_SIZE)%N ->
  exists s', ipc_recv from_slice s = (Ok v, s') /\ pending s' = rest.
Proof.
  intros Hrb Hv Hp Hl. unfold ipc_recv.
  destruct (read_frame_pending s bs rest Hp) as (s' & -> & Hr); [|assumption|].
  { intros ->. by apply (codec v). }
  rewrite (Hrb _ Hv). by exists s'.
Qed.

(** [bs] is the encoding of [v] and fits in a frame. *)
Definition encodes (v : Value) (bs : list byte) : Prop :=
  to_vec v = Ok bs /\ (N.of_nat (length bs) <= MAX_FRAME_SIZE)%N.

Lemma send_all_pending vs : forall s s', send_all to_vec s vs = (Ok tt, s') ->
  exists bss, Forall2 encodes vs bss /\ pending s' = (pending s ++ concat (map frame bss))%list.
Proof.
  induction vs as [|v vs IH]; simpl; intros s s' Hs.
  - injection Hs as <-. exists []. split; [constructor|]. by rewrite app_nil_r.
  - unfold ipc_send in Hs. destruct (to_vec v) as [bs|] eqn:Hv; [|discriminate Hs].
    destruct (write_frame s bs) as [[[]|] s1] eqn:W; [|discriminate Hs].
    apply write_frame_pending in W as [P1 Hl].
    destruct (IH s1 s' Hs) as (bss & Hf & P). exists (bs :: bss).
    split; [by constructor|]. by rewrite P, P1, <- app_assoc.
Qed.

Lemma recv_all_pending (codec : prints_text) vs bss rest : Forall reads_back vs -> Forall2 encodes vs bss ->
  forall s, pending s = (concat (map frame bss) ++ rest)%list ->
  exists s', recv_all from_slice s (length vs) = (Ok vs, s') /\ pending s' = rest.
Proof.
  intros Hrb Hf. revert Hrb.
  induction Hf as [|v bs vs bss [Hv Hl] _ IH]; simpl; intros Hrb s Hp; [by exists s|].
  apply Forall_cons in Hrb as [Hr Hrb]. rewrite <- app_assoc in Hp.
  destruct (recv_pending codec s v bs _ Hr Hv Hp Hl) as (s1 & -> & P1).
  destruct (IH Hrb s1 P1) as (s2 & -> & P2). by exists s2.
Qed.

(** Messages arrive intact and in order: after any sequence of values that the
    codec reads back was sent successfully into an idle connection, the peer that receives as many
    values gets exactly this sequence and leaves nothing in the stream. *)
Theorem ipc_roundtrip (codec : prints_text) s s' vs :
  Forall reads_back vs -> pending s = [] -> send_all to_vec s vs = (Ok tt, s') ->
  exists s'', recv_all from_slice s' (length vs) = (Ok vs, s'') /\ pending s'' = [].
Proof.
  intros Hrb Hidle Hs. destruct (send_all_pending vs s s' Hs) as (bss & Hf & P).
  apply (recv_all_pending codec vs bss [] Hrb Hf).
  by rewrite P, Hidle, app_nil_r.
Qed.

Definition idle (d : Duplex S) : Prop := pending (to_server d) = [] /\ pending (to_client d) = [].

Lemma ipc_send_pending s v s' :
  ipc_send to_vec s v = (Ok tt, s') -> exists bs, encodes v bs /\ pending s' = (pending s ++ frame bs)%list.
Proof.
  unfold ipc_send. destruct (to_vec v) as [bs|] eqn:Hv; [|done]. intros [P Hl]%write_frame_pending.
  exists bs. by repeat split.
Qed.

(** A value sent into an idle stream is the next one received, which leaves it idle. *)
Lemma send_recv (codec : prints_text) s v s' :
  reads_back v -> pending s = [] -> ipc_send to_vec s v = (Ok tt, s') ->
  exists s'', ipc_recv from_slice s' = (Ok v, s'') /\ pending s'' = [].
Proof.
  intros Hrb Hidle (bs & [Hv Hl] & P)%ipc_send_pending. rewrite Hidle in P.
  apply (recv_pending codec s' v bs [] Hrb Hv); [|done]. by rewrite P, app_nil_r.
Qed.

Lemma ask_answered (codec : prints_text) answer d v r d' :
  reads_back v -> reads_back (answer v) -> idle d -> ask to_vec from_slice answer d v = (Ok r, d') -> r = answer v /\ idle d'.
Proof.
  intros Rv Ra [H1 H2]. unfold ask, IpcClient_send, IpcConnection_recv, IpcConnection_send, IpcClient_recv.
  destruct (ipc_send to_vec (to_server d) v) as [[[]|e] s1] eqn:E1; [|done]. cbn [to_server to_client].
  destruct (send_recv codec _ _ _ Rv H1 E1) as (s2 & -> & P2). cbn [to_server to_client].
  destruct (ipc_send to_vec (to_client d) (answer v)) as [[[]|e] s3] eqn:E3; [|done]. cbn [to_server to_client].
  destruct (send_recv codec _ _ _ Ra H2 E3) as (s4 & -> & P4). cbn [to_server to_client].
  intros [= <- <-]. by split.
Qed.

(** [C27] A conversation over IPC is a function call: on an idle connection, whatever
    requests a client sends one after the other, if the calls succeed, and the
    requests and the answers to them are values that the JSON codec reads back as it
    printed them, it receives for each request exactly the server's answer to that
    request, in order, and the connection is idle again. *)
Theorem ipc_conversation (codec : prints_text) answer d vs rs d' :
  Forall (fun v => reads_back v /\ reads_back (answer v)) vs ->
  idle d -> converse to_vec from_slice answer d vs = (Ok rs, d') -> rs = map answer vs /\ idle d'.
Proof.
  intros Hrb. revert d rs. induction Hrb as [|v vs [Rv Ra] _ IH]; intros d rs Hd; cbn [converse]; [intros [= <- <-]; by split|].
  destruct (ask to_vec from_slice answer d v) as [[r|e] d1] eqn:Ea; [|done].
  destruct (ask_answered codec _ _ _ _ _ Rv Ra Hd Ea) as [-> Hd1].
  destruct (converse to_vec from_slice answer d1 vs) as [[l|e] d2] eqn:Ec; [|done]. intros [= <- <-].
  destruct (IH d1 l Hd1 Ec) as [-> ?]. by split.
Qed.
End message_proofs.

(** ** A pipe in memory *)

#[local] Instance pipe : Stream (list byte) := {|
  write_all s bs := (Ok tt, (s ++ bs)%list);
  flush s := (Ok tt, s);
  read_exact s n :=
    if (n <=? length s)%nat then (Ok (take n s), drop n s)
    else (Err (UnexpectedEof "eof"), []);
|}.

#[local] Instance pipe_laws : StreamLaws (list byte).
Proof.
  refine {| pending := fun s => s |}; simpl.
  - intros s bs s' H. by injection H as <-.
  - intros s r s' H. by injection H as <- <-.
  - intros s n H. destruct (Nat.leb_spec n (length s)); [|lia]. eauto.
  - intros s n bs s' H. destruct (Nat.leb_spec n (length s)); [|discriminate H].
    injection H as <- <-. rewrite length_take. split_and!; [done|lia|done].
Defined.

(** A codec for the values of the samples. *)
Definition toy_to_vec (v : Value) : Result (list byte) string :=
  match v with
  | Bool true => Ok [x74]
  | Bool false => Ok [x66]
  | _ => Err "unsupported"
  end.
Definition toy_from_slice (bs : list byte) : Result Value string :=
  match bs with
  | [x74] => Ok (Bool true)
  | [x66] => Ok (Bool false)
  | _ => Err "unsupported"
  end.

Lemma toy_prints : prints_text toy_to_vec.
Proof. intros [|[]| | | |]; discriminate. Qed.
Lemma toy_reads_back b : reads_back toy_to_vec toy_from_slice (Bool b).
Proof. destruct b; intros bs [= <-]; reflexivity. Qed.

Lemma ipc_roundtrip_witness :
  exists s, send_all toy_to_vec ([] : list byte) [Bool true; Bool false] = (Ok tt, s) /\
  exists s'', recv_all toy_from_slice s 2 = (Ok [Bool true; Bool false], s'') /\ pending s'' = [].
Proof.
  eexists. split; [vm_compute; reflexivity|].
  eapply (ipc_roundtrip toy_to_vec toy_from_slice toy_prints [] _ [Bool true; Bool false]);
    [repeat constructor; apply toy_reads_back|reflexivity|vm_compute; reflexivity].
Defined.

Definition json_not (v : Value) : Value := match v with Bool b => Bool (negb b) | _ => v end.

Lemma ipc_conversation_witness :
  exists d', converse toy_to_vec toy_from_slice json_not (mkDuplex ([] : list byte) []) [Bool true; Bool false] =
    (Ok [Bool false; Bool true], d') /\ idle d'.
Proof.
  eexists. split; [vm_compute; reflexivity|].
  refine (proj2 (ipc_conversation toy_to_vec toy_from_slice toy_prints json_not (mkDuplex ([] : list byte) [])
    [Bool true; Bool false] [Bool false; Bool true] (mkDuplex [] []) _ (conj eq_refl eq_refl) eq_refl)).
  repeat constructor; apply toy_reads_back.
Defined.

Lemma read_frame_bounded_witness :
  exists s', read_frame ([x00; x00; x00; x01; x74; x66] : list byte) = (Ok [x74], s') /\
    [x00; x00; x00; x01; x74; x66] = (frame [x74] ++ s')%list.
Proof.
  exists [x66]. split; [vm_compute; reflexivity|].
  exact (proj1 (read_frame_bounded ([x00; x00; x00; x01; x74; x66] : list byte) [x74] [x66] eq_refl)).
Defined.

(** An empty payload is written without complaint and rejected by the reader. *)
Example empty_frame_rejected :
  exists s', write_frame ([] : list byte) [] = (Ok tt, s') /\
    (read_frame s').1 = Err (Ipc "empty frame (zero-length)").
Proof. eexists. split; vm_compute; reflexivity. Qed.
