(* ===== verification/Memory.v ===== *)
(** * Conversation memory (orchestrator/memory.rs)

    The buffer of messages of one agent and its three retention strategies.
    [Vec::drain(a..b)] keeps [take a] and [drop b]. *)

From S2P Require Import Prelude.
From S2P Require Import F64.
From S2P Require Import Resource.
From S2P Require Import Core.
From S2P Require Import TaskExec.
From Stdlib Require Import String.
From stdpp Require Import base gmap strings numbers list.

Inductive MemoryStrategy := Full | SlidingWindow | HeadTail.

#[export] Instance MemoryStrategy_eq_dec : EqDecision MemoryStrategy.
Proof. solve_decision. Defined.

Record ConversationBuffer := mkConversationBuffer {
  messages : list Message;
  max_messages : nat;
  strategy : MemoryStrategy;
  agent_id : string;
}.

Definition ConversationBuffer_new (id : string) : ConversationBuffer :=
  mkConversationBuffer [] 0 Full id.
Definition with_sliding_window (id : string) (max : nat) : ConversationBuffer :=
  mkConversationBuffer [] max SlidingWindow id.
Definition with_head_tail (id : string) (max : nat) : ConversationBuffer :=
  mkConversationBuffer [] max HeadTail id.

Definition set_messages (b : ConversationBuffer) (l : list Message) : ConversationBuffer :=
  mkConversationBuffer l (max_messages b) (strategy b) (agent_id b).

Definition trim (b : ConversationBuffer) : ConversationBuffer :=
  let len := length (messages b) in
  if (max_messages b =? 0) || (len <=? max_messages b) then b
  else
    match strategy b with
    | Full => b
    | SlidingWindow => set_messages b (drain_range (messages b) 0 (len - max_messages b))
    | HeadTail =>
        if max_messages b =? 1 then set_messages b (drain_range (messages b) 0 (len - 1))
        else
          let remove_end := len - (max_messages b - 1) in
          if 1 <? remove_end then set_messages b (drain_range (messages b) 1 remove_end) else b
    end.

Definition push (b : ConversationBuffer) (m : Message) : ConversationBuffer :=
  trim (set_messages b (messages b ++ [m])).

Definition add_user (b : ConversationBuffer) (content : string) : ConversationBuffer :=
  push b (mkMessage User content).
Definition add_assistant (b : ConversationBuffer) (content : string) : ConversationBuffer :=
  push b (mkMessage Assistant content).
Definition buffer_len (b : ConversationBuffer) : nat := length (messages b).
Definition buffer_is_empty (b : ConversationBuffer) : bool := bool_decide (messages b = []).
Definition clear (b : ConversationBuffer) : ConversationBuffer := set_messages b [].

(** ** What a buffer retains of a whole conversation *)

(** The specification: a function of the conversation so far, not of the order of evictions. *)
Definition retained (st : MemoryStrategy) (max : nat) (conversation : list Message) : list Message :=
  match st, max with
  | Full, _ | _, 0 => conversation
  | SlidingWindow, _ => last_n max conversation
  | HeadTail, 1 => last_n 1 conversation
  | HeadTail, S keep_tail =>
      match conversation with
      | [] => []
      | first :: rest => first :: last_n keep_tail rest
      end
  end.

(** One eviction step on what was retained so far gives what the longer conversation retains. *)
Lemma trim_retained b conversation m :
  messages b = retained (strategy b) (max_messages b) conversation ->
  messages (push b m) = retained (strategy b) (max_messages b) (conversation ++ [m]).
Proof.
  intros H. unfold push, trim. cbn [messages max_messages strategy set_messages].
  rewrite H. clear H. destruct b as [ms max st id]. cbn [messages max_messages strategy set_messages].
  destruct max as [|k]; [by destruct st|].
  replace (S k =? 0) with false by done. rewrite orb_false_l.
  destruct st; cbn [retained].
  - by destruct (_ <=? _).
  - rewrite <- (last_n_snoc (S k) conversation m), <- (last_n_trim (S k) (_ ++ [m])) by done.
    by destruct (_ <=? _).
  - destruct k as [|k].
    + rewrite <- (last_n_snoc 1 conversation m), <- (last_n_trim 1 (_ ++ [m])) by done.
      by destruct (_ <=? _).
    + destruct conversation as [|first rest]; [by destruct k|]. cbn [app].
      rewrite <- (last_n_snoc (S k) rest m), <- (last_n_trim (S k) (_ ++ [m])) by done.
      cbn [length]. replace (S (length (last_n (S k) rest ++ [m])) <=? S (S k))
        with (length (last_n (S k) rest ++ [m]) <=? S k) by done.
      destruct (Nat.leb_spec (length (last_n (S k) rest ++ [m])) (S k)); [done|].
      replace (S (S k) =? 1) with false by done.
      replace (S (S k) - 1) with (S k) by lia.
      destruct (Nat.ltb_spec 1 (S (length (last_n (S k) rest ++ [m])) - S k)); [|lia].
      unfold drain_range. cbn [set_messages messages take app]. rewrite take_0.
      replace (S (length (last_n (S k) rest ++ [m])) - S k)
        with (S (length (last_n (S k) rest ++ [m]) - S k)) by lia.
      done.
Qed.

Definition push_all (b : ConversationBuffer) (l : list Message) : ConversationBuffer := foldl push b l.

Lemma push_config b m :
  max_messages (push b m) = max_messages b /\ strategy (push b m) = strategy b.
Proof. unfold push, trim. repeat case_match; done. Qed.

Lemma push_all_retained l : forall b conversation,
  messages b = retained (strategy b) (max_messages b) conversation ->
  messages (push_all b l) = retained (strategy b) (max_messages b) (conversation ++ l).
Proof.
  induction l as [|m l IH]; intros b conversation H; [by rewrite app_nil_r|].
  simpl. destruct (push_config b m) as [Hm Hs].
  rewrite (IH (push b m) (conversation ++ [m])), Hm, Hs.
  - by rewrite <- app_assoc.
  - rewrite Hm, Hs. by apply trim_retained.
Qed.

