(* ===== verification/Approval.v ===== *)
(** * Human approval gates (orchestrator/approval.rs)

    The gate keeps a table of pending requests; every request owns a one-shot
    channel. The channels are shared between the table (which holds the sending
    ends) and the waiting tasks (which hold the receiving ends), so the model
    has a store of channels beside the table: a sender that is replaced or
    removed is dropped and its waiter sees that. The operations are made of their
    atomic steps on the table and on a channel; [gate_apply] interleaves the steps
    of any number of calls. *)

From S2P Require Import Prelude.
From S2P Require Import F64.
From S2P Require Import Resource.
From S2P Require Import Core.
From stdpp Require Import base gmap strings numbers list.

Definition DEFAULT_APPROVAL_TIMEOUT : Duration := from_secs 300.
Definition MAX_PENDING_APPROVALS : nat := N.to_nat 1000.

Inductive ApprovalDecision := Approved | Rejected.

#[export] Instance ApprovalDecision_eq_dec : EqDecision ApprovalDecision.
Proof. solve_decision. Defined.

(** A one-shot channel: both ends alive, a value sent, the sender dropped
    without a value, or the receiver gone. *)
Inductive Channel := Open | Delivered (d : ApprovalDecision) | SenderDropped | ReceiverGone.

Definition ChannelId := nat.

(** The gate and the channels created by it; [next_channel] names the next one. *)
Record ApprovalGate := mkApprovalGate {
  gate_pending : gmap Uuid ChannelId;
  gate_timeout : Duration;
  channels : gmap ChannelId Channel;
  next_channel : ChannelId;
}.

Definition with_timeout (t : Duration) : ApprovalGate := mkApprovalGate ∅ t ∅ 0.
Definition ApprovalGate_new : ApprovalGate := with_timeout DEFAULT_APPROVAL_TIMEOUT.

Definition requires_approval (risk : TaskRisk) (require_medium : bool) : bool :=
  match risk with RiskHigh => true | RiskMedium => require_medium | RiskLow => false end.

(** ** Atomic steps *)

(** [pending.len()] against the limit. *)
Definition has_capacity (g : ApprovalGate) : bool := (size (gate_pending g) <? MAX_PENDING_APPROVALS)%nat.

Definition set_channel (g : ApprovalGate) (c : ChannelId) (s : Channel) : ApprovalGate :=
  mkApprovalGate (gate_pending g) (gate_timeout g) (<[c := s]> (channels g)) (next_channel g).

(** A fresh channel whose sender goes into the table; the sender it replaces. *)
Definition insert_request (g : ApprovalGate) (id : Uuid) : ChannelId * option ChannelId * ApprovalGate :=
  let c := next_channel g in
  (c, gate_pending g !! id,
   mkApprovalGate (<[id := c]> (gate_pending g)) (gate_timeout g) (<[c := Open]> (channels g)) (S c)).

(** [pending.remove(&id)]: the sender is now in the hands of the caller. *)
Definition take_sender (g : ApprovalGate) (id : Uuid) : option ChannelId * ApprovalGate :=
  (gate_pending g !! id,
   mkApprovalGate (delete id (gate_pending g)) (gate_timeout g) (channels g) (next_channel g)).

(** [tx.send(decision).is_ok()]. *)
Definition send (g : ApprovalGate) (c : ChannelId) (d : ApprovalDecision) : bool * ApprovalGate :=
  match channels g !! c with
  | Some Open => (true, set_channel g c (Delivered d))
  | _ => (false, g)
  end.

(** Dropping the sending end wakes the receiver with an error. *)
Definition drop_sender (g : ApprovalGate) (c : ChannelId) : ApprovalGate :=
  match channels g !! c with Some Open => set_channel g c SenderDropped | _ => g end.
Definition drop_taken (g : ApprovalGate) (o : option ChannelId) : ApprovalGate :=
  match o with Some c => drop_sender g c | None => g end.

(** Dropping the receiving end; a value in the channel is dropped with it. *)
Definition drop_receiver (g : ApprovalGate) (c : ChannelId) : ApprovalGate :=
  match channels g !! c with
  | Some Open | Some (Delivered _) => set_channel g c ReceiverGone
  | _ => g
  end.

(** One poll of [timeout(self.timeout, rx)]: the receiver is looked at before the
    timer, of which [expired] says that it has fired. *)
Inductive Polled := Ready (d : ApprovalDecision) | TimedOut | NotReady.
Definition poll (g : ApprovalGate) (c : ChannelId) (expired : bool) : Polled :=
  match channels g !! c with
  | Some (Delivered d) => Ready d
  | Some SenderDropped => Ready Rejected
  | _ => if expired then TimedOut else NotReady
  end.

(** ** The operations, with nothing in between *)

Definition request_approval (g : ApprovalGate) (id : Uuid) : option ChannelId * ApprovalGate :=
  if has_capacity g then
    let '(c, old, g1) := insert_request g id in (Some c, drop_taken g1 old)
  else (None, g).

Definition submit_decision (g : ApprovalGate) (id : Uuid) (d : ApprovalDecision) : bool * ApprovalGate :=
  match take_sender g id with
  | (Some c, g1) => send g1 c d
  | (None, g1) => (false, g1)
  end.

(** One poll of [wait_for_decision] on channel [c], to its end if the poll is ready.
    [None]: still waiting. *)
Definition wait_for_decision (g : ApprovalGate) (c : ChannelId) (id : Uuid) (expired : bool)
    : option ApprovalDecision * ApprovalGate :=
  match poll g c expired with
  | Ready d => (Some d, g)
  | TimedOut => let (taken, g1) := take_sender (drop_receiver g c) id in (Some Rejected, drop_taken g1 taken)
  | NotReady => (None, g)
  end.

Definition pending_count (g : ApprovalGate) : nat := size (gate_pending g).
Definition pending_tasks `{!HashIter Uuid ChannelId} (g : ApprovalGate) : list Uuid :=
  hash_keys (gate_pending g).

Definition cancel_approval (g : ApprovalGate) (id : Uuid) : bool * ApprovalGate :=
  let (taken, g1) := take_sender g id in
  (bool_decide (is_Some taken), drop_taken g1 taken).

(** ** Interleaving *)

(** Where a call of [wait_for_decision] stands: not answered yet; told that the time
    is up, with the receiver not dropped yet; with the entry not removed yet; done. *)
Inductive WaitPhase := Awaiting | Elapsed | CleaningUp | Decided (d : ApprovalDecision).
#[export] Instance WaitPhase_eq_dec : EqDecision WaitPhase. Proof. solve_decision. Defined.

(** The gate, the requests between the check of the limit and the insertion, the
    senders taken from the table with what their holder will send (nothing: the
    sender is dropped), and the waiters by channel. *)
Record GateSystem := mkGateSystem {
  gate : ApprovalGate;
  checked : list Uuid;
  hands : list (ChannelId * option ApprovalDecision);
  waiters : gmap ChannelId (Uuid * WaitPhase);
}.

Definition gate_start (t : Duration) : GateSystem := mkGateSystem (with_timeout t) [] [] ∅.

(** One atomic step of one call; the labels carry what the call saw. *)
Inductive GateEvent :=
| EvCheck (id : Uuid)                                  (* request_approval: below the limit *)
| EvInsert (id : Uuid) (c : ChannelId)                 (* request_approval: the insertion *)
| EvTake (id : Uuid) (c : ChannelId) (d : ApprovalDecision)     (* submit_decision: the removal *)
| EvSend (c : ChannelId) (d : ApprovalDecision) (ok : bool)     (* submit_decision: the send *)
| EvCancel (id : Uuid)                                 (* cancel: the removal *)
| EvDrop (c : ChannelId)                               (* a sender in hand goes *)
| EvPoll (c : ChannelId) (expired : bool)              (* wait_for_decision: one poll *)
| EvDropReceiver (c : ChannelId)                       (* wait_for_decision: the timeout future goes *)
| EvCleanup (c : ChannelId)                            (* wait_for_decision: the removal *)
| EvAbandon (c : ChannelId).                           (* the waiting task itself is dropped *)

Definition held (o : option ChannelId) (v : option ApprovalDecision) : list (ChannelId * option ApprovalDecision) :=
  match o with Some c => [(c, v)] | None => [] end.

Fixpoint take_out {A} `{EqDecision A} (x : A) (l : list A) : option (list A) :=
  match l with
  | [] => None
  | y :: l => if decide (y = x) then Some l else cons y <$> take_out x l
  end.

Definition gate_apply (y : GateSystem) (ev : GateEvent) : option GateSystem :=
  let g := gate y in
  match ev with
  | EvCheck id => if has_capacity g then Some (mkGateSystem g (checked y ++ [id]) (hands y) (waiters y)) else None
  | EvInsert id c =>
      rest ← take_out id (checked y);
      let '(c', old, g1) := insert_request g id in
      if decide (c = c')
      then Some (mkGateSystem g1 rest (hands y ++ held old None) (<[c := (id, Awaiting)]> (waiters y)))
      else None
  | EvTake id c d =>
      let (taken, g1) := take_sender g id in
      if decide (taken = Some c)
      then Some (mkGateSystem g1 (checked y) (hands y ++ held taken (Some d)) (waiters y)) else None
  | EvSend c d ok =>
      rest ← take_out (c, Some d) (hands y);
      let (b, g1) := send g c d in
      if decide (ok = b) then Some (mkGateSystem g1 (checked y) rest (waiters y)) else None
  | EvCancel id =>
      let (taken, g1) := take_sender g id in
      Some (mkGateSystem g1 (checked y) (hands y ++ held taken None) (waiters y))
  | EvDrop c =>
      rest ← take_out (c, None) (hands y);
      Some (mkGateSystem (drop_sender g c) (checked y) rest (waiters y))
  | EvPoll c expired =>
      '(id, ph) ← waiters y !! c;
      match ph with
      | Awaiting =>
          match poll g c expired with
          | Ready d => Some (mkGateSystem g (checked y) (hands y) (<[c := (id, Decided d)]> (waiters y)))
          | TimedOut => Some (mkGateSystem g (checked y) (hands y) (<[c := (id, Elapsed)]> (waiters y)))
          | NotReady => Some y
          end
      | _ => None
      end
  | EvDropReceiver c =>
      '(id, ph) ← waiters y !! c;
      match ph with
      | Elapsed => Some (mkGateSystem (drop_receiver g c) (checked y) (hands y) (<[c := (id, CleaningUp)]> (waiters y)))
      | _ => None
      end
  | EvCleanup c =>
      '(id, ph) ← waiters y !! c;
      match ph with
      | CleaningUp =>
          let (taken, g1) := take_sender g id in
          Some (mkGateSystem g1 (checked y) (hands y ++ held taken None) (<[c := (id, Decided Rejected)]> (waiters y)))
      | _ => None
      end
  | EvAbandon c =>
      '(id, ph) ← waiters y !! c;
      match ph with
      | Awaiting => Some (mkGateSystem (drop_receiver g c) (checked y) (hands y) (delete c (waiters y)))
      | _ => None
      end
  end.

Definition gate_run (y : GateSystem) (evs : list GateEvent) : option GateSystem :=
  foldl (fun o ev => y ← o; gate_apply y ev) (Some y) evs.

Lemma gate_run_snoc y evs ev : gate_run y (evs ++ [ev]) = (y' ← gate_run y evs; gate_apply y' ev).
Proof. unfold gate_run. by rewrite foldl_app. Qed.

(** ** What every history keeps *)

(** In [evs], the request for [id] got the channel [c] and was later taken from the
    table by a human's decision [d]. *)
Definition taken (evs : list GateEvent) (id : Uuid) (c : ChannelId) (d : ApprovalDecision) : Prop :=
  exists e1 e2 e3, evs = e1 ++ EvInsert id c :: e2 ++ EvTake id c d :: e3.
(** ... which was then sent on the channel with success. *)
Definition answered (evs : list GateEvent) (id : Uuid) (c : ChannelId) (d : ApprovalDecision) : Prop :=
  exists e1 e2 e3 e4, evs = e1 ++ EvInsert id c :: e2 ++ EvTake id c d :: e3 ++ EvSend c d true :: e4.

(** The sending ends that exist, in the table or in hand. *)
Definition senders (y : GateSystem) : list ChannelId :=
  (map_to_list (gate_pending (gate y))).*2 ++ (hands y).*1.

Definition unsent (s : Channel) : Prop := s = Open \/ s = ReceiverGone.
Definition waiting (ph : WaitPhase) : Prop := ph = Awaiting \/ ph = Elapsed.

Record gate_inv (evs : list GateEvent) (y : GateSystem) : Prop := {
  gi_fresh : forall c : ChannelId, next_channel (gate y) <= c ->
    channels (gate y) !! c = None /\ waiters y !! c = None /\ forall id, EvInsert id c ∉ evs;
  gi_once : forall id id' c, EvInsert id c ∈ evs -> EvInsert id' c ∈ evs -> id = id';
  gi_pending : forall id c, gate_pending (gate y) !! id = Some c -> EvInsert id c ∈ evs;
  gi_hands : forall c d, (c, Some d) ∈ hands y -> exists id, taken evs id c d;
  gi_nodup : NoDup (senders y);
  gi_senders : forall c, c ∈ senders y -> exists s, channels (gate y) !! c = Some s /\ unsent s;
  gi_delivered : forall c d, channels (gate y) !! c = Some (Delivered d) -> exists id, answered evs id c d;
  gi_waiter : forall c id ph, waiters y !! c = Some (id, ph) ->
    EvInsert id c ∈ evs /\ (ph = Decided Approved -> answered evs id c Approved);
  gi_open : forall c, channels (gate y) !! c = Some Open ->
    exists id ph, waiters y !! c = Some (id, ph) /\ waiting ph;
  gi_gone : forall c id ph, channels (gate y) !! c = Some ReceiverGone -> waiters y !! c = Some (id, ph) -> ~ waiting ph;
}.

Lemma elem_of_snoc {A} (x e : A) l : x ∈ l ++ [e] <-> x ∈ l \/ x = e.
Proof. by rewrite elem_of_app, list_elem_of_singleton. Qed.

Lemma taken_snoc evs e id c d : taken evs id c d -> taken (evs ++ [e]) id c d.
Proof.
  intros (e1 & e2 & e3 & ->). exists e1, e2, (e3 ++ [e]). by rewrite <-!app_assoc, <-!app_comm_cons, <-!app_assoc.
Qed.
Lemma taken_new evs id c d : EvInsert id c ∈ evs -> taken (evs ++ [EvTake id c d]) id c d.
Proof. intros (e1 & e2 & ->)%list_elem_of_split. exists e1, e2, []. by rewrite <-app_assoc. Qed.
Lemma taken_inserted evs id c d : taken evs id c d -> EvInsert id c ∈ evs.
Proof. intros (e1 & e2 & e3 & ->). apply elem_of_app. right. by left. Qed.

Lemma answered_snoc evs e id c d : answered evs id c d -> answered (evs ++ [e]) id c d.
Proof.
  intros (e1 & e2 & e3 & e4 & ->). exists e1, e2, e3, (e4 ++ [e]).
  by rewrite <-!app_assoc, <-!app_comm_cons, <-!app_assoc, <-!app_comm_cons, <-!app_assoc.
Qed.
Lemma answered_new evs id c d : taken evs id c d -> answered (evs ++ [EvSend c d true]) id c d.
Proof.
  intros (e1 & e2 & e3 & ->). exists e1, e2, e3, [].
  by rewrite <-!app_assoc, <-!app_comm_cons, <-!app_assoc.
Qed.
Lemma answered_inserted evs id c d : answered evs id c d -> EvInsert id c ∈ evs.
Proof. intros (e1 & e2 & e3 & e4 & ->). apply elem_of_app. right. by left. Qed.

(** What a step that inserts nothing may change. *)
Record calm (evs : list GateEvent) (ev : GateEvent) (y y' : GateSystem) : Prop := {
  ca_event : forall id c, ev <> EvInsert id c;
  ca_next : next_channel (gate y') = next_channel (gate y);
  ca_pending : gate_pending (gate y') ⊆ gate_pending (gate y);
  ca_senders : exists l, senders y ≡ₚ l ++ senders y' ;
  ca_hands : forall c d, (c, Some d) ∈ hands y' ->
    (c, Some d) ∈ hands y \/ exists id, EvInsert id c ∈ evs /\ ev = EvTake id c d;
  ca_none : forall c, channels (gate y) !! c = None -> channels (gate y') !! c = None;
  ca_sender : forall c s, c ∈ senders y' -> channels (gate y) !! c = Some s -> unsent s ->
    exists s', channels (gate y') !! c = Some s' /\ unsent s';
  ca_delivered : forall c d, channels (gate y') !! c = Some (Delivered d) ->
    channels (gate y) !! c = Some (Delivered d) \/ (c, Some d) ∈ hands y /\ ev = EvSend c d true;
  ca_waiter : forall c id ph', waiters y' !! c = Some (id, ph') -> exists ph, waiters y !! c = Some (id, ph) /\
    (ph' = Decided Approved -> ph = Decided Approved \/ channels (gate y) !! c = Some (Delivered Approved));
  ca_open : forall c id ph, channels (gate y') !! c = Some Open -> channels (gate y) !! c = Some Open /\
    (waiters y !! c = Some (id, ph) -> waiting ph -> exists ph', waiters y' !! c = Some (id, ph') /\ waiting ph');
  ca_gone : forall c id ph', channels (gate y') !! c = Some ReceiverGone -> waiters y' !! c = Some (id, ph') -> waiting ph' ->
    channels (gate y) !! c = Some ReceiverGone /\ exists ph, waiters y !! c = Some (id, ph) /\ waiting ph;
}.

Lemma calm_inv evs ev y y' : gate_inv evs y -> calm evs ev y y' -> gate_inv (evs ++ [ev]) y'.
Proof.
  intros [I1 I2 I3 I4 I5 I6 I7 I8 I9 I10] [C0 C1 C2 [l C3] C4 C5 C6 C7 C8 C9 C10].
  assert (forall id c, EvInsert id c ∈ evs ++ [ev] <-> EvInsert id c ∈ evs) as Hin.
  { intros id c. rewrite elem_of_snoc. split; [intros [?|E]; [done|by destruct (C0 id c)]|by left]. }
  split.
  - intros c Hc. rewrite C1 in Hc. destruct (I1 c Hc) as (H1 & H2 & H3). split_and!.
    + by apply C5.
    + destruct (waiters y' !! c) as [[id ph]|] eqn:E; [|done]. apply C8 in E as (? & E & _). by rewrite H2 in E.
    + intros id. by rewrite Hin.
  - intros id id' c. rewrite !Hin. apply I2.
  - intros id c Hp. rewrite Hin. apply I3. by eapply lookup_weaken.
  - intros c d [H|(id & H & ->)]%C4; [|by exists id; apply taken_new].
    destruct (I4 c d H) as [id Ht]. exists id. by apply taken_snoc.
  - rewrite C3 in I5. by apply NoDup_app in I5 as (_ & _ & ?).
  - intros c Hc. destruct (I6 c) as (s & Hs & Hu); [rewrite C3; apply elem_of_app; by right|]. by eapply C6.
  - intros c d [H|[H ->]]%C7.
    + destruct (I7 c d H) as [id Ha]. exists id. by apply answered_snoc.
    + destruct (I4 c d H) as [id Ht]. exists id. by apply answered_new.
  - intros c id ph (ph0 & H & Hph)%C8. destruct (I8 c id ph0 H) as [Hi Ha]. rewrite Hin. split; [done|].
    intros [->|Hd]%Hph; [by apply answered_snoc, Ha|]. destruct (I7 c Approved Hd) as [id' Hans].
    apply answered_snoc. by rewrite (I2 id id' c) by eauto using answered_inserted.
  - intros c Hc. destruct (C9 c 0%N Awaiting Hc) as [Ho _]. destruct (I9 c Ho) as (id & ph & Hw & Hph).
    destruct (C9 c id ph Hc) as [_ H]. exists id. by apply H.
  - intros c id ph' Hc Hw Hph. destruct (C10 c id ph' Hc Hw Hph) as (Hg & ph & Hw' & Hph'). by eapply I10.
Qed.

Lemma take_out_perm {A} `{EqDecision A} (x : A) l rest : take_out x l = Some rest -> l ≡ₚ x :: rest.
Proof.
  revert rest. induction l as [|y l IH]; intros rest; cbn [take_out]; [done|].
  destruct (decide (y = x)) as [->|_]; [by intros [= <-]|].
  destruct (take_out x l) as [r|]; cbn; [|done]. intros [= <-]. rewrite (IH r) by done. constructor.
Qed.

Lemma senders_take g id v ck hs ws ck' ws' :
  senders (mkGateSystem (take_sender g id).2 ck' (hs ++ held (take_sender g id).1 v) ws') ≡ₚ
  senders (mkGateSystem g ck hs ws).
Proof.
  unfold senders, take_sender. cbn [gate hands gate_pending fst snd].
  destruct (gate_pending g !! id) as [c|] eqn:E; cbn [held].
  - rewrite <-(map_to_list_delete _ _ _ E). rewrite fmap_app. cbn [fmap list_fmap fst snd].
    rewrite app_assoc. symmetry. apply Permutation_cons_append.
  - by rewrite app_nil_r, delete_id.
Qed.

(** Leaving the channels alone. *)
Lemma calm_quiet evs ev y y' :
  (forall id c, ev <> EvInsert id c) -> next_channel (gate y') = next_channel (gate y) ->
  channels (gate y') = channels (gate y) -> gate_pending (gate y') ⊆ gate_pending (gate y) ->
  (exists l, senders y ≡ₚ l ++ senders y') ->
  (forall c d, (c, Some d) ∈ hands y' -> (c, Some d) ∈ hands y \/ exists id, EvInsert id c ∈ evs /\ ev = EvTake id c d) ->
  (forall c id ph', waiters y' !! c = Some (id, ph') -> exists ph, waiters y !! c = Some (id, ph) /\
    (ph' = Decided Approved -> ph = Decided Approved \/ channels (gate y) !! c = Some (Delivered Approved))) ->
  (forall c id ph, channels (gate y) !! c = Some Open -> waiters y !! c = Some (id, ph) -> waiting ph ->
    exists ph', waiters y' !! c = Some (id, ph') /\ waiting ph') ->
  (forall c id ph', waiters y' !! c = Some (id, ph') -> waiting ph' -> exists ph, waiters y !! c = Some (id, ph) /\ waiting ph) ->
  calm evs ev y y'.
Proof.
  intros C0 C1 Hch C2 C3 C4 C8 C9 C10. split; try done; rewrite ?Hch; eauto.
Qed.

Lemma waiter_moved (ws : gmap ChannelId (Uuid * WaitPhase)) (P : WaitPhase -> Prop) c id ph ph' c0 id0 ph0 :
  ws !! c = Some (id, ph) -> <[c := (id, ph')]> ws !! c0 = Some (id0, ph0) -> (ph' = Decided Approved -> P ph) ->
  exists ph1, ws !! c0 = Some (id0, ph1) /\ (ph0 = Decided Approved -> ph1 = Decided Approved \/ c0 = c /\ P ph).
Proof.
  intros Hc [[<- [= <- <-]]|[Hne H]]%lookup_insert_Some HP; [exists ph|exists ph0]; split; auto.
Qed.

Lemma waiters_same (ws : gmap ChannelId (Uuid * WaitPhase)) (Q : ChannelId -> Prop) c id ph' :
  ws !! c = Some (id, ph') -> exists ph, ws !! c = Some (id, ph) /\ (ph' = Decided Approved -> ph = Decided Approved \/ Q c).
Proof. eauto. Qed.

(** A sender that leaves the hands and settles its channel, if the receiver is there. *)
Lemma calm_settle evs ev y c v rest s g' :
  gate_inv evs y -> (forall id c, ev <> EvInsert id c) -> hands y ≡ₚ (c, v) :: rest ->
  (s = SenderDropped \/ exists d, v = Some d /\ s = Delivered d /\ ev = EvSend c d true) ->
  g' = (match channels (gate y) !! c with Some Open => set_channel (gate y) c s | _ => gate y end) ->
  calm evs ev y (mkGateSystem g' (checked y) rest (waiters y)).
Proof.
  intros I H0 Hh Hs Hg.
  assert (gate_pending g' = gate_pending (gate y) /\ next_channel g' = next_channel (gate y)) as [Hp Hn].
  { subst g'. by destruct (channels (gate y) !! c) as [[]|]. }
  assert (forall c', c' <> c -> channels g' !! c' = channels (gate y) !! c') as Ho.
  { intros c' Hne. subst g'. destruct (channels (gate y) !! c) as [[]|]; try done. cbn. by rewrite lookup_insert_ne. }
  assert (forall t, channels g' !! c = Some t -> t <> Open /\ (t = s \/ channels (gate y) !! c = Some t)) as Hc.
  { intros t. subst g'. destruct (channels (gate y) !! c) as [[]|] eqn:E; cbn; rewrite ?E, ?lookup_insert_eq;
      intros [= <-]; try (split; [done|by auto]). split; [|by auto]. destruct Hs as [->|(? & _ & -> & _)]; done. }
  assert (senders y ≡ₚ c :: senders (mkGateSystem g' (checked y) rest (waiters y))) as Hsend.
  { unfold senders. cbn [gate hands]. rewrite Hp, Hh. cbn. symmetry. apply Permutation_middle. }
  split; cbn [gate hands waiters]; [done|done|by rewrite Hp|by exists [c]| | | | |by apply waiters_same| |].
  - intros c' d Hin. left. rewrite Hh. by right.
  - intros c' Hnone. subst g'. destruct (channels (gate y) !! c) as [[]|] eqn:E; try done. cbn.
    rewrite lookup_insert_ne; [done|]. intros ->. by rewrite E in Hnone.
  - intros c' t Hin Ht Hu. exists t. split; [|done]. rewrite Ho; [done|]. intros ->.
    pose proof (gi_nodup _ _ I) as Hnd. rewrite Hsend in Hnd. by apply NoDup_cons in Hnd as [? _].
  - intros c' d Hd. destruct (decide (c' = c)) as [->|Hne]; [|left; by rewrite <-Ho].
    destruct (Hc _ Hd) as [_ [Heq|?]]; [|by left]. right. destruct Hs as [->|(d' & -> & -> & ->)]; [done|].
    injection Heq as <-. split; [|done]. rewrite Hh. by left.
  - intros c' id ph Hop. destruct (decide (c' = c)) as [->|Hne].
    + by destruct (Hc _ Hop).
    + rewrite Ho in Hop by done. eauto.
  - intros c' id ph' Hgone Hw Hph. split; [|by eauto]. destruct (decide (c' = c)) as [->|Hne]; [|by rewrite <-Ho].
    destruct (Hc _ Hgone) as [_ [<-|?]]; [|done]. by destruct Hs as [|(? & _ & ? & _)].
Qed.

(** A receiver that goes, with its waiter in a new phase or gone. *)
Lemma calm_receiver evs ev y c ws' :
  (forall id c, ev <> EvInsert id c) ->
  (forall c' id ph', ws' !! c' = Some (id, ph') -> exists ph, waiters y !! c' = Some (id, ph) /\ (ph' = Decided Approved -> ph = Decided Approved)) ->
  (forall c', c' <> c -> ws' !! c' = waiters y !! c') ->
  (forall id ph, ws' !! c = Some (id, ph) -> ~ waiting ph) ->
  calm evs ev y (mkGateSystem (drop_receiver (gate y) c) (checked y) (hands y) ws').
Proof.
  intros H0 Hw Ho Hlast.
  assert (gate_pending (drop_receiver (gate y) c) = gate_pending (gate y) /\
          next_channel (drop_receiver (gate y) c) = next_channel (gate y)) as [Hp Hn].
  { unfold drop_receiver. by destruct (channels (gate y) !! c) as [[]|]. }
  assert (forall c' s, channels (drop_receiver (gate y) c) !! c' = Some s ->
    channels (gate y) !! c' = Some s /\ (c' = c -> s <> Open) \/ s = ReceiverGone) as Hc.
  { intros c' s. unfold drop_receiver. destruct (channels (gate y) !! c) as [[]|] eqn:E; cbn;
      try (intros [[_ <-]|[Hne H]]%lookup_insert_Some; [by right|left; by split]).
    - intros H. left. split; [done|]. intros -> ->. by rewrite E in H.
    - intros H. left. split; [done|]. intros -> ->. by rewrite E in H.
    - intros H. left. split; [done|]. intros -> ->. by rewrite E in H. }
  split; cbn [gate hands waiters]; [done|done|by rewrite Hp| |by auto| | | | | |].
  - exists []. unfold senders. cbn [gate hands app]. by rewrite Hp.
  - intros c' Hnone. unfold drop_receiver. destruct (channels (gate y) !! c) as [[]|] eqn:E; try done; cbn;
      rewrite lookup_insert_ne by (intros ->; by rewrite E in Hnone); done.
  - intros c' s _ Hs Hu. unfold drop_receiver. destruct (channels (gate y) !! c) as [[]|] eqn:E; cbn; eauto;
      destruct (decide (c' = c)) as [->|]; rewrite ?lookup_insert_eq, ?lookup_insert_ne by done; eauto;
      exists ReceiverGone; (split; [done|by right]).
  - intros c' d [[? _]|?]%Hc; [by left|done].
  - intros c' id ph' (ph & ? & ?)%Hw. eauto.
  - intros c' id ph [[Hop Hne]|?]%Hc; [|done]. split; [done|]. intros Hwt Hph. exists ph. split; [|done].
    rewrite Ho; [done|]. intros ->. by apply Hne.
  - intros c' id ph' Hg Hw' Hph. destruct (decide (c' = c)) as [->|Hne]; [by destruct (Hlast _ _ Hw')|].
    rewrite Ho in Hw' by done. split; [|by eauto]. revert Hg. unfold drop_receiver.
    destruct (channels (gate y) !! c) as [[]|]; cbn; rewrite ?lookup_insert_ne by done; done.
Qed.

Lemma senders_insert g id ck hs ws ck' ws' :
  senders (mkGateSystem (insert_request g id).2 ck' (hs ++ held (insert_request g id).1.2 None) ws') ≡ₚ
  next_channel g :: senders (mkGateSystem g ck hs ws).
Proof.
  transitivity (next_channel g :: senders (mkGateSystem (take_sender g id).2 ck (hs ++ held (take_sender g id).1 None) ws)).
  2: { constructor. apply senders_take. }
  unfold senders, insert_request, take_sender. cbn [gate hands gate_pending fst snd].
  rewrite <-(insert_delete_eq (gate_pending g) id), map_to_list_insert by apply lookup_delete_eq.
  by cbn [fmap list_fmap fst snd app].
Qed.

Lemma insert_inv evs y id rest :
  gate_inv evs y ->
  let '(c, old, g1) := insert_request (gate y) id in
  gate_inv (evs ++ [EvInsert id c]) (mkGateSystem g1 rest (hands y ++ held old None) (<[c := (id, Awaiting)]> (waiters y))).
Proof.
  intros [I1 I2 I3 I4 I5 I6 I7 I8 I9 I10]. cbn [insert_request].
  pose proof (senders_insert (gate y) id (checked y) (hands y) (waiters y) rest
    (<[next_channel (gate y) := (id, Awaiting)]> (waiters y))) as Hs. cbn [insert_request fst snd] in Hs.
  set (c := next_channel (gate y)) in *. destruct (I1 c) as (Hc1 & Hc2 & Hc3); [done|].
  split; cbn [gate hands waiters gate_pending channels next_channel].
  - intros c' Hc'. destruct (I1 c') as (H1 & H2 & H3); [lia|]. rewrite !lookup_insert_ne by lia. split_and!; [done..|].
    intros id'. rewrite elem_of_snoc. intros [?|[= _ E]]; [by eapply H3|lia].
  - intros i i' c'. rewrite !elem_of_snoc.
    intros [H|E] [H'|E']; [by eapply I2|injection E' as -> ->; by destruct (Hc3 i)|
      injection E as -> ->; by destruct (Hc3 i')|congruence].
  - intros i c' [[<- <-]|[_ H]]%lookup_insert_Some; rewrite elem_of_snoc; [by right|left; by apply I3].
  - intros c' d Hin. apply elem_of_app in Hin as [H|H].
    + destruct (I4 c' d H) as [i Ht]. exists i. by apply taken_snoc.
    + destruct (gate_pending (gate y) !! id); cbn [held] in H; [|by apply not_elem_of_nil in H].
      by apply list_elem_of_singleton in H.
  - rewrite Hs. constructor; [|done]. intros Hin. destruct (I6 c) as (s & ? & _); [done|]. congruence.
  - intros c'. rewrite Hs, elem_of_cons. intros [->|Hin].
    + exists Open. rewrite lookup_insert_eq. split; [done|by left].
    + destruct (I6 c' Hin) as (s & Hsc & Hu). exists s. split; [|done]. rewrite lookup_insert_ne; [done|]. intros ->. congruence.
  - intros c' d [[_ ?]|[_ H]]%lookup_insert_Some; [done|]. destruct (I7 c' d H) as [i Ha]. exists i. by apply answered_snoc.
  - intros c' i ph [[<- [= <- <-]]|[_ H]]%lookup_insert_Some; rewrite elem_of_snoc; [split; [by right|done]|].
    destruct (I8 c' i ph H) as [Hi Ha]. split; [by left|]. intros E. by apply answered_snoc, Ha.
  - intros c' Hop. destruct (decide (c' = c)) as [->|Hne].
    + exists id, Awaiting. rewrite lookup_insert_eq. split; [done|by left].
    + rewrite lookup_insert_ne in Hop by done. destruct (I9 c' Hop) as (i & ph & H). exists i, ph.
      by rewrite lookup_insert_ne.
  - intros c' i ph [[_ ?]|[Hne H]]%lookup_insert_Some; [done|]. rewrite lookup_insert_ne by done. by apply I10.
Qed.

(** A sender taken from the table. *)
Lemma calm_take evs ev y id v ws' :
  gate_inv evs y -> (forall i c, ev <> EvInsert i c) ->
  (forall d c, v = Some d -> gate_pending (gate y) !! id = Some c -> ev = EvTake id c d) ->
  (forall c i ph', ws' !! c = Some (i, ph') -> exists ph, waiters y !! c = Some (i, ph) /\ (ph' = Decided Approved -> ph = Decided Approved)) ->
  (forall c i ph, channels (gate y) !! c = Some Open -> waiters y !! c = Some (i, ph) -> waiting ph ->
    exists ph', ws' !! c = Some (i, ph') /\ waiting ph') ->
  (forall c i ph', ws' !! c = Some (i, ph') -> waiting ph' -> exists ph, waiters y !! c = Some (i, ph) /\ waiting ph) ->
  let (o, g1) := take_sender (gate y) id in
  calm evs ev y (mkGateSystem g1 (checked y) (hands y ++ held o v) ws').
Proof.
  intros I H0 Hv Hw Ho Hb. cbn [take_sender]. apply calm_quiet; cbn [gate hands waiters channels next_channel gate_pending]; try done.
  - apply delete_subseteq.
  - exists []. symmetry. apply (senders_take (gate y) id v (checked y) (hands y) (waiters y) (checked y) ws').
  - intros c d Hin. apply elem_of_app in Hin as [?|Hin]; [by left|right]. exists id.
    destruct (gate_pending (gate y) !! id) as [c'|] eqn:E; cbn [held] in Hin; [|by apply not_elem_of_nil in Hin].
    apply list_elem_of_singleton in Hin as [= <- Hd]. split; [by apply (gi_pending _ _ I)|by apply Hv].
  - intros c i ph' H. destruct (Hw c i ph' H) as (ph & ? & ?). eauto.
Qed.

Lemma poll_approved g c ex d : poll g c ex = Ready d -> Decided d = Decided Approved -> channels g !! c = Some (Delivered Approved).
Proof. unfold poll. destruct (channels g !! c) as [[|[]| |]|], ex; congruence. Qed.

Lemma gate_apply_inv evs y ev y' : gate_inv evs y -> gate_apply y ev = Some y' -> gate_inv (evs ++ [ev]) y'.
Proof.
  intros I H. destruct ev as [id|id c|id c d|c d ok|id|c|c ex|c|c|c]; cbn [gate_apply] in H.
  - destruct (has_capacity _); [|done]. injection H as <-. apply (calm_inv _ _ _ _ I).
    apply calm_quiet; try done; [by exists []|by auto|by eauto..].
  - destruct (take_out id (checked y)) as [rest|]; cbn in H; [|done]. case_decide; [|done]. injection H as <-. subst c.
    exact (insert_inv evs y id rest I).
  - cbn [take_sender] in H. case_decide as E; [|done]. injection H as <-. apply (calm_inv _ _ _ _ I).
    apply (calm_take evs (EvTake id c d) y id (Some d)); [done|done| |by eauto..].
    intros d' c' [= <-] E'. rewrite E' in E. by injection E as ->.
  - destruct (take_out (c, Some d) (hands y)) as [rest|] eqn:E; cbn in H; [|done].
    destruct (send (gate y) c d) as [b g1] eqn:Es. case_decide as Eb; [|done]. injection H as <-. subst ok.
    apply (calm_inv _ _ _ _ I). unfold send in Es. apply take_out_perm in E.
    destruct b.
    + apply (calm_settle _ _ _ c (Some d) rest (Delivered d)); [done|done|done|right; by exists d|].
      by destruct (channels (gate y) !! c) as [[]|]; injection Es.
    + apply (calm_settle _ _ _ c (Some d) rest SenderDropped); [done|done|done|by left|].
      by destruct (channels (gate y) !! c) as [[]|]; injection Es.
  - cbn [take_sender] in H. injection H as <-. apply (calm_inv _ _ _ _ I).
    apply (calm_take evs (EvCancel id) y id None); [done|done|done|by eauto..].
  - destruct (take_out (c, None) (hands y)) as [rest|] eqn:E; cbn in H; [|done]. injection H as <-.
    apply (calm_inv _ _ _ _ I). apply take_out_perm in E.
    by apply (calm_settle _ _ _ c None rest SenderDropped); [done|done|done|left|].
  - destruct (waiters y !! c) as [[id ph]|] eqn:E; cbn in H; [|done]. destruct ph; try done.
    destruct (poll (gate y) c ex) as [d| |] eqn:Ep; injection H as <-; apply (calm_inv _ _ _ _ I);
      (apply calm_quiet; try done; [by exists []|by auto| | |]); cbn [gate hands waiters]; [| | | | | |by eauto..].
    + intros c0 i ph' H. destruct (waiter_moved _ (fun _ => channels (gate y) !! c = Some (Delivered Approved))
        _ _ _ _ _ _ _ E H (poll_approved _ _ _ _ Ep)) as (ph1 & ? & Ha). exists ph1. split; [done|].
      intros [?|[-> ?]]%Ha; by auto.
    + intros c0 i ph Hop. destruct (decide (c0 = c)) as [->|Hne]; [|rewrite lookup_insert_ne by done; by eauto].
      unfold poll in Ep. rewrite Hop in Ep. by destruct ex.
    + intros c0 i ph' [[<- [= <- <-]]|[_ H]]%lookup_insert_Some Hph; [by destruct Hph|by eauto].
    + intros c0 i ph' H. destruct (waiter_moved _ (fun _ => False) _ _ _ _ _ _ _ E H ltac:(done)) as (ph1 & ? & Ha).
      exists ph1. split; [done|]. intros [?|[_ []]]%Ha. by left.
    + intros c0 i ph Hop Hw Hph. destruct (decide (c0 = c)) as [->|Hne]; [|rewrite lookup_insert_ne by done; by eauto].
      rewrite lookup_insert_eq. rewrite E in Hw. injection Hw as <- <-. exists Elapsed. split; [done|by right].
    + intros c0 i ph' [[<- [= <- <-]]|[_ H]]%lookup_insert_Some Hph; [exists Awaiting; split; [done|by left]|by eauto].
  - destruct (waiters y !! c) as [[id ph]|] eqn:E; cbn in H; [|done]. destruct ph; try done. injection H as <-.
    apply (calm_inv _ _ _ _ I). apply calm_receiver; [done| |by intros; rewrite lookup_insert_ne|].
    2: { intros i ph. rewrite lookup_insert_eq. intros [= <- <-] Hph. by destruct Hph. }
    intros c0 i ph' H. destruct (waiter_moved _ (fun _ => False) _ _ _ _ _ _ _ E H ltac:(done)) as (ph1 & ? & Ha).
    exists ph1. split; [done|]. by intros [?|[_ []]]%Ha.
  - destruct (waiters y !! c) as [[id ph]|] eqn:E; cbn in H; [|done]. destruct ph; try done. injection H as <-.
    apply (calm_inv _ _ _ _ I). apply (calm_take evs (EvCleanup c) y id None); [done|done|done| | |].
    + intros c0 i ph' H. destruct (waiter_moved _ (fun _ => False) _ _ _ _ _ _ _ E H ltac:(done)) as (ph1 & ? & Ha).
      exists ph1. split; [done|]. by intros [?|[_ []]]%Ha.
    + intros c0 i ph Hop Hw Hph. destruct (decide (c0 = c)) as [->|Hne]; [|rewrite lookup_insert_ne by done; by eauto].
      rewrite E in Hw. injection Hw as <- <-. by destruct Hph.
    + intros c0 i ph' [[<- [= <- <-]]|[_ H]]%lookup_insert_Some Hph; [by destruct Hph|by eauto].
  - destruct (waiters y !! c) as [[id ph]|] eqn:E; cbn in H; [|done]. destruct ph; try done. injection H as <-.
    apply (calm_inv _ _ _ _ I). apply calm_receiver; [done| |by intros; rewrite lookup_delete_ne|].
    2: { intros i ph. by rewrite lookup_delete_eq. }
    intros c0 i ph' [_ H]%lookup_delete_Some. eauto.
Qed.

Lemma gate_run_inv t evs y : gate_run (gate_start t) evs = Some y -> gate_inv evs y.
Proof.
  revert y. induction evs as [|ev evs IH] using rev_ind; intros y.
  - intros [= <-]. split; cbn; try (intros *; by rewrite lookup_empty).
    + intros c _. rewrite !lookup_empty. split_and!; [done..|]. intros id. apply not_elem_of_nil.
    + by intros id id' c ?%not_elem_of_nil.
    + by intros c d ?%not_elem_of_nil.
    + unfold senders. cbn. rewrite map_to_list_empty. constructor.
    + intros c. unfold senders. cbn. rewrite map_to_list_empty. by intros ?%not_elem_of_nil.
  - rewrite gate_run_snoc. destruct (gate_run _ evs) as [y1|]; cbn; [|done]. by apply gate_apply_inv, IH.
Qed.

(** *** The limit of the table *)

Lemma take_sender_size g id : size (gate_pending (take_sender g id).2) <= size (gate_pending g).
Proof. cbn. apply map_subseteq_size, delete_subseteq. Qed.

Definition promised (y : GateSystem) : nat := size (gate_pending (gate y)) + length (checked y).

(** Only the check of the limit adds to the entries there are and will be. *)
Lemma gate_apply_promised y ev y' : gate_apply y ev = Some y' ->
  promised y' <= promised y \/ exists id, ev = EvCheck id /\ size (gate_pending (gate y)) < MAX_PENDING_APPROVALS /\
    gate y' = gate y /\ length (checked y') = S (length (checked y)).
Proof.
  unfold promised. destruct ev as [id|id c|id c d|c d ok|id|c|c ex|c|c|c]; cbn [gate_apply].
  - unfold has_capacity. destruct (Nat.ltb_spec (size (gate_pending (gate y))) MAX_PENDING_APPROVALS); [|done].
    intros [= <-]. right. exists id. cbn. rewrite length_app. cbn. split_and!; [done..|lia].
  - destruct (take_out id (checked y)) as [rest|] eqn:E; cbn; [|done]. case_decide; [|done]. intros [= <-]. left.
    apply take_out_perm, Permutation_length in E. cbn [gate checked gate_pending length] in *. rewrite map_size_insert.
    destruct (gate_pending (gate y) !! id); unfold Datatypes.id; lia.
  - pose proof (take_sender_size (gate y) id). destruct (take_sender _ _). case_decide; [|done]. intros [= <-]. left. cbn in *. lia.
  - destruct (take_out _ _) as [rest|]; cbn; [|done]. unfold send.
    destruct (channels (gate y) !! c) as [[]|]; case_decide; intros [= <-]; by left.
  - pose proof (take_sender_size (gate y) id). destruct (take_sender _ _). intros [= <-]. left. cbn in *. lia.
  - destruct (take_out _ _) as [rest|]; cbn; [|done]. intros [= <-]. left. cbn. unfold drop_sender.
    by destruct (channels (gate y) !! c) as [[]|].
  - destruct (waiters y !! c) as [[id []]|]; cbn; try done. destruct (poll _ _ _); intros [= <-]; by left.
  - destruct (waiters y !! c) as [[id []]|]; cbn; try done. intros [= <-]. left. cbn. unfold drop_receiver.
    by destruct (channels (gate y) !! c) as [[]|].
  - destruct (waiters y !! c) as [[id []]|]; cbn [mbind option_bind]; try done. pose proof (take_sender_size (gate y) id).
    destruct (take_sender _ _). intros [= <-]. left. cbn in *. lia.
  - destruct (waiters y !! c) as [[id []]|]; cbn; try done. intros [= <-]. left. cbn. unfold drop_receiver.
    by destruct (channels (gate y) !! c) as [[]|].
Qed.

(** The table keeps its limit up to the requests that have passed the check and are
    not inserted yet: when never more than [k + 1] requests are between the two,
    there are at most [MAX_PENDING_APPROVALS + k] entries. *)
Theorem pending_bounded t evs y k :
  gate_run (gate_start t) evs = Some y ->
  (forall e1 e2 y1, evs = e1 ++ e2 -> gate_run (gate_start t) e1 = Some y1 -> length (checked y1) <= S k) ->
  pending_count (gate y) <= MAX_PENDING_APPROVALS + k.
Proof.
  intros Hr Hk. enough (promised y <= MAX_PENDING_APPROVALS + k) by (unfold promised, pending_count in *; lia).
  revert y Hr Hk. induction evs as [|ev evs IH] using rev_ind; intros y Hr Hk.
  { injection Hr as <-. unfold promised. cbn. rewrite map_size_empty. lia. }
  pose proof (Hk (evs ++ [ev]) [] y) as Hlast. rewrite app_nil_r in Hlast. specialize (Hlast eq_refl Hr).
  rewrite gate_run_snoc in Hr. destruct (gate_run _ evs) as [y1|] eqn:E; cbn in Hr; [|done].
  assert (promised y1 <= MAX_PENDING_APPROVALS + k) as H1.
  { apply IH; [done|]. intros e1 e2 y2 ->. apply (Hk e1 (e2 ++ [ev])). by rewrite app_assoc. }
  destruct (gate_apply_promised _ _ _ Hr) as [?|(id & -> & Hlt & Hg & Hl)]; [lia|].
  unfold promised. rewrite Hg, Hl in *. lia.
Qed.

(** *** What a step does to a waiter *)

Inductive waiter_moves (y : GateSystem) (ev : GateEvent) (c : ChannelId) (id : Uuid) : WaitPhase -> option (Uuid * WaitPhase) -> Prop :=
| wm_stays ph : waiter_moves y ev c id ph (Some (id, ph))
| wm_ready ex d : ev = EvPoll c ex -> poll (gate y) c ex = Ready d -> waiter_moves y ev c id Awaiting (Some (id, Decided d))
| wm_elapsed ex : ev = EvPoll c ex -> poll (gate y) c ex = TimedOut -> waiter_moves y ev c id Awaiting (Some (id, Elapsed))
| wm_dropped : ev = EvDropReceiver c -> waiter_moves y ev c id Elapsed (Some (id, CleaningUp))
| wm_cleaned : ev = EvCleanup c -> waiter_moves y ev c id CleaningUp (Some (id, Decided Rejected))
| wm_abandoned : ev = EvAbandon c -> waiter_moves y ev c id Awaiting None.

Lemma gate_apply_waiter evs y ev y' c id ph :
  gate_inv evs y -> gate_apply y ev = Some y' -> waiters y !! c = Some (id, ph) ->
  waiter_moves y ev c id ph (waiters y' !! c).
Proof.
  intros I H Hw. destruct ev as [i|i c0|i c0 d|c0 d ok|i|c0|c0 ex|c0|c0|c0]; cbn [gate_apply] in H.
  - destruct (has_capacity _); [|done]. injection H as <-. cbn. rewrite Hw. constructor.
  - destruct (take_out _ _) as [rest|]; cbn in H; [|done]. case_decide as Ec; [|done]. injection H as <-. cbn.
    rewrite lookup_insert_ne, Hw; [constructor|]. intros ->. destruct (gi_fresh _ _ I c) as (_ & E & _); [by rewrite Ec|].
    by rewrite Hw in E.
  - cbn in H. case_decide; [|done]. injection H as <-. cbn. rewrite Hw. constructor.
  - destruct (take_out _ _) as [rest|]; cbn in H; [|done]. destruct (send _ _ _). case_decide; [|done].
    injection H as <-. cbn. rewrite Hw. constructor.
  - cbn in H. injection H as <-. cbn. rewrite Hw. constructor.
  - destruct (take_out _ _) as [rest|]; cbn in H; [|done]. injection H as <-. cbn. rewrite Hw. constructor.
  - destruct (waiters y !! c0) as [[i p]|] eqn:E; cbn in H; [|done]. destruct p; try done.
    destruct (decide (c0 = c)) as [->|Hne].
    + rewrite Hw in E. injection E as <- ->.
      destruct (poll (gate y) c ex) eqn:Ep; injection H as <-; cbn; rewrite ?lookup_insert_eq, ?Hw; by econstructor.
    + destruct (poll (gate y) c0 ex); injection H as <-; cbn; rewrite ?lookup_insert_ne, Hw by done; constructor.
  - destruct (waiters y !! c0) as [[i p]|] eqn:E; cbn in H; [|done]. destruct p; try done. injection H as <-. cbn.
    destruct (decide (c0 = c)) as [->|Hne]; [|rewrite lookup_insert_ne, Hw by done; constructor].
    rewrite lookup_insert_eq. rewrite Hw in E. injection E as <- ->. by constructor.
  - destruct (waiters y !! c0) as [[i p]|] eqn:E; cbn in H; [|done]. destruct p; try done. injection H as <-. cbn.
    destruct (decide (c0 = c)) as [->|Hne]; [|rewrite lookup_insert_ne, Hw by done; constructor].
    rewrite lookup_insert_eq. rewrite Hw in E. injection E as <- ->. by constructor.
  - destruct (waiters y !! c0) as [[i p]|] eqn:E; cbn in H; [|done]. destruct p; try done. injection H as <-. cbn.
    destruct (decide (c0 = c)) as [->|Hne]; [|rewrite lookup_delete_ne, Hw by done; constructor].
    rewrite lookup_delete_eq. rewrite Hw in E. injection E as <- ->. by constructor.
Qed.

(** A waiter that is gone stays gone. *)
Lemma gate_apply_gone evs y ev y' (c : ChannelId) :
  gate_inv evs y -> gate_apply y ev = Some y' -> (c < next_channel (gate y))%nat -> waiters y !! c = None ->
  waiters y' !! c = None /\ (c < next_channel (gate y'))%nat.
Proof.
  intros I H Hc Hw. destruct ev as [i|i c0|i c0 d|c0 d ok|i|c0|c0 ex|c0|c0|c0]; cbn [gate_apply] in H.
  - destruct (has_capacity _); [|done]. by injection H as <-.
  - destruct (take_out _ _) as [rest|]; cbn in H; [|done]. case_decide as Ec; [|done]. injection H as <-. cbn.
    rewrite lookup_insert_ne by lia. split; [done|lia].
  - cbn in H. case_decide; [|done]. by injection H as <-.
  - destruct (take_out _ _) as [rest|]; cbn in H; [|done]. unfold send in H.
    destruct (channels (gate y) !! c0) as [[]|]; case_decide; simplify_eq; by cbn.
  - cbn in H. by injection H as <-.
  - destruct (take_out _ _) as [rest|]; cbn in H; [|done]. injection H as <-. cbn. unfold drop_sender.
    by destruct (channels (gate y) !! c0) as [[]|].
  - destruct (waiters y !! c0) as [[i p]|] eqn:E; cbn in H; [|done]. destruct p; try done.
    assert (c0 <> c) by (intros ->; by rewrite Hw in E). destruct (poll _ _ _); injection H as <-; cbn; by rewrite ?lookup_insert_ne.
  - destruct (waiters y !! c0) as [[i p]|] eqn:E; cbn in H; [|done]. destruct p; try done. injection H as <-.
    assert (c0 <> c) by (intros ->; by rewrite Hw in E). cbn. rewrite lookup_insert_ne by done. unfold drop_receiver.
    by destruct (channels (gate y) !! c0) as [[]|].
  - destruct (waiters y !! c0) as [[i p]|] eqn:E; cbn in H; [|done]. destruct p; try done. injection H as <-.
    assert (c0 <> c) by (intros ->; by rewrite Hw in E). cbn. by rewrite lookup_insert_ne.
  - destruct (waiters y !! c0) as [[i p]|] eqn:E; cbn in H; [|done]. destruct p; try done. injection H as <-.
    assert (c0 <> c) by (intros ->; by rewrite Hw in E). cbn. rewrite lookup_delete_ne by done. unfold drop_receiver.
    by destruct (channels (gate y) !! c0) as [[]|].
Qed.

(** A value in a channel stays while its waiter awaits it. *)
Lemma gate_apply_value evs y ev y' c id d :
  gate_inv evs y -> gate_apply y ev = Some y' -> channels (gate y) !! c = Some (Delivered d) ->
  waiters y !! c = Some (id, Awaiting) -> waiters y' !! c = Some (id, Awaiting) ->
  channels (gate y') !! c = Some (Delivered d).
Proof.
  intros I H Hc Hw Hw'. destruct ev as [i|i c0|i c0 v|c0 v ok|i|c0|c0 ex|c0|c0|c0]; cbn [gate_apply] in H.
  - destruct (has_capacity _); [|done]. by injection H as <-.
  - destruct (take_out _ _) as [rest|]; cbn in H; [|done]. case_decide as Ec; [|done]. injection H as <-. cbn.
    rewrite lookup_insert_ne; [done|]. intros E. destruct (gi_fresh _ _ I c) as (_ & E' & _); [by rewrite E|].
    by rewrite Hw in E'.
  - cbn in H. case_decide; [|done]. by injection H as <-.
  - destruct (take_out _ _) as [rest|]; cbn in H; [|done]. unfold send in H.
    destruct (channels (gate y) !! c0) as [[]|] eqn:E; case_decide; simplify_eq; try done. cbn.
    rewrite lookup_insert_ne; [done|]. intros ->. by rewrite E in Hc.
  - cbn in H. by injection H as <-.
  - destruct (take_out _ _) as [rest|]; cbn in H; [|done]. injection H as <-. cbn. unfold drop_sender.
    destruct (channels (gate y) !! c0) as [[]|] eqn:E; try done. cbn. rewrite lookup_insert_ne; [done|]. intros ->. by rewrite E in Hc.
  - destruct (waiters y !! c0) as [[i p]|] eqn:E; cbn in H; [|done]. destruct p; try done.
    by destruct (poll _ _ _); injection H as <-.
  - destruct (waiters y !! c0) as [[i p]|] eqn:E; cbn in H; [|done]. destruct p; try done. injection H as <-.
    assert (c0 <> c) by (intros ->; by rewrite Hw in E). cbn. unfold drop_receiver.
    destruct (channels (gate y) !! c0) as [[]|]; cbn; by rewrite ?lookup_insert_ne.
  - destruct (waiters y !! c0) as [[i p]|] eqn:E; cbn in H; [|done]. destruct p; try done. by injection H as <-.
  - destruct (waiters y !! c0) as [[i p]|] eqn:E; cbn in H; [|done]. destruct p; try done. injection H as <-.
    assert (c0 <> c) by (intros ->; cbn in Hw'; by rewrite lookup_delete_eq in Hw'). cbn. unfold drop_receiver.
    destruct (channels (gate y) !! c0) as [[]|]; cbn; by rewrite ?lookup_insert_ne.
Qed.

(** *** The ways of a waiter *)

Lemma gate_run_cons y ev evs : gate_run y (ev :: evs) = (y' ← gate_apply y ev; gate_run y' evs).
Proof.
  unfold gate_run. cbn. destruct (gate_apply y ev) as [y'|]; [done|]. cbn. by induction evs.
Qed.

(** What may become of a waiter, in [y], that can only read [v] from its channel. *)
Definition destined (y : GateSystem) (c : ChannelId) (id : Uuid) (v : ApprovalDecision) (ph0 : WaitPhase) : Prop :=
  match waiters y !! c with
  | None => ph0 = Awaiting /\ (c < next_channel (gate y))%nat
  | Some (id', Awaiting) => id' = id /\ ph0 = Awaiting /\ channels (gate y) !! c = Some (Delivered v)
  | Some (id', Decided d) => id' = id /\ d = v
  | Some (id', _) => id' = id /\ ph0 <> Awaiting /\ v = Rejected
  end.

Lemma destined_step evs y ev y' c id v ph0 :
  gate_inv evs y -> gate_apply y ev = Some y' -> destined y c id v ph0 -> destined y' c id v ph0.
Proof.
  intros I H Hd. unfold destined in Hd. destruct (waiters y !! c) as [[id' ph]|] eqn:E.
  - pose proof (gate_apply_waiter _ _ _ _ _ _ _ I H E) as Hm. unfold destined.
    inversion Hm as [ph' Hp Hw|ex d Hev Hpoll Hp Hw|ex Hev Hpoll Hp Hw|Hev Hp Hw|Hev Hp Hw|Hev Hp Hw]; subst ph; cbn iota beta.
    + destruct ph'; try done. destruct Hd as (-> & ? & Hc). split_and!; [done..|]. by eapply gate_apply_value.
    + destruct Hd as (-> & _ & Hc). unfold poll in Hpoll. rewrite Hc in Hpoll. by injection Hpoll as ->.
    + destruct Hd as (_ & _ & Hc). unfold poll in Hpoll. by rewrite Hc in Hpoll.
    + done.
    + by destruct Hd as (-> & _ & ->).
    + destruct Hd as (_ & -> & _). split; [done|]. subst ev. cbn [gate_apply] in H. rewrite E in H. cbn in H.
      injection H as <-. cbn. destruct (Nat.lt_ge_cases c (next_channel (gate y))) as [Hlt|Hge].
      * unfold drop_receiver. by destruct (channels (gate y) !! c) as [[]|].
      * destruct (gi_fresh _ _ I c Hge) as (_ & E' & _). by rewrite E' in E.
  - unfold destined. destruct Hd as [-> Hc]. destruct (gate_apply_gone _ _ _ _ _ I H Hc E) as [-> ?]. by split.
Qed.

Lemma destined_run evs y evs' y' c id v ph0 :
  gate_inv evs y -> gate_run y evs' = Some y' -> destined y c id v ph0 -> destined y' c id v ph0.
Proof.
  revert evs y. induction evs' as [|ev evs' IH]; intros evs y I; [by intros [= <-]|].
  rewrite gate_run_cons. destruct (gate_apply y ev) as [y1|] eqn:E; cbn; [|done]. intros Hr Hd.
  eapply IH; [by eapply gate_apply_inv|done|by eapply destined_step].
Qed.

(** The next step of a waiter whose timer has fired, and how many it has left. *)
Definition own_step (c : ChannelId) (ph : WaitPhase) : GateEvent :=
  match ph with Elapsed => EvDropReceiver c | CleaningUp => EvCleanup c | _ => EvPoll c true end.
Definition steps_left (ph : WaitPhase) : nat :=
  match ph with Awaiting => 3 | Elapsed => 2 | CleaningUp => 1 | Decided _ => 0 end.

Lemma own_step_runs y c id ph :
  waiters y !! c = Some (id, ph) -> (forall d, ph <> Decided d) ->
  exists y' ph', gate_apply y (own_step c ph) = Some y' /\ waiters y' !! c = Some (id, ph') /\
    (steps_left ph' < steps_left ph)%nat.
Proof.
  intros Hw Hph. destruct ph as [| | |d]; [| | |by destruct (Hph d)]; cbn [own_step gate_apply]; rewrite Hw;
    cbn [mbind option_bind].
  - destruct (poll (gate y) c true) eqn:Ep.
    1, 2: do 2 eexists; split; [done|]; cbn; rewrite lookup_insert_eq; split; [done|cbn; lia].
    unfold poll in Ep. by destruct (channels (gate y) !! c) as [[]|].
  - do 2 eexists. split; [done|]. cbn. rewrite lookup_insert_eq. split; [done|cbn; lia].
  - destruct (take_sender _ _). do 2 eexists. split; [done|]. cbn. rewrite lookup_insert_eq. split; [done|cbn; lia].
Qed.

(** [C29] In every interleaving of requests, decisions, cancellations, polls and
    timers: a waiter ends with [Approved] only if a human's [Approved] took the
    very request it waits on from the table, after it was made, and was sent on its
    channel. A waiter whose sender was dropped, by a cancellation or by a newer
    request, reads [Rejected] at its next poll, whatever the timer; one that was
    told that the time is up ends with [Rejected]; and no waiter is stuck: with an
    expired timer each of its own steps is possible and brings it nearer to its
    decision, which it reaches in at most three. *)
Theorem approved_only_by_human t evs y c id ph :
  gate_run (gate_start t) evs = Some y -> waiters y !! c = Some (id, ph) ->
  (ph = Decided Approved -> answered evs id c Approved) /\
  (ph = Awaiting -> channels (gate y) !! c = Some SenderDropped -> forall ex, exists y',
     gate_apply y (EvPoll c ex) = Some y' /\ waiters y' !! c = Some (id, Decided Rejected)) /\
  (ph = Elapsed \/ ph = CleaningUp -> forall evs' y' id' d, gate_run y evs' = Some y' ->
     waiters y' !! c = Some (id', Decided d) -> d = Rejected) /\
  ((forall d, ph <> Decided d) -> exists y' ph', gate_apply y (own_step c ph) = Some y' /\
     waiters y' !! c = Some (id, ph') /\ (steps_left ph' < steps_left ph <= 3)%nat).
Proof.
  intros I%gate_run_inv Hw. split_and!.
  - apply (gi_waiter _ _ I _ _ _ Hw).
  - intros -> Hc ex. cbn [gate_apply]. rewrite Hw. cbn. unfold poll. rewrite Hc. eexists. split; [done|].
    cbn. apply lookup_insert_eq.
  - intros Hph evs' y' id' d Hr Hd. assert (destined y c id Rejected ph) as Hdest.
    { unfold destined. rewrite Hw. by destruct Hph as [-> | ->]. }
    apply (destined_run _ _ _ _ _ _ _ _ I Hr) in Hdest. unfold destined in Hdest. rewrite Hd in Hdest. by destruct Hdest.
  - intros Hph. destruct (own_step_runs y c id ph Hw Hph) as (y' & ph' & ? & ? & ?). exists y', ph'.
    split_and!; [done..|]. destruct ph; cbn; lia.
Qed.

(** [C30] [submit_decision] reports a decision as delivered exactly when the receiver
    of the request it took from the table was still there. Then there is a waiter:
    one that had not seen its timer fire will, if it is not itself abandoned, end
    with exactly this decision, whatever happens meanwhile and whether its timer
    fires or not, and its next poll gives it. One that had seen it fire and not
    dropped its receiver yet ends with [Rejected] all the same: see
    [delivered_decision_is_lost]. A decision reported as not delivered has no waiter
    that could still take it. *)
Theorem decision_reaches_waiter t evs y c d ok y' :
  gate_run (gate_start t) evs = Some y -> gate_apply y (EvSend c d ok) = Some y' ->
  (ok = true <-> channels (gate y) !! c = Some Open) /\
  (ok = true -> exists id ph, waiters y !! c = Some (id, ph) /\ waiting ph /\
     forall evs' y'', gate_run y' evs' = Some y'' ->
       match waiters y'' !! c with
       | None => ph = Awaiting
       | Some (id', Decided d') => id' = id /\ d' = (if decide (ph = Awaiting) then d else Rejected)
       | Some (id', Awaiting) => id' = id /\ ph = Awaiting /\ forall ex, exists z,
           gate_apply y'' (EvPoll c ex) = Some z /\ waiters z !! c = Some (id, Decided d)
       | Some (id', _) => id' = id /\ ph = Elapsed
       end) /\
  (ok = false -> forall id ph, waiters y !! c = Some (id, ph) -> ~ waiting ph).
Proof.
  intros I%gate_run_inv H. pose proof H as Hap. cbn [gate_apply] in H.
  destruct (take_out (c, Some d) (hands y)) as [rest|] eqn:Eo; cbn in H; [|done].
  destruct (send (gate y) c d) as [b g1] eqn:Es. case_decide as Eb; [|done]. subst ok. injection H as <-.
  apply take_out_perm in Eo. destruct (gi_senders _ _ I c) as (s & Hs & Hu).
  { unfold senders. rewrite Eo. apply elem_of_app. right. by left. }
  unfold send in Es. rewrite Hs in Es. destruct Hu as [-> | ->]; injection Es as <- <-.
  - split; [done|]. split; [|done]. intros _. destruct (gi_open _ _ I c Hs) as (id & ph & Hw & Hph).
    exists id, ph. split_and!; [done..|]. intros evs' y'' Hr.
    assert (destined y'' c id (if decide (ph = Awaiting) then d else Rejected) ph) as Hd.
    { eapply destined_run; [by eapply gate_apply_inv|exact Hr|]. unfold destined. cbn [waiters gate]. rewrite Hw.
      destruct Hph as [-> | ->]; cbn; [|done]. by rewrite lookup_insert_eq. }
    unfold destined in Hd. destruct (waiters y'' !! c) as [[id' []]|] eqn:Ew; [| | | |by destruct Hd].
    + destruct Hd as (-> & -> & Hc). split_and!; [done..|]. intros ex. cbn [gate_apply]. rewrite Ew. cbn. unfold poll.
      rewrite Hc. cbn. eexists. split; [done|]. apply lookup_insert_eq.
    + destruct Hd as (-> & ? & _). split; [done|]. by destruct Hph.
    + destruct Hd as (-> & ? & _). split; [done|]. by destruct Hph.
    + exact Hd.
  - split; [by split; [|rewrite Hs]|]. split; [done|]. intros _ id ph Hw. by eapply gi_gone.
Qed.

(** A decision sent between the last poll of the waiter and the drop of its receiver
    is reported as delivered, and the waiter ends with [Rejected]. *)
Theorem delivered_decision_is_lost :
  exists y, gate_run (gate_start DEFAULT_APPROVAL_TIMEOUT)
    [EvCheck 7; EvInsert 7 0; EvPoll 0 true; EvTake 7 0 Approved; EvSend 0 Approved true; EvDropReceiver 0; EvCleanup 0] = Some y /\
    waiters y !! 0 = Some (7%N, Decided Rejected).
Proof. eexists. split; [vm_compute; reflexivity|]. vm_compute. reflexivity. Qed.

(** The clean-up of a waiter removes whatever entry its task has by then: a newer
    request of the same task is rejected although nobody decided and its timer has
    not fired. *)
Theorem cleanup_removes_newer_request :
  exists y, gate_run (gate_start DEFAULT_APPROVAL_TIMEOUT)
    [EvCheck 7; EvInsert 7 0; EvPoll 0 true; EvCheck 7; EvInsert 7 1; EvDrop 0; EvDropReceiver 0; EvCleanup 0; EvDrop 1;
     EvPoll 1 false] = Some y /\
    waiters y !! 1 = Some (7%N, Decided Rejected).
Proof. eexists. split; [vm_compute; reflexivity|]. vm_compute. reflexivity. Qed.

(** ** Samples *)

Definition gate1 : ApprovalGate := (request_approval ApprovalGate_new 7).2.

(** A second request for the same task drops the sender of the first one: its
    waiter is rejected although no human decided. *)
Example second_request_rejects_first :
  let g := (request_approval gate1 7).2 in
  (wait_for_decision g 0 7 false).1 = Some Rejected /\ (wait_for_decision g 1 7 false).1 = None.
Proof. split; reflexivity. Qed.

(** A request that is approved, up to the moment before the send and to the end. *)
Definition asked_events : list GateEvent := [EvCheck 7; EvInsert 7 0; EvTake 7 0 Approved].
Definition approved_events : list GateEvent := asked_events ++ [EvSend 0 Approved true; EvPoll 0 true].
Definition asked_system : GateSystem :=
  default (gate_start DEFAULT_APPROVAL_TIMEOUT) (gate_run (gate_start DEFAULT_APPROVAL_TIMEOUT) asked_events).
Definition sent_system : GateSystem := default asked_system (gate_apply asked_system (EvSend 0 Approved true)).
Definition approved_system : GateSystem :=
  default (gate_start DEFAULT_APPROVAL_TIMEOUT) (gate_run (gate_start DEFAULT_APPROVAL_TIMEOUT) approved_events).

Lemma approved_only_by_human_witness : answered approved_events 7 0 Approved.
Proof.
  apply (approved_only_by_human DEFAULT_APPROVAL_TIMEOUT approved_events approved_system 0 7 (Decided Approved));
    vm_compute; reflexivity.
Defined.

Lemma decision_reaches_waiter_witness :
  channels (gate sent_system) !! 0 = Some (Delivered Approved) /\
  forall expired, exists z, gate_apply sent_system (EvPoll 0 expired) = Some z /\
    waiters z !! 0 = Some (7%N, Decided Approved).
Proof.
  destruct (decision_reaches_waiter DEFAULT_APPROVAL_TIMEOUT asked_events asked_system 0 Approved true sent_system)
    as (_ & H & _); [vm_compute; reflexivity|vm_compute; reflexivity|].
  destruct (H eq_refl) as (id & ph & Hw & _ & Hn). vm_compute in Hw. injection Hw as <- <-.
  split; [vm_compute; reflexivity|]. apply (Hn [] sent_system eq_refl).
Defined.

Lemma pending_bounded_witness : pending_count (gate asked_system) <= MAX_PENDING_APPROVALS + 0.
Proof.
  apply (pending_bounded DEFAULT_APPROVAL_TIMEOUT asked_events asked_system 0); [vm_compute; reflexivity|].
  intros e1 e2 y1 E. unfold asked_events in E.
  destruct e1 as [|a [|b [|c [|? ?]]]]; cbn in E; simplify_eq; intros H; vm_compute in H;
    injection H as <-; cbn; lia.
Defined.
