(* ===== verification/Budget.v ===== *)
(** * Budgets (orchestrator/budget.rs, orchestrator/multi_tenant.rs)

    The token and cost tracker of a crew and the registry of tenant budgets.
    The counters of the tracker are atomics: additions wrap at 64 bits, and the
    operations of concurrent calls interleave one at a time ([check] reads the two
    counters one after the other; the model reads them together). *)

From S2P Require Import Prelude.
From S2P Require Import F64.
From S2P Require Import Resource.
From Stdlib Require Import SpecFloat ZArith String.
From stdpp Require Import base gmap strings pretty numbers list relations.

Local Open Scope N_scope.

(** ** [(x).ceil() as u64]: NaN and negative values give 0, large ones saturate. *)

Definition ceil_as_u64 (x : f64) : N :=
  match x with
  | S754_finite false m e =>
      let v := if (0 <=? e)%Z then Npos m * 2 ^ Z.to_N e
               else (Npos m + 2 ^ Z.to_N (- e) - 1) / 2 ^ Z.to_N (- e) in
      N.min v u64_max
  | S754_infinity false => u64_max
  | _ => 0
  end.

Definition cost_units_of (cost_usd : f64) : N := ceil_as_u64 (f64_mul cost_usd (f64_of_N 10000)).

(** ** The tracker *)

Inductive BudgetExceeded :=
| Tokens (used limit : N)
| Cost (used_units limit_units : N).

Record BudgetTracker := mkBudgetTracker {
  tokens_used : N;
  cost_units : N;
  bt_max_tokens : option N;
  max_cost_units : option N;
}.

Definition BudgetTracker_new (b : ResourceBudget) : BudgetTracker :=
  mkBudgetTracker 0 0 (max_tokens b) (cost_units_of <$> max_cost_usd b).

(** [Display]; [fmt4]: the format [{:.4}]. *)
Definition budget_exceeded_text (fmt4 : f64 -> string) (e : BudgetExceeded) : string :=
  match e with
  | Tokens used limit => "token budget exceeded: " ++ pretty used ++ " used, " ++ pretty limit ++ " limit"
  | Cost used limit =>
      "cost budget exceeded: $" ++ fmt4 (f64_div (f64_of_N used) (f64_of_N 10000)) ++ " used, $" ++
      fmt4 (f64_div (f64_of_N limit) (f64_of_N 10000)) ++ " limit"
  end%string.

Definition check (t : BudgetTracker) : Result unit BudgetExceeded :=
  match bt_max_tokens t with
  | Some limit =>
      if limit <=? tokens_used t then Err (Tokens (tokens_used t) limit)
      else match max_cost_units t with
           | Some units => if units <=? cost_units t then Err (Cost (cost_units t) units) else Ok tt
           | None => Ok tt
           end
  | None =>
      match max_cost_units t with
      | Some units => if units <=? cost_units t then Err (Cost (cost_units t) units) else Ok tt
      | None => Ok tt
      end
  end.

Definition record_tokens (t : BudgetTracker) (tokens : N) : BudgetTracker :=
  mkBudgetTracker (u64_wrapping_add (tokens_used t) tokens) (cost_units t)
    (bt_max_tokens t) (max_cost_units t).

Definition record_cost (t : BudgetTracker) (cost_usd : f64) : BudgetTracker :=
  mkBudgetTracker (tokens_used t) (u64_wrapping_add (cost_units t) (cost_units_of cost_usd))
    (bt_max_tokens t) (max_cost_units t).

Definition cost_usd (t : BudgetTracker) : f64 := f64_div (f64_of_N (cost_units t)) (f64_of_N 10000).

Definition has_limits (t : BudgetTracker) : bool :=
  bool_decide (is_Some (bt_max_tokens t)) || bool_decide (is_Some (max_cost_units t)).

(** ** Accounting

    What concurrent calls record, one atomic addition at a time, in the order in
    which the additions happen. *)

Inductive Usage := UseTokens (tokens : N) | UseCost (usd : f64).
Definition record (t : BudgetTracker) (u : Usage) : BudgetTracker :=
  match u with UseTokens n => record_tokens t n | UseCost c => record_cost t c end.

(** The account kept with unbounded numbers. *)
Definition tokens_of (u : Usage) : N := match u with UseTokens n => n | UseCost _ => 0 end.
Definition units_of (u : Usage) : N := match u with UseTokens _ => 0 | UseCost c => cost_units_of c end.
Definition sum_over (f : Usage -> N) (us : list Usage) : N := foldr (fun u n => f u + n) 0 us.

Lemma sum_over_app f l k : sum_over f (l ++ k)%list = sum_over f l + sum_over f k.
Proof. unfold sum_over. induction l as [|u l IH]; cbn; [done|]. rewrite IH. lia. Qed.

Lemma sum_over_permutation f l k : l ≡ₚ k -> sum_over f l = sum_over f k.
Proof. unfold sum_over. induction 1; cbn in *; lia. Qed.

Lemma wrapping_add_mod x y : u64_wrapping_add (x mod 2 ^ 64) y = (x + y) mod 2 ^ 64.
Proof. unfold u64_wrapping_add. by rewrite N.Div0.add_mod_idemp_l. Qed.

Lemma record_all b us :
  let t := foldl record (BudgetTracker_new b) us in
  t = mkBudgetTracker (sum_over tokens_of us mod 2 ^ 64) (sum_over units_of us mod 2 ^ 64)
        (max_tokens b) (cost_units_of <$> max_cost_usd b).
Proof.
  cbn zeta. induction us as [|u us IH] using rev_ind; [done|].
  rewrite foldl_app, IH, !sum_over_app. destruct u as [n|c]; cbn [foldl record sum_over foldr tokens_of units_of];
    unfold record_tokens, record_cost; cbn [tokens_used cost_units bt_max_tokens max_cost_units];
    by rewrite wrapping_add_mod, !N.add_0_r.
Qed.

Lemma check_Ok t : check t = Ok tt <->
  (forall limit, bt_max_tokens t = Some limit -> tokens_used t < limit) /\
  (forall limit, max_cost_units t = Some limit -> cost_units t < limit).
Proof.
  unfold check. destruct (bt_max_tokens t) as [lt|], (max_cost_units t) as [lc|];
    repeat case_match; bool_to_prop; split; intros H'; try discriminate H';
    try (split; intros ? [= <-]; lia); destruct H' as [Ht Hc];
    try (specialize (Ht _ eq_refl)); try (specialize (Hc _ eq_refl)); try lia; done.
Qed.

Lemma check_Err t e : check t = Err e ->
  match e with
  | Tokens used limit => bt_max_tokens t = Some limit /\ used = tokens_used t /\ limit <= used
  | Cost used limit => max_cost_units t = Some limit /\ used = cost_units t /\ limit <= used /\
      forall l, bt_max_tokens t = Some l -> tokens_used t < l
  end.
Proof.
  unfold check. destruct (bt_max_tokens t) as [lt|]; [destruct (N.leb_spec lt (tokens_used t)); [by intros [= <-]|]|];
    (destruct (max_cost_units t) as [lc|]; [|done]); (destruct (N.leb_spec lc (cost_units t)); [|done]);
    intros [= <-]; (split_and!; [done..|]); intros l [= <-]; done.
Qed.

(** [C31] The tracker keeps the account and enforces the limits. Whatever concurrent
    calls record, in whatever order: the counters hold the exact totals of the
    tokens and of the costs, rounded up to units call by call, modulo 64 bits, and
    the order does not matter; [check] allows another call exactly while both totals
    are below their limits, and otherwise names the limit that is reached, tokens
    first; and once it refuses it refuses for ever, as long as the totals fit in 64
    bits (beyond, a counter starts over: [wrapped_budget_allows]). *)
Theorem budget_enforced b us :
  let t := foldl record (BudgetTracker_new b) us in
  let tokens := sum_over tokens_of us in
  let units := sum_over units_of us in
  tokens_used t = tokens mod 2 ^ 64 /\ cost_units t = units mod 2 ^ 64 /\
  (forall us', us ≡ₚ us' -> foldl record (BudgetTracker_new b) us' = t) /\
  (check t = Ok tt <->
     (forall limit, max_tokens b = Some limit -> tokens mod 2 ^ 64 < limit) /\
     (forall usd, max_cost_usd b = Some usd -> units mod 2 ^ 64 < cost_units_of usd)) /\
  (forall e, check t = Err e ->
     match e with
     | Tokens used limit => max_tokens b = Some limit /\ used = tokens mod 2 ^ 64 /\ limit <= used
     | Cost used limit => cost_units_of <$> max_cost_usd b = Some limit /\ used = units mod 2 ^ 64 /\ limit <= used /\
         forall l, max_tokens b = Some l -> tokens mod 2 ^ 64 < l
     end) /\
  (forall more, tokens + sum_over tokens_of more < 2 ^ 64 -> units + sum_over units_of more < 2 ^ 64 ->
     check t <> Ok tt -> check (foldl record t more) <> Ok tt).
Proof.
  intros t tokens units. assert (t = mkBudgetTracker (tokens mod 2 ^ 64) (units mod 2 ^ 64)
    (max_tokens b) (cost_units_of <$> max_cost_usd b)) as Et by apply record_all.
  assert (check t = Ok tt <-> (forall limit, max_tokens b = Some limit -> tokens mod 2 ^ 64 < limit) /\
     (forall usd, max_cost_usd b = Some usd -> units mod 2 ^ 64 < cost_units_of usd)) as Hok.
  { rewrite check_Ok, Et. cbn [bt_max_tokens max_cost_units tokens_used cost_units].
    destruct (max_cost_usd b) as [usd|]; cbn; split; intros [H1 H2]; (split; [done|]); try done; intros ? [= <-]; by apply H2. }
  split_and!; [by rewrite Et|by rewrite Et| |done| |].
  - intros us' Hp. rewrite Et. rewrite record_all. unfold tokens, units. by rewrite !(sum_over_permutation _ _ _ Hp).
  - intros e He%check_Err. by rewrite Et in He.
  - intros more Hto Hun Hno Hyes. apply Hno, Hok. unfold t in Hyes. rewrite <-foldl_app, record_all in Hyes.
    apply check_Ok in Hyes as [H1 H2]. cbn [bt_max_tokens max_cost_units tokens_used cost_units] in *.
    rewrite !sum_over_app in *. fold tokens units in H1, H2. rewrite !N.mod_small in * by lia. split.
    + intros limit E. specialize (H1 limit E). lia.
    + intros usd E. rewrite E in H2. specialize (H2 _ eq_refl). lia.
Qed.

(** A wrapped total is allowed again. *)
Example wrapped_budget_allows :
  let t := BudgetTracker_new (mkResourceBudget (Some 100) None None None) in
  check (record_tokens t u64_max) = Err (Tokens u64_max 100) /\
  check (record_tokens (record_tokens t u64_max) 1) = Ok tt.
Proof. vm_compute. by split. Qed.

Lemma budget_enforced_witness :
  let t := foldl record (BudgetTracker_new (mkResourceBudget (Some 100) None None None)) [UseTokens 60; UseTokens 40] in
  tokens_used t = 100 /\ check t = Err (Tokens 100 100) /\ check (foldl record t [UseTokens 7]) <> Ok tt.
Proof.
  pose proof (budget_enforced (mkResourceBudget (Some 100) None None None) [UseTokens 60; UseTokens 40])
    as (H1 & _ & _ & _ & _ & H6).
  split; [exact H1|]. split; [reflexivity|]. apply H6; [vm_compute; reflexivity|vm_compute; reflexivity|].
  vm_compute. discriminate.
Defined.

(** ** Tenants *)

Record TenantBudget := TenantBudget_new {
  tb_max_tokens : N;
  tb_max_cost_usd : f64;
  max_concurrent_crews : N;
}.

Inductive BudgetCheckResult :=
| WithinBudget | TokensExceeded | CostExceeded | ConcurrencyExceeded | TenantNotFound.

Definition TenantRegistry := gmap string TenantBudget.

Definition tenant_len (r : TenantRegistry) : nat := size r.
Definition tenants_empty (r : TenantRegistry) : bool := (size r =? 0)%nat.
Definition TenantRegistry_new : TenantRegistry := ∅.
Definition register_tenant (r : TenantRegistry) (id : string) (b : TenantBudget) : TenantRegistry :=
  <[id := b]> r.
Definition get_budget (r : TenantRegistry) (id : string) : option TenantBudget := r !! id.
Definition remove_tenant (r : TenantRegistry) (id : string) : option TenantBudget * TenantRegistry :=
  (r !! id, delete id r).

Definition check_tenant_budget (r : TenantRegistry) (id : string) (used_tokens : N)
    (used_cost_usd : f64) (active_crews : N) : BudgetCheckResult :=
  match r !! id with
  | None => TenantNotFound
  | Some b =>
      if tb_max_tokens b <? used_tokens then TokensExceeded
      else if f64_gt used_cost_usd (tb_max_cost_usd b) then CostExceeded
      else if max_concurrent_crews b <? active_crews then ConcurrencyExceeded
      else WithinBudget
  end.

(** The tenant check accepts exactly the usages none of whose parts is above its limit. *)
Lemma check_tenant_ok r id tokens cost crews :
  check_tenant_budget r id tokens cost crews = WithinBudget <->
  exists b, get_budget r id = Some b /\ tokens <= tb_max_tokens b /\
    f64_gt cost (tb_max_cost_usd b) = false /\ crews <= max_concurrent_crews b.
Proof.
  unfold check_tenant_budget, get_budget. destruct (r !! id) as [b|]; [|split; [discriminate|by intros (b & ? & _)]].
  destruct (N.ltb_spec (tb_max_tokens b) tokens); [split; [discriminate|intros (b' & [= <-] & ? & _); lia]|].
  destruct (f64_gt cost (tb_max_cost_usd b)) eqn:E; [split; [discriminate|intros (b' & [= <-] & _ & ? & _); congruence]|].
  destruct (N.ltb_spec (max_concurrent_crews b) crews); [split; [discriminate|intros (b' & [= <-] & _ & _ & ?); lia]|].
  split; [eauto|done].
Qed.
