(* ===== verification/Orchestrator.v ===== *)
(** * The orchestrator front end (orchestrator/orchestrator.rs, server/sse.rs)

    [Orchestrator::run_crew] takes a permit, registers the crew under a lock,
    stores its cancellation token, lets [CrewRunner::run] execute it under a
    timeout and stores the result under the lock again; [cancel_crew] raises the
    flag and then marks the entry. Each of these is an atomic step of its own:
    [orch_apply] interleaves the steps of any number of calls, and [accept_crew],
    [conclude_crew], [run_crew] and [cancel_crew] are the calls with nothing in
    between. The cancellation flags are shared between the table and the runners,
    so the model keeps them in a store of their own. *)

From S2P Require Import Prelude.
From S2P Require Import F64.
From S2P Require Import Resource.
From S2P Require Import Core.
From S2P Require Import Kahn.
From S2P Require Import Scheduler.
From S2P Require Import TopoTasks.
From S2P Require Import Scoring.
From S2P Require Import Llm.
From S2P Require Import TaskExec.
From S2P Require Import CrewRunner.
From Stdlib Require Import String.
From stdpp Require Import base gmap strings numbers list relations.

Local Open Scope string_scope.

(** ** The event bus: per crew, the number of live receivers of its channel *)

Definition MAX_EVENT_CHANNELS : nat := N.to_nat 10000.

Definition EventBus := gmap Uuid N.
Definition EventBus_new : EventBus := ∅.

Definition cleanup_orphans (b : EventBus) : EventBus := filter (fun kv => (0 < kv.2)%N) b.

Definition bus_sender (b : EventBus) (id : Uuid) : EventBus :=
  match b !! id with
  | Some _ => b
  | None =>
      let b' := if (MAX_EVENT_CHANNELS <=? size b)%nat then cleanup_orphans b else b in
      <[id := default 0%N (b' !! id)]> b'
  end.

Definition bus_subscribe (b : EventBus) (id : Uuid) : EventBus :=
  alter (fun n => (n + 1)%N) id (bus_sender b id).
Definition bus_remove (b : EventBus) (id : Uuid) : EventBus := delete id b.
Definition bus_has (b : EventBus) (id : Uuid) : bool := bool_decide (is_Some (b !! id)).
Definition bus_len (b : EventBus) : nat := size b.

(** ** State *)

Definition MAX_RETAINED_CREWS : nat := N.to_nat 1000.

Definition TokenId := nat.

Record Orchestrator := mkOrchestrator {
  scheduler : Scheduler;
  active_crews : gmap Uuid CrewState;
  budget : ResourceBudget;
  events : option EventBus;
  llm_ready : bool;               (* the client was created *)
  llm_url : option string;
  cancel_tokens : gmap Uuid TokenId;
  flags : gmap TokenId bool;      (* the shared atomic booleans *)
  next_token : TokenId;
  audit_log : list LogEntry;
}.

Definition Orchestrator_new (b : ResourceBudget) : Orchestrator :=
  mkOrchestrator Scheduler_new ∅ b None false None ∅ ∅ 0 [].

(** Permits of the crew semaphore. *)
Definition max_concurrent (b : ResourceBudget) : N := default 10%N (max_concurrent_tasks b).

Definition orch_with_events (o : Orchestrator) (b : EventBus) : Orchestrator :=
  mkOrchestrator (scheduler o) (active_crews o) (budget o) (Some b) (llm_ready o) (llm_url o)
    (cancel_tokens o) (flags o) (next_token o) (audit_log o).

Definition with_llm_url (o : Orchestrator) (url : string) : Orchestrator :=
  mkOrchestrator (scheduler o) (active_crews o) (budget o) (events o) (llm_ready o) (Some url)
    (cancel_tokens o) (flags o) (next_token o) (audit_log o).

(** [with_audit] and [with_llm]; the lock of the client is set at most once, to a client either way. *)
Definition orch_with_audit (o : Orchestrator) (chain : list LogEntry) : Orchestrator :=
  mkOrchestrator (scheduler o) (active_crews o) (budget o) (events o) (llm_ready o) (llm_url o)
    (cancel_tokens o) (flags o) (next_token o) chain.
Definition orch_with_llm (o : Orchestrator) : Orchestrator :=
  mkOrchestrator (scheduler o) (active_crews o) (budget o) (events o) true (llm_url o)
    (cancel_tokens o) (flags o) (next_token o) (audit_log o).

(** [llm_client]: whether there is a client, and whether it exists from now on. *)
Definition llm_client (o : Orchestrator) : bool :=
  llm_ready o || bool_decide (is_Some (llm_url o)).

Definition is_final (s : CrewStatus) : bool :=
  match s with CCompleted | CFailed | CCancelled => true | CPending | CRunning => false end.

Definition evict_finished (m : gmap Uuid CrewState) : gmap Uuid CrewState :=
  if (MAX_RETAINED_CREWS <=? size m)%nat
  then filter (fun kv => is_final (crew_status kv.2) = false) m else m.

Definition pending_state (id : Uuid) : CrewState := mkCrewState id CPending [] None.
Definition timed_out_state (id : Uuid) : CrewState := mkCrewState id CFailed [] None.

Definition crew_timeout (b : ResourceBudget) : Duration :=
  default (from_secs 3600) (from_secs <$> max_duration_secs b).

Definition audit_level (s : CrewStatus) : string :=
  match s with
  | CCompleted => "info" | CFailed => "error" | CCancelled => "warn" | CPending | CRunning => "info"
  end.

(** ** Operations *)

Section orchestrator.
Context (uuid_to_string : Uuid -> string).

(** *** The atomic steps of [run_crew], in its order *)

Definition record_audit (o : Orchestrator) (log : list LogEntry) : Orchestrator :=
  mkOrchestrator (scheduler o) (active_crews o) (budget o) (events o) (llm_ready o) (llm_url o)
    (cancel_tokens o) (flags o) (next_token o) (audit_log o ++ log)%list.

Definition accepted_entry (s : CrewSpec) : LogEntry :=
  Audited "crew_accepted" "info" (crew_name s)
    (Obj [("crew_id", Str (uuid_to_string (crew_id s))); ("task_count", json_u64 (N.of_nat (length (tasks s))))]).

(** Under the write lock: eviction at capacity, and the [Pending] entry. *)
Definition register_pending (o : Orchestrator) (id : Uuid) : Orchestrator :=
  mkOrchestrator (scheduler o) (<[id := pending_state id]> (evict_finished (active_crews o))) (budget o) (events o)
    (llm_ready o) (llm_url o) (cancel_tokens o) (flags o) (next_token o) (audit_log o).

(** [cancel_tokens.insert] of a fresh flag. *)
Definition insert_token (o : Orchestrator) (id : Uuid) : TokenId * Orchestrator :=
  let tok := next_token o in
  (tok, mkOrchestrator (scheduler o) (active_crews o) (budget o) (events o) (llm_ready o) (llm_url o)
          (<[id := tok]> (cancel_tokens o)) (<[tok := false]> (flags o)) (S tok) (audit_log o)).

(** The runner, with the client (created now, at the latest) and the sender of the bus. *)
Definition attach_runner (o : Orchestrator) (s : CrewSpec) : CrewRunner * Orchestrator :=
  (mkCrewRunner s (bool_decide (is_Some (events o))) (llm_client o) true,
   mkOrchestrator (scheduler o) (active_crews o) (budget o) ((fun b => bus_sender b (crew_id s)) <$> events o)
     (llm_client o) (llm_url o) (cancel_tokens o) (flags o) (next_token o) (audit_log o)).

Definition finished_entry (id : Uuid) (name : string) (st : CrewState) : LogEntry :=
  Audited "crew_finished" (audit_level (crew_status st)) name
    (Obj [("crew_id", Str (uuid_to_string id));
          ("status", Str (debug_crew_status (crew_status st)));
          ("task_count", json_u64 (N.of_nat (length (results st))));
          ("wall_ms", json_u64 (match profile st with Some p => wall_ms p | None => 0%N end));
          ("cost_usd", json_f64 (match profile st with Some p => cost_usd p | None => f64_zero end))]).

(** Under the write lock again. *)
Definition store_state (o : Orchestrator) (id : Uuid) (st : CrewState) : Orchestrator :=
  mkOrchestrator (scheduler o) (<[id := st]> (active_crews o)) (budget o) (events o) (llm_ready o) (llm_url o)
    (cancel_tokens o) (flags o) (next_token o) (audit_log o).

Definition remove_token (o : Orchestrator) (id : Uuid) : Orchestrator :=
  mkOrchestrator (scheduler o) (active_crews o) (budget o) (events o) (llm_ready o) (llm_url o)
    (delete id (cancel_tokens o)) (flags o) (next_token o) (audit_log o).

Definition remove_channel (o : Orchestrator) (id : Uuid) : Orchestrator :=
  mkOrchestrator (scheduler o) (active_crews o) (budget o) ((fun b => bus_remove b id) <$> events o)
    (llm_ready o) (llm_url o) (cancel_tokens o) (flags o) (next_token o) (audit_log o).

(** *** The atomic steps of [cancel_crew] *)

(** The flag of the crew is raised, if it is in the table. *)
Definition signal_token (o : Orchestrator) (id : Uuid) : Orchestrator :=
  mkOrchestrator (scheduler o) (active_crews o) (budget o) (events o) (llm_ready o) (llm_url o) (cancel_tokens o)
    (match cancel_tokens o !! id with Some tok => <[tok := true]> (flags o) | None => flags o end)
    (next_token o) (audit_log o).

Definition set_crew_status (s : CrewStatus) (c : CrewState) : CrewState :=
  mkCrewState (state_crew_id c) s (results c) (profile c).

Definition cancelled_entry (id : Uuid) : LogEntry :=
  Audited "crew_cancelled" "warn" "crew cancelled by caller" (Obj [("crew_id", Str (uuid_to_string id))]).

(** Under the write lock: the entry is marked, if there is one. *)
Definition mark_cancelled (o : Orchestrator) (id : Uuid) : Result unit AgnosaiError * Orchestrator :=
  match active_crews o !! id with
  | Some crew =>
      (Ok tt,
       mkOrchestrator (scheduler o) (<[id := set_crew_status CCancelled crew]> (active_crews o))
         (budget o) (events o) (llm_ready o) (llm_url o) (cancel_tokens o) (flags o) (next_token o)
         (audit_log o ++ [cancelled_entry id])%list)
  | None => (Err (CrewNotFound (uuid_to_string id)), o)
  end.

(** *** The calls, with nothing in between *)

(** [run_crew] up to the start of the runner. *)
Definition accept_crew (o : Orchestrator) (s : CrewSpec) : TokenId * CrewRunner * Orchestrator :=
  let o1 := register_pending (record_audit o [accepted_entry s]) (crew_id s) in
  let (tok, o2) := insert_token o1 (crew_id s) in
  let (r, o3) := attach_runner o2 s in
  (tok, r, o3).

(** The rest of [run_crew]; [result?] returns before anything is stored. *)
Definition conclude_crew (o : Orchestrator) (id : Uuid) (name : string)
    (outcome : Result CrewState AgnosaiError) : Result CrewState AgnosaiError * Orchestrator :=
  match outcome with
  | Err e => (Err e, o)
  | Ok st =>
      (Ok st, remove_channel (remove_token (store_state (record_audit o [finished_entry id name st]) id st) id) id)
  end.

Definition cancel_crew (o : Orchestrator) (id : Uuid) : Result unit AgnosaiError * Orchestrator :=
  mark_cancelled (signal_token o id) id.

Definition is_audited (e : LogEntry) : bool := match e with Audited _ _ _ _ => true | Sent _ => false end.
End orchestrator.

(** ** The whole handler *)

Section run_crew.
Context {W : Type} (env : Env W) (rt : Runtime W).
Context `{!HashIter Uuid f64} `{!HashIter Uuid nat}.

(** [expired] is [Some log] when the timer fires before the runner returns,
    with what the runner audited until then. A runner that never returns is
    always cut off by the timer. *)
Definition run_crew (sandbox_strength : option N) (expired : option (list LogEntry))
    (o : Orchestrator) (s : CrewSpec) (w : W)
    : Outcome (Result CrewState AgnosaiError * Orchestrator) :=
  let id := crew_id s in
  let conclude := fun o out => conclude_crew (uuid_to_string env) o id (crew_name s) out in
  match accept_crew (uuid_to_string env) o s with
  | (_, r, o1) =>
      match expired with
      | Some log => Returns (conclude (record_audit o1 log) (Ok (timed_out_state id)))
      | None =>
          match run env rt r sandbox_strength w with
          | Returns (Ok out) =>
              Returns (conclude (record_audit o1 (List.filter is_audited (out_log out))) (Ok (out_state out)))
          | Returns (Err e) => Returns (conclude o1 (Err e))
          | Panics => Panics
          | Hangs => Returns (conclude o1 (Ok (timed_out_state id)))
          end
      end
  end.
End run_crew.

(** ** Interleaving *)

Section interleaving.
Context (uuid_to_string : Uuid -> string).

(** Where a [run_crew] call stands between its atomic steps: waiting for a permit,
    past each of the steps before the runner, executing, and past the steps behind it. *)
Inductive Phase :=
| Waiting | Acquired | Accepted | Registered | Tokened (tok : TokenId)
| Executing (r : CrewRunner) (tok : TokenId) | Finished (st : CrewState) | Stored | Untracked.

Record Call := mkCall { call_spec : CrewSpec; call_phase : Phase }.

(** The orchestrator, its [run_crew] calls by crew id, the permits that are free,
    and the [cancel_crew] calls between their two steps. *)
Record System := mkSystem {
  orch : Orchestrator;
  calls : gmap Uuid Call;
  permits : N;
  cancels : list Uuid;
}.

Inductive OrchEvent :=
| EvSubmit (sp : CrewSpec)
| EvAcquire (id : Uuid) | EvAccept (id : Uuid) | EvRegister (id : Uuid) | EvToken (id : Uuid) | EvStart (id : Uuid)
| EvFinish (id : Uuid) (outcome : Result CrewState AgnosaiError)
| EvStore (id : Uuid) | EvUntrack (id : Uuid) | EvReturn (id : Uuid)
| EvSignal (id : Uuid) | EvMark (id : Uuid)
| EvDropCall (id : Uuid) | EvDropCancel (id : Uuid).   (* the caller goes away at an await *)

(** [Orchestrator::new]: the semaphore panics above its maximum. *)
Definition orch_start (b : ResourceBudget) : option System :=
  if (MAX_PERMITS <? max_concurrent b)%N then None
  else Some (mkSystem (Orchestrator_new b) ∅ (max_concurrent b) []).

Fixpoint remove_first (id : Uuid) (l : list Uuid) : option (list Uuid) :=
  match l with
  | [] => None
  | x :: l => if decide (x = id) then Some l else cons x <$> remove_first id l
  end.

Definition set_call (s : System) (o : Orchestrator) (id : Uuid) (c : Call) : System :=
  mkSystem o (<[id := c]> (calls s)) (permits s) (cancels s).
(** The call returns and its permit is dropped. *)
Definition end_call (s : System) (o : Orchestrator) (id : Uuid) : System :=
  mkSystem o (delete id (calls s)) (permits s + 1) (cancels s).
Definition with_phase (c : Call) (p : Phase) : Call := mkCall (call_spec c) p.

(** One step of one call. The calls in progress have different crew ids: ids are
    drawn at random. *)
Definition orch_apply (s : System) (ev : OrchEvent) : option System :=
  let o := orch s in
  match ev with
  | EvSubmit sp =>
      match calls s !! crew_id sp with
      | Some _ => None
      | None => Some (set_call s o (crew_id sp) (mkCall sp Waiting))
      end
  | EvAcquire id =>
      c ← calls s !! id;
      match call_phase c with
      | Waiting =>
          if (permits s =? 0)%N then None
          else Some (mkSystem o (<[id := with_phase c Acquired]> (calls s)) (permits s - 1) (cancels s))
      | _ => None
      end
  | EvAccept id =>
      c ← calls s !! id;
      match call_phase c with
      | Acquired => Some (set_call s (record_audit o [accepted_entry uuid_to_string (call_spec c)]) id (with_phase c Accepted))
      | _ => None
      end
  | EvRegister id =>
      c ← calls s !! id;
      match call_phase c with
      | Accepted => Some (set_call s (register_pending o id) id (with_phase c Registered))
      | _ => None
      end
  | EvToken id =>
      c ← calls s !! id;
      match call_phase c with
      | Registered => let (tok, o') := insert_token o id in Some (set_call s o' id (with_phase c (Tokened tok)))
      | _ => None
      end
  | EvStart id =>
      c ← calls s !! id;
      match call_phase c with
      | Tokened tok => let (r, o') := attach_runner o (call_spec c) in Some (set_call s o' id (with_phase c (Executing r tok)))
      | _ => None
      end
  | EvFinish id outcome =>
      c ← calls s !! id;
      match call_phase c, outcome with
      | Executing _ _, Ok st =>
          Some (set_call s (record_audit o [finished_entry uuid_to_string id (crew_name (call_spec c)) st]) id
                  (with_phase c (Finished st)))
      | Executing _ _, Err _ => Some (end_call s o id)
      | _, _ => None
      end
  | EvStore id =>
      c ← calls s !! id;
      match call_phase c with
      | Finished st => Some (set_call s (store_state o id st) id (with_phase c Stored))
      | _ => None
      end
  | EvUntrack id =>
      c ← calls s !! id;
      match call_phase c with
      | Stored => Some (set_call s (remove_token o id) id (with_phase c Untracked))
      | _ => None
      end
  | EvReturn id =>
      c ← calls s !! id;
      match call_phase c with
      | Untracked => Some (end_call s (remove_channel o id) id)
      | _ => None
      end
  | EvSignal id => Some (mkSystem (signal_token o id) (calls s) (permits s) (cancels s ++ [id])%list)
  | EvMark id =>
      rest ← remove_first id (cancels s);
      Some (mkSystem (mark_cancelled uuid_to_string o id).2 (calls s) (permits s) rest)
  | EvDropCall id =>
      c ← calls s !! id;
      match call_phase c with
      | Waiting => Some (mkSystem o (delete id (calls s)) (permits s) (cancels s))
      | Accepted | Executing _ _ | Finished _ => Some (end_call s o id)
      | _ => None
      end
  | EvDropCancel id =>
      rest ← remove_first id (cancels s);
      Some (mkSystem o (calls s) (permits s) rest)
  end.

Definition orch_run (s : System) (evs : list OrchEvent) : option System :=
  foldl (fun o ev => s ← o; orch_apply s ev) (Some s) evs.

Lemma orch_run_snoc s evs ev : orch_run s (evs ++ [ev])%list = (s' ← orch_run s evs; orch_apply s' ev).
Proof. unfold orch_run. by rewrite foldl_app. Qed.

(** *** What holds of a call *)

Definition holds_permit (c : Call) : Prop := call_phase c <> Waiting.
#[local] Instance holds_permit_dec c : Decision (holds_permit c).
Proof. unfold holds_permit. destruct c as [sp []]; [right; by intros H; apply H|left; done..]. Defined.
Definition holders (cs : gmap Uuid Call) : nat := size (filter (fun kc => holds_permit kc.2) cs).

(** The flag of a call whose runner polls it, or is about to. *)
Definition live_token (p : Phase) : option TokenId :=
  match p with Tokened tok | Executing _ tok => Some tok | _ => None end.
Definition listed_phase (p : Phase) : bool :=
  match p with Registered | Tokened _ | Executing _ _ | Finished _ => true | _ => false end.

(** What came after the last occurrence of an event. *)
Definition after (ev : OrchEvent) (evs post : list OrchEvent) : Prop :=
  exists pre, evs = (pre ++ ev :: post)%list /\ ev ∉ post.

(** The flag is in the table, and is raised exactly when a cancellation has raised
    it since the token was inserted. *)
Definition tracked (evs : list OrchEvent) (o : Orchestrator) (id : Uuid) (tok : TokenId) : Prop :=
  cancel_tokens o !! id = Some tok /\
  exists post, after (EvToken id) evs post /\
    ((flags o !! tok = Some true /\ EvSignal id ∈ post) \/ (flags o !! tok = Some false /\ EvSignal id ∉ post)).

(** The crew is listed as [Pending], unless a cancellation has marked it since. *)
Definition listed (evs : list OrchEvent) (o : Orchestrator) (id : Uuid) : Prop :=
  exists post, after (EvRegister id) evs post /\
    (EvMark id ∉ post -> active_crews o !! id = Some (pending_state id)).

Record orch_inv (b : ResourceBudget) (evs : list OrchEvent) (s : System) : Prop := {
  oi_permits : (permits s + N.of_nat (holders (calls s)))%N = max_concurrent b;
  oi_fresh : forall id tok, cancel_tokens (orch s) !! id = Some tok -> tok < next_token (orch s);
  oi_inj : forall id id' tok, cancel_tokens (orch s) !! id = Some tok ->
    cancel_tokens (orch s) !! id' = Some tok -> id = id';
  oi_tracked : forall id c tok, calls s !! id = Some c -> live_token (call_phase c) = Some tok ->
    tracked evs (orch s) id tok;
  oi_listed : forall id c, calls s !! id = Some c -> listed_phase (call_phase c) = true -> listed evs (orch s) id;
}.

Lemma evict_finished_keeps m id st :
  m !! id = Some st -> is_final (crew_status st) = false -> evict_finished m !! id = Some st.
Proof.
  intros H Hf. unfold evict_finished. case_match; [|done].
  by apply map_lookup_filter_Some_2.
Qed.

(** *** The accounts of the semaphore *)

Lemma holders_gain cs id c c' : cs !! id = Some c -> ~ holds_permit c -> holds_permit c' ->
  holders (<[id := c']> cs) = S (holders cs).
Proof.
  intros Hc Hno Hc'. unfold holders. rewrite map_filter_insert_True by done.
  apply map_size_insert_None. apply map_lookup_filter_None. right. intros c0 Hc0. by simplify_eq.
Qed.

Lemma holders_keep cs id c c' : cs !! id = Some c -> holds_permit c -> holds_permit c' ->
  holders (<[id := c']> cs) = holders cs.
Proof.
  intros Hc Hh Hh'. unfold holders. rewrite map_filter_insert_True by done.
  apply map_size_insert_Some. exists c. by apply map_lookup_filter_Some.
Qed.

Lemma holders_new cs id c' : cs !! id = None -> ~ holds_permit c' -> holders (<[id := c']> cs) = holders cs.
Proof.
  intros Hc Hno. unfold holders. rewrite map_filter_insert_False by done. by rewrite delete_id.
Qed.

Lemma holders_delete cs id c : cs !! id = Some c -> holds_permit c -> S (holders (delete id cs)) = holders cs.
Proof.
  intros Hc Hh. unfold holders. rewrite map_filter_delete.
  rewrite map_size_delete_Some by (exists c; by apply map_lookup_filter_Some).
  assert (size (filter (fun kc : Uuid * Call => holds_permit kc.2) cs) <> 0); [|lia].
  intros E%map_size_empty_inv. assert (filter (fun kc : Uuid * Call => holds_permit kc.2) cs !! id = Some c) as H
    by (by apply map_lookup_filter_Some). rewrite E in H. by rewrite lookup_empty in H.
Qed.

Lemma holders_forget cs id c : cs !! id = Some c -> ~ holds_permit c -> holders (delete id cs) = holders cs.
Proof.
  intros Hc Hno. unfold holders. rewrite map_filter_delete, delete_id; [done|].
  apply map_lookup_filter_None. right. intros c0 Hc0. by simplify_eq.
Qed.

(** *** Preservation *)

Lemma after_snoc ev evs post ev' : after ev evs post -> ev' <> ev -> after ev (evs ++ [ev'])%list (post ++ [ev'])%list.
Proof.
  intros (pre & -> & Hn) Hne. exists pre. split; [by rewrite <-app_assoc|].
  rewrite elem_of_app, list_elem_of_singleton. by intros [?|?].
Qed.

Lemma after_new ev evs : after ev (evs ++ [ev])%list [].
Proof. exists evs. split; [done|apply not_elem_of_nil]. Qed.

Lemma tracked_keep evs ev o o' id tok :
  tracked evs o id tok -> cancel_tokens o' !! id = Some tok -> flags o' !! tok = flags o !! tok ->
  ev <> EvToken id -> ev <> EvSignal id -> tracked (evs ++ [ev])%list o' id tok.
Proof.
  intros (_ & post & Ha & Hf) Ht Hfl H1 H2. split; [done|]. exists (post ++ [ev])%list. split; [by apply after_snoc|].
  rewrite Hfl, elem_of_app, list_elem_of_singleton. destruct Hf as [[? ?]|[? Hn]]; [by left; auto|right].
  split; [done|]. intros [?|E]; [done|by subst].
Qed.

Lemma tracked_signal evs o id tok :
  tracked evs o id tok -> tracked (evs ++ [EvSignal id])%list (signal_token o id) id tok.
Proof.
  intros (Ht & post & Ha & _). split; [done|]. exists (post ++ [EvSignal id])%list.
  split; [by apply after_snoc|]. left. cbn [signal_token flags]. rewrite Ht, lookup_insert_eq. split; [done|].
  apply elem_of_app. right. by left.
Qed.

Lemma listed_keep evs ev o o' id :
  listed evs o id -> (active_crews o !! id = Some (pending_state id) -> active_crews o' !! id = Some (pending_state id)) ->
  ev <> EvRegister id -> listed (evs ++ [ev])%list o' id.
Proof.
  intros (post & Ha & Hp) Hk H1. exists (post ++ [ev])%list. split; [by apply after_snoc|].
  rewrite elem_of_app. intros Hn. apply Hk, Hp. intros ?. apply Hn. by left.
Qed.

Lemma listed_mark evs o o' id : listed evs o id -> listed (evs ++ [EvMark id])%list o' id.
Proof.
  intros (post & Ha & _). exists (post ++ [EvMark id])%list. split; [by apply after_snoc|].
  intros []. apply elem_of_app. right. by left.
Qed.

(** The crew an event is about. *)
Definition event_crew (ev : OrchEvent) : Uuid :=
  match ev with
  | EvSubmit sp => crew_id sp
  | EvAcquire id | EvAccept id | EvRegister id | EvToken id | EvStart id | EvFinish id _ | EvStore id | EvUntrack id
  | EvReturn id | EvSignal id | EvMark id | EvDropCall id | EvDropCancel id => id
  end.

(** A step about one crew leaves the tokens, flags and entries of the others alone. *)
Record leaves_others (o o' : Orchestrator) (id : Uuid) : Prop := {
  lo_fresh : (forall j tok, cancel_tokens o !! j = Some tok -> tok < next_token o) ->
    forall j tok, cancel_tokens o' !! j = Some tok -> tok < next_token o';
  lo_inj : (forall j tok, cancel_tokens o !! j = Some tok -> tok < next_token o) ->
    (forall j k tok, cancel_tokens o !! j = Some tok -> cancel_tokens o !! k = Some tok -> j = k) ->
    forall j k tok, cancel_tokens o' !! j = Some tok -> cancel_tokens o' !! k = Some tok -> j = k;
  lo_token : forall j tok, j <> id -> cancel_tokens o !! j = Some tok -> cancel_tokens o' !! j = Some tok;
  lo_flag : (forall j tok, cancel_tokens o !! j = Some tok -> tok < next_token o) ->
    (forall j k tok, cancel_tokens o !! j = Some tok -> cancel_tokens o !! k = Some tok -> j = k) ->
    forall j tok, j <> id -> cancel_tokens o !! j = Some tok -> flags o' !! tok = flags o !! tok;
  lo_entry : forall j, j <> id -> active_crews o !! j = Some (pending_state j) -> active_crews o' !! j = Some (pending_state j);
}.

Lemma leaves_quiet o o' id :
  cancel_tokens o' = cancel_tokens o -> flags o' = flags o -> next_token o' = next_token o ->
  active_crews o' = active_crews o -> leaves_others o o' id.
Proof. intros Ht Hf Hn Ha. split; rewrite ?Ht, ?Hf, ?Hn, ?Ha; auto. Qed.

Lemma register_leaves o id : leaves_others o (register_pending o id) id.
Proof.
  split; try done. intros j Hj Ha. cbn [register_pending active_crews]. rewrite lookup_insert_ne by done.
  by apply evict_finished_keeps.
Qed.

Lemma insert_token_leaves o id : leaves_others o (insert_token o id).2 id.
Proof.
  split; cbn [insert_token snd cancel_tokens flags next_token active_crews].
  - intros Hb j tok [[_ <-]|[_ Ht]]%lookup_insert_Some; [lia|]. apply Hb in Ht. lia.
  - intros Hb Hi j k tok [[<- <-]|[_ E1]]%lookup_insert_Some [[<- E]|[_ E2]]%lookup_insert_Some;
      eauto; subst; exfalso; [apply Hb in E2; lia|apply Hb in E1; lia].
  - intros j tok Hj Ht. by rewrite lookup_insert_ne.
  - intros Hb _ j tok _ Ht. rewrite lookup_insert_ne; [done|]. apply Hb in Ht. lia.
  - done.
Qed.

Lemma store_leaves o id st : leaves_others o (store_state o id st) id.
Proof. split; try done. intros j Hj Ha. cbn. by rewrite lookup_insert_ne. Qed.

Lemma remove_token_leaves o id : leaves_others o (remove_token o id) id.
Proof.
  split; cbn [remove_token cancel_tokens flags next_token active_crews]; try done.
  - intros Hb j tok [_ Ht]%lookup_delete_Some. eauto.
  - intros _ Hi j k tok [_ H1]%lookup_delete_Some [_ H2]%lookup_delete_Some. eauto.
  - intros j tok Hj Ht. by rewrite lookup_delete_ne.
Qed.

Lemma signal_leaves o id : leaves_others o (signal_token o id) id.
Proof.
  split; try done. intros _ Hi j tok Hj Ht. cbn [signal_token flags].
  destruct (cancel_tokens o !! id) as [tok'|] eqn:E; [|done]. rewrite lookup_insert_ne; [done|].
  intros ->. apply Hj. by eapply Hi.
Qed.

Lemma mark_leaves o id : leaves_others o (mark_cancelled uuid_to_string o id).2 id.
Proof.
  unfold mark_cancelled. destruct (active_crews o !! id); [|by apply leaves_quiet]. split; try done.
  intros j Hj Ha. cbn. by rewrite lookup_insert_ne.
Qed.

(** What is left to check of a step: the accounts, and the crew it is about. *)
Lemma orch_inv_step b evs s ev o' cs' n' l' :
  orch_inv b evs s -> leaves_others (orch s) o' (event_crew ev) ->
  (n' + N.of_nat (holders cs'))%N = max_concurrent b ->
  (forall j c, j <> event_crew ev -> cs' !! j = Some c -> calls s !! j = Some c) ->
  (forall c tok, cs' !! event_crew ev = Some c -> live_token (call_phase c) = Some tok ->
     tracked (evs ++ [ev])%list o' (event_crew ev) tok) ->
  (forall c, cs' !! event_crew ev = Some c -> listed_phase (call_phase c) = true ->
     listed (evs ++ [ev])%list o' (event_crew ev)) ->
  orch_inv b (evs ++ [ev])%list (mkSystem o' cs' n' l').
Proof.
  intros [H1 H2 H3 H4 H5] [L1 L2 L3 L4 L5] Hn Hcs Ht Hl. split; cbn [orch calls permits]; [done|by apply L1|by apply L2| |].
  - intros j c tok Hj Htok. destruct (decide (j = event_crew ev)) as [->|Hne]; [by eapply Ht|].
    pose proof (H4 j c tok (Hcs j c Hne Hj) Htok) as Hold. destruct (Hold) as [Hc _].
    eapply tracked_keep; [exact Hold|by apply L3|by eapply L4|intros ->; done|intros ->; done].
  - intros j c Hj Hp. destruct (decide (j = event_crew ev)) as [->|Hne]; [by eapply Hl|].
    eapply listed_keep; [by eapply H5; [apply Hcs|]|by apply L5|intros ->; done].
Qed.

(** Opens an event of a call in progress. *)
Ltac open_event :=
  repeat match goal with
  | H : (_ ← ?x; _) = Some _ |- _ => destruct x as [?|] eqn:?; cbn [mbind option_bind] in H; [|discriminate H]
  | H : match call_phase ?c with _ => _ end = Some _ |- _ => destruct (call_phase c) eqn:?; try discriminate H
  | H : match ?x with _ => _ end = Some _ |- _ => destruct x eqn:?; try discriminate H
  | H : Some _ = Some _ |- _ => injection H as <-
  end.

Lemma holds_other c p : call_phase c = p -> p <> Waiting -> holds_permit c.
Proof. unfold holds_permit. by intros ->. Qed.

(** A step from one permit-holding phase to another. *)
Lemma orch_inv_advance b evs s ev o' c p :
  orch_inv b evs s -> calls s !! event_crew ev = Some c -> call_phase c <> Waiting -> p <> Waiting ->
  leaves_others (orch s) o' (event_crew ev) ->
  (forall tok, live_token p = Some tok -> tracked (evs ++ [ev])%list o' (event_crew ev) tok) ->
  (listed_phase p = true -> listed (evs ++ [ev])%list o' (event_crew ev)) ->
  orch_inv b (evs ++ [ev])%list (set_call s o' (event_crew ev) (with_phase c p)).
Proof.
  intros Hi Hc Hw Hp Ho Ht Hl. apply (orch_inv_step b evs s); [done|done| | | |].
  - rewrite (holders_keep _ _ c) by done. apply (oi_permits _ _ _ Hi).
  - intros j d Hj. by rewrite lookup_insert_ne.
  - intros d tok. rewrite lookup_insert_eq. intros [= <-]. apply Ht.
  - intros d. rewrite lookup_insert_eq. intros [= <-]. apply Hl.
Qed.

(** A call that returns. *)
Lemma orch_inv_end b evs s ev o' c :
  orch_inv b evs s -> calls s !! event_crew ev = Some c -> call_phase c <> Waiting ->
  leaves_others (orch s) o' (event_crew ev) ->
  orch_inv b (evs ++ [ev])%list (end_call s o' (event_crew ev)).
Proof.
  intros Hi Hc Hw Ho. apply (orch_inv_step b evs s); [done|done| | | |].
  - pose proof (holders_delete _ _ c Hc Hw). pose proof (oi_permits _ _ _ Hi). lia.
  - by intros j d Hj [_ ?]%lookup_delete_Some.
  - intros d tok. by rewrite lookup_delete_eq.
  - intros d. by rewrite lookup_delete_eq.
Qed.

Lemma orch_apply_inv b evs s ev s' : orch_inv b evs s -> orch_apply s ev = Some s' -> orch_inv b (evs ++ [ev])%list s'.
Proof.
  intros Hi Hap. pose proof (oi_permits _ _ _ Hi) as Hpm.
  destruct ev as [sp|id|id|id|id|id|id out|id|id|id|id|id|id|id]; cbn [orch_apply] in Hap; open_event.
  - apply (orch_inv_step b evs s); [done|by apply leaves_quiet| | | |]; cbn [event_crew].
    + rewrite holders_new; [done|done|]. by intros [].
    + intros j c Hj. by rewrite lookup_insert_ne.
    + intros c tok. rewrite lookup_insert_eq. by intros [= <-].
    + intros c. rewrite lookup_insert_eq. by intros [= <-].
  - apply (orch_inv_step b evs s); [done|by apply leaves_quiet| | | |]; cbn [event_crew].
    + rewrite (holders_gain _ _ c) by (done || (intros []; congruence)). apply N.eqb_neq in Heqb0. lia.
    + intros j d Hj. by rewrite lookup_insert_ne.
    + intros d tok. rewrite lookup_insert_eq. by intros [= <-].
    + intros d. rewrite lookup_insert_eq. by intros [= <-].
  - apply (orch_inv_advance _ _ _ (EvAccept id)); [done|done|congruence|done|by apply leaves_quiet|done|done].
  - apply (orch_inv_advance _ _ _ (EvRegister id)); [done|done|congruence|done|apply register_leaves|done|].
    intros _. exists []. split; [apply after_new|]. intros _. cbn. by rewrite lookup_insert_eq.
  - injection Heqp0 as <- <-. apply (orch_inv_advance _ _ _ (EvToken id)); [done|done|congruence|done|apply insert_token_leaves| |].
    + intros tok [= <-]. split; [cbn; by rewrite lookup_insert_eq|]. exists []. split; [apply after_new|]. right.
      cbn. rewrite lookup_insert_eq. split; [done|apply not_elem_of_nil].
    + intros _. eapply listed_keep; [eapply (oi_listed _ _ _ Hi id c)|done|done]; [done|by rewrite Heqp].
  - injection Heqp0 as <- <-. apply (orch_inv_advance _ _ _ (EvStart id)); [done|done|congruence|done|by apply leaves_quiet| |].
    + intros tok' [= <-]. pose proof (oi_tracked _ _ _ Hi id c tok) as Hold. rewrite Heqp in Hold.
      specialize (Hold Heqo eq_refl). eapply tracked_keep; [exact Hold|apply Hold|done..].
    + intros _. eapply listed_keep; [eapply (oi_listed _ _ _ Hi id c)|done|done]; [done|by rewrite Heqp].
  - apply (orch_inv_advance _ _ _ (EvFinish id (Ok a))); [done|done|congruence|done|by apply leaves_quiet|done|].
    intros _. eapply listed_keep; [eapply (oi_listed _ _ _ Hi id c)|done|done]; [done|by rewrite Heqp].
  - apply (orch_inv_end _ _ _ (EvFinish id (Err e)) _ c); [done|done|congruence|by apply leaves_quiet].
  - apply (orch_inv_advance _ _ _ (EvStore id)); [done|done|congruence|done|apply store_leaves|done|done].
  - apply (orch_inv_advance _ _ _ (EvUntrack id)); [done|done|congruence|done|apply remove_token_leaves|done|done].
  - apply (orch_inv_end _ _ _ (EvReturn id) _ c); [done|done|congruence|by apply leaves_quiet].
  - apply (orch_inv_step b evs s); [done|apply signal_leaves|done|done| |].
    + intros c tok Hc Ht. apply tracked_signal. by eapply (oi_tracked _ _ _ Hi).
    + intros c Hc Hl. eapply listed_keep; [by eapply (oi_listed _ _ _ Hi)|done|done].
  - apply (orch_inv_step b evs s); [done|apply mark_leaves|done|done| |].
    + intros c tok Hc Ht. pose proof (oi_tracked _ _ _ Hi id c tok Hc Ht) as Hold.
      eapply tracked_keep; [exact Hold| | |done..]; unfold mark_cancelled;
        destruct (active_crews (orch s) !! id); [apply Hold|apply Hold|done|done].
    + intros c Hc Hl. eapply listed_mark. by eapply (oi_listed _ _ _ Hi).
  - apply (orch_inv_step b evs s); [done|by apply leaves_quiet| | | |]; cbn [event_crew].
    + rewrite (holders_forget _ _ c) by (done || (intros Hh; by apply Hh)). done.
    + by intros j d Hj [_ ?]%lookup_delete_Some.
    + intros d tok. by rewrite lookup_delete_eq.
    + intros d. by rewrite lookup_delete_eq.
  - apply (orch_inv_end _ _ _ (EvDropCall id) _ c); [done|done|congruence|by apply leaves_quiet].
  - apply (orch_inv_end _ _ _ (EvDropCall id) _ c); [done|done|congruence|by apply leaves_quiet].
  - apply (orch_inv_end _ _ _ (EvDropCall id) _ c); [done|done|congruence|by apply leaves_quiet].
  - apply (orch_inv_step b evs s); [done|by apply leaves_quiet|done|done| |].
    + intros c tok Hc Ht. pose proof (oi_tracked _ _ _ Hi id c tok Hc Ht) as Hold.
      eapply tracked_keep; [exact Hold|apply Hold|done..].
    + intros c Hc Hl. eapply listed_keep; [by eapply (oi_listed _ _ _ Hi)|done|done].
Qed.

Lemma orch_run_inv b s0 evs s : orch_start b = Some s0 -> orch_run s0 evs = Some s -> orch_inv b evs s.
Proof.
  unfold orch_start. case_match; [done|]. intros [= <-]. revert s. induction evs as [|ev evs IH] using rev_ind; intros s.
  - intros [= <-]. split; cbn; try (intros *; by rewrite lookup_empty).
    unfold holders. rewrite map_filter_empty, map_size_empty. lia.
  - rewrite orch_run_snoc. destruct (orch_run _ evs) as [s1|]; [|done]. by apply orch_apply_inv, IH.
Qed.

(** [C12] In every interleaving of the atomic steps of submissions, completions and
    cancellations, where a caller may also go away at any await: the permits in use and the free ones are together the limit of
    the semaphore, so at most as many crews as that are past it; a crew in progress,
    from its registration until its final state is stored, is listed as [Pending], however many crews are evicted
    meanwhile, unless a cancellation has marked it; and from the moment its
    cancellation token is stored, the flag its runner polls is the one in the table
    and is raised exactly when a cancellation has looked the token up since then.
    (A cancellation that looks before is lost: [early_cancellation_is_lost].) *)
Theorem running_crews_tracked b s0 evs s :
  orch_start b = Some s0 -> orch_run s0 evs = Some s ->
  (permits s + N.of_nat (holders (calls s)))%N = max_concurrent b /\
  (forall id c, calls s !! id = Some c -> listed_phase (call_phase c) = true ->
     exists post, after (EvRegister id) evs post /\
       (EvMark id ∉ post -> active_crews (orch s) !! id = Some (pending_state id))) /\
  (forall id c tok, calls s !! id = Some c -> live_token (call_phase c) = Some tok ->
     cancel_tokens (orch s) !! id = Some tok /\
     exists post, after (EvToken id) evs post /\
       ((flags (orch s) !! tok = Some true /\ EvSignal id ∈ post) \/
        (flags (orch s) !! tok = Some false /\ EvSignal id ∉ post))).
Proof.
  intros Hs Hr. destruct (orch_run_inv _ _ _ _ Hs Hr) as [H1 _ _ H4 H5]. split_and!; [done|exact H5|exact H4].
Qed.
End interleaving.

(** ** One crew from start to end *)

Section run_crew_proofs.
Context {W : Type} (env : Env W) (rt : Runtime W).
Context `{!HashIter Uuid f64} `{!HashIter Uuid nat}.

Definition bus_of (o : Orchestrator) : EventBus := default ∅ (events o).

Lemma bus_removed (ev : option EventBus) id :
  default ∅ ((fun b => bus_remove b id) <$> ev) !! id = None.
Proof. destruct ev; simpl; [apply lookup_delete_eq|apply lookup_empty]. Qed.

Lemma returns_inj {A} (x y : A) : Returns x = Returns y -> x = y.
Proof. by intros [= ->]. Qed.

Lemma accept_active o s tok r o' : accept_crew (uuid_to_string env) o s = (tok, r, o') ->
  active_crews o' = <[crew_id s := pending_state (crew_id s)]> (evict_finished (active_crews o)).
Proof. by intros [= <- <- <-]. Qed.

Lemma conclude_recorded o name s st o' id :
  conclude_crew (uuid_to_string env) o id name (Ok s) = (Ok st, o') ->
  s = st /\ active_crews o' = <[id := st]> (active_crews o) /\
  cancel_tokens o' !! id = None /\ bus_of o' !! id = None.
Proof.
  intros [= <- <-]. simpl. split_and!; [done|done|by rewrite lookup_delete_eq|].
  unfold bus_of. simpl. apply bus_removed.
Qed.

(** A crew whose run returns a state is stored with exactly this state,
    its flag and its event channel are gone, and no unfinished crew was lost. *)
Theorem run_crew_recorded strength expired o s w st o' :
  run_crew env rt strength expired o s w = Returns (Ok st, o') ->
  active_crews o' !! crew_id s = Some st /\ cancel_tokens o' !! crew_id s = None /\
  bus_of o' !! crew_id s = None /\
  forall id c, id <> crew_id s -> active_crews o !! id = Some c ->
    is_final (crew_status c) = false -> active_crews o' !! id = Some c.
Proof.
  unfold run_crew. intros H.
  destruct (accept_crew (uuid_to_string env) o s) as [[tok r] oa] eqn:EA.
  apply accept_active in EA.
  assert (exists o1 x, conclude_crew (uuid_to_string env) o1 (crew_id s) (crew_name s) (Ok x) = (Ok st, o') /\
            active_crews o1 = active_crews oa) as (o1 & x & Hc & Ha).
  { destruct expired as [log|]; [apply returns_inj in H; eexists _, _; split; [exact H|done]|].
    destruct (run env rt r strength w) as [[out|e]| |]; try discriminate H; apply returns_inj in H;
      (eexists _, _; split; [exact H|done]) || discriminate H. }
  apply conclude_recorded in Hc as (_ & -> & Ht & Hb).
  rewrite Ha, EA, lookup_insert_eq. split_and!; [done..|].
  intros id c Hne Hc Hf. rewrite !lookup_insert_ne by done. by apply evict_finished_keeps.
Qed.

Lemma bus_sender_has b id : is_Some (bus_sender b id !! id).
Proof. unfold bus_sender. destruct (b !! id) eqn:E; [by exists n|]. eexists. apply lookup_insert_eq. Qed.

(** A run that ends with an error is never concluded: the crew stays
    listed as [Pending] with its cancellation flag in the table, and its event
    channel stays in the bus. *)
Theorem failed_run_stays_pending strength o s w e o' :
  run_crew env rt strength None o s w = Returns (Err e, o') ->
  active_crews o' !! crew_id s = Some (pending_state (crew_id s)) /\
  is_Some (cancel_tokens o' !! crew_id s) /\
  (is_Some (events o) -> is_Some (bus_of o' !! crew_id s)).
Proof.
  unfold run_crew. simpl. intros H.
  repeat (case_match; simpl in *; try discriminate H).
  injection H as <- <-. simpl. rewrite !lookup_insert_eq. split_and!; [done..|].
  intros [bus Hb]. unfold bus_of. simpl. rewrite Hb. apply bus_sender_has.
Qed.
End run_crew_proofs.

(** ** Samples *)

#[local] Instance sample_f64_iter : HashIter Uuid f64 := canonical_iter.
#[local] Instance sample_nat_iter : HashIter Uuid nat := canonical_iter.

Definition quiet_rt {W} : Runtime W := {|
  poll_cancelled w := (false, w);
  completion_order _ n := seq 0 n;
  after_panic w := w;
  join_error := "panic";
|}.

Definition hello_crew : CrewSpec := with_tasks (CrewSpec_new 5 "hello") [Task_new 1 "say hello"].
(** Two tasks that wait for each other. *)
Definition cyclic_crew : CrewSpec :=
  with_process (with_tasks (CrewSpec_new 6 "cyclic")
    [with_dependency (Task_new 1 "a") 2; with_dependency (Task_new 2 "b") 1]) Dag.

Definition start : Orchestrator := Orchestrator_new ResourceBudget_default.

(** A crew that is running, and a cancellation that has raised its flag and not
    marked it yet. *)
Definition hello_events : list OrchEvent :=
  [EvSubmit hello_crew; EvAcquire 5; EvAccept 5; EvRegister 5; EvToken 5; EvStart 5; EvSignal 5]%N.
Definition hello_system : System :=
  default (mkSystem start ∅ 0 [])
    (s ← orch_start ResourceBudget_default; orch_run (fun _ => "id") s hello_events).

Lemma running_crews_tracked_witness :
  holders (calls hello_system) = 1 /\
  active_crews (orch hello_system) !! 5%N = Some (pending_state 5) /\
  flags (orch hello_system) !! 0 = Some true.
Proof.
  destruct (orch_start ResourceBudget_default) as [s0|] eqn:Es; [|vm_compute in Es; discriminate Es].
  assert (orch_run (fun _ => "id") s0 hello_events = Some hello_system) as Hr.
  { injection Es as <-. vm_compute. reflexivity. }
  destruct (running_crews_tracked (fun _ => "id") ResourceBudget_default s0 hello_events hello_system Es Hr)
    as (Hp & Hl & Ht).
  split; [|split].
  - assert (permits hello_system = 9%N) as E by (vm_compute; reflexivity).
    change (max_concurrent ResourceBudget_default) with 10%N in Hp. rewrite E in Hp. lia.
  - destruct (Hl 5%N (mkCall hello_crew (Executing (mkCrewRunner hello_crew false false true) 0))) as (post & Ha & H);
      [vm_compute; reflexivity|reflexivity|]. apply H.
    destruct Ha as (pre & E & _). intros Hm.
    assert (EvMark 5 ∈ hello_events) as Hin by (rewrite E; apply elem_of_app; right; by right).
    unfold hello_events in Hin. rewrite !elem_of_cons in Hin. intuition discriminate || by apply not_elem_of_nil in H0.
  - destruct (Ht 5%N (mkCall hello_crew (Executing (mkCrewRunner hello_crew false false true) 0)) 0)
      as (_ & post & _ & [[H _]|[H _]]); [vm_compute; reflexivity|reflexivity|exact H|].
    vm_compute in H. discriminate H.
Defined.

(** A cancellation whose first step falls between the registration of a crew and
    the insertion of its token is answered [Ok], yet the flag is never raised: the
    crew runs to its end and is recorded as completed. *)
Theorem early_cancellation_is_lost :
  let lost := [EvSubmit hello_crew; EvAcquire 5; EvAccept 5; EvRegister 5; EvSignal 5; EvToken 5; EvMark 5; EvStart 5]%N in
  let ended := [EvFinish 5 (Ok (mkCrewState 5 CCompleted [] None)); EvStore 5; EvUntrack 5; EvReturn 5]%N in
  exists s0 s1 s2, orch_start ResourceBudget_default = Some s0 /\
    orch_run (fun _ => "id") s0 lost = Some s1 /\
    (crew_status <$> active_crews (orch s1) !! 5%N) = Some CCancelled /\ flags (orch s1) !! 0 = Some false /\
    orch_run (fun _ => "id") s1 ended = Some s2 /\
    (crew_status <$> active_crews (orch s2) !! 5%N) = Some CCompleted.
Proof. do 3 eexists. repeat (split; [vm_compute; reflexivity|]). vm_compute. reflexivity. Qed.

(** A caller that goes away while its crew runs (a client that closes its connection)
    leaves the crew listed as [Pending] for ever, with its token and its channel. *)
Theorem abandoned_crew_stays_pending :
  let gone := [EvSubmit hello_crew; EvAcquire 5; EvAccept 5; EvRegister 5; EvToken 5; EvStart 5; EvDropCall 5]%N in
  exists s0 s1, orch_start ResourceBudget_default = Some s0 /\
    orch_run (fun _ => "id") s0 gone = Some s1 /\ calls s1 !! 5%N = None /\
    active_crews (orch s1) !! 5%N = Some (pending_state 5) /\ is_Some (cancel_tokens (orch s1) !! 5%N).
Proof. do 2 eexists. repeat (split; [vm_compute; reflexivity|]). vm_compute. by eexists. Qed.

Lemma run_crew_recorded_witness :
  match run_crew toy_env quiet_rt None None start hello_crew ∅ with
  | Returns (Ok st, o') =>
      active_crews o' !! 5%N = Some st /\ cancel_tokens o' !! 5%N = None /\ bus_of o' !! 5%N = None
  | _ => False
  end.
Proof.
  destruct (run_crew toy_env quiet_rt None None start hello_crew ∅) as [[[st|e] o']| |] eqn:E;
    [|vm_compute in E; discriminate E..].
  destruct (run_crew_recorded toy_env quiet_rt None None start hello_crew ∅ st o' E)
    as (H1 & H2 & H3 & _). split_and!; assumption.
Defined.

Lemma failed_run_stays_pending_witness :
  match run_crew toy_env quiet_rt None None start cyclic_crew ∅ with
  | Returns (Err e, o') => e = CyclicDAG /\
      active_crews o' !! 6%N = Some (pending_state 6) /\ is_Some (cancel_tokens o' !! 6%N)
  | _ => False
  end.
Proof.
  destruct (run_crew toy_env quiet_rt None None start cyclic_crew ∅) as [[[st|e] o']| |] eqn:E;
    [vm_compute in E; discriminate E| |vm_compute in E; discriminate E..].
  split; [vm_compute in E; congruence|].
  by destruct (failed_run_stays_pending toy_env quiet_rt None start cyclic_crew ∅ e o' E) as (H1 & H2 & _).
Defined.

(** Cancelling a crew that has completed rewrites its stored status. *)
Example cancel_rewrites_completed :
  match run_crew toy_env quiet_rt None None start hello_crew ∅ with
  | Returns (Ok st, o') =>
      crew_status st = CCompleted /\
      (crew_status <$> active_crews (cancel_crew (fun _ => "id") o' 5).2 !! 5%N) = Some CCancelled
  | _ => False
  end.
Proof. vm_compute. split; reflexivity. Qed.
