(* ===== verification/CrewsRoute.v ===== *)
(** * The crew routes of the server (server/routes/crews.rs)

    [POST /api/v1/crews] validates the request, turns index dependencies into
    task ids and hands the crew to the orchestrator; [GET] and cancel look a
    crew up. The cycle test is a depth-first search with three marks; it is
    shown to decide cyclicity, and what passes it can never be refused by the
    scheduler behind the orchestrator. *)

From S2P Require Import Prelude.
From S2P Require Import F64.
From S2P Require Import Resource.
From S2P Require Import Core.
From S2P Require Import Kahn.
From S2P Require Import Scheduler.
From S2P Require Import TopoTasks.
From S2P Require Import Scoring.
From S2P Require Import Llm.
From S2P Require Import TaskExec.
From S2P Require Import CrewRunner.
From S2P Require Import CrewRunnerProofs.
From S2P Require Import DagProgress.
From S2P Require Import Orchestrator.
From Stdlib Require Import String.
From stdpp Require Import base gmap strings pretty numbers relations list.

Local Open Scope string_scope.

(** ** Data *)

Record TaskRequest := mkTaskRequest {
  tr_description : string;
  tr_expected_output : option string;
  tr_priority : option TaskPriority;
  tr_dependencies : list nat;
}.

Record CrewRunRequest := mkCrewRunRequest {
  rq_name : string;
  rq_agents : list AgentDefinition;
  rq_tasks : list TaskRequest;
  rq_process : option string;
  rq_max_concurrency : option N;
}.

Record TaskResultResponse := mkTaskResultResponse {
  rs_task_id : Uuid;
  rs_output : string;
  rs_task_status : string;
}.

Record CrewRunResponse := mkCrewRunResponse {
  rs_crew_id : Uuid;
  rs_status : string;
  rs_results : list TaskResultResponse;
  rs_profile : option CrewProfile;
}.

(** An error answer: the status code and the JSON body. *)
Definition HttpError : Type := N * Value.
Definition BAD_REQUEST : N := 400.
Definition NOT_FOUND : N := 404.
Definition INTERNAL_SERVER_ERROR : N := 500.
Definition error_body (msg : string) : Value := Obj [("error", Str msg)].

Definition MAX_AGENTS : nat := 100.
Definition MAX_TASKS : nat := N.to_nat 1000.
Definition MAX_STRING_LEN : nat := N.to_nat 10000.

(** ** Cycle detection *)

(** The marks are [u8]: 0 unvisited, 1 in progress, 2 done. *)

(** [for &dep in &tasks[node].dependencies { if dep < tasks.len() && visit(..) { return true } }] *)
Fixpoint visit_deps (visit : nat -> list N -> Outcome (bool * list N)) (n : nat)
    (ds : list nat) (state : list N) : Outcome (bool * list N) :=
  match ds with
  | [] => Returns (false, state)
  | dep :: ds =>
      if (dep <? n)%nat then
        match visit dep state with
        | Returns (true, state) => Returns (true, state)
        | Returns (false, state) => visit_deps visit n ds state
        | Panics => Panics
        | Hangs => Hangs
        end
      else visit_deps visit n ds state
  end.

(** The fuel is the recursion depth. Indexing out of range panics. *)
Fixpoint visit (fuel : nat) (tasks : list TaskRequest) (node : nat) (state : list N)
    : Outcome (bool * list N) :=
  match fuel with
  | O => Hangs
  | S fuel =>
      match state !! node with
      | None => Panics
      | Some mark =>
          if (mark =? 1)%N then Returns (true, state)
          else if (mark =? 2)%N then Returns (false, state)
          else
            let state := <[node := 1%N]> state in
            match tasks !! node with
            | None => Panics
            | Some t =>
                match visit_deps (visit fuel tasks) (length tasks) (tr_dependencies t) state with
                | Returns (true, state) => Returns (true, state)
                | Returns (false, state) => Returns (false, <[node := 2%N]> state)
                | Panics => Panics
                | Hangs => Hangs
                end
            end
      end
  end.

(** [(0..n).any(|i| visit(i, tasks, &mut state))] *)
Fixpoint any_visit (visit : nat -> list N -> Outcome (bool * list N)) (nodes : list nat)
    (state : list N) : Outcome bool :=
  match nodes with
  | [] => Returns false
  | i :: nodes =>
      match visit i state with
      | Returns (true, _) => Returns true
      | Returns (false, state) => any_visit visit nodes state
      | Panics => Panics
      | Hangs => Hangs
      end
  end.

(** [S n] levels of recursion. *)
Definition has_dependency_cycle (n : nat) (tasks : list TaskRequest) : Outcome bool :=
  any_visit (visit (S n) tasks) (seq 0 n) (replicate n 0%N).

(** ** Validation *)

Fixpoint check_agents (i : nat) (agents : list AgentDefinition) : Result unit string :=
  match agents with
  | [] => Ok tt
  | a :: agents =>
      if (MAX_STRING_LEN <? String.length (agent_key a))%nat || (MAX_STRING_LEN <? String.length (role a))%nat
      then Err ("agent " ++ pretty i ++ ": field exceeds max length")
      else check_agents (S i) agents
  end.

Fixpoint check_deps (n i : nat) (ds : list nat) : Result unit string :=
  match ds with
  | [] => Ok tt
  | dep :: ds =>
      if (n <=? dep)%nat
      then Err ("task " ++ pretty i ++ ": dependency index " ++ pretty dep ++ " out of range")
      else if (dep =? i)%nat then Err ("task " ++ pretty i ++ ": self-dependency")
      else check_deps n i ds
  end.

Fixpoint check_tasks (n i : nat) (tasks : list TaskRequest) : Result unit string :=
  match tasks with
  | [] => Ok tt
  | t :: tasks =>
      if (MAX_STRING_LEN <? String.length (tr_description t))%nat
      then Err ("task " ++ pretty i ++ ": description exceeds max length")
      else match check_deps n i (tr_dependencies t) with
           | Err e => Err e
           | Ok _ => check_tasks n (S i) tasks
           end
  end.

Definition validate_crew_request (req : CrewRunRequest) : Outcome (Result unit string) :=
  if (String.length (rq_name req) =? 0)%nat || (MAX_STRING_LEN <? String.length (rq_name req))%nat
  then Returns (Err ("name must be 1-" ++ pretty MAX_STRING_LEN ++ " characters"))
  else if (length (rq_agents req) =? 0)%nat then Returns (Err "at least one agent is required")
  else if (MAX_AGENTS <? length (rq_agents req))%nat
  then Returns (Err ("at most " ++ pretty MAX_AGENTS ++ " agents allowed"))
  else if (length (rq_tasks req) =? 0)%nat then Returns (Err "at least one task is required")
  else if (MAX_TASKS <? length (rq_tasks req))%nat
  then Returns (Err ("at most " ++ pretty MAX_TASKS ++ " tasks allowed"))
  else match check_agents 0 (rq_agents req) with
  | Err e => Returns (Err e)
  | Ok _ =>
      match check_tasks (length (rq_tasks req)) 0 (rq_tasks req) with
      | Err e => Returns (Err e)
      | Ok _ =>
          match has_dependency_cycle (length (rq_tasks req)) (rq_tasks req) with
          | Returns true => Returns (Err "task dependencies contain a cycle")
          | Returns false => Returns (Ok tt)
          | Panics => Panics
          | Hangs => Hangs
          end
      end
  end.

(** ** From the request to the crew *)

Definition request_process (manager : Uuid) (req : CrewRunRequest) : ProcessMode :=
  match rq_process req with
  | Some p =>
      if String.eqb p "hierarchical" then Hierarchical manager
      else if String.eqb p "dag" then Dag
      else if String.eqb p "parallel"
      then Parallel (N.max 1 (N.min 64 (default 4%N (rq_max_concurrency req))))
      else Sequential
  | None => Sequential
  end.

Definition set_expected_output (t : Task) (o : option string) : Task :=
  mkTask (task_id t) (description t) o (assigned_agent t) (priority t) (status t)
    (dependencies t) (context t) (risk t) (output_schema t).

(** The first loop: a task per request, with the fresh id [Task::new] draws. *)
Definition request_task (id : Uuid) (r : TaskRequest) : Task :=
  let t := set_expected_output (Task_new id (tr_description r)) (tr_expected_output r) in
  match tr_priority r with Some p => with_priority t p | None => t end.

(** The second loop: [tasks[i].dependencies.push(task_ids[dep_idx])]. *)
Definition resolve_deps (ids : list Uuid) (t : Task) (ds : list nat) : Task :=
  foldl (fun t dep => match ids !! dep with Some id => with_dependency t id | None => t end) t ds.

Definition build_tasks (ids : list Uuid) (reqs : list TaskRequest) : list Task :=
  zip_with (resolve_deps ids) (zip_with request_task ids reqs) (map tr_dependencies reqs).

Definition request_spec (crew manager : Uuid) (ids : list Uuid) (req : CrewRunRequest) : CrewSpec :=
  with_tasks (with_process (with_agents (CrewSpec_new crew (rq_name req)) (rq_agents req))
    (request_process manager req)) (build_tasks ids (rq_tasks req)).

(** [serde_json::to_value(status)]: the snake-case names. *)
Definition task_status_name (s : TaskStatus) : string :=
  match s with
  | Pending => "pending" | Queued => "queued" | Running => "running"
  | Completed => "completed" | Failed => "failed" | Cancelled => "cancelled"
  end.
Definition crew_status_name (s : CrewStatus) : string :=
  match s with
  | CPending => "pending" | CRunning => "running" | CCompleted => "completed"
  | CFailed => "failed" | CCancelled => "cancelled"
  end.

Definition task_response (r : TaskResult) : TaskResultResponse :=
  mkTaskResultResponse (res_task_id r) (output r) (task_status_name (res_status r)).

Definition crew_response (c : CrewState) : CrewRunResponse :=
  mkCrewRunResponse (state_crew_id c) (crew_status_name (crew_status c))
    (map task_response (results c)) (profile c).

(** ** The handlers *)

Section handlers.
Context {W : Type} (env : Env W) (rt : Runtime W).
Context `{!HashIter Uuid f64} `{!HashIter Uuid nat}.

(** [crew], [manager] and [ids] are the identifiers drawn by [Uuid::new_v4]. *)
Definition create_crew (crew manager : Uuid) (ids : list Uuid) (sandbox_strength : option N)
    (expired : option (list LogEntry)) (o : Orchestrator) (req : CrewRunRequest) (w : W)
    : Outcome (Result CrewRunResponse HttpError * Orchestrator) :=
  match validate_crew_request req with
  | Panics => Panics
  | Hangs => Hangs
  | Returns (Err msg) => Returns (Err (BAD_REQUEST, error_body msg), o)
  | Returns (Ok _) =>
      match run_crew env rt sandbox_strength expired o (request_spec crew manager ids req) w with
      | Panics => Panics
      | Hangs => Hangs
      | Returns (Ok st, o') => Returns (Ok (crew_response st), o')
      | Returns (Err _, o') =>
          Returns (Err (INTERNAL_SERVER_ERROR, error_body "crew execution failed"), o')
      end
  end.

(** [to_value] is the derived serialization of [CrewState]. *)
Definition get_crew (to_value : CrewState -> Value) (o : Orchestrator) (id : Uuid) : Result Value HttpError :=
  match active_crews o !! id with
  | Some crew => Ok (to_value crew)
  | None => Err (NOT_FOUND, error_body "crew not found")
  end.

Definition cancel_crew_route (o : Orchestrator) (id : Uuid) : Result Value HttpError * Orchestrator :=
  match cancel_crew (uuid_to_string env) o id with
  | (Ok _, o') => (Ok (Obj [("status", Str "cancelled"); ("crew_id", Str (uuid_to_string env id))]), o')
  | (Err _, o') => (Err (NOT_FOUND, error_body "crew not found"), o')
  end.
End handlers.

(** ** The depth-first search decides cyclicity *)

Section dfs.
Context (tasks : list TaskRequest).
Abbreviation n := (length tasks).

(** Task [i] lists task [j]. *)
Definition index_dep (i j : nat) : Prop :=
  exists t, tasks !! i = Some t /\ j ∈ tr_dependencies t /\ j < n.

Definition index_cyclic : Prop := exists i, tc index_dep i i.

Definition gray (st : list N) (i : nat) : Prop := st !! i = Some 1%N.
Definition black (st : list N) (i : nat) : Prop := st !! i = Some 2%N.
Definition is_white (m : N) : bool := negb (m =? 1)%N && negb (m =? 2)%N.
Definition whites (st : list N) : nat := length (List.filter is_white st).

(** Finished nodes have finished dependencies and lie on no cycle. *)
Definition black_ok (st : list N) : Prop :=
  forall i, black st i -> (forall j, index_dep i j -> black st j) /\ ~ tc index_dep i i.

(** What a search that answers [b] and leaves [st'] has done to [st]. *)
Record searched (st st' : list N) (b : bool) : Prop := {
  se_length : length st' = n;
  se_whites : whites st' <= whites st;
  se_cycle : b = true -> index_cyclic;
  se_ok : b = false -> black_ok st';
  se_gray : b = false -> forall i, gray st' i <-> gray st i;
  se_black : b = false -> forall i, black st i -> black st' i;
}.

Lemma whites_insert (st : list N) i m m' : st !! i = Some m ->
  whites (<[i := m']> st) + Nat.b2n (is_white m) = whites st + Nat.b2n (is_white m').
Proof.
  unfold whites. revert i. induction st as [|x st IH]; intros [|i] H; simplify_eq/=.
  - destruct (is_white m), (is_white m'); simpl; lia.
  - specialize (IH i H). destruct (is_white x); simpl; lia.
Qed.

Lemma searched_trans st1 st2 st3 b : searched st1 st2 false -> searched st2 st3 b -> searched st1 st3 b.
Proof.
  intros [H1 H2 H3 H4 H5 H6] [G1 G2 G3 G4 G5 G6]. split; auto; [lia|..].
  - intros Hb i. rewrite G5, H5 by done. done.
Qed.

Lemma searched_refl st : length st = n -> black_ok st -> searched st st false.
Proof. by split. Qed.

(** A set closed under dependencies keeps what its members reach. *)
Lemma closed_reach (P : nat -> Prop) :
  (forall i j, P i -> index_dep i j -> P j) -> forall i j, tc index_dep i j -> P i -> P j.
Proof. intros HP i j Ht. induction Ht; eauto. Qed.

Lemma black_reach st i j : black_ok st -> black st i -> tc index_dep i j -> black st j.
Proof. intros Hb Hi Ht. eapply (closed_reach (black st)); eauto. intros x y Hx. by apply Hb. Qed.

Definition visit_ok (f : nat -> list N -> Outcome (bool * list N)) (bound : nat) : Prop :=
  forall node st, length st = n -> node < n -> whites st < bound -> black_ok st ->
  (forall g, gray st g -> tc index_dep g node) ->
  exists b st', f node st = Returns (b, st') /\ searched st st' b /\ (b = false -> black st' node).

Lemma visit_deps_ok f bound node t ds st : visit_ok f bound -> tasks !! node = Some t ->
  (forall d, d ∈ ds -> d ∈ tr_dependencies t) ->
  length st = n -> whites st < bound -> black_ok st ->
  gray st node -> (forall g, gray st g -> g = node \/ tc index_dep g node) ->
  exists b st', visit_deps f n ds st = Returns (b, st') /\ searched st st' b /\
    (b = false -> forall d, d ∈ ds -> d < n -> black st' d).
Proof.
  intros Hf Ht. revert st. induction ds as [|d ds IH]; intros st Hds Hl Hw Hb Hgn Hg; simpl.
  { exists false, st. split_and!; [done|by apply searched_refl|]. intros _ d Hd%not_elem_of_nil. done. }
  assert (forall d', d' ∈ ds -> d' ∈ tr_dependencies t) as Hds' by (intros; apply Hds; by right).
  destruct (Nat.ltb_spec d n) as [Hd|Hd].
  - assert (index_dep node d) as Hnd by (exists t; split_and!; [done|apply Hds; left|done]).
    destruct (Hf d st Hl Hd Hw Hb) as (b & st1 & -> & Hs & Hbl).
    { intros g Hgg. destruct (Hg g Hgg) as [->|Hgt]; [by apply tc_once|].
      by eapply tc_r. }
    destruct b; [exists true, st1; by split_and!|].
    destruct (IH st1) as (b & st2 & -> & Hs2 & Hbl2); [done|apply Hs|pose proof (se_whites _ _ _ Hs); lia| | | |].
    + by apply (se_ok _ _ _ Hs).
    + by apply (se_gray _ _ _ Hs).
    + intros g Hgg. apply Hg. by apply (se_gray _ _ _ Hs).
    + exists b, st2. split_and!; [done|by eapply searched_trans|]. intros -> d' Hin Hlt.
      apply elem_of_cons in Hin as [->|Hin]; [|by apply Hbl2].
      by apply (se_black _ _ _ Hs2), Hbl.
  - destruct (IH st) as (b & st2 & -> & Hs2 & Hbl2); [done..|].
    exists b, st2. split_and!; [done|done|]. intros -> d' [->|Hin]%elem_of_cons Hlt; [lia|by apply Hbl2].
Qed.

(** Finishing a node whose dependencies are finished. *)
Lemma finish_node st node t : length st = n -> tasks !! node = Some t -> black_ok st -> gray st node ->
  (forall d, d ∈ tr_dependencies t -> d < n -> black st d) ->
  black_ok (<[node := 2%N]> st).
Proof.
  intros Hl Ht Hb Hg Hd.
  assert (node < length st) as Hlt by (by eapply lookup_lt_Some).
  assert (forall j, black st j -> black (<[node := 2%N]> st) j) as Hmono.
  { intros j Hj. unfold black in *. destruct (decide (j = node)) as [->|?];
      [by rewrite list_lookup_insert_eq|by rewrite list_lookup_insert_ne]. }
  assert (forall j, index_dep node j -> black st j) as Hnode.
  { intros j (t' & Ht' & Hj & ?). apply Hd; [congruence|done]. }
  intros i Hi. destruct (decide (i = node)) as [->|Hne].
  - split; [intros j Hj; by apply Hmono, Hnode|]. intros Hc.
    assert (black st node) as Hbn; [|unfold black, gray in *; congruence].
    inversion Hc as [x y Hx|x y z Hxy Hyz]; subst; [by apply Hnode|].
    eapply black_reach; [done|by apply Hnode|done].
  - unfold black in Hi. rewrite list_lookup_insert_ne in Hi by done.
    destruct (Hb i Hi) as [H1 H2]. split; [|done]. intros j Hj. by apply Hmono, H1.
Qed.

Lemma visit_correct fuel : visit_ok (visit fuel tasks) fuel.
Proof.
  induction fuel as [|fuel IH]; intros node st Hl Hn Hw Hb Hg; [lia|]. cbn [visit].
  destruct (lookup_lt_is_Some_2 st node) as [m Hm]; [lia|]. rewrite Hm.
  destruct (N.eqb_spec m 1) as [->|H1].
  { exists true, st. split_and!; [done| |done]. split; auto; try done. intros _. exists node. by apply Hg. }
  destruct (N.eqb_spec m 2) as [->|H2].
  { exists false, st. split_and!; [done|by apply searched_refl|done]. }
  destruct (lookup_lt_is_Some_2 tasks node Hn) as [t Ht]. rewrite Ht.
  set (st1 := <[node := 1%N]> st).
  assert (is_white m = true) as Hwm by (unfold is_white; apply andb_true_iff; rewrite !negb_true_iff, !N.eqb_neq; done).
  pose proof (whites_insert st node m 1 Hm) as Hw1. rewrite Hwm in Hw1. simpl in Hw1. fold st1 in Hw1.
  assert (length st1 = n) as Hl1 by (unfold st1; by rewrite length_insert).
  assert (gray st1 node) as Hg1 by (unfold gray, st1; apply list_lookup_insert_eq; lia).
  assert (forall i, i <> node -> st1 !! i = st !! i) as Hst1 by (intros; by apply list_lookup_insert_ne).
  assert (forall i, black st1 i <-> black st i) as Hbl.
  { intros i. unfold black. destruct (decide (i = node)) as [->|]; [|by rewrite Hst1].
    rewrite Hg1, Hm. split; congruence. }
  destruct (visit_deps_ok _ fuel node t (tr_dependencies t) st1 IH Ht) as (b & st2 & -> & Hs & Hd);
    [done|done|lia| |done| |].
  - intros i Hi%Hbl. destruct (Hb i Hi) as [Hb1 Hb2]. split; [|done]. intros j Hj. by apply Hbl, Hb1.
  - intros g Hgg. destruct (decide (g = node)) as [->|Hne]; [by left|]. right. apply Hg.
    unfold gray. by rewrite <-Hst1.
  - destruct Hs as [S1 S2 S3 S4 S5 S6]. destruct b.
    { exists true, st2. split_and!; [done| |done]. split; auto; try done. lia. }
    assert (gray st2 node) as Hg2 by (by apply S5).
    assert (node < length st2) as Hlt by lia.
    exists false, (<[node := 2%N]> st2). split_and!; [done| |intros _; by apply list_lookup_insert_eq].
    pose proof (whites_insert st2 node 1 2 Hg2) as Hw2. simpl in Hw2.
    split; [by rewrite length_insert|lia|done| | |].
    + intros _. eapply finish_node; eauto.
    + intros _ i. unfold gray. destruct (decide (i = node)) as [->|Hne].
      * rewrite list_lookup_insert_eq, Hm by done. split; congruence.
      * rewrite list_lookup_insert_ne by done. rewrite <-(Hst1 i Hne). by apply S5.
    + intros _ i Hi. unfold black. destruct (decide (i = node)) as [->|Hne]; [by apply list_lookup_insert_eq|].
      rewrite list_lookup_insert_ne by done. apply S6, Hbl; done.
Qed.

Lemma any_visit_correct f bound nodes st : visit_ok f bound -> (forall i, i ∈ nodes -> i < n) ->
  length st = n -> whites st < bound -> black_ok st -> (forall g, ~ gray st g) ->
  exists b, any_visit f nodes st = Returns b /\ (b = true -> index_cyclic) /\
    (b = false -> exists st', black_ok st' /\ (forall i, black st i -> black st' i) /\
       forall i, i ∈ nodes -> black st' i).
Proof.
  intros Hf. revert st. induction nodes as [|i nodes IH]; intros st Hin Hl Hw Hb Hg; simpl.
  { exists false. split_and!; [done|done|]. intros _. exists st. split_and!; [done|done|].
    by intros i ?%not_elem_of_nil. }
  destruct (Hf i st Hl) as (b & st1 & -> & Hs & Hbl); [apply Hin; left|done|done|by intros g ?%Hg|].
  destruct Hs as [S1 S2 S3 S4 S5 S6]. destruct b; [exists true; by split_and!; try done; auto|].
  destruct (IH st1) as (b & -> & Ht & Hfl); [intros; apply Hin; by right|done|lia|auto| |].
  { intros g Hgg. apply (Hg g). by apply S5. }
  exists b. split_and!; [done|done|]. intros E. destruct (Hfl E) as (st' & Ho & Hm & Hall).
  exists st'. split_and!; [done|auto|]. intros j [->|Hj]%elem_of_cons; auto.
Qed.

Lemma whites_le st : whites st <= length st.
Proof. unfold whites. induction st as [|x st IH]; simpl; [done|]. destruct (is_white x); simpl; lia. Qed.

Lemma has_dependency_cycle_spec :
  exists b, has_dependency_cycle n tasks = Returns b /\ (b = true <-> index_cyclic).
Proof.
  unfold has_dependency_cycle.
  assert (forall m i x, replicate n m !! i = Some x -> x = m :> N) as Hrep.
  { intros m i x Hx. by apply lookup_replicate in Hx as [-> _]. }
  destruct (any_visit_correct (visit (S n) tasks) (S n) (seq 0 n) (replicate n 0%N)) as (b & -> & Ht & Hf).
  - apply visit_correct.
  - intros i Hi%elem_of_seq. lia.
  - apply length_replicate.
  - pose proof (whites_le (replicate n 0%N)). rewrite length_replicate in *. lia.
  - by intros i Hi%Hrep.
  - by intros g Hg%Hrep.
  - exists b. split; [done|]. split; [done|]. intros [i Hi]. destruct b; [done|].
    destruct (Hf eq_refl) as (st' & Ho & _ & Hall). exfalso.
    assert (i < n) as Hin.
    { inversion Hi as [x y (t & Hl & _)|x y z (t & Hl & _)]; subst; by eapply lookup_lt_Some. }
    apply (Ho i); [apply Hall, elem_of_seq; lia|done].
Qed.
End dfs.

(** [C11] The cycle test of the crew route is total and decides cyclicity: the
    search never indexes out of range, its recursion is at most [n + 1] calls
    deep, and it answers [true] exactly when some task reaches itself through
    the dependency lists. *)
Theorem has_dependency_cycle_correct tasks :
  exists b, has_dependency_cycle (length tasks) tasks = Returns b /\ (b = true <-> index_cyclic tasks).
Proof. apply has_dependency_cycle_spec. Qed.

(** ** What validation accepts *)

(** The limits and the shape of the dependency graph a request must have. *)
Record request_wf (req : CrewRunRequest) : Prop := {
  wf_name : 0 < String.length (rq_name req) <= MAX_STRING_LEN;
  wf_agents : 0 < length (rq_agents req) <= MAX_AGENTS;
  wf_tasks : 0 < length (rq_tasks req) <= MAX_TASKS;
  wf_agent_fields : Forall (fun a => String.length (agent_key a) <= MAX_STRING_LEN /\
    String.length (role a) <= MAX_STRING_LEN) (rq_agents req);
  wf_descriptions : Forall (fun t => String.length (tr_description t) <= MAX_STRING_LEN) (rq_tasks req);
  wf_range : Forall (fun t => Forall (fun d => d < length (rq_tasks req)) (tr_dependencies t)) (rq_tasks req);
  wf_acyclic : ~ index_cyclic (rq_tasks req);
}.

Lemma check_agents_ok i l : check_agents i l = Ok tt <->
  Forall (fun a => String.length (agent_key a) <= MAX_STRING_LEN /\
    String.length (role a) <= MAX_STRING_LEN) l.
Proof.
  revert i. induction l as [|a l IH]; intros i; [by split; [constructor|]|].
  cbn [check_agents]. rewrite Forall_cons, <-(IH (S i)).
  destruct (Nat.ltb_spec MAX_STRING_LEN (String.length (agent_key a)));
    destruct (Nat.ltb_spec MAX_STRING_LEN (String.length (role a))); cbn [orb];
    split; try done; lia || tauto.
Qed.

Lemma check_deps_ok n i ds : check_deps n i ds = Ok tt <-> Forall (fun d => d < n /\ d <> i) ds.
Proof.
  induction ds as [|d ds IH]; [by split; [constructor|]|]. cbn [check_deps]. rewrite Forall_cons, <-IH.
  destruct (Nat.leb_spec n d); [split; [done|lia]|].
  destruct (Nat.eqb_spec d i); [split; [done|lia]|tauto].
Qed.

Lemma check_tasks_ok n i l : check_tasks n i l = Ok tt <->
  Forall (fun t => String.length (tr_description t) <= MAX_STRING_LEN) l /\
  forall k t, l !! k = Some t -> Forall (fun d => d < n /\ d <> i + k) (tr_dependencies t).
Proof.
  revert i. induction l as [|t l IH]; intros i.
  { split; [intros _; split; [constructor|by intros k t]|done]. }
  cbn [check_tasks]. rewrite Forall_cons.
  destruct (Nat.ltb_spec MAX_STRING_LEN (String.length (tr_description t))).
  { split; [done|]. intros [[? _] _]. lia. }
  destruct (check_deps n i (tr_dependencies t)) as [[]|e] eqn:E.
  - rewrite (IH (S i)). apply check_deps_ok in E. split.
    + intros [H1 H2]. split; [done|]. intros [|k] t' Hk; simplify_eq/=.
      * rewrite Nat.add_0_r. done.
      * replace (i + S k) with (S i + k) by lia. by apply H2.
    + intros [[_ H1] H2]. split; [done|]. intros k t' Hk.
      replace (S i + k) with (i + S k) by lia. by apply (H2 (S k)).
  - split; [done|]. intros [_ H2]. specialize (H2 0 t eq_refl). rewrite Nat.add_0_r in H2.
    apply check_deps_ok in H2. congruence.
Qed.

Lemma acyclic_no_self tasks k t : ~ index_cyclic tasks -> tasks !! k = Some t ->
  Forall (fun d => d < length tasks) (tr_dependencies t) ->
  Forall (fun d => d < length tasks /\ d <> k) (tr_dependencies t).
Proof.
  intros Hc Ht Hd. rewrite !Forall_forall in *. intros d Hin. split; [auto|]. intros ->.
  apply Hc. exists k. apply tc_once. exists t. auto.
Qed.

(** A branch that answers an error for a limit the request violates. *)
Ltac reject := eexists; split; [reflexivity|]; split; [discriminate|]; intros []; lia.

Lemma validate_crew_request_spec req :
  exists res, validate_crew_request req = Returns res /\ (res = Ok tt <-> request_wf req).
Proof.
  unfold validate_crew_request.
  destruct (Nat.eqb_spec (String.length (rq_name req)) 0); cbn [orb];
    [reject|].
  destruct (Nat.ltb_spec MAX_STRING_LEN (String.length (rq_name req)));
    [reject|].
  destruct (Nat.eqb_spec (length (rq_agents req)) 0);
    [reject|].
  destruct (Nat.ltb_spec MAX_AGENTS (length (rq_agents req)));
    [reject|].
  destruct (Nat.eqb_spec (length (rq_tasks req)) 0);
    [reject|].
  destruct (Nat.ltb_spec MAX_TASKS (length (rq_tasks req)));
    [reject|].
  destruct (check_agents 0 (rq_agents req)) as [[]|e] eqn:Ea.
  2:{ eexists; split; [done|]. split; [done|]. intros []. apply (check_agents_ok 0) in wf_agent_fields0. congruence. }
  destruct (check_tasks _ 0 (rq_tasks req)) as [[]|e] eqn:Et.
  2:{ eexists; split; [done|]. split; [done|]. intros [].
      enough (check_tasks (length (rq_tasks req)) 0 (rq_tasks req) = Ok tt) by congruence.
      apply check_tasks_ok. split; [done|]. intros k t Hk. apply acyclic_no_self; [done|done|].
      rewrite Forall_forall in wf_range0. apply wf_range0. by eapply list_elem_of_lookup_2. }
  apply check_agents_ok in Ea. apply check_tasks_ok in Et as [Hd Hr].
  destruct (has_dependency_cycle_spec (rq_tasks req)) as ([] & -> & Hc).
  - eexists; split; [done|]. split; [done|]. intros []. tauto.
  - eexists; split; [done|]. split; [intros _|done]. split; auto; try lia.
    + apply Forall_forall. intros t [k Hk]%list_elem_of_lookup. eapply Forall_impl; [by apply (Hr k)|].
      by intros d [? _].
    + intros Hcy. apply Hc in Hcy. done.
Qed.

(** [C22] Validation is total and accepts exactly the requests within the
    limits whose dependencies are in range and acyclic. *)
Theorem validate_crew_request_correct req :
  exists res, validate_crew_request req = Returns res /\ (res = Ok tt <-> request_wf req).
Proof. apply validate_crew_request_spec. Qed.

(** ** The crew a request becomes *)

Lemma resolve_deps_spec ids t ds :
  task_id (resolve_deps ids t ds) = task_id t /\
  dependencies (resolve_deps ids t ds) = (dependencies t ++ omap (fun d => ids !! d) ds)%list.
Proof.
  revert t. induction ds as [|d ds IH]; intros t; [cbn; by rewrite app_nil_r|].
  change (resolve_deps ids t (d :: ds)) with
    (resolve_deps ids (match ids !! d with Some id => with_dependency t id | None => t end) ds).
  destruct (IH (match ids !! d with Some id => with_dependency t id | None => t end)) as [-> ->].
  cbn [omap list_omap]. destruct (ids !! d) as [id|]; [|done]. simpl. by rewrite <-app_assoc.
Qed.

Lemma request_task_spec id r : task_id (request_task id r) = id /\ dependencies (request_task id r) = [].
Proof. unfold request_task. by destruct (tr_priority r). Qed.

Section build.
Context (ids : list Uuid) (reqs : list TaskRequest).
Hypothesis same_length : length ids = length reqs.
Hypothesis fresh : NoDup ids.

Lemma build_lookup i t : build_tasks ids reqs !! i = Some t ->
  exists id r, ids !! i = Some id /\ reqs !! i = Some r /\ task_id t = id /\
    dependencies t = omap (fun d => ids !! d) (tr_dependencies r).
Proof.
  unfold build_tasks. intros (t0 & ds & -> & H1 & H2)%lookup_zip_with_Some.
  apply lookup_zip_with_Some in H1 as (id & r & -> & H3 & H4).
  rewrite list_lookup_fmap, H4 in H2. injection H2 as <-. exists id, r.
  destruct (resolve_deps_spec ids (request_task id r) (tr_dependencies r)) as [-> ->].
  by destruct (request_task_spec id r) as [-> ->].
Qed.

Lemma build_length : length (build_tasks ids reqs) = length reqs.
Proof. unfold build_tasks. rewrite !length_zip_with, length_map. lia. Qed.

Lemma build_ids : map task_id (build_tasks ids reqs) = ids.
Proof.
  apply list_eq_same_length with (length ids); [done|rewrite length_map, build_length; lia|].
  intros i x y Hi Hx Hy. rewrite list_lookup_fmap in Hx.
  destruct (build_tasks ids reqs !! i) as [t|] eqn:E; simplify_eq/=.
  destruct (build_lookup i t E) as (id & r & ? & _ & ? & _). congruence.
Qed.

Lemma build_depends u v : depends_on (build_tasks ids reqs) u v ->
  exists i j, ids !! i = Some v /\ ids !! j = Some u /\ index_dep reqs i j.
Proof.
  intros (_ & t & [i Hi]%list_elem_of_lookup & <- & Hu).
  destruct (build_lookup i t Hi) as (id & r & Hid & Hr & -> & Hd). rewrite Hd in Hu.
  apply list_elem_of_omap in Hu as (j & Hj & Hju). exists i, j. split_and!; [done|done|].
  exists r. split_and!; [done|done|]. apply lookup_lt_Some in Hju. lia.
Qed.

Lemma build_reaches u v : tc (depends_on (build_tasks ids reqs)) u v ->
  exists i j, ids !! i = Some v /\ ids !! j = Some u /\ tc (index_dep reqs) i j.
Proof.
  induction 1 as [u v (i & j & Hi & Hj & Hd)%build_depends|u x v Hux _ IH].
  - exists i, j. split_and!; [done|done|by apply tc_once].
  - apply build_depends in Hux as (i & j & Hi & Hj & Hd). destruct IH as (i' & j' & Hi' & Hj' & Hd').
    assert (j' = i) as -> by (by eapply (NoDup_lookup ids)).
    exists i', j. split_and!; [done|done|]. by eapply tc_r.
Qed.

Lemma build_valid : ~ index_cyclic reqs -> tasks_valid (build_tasks ids reqs).
Proof.
  intros Hc. split; [by rewrite build_ids|]. intros v (i & j & Hi & Hj & Hd)%build_reaches.
  assert (j = i) as -> by (by eapply (NoDup_lookup ids)). apply Hc. by exists i.
Qed.

Lemma build_deps_known : deps_known (build_tasks ids reqs).
Proof.
  intros t d [i Hi]%list_elem_of_lookup Hd. rewrite build_ids.
  destruct (build_lookup i t Hi) as (id & r & _ & _ & _ & E). rewrite E in Hd.
  apply list_elem_of_omap in Hd as (j & _ & Hj). by eapply list_elem_of_lookup_2.
Qed.
End build.

Section composition.
Context {W : Type} (env : Env W) (rt : Runtime W).
Context `{!HashIter Uuid f64} `{!HashIter Uuid nat}.

(** [C10] What passed validation is never refused for its shape: the scheduler behind
    the orchestrator sorts the tasks of every validated request, without a cycle
    error. And in DAG mode, over every fair order of completion, if every task
    succeeds and nobody cancels, the run never ends with the deadlock error: the
    route answers 200 with status "completed" and one result per requested task.
    (When a task fails, the deadlock error can occur.) *)
Theorem validated_dag_completes crew manager ids strength o req w :
  length ids = length (rq_tasks req) -> NoDup ids -> validate_crew_request req = Returns (Ok tt) ->
  (exists order, topological_sort_tasks (tasks (request_spec crew manager ids req)) = Some (Ok order) /\ order ≡ₚ ids) /\
  (fair_runtime rt -> never_cancelled rt ->
   all_succeed env rt (accept_crew (uuid_to_string env) o (request_spec crew manager ids req)).1.2 ->
   rq_process req = Some "dag" ->
   exists resp o', create_crew env rt crew manager ids strength None o req w = Returns (Ok resp, o') /\
     rs_status resp = "completed" /\ rs_crew_id resp = crew /\ map rs_task_id (rs_results resp) ≡ₚ ids).
Proof.
  intros Hlen Hnd Hv.
  assert (request_wf req) as Hwf.
  { destruct (validate_crew_request_spec req) as (res & E & Hres). apply Hres. congruence. }
  set (sp := request_spec crew manager ids req) in *.
  assert (tasks_valid (tasks sp)) as Hval by (apply build_valid; [done..|]; apply Hwf).
  split.
  { destruct (topological_sort_tasks_spec (tasks sp)) as [(order & -> & _ & Hno & Hmem & _)|[_ []]]; [|done].
    exists order. split; [done|]. apply NoDup_Permutation; [done|done|]. intros v. rewrite Hmem. unfold task_ids.
    rewrite elem_of_list_to_set. change (tasks sp) with (build_tasks ids (rq_tasks req)).
    by rewrite (build_ids ids (rq_tasks req) Hlen). }
  intros Hfair Hq Hs Hp.
  assert (process sp = Dag) as Hdag by (simpl; unfold request_process; by rewrite Hp).
  destruct (run_dag_progress env rt (accept_crew (uuid_to_string env) o sp).1.2 (tasks sp) Hfair)
    with (w := w) as (s & Hrun & Hclean & Hall); [done|by apply build_deps_known|done|].
  unfold create_crew. rewrite Hv. unfold run_crew. fold sp.
  destruct (accept_crew (uuid_to_string env) o sp) as [[tok r] o1] eqn:Ea. cbn [fst snd] in Hrun.
  assert (spec r = sp) as Hr by (injection Ea as <- <- <-; done).
  unfold run, run_mode. rewrite Hr, Hdag, Hrun. rewrite (surjective_pairing (poll_cancelled rt (dg_world s))).
  rewrite (Hq (dg_world s)). do 2 eexists. split; [reflexivity|]. simpl. split_and!; [|done|].
  - unfold final_status. rewrite (proj2 (forallb_forall _ _)); [done|].
    intros tr Htr%list_elem_of_In. apply bool_decide_eq_true. unfold clean in Hclean.
    rewrite Forall_forall in Hclean. by apply Hclean.
  - rewrite List.map_map. rewrite <-(build_ids ids (rq_tasks req) Hlen). apply Hall. done.
Qed.
End composition.

(** ** Examples *)

#[local] Instance nat_iter : HashIter Uuid nat := canonical_iter.
#[local] Instance cost_iter : HashIter Uuid f64 := canonical_iter.

Definition req_of (deps : list (list nat)) : list TaskRequest :=
  map (fun ds => mkTaskRequest "t" None None ds) deps.

Example cycle_of_three : has_dependency_cycle 4 (req_of [[]; [3]; [1]; [0; 2]]) = Returns true.
Proof. reflexivity. Qed.
Example diamond_is_acyclic : has_dependency_cycle 4 (req_of [[]; [0]; [0]; [1; 2]]) = Returns false.
Proof. reflexivity. Qed.

Definition demo_agent : AgentDefinition :=
  mkAgentDefinition "dev" "Dev" "developer" "write code" None None [] "medium" None false false None None None.
Definition demo_request : CrewRunRequest :=
  mkCrewRunRequest "demo" [demo_agent] (req_of [[]; [0]; [0]; [1; 2]]) (Some "dag") None.

Example unknown_mode_is_sequential :
  request_process 7 (mkCrewRunRequest "x" [] [] (Some "DAG") None) = Sequential.
Proof. reflexivity. Qed.

Lemma validated_dag_completes_witness :
  (exists order, topological_sort_tasks (tasks (request_spec 9 8 [1; 2; 3; 4]%N demo_request)) = Some (Ok order)) /\
  exists resp o', create_crew toy_env lifo_rt 9 8 [1; 2; 3; 4]%N None None
      (Orchestrator_new (mkResourceBudget None None None None)) demo_request ∅ = Returns (Ok resp, o') /\
    map rs_task_id (rs_results resp) ≡ₚ [1; 2; 3; 4]%N.
Proof.
  destruct (validated_dag_completes toy_env lifo_rt 9 8 [1; 2; 3; 4]%N None
    (Orchestrator_new (mkResourceBudget None None None None)) demo_request ∅) as [(order & Ho & _) H].
  - reflexivity.
  - apply (bool_decide_unpack _). vm_compute. exact I.
  - vm_compute. reflexivity.
  - split; [by exists order|]. destruct H as (resp & o' & H & _ & _ & Hids).
    + apply lifo_fair.
    + apply lifo_quiet.
    + intros t a w. eexists _, w. split; reflexivity.
    + reflexivity.
    + exists resp, o'. split; [exact H|exact Hids].
Defined.
