(* ===== verification/Sandbox.v ===== *)
(** * Sandboxes (sandbox/policy.rs, manager.rs, process.rs, python.rs, oci.rs,
      wasm.rs, kavach_bridge.rs)

    Policies and the isolation level they resolve to, the commands the
    subprocess and container backends build and how their outcome is read, the
    epoch that times out WASM executions, and the calls made to the kavach
    sandbox. The operating system and kavach are parameters. *)

From S2P Require Import Prelude.
From S2P Require Import F64.
From S2P Require Import Resource.
From S2P Require Import Core.
From S2P Require Import Text.
From Stdlib Require Import Ascii String.
From stdpp Require Import base gmap strings numbers relations list.

Local Open Scope string_scope.

(** ** policy.rs *)

Inductive IsolationLevel := LNone | LWasm | LProcess | LOci.

Definition strength (l : IsolationLevel) : N :=
  match l with LNone => 0 | LWasm => 1 | LProcess => 2 | LOci => 3 end.

(** The derived order follows the declaration. *)
Definition level_lt (a b : IsolationLevel) : bool := (strength a <? strength b)%N.

Record SandboxPolicy := mkSandboxPolicy {
  min_isolation : IsolationLevel;
  needs_filesystem : bool;
  needs_network : bool;
  max_duration_secs : N;
  max_memory_bytes : N;
}.

Definition policy_native : SandboxPolicy := mkSandboxPolicy LNone false false 300 0.
Definition policy_wasm : SandboxPolicy := mkSandboxPolicy LWasm false false 30 (64 * 1024 * 1024).
Definition policy_process : SandboxPolicy := mkSandboxPolicy LProcess true false 60 (256 * 1024 * 1024).
Definition policy_container : SandboxPolicy := mkSandboxPolicy LOci true true 120 (512 * 1024 * 1024).
Definition SandboxPolicy_default : SandboxPolicy := policy_wasm.

Definition effective_isolation (p : SandboxPolicy) : IsolationLevel :=
  let level := min_isolation p in
  if needs_network p && level_lt level LOci then LOci
  else if needs_filesystem p && level_lt level LProcess then LProcess
  else level.

(** ** Child processes *)

Definition SANITIZED_ENV_VARS : list string :=
  ["LD_PRELOAD"; "LD_LIBRARY_PATH"; "DYLD_INSERT_LIBRARIES"; "DYLD_LIBRARY_PATH"].

(** What [std::process::Command] does to the environment of the child, in order. *)
Inductive EnvOp := EnvRemove (k : string) | EnvClear | EnvSet (k v : string).

Record Command := mkCommand {
  program : string;
  cmd_args : list string;
  cmd_env : list EnvOp;
  current_dir : option string;
}.

Definition env_step (env : gmap string string) (op : EnvOp) : gmap string string :=
  match op with
  | EnvRemove k => delete k env
  | EnvClear => ∅
  | EnvSet k v => <[k := v]> env
  end.
Definition child_env (inherited : gmap string string) (c : Command) : gmap string string :=
  foldl env_step inherited (cmd_env c).

Record Output := mkOutput { raw_stdout : string; raw_stderr : string; status_code : option Z }.

(** A spawned child: how the write to its standard input ends ([None]: it
    blocks for ever), and whether it exits within the timeout. *)
Record Child := mkChild {
  child_stdin : option (Result unit string);
  child_wait : option (Result Output string);
}.

Record ProcessResult := mkProcessResult { stdout : string; stderr : string; exit_code : Z; timed_out : bool }.

Record ProcessSandboxConfig := mkProcessSandboxConfig {
  executable : string;
  sb_args : list string;
  work_dir : option string;
  sb_timeout : Duration;
  sb_env : list (string * string);
  clean_env : bool;
}.
Definition ProcessSandboxConfig_default : ProcessSandboxConfig :=
  mkProcessSandboxConfig "/bin/sh" ["-c"] None (from_secs 30) [] false.
Definition shell (timeout : Duration) : ProcessSandboxConfig :=
  mkProcessSandboxConfig "/bin/sh" ["-c"] None timeout [] false.

Section os.
(** [spawn]: the operating system, for a command, an input and a timeout. *)
Context (spawn : Command -> string -> Duration -> Result Child string).
(** [String::from_utf8_lossy] *)
Context (lossy : string -> string).

(** Spawn, write the input, wait under the timeout. [strict]: a failed write is
    an error (python.rs) and not only logged; [name] begins the messages. *)
Definition run_child (strict : bool) (spawn_msg write_msg io_msg : string) (c : Command) (input : string)
    (timeout : Duration) : Outcome (Result ProcessResult AgnosaiError) :=
  match spawn c input timeout with
  | Err e => Returns (Err (SandboxError (spawn_msg ++ e)))
  | Ok child =>
      match child_stdin child with
      | None => Hangs
      | Some w =>
          match (if strict then w else Ok tt) with
          | Err e => Returns (Err (SandboxError (write_msg ++ e)))
          | Ok _ =>
              match child_wait child with
              | Some (Ok o) =>
                  Returns (Ok (mkProcessResult (lossy (raw_stdout o)) (lossy (raw_stderr o))
                                 (default (-1)%Z (status_code o)) false))
              | Some (Err e) => Returns (Err (SandboxError (io_msg ++ e)))
              | None => Returns (Ok (mkProcessResult "" "" (-1) true))
              end
          end
      end
  end.

(** *** process.rs *)

Definition process_env (cfg : ProcessSandboxConfig) : list EnvOp :=
  (map EnvRemove SANITIZED_ENV_VARS ++ (if clean_env cfg then [EnvClear] else []) ++
   map (fun kv => EnvSet kv.1 kv.2) (sb_env cfg))%list.

Definition argv_command (cfg : ProcessSandboxConfig) (prog : string) (rest : list string) : Command :=
  mkCommand prog rest (process_env cfg) (work_dir cfg).

Definition execute_argv (cfg : ProcessSandboxConfig) (argv : list string) (input : string)
    : Outcome (Result ProcessResult AgnosaiError) :=
  match argv with
  | [] => Returns (Err (SandboxError "empty argv"))
  | prog :: rest =>
      run_child false ("failed to spawn " ++ prog ++ ": ") "" "process I/O error: "
        (argv_command cfg prog rest) input (sb_timeout cfg)
  end.

Definition process_execute (cfg : ProcessSandboxConfig) (command input : string)
    : Outcome (Result ProcessResult AgnosaiError) :=
  run_child false ("failed to spawn " ++ executable cfg ++ ": ") "" "process I/O error: "
    (argv_command cfg (executable cfg) (sb_args cfg ++ [command])%list) input (sb_timeout cfg).

(** *** python.rs *)

Record PythonSandbox := mkPythonSandbox { python_path : string; py_timeout : Duration; py_work_dir : option string }.
Definition PythonSandbox_new : PythonSandbox := mkPythonSandbox "python3" (from_secs 30) None.
Definition python_with_config (path : string) (timeout : Duration) : PythonSandbox := mkPythonSandbox path timeout None.
Definition with_work_dir (s : PythonSandbox) (dir : string) : PythonSandbox :=
  mkPythonSandbox (python_path s) (py_timeout s) (Some dir).

Definition python_command (s : PythonSandbox) (script : string) : Command :=
  mkCommand (python_path s) ["-c"; script] (map EnvRemove SANITIZED_ENV_VARS) (py_work_dir s).

Definition execute_script (s : PythonSandbox) (script input : string) : Outcome (Result ProcessResult AgnosaiError) :=
  run_child true "failed to spawn python process: " "failed to write to python stdin: "
    "python process I/O error: " (python_command s script) input (py_timeout s).

(** [wrapper] is the constant script; the tool's source travels as data on the
    standard input, never inside the script. [to_json]: [serde_json::to_string]. *)
Definition execute_tool (wrapper : string) (to_json : Value -> Result string string) (s : PythonSandbox)
    (tool_source tool_name : string) (parameters : Value) : Outcome (Result ProcessResult AgnosaiError) :=
  let input := Obj [("__tool_source__", Str tool_source); ("tool_name", Str tool_name);
                    ("parameters", parameters)] in
  match to_json input with
  | Err e => Returns (Err (Serialization e))
  | Ok text => execute_script s wrapper text
  end.

(** *** oci.rs *)

Record OciSandboxConfig := mkOciSandboxConfig {
  oci_runtime : string;
  image : string;
  oci_timeout : Duration;
  memory_limit : string;
  allow_network : bool;
  oci_env : list (string * string);
  volumes : list string;
}.
Definition OciSandboxConfig_new (img : string) : OciSandboxConfig :=
  mkOciSandboxConfig "docker" img (from_secs 60) "256m" false [] [].

(** [is_alphanumeric]: [char::is_alphanumeric] on all of Unicode. *)
Definition validate_image_ref (is_alphanumeric : string -> bool) (img : string) : Result unit string :=
  if (String.length img =? 0)%nat then Err "image name is empty"
  else if starts_with "-" img then Err "image name must not start with '-' (flag injection)"
  else match List.find (fun ch => negb (is_alphanumeric ch) && negb (str_contains ch "-_./:#@")) (utf8_chars img) with
       | Some ch => Err ("image name contains invalid character: '" ++ ch ++ "'")
       | None => Ok tt
       end.

Definition OciSandbox_new (is_alphanumeric : string -> bool) (cfg : OciSandboxConfig)
    : Result OciSandboxConfig AgnosaiError :=
  match validate_image_ref is_alphanumeric (image cfg) with
  | Err e => Err (SandboxError ("invalid OCI image: " ++ e))
  | Ok _ => Ok cfg
  end.

Definition oci_options (cfg : OciSandboxConfig) : list string :=
  (["run"; "--rm"; "-i"; "--read-only"; "--tmpfs"; "/tmp"; "--memory"; memory_limit cfg] ++
   (if negb (allow_network cfg) then ["--network=none"] else []) ++
   List.concat (map (fun kv => ["--env"; (kv.1 ++ "=" ++ kv.2)%string]) (oci_env cfg)) ++
   List.concat (map (fun v => ["-v"; v]) (volumes cfg)))%list.

Definition oci_execute (cfg : OciSandboxConfig) (entrypoint_args : list string) (input : string)
    : Outcome (Result ProcessResult AgnosaiError) :=
  run_child false ("failed to spawn " ++ oci_runtime cfg ++ " container: ") "" "container I/O error: "
    (mkCommand (oci_runtime cfg) (oci_options cfg ++ image cfg :: entrypoint_args)%list [] None)
    input (oci_timeout cfg).

(** *** manager.rs *)

Record SandboxResult := mkSandboxResult { sr_result : ProcessResult; backend : IsolationLevel }.

Record SandboxManagerConfig := mkSandboxManagerConfig {
  default_timeout : Duration;
  mgr_oci_runtime : string;
  oci_default_image : string;
  oci_memory_limit : string;
}.
Definition SandboxManagerConfig_default : SandboxManagerConfig :=
  mkSandboxManagerConfig (from_secs 30) "docker" "alpine:latest" "256m".

Definition tag_backend (l : IsolationLevel) (o : Outcome (Result ProcessResult AgnosaiError))
    : Outcome (Result SandboxResult AgnosaiError) :=
  match o with
  | Returns (Ok r) => Returns (Ok (mkSandboxResult r l))
  | Returns (Err e) => Returns (Err e)
  | Panics => Panics
  | Hangs => Hangs
  end.

Definition policy_timeout (cfg : SandboxManagerConfig) (p : SandboxPolicy) : Duration :=
  if (0 <? max_duration_secs p)%N then from_secs (max_duration_secs p) else default_timeout cfg.

Definition manager_oci_config (cfg : SandboxManagerConfig) (p : SandboxPolicy) : OciSandboxConfig :=
  mkOciSandboxConfig (mgr_oci_runtime cfg) (oci_default_image cfg) (policy_timeout cfg p) (oci_memory_limit cfg)
    (needs_network p) [] [].

Definition manager_execute_argv (is_alphanumeric : string -> bool) (cfg : SandboxManagerConfig) (p : SandboxPolicy)
    (argv : list string) (input : string) : Outcome (Result SandboxResult AgnosaiError) :=
  match effective_isolation p with
  | LNone => Returns (Ok (mkSandboxResult (mkProcessResult input "" 0 false) LNone))
  | LWasm => Returns (Err (SandboxError
      "WASM tools must be executed via WasmSandbox directly with a compiled module"))
  | LProcess => tag_backend LProcess (execute_argv (shell (policy_timeout cfg p)) argv input)
  | LOci =>
      match OciSandbox_new is_alphanumeric (manager_oci_config cfg p) with
      | Err e => Returns (Err e)
      | Ok sandbox => tag_backend LOci (oci_execute sandbox argv input)
      end
  end.

Definition resolve_backend (p : SandboxPolicy) : IsolationLevel := effective_isolation p.
End os.

(** ** kavach_bridge.rs

    kavach is a parameter: its builder is the record of what the bridge sets,
    its policies keep the fields the bridge writes, and a sandbox answers each
    call. *)

Inductive Backend := BNoop | BWasm | BProcess | BOci.

Definition map_backend (l : IsolationLevel) : Backend :=
  match l with LNone => BNoop | LWasm => BWasm | LProcess => BProcess | LOci => BOci end.

Inductive Severity := SevLow | SevMedium | SevHigh | SevCritical.

Record ExternalizationPolicy := mkExternalizationPolicy {
  ext_enabled : bool;
  max_artifact_size_bytes : N;
  block_threshold : Severity;
  quarantine_threshold : Severity;
  redact_secrets : bool;
}.

Record KavachConfig := mkKavachConfig {
  kc_backend : Backend;
  kc_network : bool;
  kc_timeout_ms : N;
  kc_agent_id : option string;
  kc_externalization : option ExternalizationPolicy;
  kc_seccomp : option string;
}.

Record KavachPolicy := mkKavachPolicy {
  network_enabled : bool;
  seccomp_enabled : bool;
  seccomp_profile : option string;
}.

Record ExecResult := mkExecResult {
  er_exit_code : Z; er_stdout : string; er_stderr : string; er_duration_ms : N; er_timed_out : bool;
}.

Inductive SandboxState := SRunning | SStopped | SDestroyed.
Inductive ScanVerdict := VPass | VBlock.

(** [u64] multiplication: [None] is the panic of a debug build. *)
Definition u64_mul (x y : N) : option N := if (x * y <=? u64_max)%N then Some (x * y)%N else None.

(** kavach: the default gate policy, the basic policy, the score, and a sandbox
    handle with its calls. *)
Class Kavach (Handle : Type) := {
  ext_default : ExternalizationPolicy;
  policy_basic : KavachPolicy;
  score_backend : Backend -> KavachPolicy -> N;
  create : KavachConfig -> Result Handle string;
  transition : Handle -> SandboxState -> Result unit string * Handle;
  exec : Handle -> string -> Result ExecResult string * Handle;
  gate_apply : ExecResult -> ExternalizationPolicy -> Result ExecResult string;
}.

Record KavachToolResult := mkKavachToolResult {
  ktr_output : string;
  ktr_stderr : string;
  ktr_exit_code : Z;
  ktr_timed_out : bool;
  ktr_duration_ms : N;
  ktr_strength : N;
  ktr_scan_verdict : option ScanVerdict;
}.

Section kavach.
Context {Handle : Type} `{!Kavach Handle}.

Definition at_least_process (p : SandboxPolicy) : bool := negb (level_lt (effective_isolation p) LProcess).

Definition build_config (p : SandboxPolicy) (agent_id : option string) : Outcome KavachConfig :=
  match u64_mul (max_duration_secs p) 1000 with
  | None => Panics
  | Some ms =>
      Returns (mkKavachConfig (map_backend (effective_isolation p)) (needs_network p) ms agent_id
                 (Some ext_default) (if at_least_process p then Some "basic" else None))
  end.

Definition to_kavach_policy (p : SandboxPolicy) : KavachPolicy :=
  let kp := policy_basic in
  if at_least_process p then mkKavachPolicy (needs_network p) true (Some "basic")
  else mkKavachPolicy (needs_network p) (seccomp_enabled kp) (seccomp_profile kp).

Definition strength_for_policy (p : SandboxPolicy) : N :=
  score_backend (map_backend (effective_isolation p)) (to_kavach_policy p).

(** The second component lists the transitions asked of the sandbox, in order. *)
Definition kavach_execute (command : string) (p : SandboxPolicy) (agent_id : option string)
    : Outcome (Result KavachToolResult AgnosaiError * list SandboxState) :=
  match build_config p agent_id with
  | Panics => Panics
  | Hangs => Hangs
  | Returns config =>
      match create config with
      | Err e => Returns (Err (SandboxError ("kavach create failed: " ++ e)), [])
      | Ok h0 =>
          let '(started, h1) := transition h0 SRunning in
          match started with
          | Err e => Returns (Err (SandboxError ("kavach start failed: " ++ e)), [SRunning])
          | Ok _ =>
              let '(result, h2) := exec h1 command in
              let '(_, h3) := transition h2 SStopped in
              let '(_, h4) := transition h3 SDestroyed in
              let calls := [SRunning; SStopped; SDestroyed] in
              match result with
              | Err e => Returns (Err (SandboxError ("kavach exec failed: " ++ e)), calls)
              | Ok r =>
                  Returns (Ok (mkKavachToolResult (er_stdout r) (er_stderr r) (er_exit_code r) (er_timed_out r)
                                 (er_duration_ms r) (strength_for_policy p) None), calls)
              end
          end
      end
  end.

Definition scan_output (output : string) : ScanVerdict :=
  match gate_apply (mkExecResult 0 output "" 0 false) ext_default with Ok _ => VPass | Err _ => VBlock end.

Definition policy_for_trust (trust : string) : ExternalizationPolicy :=
  if String.eqb trust "minimal" then mkExternalizationPolicy true (1024 * 1024) SevMedium SevLow true
  else if String.eqb trust "strict" then mkExternalizationPolicy true (10 * 1024 * 1024) SevHigh SevMedium true
  else ext_default.
End kavach.

(** ** Isolation *)

(** What a policy asks of a level. *)
Definition meets_policy (p : SandboxPolicy) (l : IsolationLevel) : Prop :=
  (strength (min_isolation p) <= strength l)%N /\
  (needs_network p = true -> l = LOci) /\
  (needs_filesystem p = true -> (strength LProcess <= strength l)%N).

(** [effective_isolation] is the weakest level that meets the policy: at
    least the requested minimum, a container when the network is needed, at
    least a process when the filesystem is. *)
Theorem effective_isolation_least p :
  meets_policy p (effective_isolation p) /\
  forall l, meets_policy p l -> (strength (effective_isolation p) <= strength l)%N.
Proof.
  destruct p as [m f n d b]. unfold meets_policy, effective_isolation, level_lt.
  split; [destruct m, f, n; vm_compute; naive_solver|].
  intros l (Hm & Hn & Hf). destruct n.
  - rewrite (Hn eq_refl). destruct f; by destruct m.
  - destruct f; [specialize (Hf eq_refl)|]; destruct m; simpl in *; lia.
Qed.

(** ** The environment of children *)

Lemma foldl_env_remove (ks : list string) (env : gmap string string) k :
  foldl env_step env (map EnvRemove ks) !! k = if bool_decide (k ∈ ks) then None else env !! k.
Proof.
  revert env. induction ks as [|x ks IH]; intros env; cbn [map foldl env_step].
  - by rewrite bool_decide_eq_false_2 by set_solver.
  - rewrite IH. case_bool_decide as Hk.
    + by rewrite bool_decide_eq_true_2 by set_solver.
    + destruct (decide (k = x)) as [->|].
      * by rewrite lookup_delete_eq, bool_decide_eq_true_2 by set_solver.
      * by rewrite lookup_delete_ne, bool_decide_eq_false_2 by set_solver.
Qed.

(** The last pair of a configuration wins. *)
Definition last_binding (k : string) (kvs : list (string * string)) : option string :=
  snd <$> last (filter (fun kv : string * string => kv.1 = k) kvs).

Lemma last_binding_snoc k kvs x v :
  last_binding k (kvs ++ [(x, v)])%list = if decide (x = k) then Some v else last_binding k kvs.
Proof.
  unfold last_binding. rewrite filter_app, filter_cons, filter_nil. simpl. case_decide.
  - by rewrite last_snoc.
  - by rewrite app_nil_r.
Qed.

Lemma foldl_env_set kvs (env : gmap string string) k :
  foldl env_step env (map (fun kv => EnvSet kv.1 kv.2) kvs) !! k =
  match last_binding k kvs with Some v => Some v | None => env !! k end.
Proof.
  induction kvs as [|[x v] kvs IH] using rev_ind; [done|].
  rewrite map_app, foldl_app, last_binding_snoc. simpl. case_decide as Hx.
  - subst. by rewrite lookup_insert_eq.
  - by rewrite lookup_insert_ne.
Qed.

(** The environment of a child of the process sandbox: a variable the
    configuration sets has the value set last; any other variable is absent when
    the environment is cleared or when it is one of the library-injection
    variables, and is inherited otherwise. A child of the python sandbox never
    has a library-injection variable. *)
Theorem child_env_correct cfg py script inherited prog rest k :
  child_env inherited (argv_command cfg prog rest) !! k =
    match last_binding k (sb_env cfg) with
    | Some v => Some v
    | None => if clean_env cfg || bool_decide (k ∈ SANITIZED_ENV_VARS) then None else inherited !! k
    end /\
  child_env inherited (python_command py script) !! k =
    if bool_decide (k ∈ SANITIZED_ENV_VARS) then None else inherited !! k.
Proof.
  unfold child_env, argv_command, python_command, process_env. cbn [cmd_env]. split.
  - rewrite !foldl_app, foldl_env_set. destruct (last_binding k (sb_env cfg)); [done|].
    destruct (clean_env cfg); cbn [orb foldl env_step]; [done|].
    by rewrite foldl_env_remove.
  - by rewrite foldl_env_remove.
Qed.

(** ** Outcome of a child *)

Section outcomes.
Context (spawn : Command -> string -> Duration -> Result Child string) (lossy : string -> string).

(** A run ends unless the child blocks the write of its input: the timeout
    covers the wait for the output and not that write. When it ends with a
    result, either the child exited and the result is its output and status, or
    the timeout expired and the result says so with code -1. *)
Theorem run_child_ends strict m1 m2 m3 c input timeout :
  (run_child spawn lossy strict m1 m2 m3 c input timeout = Hangs <->
   exists ch, spawn c input timeout = Ok ch /\ child_stdin ch = None) /\
  (forall r, run_child spawn lossy strict m1 m2 m3 c input timeout = Returns (Ok r) ->
   exists ch, spawn c input timeout = Ok ch /\
     match child_wait ch with
     | Some (Ok o) => r = mkProcessResult (lossy (raw_stdout o)) (lossy (raw_stderr o))
                            (default (-1)%Z (status_code o)) false
     | Some (Err _) => False
     | None => r = mkProcessResult "" "" (-1) true
     end).
Proof.
  unfold run_child. destruct (spawn c input timeout) as [ch|e].
  2: { split; [|done]. split; [done|]. by intros (? & [=] & _). }
  destruct (child_stdin ch) as [w|] eqn:E.
  2: { split; [|done]. split; [|done]. intros _. by exists ch. }
  destruct (if strict then w else Ok tt).
  2: { split; [|done]. split; [done|]. intros (? & [= <-] & ?). congruence. }
  split.
  - split; [by destruct (child_wait ch) as [[]|]|]. intros (? & [= <-] & ?). congruence.
  - intros r Hr. exists ch. split; [done|]. destruct (child_wait ch) as [[]|]; congruence.
Qed.

(** A command dispatched by policy runs on the backend of the policy's
    effective isolation: a result names that level, native policies echo the
    input, WASM policies are refused, and with a container the spawned command
    is cut off from the network, before the image, unless the policy needs it. *)
Theorem manager_routes_by_policy is_alnum cfg p argv input r :
  manager_execute_argv spawn lossy is_alnum cfg p argv input = Returns (Ok r) ->
  backend r = effective_isolation p /\ effective_isolation p <> LWasm /\
  (effective_isolation p = LNone -> sr_result r = mkProcessResult input "" 0 false) /\
  (effective_isolation p = LOci ->
   starts_with "-" (oci_default_image cfg) = false /\
   exists pre post ch, spawn (mkCommand (mgr_oci_runtime cfg) (pre ++ oci_default_image cfg :: post) [] None)
                      input (policy_timeout cfg p) = Ok ch /\
     (needs_network p = false -> "--network=none" ∈ pre) /\ post = argv).
Proof.
  unfold manager_execute_argv. destruct (effective_isolation p) eqn:E; [naive_solver|naive_solver| |].
  - destruct (execute_argv _ _ _ _ _) as [[]| |]; cbn [tag_backend]; naive_solver.
  - unfold OciSandbox_new, validate_image_ref. cbn [manager_oci_config image].
    destruct (String.length _ =? 0)%nat; [done|].
    destruct (starts_with "-" (oci_default_image cfg)) eqn:Hd; [done|].
    destruct (List.find _ _); [done|].
    unfold oci_execute, run_child. cbn [manager_oci_config oci_runtime image oci_timeout].
    destruct (spawn _ input _) as [ch|] eqn:Hs; cbn [tag_backend]; [|done].
    intros H. assert (backend r = LOci) as ->.
    { destruct (child_stdin ch); [|done]. destruct (child_wait ch) as [[]|]; naive_solver. }
    split_and!; [done..|]. intros _. split; [done|].
    eexists _, _, _. split; [exact Hs|]. split; [|done].
    unfold oci_options. cbn [manager_oci_config allow_network memory_limit oci_env volumes map List.concat].
    rewrite !app_nil_r. intros ->. set_solver.
Qed.
End outcomes.

(** A child that never reads its input outlives the timeout. *)
Example unread_input_is_never_timed_out :
  process_execute (fun _ _ _ => Ok (mkChild None None)) (fun s => s) (shell (from_secs 1)) "sleep 3600" "big"
  = Hangs.
Proof. reflexivity. Qed.

(** The image check lets a fragment mark through. *)
Example hash_is_an_image_character :
  validate_image_ref (fun _ => false) "#" = Ok tt.
Proof. vm_compute. reflexivity. Qed.

(** A machine whose children print a fixed line and exit at once. *)
Definition quick_os (_ : Command) (_ : string) (_ : Duration) : Result Child string :=
  Ok (mkChild (Some (Ok tt)) (Some (Ok (mkOutput "done" "" (Some 0%Z))))).

Lemma manager_routes_by_policy_witness :
  exists r, manager_execute_argv quick_os (fun s => s) (fun c => negb (str_contains c " "))
    SandboxManagerConfig_default policy_container ["ls"] "" = Returns (Ok r) /\ backend r = LOci.
Proof.
  eexists. split; [vm_compute; reflexivity|].
  by apply (manager_routes_by_policy quick_os (fun s => s) (fun c => negb (str_contains c " "))
    SandboxManagerConfig_default policy_container ["ls"] "" _ eq_refl).
Defined.
