(* ===== verification/Wasm.v ===== *)
(** * The WASM sandbox (sandbox/wasm.rs)

    One execution as the sequence of wasmtime's answers, the reading of traps as
    exit codes, and the clock that times executions out: an epoch counter shared
    by every execution of one sandbox, advanced by a ticker thread per
    execution. *)

From S2P Require Import Prelude.
From S2P Require Import F64.
From S2P Require Import Resource.
From S2P Require Import Core.
From S2P Require Import Text.
From Stdlib Require Import Ascii String.
From stdpp Require Import base gmap strings numbers relations list.

Local Open Scope string_scope.

Definition DEFAULT_MAX_MEMORY_BYTES : N := 64 * 1024 * 1024.
Definition DEFAULT_TIMEOUT : Duration := from_secs 30.
Definition DEFAULT_FUEL : N := 1000000000.

Record WasmSandbox := mkWasmSandbox { ws_max_memory_bytes : N; ws_timeout : Duration; ws_fuel : N }.

(** [engine]: how [Engine::new] answers. *)
Definition with_limits (engine : Result unit string) (max_memory_bytes : N) (timeout : Duration)
    : Result WasmSandbox AgnosaiError :=
  match engine with
  | Err e => Err (SandboxError e)
  | Ok _ => Ok (mkWasmSandbox max_memory_bytes timeout DEFAULT_FUEL)
  end.
Definition WasmSandbox_new (engine : Result unit string) : Result WasmSandbox AgnosaiError :=
  with_limits engine DEFAULT_MAX_MEMORY_BYTES DEFAULT_TIMEOUT.

(** [compiled]: how [Module::new] or [Module::from_file] answers. *)
Definition load_module {M : Type} (compiled : Result M string) : Result M AgnosaiError :=
  match compiled with Err e => Err (SandboxError e) | Ok m => Ok m end.
Definition load_module_from_file {M : Type} (compile_file : string -> Result M string) (path : string)
    : Result M AgnosaiError :=
  load_module (compile_file path).

(** ** One execution *)

(** An error of [start.call]: the exit of the guest, or a trap with the text of
    its error chain. *)
Inductive WasmError := I32Exit (code : Z) | Trap (debug : string).

Definition extract_exit_code (err : WasmError) : Z :=
  match err with
  | I32Exit code => code
  | Trap full =>
      if str_contains "epoch" full || str_contains "interrupt" full then -1
      else if str_contains "fuel" full then -2
      else -3
  end.

(** wasmtime's answers to the calls of one execution, in order, and the bytes
    the guest wrote. *)
Record Invocation := mkInvocation {
  set_fuel : Result unit string;
  add_to_linker : Result unit string;
  instantiate : Result unit string;
  has_start : bool;
  start_call : Result unit WasmError;
  captured : string;
}.

Record WasmResult := mkWasmResult { wasm_stdout : string; wasm_exit_code : Z }.

(** [lossy] is the identity on valid UTF-8, which makes the two conversions of
    the source one. *)
Definition wasm_execute (lossy : string -> string) (i : Invocation) : Result WasmResult AgnosaiError :=
  match set_fuel i with
  | Err e => Err (SandboxError e)
  | Ok _ =>
  match add_to_linker i with
  | Err e => Err (SandboxError e)
  | Ok _ =>
  match instantiate i with
  | Err e => Err (SandboxError e)
  | Ok _ =>
  if has_start i then
    Ok (mkWasmResult (lossy (captured i))
          (match start_call i with Ok _ => 0%Z | Err err => extract_exit_code err end))
  else Err (SandboxError "module does not export a WASI _start function")
  end end end.

(** ** The epoch *)

(** An execution in flight: the epoch at which it traps, and the time its ticker
    has slept. [fired]: the ticker has advanced the epoch. *)
Record Run := mkRun { deadline : N; elapsed : Duration; fired : bool }.

Record Engine := mkEngine { epoch : N; runs : gmap nat Run }.
Definition Engine_new : Engine := mkEngine 0 ∅.

Definition TICK : Duration := from_millis 50.

(** What happens to a shared engine: an execution starts, its ticker sleeps one
    step (the loop test passed), its ticker leaves the loop and advances the
    epoch, or the execution ends and its ticker is cancelled and joined. *)
Inductive Event := Begin (id : nat) | Sleep (id : nat) | Fire (id : nat) | Finish (id : nat).

Definition engine_apply (timeout : Duration) (e : Engine) (ev : Event) : option Engine :=
  match ev with
  | Begin id =>
      match runs e !! id with
      | Some _ => None
      | None => Some (mkEngine (epoch e) (<[id := mkRun (epoch e + 1) 0 false]> (runs e)))
      end
  | Sleep id =>
      match runs e !! id with
      | Some r =>
          if negb (fired r) && (elapsed r <? timeout)%N
          then Some (mkEngine (epoch e) (<[id := mkRun (deadline r) (elapsed r + TICK) false]> (runs e)))
          else None
      | None => None
      end
  | Fire id =>
      match runs e !! id with
      | Some r =>
          if negb (fired r) && negb (elapsed r <? timeout)%N
          then Some (mkEngine (epoch e + 1) (<[id := mkRun (deadline r) (elapsed r) true]> (runs e)))
          else None
      | None => None
      end
  | Finish id =>
      match runs e !! id with
      | Some _ => Some (mkEngine (epoch e) (delete id (runs e)))
      | None => None
      end
  end.

(** wasmtime traps a run once the epoch reaches its deadline. *)
Definition interrupted (e : Engine) (r : Run) : bool := (deadline r <=? epoch e)%N.

Definition engine_run (timeout : Duration) (evs : list Event) : option Engine :=
  foldl (fun o ev => e ← o; engine_apply timeout e ev) (Some Engine_new) evs.

(** Histories in which executions do not overlap. *)
Definition serial (timeout : Duration) (evs : list Event) : Prop :=
  forall pre id post e, evs = (pre ++ Begin id :: post)%list -> engine_run timeout pre = Some e -> runs e = ∅.

Lemma engine_run_snoc t evs ev :
  engine_run t (evs ++ [ev])%list = (e ← engine_run t evs; engine_apply t e ev).
Proof. unfold engine_run. by rewrite foldl_app. Qed.

Lemma engine_run_invariant t (P : Engine -> Prop) evs e :
  P Engine_new ->
  (forall pre ev post e0 e1, evs = (pre ++ ev :: post)%list -> engine_run t pre = Some e0 -> P e0 ->
     engine_apply t e0 ev = Some e1 -> P e1) ->
  engine_run t evs = Some e -> P e.
Proof.
  intros H0 Hstep. revert e. induction evs as [|ev evs IH] using rev_ind; intros e.
  - by intros [= <-].
  - rewrite engine_run_snoc. destruct (engine_run t evs) as [e0|] eqn:E; [|done]. cbn [mbind option_bind].
    intros He. apply (Hstep evs ev [] e0 e); [done|done| |done].
    apply IH; [|done]. intros pre ev' post e1 e2 ->. apply (Hstep pre ev' (post ++ [ev])%list).
    by rewrite <-app_assoc.
Qed.

(** What a step does, event by event. *)
Inductive engine_step (t : Duration) (e : Engine) : Event -> Engine -> Prop :=
| step_begin id : runs e !! id = None ->
    engine_step t e (Begin id) (mkEngine (epoch e) (<[id := mkRun (epoch e + 1) 0 false]> (runs e)))
| step_sleep id d x : runs e !! id = Some (mkRun d x false) -> (x < t)%N ->
    engine_step t e (Sleep id) (mkEngine (epoch e) (<[id := mkRun d (x + TICK) false]> (runs e)))
| step_fire id d x : runs e !! id = Some (mkRun d x false) -> (t <= x)%N ->
    engine_step t e (Fire id) (mkEngine (epoch e + 1) (<[id := mkRun d x true]> (runs e)))
| step_finish id r : runs e !! id = Some r ->
    engine_step t e (Finish id) (mkEngine (epoch e) (delete id (runs e))).

Lemma engine_apply_step t e ev e' : engine_apply t e ev = Some e' <-> engine_step t e ev e'.
Proof.
  split.
  - destruct ev as [id|id|id|id]; cbn [engine_apply]; destruct (runs e !! id) as [[d x f]|] eqn:E; try done;
      cbn [fired elapsed deadline].
    + intros [= <-]. by constructor.
    + destruct f, (N.ltb_spec x t); try done. intros [= <-]. by constructor.
    + destruct f, (N.ltb_spec x t); try done. intros [= <-]. by constructor.
    + intros [= <-]. by econstructor.
  - destruct 1 as [id H|id d x H Hx|id d x H Hx|id r H]; cbn [engine_apply]; rewrite H; [done| | |done];
      cbn [fired elapsed deadline negb andb].
    + by apply N.ltb_lt in Hx as ->.
    + by apply N.ltb_ge in Hx as ->.
Qed.

(** ** Timeouts *)

Definition ticker_ok (t : Duration) (e : Engine) (r : Run) : Prop :=
  (deadline r <= epoch e + 1)%N /\ (elapsed r < t + TICK)%N /\
  (fired r = true -> (deadline r <= epoch e)%N /\ (t <= elapsed r)%N).
Definition engine_ok (t : Duration) (e : Engine) : Prop := map_Forall (fun _ => ticker_ok t e) (runs e).

Lemma ticker_ok_mono t e e' r : (epoch e <= epoch e')%N -> ticker_ok t e r -> ticker_ok t e' r.
Proof. intros ? (? & ? & Hf). repeat split; [lia|done|destruct (Hf H2); lia|by apply Hf]. Qed.

Lemma engine_ok_step t e ev e' : engine_ok t e -> engine_step t e ev e' -> engine_ok t e'.
Proof.
  intros He Hs. assert (0 < TICK)%N as HT by done.
  destruct Hs as [id H|id d x H Hx|id d x H Hx|id r H]; intros j r' Hr; cbn [runs] in Hr;
    rewrite ?lookup_insert_Some, ?lookup_delete_Some in Hr;
    first [destruct Hr as [[<- <-]|[_ Hr]] | destruct Hr as [_ Hr]];
    try (apply (ticker_ok_mono _ e); [simpl; lia|by apply (He j)]).
  - repeat split; simpl; lia || done.
  - specialize (He id _ H) as (? & ? & ?). repeat split; simpl in *; lia || done.
  - specialize (He id _ H) as (? & ? & ?). repeat split; simpl in *; lia || done.
Qed.

(** However many executions share the engine, the timeout is enforced: a
    ticker sleeps at most one step past the timeout before it fires, and a run
    whose ticker has fired is interrupted. *)
Theorem wasm_timeout_enforced t evs e id r :
  engine_run t evs = Some e -> runs e !! id = Some r ->
  (elapsed r < t + TICK)%N /\ (fired r = true -> interrupted e r = true /\ (t <= elapsed r)%N).
Proof.
  intros He Hr. assert (engine_ok t e) as Hok.
  { revert He. apply engine_run_invariant; [apply map_Forall_empty|].
    intros ? ev _ e0 e1 _ _ H0 Hs%engine_apply_step. by eapply engine_ok_step. }
  specialize (Hok id r Hr) as (_ & ? & Hf). split; [done|]. intros Hfr. destruct (Hf Hfr).
  split; [by apply N.leb_le|done].
Qed.

Lemma wasm_timeout_enforced_witness :
  exists e r, engine_run TICK [Begin 0; Sleep 0; Begin 1; Fire 0] = Some e /\ runs e !! 0 = Some r /\
    interrupted e r = true.
Proof.
  eexists _, _. split; [vm_compute; reflexivity|]. split; [vm_compute; reflexivity|].
  by eapply (wasm_timeout_enforced TICK [Begin 0; Sleep 0; Begin 1; Fire 0] _ 0 _ eq_refl eq_refl).
Defined.

(** The sole execution of an engine, and when it is interrupted. *)
Definition sole_run (e : Engine) : Prop :=
  runs e = ∅ \/ exists id r, runs e = {[id := r]} /\ (deadline r <= epoch e + 1)%N /\
    ((deadline r <= epoch e)%N <-> fired r = true).

Lemma sole_run_step t e ev e' :
  sole_run e -> (forall id, ev = Begin id -> runs e = ∅) -> engine_step t e ev e' -> sole_run e'.
Proof.
  intros Hsole Hb Hs. unfold sole_run.
  destruct Hs as [id H|id d x H Hx|id d x H Hx|id r H]; cbn [runs epoch].
  { right. rewrite (Hb id eq_refl), insert_empty. eexists id, _. split; [done|]. cbn [deadline fired].
    split; [done|]. split; [lia|done]. }
  all: destruct Hsole as [Hr|(id' & r' & Hr & Hd & Hf)]; rewrite Hr in H |- *; [by apply lookup_empty_Some in H|];
    apply lookup_singleton_Some in H as [-> ->]; cbn [deadline fired] in *.
  - right. rewrite insert_singleton_eq. eexists id, _. split; [done|]. by split.
  - right. rewrite insert_singleton_eq. eexists id, _. split; [done|]. cbn [deadline fired].
    split; [lia|]. split; [done|]. intros _. destruct Hf. lia.
  - left. by rewrite delete_singleton_eq.
Qed.

(** When the executions of a sandbox do not overlap, a run is interrupted
    exactly when its own ticker has slept through the timeout: never earlier,
    and never because of an execution that ended before. *)
Theorem serial_run_keeps_its_time t evs e id r :
  serial t evs -> engine_run t evs = Some e -> runs e !! id = Some r -> interrupted e r = fired r.
Proof.
  intros Hser He Hr. assert (sole_run e) as [H|(id' & r' & H & _ & Hf)].
  { revert He. apply engine_run_invariant; [by left|].
    intros pre ev post e0 e1 Hevs H0 IH Hs%engine_apply_step. eapply sole_run_step; [done| |done].
    intros i ->. by eapply Hser. }
  { rewrite H in Hr. by apply lookup_empty_Some in Hr. }
  rewrite H in Hr. apply lookup_singleton_Some in Hr as [_ ->].
  unfold interrupted. destruct (fired r); [by apply N.leb_le, Hf|].
  apply N.leb_gt, N.nle_gt. intros ?%Hf. done.
Qed.

Lemma serial_run_keeps_its_time_witness :
  let evs := [Begin 0; Sleep 0; Fire 0; Finish 0; Begin 1] in
  serial TICK evs /\
  exists e r, engine_run TICK evs = Some e /\ runs e !! 1 = Some r /\ interrupted e r = false.
Proof.
  intros evs. assert (serial TICK evs) as Hs.
  { intros pre id post e Hevs Hrun. subst evs.
    do 5 (destruct pre as [|? pre]; [injection Hevs; intros; subst; try done; injection Hrun as <-; done|
      injection Hevs as <- Hevs]). by destruct pre. }
  split; [done|]. eexists _, _. split; [vm_compute; reflexivity|]. split; [vm_compute; reflexivity|].
  exact (serial_run_keeps_its_time TICK evs _ 1 _ Hs eq_refl eq_refl).
Defined.

(** With overlapping executions the second loses its time: an execution that
    runs into its timeout interrupts every other one, here one that has not
    slept a single step. *)
Example overlapping_run_is_interrupted_early :
  exists e, engine_run DEFAULT_TIMEOUT ([Begin 0] ++ replicate 600 (Sleep 0) ++ [Begin 1; Fire 0])%list = Some e /\
    exists r, runs e !! 1 = Some r /\ elapsed r = 0%N /\ fired r = false /\ interrupted e r = true.
Proof. eexists. split; [vm_compute; reflexivity|]. eexists. by split_and!. Qed.
