(* ===== verification/Tools.v ===== *)
(** * Tools (tools/native.rs, registry.rs, wasm_tool.rs, python_tool.rs,
      wasm_loader.rs, remote_registry.rs, builtin/echo.rs,
      builtin/json_transform.rs)

    The tool interface, the registry and its allow-lists, the adapters that run
    WASM and Python tools in a sandbox and read their replies, the package
    loader and the remote fetch. JSON parsing, the file system, the HTTP client
    and URL parsing are parameters. *)

From S2P Require Import Prelude.
From S2P Require Import F64.
From S2P Require Import Resource.
From S2P Require Import Core.
From S2P Require Import Text.
From S2P Require Import Ssrf.
From S2P Require Import Sandbox.
From S2P Require Import Wasm.
From Stdlib Require Import Ascii String.
From stdpp Require Import base gmap strings pretty numbers relations list.

Local Open Scope string_scope.

(** ** native.rs *)

Record ParameterSchema := mkParameterSchema {
  ps_name : string; ps_description : string; param_type : string; required : bool;
}.
Record ToolSchema := mkToolSchema { ts_name : string; ts_description : string; ts_parameters : list ParameterSchema }.

(** [ToolInput] is its parameter map. *)
Abbreviation ToolInput := (gmap string Value) (only parsing).
Definition get_str (input : ToolInput) (key : string) : option string := v ← input !! key; as_str v.
Definition get_f64 (input : ToolInput) (key : string) : option f64 := v ← input !! key; as_f64 v.
Definition get_u64 (input : ToolInput) (key : string) : option N := v ← input !! key; as_u64 v.

Record ToolOutput := mkToolOutput { success : bool; result : Value; error : option string }.
Definition tool_ok (v : Value) : ToolOutput := mkToolOutput true v None.
Definition tool_err (msg : string) : ToolOutput := mkToolOutput false Null (Some msg).

(** The trait [NativeTool]. *)
Record NativeTool := mkNativeTool {
  name : string;
  tool_description : string;
  schema : ToolSchema;
  execute : ToolInput -> Outcome ToolOutput;
}.

(** ** registry.rs *)

Abbreviation ToolRegistry := (gmap string NativeTool) (only parsing).
Definition ToolRegistry_new : ToolRegistry := ∅.
Definition register (r : ToolRegistry) (t : NativeTool) : ToolRegistry := <[name t := t]> r.
Definition get (r : ToolRegistry) (n : string) : option NativeTool := r !! n.
Definition list_tools `{!HashIter string NativeTool} (r : ToolRegistry) : list ToolSchema :=
  map schema (hash_values r).
Definition has (r : ToolRegistry) (n : string) : bool := match r !! n with Some _ => true | None => false end.
Definition remove (r : ToolRegistry) (n : string) : bool * ToolRegistry := (has r n, delete n r).
Definition count (r : ToolRegistry) : nat := size r.
Definition is_tool_allowed (tool_name : string) (allowed_tools : list string) : bool :=
  match allowed_tools with [] => true | _ => existsb (String.eqb tool_name) allowed_tools end.
Definition get_allowed (r : ToolRegistry) (n : string) (allowed_tools : list string) : option NativeTool :=
  if negb (is_tool_allowed n allowed_tools) then None else get r n.

(** ** Built-in tools *)

Definition EchoTool : NativeTool := mkNativeTool "echo" "Returns the input message unchanged. Useful for testing."
  (mkToolSchema "echo" "Returns the input message unchanged. Useful for testing."
     [mkParameterSchema "message" "The message to echo back" "string" true])
  (fun input => Returns (match input !! "message" with
                         | Some value => tool_ok value
                         | None => tool_err "missing required parameter: message"
                         end)).

Definition JsonTransformTool : NativeTool := mkNativeTool "json_transform" "Extracts a named field from a JSON object."
  (mkToolSchema "json_transform" "Extracts a named field from a JSON object."
     [mkParameterSchema "data" "The JSON object to extract from" "object" true;
      mkParameterSchema "field" "The name of the field to extract" "string" true])
  (fun input => Returns (
    match input !! "data" with
    | None => tool_err "missing required parameter: data"
    | Some data =>
        match get_str input "field" with
        | None => tool_err "missing required parameter: field (must be a string)"
        | Some field =>
            match json_get data field with
            | Some value => tool_ok value
            | None => tool_err ("field '" ++ field ++ "' not found in data")
            end
        end
    end)).

Definition i32_to_string (z : Z) : string :=
  match z with Zneg p => "-" ++ pretty (Npos p) | _ => pretty (Z.to_N z) end.

(** The parameters as a JSON object; [to_json] is a parameter of the adapters, so
    the order in which a map lists its pairs plays no part. *)
Definition params_object (input : ToolInput) : Value := Obj (map_to_list input).

Section adapters.
Context (from_str : string -> Result Value string).
Context (to_json : Value -> Result string string).
Context (display : AgnosaiError -> string).

(** The reply of a tool that ran to the end: both adapters read it alike. *)
Definition read_reply (out : string) : ToolOutput :=
  match from_str out with
  | Err _ => tool_ok (Str out)
  | Ok value =>
      if default true (v ← json_get value "success"; as_bool v)
      then tool_ok (default value (json_get value "result"))
      else tool_err (default "unknown error" (v ← json_get value "error"; as_str v))
  end.

(** *** wasm_tool.rs *)

(** [invoke]: how wasmtime answers an execution of the tool's module on an input. *)
Definition wasm_tool_execute (lossy : string -> string) (invoke : string -> Invocation) (input : ToolInput)
    : Outcome ToolOutput :=
  Returns match to_json (Obj [("parameters", params_object input)]) with
  | Err e => tool_err ("failed to serialize input: " ++ e)
  | Ok input_json =>
      match wasm_execute lossy (invoke input_json) with
      | Err e => tool_err ("WASM execution failed: " ++ display e)
      | Ok r =>
          if negb (wasm_exit_code r =? 0)%Z
          then tool_err ("WASM module exited with code " ++ i32_to_string (wasm_exit_code r))
          else read_reply (wasm_stdout r)
      end
  end.

Record WasmToolManifest := mkWasmToolManifest {
  wm_name : string; wm_description : string; wm_parameters : list ParameterSchema;
}.

Definition WasmTool_new (lossy : string -> string) (m : WasmToolManifest) (invoke : string -> Invocation) : NativeTool :=
  mkNativeTool (wm_name m) (wm_description m) (mkToolSchema (wm_name m) (wm_description m) (wm_parameters m))
    (wasm_tool_execute lossy invoke).

(** *** python_tool.rs *)

Definition python_tool_reply (r : ProcessResult) : ToolOutput :=
  if timed_out r then tool_err "python tool execution timed out"
  else if negb (exit_code r =? 0)%Z then
    tool_err (if (String.length (stderr r) =? 0)%nat
              then "python tool exited with code " ++ i32_to_string (exit_code r)
              else trim (stderr r))
  else read_reply (trim (stdout r)).

Definition python_tool_execute (spawn : Command -> string -> Duration -> Result Child string)
    (lossy : string -> string) (wrapper source tool_name : string) (sandbox : PythonSandbox) (input : ToolInput)
    : Outcome ToolOutput :=
  match execute_tool spawn lossy wrapper to_json sandbox source tool_name (params_object input) with
  | Returns (Ok r) => Returns (python_tool_reply r)
  | Returns (Err e) => Returns (tool_err ("python sandbox error: " ++ display e))
  | Panics => Panics
  | Hangs => Hangs
  end.

Definition PythonTool_new (spawn : Command -> string -> Duration -> Result Child string) (lossy : string -> string)
    (wrapper nm desc : string) (parameters : list ParameterSchema) (source : string) (sandbox : PythonSandbox)
    : NativeTool :=
  mkNativeTool nm desc (mkToolSchema nm desc parameters) (python_tool_execute spawn lossy wrapper source nm sandbox).

(** *** wasm_loader.rs *)

Record PackageManifest := mkPackageManifest {
  pm_name : string; pm_description : string; pm_version : string; pm_parameters : list ParameterSchema;
}.
Definition default_version : string := "0.0.0".

(** A package directory: its manifest and the files beside it. *)
Record PackageDir := mkPackageDir {
  pd_display : string;
  read_manifest : Result string string;
  read_file : string -> Result string string;
}.

(** [parse_manifest]: serde on the manifest; [load_module]: wasmtime's
    compilation of the bytes, giving the answers of later executions. *)
Context (parse_manifest : string -> Result PackageManifest string).
Context (load_module : string -> Result (string -> Invocation) string).
Context (lossy : string -> string).

Definition load_tool_package (dir : PackageDir) : Result NativeTool AgnosaiError :=
  match read_manifest dir with
  | Err e => Err (InvalidDefinition ("failed to read " ++ pd_display dir ++ "/manifest.json: " ++ e))
  | Ok text =>
      match parse_manifest text with
      | Err e => Err (Serialization e)
      | Ok pkg =>
          let file := pm_name pkg ++ ".wasm" in
          match read_file dir file with
          | Err e => Err (InvalidDefinition ("failed to read " ++ pd_display dir ++ "/" ++ file ++ ": " ++ e))
          | Ok wasm_bytes =>
              match load_module wasm_bytes with
              | Err e => Err (SandboxError e)
              | Ok invoke =>
                  Ok (WasmTool_new lossy (mkWasmToolManifest (pm_name pkg) (pm_description pkg) (pm_parameters pkg))
                        invoke)
              end
          end
      end
  end.

(** An entry of the tools directory: [read_dir] fails on it, or it is a plain
    file, a directory without a manifest, or a package. *)
Inductive DirEntry := EntryError (e : string) | PlainFile | NoManifest | Package (d : PackageDir).

Fixpoint load_entries (entries : list DirEntry) (registry : ToolRegistry) (loaded : nat)
    : Result nat AgnosaiError * ToolRegistry :=
  match entries with
  | [] => (Ok loaded, registry)
  | EntryError e :: _ => (Err (Io e), registry)
  | PlainFile :: rest | NoManifest :: rest => load_entries rest registry loaded
  | Package d :: rest =>
      match load_tool_package d with
      | Ok tool => load_entries rest (register registry tool) (S loaded)
      | Err _ => load_entries rest registry loaded
      end
  end.

Definition load_all_tool_packages (tools_dir : Result (list DirEntry) string) (registry : ToolRegistry)
    : Result nat AgnosaiError * ToolRegistry :=
  match tools_dir with
  | Err e => (Err (Io e), registry)
  | Ok entries => load_entries entries registry 0
  end.
End adapters.

(** ** remote_registry.rs *)

Definition MAX_DOWNLOAD_SIZE : N := 10 * 1024 * 1024.

Inductive FetchResult :=
| FetchOk (size_bytes : N) (content_type : option string) (data : string)
| FetchError (msg : string).

(** A response: its status, its announced length, its headers, its body. *)
Record Response := mkResponse {
  status : N;
  content_length : option N;
  content_type_header : option string;
  body : Result string string;
}.
Definition is_success (s : N) : bool := (200 <=? s)%N && (s <? 300)%N.

Definition too_large (len : N) : string :=
  "package too large: " ++ pretty len ++ " bytes (max " ++ pretty MAX_DOWNLOAD_SIZE ++ ")".

(** [status_text]: how [StatusCode] prints. *)
Definition fetch_package (parse : string -> option Url) (http_get : string -> Result Response string)
    (status_text : N -> string) (url : string) : FetchResult :=
  if negb (is_safe_url parse url) then FetchError "URL rejected: private/internal network"
  else
    match http_get url with
    | Err e => FetchError ("download failed: " ++ e)
    | Ok response =>
        if negb (is_success (status response)) then FetchError ("HTTP " ++ status_text (status response))
        else if (match content_length response with Some len => MAX_DOWNLOAD_SIZE <? len | None => false end)%N
        then FetchError (too_large (default 0%N (content_length response)))
        else
          match body response with
          | Err e => FetchError ("failed to read response body: " ++ e)
          | Ok bytes =>
              let len := N.of_nat (String.length bytes) in
              if (MAX_DOWNLOAD_SIZE <? len)%N then FetchError (too_large len)
              else FetchOk len (content_type_header response) bytes
          end
    end.

(** ** The registry refines a log of operations *)

Inductive RegistryOp := Register (t : NativeTool) | Remove (n : string).
Definition op_name (op : RegistryOp) : string := match op with Register t => name t | Remove n => n end.
Definition registry_apply (r : ToolRegistry) (op : RegistryOp) : ToolRegistry :=
  match op with Register t => register r t | Remove n => (remove r n).2 end.

(** Every tool is filed under its own name. *)
Definition registry_wf (r : ToolRegistry) : Prop := map_Forall (fun n t => name t = n) r.

Lemma register_wf r t : registry_wf r -> registry_wf (register r t).
Proof. intros H. by apply map_Forall_insert_2. Qed.
Lemma remove_wf r n : registry_wf r -> registry_wf (remove r n).2.
Proof. intros H. by apply map_Forall_delete. Qed.
#[export] Hint Resolve register_wf remove_wf : core.

Lemma load_entries_wf from_str to_json display pm lm lossy entries r k :
  registry_wf r -> registry_wf (load_entries from_str to_json display pm lm lossy entries r k).2.
Proof.
  revert r k. induction entries as [|[e| | |d] entries IH]; intros r k Hr; cbn [load_entries]; [done|done|auto|auto|].
  destruct (load_tool_package _ _ _ _ _ _ d); auto.
Qed.

(** The registry is well formed, every tool filed under its own name, after
    any registrations and removals from an empty registry, and stays so through
    the loading of a directory of packages. *)
Theorem tool_registry_typed from_str to_json display pm lm lossy ops dir :
  let r := foldl registry_apply ToolRegistry_new ops in
  registry_wf r /\ registry_wf (load_all_tool_packages from_str to_json display pm lm lossy dir r).2.
Proof.
  intros r. assert (registry_wf r) as Hr.
  { subst r. induction ops as [|[t|n] ops IH] using rev_ind; [apply map_Forall_empty| |];
      rewrite foldl_app; cbn [foldl registry_apply]; auto. }
  split; [done|]. destruct dir; [by apply load_entries_wf|done].
Qed.

(** A lookup answers from the last operation on the name: the tool of the
    last registration, nothing after a removal or without one. Through an
    allow-list it gives the same answer for a name on the list, or for every
    name when the list is empty, and nothing otherwise. *)
Theorem tool_lookup_refines_log ops n allowed :
  let r := foldl registry_apply ToolRegistry_new ops in
  let logged := match last (filter (fun op => op_name op = n) ops) with Some (Register t) => Some t | _ => None end in
  get r n = logged /\
  get_allowed r n allowed = (if bool_decide (allowed = [] \/ n ∈ allowed) then logged else None).
Proof.
  intros r logged. assert (get r n = logged) as Hget.
  { subst r logged. unfold get. induction ops as [|op ops IH] using rev_ind; [done|].
    rewrite foldl_app, filter_app, filter_cons, filter_nil. simpl. case_decide as Hn.
    - rewrite last_snoc. destruct op as [t|m]; simpl in *; subst.
      + unfold register. by rewrite lookup_insert_eq.
      + by rewrite lookup_delete_eq.
    - rewrite app_nil_r. destruct op as [t|m]; simpl in *.
      + unfold register. by rewrite lookup_insert_ne.
      + by rewrite lookup_delete_ne. }
  split; [done|]. unfold get_allowed.
  assert (is_tool_allowed n allowed = bool_decide (allowed = [] \/ n ∈ allowed)) as ->.
  { destruct allowed as [|a l]; [by rewrite bool_decide_eq_true_2 by auto|].
    apply eq_bool_prop_intro. rewrite bool_decide_spec. unfold is_tool_allowed.
    rewrite Is_true_true, existsb_exists. split.
    - intros (x & Hx & ->%String.eqb_eq). right. by apply list_elem_of_In.
    - intros [|Hn]; [done|]. exists n. split; [by apply list_elem_of_In|apply String.eqb_refl]. }
  rewrite Hget. by case_bool_decide.
Qed.

(** ** Replies *)

Section replies.
Context (from_str : string -> Result Value string) (to_json : Value -> Result string string).
Context (display : AgnosaiError -> string) (lossy : string -> string).
Context (spawn : Command -> string -> Duration -> Result Child string).

(** A text that reports no failure: not JSON, or JSON whose [success] is not
    [false]. *)
Definition no_failure (out : string) : Prop :=
  forall v, from_str out = Ok v -> json_get v "success" <> Some (Bool false).

Lemma read_reply_spec out : success (read_reply from_str out) = true <-> no_failure out.
Proof.
  unfold read_reply, no_failure. destruct (from_str out) as [v|e]; [|by split].
  split.
  - intros H ? [= <-] Hs. rewrite Hs in H. done.
  - intros H. specialize (H v eq_refl). destruct (json_get v "success") as [[]|]; simpl; try done.
    by destruct b.
Qed.

(** The guest ended by itself with code 0: it returned, or called [exit(0)]. *)
Definition guest_succeeded (i : Invocation) : Prop :=
  set_fuel i = Ok tt /\ add_to_linker i = Ok tt /\ instantiate i = Ok tt /\ has_start i = true /\
  (start_call i = Ok tt \/ start_call i = Err (I32Exit 0)).

Lemma extract_exit_code_0 err : extract_exit_code err = 0%Z -> err = I32Exit 0.
Proof. destruct err as [c|full]; cbn; [by intros ->|]. by repeat case_match. Qed.

Lemma wasm_execute_0 i w :
  wasm_execute lossy i = Ok w /\ wasm_exit_code w = 0%Z <->
  guest_succeeded i /\ w = mkWasmResult (lossy (captured i)) 0.
Proof.
  unfold guest_succeeded, wasm_execute.
  destruct (set_fuel i) as [[]|], (add_to_linker i) as [[]|], (instantiate i) as [[]|], (has_start i); try naive_solver.
  split.
  - intros [[= <-] Hz]. cbn in Hz. destruct (start_call i) as [[]|err]; cbn in *; [naive_solver|].
    apply extract_exit_code_0 in Hz as ->. naive_solver.
  - intros [(_ & _ & _ & _ & [-> | ->]) ->]; done.
Qed.

(** The python process took all its input and exited with code 0 within the timeout. *)
Definition process_succeeded (ch : Child) (o : Output) : Prop :=
  child_stdin ch = Some (Ok tt) /\ child_wait ch = Some (Ok o) /\ status_code o = Some 0%Z.

Lemma run_child_0 m1 m2 m3 c text timeout p :
  run_child spawn lossy true m1 m2 m3 c text timeout = Returns (Ok p) /\ timed_out p = false /\ exit_code p = 0%Z <->
  exists ch o, spawn c text timeout = Ok ch /\ process_succeeded ch o /\
    p = mkProcessResult (lossy (raw_stdout o)) (lossy (raw_stderr o)) 0 false.
Proof.
  unfold run_child, process_succeeded. destruct (spawn c text timeout) as [ch|]; [|naive_solver].
  destruct (child_stdin ch) as [[[]|]|] eqn:E1; [|naive_solver..].
  destruct (child_wait ch) as [[o|]|] eqn:E2; [|naive_solver..]. split.
  - intros ([= <-] & _ & Hz). cbn in Hz. exists ch, o. destruct (status_code o) as [z|] eqn:Es; cbn in Hz; [subst z|done].
    cbn. by split_and!.
  - intros (? & o' & [= <-] & (_ & Hw & Hs) & ->). rewrite E2 in Hw. injection Hw as <-. by rewrite Hs.
Qed.

(** [C39] A sandboxed tool reports success exactly when its guest succeeded and its
    reply reports no failure. For a WASM tool: fuel, linking and instantiation
    worked, the module has a start function, and that returned or exited with code
    0; a guest that was stopped, by the epoch at its timeout, by the end of its fuel
    or by any other trap, is never a success. For a Python tool: the process was
    spawned with the fixed wrapper, took all its input, and exited with code 0
    before the timeout. The reply reports no failure unless it is JSON whose
    [success] is [false]. *)
Theorem sandboxed_success_iff invoke wrapper source nm sandbox input :
  (forall r, wasm_tool_execute from_str to_json display lossy invoke input = Returns r ->
   success r = true <->
   exists j, to_json (Obj [("parameters", params_object input)]) = Ok j /\
     guest_succeeded (invoke j) /\ no_failure (lossy (captured (invoke j)))) /\
  (forall r, python_tool_execute from_str to_json display spawn lossy wrapper source nm sandbox input = Returns r ->
   success r = true <->
   exists j ch o,
     to_json (Obj [("__tool_source__", Str source); ("tool_name", Str nm); ("parameters", params_object input)]) = Ok j /\
     spawn (python_command sandbox wrapper) j (py_timeout sandbox) = Ok ch /\
     process_succeeded ch o /\ no_failure (trim (lossy (raw_stdout o)))).
Proof.
  split.
  - intros r [= <-]. destruct (to_json _) as [j|e]; [|split; [done|by intros (? & [=] & _)]].
    assert ((exists j0, Ok j = Ok j0 /\ guest_succeeded (invoke j0) /\ no_failure (lossy (captured (invoke j0)))) <->
      exists w, (wasm_execute lossy (invoke j) = Ok w /\ wasm_exit_code w = 0%Z) /\ no_failure (wasm_stdout w)) as ->.
    { setoid_rewrite wasm_execute_0. split.
      - intros (? & [= <-] & Hg & Hn). eexists. split; [split; [exact Hg|done]|exact Hn].
      - intros (w & [Hg ->] & Hn). by exists j. }
    destruct (wasm_execute lossy (invoke j)) as [w|e]; [|split; [done|naive_solver]].
    destruct (Z.eqb_spec (wasm_exit_code w) 0) as [Hz|Hz]; cbn [negb]; rewrite ?read_reply_spec; naive_solver.
  - intros r. unfold python_tool_execute, execute_tool, execute_script.
    destruct (to_json _) as [j|e]; [|intros [= <-]; split; [done|by intros (? & ? & ? & [=] & _)]].
    assert ((exists j0 ch o, Ok j = Ok j0 /\ spawn (python_command sandbox wrapper) j0 (py_timeout sandbox) = Ok ch /\
        process_succeeded ch o /\ no_failure (trim (lossy (raw_stdout o)))) <->
      exists p, (run_child spawn lossy true "failed to spawn python process: " "failed to write to python stdin: "
          "python process I/O error: " (python_command sandbox wrapper) j (py_timeout sandbox) = Returns (Ok p) /\
        timed_out p = false /\ exit_code p = 0%Z) /\ no_failure (trim (stdout p))) as ->.
    { setoid_rewrite run_child_0. split.
      - intros (? & ch & o & [= <-] & Hs & Hp & Hn). eexists. split; [by exists ch, o|exact Hn].
      - intros (p & (ch & o & Hs & Hp & ->) & Hn). by exists j, ch, o. }
    destruct (run_child _ _ _ _ _ _ _ _ _) as [[p|e]| |]; [| |done..]; intros [= <-]; [|naive_solver].
    unfold python_tool_reply. destruct (timed_out p) eqn:Et; [naive_solver|].
    destruct (Z.eqb_spec (exit_code p) 0) as [Hz|Hz]; cbn [negb]; rewrite ?read_reply_spec; naive_solver.
Qed.
End replies.

(** ** Remote packages *)

(** A package is handed out only from a URL that passed the network check,
    with a successful status and at most 10 MiB, and it is all of the body. *)
Theorem fetched_package_safe parse http_get status_text url size ct data :
  fetch_package parse http_get status_text url = FetchOk size ct data ->
  is_safe_url parse url = true /\
  exists r, http_get url = Ok r /\ is_success (status r) = true /\ body r = Ok data /\
    size = N.of_nat (String.length data) /\ (size <= MAX_DOWNLOAD_SIZE)%N.
Proof.
  unfold fetch_package. destruct (is_safe_url parse url); [|done]. cbn [negb].
  destruct (http_get url) as [r|]; [|done]. destruct (is_success (status r)) eqn:Es; [|done]. cbn [negb].
  destruct (match content_length r with Some len => _ | None => _ end); [done|].
  destruct (body r) as [b|] eqn:Eb; [|done].
  destruct (N.ltb_spec MAX_DOWNLOAD_SIZE (N.of_nat (String.length b))); [done|].
  intros [= <- <- <-]. split; [done|]. exists r. by split_and!.
Qed.

Lemma fetched_package_safe_witness : is_safe_url toy_parse "http://93.184.216.34/" = true.
Proof.
  by apply (fetched_package_safe toy_parse (fun _ => Ok (mkResponse 200 None None (Ok "wasm"))) (fun _ => "")
    "http://93.184.216.34/" 4 None "wasm").
Defined.

(** The wrapper prints the error of a failing tool and exits with code 1, on
    which the adapter does not read the output: the text of the error is lost. *)
Example python_error_text_is_lost :
  python_tool_reply (fun _ => Ok (Obj [("success", Bool false); ("error", Str "division by zero")]))
    (mkProcessResult "{...}" "" 1 false) = tool_err "python tool exited with code 1".
Proof. vm_compute. reflexivity. Qed.
