(* ===== verification/ServiceTools.v ===== *)
(** * Service tools (tools/builtin/delta.rs, mneme.rs, synapse.rs)

    The tools that call the Delta, Mneme and Synapse services: each checks its
    parameters, issues one request and reads the JSON reply. A tool is modelled
    with the trace of the requests it issues; the HTTP client is a parameter. A
    declarative description of the endpoints is the specification the nine tools
    are shown to implement. *)

From S2P Require Import Prelude.
From S2P Require Import F64.
From S2P Require Import Resource.
From S2P Require Import Core.
From S2P Require Import Text.
From S2P Require Import Tools.
From Stdlib Require Import Ascii String SpecFloat.
From stdpp Require Import base gmap strings pretty numbers relations list.

Local Open Scope string_scope.
#[local] Arguments String.append !_ _ / : simpl nomatch.

(** ** The HTTP client and JSON helpers *)

Inductive Method := GET | POST.
Record HttpRequest := mkHttpRequest {
  req_method : Method;
  req_url : string;
  req_query : list (string * string);
  req_json : option Value;
}.

(** [send]: the request fails, or it is answered, with a JSON text or not. The
    status of the answer is not looked at by any of the tools. *)
Abbreviation HttpClient := (HttpRequest -> Result (Result Value string) string) (only parsing).
Abbreviation Traced := (list HttpRequest * ToolOutput)%type (only parsing).

(** [value["key"] = v] on an object. *)
Fixpoint obj_set (m : list (string * Value)) (k : string) (v : Value) : list (string * Value) :=
  match m with
  | [] => [(k, v)]
  | (k', v') :: m => if String.eqb k' k then (k, v) :: m else (k', v') :: obj_set m k v
  end.
Definition index_set (b : Value) (k : string) (v : Value) : Value :=
  match b with Obj m => Obj (obj_set m k v) | _ => b end.
(** [value["key"]] read: [Null] when absent. *)
Definition json_index (v : Value) (k : string) : Value := default Null (json_get v k).
(** [json!(x)] of an [f64]: a number when finite. *)
Definition json_f64 (x : f64) : Value :=
  match x with S754_infinity _ | S754_nan => Null | _ => Num (Float x) end.

Definition refuse (msg : string) : Traced := ([], tool_err msg).
(** Send, then read the answer as JSON. *)
Definition exchange (send : HttpClient) (service : string) (r : HttpRequest) (finish : Value -> Value) : Traced :=
  ([r], match send r with
        | Ok (Ok data) => tool_ok (finish data)
        | Ok (Err e) => tool_err ("failed to parse response: " ++ e)
        | Err e => tool_err (service ++ " request failed: " ++ e)
        end).
Definition same (v : Value) : Value := v.

(** The test on user-supplied path segments. *)
Definition bad_segment (s : string) : bool := str_contains "/" s || str_contains ".." s.
Fixpoint check_segments (l : list (string * string)) (k : Traced) : Traced :=
  match l with
  | [] => k
  | (name, val) :: l => if bad_segment val then refuse (name ++ " contains invalid characters") else check_segments l k
  end.

Section tools.
Context (send : HttpClient).

(** A tool: its name, description, parameters and body. *)
Definition service_tool (nm desc : string) (ps : list ParameterSchema) (run : ToolInput -> Traced) : NativeTool :=
  mkNativeTool nm desc (mkToolSchema nm desc ps) (fun input => Returns (run input).2).

(** ** delta.rs *)

Definition DELTA_BASE_URL : string := "http://localhost:8070".

Definition DeltaListRepos_execute (base_url : string) (_ : ToolInput) : Traced :=
  exchange send "delta" (mkHttpRequest GET (base_url ++ "/api/v1/repos") [] None) same.
Definition DeltaListRepos_parameters : list ParameterSchema :=
  [].
Definition DeltaListRepos_with_base_url (base_url : string) : NativeTool :=
  service_tool "delta_list_repos" "List repositories on the Delta code platform"
    DeltaListRepos_parameters (DeltaListRepos_execute base_url).
Definition DeltaListRepos_new : NativeTool := DeltaListRepos_with_base_url DELTA_BASE_URL.

Definition DeltaTriggerPipeline_execute (base_url : string) (input : ToolInput) : Traced :=
  match get_str input "owner" with
  | None => refuse "missing required parameter: owner"
  | Some owner =>
      match get_str input "repo" with
      | None => refuse "missing required parameter: repo"
      | Some repo =>
          check_segments [("owner", owner); ("repo", repo)]
            (let body := match get_str input "branch" with
                         | Some branch => index_set (Obj []) "branch" (Str branch)
                         | None => Obj []
                         end in
             let url := base_url ++ "/api/v1/" ++ owner ++ "/" ++ repo ++ "/pipelines" in
             exchange send "delta" (mkHttpRequest POST url [] (Some body)) same)
      end
  end.
Definition DeltaTriggerPipeline_parameters : list ParameterSchema :=
  [mkParameterSchema "owner" "Repository owner" "string" true;
   mkParameterSchema "repo" "Repository name" "string" true;
   mkParameterSchema "branch" "Branch to build (defaults to main)" "string" false].
Definition DeltaTriggerPipeline_with_base_url (base_url : string) : NativeTool :=
  service_tool "delta_trigger_pipeline" "Trigger a CI/CD pipeline for a repository on the Delta code platform"
    DeltaTriggerPipeline_parameters (DeltaTriggerPipeline_execute base_url).
Definition DeltaTriggerPipeline_new : NativeTool := DeltaTriggerPipeline_with_base_url DELTA_BASE_URL.

Definition DeltaGetPipeline_execute (base_url : string) (input : ToolInput) : Traced :=
  match get_str input "owner" with
  | None => refuse "missing required parameter: owner"
  | Some owner =>
      match get_str input "repo" with
      | None => refuse "missing required parameter: repo"
      | Some repo =>
          match get_str input "pipeline_id" with
          | None => refuse "missing required parameter: pipeline_id"
          | Some pipeline_id =>
              check_segments [("owner", owner); ("repo", repo); ("pipeline_id", pipeline_id)]
                (let url := base_url ++ "/api/v1/" ++ owner ++ "/" ++ repo ++ "/pipelines/" ++ pipeline_id in
                 exchange send "delta" (mkHttpRequest GET url [] None) same)
          end
      end
  end.
Definition DeltaGetPipeline_parameters : list ParameterSchema :=
  [mkParameterSchema "owner" "Repository owner" "string" true;
   mkParameterSchema "repo" "Repository name" "string" true;
   mkParameterSchema "pipeline_id" "Pipeline run identifier" "string" true].
Definition DeltaGetPipeline_with_base_url (base_url : string) : NativeTool :=
  service_tool "delta_get_pipeline" "Get the status of a CI/CD pipeline run on the Delta code platform"
    DeltaGetPipeline_parameters (DeltaGetPipeline_execute base_url).
Definition DeltaGetPipeline_new : NativeTool := DeltaGetPipeline_with_base_url DELTA_BASE_URL.

(** ** mneme.rs *)

Definition MNEME_BASE_URL : string := "http://localhost:8400".

Definition MnemeSearch_execute (base_url : string) (input : ToolInput) : Traced :=
  match get_str input "query" with
  | None => refuse "missing required parameter: query"
  | Some query =>
      let limit := default 10%N (get_u64 input "limit") in
      exchange send "mneme"
        (mkHttpRequest GET (base_url ++ "/api/search") [("q", query); ("limit", pretty limit)] None) same
  end.
Definition MnemeSearch_parameters : list ParameterSchema :=
  [mkParameterSchema "query" "Search query text" "string" true;
   mkParameterSchema "limit" "Max results to return (default 10)" "number" false].
Definition MnemeSearch_with_base_url (base_url : string) : NativeTool :=
  service_tool "mneme_search" "Search the Mneme knowledge base for notes matching a query"
    MnemeSearch_parameters (MnemeSearch_execute base_url).
Definition MnemeSearch_new : NativeTool := MnemeSearch_with_base_url MNEME_BASE_URL.

Definition MnemeGetNote_execute (base_url : string) (input : ToolInput) : Traced :=
  match get_str input "note_id" with
  | None => refuse "missing required parameter: note_id"
  | Some note_id =>
      if bad_segment note_id then refuse "note_id contains invalid characters"
      else exchange send "mneme" (mkHttpRequest GET (base_url ++ "/api/notes/" ++ note_id) [] None) same
  end.
Definition MnemeGetNote_parameters : list ParameterSchema :=
  [mkParameterSchema "note_id" "Note identifier" "string" true].
Definition MnemeGetNote_with_base_url (base_url : string) : NativeTool :=
  service_tool "mneme_get_note" "Get a note by ID from the Mneme knowledge base"
    MnemeGetNote_parameters (MnemeGetNote_execute base_url).
Definition MnemeGetNote_new : NativeTool := MnemeGetNote_with_base_url MNEME_BASE_URL.

Definition MnemeCreateNote_execute (base_url : string) (input : ToolInput) : Traced :=
  match get_str input "title" with
  | None => refuse "missing required parameter: title"
  | Some title =>
      match get_str input "content" with
      | None => refuse "missing required parameter: content"
      | Some content =>
          let tags := default (Arr []) (input !! "tags") in
          let body := Obj [("title", Str title); ("content", Str content); ("tags", tags)] in
          exchange send "mneme" (mkHttpRequest POST (base_url ++ "/api/notes") [] (Some body)) same
      end
  end.
Definition MnemeCreateNote_parameters : list ParameterSchema :=
  [mkParameterSchema "title" "Note title" "string" true;
   mkParameterSchema "content" "Note body content (Markdown)" "string" true;
   mkParameterSchema "tags" "Optional tags for categorisation" "array" false].
Definition MnemeCreateNote_with_base_url (base_url : string) : NativeTool :=
  service_tool "mneme_create_note" "Create a new note in the Mneme knowledge base"
    MnemeCreateNote_parameters (MnemeCreateNote_execute base_url).
Definition MnemeCreateNote_new : NativeTool := MnemeCreateNote_with_base_url MNEME_BASE_URL.

(** ** synapse.rs *)

Definition SYNAPSE_BASE_URL : string := "http://localhost:8420".

(** The text of the first choice of an OpenAI-compatible reply. *)
Definition completion_text (data : Value) : string :=
  default "" (choices ← as_array (json_index data "choices"); c ← head choices;
              as_str (json_index (json_index c "message") "content")).

Definition SynapseInfer_execute (base_url : string) (input : ToolInput) : Traced :=
  match get_str input "model" with
  | None => refuse "missing required parameter: model"
  | Some model =>
      match get_str input "prompt" with
      | None => refuse "missing required parameter: prompt"
      | Some prompt =>
          let body := Obj [("model", Str model);
                           ("messages", Arr [Obj [("role", Str "user"); ("content", Str prompt)]])] in
          let body := match get_u64 input "max_tokens" with
                      | Some max_tokens => index_set body "max_tokens" (Num (PosInt max_tokens))
                      | None => body
                      end in
          let body := match get_f64 input "temperature" with
                      | Some temperature => index_set body "temperature" (json_f64 temperature)
                      | None => body
                      end in
          exchange send "synapse" (mkHttpRequest POST (base_url ++ "/v1/chat/completions") [] (Some body))
            (fun data => Obj [("completion", Str (completion_text data)); ("raw", data)])
      end
  end.
Definition SynapseInfer_parameters : list ParameterSchema :=
  [mkParameterSchema "model" "Model identifier" "string" true;
   mkParameterSchema "prompt" "User prompt text" "string" true;
   mkParameterSchema "max_tokens" "Maximum tokens to generate" "number" false;
   mkParameterSchema "temperature" "Sampling temperature (0.0-2.0)" "number" false].
Definition SynapseInfer_with_base_url (base_url : string) : NativeTool :=
  service_tool "synapse_infer" "Run inference through the Synapse LLM controller (OpenAI-compatible chat completions)"
    SynapseInfer_parameters (SynapseInfer_execute base_url).
Definition SynapseInfer_new : NativeTool := SynapseInfer_with_base_url SYNAPSE_BASE_URL.

Definition SynapseListModels_execute (base_url : string) (_ : ToolInput) : Traced :=
  exchange send "synapse" (mkHttpRequest GET (base_url ++ "/v1/models") [] None) same.
Definition SynapseListModels_parameters : list ParameterSchema :=
  [].
Definition SynapseListModels_with_base_url (base_url : string) : NativeTool :=
  service_tool "synapse_list_models" "List models available through the Synapse LLM controller"
    SynapseListModels_parameters (SynapseListModels_execute base_url).
Definition SynapseListModels_new : NativeTool := SynapseListModels_with_base_url SYNAPSE_BASE_URL.

Definition SynapseStatus_execute (base_url : string) (_ : ToolInput) : Traced :=
  exchange send "synapse" (mkHttpRequest GET (base_url ++ "/system/status") [] None) same.
Definition SynapseStatus_parameters : list ParameterSchema :=
  [].
Definition SynapseStatus_with_base_url (base_url : string) : NativeTool :=
  service_tool "synapse_status" "Get Synapse system status: loaded models, backends, and hardware info"
    SynapseStatus_parameters (SynapseStatus_execute base_url).
Definition SynapseStatus_new : NativeTool := SynapseStatus_with_base_url SYNAPSE_BASE_URL.

End tools.

(** ** The endpoints, declaratively *)

Inductive Segment := Lit (s : string) | Param (p : string).

Record Endpoint := mkEndpoint {
  ep_service : string;
  ep_method : Method;
  ep_required : list string;
  ep_path : list Segment;
  ep_query : ToolInput -> list (string * string);
  ep_fields : option (ToolInput -> list (string * option Value));
  ep_finish : Value -> Value;
}.

Definition param_text (input : ToolInput) (p : string) : string := default "" (get_str input p).
Definition segment_text (input : ToolInput) (s : Segment) : string :=
  match s with Lit s => s | Param p => param_text input p end.
Definition path_params (l : list Segment) : list string :=
  omap (fun s => match s with Lit _ => None | Param p => Some p end) l.
Definition path_text (segs : list string) : string := foldr (fun s rest => "/" ++ s ++ rest) "" segs.
Definition is_none {A} (o : option A) : bool := match o with Some _ => false | None => true end.

Definition first_missing (ep : Endpoint) (input : ToolInput) : option string :=
  List.find (fun p => is_none (get_str input p)) (ep_required ep).
Definition first_bad (ep : Endpoint) (input : ToolInput) : option string :=
  List.find (fun p => bad_segment (param_text input p)) (path_params (ep_path ep)).

(** The request of an endpoint: fields without a value are left out. *)
Definition endpoint_request (base_url : string) (ep : Endpoint) (input : ToolInput) : HttpRequest :=
  mkHttpRequest (ep_method ep) (base_url ++ path_text (map (segment_text input) (ep_path ep))) (ep_query ep input)
    ((fun f => Obj (omap (fun kv => pair kv.1 <$> kv.2) (f input))) <$> ep_fields ep).

Definition endpoint_execute (send : HttpClient) (base_url : string) (ep : Endpoint) (input : ToolInput) : Traced :=
  match first_missing ep input with
  | Some p => refuse ("missing required parameter: " ++ p)
  | None =>
      match first_bad ep input with
      | Some p => refuse (p ++ " contains invalid characters")
      | None => exchange send (ep_service ep) (endpoint_request base_url ep input) (ep_finish ep)
      end
  end.

Definition no_query (_ : ToolInput) : list (string * string) := [].

Definition service_endpoints : list ((HttpClient -> string -> ToolInput -> Traced) * Endpoint) :=
  [(DeltaListRepos_execute, mkEndpoint "delta" GET [] [Lit "api"; Lit "v1"; Lit "repos"] no_query None same);
   (DeltaTriggerPipeline_execute,
     mkEndpoint "delta" POST ["owner"; "repo"] [Lit "api"; Lit "v1"; Param "owner"; Param "repo"; Lit "pipelines"] no_query
       (Some (fun i => [("branch", Str <$> get_str i "branch")])) same);
   (DeltaGetPipeline_execute,
     mkEndpoint "delta" GET ["owner"; "repo"; "pipeline_id"]
       [Lit "api"; Lit "v1"; Param "owner"; Param "repo"; Lit "pipelines"; Param "pipeline_id"] no_query None same);
   (MnemeSearch_execute,
     mkEndpoint "mneme" GET ["query"] [Lit "api"; Lit "search"]
       (fun i => [("q", param_text i "query"); ("limit", pretty (default 10%N (get_u64 i "limit")))]) None same);
   (MnemeGetNote_execute,
     mkEndpoint "mneme" GET ["note_id"] [Lit "api"; Lit "notes"; Param "note_id"] no_query None same);
   (MnemeCreateNote_execute,
     mkEndpoint "mneme" POST ["title"; "content"] [Lit "api"; Lit "notes"] no_query
       (Some (fun i => [("title", Str <$> get_str i "title"); ("content", Str <$> get_str i "content");
                        ("tags", Some (default (Arr []) (i !! "tags")))])) same);
   (SynapseInfer_execute,
     mkEndpoint "synapse" POST ["model"; "prompt"] [Lit "v1"; Lit "chat"; Lit "completions"] no_query
       (Some (fun i => [("model", Str <$> get_str i "model");
                        ("messages", Some (Arr [Obj [("role", Str "user"); ("content", Str (param_text i "prompt"))]]));
                        ("max_tokens", (fun n => Num (PosInt n)) <$> get_u64 i "max_tokens");
                        ("temperature", json_f64 <$> get_f64 i "temperature")]))
       (fun data => Obj [("completion", Str (completion_text data)); ("raw", data)]));
   (SynapseListModels_execute, mkEndpoint "synapse" GET [] [Lit "v1"; Lit "models"] no_query None same);
   (SynapseStatus_execute, mkEndpoint "synapse" GET [] [Lit "system"; Lit "status"] no_query None same)].

Ltac endpoint_cases :=
  repeat match goal with
  | |- context [get_str ?i ?k] => destruct (get_str i k) eqn:?; cbn
  | |- context [get_u64 ?i ?k] => destruct (get_u64 i k) eqn:?; cbn
  | |- context [get_f64 ?i ?k] => destruct (get_f64 i k) eqn:?; cbn
  | |- context [bad_segment ?s] => destruct (bad_segment s) eqn:?; cbn
  end; try done.

(** Each of the nine service tools does what its endpoint describes, for every
    input and every behaviour of the service: it refuses the first missing
    parameter, then the first path parameter with a slash or two dots, and
    otherwise sends the one request of the endpoint and hands on the reply. *)
Lemma service_tools_refine send base_url input :
  Forall (fun '(run, ep) => run send base_url input = endpoint_execute send base_url ep input) service_endpoints.
Proof.
  repeat (apply Forall_cons; split); [..|apply Forall_nil; done];
    unfold endpoint_execute, first_missing, first_bad, param_text, endpoint_request, segment_text, param_text, path_text.
  all: unfold DeltaListRepos_execute, DeltaTriggerPipeline_execute, DeltaGetPipeline_execute, MnemeSearch_execute,
    MnemeGetNote_execute, MnemeCreateNote_execute, SynapseInfer_execute, SynapseListModels_execute,
    SynapseStatus_execute.
  all: cbn; endpoint_cases; by rewrite str_app_nil_r.
Qed.

(** ** The one request of a call *)

Lemma contains_slash_has_char s : str_contains "/" s = has_char "/" s.
Proof.
  induction s as [|c s IH]; [done|]. cbn [str_contains has_char]. rewrite IH. f_equal.
  unfold starts_with. cbn [String.prefix]. destruct (ascii_dec "/" c) as [<-|Hne]; [by destruct s|].
  symmetry. by apply Ascii.eqb_neq.
Qed.

(** The path of segments without a slash splits into these segments. *)
Lemma str_split_path segs :
  segs <> [] -> Forall (fun s => has_char "/" s = false) segs -> str_split "/" (path_text segs) = "" :: segs.
Proof.
  intros Hne Hs. destruct segs as [|s segs]; [done|]. clear Hne. cbn [path_text foldr]. simpl. f_equal.
  revert s Hs. induction segs as [|t segs IH]; intros s [H Hs]%Forall_cons; cbn [foldr].
  - rewrite str_app_nil_r. by apply str_split_free.
  - fold (path_text segs) in *. simpl. rewrite str_split_app by done. f_equal. by apply IH.
Qed.

Definition segment_ok (s : Segment) : bool := match s with Lit s => negb (bad_segment s) | Param _ => true end.
(** The literal segments of an endpoint are plain, and its path is not empty. *)
Definition endpoint_ok (ep : Endpoint) : bool :=
  forallb segment_ok (ep_path ep) && negb (length (ep_path ep) =? 0)%nat.

Lemma service_endpoints_ok : Forall (fun p => endpoint_ok p.2 = true) service_endpoints.
Proof. repeat (apply Forall_cons; split); [vm_compute; reflexivity..|apply Forall_nil; done]. Qed.

Lemma segments_plain ep input :
  endpoint_ok ep = true -> first_bad ep input = None ->
  Forall (fun s => bad_segment s = false) (map (segment_text input) (ep_path ep)).
Proof.
  unfold endpoint_ok, first_bad. intros [Hl _]%andb_prop Hb. apply Forall_map, Forall_forall. intros [s|p] Hs; simpl.
  - rewrite forallb_forall in Hl. apply list_elem_of_In in Hs. specialize (Hl _ Hs). simpl in Hl.
    by destruct (bad_segment s).
  - eapply (List.find_none _ _ Hb p). apply list_elem_of_In, list_elem_of_omap. by exists (Param p).
Qed.

(** What the check of the path parameters gives for the text of a URL: below the base
    URL, its text cut at the slashes is the path of the endpoint with each parameter
    in its one segment, and no segment contains two literal dots. This is about the
    text: a question mark or percent-encoded dots in a parameter pass the check, see
    below. *)
Definition in_place (base_url : string) (ep : Endpoint) (input : ToolInput) (r : HttpRequest) : Prop :=
  exists path, req_url r = base_url ++ path /\
    str_split "/" path = "" :: map (segment_text input) (ep_path ep) /\
    Forall (fun s => str_contains ".." s = false) (str_split "/" path).

Definition input_fits (ep : Endpoint) (input : ToolInput) : Prop :=
  Forall (fun p => is_none (get_str input p) = false) (ep_required ep) /\
  Forall (fun p => bad_segment (param_text input p) = false) (path_params (ep_path ep)).

Lemma find_None_Forall {A} (f : A -> bool) l : List.find f l = None <-> Forall (fun x => f x = false) l.
Proof.
  rewrite Forall_forall. split.
  - intros H x Hx. apply (List.find_none _ _ H). by apply list_elem_of_In.
  - intros H. destruct (List.find f l) as [x|] eqn:E; [|done].
    apply List.find_some in E as [Hx%list_elem_of_In Hf]. by rewrite H in Hf.
Qed.

Lemma fits_iff ep input : input_fits ep input <-> first_missing ep input = None /\ first_bad ep input = None.
Proof. unfold input_fits, first_missing, first_bad. by rewrite !find_None_Forall. Qed.

Lemma endpoint_request_in_place base_url ep input :
  endpoint_ok ep = true -> first_bad ep input = None -> in_place base_url ep input (endpoint_request base_url ep input).
Proof.
  intros Hok Hb. pose proof (segments_plain ep input Hok Hb) as Hp.
  assert (str_split "/" (path_text (map (segment_text input) (ep_path ep))) = "" :: map (segment_text input) (ep_path ep)) as Hs.
  { apply str_split_path.
    - apply andb_prop in Hok as [_ Hn]. by destruct (ep_path ep).
    - eapply Forall_impl; [exact Hp|]. intros s [H _]%orb_false_iff. by rewrite <-contains_slash_has_char. }
  eexists. split; [done|]. split; [done|]. rewrite Hs. constructor; [done|].
  eapply Forall_impl; [exact Hp|]. by intros s [_ H]%orb_false_iff.
Qed.

(** [C25] The nine service tools, on every input and every behaviour of the
    service: for an input that has the required parameters, with no slash and no two
    literal dots in those that go into the path, exactly one request is issued, the
    documented one, and the text of its path, cut at the slashes, is the endpoint's
    path with every parameter in its own segment; any other input is refused with an
    error and no request; and the tool succeeds exactly when the service answered
    with JSON, handing on what the endpoint makes of it. The check is no more than
    that: a parameter with a question mark or with percent-encoded dots passes it and
    can make the service see another path ([question_mark_escapes],
    [encoded_dots_pass]). *)
Theorem service_requests_exact send base_url input :
  Forall (fun '(run, ep) =>
    let '(trace, out) := run send base_url input in
    (input_fits ep input ->
       exists r, trace = [r] /\ r = endpoint_request base_url ep input /\ in_place base_url ep input r /\
         (success out = true <-> exists data, send r = Ok (Ok data) /\ result out = ep_finish ep data)) /\
    (~ input_fits ep input -> trace = [] /\ success out = false)) service_endpoints.
Proof.
  pose proof (service_tools_refine send base_url input) as Href. pose proof service_endpoints_ok as Hok.
  induction service_endpoints as [|[run ep] l IH]; [constructor|].
  apply Forall_cons in Href as [Hr Href]. apply Forall_cons in Hok as [Hep Hok].
  constructor; [|by apply IH]. rewrite Hr. pose proof (fits_iff ep input) as Hf.
  unfold endpoint_execute. simpl in Hep.
  destruct (first_missing ep input) eqn:Em; [split; [by intros [? _]%Hf|done]|].
  destruct (first_bad ep input) eqn:Eb; [split; [by intros [_ ?]%Hf|done]|].
  unfold exchange. split; [|intros H; destruct H; by apply Hf]. intros _. eexists. split; [done|].
  split; [done|]. split; [by apply endpoint_request_in_place|].
  destruct (send _) as [[data|e]|e]; simpl; split; try done; [by exists data|by intros (? & ? & _)..].
Qed.

(** A question mark in a path parameter passes the check: the request then asks
    for the list of notes, although the path up to the slashes is as documented. *)
Example question_mark_escapes :
  (MnemeGetNote_execute (fun _ => Err "") "http://mneme" {["note_id" := Str "?q=secret"]}).1 =
    [mkHttpRequest GET "http://mneme/api/notes/?q=secret" [] None].
Proof. vm_compute. reflexivity. Qed.

(** So does an encoded climb out of the directory. *)
Example encoded_dots_pass :
  (MnemeGetNote_execute (fun _ => Err "") "http://mneme" {["note_id" := Str "%2e%2e"]}).1 =
    [mkHttpRequest GET "http://mneme/api/notes/%2e%2e" [] None].
Proof. vm_compute. reflexivity. Qed.
