(* ===== verification/ToolSdk.v ===== *)
(** * The tool SDK (src/sdk/agnosai-tool-sdk/src/lib.rs)

    What runs inside a community tool: the input it reads from stdin, the result
    it writes to stdout, and the main loop [run_tool]. Composed with the host's
    adapter of WASM tools (Tools), the two ends of the protocol are shown to
    agree. JSON printing and parsing (serde_json) are a parameter with laws. *)

From S2P Require Import Prelude.
From S2P Require Import F64.
From S2P Require Import Resource.
From S2P Require Import Core.
From S2P Require Import Text.
From S2P Require Import Sandbox.
From S2P Require Import Wasm.
From S2P Require Import Tools.
From Stdlib Require Import Ascii String.
From stdpp Require Import base gmap strings numbers relations list.

Local Open Scope string_scope.

(** ** Inputs and results *)

(** The SDK's [ToolInput] is its parameter map. *)
Definition sdk_get (input : ToolInput) (key : string) : option Value := input !! key.
Definition sdk_get_str (input : ToolInput) (key : string) : option string := v ← input !! key; as_str v.
Definition sdk_get_f64 (input : ToolInput) (key : string) : option f64 := v ← input !! key; as_f64 v.
Definition sdk_get_u64 (input : ToolInput) (key : string) : option N := v ← input !! key; as_u64 v.
Definition sdk_get_bool (input : ToolInput) (key : string) : option bool := v ← input !! key; as_bool v.

Record ToolResult := mkToolResult { tr_success : bool; tr_result : option Value; tr_error : option string }.
Definition ToolResult_ok (value : Value) : ToolResult := mkToolResult true (Some value) None.
Definition ToolResult_err (msg : string) : ToolResult := mkToolResult false None (Some msg).

(** [#[derive(Serialize)]] with [skip_serializing_if = "Option::is_none"]. *)
Definition tool_result_fields (r : ToolResult) : list (string * Value) :=
  ([("success", Bool (tr_success r))] ++
   match tr_result r with Some v => [("result", v)] | None => [] end ++
   match tr_error r with Some e => [("error", Str e)] | None => [] end)%list.

Record SdkToolManifest := mkSdkToolManifest {
  tm_name : string; tm_description : string; tm_version : string; tm_parameters : list ParameterSchema;
}.

(** ** The main loop *)

Definition quoted (s : string) : string := dquote ++ s ++ dquote.
(** The text written when the result cannot be printed. *)
Definition fallback_text : string :=
  "{" ++ quoted "success" ++ ":false," ++ quoted "error" ++ ":" ++ quoted "failed to serialize result" ++ "}".

Section sdk.
(** [to_json]: [serde_json::to_string]; [parse_input]: [from_str::<ToolInput>];
    [wrote]: what of a text stdout takes, errors of writing being dropped. *)
Context (to_json : Value -> Result string string).
Context (parse_input : string -> Result (gmap string Value) string).
Context (wrote : string -> string).

Definition write_result (r : ToolResult) : string :=
  wrote (match to_json (Obj (tool_result_fields r)) with Ok json => json | Err _ => fallback_text end).

(** What the tool has written when it returns, or how it ends otherwise; [buf]:
    reading stdin to its end. *)
Definition run_tool (handler : ToolInput -> Outcome ToolResult) (buf : Result string string) : Outcome string :=
  match buf with
  | Err e => Returns (write_result (ToolResult_err ("failed to read stdin: " ++ e)))
  | Ok buf =>
      let run input :=
        match handler input with
        | Returns r => Returns (write_result r)
        | Panics => Panics
        | Hangs => Hangs
        end in
      if (String.length (trim buf) =? 0)%nat then run ∅
      else
        match parse_input buf with
        | Ok input => run input
        | Err e => Returns (write_result (ToolResult_err ("invalid input JSON: " ++ e)))
        end
  end.

(** A module whose [_start] is [run_tool handler], in the sandbox: it exits
    normally, traps when the handler panics, and is interrupted when it hangs. *)
Definition sdk_module (handler : ToolInput -> Outcome ToolResult) (panic_trap hang_trap : string) (input_json : string)
    : Invocation :=
  match run_tool handler (Ok input_json) with
  | Returns out => mkInvocation (Ok tt) (Ok tt) (Ok tt) true (Ok tt) out
  | Panics => mkInvocation (Ok tt) (Ok tt) (Ok tt) true (Err (Trap panic_trap)) ""
  | Hangs => mkInvocation (Ok tt) (Ok tt) (Ok tt) true (Err (Trap hang_trap)) ""
  end.
End sdk.

(** ** The two ends agree *)

(** What serde_json promises of texts it printed itself: such a text is not
    blank and is valid UTF-8, an object read back has the same fields, and the
    host's message read back as a [ToolInput] is the parameter map. [stable v]:
    printing and parsing gives [v] back, also as a field of these messages: none of
    its floats is one that serde_json reads back as a neighbour (it does without
    float_roundtrip), and it is not nested so deep that the parser's recursion limit
    of 128 is reached. *)
Class SerdeLaws (from_str : string -> Result Value string) (to_json : Value -> Result string string)
    (parse_input : string -> Result (gmap string Value) string) (lossy : string -> string) (stable : Value -> Prop) := {
  printed_not_blank : forall v j, to_json v = Ok j -> trim j <> "";
  printed_utf8 : forall v j, to_json v = Ok j -> lossy j = j;
  object_fields : forall m j, NoDup m.*1 -> Forall (fun kv => stable kv.2) m -> to_json (Obj m) = Ok j ->
    exists v, from_str j = Ok v /\ forall k, json_get v k = obj_get m k;
  input_parsed : forall (input : ToolInput) j, map_Forall (fun _ v => stable v) input ->
    to_json (Obj [("parameters", params_object input)]) = Ok j -> parse_input j = Ok input;
  str_stable : forall s, stable (Str s);
  bool_stable : forall b, stable (Bool b);
}.

Section protocol.
Context (from_str : string -> Result Value string) (to_json : Value -> Result string string).
Context (parse_input : string -> Result (gmap string Value) string) (lossy : string -> string).
Context (stable : Value -> Prop) `{!SerdeLaws from_str to_json parse_input lossy stable}.
Context (wrote : string -> string) (display : AgnosaiError -> string) (panic_trap hang_trap : string).

Definition result_stable (r : ToolResult) : Prop := match tr_result r with Some v => stable v | None => True end.

Lemma fields_stable r : result_stable r -> Forall (fun kv => stable kv.2) (tool_result_fields r).
Proof.
  destruct r as [s [v|] [e|]]; cbn; intros H; repeat constructor; cbn;
    first [done | apply bool_stable | apply str_stable].
Qed.

Lemma fields_nodup r : NoDup (tool_result_fields r).*1.
Proof. destruct r as [s [v|] [e|]]; cbn; apply (bool_decide_unpack _); vm_compute; exact I. Qed.

Definition answer (handler : ToolInput -> Outcome ToolResult) (input : ToolInput) : Outcome ToolOutput :=
  wasm_tool_execute from_str to_json display lossy (sdk_module to_json parse_input wrote handler panic_trap hang_trap) input.

(** How the host reads a result: the value of [result], or all of the object
    when the tool gave none; the error, or a stock text. *)
Definition host_reads (r : ToolResult) (out : ToolOutput) : Prop :=
  success out = tr_success r /\
  if tr_success r
  then error out = None /\
       match tr_result r with
       | Some v => result out = v
       | None => json_get (result out) "success" = Some (Bool true) /\ json_get (result out) "result" = None
       end
  else error out = Some (default "unknown error" (tr_error r)).

Lemma read_reply_printed r j v :
  from_str j = Ok v -> (forall k, json_get v k = obj_get (tool_result_fields r) k) ->
  host_reads r (read_reply from_str j).
Proof.
  intros Hj Hv. unfold read_reply, host_reads. rewrite Hj, !Hv.
  destruct r as [[] [u|] [e|]]; cbn; rewrite ?Hv; by split_and!.
Qed.

Lemma run_tool_printed handler (input : ToolInput) j r :
  map_Forall (fun _ v => stable v) input ->
  to_json (Obj [("parameters", params_object input)]) = Ok j -> handler input = Returns r ->
  run_tool to_json parse_input wrote handler (Ok j) = Returns (write_result to_json wrote r).
Proof.
  intros Hin Hj Hr. unfold run_tool.
  destruct (Nat.eqb_spec (String.length (trim j)) 0) as [Hz|_].
  { destruct (printed_not_blank _ _ Hj). by destruct (trim j). }
  by rewrite (input_parsed _ _ Hin Hj), Hr.
Qed.

(** [C26] The two ends of the WASM tool protocol agree: when the parameters are
    values that survive being printed and parsed, and the handler of a tool built
    with the SDK returns a result whose value, if it has one, survives this too, can
    be printed and fits into the pipe, the host's adapter reports exactly that
    result: same success, the same value, the same error text (all of the object for
    a success without a value, a stock text for a failure without one). Values that
    serde_json does not read back as printed (some floats, very deep nesting) are
    outside the statement: [stable]. *)
Theorem sdk_tool_roundtrip handler (input : ToolInput) j r jr :
  map_Forall (fun _ v => stable v) input ->
  to_json (Obj [("parameters", params_object input)]) = Ok j ->
  handler input = Returns r -> result_stable r ->
  to_json (Obj (tool_result_fields r)) = Ok jr -> wrote jr = jr ->
  exists out, answer handler input = Returns out /\ host_reads r out.
Proof.
  intros Hin Hj Hr Hs Hjr Hw. unfold answer, wasm_tool_execute. rewrite Hj. unfold sdk_module.
  rewrite (run_tool_printed _ _ _ _ Hin Hj Hr). unfold write_result. rewrite Hjr, Hw. cbn.
  rewrite (printed_utf8 _ _ Hjr). eexists. split; [done|].
  destruct (object_fields _ _ (fields_nodup r) (fields_stable r Hs) Hjr) as (v & Hv & Hf). by eapply read_reply_printed.
Qed.

(** A panic of the handler, an endless loop, or an input the host cannot print
    never count as success. *)
Theorem sdk_failure_reported handler (input : ToolInput) :
  map_Forall (fun _ v => stable v) input ->
  (forall r, handler input <> Returns r) ->
  exists out, answer handler input = Returns out /\ success out = false.
Proof.
  intros Hin Hh. unfold answer, wasm_tool_execute. destruct (to_json _) as [j|e] eqn:Hj; [|eexists; by split].
  assert (run_tool to_json parse_input wrote handler (Ok j) = Panics \/
          run_tool to_json parse_input wrote handler (Ok j) = Hangs) as Hrun.
  { unfold run_tool. destruct (Nat.eqb_spec (String.length (trim j)) 0) as [Hz|_].
    { destruct (printed_not_blank _ _ Hj). by destruct (trim j). }
    rewrite (input_parsed _ _ Hin Hj). destruct (handler input) as [r| |] eqn:E; [by destruct (Hh r)|by left|by right]. }
  unfold sdk_module. destruct Hrun as [-> | ->]; cbn; repeat case_match; eexists; by split.
Qed.
End protocol.

(** ** A codec for one exchange *)

Definition demo_input : gmap string Value := {["name" := Str "Ada"]}.
Definition demo_result : ToolResult := ToolResult_ok (Str "Hello, Ada!").
Definition demo_handler (input : ToolInput) : Outcome ToolResult :=
  Returns (ToolResult_ok (Str ("Hello, " ++ default "world" (sdk_get_str input "name") ++ "!"))).

Definition demo_to_json (v : Value) : Result string string :=
  match v with
  | Obj [(k, Obj [(k', Str s)])] =>
      if String.eqb k "parameters" && String.eqb k' "name" && String.eqb s "Ada" then Ok "in" else Err ""
  | Obj [(k, Bool true); (k', Str s)] =>
      if String.eqb k "success" && String.eqb k' "result" && String.eqb s "Hello, Ada!" then Ok "out" else Err ""
  | _ => Err ""
  end.
Definition demo_from_str (s : string) : Result Value string :=
  if String.eqb s "in" then Ok (Obj [("parameters", Obj [("name", Str "Ada")])])
  else if String.eqb s "out" then Ok (Obj (tool_result_fields demo_result))
  else Err "".
Definition demo_parse_input (s : string) : Result (gmap string Value) string :=
  if String.eqb s "in" then Ok demo_input else Err "".
Definition demo_stable (v : Value) : Prop := match v with Str _ | Bool _ => True | _ => False end.

Lemma demo_to_json_inv v j :
  demo_to_json v = Ok j ->
  (v = Obj [("parameters", Obj [("name", Str "Ada")])] /\ j = "in") \/
  (v = Obj (tool_result_fields demo_result) /\ j = "out").
Proof.
  unfold demo_to_json. repeat (case_match; try done); intros [= <-];
    repeat match goal with H : _ && _ = true |- _ => apply andb_prop in H as [? ?] end;
    repeat match goal with H : String.eqb _ _ = true |- _ => apply String.eqb_eq in H end; subst; auto.
Qed.

#[local] Instance demo_serde : SerdeLaws demo_from_str demo_to_json demo_parse_input id demo_stable.
Proof.
  split; try done.
  - intros v j [[_ ->]|[_ ->]]%demo_to_json_inv; vm_compute; discriminate.
  - intros m j _ Hm [[[= ->] ->]|[[= ->] ->]]%demo_to_json_inv; by eexists.
  - intros input j _ [[Hv ->]|[[=] _]]%demo_to_json_inv. unfold demo_parse_input. simpl. f_equal.
    unfold params_object in Hv. injection Hv as Hl. apply (map_to_list_inj demo_input input). by rewrite Hl.
Qed.

Lemma sdk_tool_roundtrip_witness :
  exists out, answer demo_from_str demo_to_json demo_parse_input id id (fun _ => "") "" "" demo_handler demo_input = Returns out /\
    host_reads demo_result out.
Proof.
  apply (sdk_tool_roundtrip demo_from_str demo_to_json demo_parse_input id demo_stable id (fun _ => "") "" ""
    demo_handler demo_input "in" demo_result "out").
  - by apply map_Forall_singleton.
  - vm_compute. reflexivity.
  - vm_compute. reflexivity.
  - exact I.
  - vm_compute. reflexivity.
  - reflexivity.
Defined.

(** A blank stdin is the empty parameter map: the handler still runs. *)
Lemma blank_stdin_runs to_json parse_input wrote handler buf r :
  trim buf = "" -> handler ∅ = Returns r ->
  run_tool to_json parse_input wrote handler (Ok buf) = Returns (write_result to_json wrote r).
Proof. intros Hb Hr. unfold run_tool. by rewrite Hb, Hr. Qed.
