(* ===== verification/HttpTools.v ===== *)
(** * HTTP tools (tools/builtin/load_testing.rs, tools/builtin/security_audit.rs)

    The load generator: the loop of a user, the merge of the users' results and
    the statistics; the security audit: the headers, the CORS probe and the
    score. The network is a parameter. *)

From S2P Require Import Prelude.
From S2P Require Import F64.
From S2P Require Import Resource.
From S2P Require Import Core.
From S2P Require Import Text.
From S2P Require Import Ssrf.
From S2P Require Import Tools.
From Stdlib Require Import Ascii String SpecFloat.
From stdpp Require Import base gmap strings pretty numbers relations sorting list.

Local Open Scope string_scope.

(** [f64::round]: to the nearest integer, halves away from zero. *)
Definition f64_round (x : f64) : f64 :=
  match x with
  | S754_finite s m e =>
      match e with
      | Zneg p =>
          let q := Z.shiftr (Zpos m + Z.shiftl 1 (Zpos p - 1)) (Zpos p) in
          if (q =? 0)%Z then S754_zero s else binary_normalize 53 1024 (if s then - q else q)%Z 0 s
      | _ => x
      end
  | _ => x
  end.
(** [(x * k).round() / k] *)
Definition round_to (k : N) (x : f64) : f64 := f64_div (f64_round (f64_mul x (f64_of_N k))) (f64_of_N k).

(** [Duration::as_secs_f64] *)
Definition as_secs_f64 (d : Duration) : f64 :=
  f64_add (f64_of_N (d / 1000000000)) (f64_div (f64_of_N (d mod 1000000000)) (f64_of_N 1000000000)).
Definition to_ms (d : Duration) : f64 := f64_mul (as_secs_f64 d) (f64_of_N 1000).

(** ** load_testing.rs *)

Definition MAX_TOTAL_REQUESTS : nat := N.to_nat 100000.

(** One request of a user: the clock when the loop tests it, the status of the
    reply ([None]: the request failed), and how long it took. *)
Record Attempt := mkAttempt { tested_at : Instant; reply_status : option N; took : Duration }.

Record UserResult := mkUserResult { latencies : list Duration; status_counts : gmap N N; errors : nat }.
Definition UserResult_new : UserResult := mkUserResult [] ∅ 0.

Definition bump (code n : N) (m : gmap N N) : gmap N N := <[code := (default 0 (m !! code) + n)%N]> m.

Definition user_request (u : UserResult) (a : Attempt) : UserResult :=
  match reply_status a with
  | Some st => mkUserResult (latencies u ++ [took a]) (bump st 1 (status_counts u)) (errors u)
  | None => mkUserResult (latencies u ++ [took a]) (status_counts u) (S (errors u))
  end.

Definition user_continues (deadline : Instant) (max_requests : nat) (u : UserResult) (a : Attempt) : bool :=
  (tested_at a <? deadline)%N && (length (latencies u) + errors u <? max_requests)%nat.

(** The loop of a user on the attempts [world 0], [world 1], ... it would make.
    Every turn adds a latency, so [max_requests] turns are enough. *)
Fixpoint user_loop (turns : nat) (deadline : Instant) (max_requests : nat) (world : nat -> Attempt) (i : nat)
    (u : UserResult) : UserResult :=
  match turns with
  | 0 => u
  | S turns =>
      if user_continues deadline max_requests u (world i)
      then user_loop turns deadline max_requests world (S i) (user_request u (world i))
      else u
  end.

Definition max_requests_per_user (concurrent_users : nat) : nat := MAX_TOTAL_REQUESTS / Nat.max concurrent_users 1.

Definition run_user (deadline : Instant) (concurrent_users : nat) (world : nat -> Attempt) : UserResult :=
  let m := max_requests_per_user concurrent_users in user_loop m deadline m world 0 UserResult_new.

(** The merge of the joined tasks; [None]: the task panicked. *)
Definition merge_user (acc : UserResult) (joined : option UserResult) : UserResult :=
  match joined with
  | Some u => mkUserResult (latencies acc ++ latencies u)
                (map_fold bump (status_counts acc) (status_counts u)) (errors acc + errors u)
  | None => mkUserResult (latencies acc) (status_counts acc) (S (errors acc))
  end.
Definition collect_users (joined : list (option UserResult)) : UserResult := foldl merge_user UserResult_new joined.

Record LoadTestResult := mkLoadTestResult {
  lt_target_url : string;
  lt_concurrent_users : nat;
  lt_duration_seconds : N;
  total_requests : nat;
  successful_requests : nat;
  failed_requests : nat;
  avg_latency_ms : f64;
  p50_latency_ms : f64;
  p95_latency_ms : f64;
  p99_latency_ms : f64;
  min_latency_ms : f64;
  max_latency_ms : f64;
  throughput_rps : f64;
  error_rate : f64;
  status_codes : gmap N N;
}.

Definition percentile_index (n p : nat) : nat := Nat.min (n * p / 100) (n - 1).
(** The latency at an index of the sorted list; the list is not empty. *)
Definition at_index (sorted : list Duration) (i : nat) : Duration := default 0%N (sorted !! i).
Definition percentile (sorted : list Duration) (p : nat) : Duration :=
  at_index sorted (percentile_index (length sorted) p).

Definition f64_sum (l : list f64) : f64 := foldl f64_add f64_zero l.

Definition summarize (url : string) (concurrent_users : nat) (duration : Duration) (all : UserResult)
    : Result LoadTestResult string :=
  let total := length (latencies all) in
  if (total =? 0)%nat then Err "no requests completed"
  else
    let sorted := sort_by N.leb (latencies all) in
    let avg := f64_div (f64_sum (map to_ms sorted)) (f64_of_nat total) in
    Ok (mkLoadTestResult url concurrent_users (duration / 1000000000) total (total - errors all) (errors all)
          (round_to 100 avg)
          (round_to 100 (to_ms (percentile sorted 50)))
          (round_to 100 (to_ms (percentile sorted 95)))
          (round_to 100 (to_ms (percentile sorted 99)))
          (round_to 100 (to_ms (at_index sorted 0)))
          (round_to 100 (to_ms (at_index sorted (total - 1))))
          (round_to 100 (f64_div (f64_of_nat total) (as_secs_f64 duration)))
          (round_to 10000 (f64_div (f64_of_nat (errors all)) (f64_of_nat total)))
          (status_counts all)).

(** [client]: building the HTTP client; [worlds]: what each user meets, and
    whether its task panics. *)
Definition run_load_test (client : Result unit string) (now : Instant) (worlds : nat -> option (nat -> Attempt))
    (target_url : string) (concurrent_users : nat) (duration : Duration) : Result LoadTestResult string :=
  match client with
  | Err e => Err e
  | Ok _ =>
      let deadline := (now + duration)%N in
      let joined := map (fun u => run_user deadline concurrent_users <$> worlds u) (seq 0 concurrent_users) in
      summarize target_url concurrent_users duration (collect_users joined)
  end.

Definition clamp_n (x lo hi : N) : N := N.min (N.max x lo) hi.

Section load_testing_tool.
Context (parse : string -> option Url) (client : Result unit string) (now : Instant).
Context (worlds : nat -> option (nat -> Attempt)) (to_value : LoadTestResult -> Value).

Definition load_users (input : ToolInput) : nat := Nat.min (N.to_nat (default 10%N (get_u64 input "concurrent_users"))) 500.
Definition load_duration (input : ToolInput) : Duration :=
  from_secs (clamp_n (default 10%N (get_u64 input "duration_seconds")) 1 300).

Definition load_testing_execute (input : ToolInput) : ToolOutput :=
  match get_str input "target_url" with
  | None => tool_err "missing required parameter: target_url"
  | Some url =>
      if negb (is_safe_url parse url)
      then tool_err "target_url rejected: cannot target private/internal networks"
      else
        match run_load_test client now worlds url (load_users input) (load_duration input) with
        | Ok r => tool_ok (to_value r)
        | Err e => tool_err ("load test failed: " ++ e)
        end
  end.

Definition LoadTestingTool : NativeTool :=
  let desc := "Generate HTTP load against a target URL with concurrent users and measure performance metrics." in
  mkNativeTool "load_testing" desc
    (mkToolSchema "load_testing" desc
       [mkParameterSchema "target_url" "URL to load test" "string" true;
        mkParameterSchema "concurrent_users" "Number of concurrent users (default: 10)" "number" false;
        mkParameterSchema "duration_seconds" "Test duration in seconds (default: 10)" "number" false])
    (fun input => Returns (load_testing_execute input)).
End load_testing_tool.

(** ** security_audit.rs *)

Definition SECURITY_HEADERS : list (string * string) :=
  [("content-security-policy", "critical"); ("strict-transport-security", "critical");
   ("x-frame-options", "high"); ("x-content-type-options", "high");
   ("referrer-policy", "medium"); ("permissions-policy", "medium"); ("x-xss-protection", "low")].
Definition DISCLOSURE_HEADERS : list string := ["server"; "x-powered-by"; "x-aspnet-version"; "x-generator"].

(** A header map: [None] is an absent header, [Some None] one whose value is
    not text. *)
Abbreviation Headers := (string -> option (option string)) (only parsing).
Definition header_text (h : Headers) (k : string) : option string := default None (h k).

Record MissingHeader := mkMissingHeader { mh_header : string; mh_severity : string }.
Record HeaderAnalysis := mkHeaderAnalysis { present : list string; missing : list MissingHeader; score : f64 }.
Record CorsAnalysis := mkCorsAnalysis {
  misconfigured : bool; allows_all_origins : bool; allows_credentials : bool; cors_detail : string;
}.
Record Vulnerability := mkVulnerability {
  vuln_type : string; vuln_severity : string; vuln_description : string; remediation : string;
}.
Record AuditResult := mkAuditResult {
  ar_target_url : string;
  security_score : f64;
  risk_level : string;
  header_analysis : HeaderAnalysis;
  cors_analysis : CorsAnalysis;
  information_disclosure : list string;
  vulnerabilities : list Vulnerability;
  recommendations : list string;
}.

Definition has_header (h : Headers) (k : string) : bool := match h k with Some _ => true | None => false end.

Definition scan_header (h : Headers) (acc : list string * list MissingHeader * f64) (hs : string * string)
    : list string * list MissingHeader * f64 :=
  let '(pres, miss, sc) := acc in
  if has_header h hs.1 then ((pres ++ [hs.1])%list, miss, f64_add sc f64_one)
  else (pres, (miss ++ [mkMissingHeader hs.1 hs.2])%list, sc).

Definition analyze_headers (h : Headers) : HeaderAnalysis :=
  let '(pres, miss, sc) := foldl (scan_header h) ([], [], f64_zero) SECURITY_HEADERS in
  mkHeaderAnalysis pres miss
    (f64_round (f64_mul (f64_div sc (f64_of_nat (length SECURITY_HEADERS))) (f64_of_N 100))).

Definition find_disclosure (h : Headers) : list string :=
  omap (fun k => v ← header_text h k; Some (k ++ ": " ++ v)) DISCLOSURE_HEADERS.

(** [options]: the reply to the OPTIONS request. *)
Definition analyze_cors (options : Result Headers string) : CorsAnalysis :=
  match options with
  | Ok h =>
      let acao := default "" (header_text h "access-control-allow-origin") in
      let acac := default "false" (header_text h "access-control-allow-credentials") in
      let allows_all := String.eqb acao "*" || String.eqb acao "https://evil.example.com" in
      let allows_creds := eq_ignore_ascii_case acac "true" in
      mkCorsAnalysis (allows_all && allows_creds) allows_all allows_creds
        (if allows_all && allows_creds then "Wildcard origin with credentials — critical misconfiguration"
         else if allows_all then "Wildcard origin allowed (no credentials)"
         else "CORS properly configured")
  | Err _ => mkCorsAnalysis false false false "OPTIONS request failed (CORS may not be configured)"
  end.

(** [fmt0]: the format [{:.0}]. *)
Definition audit_vulnerabilities (fmt0 : f64 -> string) (ha : HeaderAnalysis) (cors : CorsAnalysis)
    (disclosure : list string) : list Vulnerability :=
  ((if f64_lt (score ha) (f64_of_N 50) then
     [mkVulnerability "missing_security_headers" "high"
        ("Only " ++ fmt0 (score ha) ++ "% of recommended security headers are present")
        "Add missing security headers to all responses"] else []) ++
   (if allows_all_origins cors && allows_credentials cors then
     [mkVulnerability "cors_misconfiguration" "critical" "CORS allows all origins with credentials"
        "Restrict Access-Control-Allow-Origin to specific trusted domains"] else []) ++
   (match disclosure with
    | [] => []
    | _ => [mkVulnerability "information_disclosure" "low" ("Server discloses: " ++ str_join ", " disclosure)
              "Remove or obfuscate server identification headers"]
    end))%list.

Definition audit_score (ha : HeaderAnalysis) (cors : CorsAnalysis) (disclosure : list string) : f64 :=
  let s := score ha in
  let s := if misconfigured cors then f64_sub s (f64_of_N 15) else s in
  let s := match disclosure with [] => s | _ => f64_sub s (f64_of_N 5) end in
  round_to 100 (f64_clamp s f64_zero (f64_of_N 100)).

Definition audit_risk (s : f64) : string :=
  if f64_ge s (f64_of_N 80) then "low"
  else if f64_ge s (f64_of_N 60) then "medium"
  else if f64_ge s (f64_of_N 40) then "high"
  else "critical".

Definition audit_recommendations (url : string) (ha : HeaderAnalysis) (cors : CorsAnalysis) (disclosure : list string)
    : list string :=
  ((if f64_lt (score ha) (f64_of_N 100) then
     ["Add all recommended security headers (CSP, HSTS, X-Frame-Options, X-Content-Type-Options)"] else []) ++
   (if misconfigured cors then ["Fix CORS configuration: restrict allowed origins"] else []) ++
   (match disclosure with [] => [] | _ => ["Remove server version headers to reduce attack surface"] end) ++
   (if negb (starts_with "https://" url) then ["Enforce HTTPS for all endpoints"] else []))%list.

Definition run_security_audit (fmt0 : f64 -> string) (client : Result unit string) (get_reply : Result Headers string)
    (options : Result Headers string) (url : string) : Result AuditResult string :=
  match client with
  | Err e => Err e
  | Ok _ =>
      match get_reply with
      | Err e => Err e
      | Ok headers =>
          let ha := analyze_headers headers in
          let disclosure := find_disclosure headers in
          let cors := analyze_cors options in
          let s := audit_score ha cors disclosure in
          Ok (mkAuditResult url s (audit_risk s) ha cors disclosure (audit_vulnerabilities fmt0 ha cors disclosure)
                (audit_recommendations url ha cors disclosure))
      end
  end.

Definition security_audit_execute (parse : string -> option Url) (fmt0 : f64 -> string) (client : Result unit string)
    (get_reply options : Result Headers string) (to_value : AuditResult -> Value) (input : ToolInput) : ToolOutput :=
  match get_str input "target_url" with
  | None => tool_err "missing required parameter: target_url"
  | Some url =>
      if negb (is_safe_url parse url)
      then tool_err "target_url rejected: cannot target private/internal networks"
      else
        match run_security_audit fmt0 client get_reply options url with
        | Ok r => tool_ok (to_value r)
        | Err e => tool_err ("security audit failed: " ++ e)
        end
  end.

Definition SecurityAuditTool (parse : string -> option Url) (fmt0 : f64 -> string) (client : Result unit string)
    (get_reply options : Result Headers string) (to_value : AuditResult -> Value) : NativeTool :=
  let desc := "Assess security posture of a target URL: HTTP headers, TLS grade, CORS policy, and information disclosure." in
  mkNativeTool "security_audit" desc
    (mkToolSchema "security_audit" desc
       [mkParameterSchema "target_url" "URL to audit" "string" true;
        mkParameterSchema "scan_profile" "Scan depth: quick, standard, or deep (default: standard)" "string" false])
    (fun input => Returns (security_audit_execute parse fmt0 client get_reply options to_value input)).

(** ** What a load test counts *)

(** The result a list of attempts deserves. *)
Definition failed_in (l : list Attempt) : nat := length (filter (fun a => reply_status a = None) l).
Definition with_code (c : N) (l : list Attempt) : nat := length (filter (fun a => reply_status a = Some c) l).
Definition tallies (l : list Attempt) (u : UserResult) : Prop :=
  latencies u = map took l /\ errors u = failed_in l /\
  forall c, default 0%N (status_counts u !! c) = N.of_nat (with_code c l).

Lemma lookup_bump c k n m :
  default 0%N (bump k n m !! c) = (default 0 (m !! c) + (if bool_decide (k = c) then n else 0))%N.
Proof.
  unfold bump. case_bool_decide as H.
  - subst. by rewrite lookup_insert_eq.
  - rewrite lookup_insert_ne by done. lia.
Qed.

Lemma failed_in_app l l' : failed_in (l ++ l') = (failed_in l + failed_in l')%nat.
Proof. unfold failed_in. by rewrite filter_app, length_app. Qed.
Lemma with_code_app c l l' : with_code c (l ++ l') = (with_code c l + with_code c l')%nat.
Proof. unfold with_code. by rewrite filter_app, length_app. Qed.
Lemma failed_in_one a : failed_in [a] = match reply_status a with None => 1 | Some _ => 0 end.
Proof. unfold failed_in. rewrite filter_cons, filter_nil. case_decide as H; [by rewrite H|by destruct (reply_status a)]. Qed.
Lemma with_code_one c a :
  with_code c [a] = match reply_status a with Some st => if bool_decide (st = c) then 1 else 0 | None => 0 end.
Proof.
  unfold with_code. rewrite filter_cons, filter_nil. case_decide as H.
  - rewrite H. by rewrite bool_decide_eq_true_2.
  - destruct (reply_status a); [|done]. by rewrite bool_decide_eq_false_2 by congruence.
Qed.

Lemma tallies_request l u a : tallies l u -> tallies (l ++ [a]) (user_request u a).
Proof.
  intros (Hl & He & Hc). unfold tallies, user_request in *.
  setoid_rewrite with_code_app. setoid_rewrite with_code_one.
  rewrite map_app, failed_in_app, failed_in_one, Hl, He.
  destruct (reply_status a) as [st|]; cbn [latencies errors status_counts]; (split; [done|]); (split; [lia|]); intros c.
  - rewrite lookup_bump, Hc. case_bool_decide; lia.
  - rewrite Hc. lia.
Qed.

Lemma user_loop_spec turns deadline m world i u :
  tallies (map world (seq 0 i)) u -> (m <= i + turns)%nat -> 
  exists n, tallies (map world (seq 0 n)) (user_loop turns deadline m world i u) /\ (i <= n <= Nat.max i m)%nat /\
    user_continues deadline m (user_loop turns deadline m world i u) (world n) = false.
Proof.
  revert i u. induction turns as [|turns IH]; intros i u Ht Hm; cbn [user_loop].
  - exists i. split; [done|]. split; [lia|]. unfold user_continues.
    destruct Ht as (-> & _). rewrite !length_map, length_seq. apply andb_false_iff. right.
    apply Nat.ltb_ge. lia.
  - destruct (user_continues deadline m u (world i)) eqn:Ec; [|exists i; split; [done|]; split; [lia|done]].
    assert (i < m)%nat as Hi.
    { unfold user_continues in Ec. apply andb_true_iff in Ec as [_ Ec%Nat.ltb_lt].
      destruct Ht as (Hl & _). rewrite Hl, !length_map, length_seq in Ec. lia. }
    destruct (IH (S i) (user_request u (world i))) as (n & ? & ? & ?); [|lia|exists n; split; [done|]; split; [lia|done]].
    rewrite seq_S, map_app. by apply tallies_request.
Qed.

Lemma run_user_spec deadline users world :
  exists n, tallies (map world (seq 0 n)) (run_user deadline users world) /\
    (n <= max_requests_per_user users)%nat /\
    user_continues deadline (max_requests_per_user users) (run_user deadline users world) (world n) = false.
Proof.
  destruct (user_loop_spec (max_requests_per_user users) deadline (max_requests_per_user users) world 0
    UserResult_new) as (n & ? & ? & ?); [done|lia|]. exists n. split; [done|]. split; [lia|done].
Qed.

Lemma lookup_merge_codes (m acc : gmap N N) c :
  default 0%N (map_fold bump acc m !! c) = (default 0 (acc !! c) + default 0 (m !! c))%N.
Proof.
  revert c. apply (map_fold_weak_ind (fun r m => forall c, default 0%N (r !! c) = (default 0 (acc !! c) + default 0 (m !! c))%N)).
  - intros c. rewrite lookup_empty. simpl. lia.
  - intros k n m' r Hk IH c. rewrite lookup_bump, IH. case_bool_decide as H.
    + subst. rewrite lookup_insert_eq, Hk. simpl. lia.
    + rewrite lookup_insert_ne by done. lia.
Qed.

(** A merge of users and panics tallies all attempts, a panic being one more
    error. *)
Definition tallies_with (panics : nat) (l : list Attempt) (u : UserResult) : Prop :=
  latencies u = map took l /\ errors u = (failed_in l + panics)%nat /\
  forall c, default 0%N (status_counts u !! c) = N.of_nat (with_code c l).

Lemma tallies_merge p l u l' u' :
  tallies_with p l u -> tallies l' u' -> tallies_with p (l ++ l') (merge_user u (Some u')).
Proof.
  intros (Hl & He & Hc) (Hl' & He' & Hc'). unfold tallies_with in *. cbn [merge_user latencies errors status_counts].
  rewrite map_app, failed_in_app, Hl, Hl', He, He'. split; [done|]. split; [lia|].
  intros c. rewrite lookup_merge_codes, Hc, Hc', with_code_app. lia.
Qed.

Lemma tallies_merge_panic p l u : tallies_with p l u -> tallies_with (S p) l (merge_user u None).
Proof. intros (Hl & He & Hc). unfold tallies_with in *. cbn [merge_user latencies errors status_counts].
  split; [done|]. split; [lia|done]. Qed.

(** The attempts of the users that did not panic, [made u] by user [u]. *)
Definition attempts_of (worlds : nat -> option (nat -> Attempt)) (made : nat -> nat) (users : nat) : list Attempt :=
  List.concat (map (fun u => match worlds u with Some w => map w (seq 0 (made u)) | None => [] end) (seq 0 users)).
Definition panicked (worlds : nat -> option (nat -> Attempt)) (users : nat) : nat :=
  length (filter (fun u => worlds u = None) (seq 0 users)).

Lemma collect_users_spec deadline users worlds n :
  exists made, (forall u, made u <= max_requests_per_user users)%nat /\
    tallies_with (panicked worlds n) (attempts_of worlds made n)
      (collect_users (map (fun u => run_user deadline users <$> worlds u) (seq 0 n))).
Proof.
  exists (fun u => match worlds u with Some w => length (latencies (run_user deadline users w)) | None => 0 end).
  assert (forall w, let k := length (latencies (run_user deadline users w)) in
    (k <= max_requests_per_user users)%nat /\ tallies (map w (seq 0 k)) (run_user deadline users w)) as Hk.
  { intros w. destruct (run_user_spec deadline users w) as (k & Ht & Hle & _).
    assert (length (latencies (run_user deadline users w)) = k) as ->; [|done].
    destruct Ht as (-> & _). by rewrite !length_map, length_seq. }
  split; [intros u; destruct (worlds u); [apply Hk|lia]|].
  unfold collect_users, panicked, attempts_of.
  induction n as [|n IH]; [done|].
  rewrite seq_S, !map_app, foldl_app, filter_app, length_app, concat_app. cbn [map List.concat foldl]. rewrite app_nil_r.
  rewrite filter_cons, filter_nil. cbn [Nat.add]. destruct (worlds n) as [w|] eqn:Ew; cbn [fmap option_fmap option_map].
  - rewrite decide_False by done. rewrite Nat.add_0_r. apply tallies_merge; [apply IH|apply Hk].
  - rewrite decide_True by done. cbn [length]. rewrite app_nil_r, Nat.add_1_r. apply tallies_merge_panic, IH.
Qed.

Lemma length_attempts_of worlds made users m :
  (forall u, made u <= m)%nat -> (length (attempts_of worlds made users) <= users * m)%nat.
Proof.
  intros Hm. unfold attempts_of. induction users as [|n IH]; [done|].
  rewrite seq_S, map_app, concat_app, length_app. cbn [map List.concat Nat.add]. rewrite app_nil_r.
  specialize (Hm n). destruct (worlds n); simpl length; rewrite ?length_map, ?length_seq; lia.
Qed.

(** The counts of a load test are those of the requests the users made:
    never more than 100,000 in all, each failed request and each panicked user
    one failure, and each status code as often as a reply carried it. *)
Theorem load_test_counts client now worlds url users d r :
  run_load_test client now worlds url users d = Ok r ->
  exists made, let l := attempts_of worlds made users in
    total_requests r = length l /\ (total_requests r <= MAX_TOTAL_REQUESTS)%nat /\
    failed_requests r = (failed_in l + panicked worlds users)%nat /\
    successful_requests r = (total_requests r - failed_requests r)%nat /\
    forall c, default 0%N (status_codes r !! c) = N.of_nat (with_code c l).
Proof.
  unfold run_load_test. destruct client; [|done].
  destruct (collect_users_spec (now + d) users worlds users) as (made & Hm & Hl & He & Hc).
  unfold summarize. destruct (_ =? 0)%nat; [done|]. intros [= <-].
  exists made. cbn [total_requests failed_requests successful_requests status_codes].
  rewrite Hl, length_map, He. split_and!; try done.
  etransitivity; [by apply length_attempts_of|]. unfold max_requests_per_user.
  etransitivity; [|apply (Nat.Div0.mul_div_le MAX_TOTAL_REQUESTS (Nat.max users 1))].
  apply Nat.mul_le_mono_r. lia.
Qed.

(** Two users against a server that answers 200 and then 503, and a third whose
    task panics. *)
Definition toy_worlds (u : nat) : option (nat -> Attempt) :=
  if (u =? 2)%nat then None
  else Some (fun i => mkAttempt (N.of_nat i) (if (i =? 0)%nat then Some 200%N else Some 503%N) 7).

Lemma load_test_counts_witness :
  exists r, run_load_test (Ok tt) 0 toy_worlds "u" 3 2 = Ok r /\
    exists made, failed_requests r = (failed_in (attempts_of toy_worlds made 3) + panicked toy_worlds 3)%nat.
Proof.
  eexists. split; [vm_compute; reflexivity|].
  destruct (load_test_counts (Ok tt) 0 toy_worlds "u" 3 2 _ eq_refl) as (made & _ & _ & H & _).
  exists made. exact H.
Defined.

(** A failed request is counted twice against the share of its user: with room
    for 10 requests the loop stops after 5 failures. *)
Example failures_halve_the_share :
  user_loop 10 100 10 (fun i => mkAttempt 0 None 1) 0 UserResult_new = mkUserResult [1; 1; 1; 1; 1]%N ∅ 5.
Proof. reflexivity. Qed.

(** ** Percentiles *)

Lemma at_index_mono l i j : (i <= j < length l)%nat ->
  StronglySorted (fun x y => (x <=? y)%N = true) l -> (at_index l i <= at_index l j)%N.
Proof.
  intros [Hij Hj] Hs. unfold at_index. revert i j Hij Hj.
  induction Hs as [|x l Hs IH Hx]; intros i j Hij Hj; [simpl in Hj; lia|].
  destruct j as [|j]; [replace i with 0 by lia; done|]. simpl in Hj.
  destruct i as [|i]; [|apply IH; lia].
  change ((x :: l) !! 0) with (Some x). change ((x :: l) !! S j) with (l !! j).
  destruct (lookup_lt_is_Some_2 l j ltac:(lia)) as [y Hy]. rewrite Hy. simpl.
  rewrite Forall_forall in Hx. apply N.leb_le, Hx. by eapply list_elem_of_lookup_2.
Qed.

Lemma sorted_latencies l : StronglySorted (fun x y => (x <=? y)%N = true) (sort_by N.leb l).
Proof.
  apply (sort_by_sorted N.leb (fun _ => True)).
  - intros x y _ _. rewrite !N.leb_le. lia.
  - intros x y z _ _ _. rewrite !N.leb_le. lia.
  - by apply Forall_forall.
Qed.

Lemma percentile_index_mono n p q :
  (0 < n)%nat -> (p <= q)%nat -> (percentile_index n p <= percentile_index n q < n)%nat.
Proof.
  intros Hn Hpq. unfold percentile_index.
  assert (n * p / 100 <= n * q / 100)%nat by (apply Nat.Div0.div_le_mono; nia). lia.
Qed.

Lemma filter_id {A} (P : A -> Prop) `{!forall x, Decision (P x)} l : Forall P l -> filter P l = l.
Proof. induction 1 as [|x l Hx Hl IH]; [done|]. by rewrite filter_cons, decide_True, IH. Qed.

(** The latencies up to an index of the sorted list are no longer than its own. *)
Lemma count_up_to l i : (i < length l)%nat -> StronglySorted (fun x y => (x <=? y)%N = true) l ->
  (S i <= length (filter (fun x => x <= at_index l i)%N l))%nat.
Proof.
  intros Hi Hs. set (P x := (x <= at_index l i)%N).
  enough (length (filter P (take (S i) l)) = S i) as H.
  { assert (filter P l = filter P (take (S i) l) ++ filter P (drop (S i) l))%list as ->
      by (by rewrite <-filter_app, take_drop). rewrite length_app. lia. }
  rewrite filter_id; [rewrite length_take; lia|].
  apply Forall_forall. intros x (j & Hj)%list_elem_of_lookup. apply lookup_take_Some in Hj as [Hj Hlt].
  unfold P. replace x with (at_index l j) by (unfold at_index; by rewrite Hj).
  apply at_index_mono; [lia|done].
Qed.

(** The percentiles of a test with requests are latencies that occurred, in
    order between the least and the greatest, and at least [p] percent of the
    requests took no longer than the [p]-th one. *)
Theorem percentiles_correct l p q :
  l <> [] -> (p <= q <= 100)%nat ->
  let s := sort_by N.leb l in
  (at_index s 0 <= percentile s p)%N /\ (percentile s p <= percentile s q)%N /\
  (percentile s q <= at_index s (length s - 1))%N /\ percentile s p ∈ l /\
  (p * length l <= 100 * length (filter (fun x => x <= percentile s p)%N l))%nat.
Proof.
  intros Hl Hpq s. pose proof (sorted_latencies l) as Hs. fold s in Hs.
  assert (length s = length l) as Hlen by apply length_sort_by.
  assert (0 < length s)%nat as Hpos by (rewrite Hlen; destruct l; [done|simpl; lia]).
  pose proof (percentile_index_mono (length s) p q Hpos ltac:(lia)) as Hi.
  unfold percentile. split_and!.
  - apply at_index_mono; [lia|done].
  - by apply at_index_mono.
  - apply at_index_mono; [lia|done].
  - apply (elem_of_sort_by N.leb). fold s. unfold at_index.
    destruct (lookup_lt_is_Some_2 s (percentile_index (length s) p) ltac:(lia)) as [y Hy]. rewrite Hy.
    by eapply list_elem_of_lookup_2.
  - pose proof (count_up_to s (percentile_index (length s) p) ltac:(lia) Hs) as Hc.
    assert (filter (fun x => x <= at_index s (percentile_index (length s) p))%N s ≡ₚ
            filter (fun x => x <= at_index s (percentile_index (length s) p))%N l) as Hp
      by (apply filter_Permutation, sort_by_perm).
    rewrite Hp in Hc. rewrite <-Hlen. unfold percentile_index in *.
    pose proof (Nat.div_mod_eq (length s * p) 100). pose proof (Nat.mod_upper_bound (length s * p) 100 ltac:(lia)).
    destruct (Nat.min_spec (length s * p / 100) (length s - 1)) as [[_ E]|[_ E]]; rewrite E in *; nia.
Qed.

Lemma percentiles_correct_witness : percentile (sort_by N.leb [30; 10; 20]%N) 50 ∈ [30; 10; 20]%N.
Proof. apply (percentiles_correct [30; 10; 20]%N 50 95); [discriminate|lia]. Defined.

(** ** The audit score *)

(** The rounded percentage for a number of recommended headers present. *)
Definition header_points (n : nat) : N := nth n [0; 14; 29; 43; 57; 71; 86; 100]%N 0%N.

Definition audit_points (n : nat) (cors_bad discloses : bool) : N :=
  (header_points n - (if cors_bad then 15 else 0) - (if discloses then 5 else 0))%N.

Definition risk_of_points (k : N) : string :=
  if (80 <=? k)%N then "low" else if (60 <=? k)%N then "medium" else if (40 <=? k)%N then "high" else "critical".

Lemma scan_headers_spec h hs pres miss sc :
  let kept := List.filter (fun e => has_header h e.1) hs in
  foldl (scan_header h) (pres, miss, sc) hs =
  ((pres ++ map fst kept)%list,
   (miss ++ map (fun e => mkMissingHeader e.1 e.2) (List.filter (fun e => negb (has_header h e.1)) hs))%list,
   Nat.iter (length kept) (fun x => f64_add x f64_one) sc).
Proof.
  revert pres miss sc. induction hs as [|e hs IH]; intros pres miss sc; cbn [foldl List.filter map].
  { by rewrite !app_nil_r. }
  unfold scan_header at 2. destruct (has_header h e.1); cbn [negb map length]; rewrite IH, <-app_assoc.
  - by rewrite (Nat.iter_succ_r _ (fun x => f64_add x f64_one)).
  - done.
Qed.

Lemma filter_map_fst {A B} (p : A -> bool) (l : list (A * B)) :
  map fst (List.filter (fun e => p e.1) l) = List.filter p (map fst l).
Proof. induction l as [|e l IH]; [done|]. cbn [List.filter map]. destruct (p e.1); cbn [map]; by rewrite IH. Qed.

Lemma analyze_headers_spec h :
  let ha := analyze_headers h in
  present ha = List.filter (has_header h) (map fst SECURITY_HEADERS) /\
  map mh_header (missing ha) = List.filter (fun k => negb (has_header h k)) (map fst SECURITY_HEADERS) /\
  (length (present ha) <= 7)%nat /\ score ha = f64_of_N (header_points (length (present ha))).
Proof.
  unfold analyze_headers. rewrite scan_headers_spec. cbn [present missing score app].
  rewrite map_map, !length_map. split; [apply filter_map_fst|]. cbn [mh_header].
  split; [apply (filter_map_fst (fun k => negb (has_header h k)))|].
  pose proof (filter_length_le (fun e : string * string => has_header h e.1) SECURITY_HEADERS) as Hn.
  split; [exact Hn|]. change (length SECURITY_HEADERS) with 7 in *. revert Hn.
  generalize (length (List.filter (fun e : string * string => has_header h e.1) SECURITY_HEADERS)). intros n Hn.
  do 8 (destruct n as [|n]; [by vm_compute|]). lia.
Qed.

(** The score of an audit, computed in floating point, is an exact integer
    from 0 to 100: the rounded share of the seven recommended headers that are
    present, less 15 for a CORS misconfiguration and 5 for a disclosure, not
    below 0. The risk level follows from it, and the present and the missing
    headers split the recommended ones. *)
Theorem audit_score_exact fmt0 client get_reply options url r :
  run_security_audit fmt0 client get_reply options url = Ok r ->
  let n := length (present (header_analysis r)) in
  let k := audit_points n (misconfigured (cors_analysis r)) (negb (bool_decide (information_disclosure r = []))) in
  security_score r = f64_of_N k /\ (k <= 100)%N /\ risk_level r = risk_of_points k /\
  (present (header_analysis r) ++ map mh_header (missing (header_analysis r)))%list ≡ₚ map fst SECURITY_HEADERS.
Proof.
  unfold run_security_audit. destruct client; [|done]. destruct get_reply as [h|]; [|done]. intros [= <-].
  cbn [header_analysis cors_analysis information_disclosure security_score risk_level].
  destruct (analyze_headers_spec h) as (Hp & Hm & Hn & Hs).
  remember (analyze_headers h) as ha. remember (length (present ha)) as n eqn:En. cbv zeta.
  set (k := audit_points n _ _).
  assert (audit_score ha (analyze_cors options) (find_disclosure h) = f64_of_N k /\ (k <= 100)%N /\
          audit_risk (f64_of_N k) = risk_of_points k) as (-> & ? & ?).
  { subst k. unfold audit_score. rewrite Hs.
    destruct (misconfigured (analyze_cors options)), (find_disclosure h);
      do 8 (destruct n as [|n]; [by vm_compute|]); lia. }
  split_and!; [done..|]. rewrite Hm, Hp.
  generalize (has_header h). intros p. generalize (map fst SECURITY_HEADERS). intros l.
  induction l as [|x l IH]; [done|]. cbn [List.filter]. destruct (p x); cbn [negb].
  - by rewrite <-app_comm_cons, IH.
  - by rewrite <-Permutation_middle, IH.
Qed.

Definition toy_headers (k : string) : option (option string) :=
  if String.eqb k "server" then Some (Some "nginx")
  else if String.eqb k "x-generator" then None
  else if starts_with "x-powered" k || starts_with "x-asp" k then None else Some (Some "*").

Lemma audit_score_exact_witness :
  exists r, run_security_audit (fun _ => "") (Ok tt) (Ok toy_headers) (Err "") "https://a" = Ok r /\
    security_score r = f64_of_N 95.
Proof.
  eexists. split; [vm_compute; reflexivity|].
  apply (audit_score_exact (fun _ => "") (Ok tt) (Ok toy_headers) (Err "") "https://a" _ eq_refl).
Defined.

(** A site that allows credentials from any origin, which the audit lists as a
    critical vulnerability, is rated low risk when it sends every header. *)
Example critical_vulnerability_low_risk :
  let cors := mkCorsAnalysis true true true "" in
  let ha := analyze_headers (fun _ => Some (Some "v")) in
  audit_risk (audit_score ha cors ["server: v"]) = "low" /\
  map vuln_severity (audit_vulnerabilities (fun _ => "") ha cors ["server: v"]) = ["critical"; "low"].
Proof. by vm_compute. Qed.
