(* ===== verification/Learning.v ===== *)
(** * Learning from outcomes (learning/profile.rs, capability.rs, replay.rs)

    Performance records per agent, capability scores with a trend, and the
    replay buffer. Each keeps a bounded state of an unbounded history; the
    theorems say which function of the history the state is. *)

From S2P Require Import Prelude.
From S2P Require Import F64.
From Stdlib Require Import String.
From stdpp Require Import base gmap strings numbers list.

(** A [u32] addition panics on overflow. *)
Definition u32_add (x y : N) : option N := if (x + y <=? u32_max)%N then Some (x + y)%N else None.

(** ** profile.rs *)

Record ActionRecord := mkActionRecord {
  action_type : string;
  duration : Duration;
  success : bool;
  timestamp : Instant;
}.

Definition MAX_RECORDS_PER_AGENT : nat := N.to_nat 10000.

(** [PerformanceProfile] *)
Abbreviation PerformanceProfile := (gmap string (list ActionRecord)).
Definition PerformanceProfile_new : PerformanceProfile := ∅.

Definition record (p : PerformanceProfile) (agent_key action : string) (d : Duration) (ok : bool)
    (now : Instant) : PerformanceProfile :=
  let records := default [] (p !! agent_key) in
  let records := if (MAX_RECORDS_PER_AGENT <=? length records)%nat
                 then drain_range records 0 (length records - MAX_RECORDS_PER_AGENT + 1) else records in
  <[agent_key := records ++ [mkActionRecord action d ok now]]> p.

Definition success_rate (p : PerformanceProfile) (agent_key : string) : option f64 :=
  match p !! agent_key with
  | None | Some [] => None
  | Some records =>
      Some (f64_div (f64_of_nat (length (List.filter success records))) (f64_of_nat (length records)))
  end.

Definition of_action (action : string) (r : ActionRecord) : bool := String.eqb (action_type r) action.

Definition success_rate_for_action (p : PerformanceProfile) (agent_key action : string) : option f64 :=
  match p !! agent_key with
  | None => None
  | Some records =>
      let total := length (List.filter (of_action action) records) in
      if (total =? 0)%nat then None
      else Some (f64_div (f64_of_nat (length (List.filter (fun r => of_action action r && success r) records)))
                   (f64_of_nat total))
  end.

(** [Duration] overflows beyond 2^64 - 1 seconds and 999999999 nanoseconds. *)
Definition duration_max : Duration := (u64_max * 1000000000 + 999999999)%N.
Definition duration_add (x y : Duration) : option Duration :=
  if (x + y <=? duration_max)%N then Some (x + y)%N else None.

Fixpoint duration_sum (acc : Duration) (l : list Duration) : option Duration :=
  match l with
  | [] => Some acc
  | d :: l => match duration_add acc d with Some acc => duration_sum acc l | None => None end
  end.

(** The outer [option] is a panic. *)
Definition avg_duration (p : PerformanceProfile) (agent_key : string) : option (option Duration) :=
  match p !! agent_key with
  | None | Some [] => Some None
  | Some records =>
      match duration_sum 0 (map duration records) with
      | None => None
      | Some total => Some (Some (total / N.min (N.of_nat (length records)) u32_max)%N)
      end
  end.

Definition avg_duration_for_action (p : PerformanceProfile) (agent_key action : string)
    : option (option Duration) :=
  match p !! agent_key with
  | None => Some None
  | Some records =>
      let matching := List.filter (of_action action) records in
      match duration_sum 0 (map duration matching) with
      | None => None
      | Some total =>
          if (length matching =? 0)%nat then Some None
          else Some (Some (total / N.of_nat (length matching))%N)
      end
  end.

Definition total_actions (p : PerformanceProfile) (agent_key : string) : nat :=
  match p !! agent_key with Some records => length records | None => 0 end.

(** ** capability.rs *)

Inductive Trend := Improving | Stable | Declining.

Record CapabilityScore := mkCapabilityScore {
  confidence : f64;
  successes : N;
  failures : N;
  trend : Trend;
  recent : list bool;
}.

Definition f64_half : f64 := f64_lit 1 2.
Definition CapabilityScore_new : CapabilityScore := mkCapabilityScore f64_half 0 0 Stable [].

Definition MAX_RECENT : nat := 64.
Definition window : nat := 5.

Definition update_confidence (c : CapabilityScore) : option CapabilityScore :=
  match u32_add (successes c) (failures c) with
  | None => None
  | Some total =>
      Some (if (0 <? total)%N
            then mkCapabilityScore (f64_div (f64_of_N (successes c)) (f64_of_N total)) (successes c)
                   (failures c) (trend c) (recent c)
            else c)
  end.

(** The trend the last [window] observations show against the confidence. *)
Definition trend_of (conf : f64) (observed : list bool) : Trend :=
  if (length observed <? window)%nat then Stable
  else
    let last := drop (length observed - window) observed in
    let recent_rate := f64_div (f64_of_nat (length (List.filter id last))) (f64_of_nat window) in
    let diff := f64_sub recent_rate conf in
    if f64_gt diff (f64_lit 1 10) then Improving
    else if f64_lt diff (f64_neg (f64_lit 1 10)) then Declining
    else Stable.

Definition update_trend (c : CapabilityScore) : CapabilityScore :=
  let recent := if (MAX_RECENT <? length (recent c))%nat
                then drain_range (recent c) 0 (length (recent c) - MAX_RECENT) else recent c in
  mkCapabilityScore (confidence c) (successes c) (failures c) (trend_of (confidence c) recent) recent.

Abbreviation CapabilityScorer := (gmap string CapabilityScore).
Definition CapabilityScorer_new : CapabilityScorer := ∅.

(** The body of [record_success] and [record_failure]. *)
Definition record_outcome (ok : bool) (score : CapabilityScore) : option CapabilityScore :=
  let bumped :=
    if ok then (fun s => mkCapabilityScore (confidence score) s (failures score) (trend score)
                           (recent score ++ [true])) <$> u32_add (successes score) 1
    else (fun f => mkCapabilityScore (confidence score) (successes score) f (trend score)
                     (recent score ++ [false])) <$> u32_add (failures score) 1 in
  match bumped with
  | None => None
  | Some score => update_trend <$> update_confidence score
  end.

Definition record_success (s : CapabilityScorer) (capability : string) : option CapabilityScorer :=
  (fun c => <[capability := c]> s) <$> record_outcome true (default CapabilityScore_new (s !! capability)).
Definition record_failure (s : CapabilityScorer) (capability : string) : option CapabilityScorer :=
  (fun c => <[capability := c]> s) <$> record_outcome false (default CapabilityScore_new (s !! capability)).

Definition scorer_confidence (s : CapabilityScorer) (capability : string) : f64 :=
  match s !! capability with Some c => confidence c | None => f64_half end.
Definition scorer_trend (s : CapabilityScorer) (capability : string) : Trend :=
  match s !! capability with Some c => trend c | None => Stable end.
Definition all_scores `{!HashIter string CapabilityScore} (s : CapabilityScorer)
    : list (string * CapabilityScore) := hash_iter s.

(** ** replay.rs *)

Record Experience := mkExperience {
  ex_state : string;
  ex_action : string;
  reward : f64;
  next_state : string;
  ex_priority : f64;
}.

Record ReplayBuffer := mkReplayBuffer { experiences : list Experience; max_size : nat }.
Definition ReplayBuffer_new (max_size : nat) : ReplayBuffer := mkReplayBuffer [] max_size.

(** [Vec::swap_remove]: the last element takes the place of the removed one. *)
Definition swap_remove {A} (i : nat) (l : list A) : list A :=
  match last l with
  | Some x => take (length l - 1) (<[i := x]> l)
  | None => l
  end.

Definition prio_le (a b : nat * Experience) : bool := cmp_le (ex_priority a.2) (ex_priority b.2).

Definition replay_push (b : ReplayBuffer) (e : Experience) : ReplayBuffer :=
  if (max_size b <=? length (experiences b))%nat then
    match min_by prio_le (enumerate_from 0 (experiences b)) with
    | Some (i, m) =>
        if f64_gt (ex_priority e) (ex_priority m)
        then mkReplayBuffer (swap_remove i (experiences b) ++ [e]) (max_size b)
        else b
    | None => b
    end
  else mkReplayBuffer (experiences b ++ [e]) (max_size b).

Definition is_selected (selected : list bool) (i : nat) : bool := default false (selected !! i).

Definition remaining_priority (selected : list bool) (l : list Experience) : f64 :=
  foldl (fun acc ie => if is_selected selected ie.1 then acc else f64_add acc (f64_abs (ex_priority ie.2)))
    f64_zero (enumerate_from 0 l).

(** The scan for the experience the draw [r] falls on. *)
Fixpoint choose (selected : list bool) (items : list (nat * Experience)) (r : f64) (chosen : nat) : nat :=
  match items with
  | [] => chosen
  | (i, e) :: items =>
      if is_selected selected i then choose selected items r chosen
      else
        let r := f64_sub r (f64_abs (ex_priority e)) in
        if f64_leb r f64_zero then i else choose selected items r i
  end.

(** The fallback: unselected ones in order, until [n] are there. *)
Fixpoint fill (n : nat) (selected : list bool) (items : list (nat * Experience)) (result : list nat) : list nat :=
  match items with
  | [] => result
  | (i, _) :: items =>
      if (n <=? length result)%nat then result
      else if is_selected selected i then fill n selected items result
      else fill n (<[i := true]> selected) items (result ++ [i])
  end.

(** [draw k]: the random number in [0, 1) of round [k]; results are indices. *)
Fixpoint sample_rounds (draw : nat -> f64) (n : nat) (l : list Experience) (rounds : nat)
    (selected : list bool) (result : list nat) : list nat :=
  match rounds with
  | O => result
  | S rounds' =>
      let rem := remaining_priority selected l in
      if f64_leb rem f64_zero || is_nan rem then fill n selected (enumerate_from 0 l) result
      else
        let r := f64_mul (draw (n - rounds)) rem in
        let chosen := choose selected (enumerate_from 0 l) r 0 in
        sample_rounds draw n l rounds' (<[chosen := true]> selected) (result ++ [chosen])
  end.

Definition sample_indices (draw : nat -> f64) (b : ReplayBuffer) (batch_size : nat) : list nat :=
  let l := experiences b in
  if (length l =? 0)%nat then []
  else
    let n := Nat.min batch_size (length l) in
    sample_rounds draw n l n (replicate (length l) false) [].

Definition sample (draw : nat -> f64) (b : ReplayBuffer) (batch_size : nat) : list Experience :=
  omap (fun i => experiences b !! i) (sample_indices draw b batch_size).

Definition replay_len (b : ReplayBuffer) : nat := length (experiences b).
Definition replay_is_empty (b : ReplayBuffer) : bool := bool_decide (length (experiences b) = 0).

Definition set_priority (p : f64) (e : Experience) : Experience :=
  mkExperience (ex_state e) (ex_action e) (reward e) (next_state e) p.
Definition update_priority (b : ReplayBuffer) (index : nat) (p : f64) : ReplayBuffer :=
  mkReplayBuffer (alter (set_priority p) index (experiences b)) (max_size b).

(** ** The profile is a window on the history *)

(** One call of [record]. *)
Record Outcome1 := mkOutcome1 { oc_agent : string; oc_record : ActionRecord }.

Definition record_all (l : list Outcome1) : PerformanceProfile :=
  foldl (fun p o => record p (oc_agent o) (action_type (oc_record o)) (duration (oc_record o))
                      (success (oc_record o)) (timestamp (oc_record o))) PerformanceProfile_new l.

(** The records of one agent, in order. *)
Definition agent_history (agent : string) (l : list Outcome1) : list ActionRecord :=
  map oc_record (List.filter (fun o => String.eqb (oc_agent o) agent) l).

Lemma evict_then_push {A} n (l : list A) x : n <> 0 -> length l <= n ->
  (if (n <=? length l)%nat then drain_range l 0 (length l - n + 1) else l) ++ [x] = last_n n (l ++ [x]).
Proof.
  intros Hn Hl. unfold last_n, drain_range. rewrite length_app. cbn [length].
  destruct (Nat.leb_spec n (length l)).
  - rewrite take_0. replace (length l - n + 1) with 1 by lia. replace (length l + 1 - n) with 1 by lia.
    simpl. by rewrite drop_app_le by lia.
  - replace (length l + 1 - n) with 0 by lia. done.
Qed.

Lemma record_all_history l agent :
  default [] (record_all l !! agent) = last_n MAX_RECORDS_PER_AGENT (agent_history agent l) /\
  (record_all l !! agent = None <-> agent_history agent l = []).
Proof.
  assert (MAX_RECORDS_PER_AGENT <> 0) as Hmax by (unfold MAX_RECORDS_PER_AGENT; lia).
  unfold record_all, agent_history.
  induction l as [|o l IH] using rev_ind; [simpl; unfold PerformanceProfile_new; by rewrite lookup_empty|].
  rewrite foldl_app, List.filter_app, map_app. destruct o as [a [ty d ok ts]]. cbn [foldl List.filter map].
  unfold record. cbn [oc_agent oc_record action_type duration success timestamp].
  set (p := foldl _ _ l) in *. destruct (String.eqb_spec a agent) as [->|Hne]; cbn [map oc_record].
  - rewrite lookup_insert_eq. destruct IH as [IH _]. split; [|split; [done|by intros [_ ?]%app_eq_nil]].
    cbn [default]. rewrite IH. rewrite evict_then_push; [by apply last_n_snoc|done|].
    rewrite length_last_n. lia.
  - rewrite lookup_insert_ne by done. by rewrite app_nil_r.
Qed.

(** After any sequence of recorded actions the profile answers from the
    last 10,000 records of the agent, in order: its success rate is the share
    of successes among exactly those, and it is defined iff anything was recorded. *)
Theorem success_rate_window l agent :
  success_rate (record_all l) agent =
    match last_n MAX_RECORDS_PER_AGENT (agent_history agent l) with
    | [] => None
    | w => Some (f64_div (f64_of_nat (length (List.filter success w))) (f64_of_nat (length w)))
    end /\
  total_actions (record_all l) agent = Nat.min (length (agent_history agent l)) MAX_RECORDS_PER_AGENT.
Proof.
  destruct (record_all_history l agent) as [Hw Hn]. unfold success_rate, total_actions. rewrite <-length_last_n, <-Hw.
  by destruct (record_all l !! agent) as [[|r rs]|].
Qed.

(** ** The capability score is a function of the outcomes *)

Definition score_history (h : list bool) : option CapabilityScore :=
  foldl (fun c ok => match c with Some c => record_outcome ok c | None => None end)
    (Some CapabilityScore_new) h.

Definition count_ok (h : list bool) : N := N.of_nat (length (List.filter id h)).
Definition count_bad (h : list bool) : N := N.of_nat (length (List.filter negb h)).

Lemma count_total h : (count_ok h + count_bad h)%N = N.of_nat (length h).
Proof.
  unfold count_ok, count_bad. induction h as [|[] h IH]; simpl; lia.
Qed.

Lemma last_n_window n m (h : list bool) : m <= n -> drop (length (last_n n h) - m) (last_n n h) = last_n m h.
Proof.
  intros Hm. rewrite length_last_n. unfold last_n. rewrite drop_drop. f_equal. lia.
Qed.

Lemma trend_of_last conf n h : window <= n -> trend_of conf (last_n n h) = trend_of conf h.
Proof.
  intros Hn. unfold trend_of. rewrite last_n_window by done. rewrite length_last_n.
  destruct (Nat.ltb_spec (length h) window), (Nat.ltb_spec (length h `min` n) window); try lia; done.
Qed.

(** What the state is after the outcomes [h]. *)
Record score_of (h : list bool) (c : CapabilityScore) : Prop := {
  so_successes : successes c = count_ok h;
  so_failures : failures c = count_bad h;
  so_recent : recent c = last_n MAX_RECENT h;
  so_confidence : confidence c =
    match h with [] => f64_half | _ => f64_div (f64_of_N (count_ok h)) (f64_of_nat (length h)) end;
  so_trend : trend c = trend_of (confidence c) h;
}.

Lemma count_snoc h b : count_ok (h ++ [b]) = (count_ok h + N.b2n b)%N /\
  count_bad (h ++ [b]) = (count_bad h + N.b2n (negb b))%N.
Proof.
  unfold count_ok, count_bad. rewrite !List.filter_app, !length_app. destruct b; simpl; lia.
Qed.

Lemma record_outcome_score h c ok : (N.of_nat (length h) < u32_max)%N -> score_of h c ->
  exists c', record_outcome ok c = Some c' /\ score_of (h ++ [ok]) c'.
Proof.
  intros Hlen [H1 H2 H3 H4 H5]. pose proof (count_total h) as Ht.
  destruct (count_snoc h ok) as [Hs Hb].
  assert (exists s f, (s = count_ok (h ++ [ok]) /\ f = count_bad (h ++ [ok])) /\
    record_outcome ok c = update_trend <$> update_confidence
      (mkCapabilityScore (confidence c) s f (trend c) (recent c ++ [ok]))) as (s & f & [-> ->] & E).
  { unfold record_outcome, u32_add. rewrite H1, H2. destruct ok; simpl in Hs, Hb.
    - rewrite (proj2 (N.leb_le _ _)) by lia. simpl. do 2 eexists. split; [|done]. split; lia.
    - rewrite (proj2 (N.leb_le _ _)) by lia. simpl. do 2 eexists. split; [|done]. split; lia. }
  rewrite E. clear E. pose proof (count_total (h ++ [ok])) as Ht'. rewrite length_app in Ht'. simpl in Ht'.
  unfold update_confidence, u32_add. simpl. rewrite (proj2 (N.leb_le _ _)) by lia.
  rewrite (proj2 (N.ltb_lt _ _)) by lia. eexists. split; [reflexivity|].
  assert ((if (MAX_RECENT <? length (recent c ++ [ok]))%nat
           then drain_range (recent c ++ [ok]) 0 (length (recent c ++ [ok]) - MAX_RECENT)
           else recent c ++ [ok]) = last_n MAX_RECENT (h ++ [ok])) as Hrec.
  { rewrite <-last_n_snoc by done. rewrite <-H3, <-last_n_trim.
    by destruct (Nat.ltb_spec MAX_RECENT (length (recent c ++ [ok]))),
      (Nat.leb_spec (length (recent c ++ [ok])) MAX_RECENT); try lia. }
  unfold update_trend; split; simpl; rewrite ?Hrec; try done.
  - rewrite Ht'. destruct h; simpl; unfold f64_of_nat; do 2 f_equal; rewrite ?length_app; simpl; lia.
  - apply trend_of_last. unfold window, MAX_RECENT. lia.
Qed.

Lemma score_history_ok h : (N.of_nat (length h) <= u32_max)%N -> exists c, score_history h = Some c /\ score_of h c.
Proof.
  unfold score_history. induction h as [|b h IH] using rev_ind; intros Hl.
  - eexists. split; [done|]. by split.
  - rewrite length_app in Hl. simpl in Hl. destruct IH as (c & Hc & Hsc); [lia|].
    rewrite foldl_app, Hc. simpl. apply record_outcome_score; [lia|done].
Qed.

(** Up to 2^32 - 1 outcomes a capability score never panics and depends on
    the outcomes alone: the confidence is the share of successes in the whole
    history, the trend compares the last five outcomes with it, and at most 64
    outcomes are kept. *)
Theorem capability_score_correct h : (N.of_nat (length h) <= u32_max)%N ->
  exists c, score_history h = Some c /\
    (h <> [] -> confidence c = f64_div (f64_of_N (count_ok h)) (f64_of_nat (length h))) /\
    trend c = trend_of (confidence c) h /\ recent c = last_n MAX_RECENT h.
Proof.
  intros Hl. destruct (score_history_ok h Hl) as (c & Hc & [_ _ H3 H4 H5]). exists c.
  split_and!; [done| |done|done]. intros Hne. rewrite H4. by destruct h.
Qed.

Lemma capability_score_correct_witness :
  exists c, score_history [true; true; false; true; true; true] = Some c /\
    trend c = trend_of (confidence c) [true; true; false; true; true; true].
Proof.
  destruct (capability_score_correct [true; true; false; true; true; true] ltac:(by vm_compute))
    as (c & Hc & _ & Ht & _).
  exists c. split; [exact Hc|exact Ht].
Defined.

(** ** The replay buffer keeps the best *)

Definition push_all (max : nat) (l : list Experience) : ReplayBuffer := foldl replay_push (ReplayBuffer_new max) l.

Definition prio_ok (e : Experience) : Prop := is_nan (ex_priority e) = false.
Definition prio_leq (a b : Experience) : Prop := cmp_le (ex_priority a) (ex_priority b) = true.

Lemma swap_remove_perm {A} i (l : list A) m : l !! i = Some m -> l ≡ₚ m :: swap_remove i l.
Proof.
  intros Hi. unfold swap_remove. destruct l as [|x l _] using rev_ind; [done|].
  rewrite last_snoc, length_app. simpl. replace (length l + 1 - 1) with (length l) by lia.
  destruct (decide (i = length l)) as [->|Hne].
  - rewrite list_lookup_middle in Hi by done. injection Hi as ->.
    rewrite list_insert_id by (by apply list_lookup_middle). rewrite take_app_length. apply Permutation_app_comm.
  - assert (i < length l) as Hlt.
    { apply lookup_lt_Some in Hi. rewrite length_app in Hi. simpl in Hi. lia. }
    rewrite lookup_app_l in Hi by done. rewrite insert_app_l by done.
    rewrite take_app_length' by (by rewrite length_insert).
    rewrite <-(take_drop_middle l i m Hi) at 1. rewrite insert_take_drop by done.
    rewrite <-app_assoc. simpl. rewrite <-Permutation_middle. constructor.
    apply Permutation_app_head. by rewrite Permutation_app_comm.
Qed.

Lemma prio_le_props :
  (forall x y, prio_ok x.2 -> prio_ok y.2 -> prio_le x y = true \/ prio_le y x = true) /\
  (forall x y z, prio_ok x.2 -> prio_ok y.2 -> prio_ok z.2 ->
     prio_le x y = true -> prio_le y z = true -> prio_le x z = true).
Proof.
  split; [intros x y; apply cmp_le_total|intros x y z; apply cmp_le_trans].
Qed.

(** The element the full buffer compares with is a least one. *)
Lemma min_entry l i m : Forall prio_ok l -> min_by prio_le (enumerate_from 0 l) = Some (i, m) ->
  l !! i = Some m /\ forall e, e ∈ l -> prio_leq m e.
Proof.
  intros Hok Hm. pose proof (min_by_elem _ _ _ Hm) as Hin.
  destruct prio_le_props as [Htot Htr].
  assert (Forall (fun x => prio_ok x.2) (enumerate_from 0 l)) as Hoke.
  { apply Forall_forall. intros [j x] [_ Hx]%enumerate_from_lookup. by eapply Forall_lookup_1 in Hok. }
  split.
  - apply enumerate_from_lookup in Hin as [_ Hj]. by rewrite Nat.sub_0_r in Hj.
  - intros e He. rewrite <-(enumerate_from_snd 0 l) in He. apply list_elem_of_fmap in He as (x & -> & Hx).
    apply (min_by_lower prio_le (fun x => prio_ok x.2) Htot Htr _ _ x Hoke Hm Hx).
Qed.

(** Kept and dropped experiences after pushing [l]. *)
Record kept_best (max : nat) (l : list Experience) (b : ReplayBuffer) (dropped : list Experience) : Prop := {
  kb_perm : experiences b ++ dropped ≡ₚ l;
  kb_max : max_size b = max;
  kb_len : length (experiences b) = Nat.min (length l) max;
  kb_best : forall d k, d ∈ dropped -> k ∈ experiences b -> prio_leq d k;
}.

Lemma replay_push_best max l b dropped e : 0 < max -> Forall prio_ok (l ++ [e]) -> kept_best max l b dropped ->
  exists dropped', kept_best max (l ++ [e]) (replay_push b e) dropped'.
Proof.
  intros Hpos Hok [Hp Hm Hl Hb]. apply Forall_app in Hok as [Hokl [He _]%Forall_cons].
  assert (Forall prio_ok (experiences b ++ dropped)) as [Hokb Hokd]%Forall_app by (by rewrite Hp).
  assert (length (experiences b) + length dropped = length l) as Hlen.
  { rewrite <-Hp, length_app. done. }
  unfold replay_push. rewrite Hm. destruct (Nat.leb_spec max (length (experiences b))) as [Hfull|Hroom].
  2:{ exists []. assert (dropped = []) as -> by (destruct dropped; [done|simpl in *; lia]).
      rewrite app_nil_r in Hp. split; simpl; [by rewrite app_nil_r, Hp|done|rewrite !length_app; simpl; lia|].
      by intros d k ?%not_elem_of_nil. }
  destruct (min_by prio_le (enumerate_from 0 (experiences b))) as [[i m]|] eqn:E.
  2:{ apply min_by_None in E. destruct (experiences b); simpl in *; [lia|done]. }
  destruct (min_entry _ _ _ Hokb E) as [Hi Hmin].
  assert (prio_ok m) as Hokm by exact (Forall_lookup_1 _ _ _ _ Hokb Hi).
  assert (f64_gt (ex_priority e) (ex_priority m) = negb (cmp_le (ex_priority e) (ex_priority m))) as Hgt.
  { by apply f64_lt_not_le. }
  destruct (f64_gt (ex_priority e) (ex_priority m)) eqn:Eg; symmetry in Hgt.
  - apply negb_true_iff in Hgt. assert (prio_leq m e) as Hme.
    { destruct (cmp_le_total (ex_priority m) (ex_priority e)) as [?|?]; [done|done|done|congruence]. }
    pose proof (swap_remove_perm i _ m Hi) as Hsw. exists (m :: dropped).
    generalize dependent (swap_remove i (experiences b)). intros rest Hsw. split; simpl.
    + rewrite <-Hp, Hsw. solve_Permutation.
    + done.
    + apply Permutation_length in Hsw. simpl in Hsw. rewrite !length_app. simpl. lia.
    + assert (forall k, k ∈ rest -> k ∈ experiences b) as Hsub.
      { intros k Hk. rewrite Hsw. by right. }
      assert (m ∈ experiences b) as Hmin' by (rewrite Hsw; left).
      intros d k [->|Hd]%elem_of_cons [Hk| ->%list_elem_of_singleton]%elem_of_app; auto.
      apply (cmp_le_trans _ (ex_priority m)); [|done|done|by apply Hb|done].
      rewrite Forall_forall in Hokd. by apply Hokd.
  - apply negb_false_iff in Hgt. exists (e :: dropped). split; simpl; [|done| |].
    + by rewrite <-Permutation_middle, Hp, Permutation_app_comm.
    + rewrite length_app. simpl. lia.
    + intros d k [->|Hd]%elem_of_cons Hk; [|auto].
      apply (cmp_le_trans _ (ex_priority m)); [done|done| |done|by apply Hmin].
      rewrite Forall_forall in Hokb. by apply Hokb.
Qed.

(** The replay buffer is a top-k selection: after pushing any experiences
    with comparable priorities, a buffer of capacity [max > 0] holds
    [min(n, max)] of them, and none it dropped has a higher priority than one it kept. *)
Theorem replay_keeps_best max l : 0 < max -> Forall prio_ok l ->
  exists dropped, experiences (push_all max l) ++ dropped ≡ₚ l /\
    replay_len (push_all max l) = Nat.min (length l) max /\
    forall d k, d ∈ dropped -> k ∈ experiences (push_all max l) -> prio_leq d k.
Proof.
  intros Hpos Hok. enough (exists dropped, kept_best max l (push_all max l) dropped) as (dr & [H1 _ H3 H4]).
  { by exists dr. }
  unfold push_all. induction l as [|e l IH] using rev_ind.
  - exists []. split; simpl; try done. by intros d k ?%not_elem_of_nil.
  - rewrite foldl_app. simpl. destruct IH as [dr Hd]; [by apply Forall_app in Hok as [? _]|].
    by eapply replay_push_best.
Qed.

(** ** Sampling *)

Lemma choose_unselected selected items r c0 :
  (exists i e, (i, e) ∈ items /\ is_selected selected i = false) ->
  exists e, (choose selected items r c0, e) ∈ items /\ is_selected selected (choose selected items r c0) = false.
Proof.
  assert (forall items r c0, choose selected items r c0 = c0 \/
    exists e, (choose selected items r c0, e) ∈ items /\ is_selected selected (choose selected items r c0) = false) as Hgen.
  { clear. intros items. induction items as [|[i e] items IH]; intros r c0; simpl; [by left|].
    destruct (is_selected selected i) eqn:Ei.
    - destruct (IH r c0) as [?|(e' & ? & ?)]; [by left|]. right. exists e'. split; [by right|done].
    - destruct (f64_leb _ _); [right; exists e; split; [left|done]|].
      destruct (IH (f64_sub r (f64_abs (ex_priority e))) i) as [->|(e' & ? & ?)].
      + right. exists e. split; [left|done].
      + right. exists e'. split; [by right|done]. }
  revert r c0. induction items as [|[i e] items IH]; intros r c0 (i0 & e0 & Hin & Hsel); [by apply not_elem_of_nil in Hin|].
  simpl. destruct (is_selected selected i) eqn:Ei.
  - destruct (IH r c0) as (e' & ? & ?).
    { apply elem_of_cons in Hin as [[= -> ->]|Hin]; [congruence|]. by exists i0, e0. }
    exists e'. split; [by right|done].
  - destruct (f64_leb _ _); [exists e; split; [left|done]|].
    destruct (Hgen items (f64_sub r (f64_abs (ex_priority e))) i) as [->|(e' & ? & ?)].
    + exists e. split; [left|done].
    + exists e'. split; [by right|done].
Qed.

(** The marks are exactly the indices sampled so far. *)
Record sampled (len : nat) (selected : list bool) (result : list nat) : Prop := {
  sm_len : length selected = len;
  sm_nodup : NoDup result;
  sm_mark : forall i, i < len -> is_selected selected i = bool_decide (i ∈ result);
  sm_bound : forall i, i ∈ result -> i < len;
}.

Lemma sampled_add len selected result i : sampled len selected result -> i < len ->
  is_selected selected i = false -> sampled len (<[i := true]> selected) (result ++ [i]).
Proof.
  intros [H1 H2 H3 H4] Hi Hs. split.
  - by rewrite length_insert.
  - apply NoDup_app. split_and!; [done| |apply NoDup_singleton]. intros x Hx ->%list_elem_of_singleton.
    rewrite H3, bool_decide_eq_false in Hs by done. done.
  - intros j Hj. unfold is_selected. destruct (decide (j = i)) as [->|Hne].
    + rewrite list_lookup_insert_eq by lia. simpl. symmetry. apply bool_decide_eq_true.
      apply elem_of_app. right. left.
    + rewrite list_lookup_insert_ne by done. fold (is_selected selected j). rewrite H3 by done.
      apply bool_decide_ext. rewrite elem_of_app, list_elem_of_singleton. naive_solver.
  - intros j [Hj| ->%list_elem_of_singleton]%elem_of_app; auto.
Qed.

(** Fewer samples than experiences leave one unselected. *)
Lemma sampled_room len selected result : sampled len selected result -> length result < len ->
  exists i, i < len /\ is_selected selected i = false.
Proof.
  intros [H1 H2 H3 H4] Hlt. destruct (decide (Forall (fun i => i ∈ result) (seq 0 len))) as [Hall|Hn].
  - exfalso. assert (seq 0 len ⊆+ result) as Hsub.
    { apply NoDup_submseteq; [apply NoDup_seq|]. by apply Forall_forall. }
    apply submseteq_length in Hsub. rewrite length_seq in Hsub. lia.
  - apply not_Forall_Exists in Hn; [|intros ?; apply _]. apply Exists_exists in Hn as (i & Hi%elem_of_seq & Hni).
    exists i. split; [lia|]. rewrite H3 by lia. by apply bool_decide_eq_false.
Qed.

Lemma enumerate_elem {A} (l : list A) i : i < length l -> exists e, (i, e) ∈ enumerate_from 0 l.
Proof.
  intros Hi. destruct (lookup_lt_is_Some_2 l i Hi) as [e He]. exists e.
  assert (forall k, (k + i, e) ∈ enumerate_from k l) as H; [|apply (H 0)].
  clear Hi. revert i He. induction l as [|x l IH]; intros [|i] He k; simplify_eq/=.
  - rewrite Nat.add_0_r. left.
  - right. replace (k + S i) with (S k + i) by lia. by apply IH.
Qed.
Lemma enumerate_bound {A} (l : list A) i e : (i, e) ∈ enumerate_from 0 l -> i < length l.
Proof. intros [_ H%lookup_lt_Some]%enumerate_from_lookup. lia. Qed.

Lemma fill_sampled len n items selected result : sampled len selected result -> length result <= n ->
  (forall i e, (i, e) ∈ items -> i < len) ->
  exists selected', sampled len selected' (fill n selected items result) /\
    length (fill n selected items result) <= n /\
    (forall i, i ∈ result -> i ∈ fill n selected items result) /\
    (length (fill n selected items result) = n \/ forall i e, (i, e) ∈ items -> i ∈ fill n selected items result).
Proof.
  revert selected result. induction items as [|[i e] items IH]; intros selected result Hs Hn Hb; simpl.
  { exists selected. split_and!; [done|done|done|]. right. by intros i e ?%not_elem_of_nil. }
  destruct (Nat.leb_spec n (length result)) as [Hle|Hlt].
  { exists selected. split_and!; [done|done|done|]. left. lia. }
  assert (i < len) as Hi by (eapply Hb; left).
  assert (forall i e, (i, e) ∈ items -> i < len) as Hb' by (intros j e' Hj; eapply Hb; by right).
  destruct (is_selected selected i) eqn:Ei.
  - destruct (IH selected result Hs Hn Hb') as (sel' & H1 & H2 & H3 & H4). exists sel'.
    split_and!; [done|done|done|]. destruct H4 as [?|H4]; [by left|]. right.
    intros j e' [[= -> ->]|Hj]%elem_of_cons; [|by eapply H4]. apply H3.
    rewrite (sm_mark _ _ _ Hs) in Ei by done. by apply bool_decide_eq_true in Ei.
  - destruct (IH (<[i := true]> selected) (result ++ [i])) as (sel' & H1 & H2 & H3 & H4).
    + by apply sampled_add.
    + rewrite length_app. simpl. lia.
    + done.
    + exists sel'. split_and!; [done|done|intros j Hj; apply H3, elem_of_app; by left|].
      destruct H4 as [?|H4]; [by left|]. right. intros j e' [[= -> ->]|Hj]%elem_of_cons; [|by eapply H4].
      apply H3, elem_of_app. right. left.
Qed.

Lemma sampled_all len selected result : sampled len selected result -> (forall i, i < len -> i ∈ result) ->
  length result = len.
Proof.
  intros [_ H2 _ H4] Hall. apply Nat.le_antisymm.
  - assert (result ⊆+ seq 0 len) as Hsub.
    { apply NoDup_submseteq; [done|]. intros i Hi. apply elem_of_seq. apply H4 in Hi. lia. }
    apply submseteq_length in Hsub. by rewrite length_seq in Hsub.
  - assert (seq 0 len ⊆+ result) as Hsub.
    { apply NoDup_submseteq; [apply NoDup_seq|]. intros i Hi%elem_of_seq. apply Hall. lia. }
    apply submseteq_length in Hsub. by rewrite length_seq in Hsub.
Qed.

Lemma sample_rounds_ok draw n l rounds selected result :
  n <= length l -> length result + rounds = n -> sampled (length l) selected result ->
  exists selected', sampled (length l) selected' (sample_rounds draw n l rounds selected result) /\
    length (sample_rounds draw n l rounds selected result) = n.
Proof.
  intros Hn. revert selected result. induction rounds as [|rounds IH]; intros selected result Hlen Hs.
  { exists selected. split; [done|simpl; lia]. }
  cbn [sample_rounds]. destruct (f64_leb _ f64_zero || is_nan _).
  - destruct (fill_sampled (length l) n (enumerate_from 0 l) selected result) as (sel' & H1 & H2 & _ & H4).
    + done.
    + lia.
    + intros i e. apply enumerate_bound.
    + exists sel'. split; [done|]. destruct H4 as [?|H4]; [done|].
      assert (length (fill n selected (enumerate_from 0 l) result) = length l) as Hall; [|lia].
      apply (sampled_all _ sel'); [done|]. intros i Hi. destruct (enumerate_elem l i Hi) as [e He]. by eapply H4.
  - destruct (sampled_room _ _ _ Hs) as (i & Hi & Hsel); [lia|].
    destruct (enumerate_elem l i Hi) as [e He].
    destruct (choose_unselected selected (enumerate_from 0 l)
      (f64_mul (draw (n - S rounds)) (remaining_priority selected l)) 0) as (e' & Hin & Hu); [by exists i, e|].
    apply IH; [rewrite length_app; simpl; lia|]. apply sampled_add; [done| |done]. by eapply enumerate_bound.
Qed.

(** Whatever the random draws and the priorities are (zero, negative,
    infinite or NaN), a sample holds [min(batch, len)] experiences of the
    buffer at pairwise different positions. *)
Theorem sample_distinct draw b batch :
  NoDup (sample_indices draw b batch) /\
  length (sample draw b batch) = Nat.min batch (replay_len b) /\
  forall e, e ∈ sample draw b batch -> e ∈ experiences b.
Proof.
  assert (NoDup (sample_indices draw b batch) /\
    length (sample_indices draw b batch) = Nat.min batch (length (experiences b)) /\
    forall i, i ∈ sample_indices draw b batch -> i < length (experiences b)) as (H1 & H2 & H3).
  { unfold sample_indices. destruct (Nat.eqb_spec (length (experiences b)) 0) as [E|E].
    { rewrite E. split_and!; [constructor|simpl; lia|by intros i ?%not_elem_of_nil]. }
    destruct (sample_rounds_ok draw (Nat.min batch (length (experiences b))) (experiences b)
      (Nat.min batch (length (experiences b))) (replicate (length (experiences b)) false) [])
      as (sel' & [S1 S2 S3 S4] & Hl); [lia|done| |done].
    split; [apply length_replicate|constructor| |by intros i ?%not_elem_of_nil].
    intros i Hi. unfold is_selected. by rewrite lookup_replicate_2. }
  unfold sample. split_and!; [done| |].
  - unfold replay_len. rewrite <-H2. clear H1 H2. revert H3. generalize (sample_indices draw b batch).
    intros is_. induction is_ as [|i is_ IH]; intros H; [done|]. cbn [omap list_omap].
    destruct (lookup_lt_is_Some_2 (experiences b) i) as [e He]; [apply H; left|]. rewrite He. simpl. f_equal.
    apply IH. intros j Hj. apply H. by right.
  - intros e (i & _ & He)%list_elem_of_omap. by eapply list_elem_of_lookup_2.
Qed.

(** ** Examples *)

Definition exp_of (p : N) : Experience := mkExperience "s" "a" f64_one "t" (f64_of_N p).

Example replay_evicts_lowest :
  map ex_priority (experiences (push_all 3 (map exp_of [5; 1; 4; 2; 9]%N))) = map f64_of_N [5; 4; 9]%N.
Proof. vm_compute. reflexivity. Qed.

(** A buffer of capacity zero stays empty. *)
Example replay_capacity_zero : experiences (push_all 0 (map exp_of [5; 1]%N)) = [].
Proof. reflexivity. Qed.

Lemma replay_keeps_best_witness :
  exists dropped, experiences (push_all 2 (map exp_of [5; 1; 4]%N)) ++ dropped ≡ₚ map exp_of [5; 1; 4]%N.
Proof.
  destruct (replay_keeps_best 2 (map exp_of [5; 1; 4]%N)) as (dr & H & _).
  - lia.
  - repeat constructor.
  - exists dr. exact H.
Defined.
