(* ===== verification/Bandits.v ===== *)
(** * Q-learning and UCB1 (learning/optimizer.rs, learning/strategy.rs)

    The tabular learner stores values under interned string ids; it is shown to
    implement a plain table of pairs of strings. The bandit explores every arm
    once, in order, before it compares bounds. *)

From S2P Require Import Prelude.
From S2P Require Import F64.
From S2P Require Import Learning.
From Stdlib Require Import SpecFloat String.
From stdpp Require Import base gmap strings numbers list.

(** ** optimizer.rs *)

Record StringInterner := mkStringInterner { intern_map : gmap string N; next_id : N }.
Definition StringInterner_new : StringInterner := mkStringInterner ∅ 0.

(** [expect] panics when the ids are exhausted. *)
Definition intern (it : StringInterner) (s : string) : option (N * StringInterner) :=
  match intern_map it !! s with
  | Some id => Some (id, it)
  | None =>
      match u32_add (next_id it) 1 with
      | None => None
      | Some next => Some (next_id it, mkStringInterner (<[s := next_id it]> (intern_map it)) next)
      end
  end.

Record QLearner := mkQLearner {
  q_table : gmap (N * N) f64;
  interner : StringInterner;
  learning_rate : f64;
  discount_factor : f64;
}.
Definition QLearner_new (lr gamma : f64) : QLearner := mkQLearner ∅ StringInterner_new lr gamma.

Definition get_value (q : QLearner) (state action : string) : f64 :=
  match intern_map (interner q) !! state, intern_map (interner q) !! action with
  | Some s, Some a => default f64_zero (q_table q !! (s, a))
  | _, _ => f64_zero
  end.

Definition max_next_q (q : QLearner) (next_state : string) (next_actions : list string) : f64 :=
  foldl f64_max f64_zero (map (get_value q next_state) next_actions).

(** The value [update] writes. *)
Definition td_update (q : QLearner) (state action : string) (reward : f64) (next_state : string)
    (next_actions : list string) : f64 :=
  let current_q := get_value q state action in
  let td_target := f64_add reward (f64_mul (discount_factor q) (max_next_q q next_state next_actions)) in
  f64_add current_q (f64_mul (learning_rate q) (f64_sub td_target current_q)).

Definition q_update (q : QLearner) (state action : string) (reward : f64) (next_state : string)
    (next_actions : list string) : option QLearner :=
  let new_q := td_update q state action reward next_state next_actions in
  match intern (interner q) state with
  | None => None
  | Some (s_id, it1) =>
      match intern it1 action with
      | None => None
      | Some (a_id, it2) =>
          Some (mkQLearner (<[(s_id, a_id) := new_q]> (q_table q)) it2 (learning_rate q) (discount_factor q))
      end
  end.

Definition best_action (q : QLearner) (state : string) (actions : list string) : option string :=
  max_by (fun a b => cmp_le (get_value q state a) (get_value q state b)) actions.

(** ** strategy.rs *)

Record ArmStats := mkArmStats { arm_name : string; total_reward : f64; arm_pulls : N }.

Definition mean_reward (a : ArmStats) : f64 :=
  if (arm_pulls a =? 0)%N then f64_zero else f64_div (total_reward a) (f64_of_N (arm_pulls a)).

(** [Ucb1]: the arms. *)
Definition Ucb1_new (names : list string) : list ArmStats := map (fun n => mkArmStats n f64_zero 0) names.

Section ucb1.
Context (ln : f64 -> f64).   (* [f64::ln] *)

Definition ucb_value (total_rounds : N) (a : ArmStats) : f64 :=
  f64_add (mean_reward a)
    (f64_sqrt (f64_div (f64_mul (f64_of_N 2) (ln (f64_of_N total_rounds))) (f64_of_N (arm_pulls a)))).

Fixpoint first_unexplored (i : nat) (arms : list ArmStats) : option nat :=
  match arms with
  | [] => None
  | a :: arms => if (arm_pulls a =? 0)%N then Some i else first_unexplored (S i) arms
  end.

Definition select (arms : list ArmStats) (total_rounds : N) : option nat :=
  if (length arms =? 0)%nat then None
  else match first_unexplored 0 arms with
  | Some i => Some i
  | None =>
      if (total_rounds =? 0)%N then Some 0
      else fst <$> max_by (fun a b => cmp_le a.2 b.2)
             (map (fun ia => (ia.1, ucb_value total_rounds ia.2)) (enumerate_from 0 arms))
  end.
End ucb1.

(** [None] when the counter overflows. *)
Definition arm_update (arms : list ArmStats) (arm : nat) (r : f64) : option (list ArmStats) :=
  match arms !! arm with
  | None => Some arms
  | Some a =>
      match u32_add (arm_pulls a) 1 with
      | None => None
      | Some n => Some (<[arm := mkArmStats (arm_name a) (f64_add (total_reward a) r) n]> arms)
      end
  end.

Definition best_arm (arms : list ArmStats) : option nat :=
  fst <$> max_by (fun a b => cmp_le (mean_reward a.2) (mean_reward b.2)) (enumerate_from 0 arms).

Definition arm_count (arms : list ArmStats) : nat := length arms.

(** ** The learner implements a table of pairs of strings *)

Record interner_ok (it : StringInterner) : Prop := {
  io_inj : forall s t i, intern_map it !! s = Some i -> intern_map it !! t = Some i -> s = t;
  io_bound : forall s i, intern_map it !! s = Some i -> (i < next_id it)%N;
}.

Record learner_ok (q : QLearner) : Prop := {
  lo_interner : interner_ok (interner q);
  lo_keys : forall s a v, q_table q !! (s, a) = Some v ->
    (s < next_id (interner q))%N /\ (a < next_id (interner q))%N;
}.

(** [it'] knows the strings of [it] under their ids, and others under new ids. *)
Record extends (it it' : StringInterner) : Prop := {
  ex_next : (next_id it <= next_id it')%N;
  ex_old : forall x i, intern_map it !! x = Some i -> intern_map it' !! x = Some i;
  ex_new : forall x i, intern_map it' !! x = Some i -> intern_map it !! x = Some i \/
    (intern_map it !! x = None /\ (next_id it <= i)%N);
}.

Lemma extends_trans it1 it2 it3 : extends it1 it2 -> extends it2 it3 -> extends it1 it3.
Proof.
  intros [A1 A2 A3] [B1 B2 B3]. split; [lia|auto|]. intros x i Hx.
  destruct (B3 x i Hx) as [H|[H ?]]; [by apply A3|]. right. split; [|lia].
  destruct (intern_map it1 !! x) as [j|] eqn:E; [apply A2 in E; congruence|done].
Qed.

Lemma intern_spec it s id it' : interner_ok it -> intern it s = Some (id, it') ->
  interner_ok it' /\ intern_map it' !! s = Some id /\ extends it it'.
Proof.
  intros [Hinj Hb]. unfold intern. destruct (intern_map it !! s) as [i|] eqn:E.
  { intros [= <- <-]. split_and!; [done|done|]. split; auto; lia. }
  unfold u32_add. destruct (_ <=? _)%N; [|done]. intros [= <- <-].
  split_and!; [|simpl; by rewrite lookup_insert_eq|]; split; simpl.
  - intros x y i [[<- <-]|[? Hx]]%lookup_insert_Some [[<- Hi]|[? Hy]]%lookup_insert_Some; eauto.
    + apply Hb in Hy. lia.
    + subst. apply Hb in Hx. lia.
  - intros x i [[<- <-]|[? Hx]]%lookup_insert_Some; [lia|]. apply Hb in Hx. lia.
  - lia.
  - intros x i Hx. rewrite lookup_insert_ne; [done|congruence].
  - intros x i [[<- <-]|[? Hx]]%lookup_insert_Some; [right; split; [done|lia]|by left].
Qed.

Lemma intern_room it s : (next_id it < u32_max)%N ->
  exists id it', intern it s = Some (id, it') /\ (next_id it' <= next_id it + 1)%N.
Proof.
  intros H. unfold intern, u32_add. destruct (intern_map it !! s) as [i|]; [do 2 eexists; split; [done|lia]|].
  rewrite (proj2 (N.leb_le _ _)) by lia. do 2 eexists. split; [done|]. simpl. lia.
Qed.

(** A pair with an id the table has never seen is not in it. *)
Lemma unseen_pair q s a : learner_ok q ->
  (next_id (interner q) <= s \/ next_id (interner q) <= a)%N -> q_table q !! (s, a) = None.
Proof.
  intros [_ Hk] H. destruct (q_table q !! (s, a)) eqn:E; [|done]. apply Hk in E. lia.
Qed.

Lemma get_value_extend q it st ac s_id a_id : learner_ok q -> interner_ok it -> extends (interner q) it ->
  intern_map it !! st = Some s_id -> intern_map it !! ac = Some a_id ->
  forall v s a, get_value (mkQLearner (<[(s_id, a_id) := v]> (q_table q)) it (learning_rate q) (discount_factor q)) s a =
    if decide (s = st /\ a = ac) then v else get_value q s a.
Proof.
  intros Hq Hit [_ Hold Hnew] Hs Ha v s a. unfold get_value. simpl.
  destruct (decide (s = st /\ a = ac)) as [[-> ->]|Hne].
  { rewrite Hs, Ha, lookup_insert_eq. done. }
  destruct (intern_map it !! s) as [i|] eqn:Ei; [|].
  - destruct (intern_map it !! a) as [j|] eqn:Ej.
    + rewrite lookup_insert_ne.
      2:{ intros [= -> ->]. apply Hne. split; by eapply (io_inj it). }
      destruct (Hnew s i Ei) as [Hi|[Hi Hi']]; destruct (Hnew a j Ej) as [Hj|[Hj Hj']]; rewrite ?Hi, ?Hj;
        try done; rewrite unseen_pair by auto; done.
    + destruct (intern_map (interner q) !! a) as [j|] eqn:Ej'; [apply Hold in Ej'; congruence|].
      by destruct (intern_map (interner q) !! s).
  - destruct (intern_map (interner q) !! s) as [j|] eqn:Ej'; [apply Hold in Ej'; congruence|]. done.
Qed.

(** [f64::max] of a number and anything: a number, at least both. *)
Lemma f64_max_number x y : is_nan x = false ->
  is_nan (f64_max x y) = false /\ (f64_max x y = x \/ f64_max x y = y) /\ cmp_le x (f64_max x y) = true /\
  (is_nan y = false -> cmp_le y (f64_max x y) = true).
Proof.
  intros Hx. destruct (is_nan y) eqn:Hy.
  { assert (f64_max x y = x) as ->.
    { unfold f64_max, partial_cmp. destruct y; try done. destruct x as [[]|[]| |[]]; done. }
    split_and!; [done|by left|by destruct (cmp_le_total x x)|done]. }
  assert (f64_max x y = if cmp_le y x then x else y) as Hm.
  { pose proof (f64_lt_not_le x y Hx Hy) as Hlt. unfold f64_lt, SFltb in Hlt. unfold f64_max, partial_cmp.
    pose proof (partial_cmp_okey x y Hx Hy) as Hc. unfold partial_cmp in Hc. rewrite Hc in *.
    destruct (lex3 (okey x) (okey y)), (cmp_le y x); done. }
  rewrite Hm. destruct (cmp_le y x) eqn:E.
  - split_and!; [done|by left|by destruct (cmp_le_total x x)|done].
  - split_and!; [done|by right|destruct (cmp_le_total x y) as [?|?]; [done|done|done|congruence]|intros _; by destruct (cmp_le_total y y)].
Qed.

(** The fold: the greatest of its start and the numbers in the list. *)
Lemma f64_max_fold l x : is_nan x = false ->
  let m := foldl f64_max x l in
  is_nan m = false /\ (m = x \/ m ∈ l) /\ cmp_le x m = true /\
  forall v, v ∈ l -> is_nan v = false -> cmp_le v m = true.
Proof.
  revert x. induction l as [|y l IH]; intros x Hx; cbn [foldl].
  { split_and!; [done|by left|by destruct (cmp_le_total x x)|by intros v ?%not_elem_of_nil]. }
  destruct (f64_max_number x y Hx) as (Hn & Hor & Hle & Hy). destruct (IH _ Hn) as (H1 & H2 & H3 & H4).
  split_and!; [done| | |].
  - destruct H2 as [->|?]; [|right; by right]. destruct Hor as [->| ->]; [by left|right; by left].
  - eapply cmp_le_trans; [| | |exact Hle|exact H3]; done.
  - intros v [->|Hv]%elem_of_cons Hnv; [|by apply H4]. eapply cmp_le_trans; [| | |by apply Hy|exact H3]; done.
Qed.


(** Starting from nothing. *)
Lemma learner_new_ok lr gamma : learner_ok (QLearner_new lr gamma).
Proof.
  split; [split|]; simpl.
  - intros s t i. by rewrite lookup_empty.
  - intros s i. by rewrite lookup_empty.
  - intros s a v. by rewrite lookup_empty.
Qed.

(** The documented update takes the maximum over the next actions; the fold
    starts at zero, so a next state whose values are all negative counts as zero. *)
Example negative_future_counts_as_zero :
  match q_update (QLearner_new f64_one f64_one) "s2" "a" (f64_neg f64_one) "end" [] with
  | Some q => get_value q "s2" "a" = f64_neg f64_one /\ td_update q "s1" "a" f64_zero "s2" ["a"%string] = f64_zero
  | None => False
  end.
Proof. vm_compute. split; reflexivity. Qed.

(** ** The bandit *)

(** One round: select, pull, record the reward. *)
Definition ucb_round (ln : f64 -> f64) (st : list ArmStats * list nat) (r : f64) : list ArmStats * list nat :=
  match select ln st.1 (N.of_nat (length st.2)) with
  | Some i => (default st.1 (arm_update st.1 i r), st.2 ++ [i])
  | None => st
  end.
Definition ucb_run (ln : f64 -> f64) (names : list string) (rewards : list f64) : list ArmStats * list nat :=
  foldl (ucb_round ln) (Ucb1_new names, []) rewards.

Definition pulls (arms : list ArmStats) : list N := map arm_pulls arms.

Lemma first_unexplored_spec k m arms i :
  pulls arms = replicate k 1%N ++ replicate (S m) 0%N -> first_unexplored i arms = Some (i + k).
Proof.
  revert i arms. induction k as [|k IH]; intros i [|a arms] H; try done; injection H as Ha H; simpl; rewrite Ha.
  - simpl. f_equal. lia.
  - simpl. rewrite (IH (S i) arms H). f_equal. lia.
Qed.

Lemma arm_update_pulls arms i r n : pulls arms !! i = Some n -> (n < u32_max)%N ->
  exists arms', arm_update arms i r = Some arms' /\ pulls arms' = <[i := (n + 1)%N]> (pulls arms).
Proof.
  unfold pulls, arm_update, u32_add. rewrite list_lookup_fmap. destruct (arms !! i) as [a|] eqn:E; [|done].
  intros [= <-] Hn. rewrite (proj2 (N.leb_le _ _)) by lia. eexists. split; [done|].
  change (map arm_pulls) with (fmap arm_pulls (M := list)). by rewrite list_fmap_insert.
Qed.

Lemma ucb_run_explores ln names rewards : length rewards <= length names ->
  (ucb_run ln names rewards).2 = seq 0 (length rewards) /\
  pulls (ucb_run ln names rewards).1 =
    replicate (length rewards) 1%N ++ replicate (length names - length rewards) 0%N.
Proof.
  unfold ucb_run. induction rewards as [|r rewards IH] using rev_ind; intros Hl.
  - simpl. split; [done|]. unfold pulls, Ucb1_new. rewrite List.map_map, Nat.sub_0_r. simpl.
    clear. induction names; simpl; [done|]. by f_equal.
  - rewrite length_app in *. simpl in Hl. destruct IH as [H1 H2]; [lia|]. rewrite foldl_app. simpl.
    destruct (foldl (ucb_round ln) _ rewards) as [arms picked]. simpl in H1, H2.
    replace (length names - length rewards) with (S (length names - length rewards - 1)) in H2 by lia.
    set (m := length names - length rewards - 1) in *.
    unfold ucb_round. cbn [fst snd]. unfold select.
    destruct (Nat.eqb_spec (length arms) 0) as [E|_].
    { apply (f_equal length) in H2. unfold pulls in H2. rewrite length_map, E, length_app, !length_replicate in H2. lia. }
    rewrite (first_unexplored_spec _ _ _ _ H2). simpl.
    assert (pulls arms !! length rewards = Some 0%N) as Hlk.
    { rewrite H2, lookup_app_r by (by rewrite length_replicate). by rewrite length_replicate, Nat.sub_diag. }
    destruct (arm_update_pulls arms (length rewards) r 0 Hlk) as (arms' & -> & Hp); [done|]. simpl. split.
    + rewrite H1, seq_app. done.
    + rewrite Hp, H2. rewrite insert_app_r_alt by (by rewrite length_replicate).
      rewrite length_replicate, Nat.sub_diag. simpl. replace (length names - (length rewards + 1)) with m by lia.
      rewrite replicate_add, <-app_assoc. done.
Qed.

(** UCB1 explores before it exploits: in the first [n] rounds over [n] arms
    it pulls arms 0, 1, ..., n - 1 in this order, whatever the rewards and
    whatever logarithm the platform computes, so each has been pulled once. *)
Theorem ucb1_explores_every_arm ln names rewards : length rewards = length names ->
  (ucb_run ln names rewards).2 = seq 0 (length names) /\
  pulls (ucb_run ln names rewards).1 = replicate (length names) 1%N.
Proof.
  intros E. destruct (ucb_run_explores ln names rewards) as [-> ->]; [lia|].
  rewrite E, Nat.sub_diag. by rewrite app_nil_r.
Qed.

(** Once every arm has been pulled, the selected arm has the greatest upper
    confidence bound, provided the bounds are numbers. *)
Theorem ucb1_selects_best ln arms rounds i : (0 < rounds)%N ->
  Forall (fun a => arm_pulls a <> 0%N) arms ->
  Forall (fun a => is_nan (ucb_value ln rounds a) = false) arms ->
  select ln arms rounds = Some i ->
  exists a, arms !! i = Some a /\
    forall b, b ∈ arms -> cmp_le (ucb_value ln rounds b) (ucb_value ln rounds a) = true.
Proof.
  intros Hr Hp Hn. unfold select. destruct (length arms =? 0)%nat; [done|].
  assert (forall k, first_unexplored k arms = None) as ->.
  { clear Hn. induction Hp as [|a l Ha _ IH]; intros k; simpl; [done|]. apply N.eqb_neq in Ha. by rewrite Ha. }
  destruct (N.eqb_spec rounds 0); [lia|].
  set (l := map _ _). destruct (max_by (fun a b => cmp_le a.2 b.2) l) as [[j v]|] eqn:E; [|done].
  intros [= <-]. pose proof (max_by_elem _ _ _ E) as Hin.
  apply list_elem_of_fmap in Hin as ([k a] & [= -> ->] & [_ Hka]%enumerate_from_lookup).
  rewrite Nat.sub_0_r in Hka. exists a. split; [done|]. intros b Hb.
  apply list_elem_of_lookup in Hb as [m Hm].
  assert ((m, ucb_value ln rounds b) ∈ l) as Hbl.
  { destruct (enumerate_elem arms m) as [b' Hb']; [by eapply lookup_lt_Some|].
    apply list_elem_of_fmap. exists (m, b'). split; [|done]. simpl. do 2 f_equal.
    apply enumerate_from_lookup in Hb' as [_ Hb']. rewrite Nat.sub_0_r in Hb'. congruence. }
  refine (max_by_upper (fun a b => cmp_le a.2 b.2) (fun x => is_nan x.2 = false) _ _ l _ _ _ E Hbl).
  - intros x y. apply cmp_le_total.
  - intros x y z. apply cmp_le_trans.
  - apply Forall_forall. intros x ([k' a'] & -> & [_ Hk']%enumerate_from_lookup)%list_elem_of_fmap. simpl.
    eapply Forall_lookup_1 in Hk'; [|exact Hn]. done.
Qed.

(** ** Witnesses *)

Definition flat_ln (x : f64) : f64 := f64_one.


Lemma ucb1_explores_every_arm_witness :
  (ucb_run flat_ln ["x"; "y"; "z"]%string [f64_one; f64_zero; f64_one]).2 = [0; 1; 2].
Proof. exact (proj1 (ucb1_explores_every_arm flat_ln ["x"; "y"; "z"]%string [f64_one; f64_zero; f64_one] eq_refl)). Defined.

Definition two_arms : list ArmStats :=
  [mkArmStats "x" (f64_of_N 3) 4; mkArmStats "y" (f64_of_N 4) 4].

Lemma ucb1_selects_best_witness :
  exists a, two_arms !! 1 = Some a /\
    forall b, b ∈ two_arms -> cmp_le (ucb_value flat_ln 8 b) (ucb_value flat_ln 8 a) = true.
Proof.
  apply (ucb1_selects_best flat_ln two_arms 8 1).
  - lia.
  - repeat constructor; discriminate.
  - repeat constructor.
  - vm_compute. reflexivity.
Defined.
