(* ===== verification/Definitions.v ===== *)
(** * Agent definitions (definitions/versioning.rs, definitions/assembler.rs)

    The version store keeps the last 500 versions of each agent, numbered
    consecutively; the assembler picks for each requested team member the best
    scoring definition. *)

From S2P Require Import Prelude.
From S2P Require Import F64.
From S2P Require Import Resource.
From S2P Require Import Core.
From S2P Require Import Learning.
From Stdlib Require Import String.
From stdpp Require Import base gmap strings pretty numbers list.

Local Open Scope string_scope.

(** ** versioning.rs *)

Record DefinitionVersion := mkDefinitionVersion {
  version : N;
  definition : AgentDefinition;
  created_at : Instant;
  message : option string;
}.

Definition MAX_VERSIONS_PER_AGENT : nat := N.to_nat 500.

(** [VersionStore] *)
Abbreviation VersionStore := (gmap string (list DefinitionVersion)).
Definition VersionStore_new : VersionStore := ∅.

(** [None]: the version number overflows its 32 bits. *)
Definition vs_save (s : VersionStore) (d : AgentDefinition) (msg : option string) (now : Instant)
    : option (N * VersionStore) :=
  let key := agent_key d in
  let history := default [] (s !! key) in
  let history := if (MAX_VERSIONS_PER_AGENT <=? length history)%nat
                 then drain_range history 0 (length history - MAX_VERSIONS_PER_AGENT + 1) else history in
  let next := match last history with None => Some 1%N | Some v => u32_add (version v) 1 end in
  match next with
  | None => None
  | Some v => Some (v, <[key := (history ++ [mkDefinitionVersion v d now msg])%list]> s)
  end.

Definition vs_get (s : VersionStore) (key : string) (v : N) : option DefinitionVersion :=
  match s !! key with
  | None => None
  | Some history => List.find (fun x => (version x =? v)%N) history
  end.

Definition vs_latest (s : VersionStore) (key : string) : option DefinitionVersion :=
  match s !! key with None => None | Some history => last history end.

Definition vs_list_versions (s : VersionStore) (key : string) : list DefinitionVersion :=
  default [] (s !! key).

(** The outer [option] is the panic of [save]. *)
Definition vs_rollback (s : VersionStore) (key : string) (v : N) (now : Instant)
    : option (option AgentDefinition * VersionStore) :=
  match vs_get s key v with
  | None => Some (None, s)
  | Some old =>
      match vs_save s (definition old) (Some ("Rollback to version " ++ pretty v)) now with
      | None => None
      | Some (_, s') => Some (Some (definition old), s')
      end
  end.

(** ** assembler.rs *)

Record TeamMember := mkTeamMember {
  tm_role : string;
  tm_tools : list string;
  tm_complexity : option string;
}.

Section assembler.
Context (lower : string -> string).   (* [str::to_lowercase] *)

Definition match_score (m : TeamMember) (a : AgentDefinition) : f64 :=
  let member_role := lower (tm_role m) in
  let agent_role := lower (role a) in
  let score := f64_zero in
  let score := if String.eqb agent_role member_role then f64_add score (f64_of_N 10)
               else if str_contains member_role agent_role || str_contains agent_role member_role
               then f64_add score (f64_of_N 5) else score in
  let score := if str_contains member_role (lower (agent_name a)) then f64_add score (f64_of_N 2) else score in
  let score := foldl (fun score tool =>
    if existsb (fun t => String.eqb (lower t) (lower tool)) (tools a)
    then f64_add score (f64_of_N 3) else score) score (tm_tools m) in
  match tm_complexity m with
  | Some requested => if String.eqb (lower (complexity a)) (lower requested)
                      then f64_add score (f64_of_N 2) else score
  | None => score
  end.

Definition best_match (m : TeamMember) (available : list AgentDefinition) : option AgentDefinition :=
  match max_by (fun a b => cmp_le (match_score m a) (match_score m b)) available with
  | Some a => if f64_gt (match_score m a) f64_zero then Some a else None
  | None => None
  end.

Definition assemble_team (members : list TeamMember) (available : list AgentDefinition) : list AgentDefinition :=
  omap (fun m => best_match m available) members.

Definition build_crew (id : Uuid) (name : string) (members : list TeamMember)
    (available : list AgentDefinition) (ts : list Task) : CrewSpec :=
  with_tasks (with_agents (CrewSpec_new id name) (assemble_team members available)) ts.
End assembler.

(** ** Versions are numbered by the saves *)

(** A save that took effect: the definition, message and time. *)
Abbreviation Save := (AgentDefinition * option string * Instant)%type.

Definition saves_of (key : string) (l : list Save) : list Save :=
  List.filter (fun s => String.eqb (agent_key s.1.1) key) l.

(** Number the saves of an agent from [k] on. *)
Fixpoint numbered (k : N) (l : list Save) : list DefinitionVersion :=
  match l with
  | [] => []
  | (d, msg, now) :: l => mkDefinitionVersion k d now msg :: numbered (k + 1) l
  end.

Definition save_all (l : list Save) : option VersionStore :=
  foldl (fun s x => match s with
                    | Some s => snd <$> vs_save s x.1.1 x.1.2 x.2
                    | None => None
                    end) (Some VersionStore_new) l.

Lemma numbered_app k l1 l2 : numbered k (l1 ++ l2) = (numbered k l1 ++ numbered (k + N.of_nat (length l1)) l2)%list.
Proof.
  revert k. induction l1 as [|[[d m] t] l1 IH]; intros k; simpl; [f_equal; lia|].
  rewrite IH. do 3 f_equal. lia.
Qed.

Lemma length_numbered k l : length (numbered k l) = length l.
Proof. revert k. induction l as [|[[d m] t] l IH]; intros k; simpl; auto. Qed.

Lemma numbered_lookup k l i : numbered k l !! i = (fun s : Save => mkDefinitionVersion (k + N.of_nat i) s.1.1 s.2 s.1.2) <$> (l !! i).
Proof.
  revert k i. induction l as [|[[d m] t] l IH]; intros k [|i]; simpl; try done.
  - do 2 f_equal. lia.
  - rewrite IH. replace (k + 1 + N.of_nat i)%N with (k + N.of_nat (S i))%N by lia. done.
Qed.

(** The last element survives the cut. *)
Lemma last_of_last_n {A} n (l : list A) : n <> 0 -> last (last_n n l) = last l.
Proof.
  intros Hn. unfold last_n. destruct l as [|x l _] using rev_ind; [done|].
  rewrite length_app. cbn [length]. rewrite drop_app_le by lia. by rewrite !last_snoc.
Qed.

Lemma last_numbered k l d m t :
  last (numbered k (l ++ [(d, m, t)])) = Some (mkDefinitionVersion (k + N.of_nat (length l)) d t m).
Proof. rewrite numbered_app. cbn [numbered]. by rewrite last_snoc. Qed.

(** The store after the saves [l]. *)
Definition store_of (l : list Save) (s : VersionStore) : Prop :=
  forall key, s !! key = match saves_of key l with
                         | [] => None
                         | h => Some (last_n MAX_VERSIONS_PER_AGENT (numbered 1 h))
                         end.

Lemma store_history l s key : store_of l s ->
  default [] (s !! key) = last_n MAX_VERSIONS_PER_AGENT (numbered 1 (saves_of key l)).
Proof. intros H. rewrite (H key). by destruct (saves_of key l). Qed.

Lemma vs_save_store l s d msg now : store_of l s ->
  (N.of_nat (length (saves_of (agent_key d) l)) < u32_max)%N ->
  exists s', vs_save s d msg now = Some ((N.of_nat (length (saves_of (agent_key d) l)) + 1)%N, s') /\
    store_of (l ++ [(d, msg, now)]) s'.
Proof.
  intros Hs Hlen. assert (MAX_VERSIONS_PER_AGENT <> 0) as Hmax by (unfold MAX_VERSIONS_PER_AGENT; lia).
  unfold vs_save. rewrite (store_history l s _ Hs). set (h := saves_of (agent_key d) l) in *.
  set (hist := last_n MAX_VERSIONS_PER_AGENT (numbered 1 h)).
  set (kept := if (MAX_VERSIONS_PER_AGENT <=? length hist)%nat then _ else hist).
  assert (forall x, (kept ++ [x] = last_n MAX_VERSIONS_PER_AGENT (numbered 1 h ++ [x]))%list) as Hkept.
  { intros x. rewrite <-last_n_snoc by done. apply evict_then_push; [done|]. unfold hist. rewrite length_last_n. lia. }
  assert (match last kept with None => Some 1%N | Some v => u32_add (version v) 1 end =
    Some (N.of_nat (length h) + 1)%N) as ->.
  { assert (last kept = last (numbered 1 h)) as ->.
    { unfold kept. destruct (Nat.leb_spec MAX_VERSIONS_PER_AGENT (length hist)) as [Hle|].
      - unfold drain_range. rewrite take_0. cbn [app].
        assert (length hist = MAX_VERSIONS_PER_AGENT) as Hl by (unfold hist in *; rewrite length_last_n in *; lia).
        rewrite Hl, Nat.sub_diag. change (drop (0 + 1) hist) with (drop 1 hist).
        replace (drop 1 hist) with (last_n (MAX_VERSIONS_PER_AGENT - 1) hist).
        2:{ unfold last_n. rewrite Hl. f_equal; lia. }
        rewrite last_of_last_n by (unfold MAX_VERSIONS_PER_AGENT; lia). by apply last_of_last_n.
      - by apply last_of_last_n. }
    clearbody h. destruct h as [|[[d' m'] t'] h' _] using rev_ind; [done|].
    rewrite last_numbered. rewrite length_app in *. cbn [length] in *. unfold u32_add. cbn [version].
    rewrite (proj2 (N.leb_le _ _)) by lia. f_equal. lia. }
  eexists. split; [done|]. intros key. unfold saves_of. rewrite List.filter_app. fold (saves_of key l). cbn [List.filter fst].
  destruct (String.eqb_spec (agent_key d) key) as [<-|Hne].
  - rewrite lookup_insert_eq. fold h. destruct (h ++ [(d, msg, now)])%list eqn:E; [by destruct h|]. rewrite <-E. f_equal.
    rewrite Hkept, numbered_app. simpl. do 4 f_equal. lia.
  - rewrite lookup_insert_ne by done. rewrite app_nil_r. apply Hs.
Qed.

Lemma save_all_store l : (N.of_nat (length l) <= u32_max)%N -> exists s, save_all l = Some s /\ store_of l s.
Proof.
  unfold save_all. induction l as [|[[d m] t] l IH] using rev_ind; intros Hl.
  { eexists. split; [done|]. intros key. apply lookup_empty. }
  rewrite length_app in Hl. simpl in Hl. destruct IH as (s & Hs & Hst); [lia|].
  rewrite foldl_app, Hs. simpl. destruct (vs_save_store l s d m t Hst) as (s' & -> & Hs').
  { assert (length (saves_of (agent_key d) l) <= length l) by apply List.filter_length_le. lia. }
  by eexists.
Qed.

Lemma find_version_numbered k h n v : (k + N.of_nat (length h) - N.of_nat n <= v)%N -> (k <= v < k + N.of_nat (length h))%N ->
  List.find (fun x => (version x =? v)%N) (last_n n (numbered k h)) =
    (fun s : Save => mkDefinitionVersion v s.1.1 s.2 s.1.2) <$> (h !! N.to_nat (v - k)).
Proof.
  intros Hv Hr. unfold last_n. rewrite length_numbered.
  assert (forall j k h, (forall i, j <= i -> i < N.to_nat (v - k) -> True) -> j <= N.to_nat (v - k) -> (k <= v)%N ->
    List.find (fun x => (version x =? v)%N) (drop j (numbered k h)) =
    (fun s : Save => mkDefinitionVersion v s.1.1 s.2 s.1.2) <$> (h !! N.to_nat (v - k))) as Hgen.
  { clear. intros j. induction j as [|j IH]; intros k h _ Hj Hk.
    - rewrite drop_0. revert k Hj Hk. induction h as [|[[d m] t] h IHh]; intros k Hj Hk; [done|].
      cbn [numbered List.find version]. destruct (N.eqb_spec k v) as [->|Hne].
      + by rewrite N.sub_diag.
      + rewrite IHh by lia. replace (N.to_nat (v - k)) with (S (N.to_nat (v - (k + 1)))) by lia. done.
    - destruct h as [|[[d m] t] h]; [done|]. cbn [numbered drop]. rewrite IH by (done || lia).
      replace (N.to_nat (v - k)) with (S (N.to_nat (v - (k + 1)))) by lia. done. }
  apply Hgen; [done|lia|lia].
Qed.

(** The store numbers the saves of an agent 1, 2, 3, ... and answers for
    the last 500 of them: after any saves (fewer than 2^32) version [v] is the
    [v]-th definition saved for the agent when it is among the last 500, and
    the latest version is the last one saved. *)
Theorem version_store_correct l key s : (N.of_nat (length l) <= u32_max)%N -> save_all l = Some s ->
  let h := saves_of key l in
  (forall v, (1 <= v <= N.of_nat (length h))%N ->
     (N.of_nat (length h) < v + N.of_nat MAX_VERSIONS_PER_AGENT)%N ->
     definition <$> vs_get s key v = (fun x : Save => x.1.1) <$> (h !! N.to_nat (v - 1))) /\
  definition <$> vs_latest s key = (fun x : Save => x.1.1) <$> last h /\
  length (vs_list_versions s key) = Nat.min (length h) MAX_VERSIONS_PER_AGENT.
Proof.
  intros Hl E. destruct (save_all_store l Hl) as (s' & E' & Hst). rewrite E in E'. injection E' as <-.
  set (h := saves_of key l). cbv zeta. unfold vs_get, vs_latest, vs_list_versions.
  rewrite (store_history l s key Hst). fold h. rewrite (Hst key). fold h. split_and!.
  - intros v Hv Hk. destruct h as [|x h'] eqn:Eh; [simpl in Hv; lia|]. rewrite <-Eh in *.
    rewrite find_version_numbered by lia. by destruct (h !! _).
  - destruct h as [|[[d m] t] h' _] using rev_ind; [done|]. rewrite last_snoc. cbn [fmap option_fmap option_map].
    destruct (h' ++ _)%list eqn:Eh; [by destruct h'|]. rewrite <-Eh.
    rewrite last_of_last_n by (unfold MAX_VERSIONS_PER_AGENT; lia). by rewrite last_numbered.
  - by rewrite length_last_n, length_numbered.
Qed.

(** ** Rollback *)

Lemma store_latest l d m t s : store_of (l ++ [(d, m, t)]) s ->
  definition <$> vs_latest s (agent_key d) = Some d.
Proof.
  intros Hs. unfold vs_latest. rewrite (Hs (agent_key d)).
  assert (saves_of (agent_key d) (l ++ [(d, m, t)]) = saves_of (agent_key d) l ++ [(d, m, t)])%list as ->.
  { unfold saves_of. rewrite List.filter_app. cbn [List.filter fst]. by rewrite String.eqb_refl. }
  destruct (saves_of (agent_key d) l ++ [(d, m, t)])%list eqn:E; [by apply app_eq_nil in E as [_ ?]|].
  rewrite <-E, last_of_last_n by (unfold MAX_VERSIONS_PER_AGENT; lia). by rewrite last_numbered.
Qed.

(** Rolling back to a stored version makes a copy of its definition the latest
    version; rolling back to an unknown version changes nothing. *)
Lemma rollback_latest l s key v now old : store_of l s -> (N.of_nat (length l) < u32_max)%N ->
  vs_get s key v = Some old -> agent_key (definition old) = key ->
  exists s', vs_rollback s key v now = Some (Some (definition old), s') /\
    definition <$> vs_latest s' key = Some (definition old).
Proof.
  intros Hst Hl Hg Hk. unfold vs_rollback. rewrite Hg.
  destruct (vs_save_store l s (definition old) (Some ("Rollback to version " ++ pretty v)) now Hst) as (s' & -> & Hs').
  { assert (length (saves_of (agent_key (definition old)) l) <= length l) by apply List.filter_length_le. lia. }
  exists s'. split; [done|]. rewrite <-Hk. by eapply store_latest.
Qed.

(** ** Assembly picks a best match *)

Section assembler_proofs.
Context (lower : string -> string).

Lemma f64_add_count_pos x n : pos_sign x = true -> pos_sign (f64_add x (f64_of_N n)) = true.
Proof. intros H. apply f64_add_pos; [done|apply f64_of_N_pos]. Qed.

Lemma match_score_pos m a : pos_sign (match_score lower m a) = true.
Proof.
  unfold match_score.
  cbv zeta. set (role_score := if String.eqb _ _ then _ else _).
  assert (pos_sign role_score = true) as H1.
  { unfold role_score. repeat case_match; by try apply f64_add_count_pos. }
  set (name_score := if str_contains _ (lower (agent_name a)) then _ else _).
  assert (pos_sign name_score = true) as H2.
  { unfold name_score. case_match; [by apply f64_add_count_pos|done]. }
  clearbody name_score. clear role_score H1.
  assert (pos_sign (foldl (fun score tool =>
    if existsb (fun t => String.eqb (lower t) (lower tool)) (tools a)
    then f64_add score (f64_of_N 3) else score) name_score (tm_tools m)) = true) as H3.
  { revert name_score H2. induction (tm_tools m) as [|t l IH]; intros x Hx; simpl; [done|].
    apply IH. case_match; [by apply f64_add_count_pos|done]. }
  repeat case_match; try done. by apply f64_add_count_pos.
Qed.

Lemma match_score_not_nan m a : is_nan (match_score lower m a) = false.
Proof. apply pos_sign_not_nan, match_score_pos. Qed.

Lemma best_match_spec m available :
  match best_match lower m available with
  | Some a => a ∈ available /\ f64_gt (match_score lower m a) f64_zero = true /\
      forall b, b ∈ available -> cmp_le (match_score lower m b) (match_score lower m a) = true
  | None => forall b, b ∈ available -> f64_gt (match_score lower m b) f64_zero = false
  end.
Proof.
  unfold best_match. set (le := fun a b => _). destruct (max_by le available) as [a|] eqn:E.
  - pose proof (max_by_elem _ _ _ E) as Hin.
    assert (forall b, b ∈ available -> cmp_le (match_score lower m b) (match_score lower m a) = true) as Hmax.
    { intros b Hb. refine (max_by_upper le (fun _ => True) _ _ available a b _ E Hb).
      - intros x y _ _. apply cmp_le_total; apply match_score_not_nan.
      - intros x y z _ _ _. apply cmp_le_trans; apply match_score_not_nan.
      - by apply Forall_true. }
    destruct (f64_gt (match_score lower m a) f64_zero) eqn:Eg; [done|]. intros b Hb.
    assert (forall x y, f64_gt x y = f64_lt y x) as Hgt by done. rewrite Hgt in *. pose proof (match_score_not_nan m a) as Ha.
    pose proof (match_score_not_nan m b) as Hnb. rewrite f64_lt_not_le in * by done.
    apply negb_false_iff in Eg. apply negb_false_iff.
    apply (cmp_le_trans _ (match_score lower m a)); auto.
  - apply max_by_None in E as ->. by intros b ?%not_elem_of_nil.
Qed.
End assembler_proofs.

(** The assembled team has at most one agent per requested member. Each is
    one of the available definitions, has a positive score for its member, and
    no available definition scores higher; a member is left out exactly when no
    definition has a positive score. *)
Theorem assemble_team_optimal lower members available :
  exists picks, assemble_team lower members available = omap id picks /\
    Forall2 (fun m pick =>
      match pick with
      | Some a => a ∈ available /\ f64_gt (match_score lower m a) f64_zero = true /\
          forall b, b ∈ available -> cmp_le (match_score lower m b) (match_score lower m a) = true
      | None => forall b, b ∈ available -> f64_gt (match_score lower m b) f64_zero = false
      end) members picks.
Proof.
  exists (map (fun m => best_match lower m available) members). split.
  - unfold assemble_team. induction members as [|m members IH]; [done|]. cbn [omap list_omap map id].
    by destruct (best_match lower m available); rewrite IH.
  - induction members as [|m members IH]; constructor; [apply best_match_spec|done].
Qed.

(** ** Examples *)

Definition dev : AgentDefinition :=
  mkAgentDefinition "dev" "Dev" "Senior Developer" "code" None None ["git"] "high" None false false None None None.
Definition blank : AgentDefinition :=
  mkAgentDefinition "x" "X" "" "" None None [] "medium" None false false None None None.

Example team_of_one :
  assemble_team to_ascii_lowercase [mkTeamMember "developer" ["GIT"] None; mkTeamMember "chef" [] None] [dev] = [dev].
Proof. vm_compute. reflexivity. Qed.

(** An agent without a role matches every member: each text contains the empty one. *)
Example blank_role_matches : assemble_team to_ascii_lowercase [mkTeamMember "chef" [] None] [blank] = [blank].
Proof. vm_compute. reflexivity. Qed.

Definition three_saves : list Save := [(dev, None, 1%N); (blank, None, 2%N); (dev, Some "m", 3%N)].

Lemma version_store_correct_witness :
  exists s, save_all three_saves = Some s /\ definition <$> vs_latest s "dev" = Some dev /\
    length (vs_list_versions s "dev") = 2.
Proof.
  destruct (save_all three_saves) as [s|] eqn:E; [|vm_compute in E; discriminate].
  exists s. split; [reflexivity|].
  assert (N.of_nat (length three_saves) <= u32_max)%N as Hl by (vm_compute; discriminate).
  destruct (version_store_correct three_saves "dev" s Hl E) as (_ & H2 & H3). rewrite H2, H3.
  split; reflexivity.
Defined.
