(* ===== verification/Packages.v ===== *)
(** * Definition files and packages (definitions/loader.rs, packaging.rs, k8s_crd.rs)

    Loading of agent definitions and presets from files and directories, the
    [.agpkg] bundles, and the Kubernetes resource types. The serde codecs, the
    zip crate and the file system are parameters; what the round trip needs of
    the zip crate is the class [ZipLaws]. *)

From S2P Require Import Prelude.
From S2P Require Import F64.
From S2P Require Import Resource.
From S2P Require Import Core.
From S2P Require Import Text.
From S2P Require Import Ssrf.
From Stdlib Require Import Ascii String.
From stdpp Require Import base gmap strings pretty numbers relations list.

Local Open Scope string_scope.
#[local] Arguments String.append !_ _ / : simpl nomatch.

(** ** loader.rs *)

(** A directory entry: [read_dir] may fail on it; a path that is a file has an
    extension ([None]: none, or not Unicode) and a content. *)
Record FilePath := mkFilePath { is_file : bool; extension : option string; file_content : Result string string }.

Definition file_ext (lower : string -> string) (p : FilePath) : string := lower (default "" (extension p)).

Record PresetSpec := mkPresetSpec {
  preset_name : string;
  preset_description : string;
  preset_domain : string;
  preset_size : string;
  preset_version : string;
  preset_agents : list AgentDefinition;
}.

Section loader.
Context (lower : string -> string).
Context (agent_from_json agent_from_yaml : string -> Result AgentDefinition string).
Context (preset_from_json : string -> Result PresetSpec string).

Definition load_from_json (json : string) : Result AgentDefinition AgnosaiError :=
  match agent_from_json json with Ok d => Ok d | Err e => Err (Serialization e) end.
Definition load_from_yaml (yaml : string) : Result AgentDefinition AgnosaiError :=
  match agent_from_yaml yaml with Ok d => Ok d | Err e => Err (InvalidDefinition e) end.

Definition load_from_file (p : FilePath) : Result AgentDefinition AgnosaiError :=
  match file_content p with
  | Err e => Err (Io e)
  | Ok content =>
      let ext := file_ext lower p in
      if String.eqb ext "json" then load_from_json content
      else if String.eqb ext "yaml" || String.eqb ext "yml" then load_from_yaml content
      else Err (InvalidDefinition ("unsupported file extension: " ++ ext))
  end.

(** Both directory loaders: the files whose extension is wanted, in the order
    of the directory, up to the first error. *)
Fixpoint load_wanted {A} (wanted : string -> bool) (load : FilePath -> Result A AgnosaiError)
    (entries : list (Result FilePath string)) : Result (list A) AgnosaiError :=
  match entries with
  | [] => Ok []
  | Err e :: _ => Err (Io e)
  | Ok p :: rest =>
      if is_file p && wanted (file_ext lower p) then
        match load p with
        | Err e => Err e
        | Ok a => match load_wanted wanted load rest with Ok l => Ok (a :: l) | Err e => Err e end
        end
      else load_wanted wanted load rest
  end.

Definition load_dir {A} (wanted : string -> bool) (load : FilePath -> Result A AgnosaiError)
    (dir : Result (list (Result FilePath string)) string) : Result (list A) AgnosaiError :=
  match dir with Err e => Err (Io e) | Ok entries => load_wanted wanted load entries end.

Definition definition_ext (ext : string) : bool :=
  String.eqb ext "json" || String.eqb ext "yaml" || String.eqb ext "yml".

Definition load_all_from_dir := load_dir definition_ext load_from_file.

Definition load_preset_from_json (json : string) : Result PresetSpec AgnosaiError :=
  match preset_from_json json with Ok p => Ok p | Err e => Err (Serialization e) end.
Definition load_preset_from_file (p : FilePath) : Result PresetSpec AgnosaiError :=
  match file_content p with Err e => Err (Io e) | Ok content => load_preset_from_json content end.
Definition load_all_presets := load_dir (fun ext => String.eqb ext "json") load_preset_from_file.

(** [jsons]: the texts embedded at compile time. *)
Definition builtin_presets (jsons : list string) : list PresetSpec :=
  omap (fun j => match load_preset_from_json j with Ok p => Some p | Err _ => None end) jsons.
End loader.

(** ** packaging.rs *)

Record PackageManifest := mkPackageManifest { pkm_name : string; pkm_version : string; pkm_metadata : Value }.

Record AgnosPackage := mkAgnosPackage {
  pkg_name : string;
  pkg_version : string;
  definitions : list AgentDefinition;
  pkg_metadata : Value;
}.
Definition AgnosPackage_new (name version : string) : AgnosPackage := mkAgnosPackage name version [] (Obj []).
Definition add_definition (p : AgnosPackage) (d : AgentDefinition) : AgnosPackage :=
  mkAgnosPackage (pkg_name p) (pkg_version p) (definitions p ++ [d]) (pkg_metadata p).

Definition MAX_FILE_SIZE : N := 1024 * 1024.
Definition MAX_ENTRIES : nat := 100.

(** A file of an archive: its declared size and the text it unpacks to. *)
Record ZipFile := mkZipFile { zf_size : N; zf_text : Result string string }.

(** The zip crate: a writer in memory and a reader. *)
Class ZipCrate (Writer Bytes Archive : Type) := {
  zip_writer : Writer;
  start_file : Writer -> string -> Result Writer string;
  write_all : Writer -> string -> Result Writer string;
  finish : Writer -> Result Bytes string;
  zip_archive : Bytes -> Result Archive string;
  archive_len : Archive -> nat;
  by_index : Archive -> nat -> Result string string;
  by_name : Archive -> string -> Result ZipFile string;
}.

(** The serde codecs of manifests and definitions. *)
Record PackageCodec := mkPackageCodec {
  manifest_to_json : PackageManifest -> Result string string;
  manifest_from_json : string -> Result PackageManifest string;
  definition_to_json : AgentDefinition -> Result string string;
  definition_from_json : string -> Result AgentDefinition string;
}.

Section packaging.
Context {Writer Bytes Archive : Type} `{!ZipCrate Writer Bytes Archive} (codec : PackageCodec).

(** Start a file and write its text. *)
Definition add_file (w : Writer) (name text : string) : Result Writer AgnosaiError :=
  match start_file w name with
  | Err e => Err (Other ("zip error: " ++ e))
  | Ok w => match write_all w text with Err e => Err (Io e) | Ok w => Ok w end
  end.

Definition definition_file (d : AgentDefinition) : string := "definitions/" ++ agent_key d ++ ".json".

Fixpoint write_definitions (w : Writer) (ds : list AgentDefinition) : Result Writer AgnosaiError :=
  match ds with
  | [] => Ok w
  | d :: ds =>
      match definition_to_json codec d with
      | Err e => Err (Serialization e)
      | Ok text =>
          match add_file w (definition_file d) text with
          | Err e => Err e
          | Ok w => write_definitions w ds
          end
      end
  end.

Definition manifest_of (p : AgnosPackage) : PackageManifest :=
  mkPackageManifest (pkg_name p) (pkg_version p) (pkg_metadata p).

Definition export (p : AgnosPackage) : Result Bytes AgnosaiError :=
  match manifest_to_json codec (manifest_of p) with
  | Err e => Err (Serialization e)
  | Ok text =>
      match add_file zip_writer "manifest.json" text with
      | Err e => Err e
      | Ok w =>
          match write_definitions w (definitions p) with
          | Err e => Err e
          | Ok w => match finish w with Err e => Err (Other ("zip finish error: " ++ e)) | Ok b => Ok b end
          end
      end
  end.

Definition wanted_entry (name : string) : bool :=
  negb (str_contains ".." name) && (starts_with "definitions/" name && ends_with ".json" name).

Definition def_names (a : Archive) : list string :=
  omap (fun i => match by_index a i with Ok name => if wanted_entry name then Some name else None | Err _ => None end)
    (seq 0 (archive_len a)).

Definition read_entry (name : string) (f : ZipFile) : Result string AgnosaiError :=
  if (MAX_FILE_SIZE <? zf_size f)%N then Err (InvalidDefinition (name ++ " exceeds 1 MiB size limit"))
  else match zf_text f with Err e => Err (Io e) | Ok content => Ok content end.

Fixpoint read_definitions (a : Archive) (names : list string) : Result (list AgentDefinition) AgnosaiError :=
  match names with
  | [] => Ok []
  | name :: names =>
      match by_name a name with
      | Err e => Err (Other ("zip read error: " ++ e))
      | Ok f =>
          match read_entry name f with
          | Err e => Err e
          | Ok content =>
              match definition_from_json codec content with
              | Err e => Err (Serialization e)
              | Ok d => match read_definitions a names with Ok l => Ok (d :: l) | Err e => Err e end
              end
          end
      end
  end.

Definition import (data : Bytes) : Result AgnosPackage AgnosaiError :=
  match zip_archive data with
  | Err e => Err (InvalidDefinition ("invalid zip: " ++ e))
  | Ok a =>
      if (MAX_ENTRIES <? archive_len a)%nat
      then Err (InvalidDefinition ("package has " ++ pretty (archive_len a) ++ " entries, max is " ++ pretty MAX_ENTRIES))
      else
        match by_name a "manifest.json" with
        | Err e => Err (InvalidDefinition ("missing manifest.json: " ++ e))
        | Ok f =>
            match read_entry "manifest.json" f with
            | Err e => Err e
            | Ok content =>
                match manifest_from_json codec content with
                | Err e => Err (Serialization e)
                | Ok m =>
                    match read_definitions a (def_names a) with
                    | Err e => Err e
                    | Ok ds => Ok (mkAgnosPackage (pkm_name m) (pkm_version m) ds (pkm_metadata m))
                    end
                end
            end
        end
  end.

(** [write], [read]: the file system. *)
Definition export_to_file (write : Bytes -> Result unit string) (p : AgnosPackage) : Result unit AgnosaiError :=
  match export p with
  | Err e => Err e
  | Ok b => match write b with Err e => Err (Io e) | Ok _ => Ok tt end
  end.
Definition import_from_file (read : Result Bytes string) : Result AgnosPackage AgnosaiError :=
  match read with Err e => Err (Io e) | Ok b => import b end.
End packaging.

(** ** k8s_crd.rs *)

Definition API_GROUP : string := "agnosai.io".
Definition API_VERSION : string := "agnosai.io/v1".
Definition default_process_mode : string := "sequential".
Definition default_trust : string := "basic".
Definition default_priority : string := "normal".
Definition default_risk : string := "low".

Record ObjectMeta := mkObjectMeta {
  om_name : string; om_namespace : string; om_labels : gmap string string; om_annotations : gmap string string;
}.
Record AgentCrdSpec := mkAgentCrdSpec {
  acs_agent_key : string; acs_name : string; acs_role : string; acs_goal : string; acs_tools : list string;
  acs_complexity : string; acs_domain : option string;
}.
Record TaskCrdSpec := mkTaskCrdSpec {
  tcs_description : string; tcs_expected_output : option string; tcs_priority : string; tcs_risk : string;
  tcs_dependencies : list nat;
}.
Record CrewCrdSpec := mkCrewCrdSpec {
  ccs_name : string; ccs_agents : list AgentCrdSpec; ccs_tasks : list TaskCrdSpec; ccs_process_mode : string;
  ccs_trust_level : string;
}.
Record CrewCrd := mkCrewCrd { api_version : string; kind : string; crd_metadata : ObjectMeta; crd_spec : CrewCrdSpec }.
Definition CrewCrd_new (name : string) (spec : CrewCrdSpec) : CrewCrd :=
  mkCrewCrd API_VERSION "Crew" (mkObjectMeta name "" ∅ ∅) spec.

(** ** Packages round trip *)

(** What the zip crate promises for archives of the size imports accept: a new
    name starts an empty file, a write extends the last file, and a finished
    archive lists the files in order and finds each by its name. *)
Class ZipLaws {Writer Bytes Archive : Type} (Z : ZipCrate Writer Bytes Archive) := {
  written : Writer -> list (string * string);
  written_new : written zip_writer = [];
  start_file_fresh : forall w n, n ∉ (written w).*1 ->
    exists w', start_file w n = Ok w' /\ written w' = (written w ++ [(n, "")])%list;
  write_all_last : forall w l n t, written w = (l ++ [(n, "")])%list -> (N.of_nat (String.length t) <= MAX_FILE_SIZE)%N ->
    exists w', write_all w t = Ok w' /\ written w' = (l ++ [(n, t)])%list;
  finish_reads : forall w, (length (written w) <= MAX_ENTRIES)%nat -> NoDup (written w).*1 ->
    exists b a, finish w = Ok b /\ zip_archive b = Ok a /\ archive_len a = length (written w) /\
      forall i n t, written w !! i = Some (n, t) ->
        by_index a i = Ok n /\ by_name a n = Ok (mkZipFile (N.of_nat (String.length t)) (Ok t));
}.

(** The texts a package is exported as; each fits the limit of an import and is
    read back by the codec. *)
Definition fits (t : string) : Prop := (N.of_nat (String.length t) <= MAX_FILE_SIZE)%N.
Definition manifest_text (codec : PackageCodec) (m : PackageManifest) (t : string) : Prop :=
  manifest_to_json codec m = Ok t /\ manifest_from_json codec t = Ok m /\ fits t.
Definition definition_text (codec : PackageCodec) (d : AgentDefinition) (t : string) : Prop :=
  definition_to_json codec d = Ok t /\ definition_from_json codec t = Ok d /\ fits t.

Section roundtrip.
Context {Writer Bytes Archive : Type} {Z : ZipCrate Writer Bytes Archive} {L : ZipLaws Z} (codec : PackageCodec).

Lemma add_file_written w n t : n ∉ (written w).*1 -> fits t ->
  exists w', add_file w n t = Ok w' /\ written w' = (written w ++ [(n, t)])%list.
Proof.
  intros Hn Ht. unfold add_file. destruct (start_file_fresh w n Hn) as (w1 & -> & H1).
  destruct (write_all_last w1 (written w) n t H1 Ht) as (w2 & -> & H2). eauto.
Qed.

Lemma write_definitions_written ds ts w :
  Forall2 (definition_text codec) ds ts ->
  NoDup ((written w).*1 ++ map definition_file ds)%list ->
  exists w', write_definitions codec w ds = Ok w' /\ written w' = (written w ++ zip (map definition_file ds) ts)%list.
Proof.
  intros H. revert w. induction H as [|d t ds ts (Hto & _ & Ht) H IH]; intros w Hnd; cbn [write_definitions map].
  { exists w. by rewrite app_nil_r. }
  rewrite Hto. destruct (add_file_written w (definition_file d) t) as (w1 & -> & H1); [|done|].
  { apply NoDup_app in Hnd as (_ & Hd & _). intros Hin. apply (Hd _ Hin). simpl. left. }
  destruct (IH w1) as (w2 & -> & H2).
  { rewrite H1, fmap_app. cbn [fmap list_fmap fst]. rewrite <-app_assoc. exact Hnd. }
  exists w2. split; [done|]. rewrite H2, H1, <-app_assoc. done.
Qed.

Lemma wanted_definition d : str_contains ".." (definition_file d) = false -> wanted_entry (definition_file d) = true.
Proof.
  intros H. unfold wanted_entry. rewrite H. cbn [negb andb].
  apply andb_true_iff. split; [apply starts_with_spec; by eexists|].
  unfold definition_file, ends_with. rewrite <-str_app_assoc.
  generalize ("definitions/" ++ agent_key d). intros s. rewrite length_str_app.
  apply andb_true_iff. split; [apply Nat.leb_le; lia|]. apply bool_decide_eq_true.
  rewrite Nat.add_sub. apply str_drop_app.
Qed.

(** The archive [a] holds exactly the files [l]. *)
Definition holds (a : Archive) (l : list (string * string)) : Prop :=
  archive_len a = length l /\
  forall i n t, l !! i = Some (n, t) ->
    by_index a i = Ok n /\ by_name a n = Ok (mkZipFile (N.of_nat (String.length t)) (Ok t)).

Lemma holds_by_name a l n t : holds a l -> (n, t) ∈ l -> by_name a n = Ok (mkZipFile (N.of_nat (String.length t)) (Ok t)).
Proof. intros [_ H] (i & Hi)%list_elem_of_lookup. by apply (H i). Qed.

Lemma def_names_held a l : holds a l -> def_names a = List.filter wanted_entry l.*1.
Proof.
  intros [Hlen H]. unfold def_names. rewrite Hlen.
  assert (forall k pre, l = (pre ++ k)%list ->
    omap (fun i => match by_index a i with Ok name => if wanted_entry name then Some name else None | Err _ => None end)
      (seq (length pre) (length k)) = List.filter wanted_entry k.*1) as Hk; [|by apply (Hk l [])].
  intros k. induction k as [|[n t] k IH]; intros pre Hl; [done|].
  cbn [length seq fmap list_fmap fst List.filter]. cbn [omap list_omap].
  destruct (H (length pre) n t) as [-> _]; [by rewrite Hl, list_lookup_middle|].
  assert (l = (pre ++ [(n, t)]) ++ k)%list as Hl' by by rewrite <-app_assoc.
  specialize (IH _ Hl'). rewrite length_app in IH. cbn [length] in IH. rewrite Nat.add_1_r in IH. 
  destruct (wanted_entry n); by rewrite IH.
Qed.

Lemma read_fits n t : fits t -> read_entry n (mkZipFile (N.of_nat (String.length t)) (Ok t)) = Ok t.
Proof. intros H. unfold read_entry. cbn [zf_size zf_text]. unfold fits in H. by rewrite (proj2 (N.ltb_ge _ _) H). Qed.

Lemma read_definitions_held a l ds ts :
  holds a l -> Forall2 (definition_text codec) ds ts ->
  Forall (fun nt => nt ∈ l) (zip (map definition_file ds) ts) ->
  read_definitions codec a (map definition_file ds) = Ok ds.
Proof.
  intros Ha H. induction H as [|d t ds ts (_ & Hfrom & Ht) H IH]; intros Hl; cbn [map read_definitions]; [done|].
  apply Forall_cons in Hl as [Hd Hl]. rewrite (holds_by_name _ _ _ _ Ha Hd), (read_fits _ _ Ht), Hfrom.
  by rewrite (IH Hl).
Qed.

Lemma filter_all_true {A} (p : A -> bool) l : Forall (fun x => p x = true) l -> List.filter p l = l.
Proof. induction 1 as [|x l Hx H IH]; [done|]. cbn [List.filter]. by rewrite Hx, IH. Qed.

(** [C15] Export and import are inverse: a package of at most 99 definitions with distinct
    keys free of two consecutive dots, whose manifest and definitions are printed as
    texts of at most 1 MiB that the JSON codec reads back as the same values, is
    exported, and the import of the bundle gives the same package back: name,
    version, metadata and the definitions in their order. *)
Theorem package_roundtrip p mt ts :
  manifest_text codec (manifest_of p) mt -> Forall2 (definition_text codec) (definitions p) ts ->
  (length (definitions p) < MAX_ENTRIES)%nat -> NoDup (map definition_file (definitions p)) ->
  Forall (fun d => str_contains ".." (definition_file d) = false) (definitions p) ->
  exists b, export codec p = Ok b /\ import codec b = Ok p.
Proof.
  intros (Hmto & Hmfrom & Hmt) Hts Hlen Hnd Hdots. unfold export. rewrite Hmto.
  destruct (add_file_written zip_writer "manifest.json" mt) as (w1 & -> & H1); [|done|].
  { rewrite written_new. apply not_elem_of_nil. }
  rewrite written_new in H1. cbn [app] in H1.
  assert ("manifest.json" ∉ map definition_file (definitions p)) as Hm.
  { intros (d & Hd & _)%list_elem_of_In%in_map_iff. done. }
  destruct (write_definitions_written (definitions p) ts w1 Hts) as (w2 & -> & H2).
  { rewrite H1. cbn [fmap list_fmap fst app]. by constructor. }
  assert ((written w2).*1 = "manifest.json" :: map definition_file (definitions p)) as Hnames.
  { rewrite H2, H1. cbn [app fmap list_fmap fst]. f_equal. apply fst_zip.
    rewrite length_map, (Forall2_length _ _ _ Hts). done. }
  destruct (finish_reads w2) as (b & a & -> & Hb & Ha).
  { rewrite <-(length_fmap fst), Hnames. cbn [length]. rewrite length_map. unfold MAX_ENTRIES in *. lia. }
  { rewrite Hnames. by constructor. }
  exists b. split; [done|]. unfold import. rewrite Hb. fold (holds a (written w2)) in Ha.
  assert (archive_len a <= MAX_ENTRIES)%nat as Hle.
  { rewrite (proj1 Ha), <-(length_fmap fst), Hnames. cbn [length]. rewrite length_map. unfold MAX_ENTRIES in *. lia. }
  rewrite (proj2 (Nat.ltb_ge _ _) Hle).
  rewrite (holds_by_name a _ "manifest.json" mt Ha) by (rewrite H2, H1; set_solver).
  rewrite (read_fits _ _ Hmt), Hmfrom, (def_names_held _ _ Ha), Hnames. cbn [List.filter].
  change (wanted_entry "manifest.json") with false. cbv match.
  rewrite filter_all_true, (read_definitions_held a (written w2) _ ts Ha Hts); [by destruct p| |].
  - rewrite H2, H1. apply Forall_forall. intros x Hx. set_solver.
  - apply Forall_map, (Forall_impl _ _ _ Hdots). intros d. apply wanted_definition.
Qed.
End roundtrip.

(** ** An archive that is the list of its files *)

Definition set_last (t : string) (l : list (string * string)) : list (string * string) :=
  match last l with Some (n, s) => (take (length l - 1) l ++ [(n, (s ++ t)%string)])%list | None => l end.

Definition find_file (l : list (string * string)) (n : string) : Result ZipFile string :=
  match List.find (fun e => bool_decide (e.1 = n)) l with
  | Some (_, t) => Ok (mkZipFile (N.of_nat (String.length t)) (Ok t))
  | None => Err "file not found"
  end.

#[local] Instance list_zip : ZipCrate (list (string * string)) (list (string * string)) (list (string * string)) := {|
  zip_writer := [];
  start_file w n := if bool_decide (n ∈ w.*1) then Err "duplicate file name" else Ok (w ++ [(n, "")])%list;
  write_all w t := Ok (set_last t w);
  finish w := Ok w;
  zip_archive b := Ok b;
  archive_len := length;
  by_index a i := match a !! i with Some (n, _) => Ok n | None => Err "no such entry" end;
  by_name := find_file;
|}.

Lemma find_file_unique l i n t : NoDup l.*1 -> l !! i = Some (n, t) ->
  find_file l n = Ok (mkZipFile (N.of_nat (String.length t)) (Ok t)).
Proof.
  unfold find_file. revert i. induction l as [|[m s] l IH]; intros i Hnd Hi; [done|].
  cbn [fmap list_fmap fst] in Hnd. apply NoDup_cons in Hnd as [Hm Hnd]. cbn [List.find fst].
  destruct i as [|i]; [injection Hi as <- <-; by rewrite bool_decide_eq_true_2|].
  rewrite bool_decide_eq_false_2; [by apply (IH i)|]. intros <-. apply Hm.
  change m with (m, t).1. apply list_elem_of_fmap_2. by eapply list_elem_of_lookup_2.
Qed.

#[local] Instance list_zip_laws : ZipLaws list_zip.
Proof.
  refine {| written (w : list (string * string)) := w |}; [done|..].
  - intros w n Hn. cbn. rewrite bool_decide_eq_false_2 by done. eauto.
  - intros w l n t -> _. eexists. split; [done|]. unfold set_last. rewrite last_snoc, length_app.
    cbn [length]. rewrite Nat.add_sub, take_app_length. done.
  - intros w _ Hnd. exists w, w. split_and!; [done..|]. intros i n t Hi. cbn. rewrite Hi.
    split; [done|]. by eapply find_file_unique.
Defined.

(** A codec for a single agent and its package. *)
Definition one_codec (d : AgentDefinition) (m : PackageManifest) : PackageCodec :=
  mkPackageCodec (fun _ => Ok "manifest") (fun _ => Ok m) (fun _ => Ok "agent") (fun _ => Ok d).

Lemma package_roundtrip_witness :
  let d := AgentDefinition_new "qa" "tester" "test" in
  let p := add_definition (AgnosPackage_new "team" "1") d in
  exists b, export (one_codec d (manifest_of p)) p = Ok b /\ import (one_codec d (manifest_of p)) b = Ok p.
Proof.
  intros d p. apply (package_roundtrip (one_codec d (manifest_of p)) p "manifest" ["agent"]).
  - by split_and!.
  - constructor; [by split_and!|constructor].
  - vm_compute. lia.
  - apply NoDup_singleton.
  - constructor; [reflexivity|constructor].
Defined.

(** A key with two dots is exported, and its definition is silently left out of
    the import. *)
Example dotted_key_is_dropped :
  let d := AgentDefinition_new "qa..v2" "tester" "test" in
  let p := add_definition (AgnosPackage_new "team" "1") d in
  exists b, export (one_codec d (manifest_of p)) p = Ok b /\
    import (one_codec d (manifest_of p)) b = Ok (AgnosPackage_new "team" "1").
Proof. eexists. split; vm_compute; reflexivity. Qed.

(** A package of 100 definitions is exported and refused by the import. *)
Example full_package_is_refused :
  let d i := AgentDefinition_new (pretty (i : nat)) "tester" "test" in
  let p := mkAgnosPackage "team" "1" (map d (seq 0 100)) Null in
  exists b e, export (one_codec (d 0) (manifest_of p)) p = Ok b /\ import (one_codec (d 0) (manifest_of p)) b = Err e.
Proof. eexists _, _. split; vm_compute; reflexivity. Qed.

(** ** Imports are bounded *)

Section bounded.
Context {Writer Bytes Archive : Type} {Z : ZipCrate Writer Bytes Archive} (codec : PackageCodec).

(** A definition that came from a file of the archive under [definitions/],
    without a parent component in its name and of at most 1 MiB. *)
Definition from_archive (a : Archive) (d : AgentDefinition) : Prop :=
  exists i n f t, (i < archive_len a)%nat /\ by_index a i = Ok n /\ str_contains ".." n = false /\
    starts_with "definitions/" n = true /\ by_name a n = Ok f /\ (zf_size f <= MAX_FILE_SIZE)%N /\
    zf_text f = Ok t /\ definition_from_json codec t = Ok d.

Lemma read_definitions_from a names ds :
  read_definitions codec a names = Ok ds ->
  Forall2 (fun n d => exists f t, by_name a n = Ok f /\ (zf_size f <= MAX_FILE_SIZE)%N /\ zf_text f = Ok t /\
    definition_from_json codec t = Ok d) names ds.
Proof.
  revert ds. induction names as [|n names IH]; intros ds; cbn [read_definitions]; [by intros [= <-]|].
  destruct (by_name a n) as [f|] eqn:Hf; [|done]. unfold read_entry.
  destruct (N.ltb_spec MAX_FILE_SIZE (zf_size f)); [done|]. destruct (zf_text f) as [t|] eqn:Ht; [|done].
  destruct (definition_from_json codec t) as [d|] eqn:Hd; [|done].
  destruct (read_definitions codec a names) as [l|]; [|done]. intros [= <-].
  constructor; [eauto 10|by apply IH].
Qed.

Lemma length_omap_le {A B} (f : A -> option B) l : (length (omap f l) <= length l)%nat.
Proof. induction l as [|x l IH]; cbn [omap list_omap length]; [done|]. destruct (f x); simpl; lia. Qed.

(** An imported package comes from an archive of at most 100 entries, and
    each definition from a file of it under [definitions/] without a parent
    component in its name, of at most 1 MiB: other entries are never read. *)
Theorem import_bounded b p :
  import codec b = Ok p ->
  exists a, zip_archive b = Ok a /\ (archive_len a <= MAX_ENTRIES)%nat /\
    (length (definitions p) <= archive_len a)%nat /\ Forall (from_archive a) (definitions p).
Proof.
  unfold import. destruct (zip_archive b) as [a|]; [|done].
  destruct (Nat.ltb_spec MAX_ENTRIES (archive_len a)); [done|].
  destruct (by_name a "manifest.json"); [|done]. destruct (read_entry _ _); [|done].
  destruct (manifest_from_json codec _) as [m|]; [|done].
  destruct (read_definitions codec a (def_names a)) as [ds|] eqn:Hr; [|done]. intros [= <-].
  apply read_definitions_from in Hr. cbn [definitions]. exists a. split_and!; [done|done| |].
  - rewrite <-(Forall2_length _ _ _ Hr). unfold def_names. etransitivity; [apply length_omap_le|by rewrite length_seq].
  - apply Forall_forall. intros d (k & Hk)%list_elem_of_lookup.
    destruct (Forall2_lookup_r _ _ _ _ _ Hr Hk) as (n & Hn & f & t & ? & ? & ? & ?).
    apply list_elem_of_lookup_2, list_elem_of_omap in Hn as (i & Hi & Hin).
    destruct (by_index a i) as [n'|] eqn:Eb; [|done]. destruct (wanted_entry n') eqn:Ew; [|done].
    injection Hin as ->. apply list_elem_of_In, in_seq in Hi.
    apply andb_true_iff in Ew as [Hd [Hs _]%andb_true_iff]. apply negb_true_iff in Hd.
    exists i, n, f, t. split_and!; try done. lia.
Qed.
End bounded.

Lemma import_bounded_witness :
  exists a, zip_archive [("manifest.json", "manifest"); ("definitions/qa.json", "agent")] = Ok a /\
    (archive_len a <= MAX_ENTRIES)%nat.
Proof.
  destruct (import_bounded (Z := list_zip) (one_codec (AgentDefinition_new "qa" "t" "g") (mkPackageManifest "team" "1" Null))
    [("manifest.json", "manifest"); ("definitions/qa.json", "agent")]
    (mkAgnosPackage "team" "1" [AgentDefinition_new "qa" "t" "g"] Null) eq_refl) as (a & Ha & Hl & _).
  exists a. split; [exact Ha|exact Hl].
Defined.
