(* ===== verification/PlanCache.v ===== *)
(** * Plan cache and durable state (orchestrator/plan_cache.rs, durable_state.rs)

    The cache maps a 64-bit hash of a crew specification to a plan, with a
    time to live and eviction of the least recently used entry. Crew states are
    written to one file per crew; the file system, the hasher and the JSON
    codec are parameters. *)

From S2P Require Import Prelude.
From S2P Require Import F64.
From S2P Require Import Resource.
From S2P Require Import Core.
From S2P Require Import Text.
From Stdlib Require Import Ascii String.
From stdpp Require Import base gmap strings numbers list.

Local Open Scope string_scope.
#[local] Arguments String.append !_ _ / : simpl nomatch.

(** ** plan_cache.rs *)

Definition MAX_CACHED_PLANS : nat := 256.
Definition DEFAULT_TTL : Duration := from_secs 3600.

Record CachedPlan := mkCachedPlan {
  assignments : gmap Uuid string;
  execution_order : list Uuid;
  model_selections : gmap Uuid string;
}.

Record CacheEntry := mkCacheEntry {
  plan : CachedPlan;
  created_at : Instant;
  last_accessed : Instant;
}.

(** [PlanKey]: the hash. *)
Abbreviation PlanKey := N.

(** [std::hash::DefaultHasher]. *)
Class StrHasher (H : Type) := { hash_new : H; hash_str : string -> H -> H; hash_finish : H -> N }.

Definition from_crew `{StrHasher H} (agent_keys task_descriptions : list string) (process_mode : string) : PlanKey :=
  let h := foldl (fun h k => hash_str k h) hash_new (sort_strings agent_keys) in
  let h := foldl (fun h d => hash_str d h) h (sort_strings task_descriptions) in
  hash_finish (hash_str process_mode h).

Record PlanCache := mkPlanCache { entries : gmap N CacheEntry; ttl : Duration }.
Definition PlanCache_new : PlanCache := mkPlanCache ∅ DEFAULT_TTL.
Definition with_ttl (d : Duration) : PlanCache := mkPlanCache ∅ d.

Definition touch (now : Instant) (e : CacheEntry) : CacheEntry := mkCacheEntry (plan e) (created_at e) now.

Definition cache_lookup (c : PlanCache) (key : PlanKey) (now : Instant) : option CachedPlan * PlanCache :=
  match entries c !! key with
  | None => (None, c)
  | Some e =>
      if (ttl c <? duration_since now (created_at e))%N
      then (None, mkPlanCache (delete key (entries c)) (ttl c))
      else (Some (plan e), mkPlanCache (<[key := touch now e]> (entries c)) (ttl c))
  end.

Section cache.
Context `{!HashIter N CacheEntry}.

Definition evict_lru (c : PlanCache) : PlanCache :=
  match min_by (fun a b => (last_accessed a.2 <=? last_accessed b.2)%N) (hash_iter (entries c)) with
  | Some (k, _) => mkPlanCache (delete k (entries c)) (ttl c)
  | None => c
  end.

Definition cache_put (c : PlanCache) (key : PlanKey) (p : CachedPlan) (now : Instant) : PlanCache :=
  let c := if (MAX_CACHED_PLANS <=? size (entries c))%nat then evict_lru c else c in
  mkPlanCache (<[key := mkCacheEntry p now now]> (entries c)) (ttl c).
End cache.

Definition cache_len (c : PlanCache) : nat := size (entries c).
Definition cache_is_empty (c : PlanCache) : bool := bool_decide (size (entries c) = 0).

(** ** durable_state.rs *)

(** The file system: [None] for a missing file, [Err] for other I/O errors. *)
Class FileSystem (F : Type) := {
  create_dir_all : string -> F -> Result unit string * F;
  fs_write : string -> string -> F -> Result unit string * F;
  fs_read : string -> F -> Result (option string) string;
}.

(** What a successful write does, and that creating directories keeps files. *)
Class FileLaws (F : Type) `{!FileSystem F} : Prop := {
  read_written : forall p d f f', fs_write p d f = (Ok tt, f') -> fs_read p f' = Ok (Some d);
  read_other : forall p q d f f', fs_write p d f = (Ok tt, f') -> p <> q -> fs_read q f' = fs_read q f;
  read_dir : forall p q f f' r, create_dir_all p f = (r, f') -> fs_read q f' = fs_read q f;
}.

Record FileStateStore := mkFileStateStore { base_dir : string }.

(** [PathBuf::join]: an absolute path replaces the base. *)
Definition path_join (base p : string) : string :=
  if starts_with "/" p then p
  else if bool_decide (base = "") then p
  else match str_nth (String.length base - 1) base with
       | Some c => if Ascii.eqb c "/" then base ++ p else base ++ "/" ++ p
       | None => base ++ "/" ++ p
       end.

Definition path_for (s : FileStateStore) (crew_id : string) : string :=
  path_join (base_dir s) (crew_id ++ ".json").

Section store.
Context {F : Type} `{!FileSystem F}.

Definition state_save (s : FileStateStore) (crew_id state : string) (f : F) : Result unit AgnosaiError * F :=
  match create_dir_all (base_dir s) f with
  | (Err e, f1) => (Err (Io e), f1)
  | (Ok _, f1) =>
      match fs_write (path_for s crew_id) state f1 with
      | (Err e, f2) => (Err (Io e), f2)
      | (Ok _, f2) => (Ok tt, f2)
      end
  end.

Definition state_load (s : FileStateStore) (crew_id : string) (f : F) : Result (option string) AgnosaiError :=
  match fs_read (path_for s crew_id) f with
  | Ok d => Ok d
  | Err e => Err (Io e)
  end.
End store.

(** [serde_json::to_vec_pretty] and [from_slice] on [CrewState]. *)
Record StateCodec := mkStateCodec {
  to_vec_pretty : CrewState -> Result string string;
  from_slice : string -> Result CrewState string;
}.
Definition serialize_crew_state (c : StateCodec) (s : CrewState) : Result string AgnosaiError :=
  match to_vec_pretty c s with Ok b => Ok b | Err e => Err (Serialization e) end.
Definition deserialize_crew_state (c : StateCodec) (d : string) : Result CrewState AgnosaiError :=
  match from_slice c d with Ok s => Ok s | Err e => Err (Serialization e) end.

(** Decoding inverts encoding. *)
Definition codec_inverts (c : StateCodec) : Prop :=
  forall s d, to_vec_pretty c s = Ok d -> from_slice c d = Ok s.

(** ** Keys *)

Lemma sort_insert_comm x y l :
  sort_insert string_le x (sort_insert string_le y l) = sort_insert string_le y (sort_insert string_le x l).
Proof.
  induction l as [|z l IH]; simpl.
  - destruct (string_le x y) eqn:E1, (string_le y x) eqn:E2; try done.
    + by rewrite (string_le_antisym x y E1 E2).
    + destruct (string_le_total x y); congruence.
  - destruct (string_le y z) eqn:Ey, (string_le x z) eqn:Ex; simpl.
    + destruct (string_le x y) eqn:E1, (string_le y x) eqn:E2; rewrite ?Ex, ?Ey; try done.
      * by rewrite (string_le_antisym x y E1 E2).
      * destruct (string_le_total x y); congruence.
    + rewrite Ex, Ey. destruct (string_le x y) eqn:E1; [|done].
      rewrite (string_le_trans x y z E1 Ey) in Ex. done.
    + rewrite Ex, Ey. destruct (string_le y x) eqn:E1; [|done].
      rewrite (string_le_trans y x z E1 Ex) in Ey. done.
    + rewrite Ex, Ey. by rewrite IH.
Qed.

Lemma sort_strings_canonical l1 l2 : l1 ≡ₚ l2 -> sort_strings l1 = sort_strings l2.
Proof.
  unfold sort_strings, sort_by. induction 1 as [|x l1 l2 _ IH|x y l|l1 l2 l3 _ IH1 _ IH2]; simpl;
    [done|by rewrite IH|apply sort_insert_comm|by rewrite IH1].
Qed.

(** The plan key does not depend on the order in which agents and tasks are given. *)
Theorem plan_key_order_independent `{StrHasher H} a1 a2 t1 t2 mode :
  a1 ≡ₚ a2 -> t1 ≡ₚ t2 -> from_crew a1 t1 mode = from_crew a2 t2 mode.
Proof. intros Ha Ht. unfold from_crew. by rewrite (sort_strings_canonical _ _ Ha), (sort_strings_canonical _ _ Ht). Qed.

(** The key does not separate agents from tasks: a name that comes last among
    the agents can as well come first among the tasks. Whatever the hash
    function, such different crews share one cached plan. *)
Theorem plan_key_ambiguous `{StrHasher H} agents tasks x mode :
  Forall (fun a => string_le a x = true) agents -> Forall (fun t => string_le x t = true) tasks ->
  from_crew (agents ++ [x]) tasks mode = from_crew agents (x :: tasks) mode.
Proof.
  intros Ha Ht. unfold from_crew.
  assert (sort_strings (agents ++ [x]) = sort_strings agents ++ [x])%list as ->.
  { unfold sort_strings, sort_by. induction Ha as [|a agents Ha _ IH]; simpl; [done|]. rewrite IH.
    generalize (foldr (sort_insert string_le) [] agents). intros l. induction l as [|y l IHl]; simpl; [by rewrite Ha|].
    destruct (string_le a y); [done|]. by rewrite IHl. }
  assert (sort_strings (x :: tasks) = x :: sort_strings tasks) as ->.
  { unfold sort_strings, sort_by. simpl. fold (sort_by string_le tasks).
    assert (Forall (fun t => string_le x t = true) (sort_by string_le tasks)) as Hs by (by rewrite sort_by_perm).
    destruct Hs as [|y l Hy _]; simpl; [done|]. by rewrite Hy. }
  by rewrite foldl_app.
Qed.

(** ** What the cache answers *)

Inductive CacheOp := Put (key : PlanKey) (p : CachedPlan) | Get (key : PlanKey).

Section cache_proofs.
Context `{!HashIter N CacheEntry}.

Definition cache_step (c : PlanCache) (op : CacheOp * Instant) : PlanCache :=
  match op with
  | (Put k p, now) => cache_put c k p now
  | (Get k, now) => (cache_lookup c k now).2
  end.
Definition cache_run (d : Duration) (ops : list (CacheOp * Instant)) : PlanCache := foldl cache_step (with_ttl d) ops.

(** The last plan stored under a key, with the time it was stored. *)
Definition last_put (key : PlanKey) (ops : list (CacheOp * Instant)) : option (CachedPlan * Instant) :=
  last (omap (fun op => match op with
                        | (Put k p, now) => if decide (k = key) then Some (p, now) else None
                        | _ => None
                        end) ops).

Record cache_inv (d : Duration) (ops : list (CacheOp * Instant)) (c : PlanCache) : Prop := {
  ci_size : size (entries c) <= MAX_CACHED_PLANS;
  ci_ttl : ttl c = d;
  ci_last : forall k e, entries c !! k = Some e -> last_put k ops = Some (plan e, created_at e);
}.

Lemma last_put_snoc key ops op : last_put key (ops ++ [op]) =
  match op with
  | (Put k p, now) => if decide (k = key) then Some (p, now) else last_put key ops
  | (Get _, _) => last_put key ops
  end.
Proof.
  unfold last_put. rewrite omap_app. destruct op as [[k p|k] now]; cbn [omap list_omap].
  - case_decide; [by rewrite last_snoc|by rewrite app_nil_r].
  - by rewrite app_nil_r.
Qed.

Lemma evict_lru_spec c : entries (evict_lru c) ⊆ entries c /\
  (entries c <> ∅ -> S (size (entries (evict_lru c))) = size (entries c)) /\ ttl (evict_lru c) = ttl c.
Proof.
  unfold evict_lru. destruct (min_by _ _) as [[k e]|] eqn:E; simpl.
  - apply min_by_elem, elem_of_hash_iter in E. split_and!; [apply delete_subseteq| |done].
    intros _. rewrite map_size_delete_Some by eauto.
    assert (size (entries c) <> 0); [|lia]. intros Hz. apply map_size_empty_inv in Hz. rewrite Hz, lookup_empty in E. done.
  - split_and!; [done| |done]. intros Hne. exfalso. apply Hne. apply min_by_None in E.
    apply map_size_empty_inv. rewrite <-length_hash_iter, E. done.
Qed.

Lemma cache_step_inv d ops c op : cache_inv d ops c -> cache_inv d (ops ++ [op]) (cache_step c op).
Proof.
  intros [H1 H2 H3]. destruct op as [[k p|k] now]; simpl.
  - unfold cache_put. destruct (evict_lru_spec c) as (Hsub & Hsz & Httl).
    set (c' := if (MAX_CACHED_PLANS <=? size (entries c))%nat then evict_lru c else c).
    assert (entries c' ⊆ entries c /\ size (entries c') < MAX_CACHED_PLANS /\ ttl c' = d) as (Hs & Hz & Ht).
    { unfold c'. destruct (Nat.leb_spec MAX_CACHED_PLANS (size (entries c))) as [Hle|Hlt]; [|done].
      split_and!; [done| |congruence].
      assert (entries c <> ∅) as Hne.
      { intros E. rewrite E, map_size_empty in Hle. unfold MAX_CACHED_PLANS in Hle. lia. }
      specialize (Hsz Hne). lia. }
    split; simpl; [|done|].
    + rewrite map_size_insert. destruct (entries c' !! k); unfold Datatypes.id; lia.
    + intros k' e [[<- <-]|[Hne He]]%lookup_insert_Some; rewrite last_put_snoc.
      * by rewrite decide_True.
      * rewrite decide_False by done. apply H3. by eapply lookup_weaken.
  - unfold cache_lookup. destruct (entries c !! k) as [e|] eqn:E.
    + destruct (ttl c <? _)%N; split; simpl; try done.
      * etrans; [|exact H1]. apply map_subseteq_size, delete_subseteq.
      * intros k' e' [_ He]%lookup_delete_Some. rewrite last_put_snoc. auto.
      * rewrite map_size_insert_Some by eauto. done.
      * intros k' e' [[<- <-]|[_ He]]%lookup_insert_Some; rewrite last_put_snoc; [exact (H3 _ _ E)|auto].
    + split; try done. intros k' e He. rewrite last_put_snoc. auto.
Qed.

Lemma cache_run_inv d ops : cache_inv d ops (cache_run d ops).
Proof.
  unfold cache_run. induction ops as [|op ops IH] using rev_ind.
  - split; simpl; [rewrite map_size_empty; unfold MAX_CACHED_PLANS; lia|done|]. intros k e. by rewrite lookup_empty.
  - rewrite foldl_app. by apply cache_step_inv.
Qed.

(** In every sequence of insertions and lookups the cache never holds more
    than 256 plans, and a hit is current: the plan returned is the one stored
    last under the key, and it is not older than the time to live. *)
Theorem plan_cache_sound d ops key now p :
  (cache_lookup (cache_run d ops) key now).1 = Some p ->
  cache_len (cache_run d ops) <= MAX_CACHED_PLANS /\
  exists t, last_put key ops = Some (p, t) /\ (duration_since now t <= d)%N.
Proof.
  destruct (cache_run_inv d ops) as [H1 H2 H3]. unfold cache_lookup.
  destruct (entries (cache_run d ops) !! key) as [e|] eqn:E; [|done]. rewrite H2.
  destruct (N.ltb_spec d (duration_since now (created_at e))); [done|]. intros [= <-].
  split; [done|]. exists (created_at e). split; [by apply H3|done].
Qed.

(** A plan that was just stored is found again until its time to live passes. *)
Theorem plan_cache_roundtrip c key p t now :
  (duration_since now t <= ttl c)%N -> (cache_lookup (cache_put c key p t) key now).1 = Some p.
Proof.
  intros H. unfold cache_lookup, cache_put. destruct (evict_lru_spec c) as (_ & _ & Httl).
  set (c' := if (MAX_CACHED_PLANS <=? size (entries c))%nat then evict_lru c else c).
  assert (ttl c' = ttl c) as Ht by (unfold c'; by destruct (_ <=? _)%nat). clearbody c'.
  simpl. rewrite lookup_insert_eq. simpl. rewrite Ht. destruct (N.ltb_spec (ttl c) (duration_since now t)); [lia|done].
Qed.
End cache_proofs.

(** ** Durable state *)

Lemma path_for_inj s i j : starts_with "/" i = false -> starts_with "/" j = false ->
  path_for s i = path_for s j -> i = j.
Proof.
  assert (forall k, starts_with "/" k = false -> exists pre, forall k', starts_with "/" k' = false ->
    path_join (base_dir s) (k' ++ ".json") = pre ++ k' ++ ".json") as Hpre.
  { intros k _.
    assert (forall k', starts_with "/" k' = false -> starts_with "/" (k' ++ ".json") = false) as Hrel.
    { intros [|c k'] H; [done|]. unfold starts_with in *. cbn [String.prefix String.append] in *.
      destruct (ascii_dec "/" c); [by destruct k'|done]. }
    unfold path_join. destruct (decide (base_dir s = "")) as [->|Hne].
    { exists "". intros k' Hk. by rewrite Hrel. }
    rewrite bool_decide_eq_false_2 by done.
    destruct (str_nth (String.length (base_dir s) - 1) (base_dir s)) as [c|]; [destruct (Ascii.eqb c "/")|].
    - exists (base_dir s). intros k' Hk. by rewrite Hrel.
    - exists (base_dir s ++ "/"). intros k' Hk. by rewrite Hrel, str_app_assoc.
    - exists (base_dir s ++ "/"). intros k' Hk. by rewrite Hrel, str_app_assoc. }
  intros Hi Hj. unfold path_for. destruct (Hpre i Hi) as [pre Hp]. rewrite (Hp i Hi), (Hp j Hj). intros E.
  assert (i ++ ".json" = j ++ ".json") as E2.
  { revert E. clear. induction pre as [|c pre IH]; simpl; [done|]. intros [= E]. auto. }
  assert (forall a b : string, a ++ ".json" = b ++ ".json" -> a = b) as Hinj; [|by apply Hinj].
  clear. intros a b E. pose proof (f_equal String.length E) as Hl. rewrite !length_str_app in Hl. simpl in Hl.
  apply (f_equal (str_take (String.length a))) in E. rewrite str_take_app in E.
  replace (String.length a) with (String.length b) in E by lia. by rewrite str_take_app in E.
Qed.

(** A crew state that was saved is recovered unchanged: saving, loading and
    decoding give the state back, and saving another crew afterwards does not
    disturb it, as long as the ids are not absolute paths. *)
Theorem durable_state_roundtrip {F : Type} `{!FileSystem F} `{!FileLaws F}
    s codec id st d id2 d2 (f f1 f2 : F) :
  codec_inverts codec -> starts_with "/" id = false -> starts_with "/" id2 = false -> id <> id2 ->
  serialize_crew_state codec st = Ok d ->
  state_save s id d f = (Ok tt, f1) -> state_save s id2 d2 f1 = (Ok tt, f2) ->
  exists d', state_load s id f2 = Ok (Some d') /\ deserialize_crew_state codec d' = Ok st.
Proof.
  intros Hc Hi Hj Hne Hser Hs1 Hs2. exists d. split.
  - unfold state_save in *. destruct (create_dir_all (base_dir s) f) as [[[]|e] g1]; [|done].
    destruct (fs_write (path_for s id) d g1) as [[[]|e] g2] eqn:Ew; [|done]. injection Hs1 as <-.
    destruct (create_dir_all (base_dir s) g2) as [[[]|e] g3] eqn:Ed; [|done].
    destruct (fs_write (path_for s id2) d2 g3) as [[[]|e] g4] eqn:Ew2; [|done]. injection Hs2 as <-.
    unfold state_load. rewrite (read_other _ _ _ _ _ Ew2), (read_dir _ _ _ _ _ Ed), (read_written _ _ _ _ Ew); [done|].
    intros E. apply path_for_inj in E; [|done|done]. congruence.
  - unfold serialize_crew_state in Hser. destruct (to_vec_pretty codec st) as [b|e] eqn:Et; [|done].
    injection Hser as ->. unfold deserialize_crew_state. by rewrite (Hc st d Et).
Qed.

(** ** Examples and witnesses *)

#[local] Instance entry_iter : HashIter N CacheEntry := canonical_iter.

(** A hasher that concatenates. *)
#[local] Instance concat_hasher : StrHasher string := {|
  hash_new := "";
  hash_str s h := h ++ s ++ ";";
  hash_finish h := N.of_nat (String.length h);
|}.

Definition no_plan : CachedPlan := mkCachedPlan ∅ [] ∅.

Lemma plan_key_order_independent_witness :
  from_crew ["b"; "a"] ["t"] "dag" = from_crew ["a"; "b"] ["t"] "dag".
Proof. apply plan_key_order_independent; [apply Permutation_swap|reflexivity]. Defined.

(** Two agents and one task, or one agent and two tasks: one key. *)
Lemma plan_key_ambiguous_witness : from_crew ["alice"; "bob"] ["code"] "dag" = from_crew ["alice"] ["bob"; "code"] "dag".
Proof. apply (plan_key_ambiguous ["alice"] ["code"] "bob" "dag"); repeat constructor. Defined.

Lemma plan_cache_sound_witness :
  exists t, last_put 7 [(Put 7 no_plan, 10%N); (Get 7, 11%N)] = Some (no_plan, t) /\ (duration_since 12 t <= 5)%N.
Proof.
  apply (plan_cache_sound 5 [(Put 7 no_plan, 10%N); (Get 7, 11%N)] 7 12 no_plan). reflexivity.
Defined.

Lemma plan_cache_roundtrip_witness : (cache_lookup (cache_put PlanCache_new 3 no_plan 100) 3 200).1 = Some no_plan.
Proof. apply plan_cache_roundtrip. vm_compute. discriminate. Defined.

(** An expired plan is not returned. *)
Example expired_plan : (cache_lookup (cache_put (with_ttl 5) 3 no_plan 100) 3 106).1 = None.
Proof. reflexivity. Qed.

(** An absolute id leaves the base directory. *)
Example absolute_id_escapes : path_for (mkFileStateStore "/var/lib/agnosai") "/etc/cron.d/x" = "/etc/cron.d/x.json".
Proof. reflexivity. Qed.

(** A file system of text files. *)
#[local] Instance map_fs : FileSystem (gmap string string) := {|
  create_dir_all _ f := (Ok tt, f);
  fs_write p d f := (Ok tt, <[p := d]> f);
  fs_read p f := Ok (f !! p);
|}.
#[local] Instance map_fs_laws : FileLaws (gmap string string).
Proof.
  split; simpl.
  - intros p d f f' [= <-]. by rewrite lookup_insert_eq.
  - intros p q d f f' [= <-] Hne. by rewrite lookup_insert_ne.
  - by intros p q f f' r [= _ <-].
Qed.

(** A codec for crew states without results. *)
Definition idle_codec : StateCodec := {|
  to_vec_pretty s := match s with mkCrewState 1 CPending [] None => Ok "{}" | _ => Err "unsupported" end;
  from_slice d := if bool_decide (d = "{}") then Ok (mkCrewState 1 CPending [] None) else Err "syntax";
|}.

Lemma idle_codec_inverts : codec_inverts idle_codec.
Proof.
  intros s d. simpl. destruct s as [[|[p|p|]] [] [|] [|]]; try done. by intros [= <-].
Qed.

Lemma durable_state_roundtrip_witness :
  exists d', state_load (mkFileStateStore "/var") "one" (<["/var/two.json" := "x"]> (<["/var/one.json" := "{}"]> ∅)) = Ok (Some d') /\
    deserialize_crew_state idle_codec d' = Ok (mkCrewState 1 CPending [] None).
Proof.
  apply (durable_state_roundtrip (F := gmap string string) (mkFileStateStore "/var") idle_codec "one"
    (mkCrewState 1 CPending [] None) "{}" "two" "x" ∅ (<["/var/one.json" := "{}"]> ∅)).
  - exact idle_codec_inverts.
  - reflexivity.
  - reflexivity.
  - discriminate.
  - reflexivity.
  - reflexivity.
  - reflexivity.
Defined.
