(* ===== verification/Planning.v ===== *)
(** * Fleet planning (fleet/cost_planning.rs, environment.rs, discovery.rs) and
      runtime configuration (server/hot_config.rs)

    Cost estimates in floating point and the selection of the cheapest model
    that fits a budget; detection of the runtime environment and its limits
    from the file system; discovery backends as instances of a class. *)

From S2P Require Import Prelude.
From S2P Require Import F64.
From S2P Require Import Text.
From Stdlib Require Import Ascii String.
From stdpp Require Import base gmap strings pretty numbers list.

Local Open Scope string_scope.

(** ** cost_planning.rs *)

Record GpuPricing := mkGpuPricing { a100 : f64; h100 : f64; rtx4090 : f64; t4 : f64; l4 : f64 }.
Definition GpuPricing_default : GpuPricing :=
  mkGpuPricing (f64_of_N 3) (f64_lit 9 2) (f64_lit 6 5) (f64_lit 7 20) (f64_lit 4 5).

(** [fmt2]: the format [{:.2}]. *)
Definition pricing_display (fmt2 : f64 -> string) (p : GpuPricing) : string :=
  "A100=$" ++ fmt2 (a100 p) ++ "/h H100=$" ++ fmt2 (h100 p) ++ "/h RTX4090=$" ++ fmt2 (rtx4090 p) ++
  "/h T4=$" ++ fmt2 (t4 p) ++ "/h L4=$" ++ fmt2 (l4 p) ++ "/h".

(** Every model has a tier, so the [Option] of the code is always [Some]. *)
Definition model_throughput (model : string) (p : GpuPricing) : option (string * f64 * f64) :=
  let lower := to_ascii_lowercase model in
  if str_contains "gpt-4" lower || str_contains "claude-3-opus" lower then Some ("large", f64_of_N 40, a100 p)
  else if str_contains "gpt-3.5" lower || str_contains "claude-3-sonnet" lower then Some ("medium", f64_of_N 80, l4 p)
  else if str_contains "llama-70b" lower || str_contains "mixtral" lower then Some ("open-large", f64_of_N 50, a100 p)
  else if str_contains "llama-7b" lower || str_contains "llama-8b" lower || str_contains "mistral-7b" lower
  then Some ("open-small", f64_of_N 120, t4 p)
  else Some ("unknown", f64_of_N 80, l4 p).

Definition estimate_crew_cost (tasks avg_tokens_per_task : N) (model : string) (p : GpuPricing) : f64 :=
  match model_throughput model p with
  | None => f64_zero
  | Some (_, tps, hourly) =>
      let total_tokens := f64_mul (f64_of_N tasks) (f64_of_N avg_tokens_per_task) in
      let seconds := f64_div total_tokens tps in
      let hours := f64_div seconds (f64_of_N 3600) in
      f64_mul hours hourly
  end.

Definition BUDGET_MODELS : list string :=
  ["llama-7b"; "mistral-7b"; "gpt-3.5-turbo"; "llama-70b"; "mixtral-8x7b"; "claude-3-sonnet"; "gpt-4";
   "claude-3-opus"].

Definition cost_le (a b : string * f64) : bool := cmp_le a.2 b.2.

Definition select_cheapest_model (budget_usd : f64) (tasks avg_tokens_per_task : N) (p : GpuPricing) : option string :=
  let candidates := map (fun m => (m, estimate_crew_cost tasks avg_tokens_per_task m p)) BUDGET_MODELS in
  let candidates := sort_by cost_le candidates in
  fst <$> List.find (fun mc => f64_leb mc.2 budget_usd) candidates.

(** ** environment.rs *)

Inductive RuntimeEnvironment := Bare | Container | Vm | Kubernetes | Unknown.

Definition environment_name (e : RuntimeEnvironment) : string :=
  match e with
  | Bare => "bare-metal" | Container => "container" | Vm => "vm" | Kubernetes => "kubernetes" | Unknown => "unknown"
  end.

Record ResourceLimits := mkResourceLimits { cpu_quota : option f64; memory_limit_bytes : option N }.

(** The host: environment variables, readable files, existing paths, and the
    number parsers of the standard library. *)
Record HostView := mkHostView {
  env_var : string -> option string;
  read_to_string : string -> option string;
  path_exists : string -> bool;
  parse_f64 : string -> option f64;
  parse_u64 : string -> option N;
}.

Section environment.
Context (host : HostView).

Definition detect : RuntimeEnvironment :=
  match env_var host "KUBERNETES_SERVICE_HOST" with
  | Some _ => Kubernetes
  | None =>
      let from_cgroup :=
        match read_to_string host "/proc/1/cgroup" with
        | Some cgroup =>
            let lower := to_lowercase cgroup in
            if str_contains "kubepods" lower then Some Kubernetes
            else if str_contains "docker" lower || str_contains "containerd" lower || str_contains "lxc" lower
                      || str_contains "/system.slice/containerd" lower
            then Some Container else None
        | None => None
        end in
      match from_cgroup with
      | Some e => e
      | None =>
          if path_exists host "/.dockerenv" then Container
          else if path_exists host "/sys/hypervisor/type" then Vm
          else if path_exists host "/proc/1/cgroup" then Bare
          else Unknown
      end
  end.

(** [split_whitespace]: the nonempty pieces between white space. *)
Fixpoint split_white (turns : nat) (s : string) (piece : string) : list string :=
  match turns with
  | O => if bool_decide (piece = "") then [] else [piece]
  | S turns =>
      match s with
      | "" => if bool_decide (piece = "") then [] else [piece]
      | String c s' =>
          match skip_white s with
          | Some rest => if bool_decide (piece = "") then split_white turns rest ""
                         else piece :: split_white turns rest ""
          | None => split_white turns s' (piece ++ String c "")
          end
      end
  end.
Definition split_whitespace (s : string) : list string := split_white (String.length s) s "".

Definition quota_over (quota period : f64) : option f64 :=
  if f64_lt quota f64_zero || f64_leb period f64_zero then None else Some (f64_div quota period).

Definition read_cgroup_v2_cpu : option f64 :=
  match read_to_string host "/sys/fs/cgroup/cpu.max" with
  | None => None
  | Some content =>
      match split_whitespace content with
      | q :: p :: _ =>
          match parse_f64 host q with
          | None => None
          | Some quota =>
              match parse_f64 host p with
              | None => None
              | Some period => quota_over quota period
              end
          end
      | _ => None
      end
  end.

Definition read_number {A} (parse : string -> option A) (path : string) : option A :=
  match read_to_string host path with Some s => parse (trim s) | None => None end.

Definition read_cgroup_v1_cpu : option f64 :=
  match read_number (parse_f64 host) "/sys/fs/cgroup/cpu/cpu.cfs_quota_us" with
  | None => None
  | Some quota =>
      if f64_lt quota f64_zero then None
      else match read_number (parse_f64 host) "/sys/fs/cgroup/cpu/cpu.cfs_period_us" with
      | None => None
      | Some period => if f64_leb period f64_zero then None else Some (f64_div quota period)
      end
  end.

Definition read_cgroup_v2_memory : option N :=
  match read_to_string host "/sys/fs/cgroup/memory.max" with
  | None => None
  | Some content => let t := trim content in if String.eqb t "max" then None else parse_u64 host t
  end.

Definition read_cgroup_v1_memory : option N :=
  match read_number (parse_u64 host) "/sys/fs/cgroup/memory/memory.limit_in_bytes" with
  | None => None
  | Some v => if (2 ^ 62 <? v)%N then None else Some v
  end.

Definition or_else {A} (a b : option A) : option A := match a with Some x => Some x | None => b end.

Definition resource_limits : ResourceLimits :=
  mkResourceLimits (or_else read_cgroup_v2_cpu read_cgroup_v1_cpu)
    (or_else read_cgroup_v2_memory read_cgroup_v1_memory).
End environment.

(** ** discovery.rs *)

Record DiscoveredNode := mkDiscoveredNode {
  node_address : string;
  node_port : N;
  node_metadata : gmap string string;
}.
Definition DiscoveredNode_new (address : string) (port : N) : DiscoveredNode := mkDiscoveredNode address port ∅.
Definition node_with_metadata (n : DiscoveredNode) (k v : string) : DiscoveredNode :=
  mkDiscoveredNode (node_address n) (node_port n) (<[k := v]> (node_metadata n)).
Definition socket_addr (n : DiscoveredNode) : string := node_address n ++ ":" ++ pretty (node_port n).

(** [DiscoveryBackend] *)
Class DiscoveryBackend (B : Type) := { discover : B -> list DiscoveredNode }.

Record StaticDiscovery := mkStaticDiscovery { static_nodes : list DiscoveredNode }.
Record DnsDiscovery := mkDnsDiscovery { srv_name : string }.

Definition StaticDiscovery_new (nodes : list DiscoveredNode) : StaticDiscovery := mkStaticDiscovery nodes.
Definition DnsDiscovery_new (name : string) : DnsDiscovery := mkDnsDiscovery name.
Definition static_discover (b : StaticDiscovery) : list DiscoveredNode := static_nodes b.
(** The DNS backend is a stub in the source as well. *)
Definition dns_discover (b : DnsDiscovery) : list DiscoveredNode := [].

#[export] Instance static_discovery : DiscoveryBackend StaticDiscovery := {| discover := static_discover |}.
#[export] Instance dns_discovery : DiscoveryBackend DnsDiscovery := {| discover := dns_discover |}.

(** ** hot_config.rs *)

(** The watch channel: its current value. The holder keeps a receiver, so [send]
    never fails. *)
Record ConfigHolder (T : Type) := mkConfigHolder { config_value : T }.
Arguments mkConfigHolder {T}. Arguments config_value {T}.
Definition ConfigHolder_new {T} (initial : T) : ConfigHolder T := mkConfigHolder initial.
Definition config_get {T} (h : ConfigHolder T) : T := config_value h.
Definition config_update {T} (h : ConfigHolder T) (new : T) : ConfigHolder T := mkConfigHolder new.

Record RuntimeConfig := mkRuntimeConfig {
  max_concurrent_crews : N;
  inference_timeout_secs : N;
  auth_enabled : bool;
  log_level : string;
}.
Definition RuntimeConfig_default : RuntimeConfig := mkRuntimeConfig 10 300 false "agnosai=info".

(** ** The selection is optimal *)

(** Prices are non-negative numbers. *)
Definition pricing_ok (p : GpuPricing) : Prop :=
  pos_finite (a100 p) = true /\ pos_finite (l4 p) = true /\ pos_finite (t4 p) = true.

Lemma f64_mul_pos_r x w : pos_finite w = true -> pos_sign x = true -> pos_sign (f64_mul x w) = true.
Proof.
  destruct w as [[]|[]| |[] m1 e1], x as [[]|[]| |[] m2 e2]; try done; intros _ _.
  by apply binary_round_aux_pos.
Qed.

Lemma f64_of_u64_mul a b : (a <= u64_max)%N -> (b <= u64_max)%N ->
  pos_sign (f64_mul (f64_of_N a) (f64_of_N b)) = true.
Proof.
  intros Ha Hb. destruct (decide (a = 0%N)) as [->|Ha0].
  - destruct (decide (b = 0%N)) as [->|Hb0]; [done|]. apply f64_mul_pos_r; [|done].
    apply f64_of_N_pos_finite; lia.
  - apply f64_mul_pos; [apply f64_of_N_pos_finite; lia|apply f64_of_N_pos].
Qed.

Lemma estimate_pos tasks tokens model p : (tasks <= u64_max)%N -> (tokens <= u64_max)%N -> pricing_ok p ->
  pos_sign (estimate_crew_cost tasks tokens model p) = true.
Proof.
  intros Ht Hk (Ha & Hl & H4). unfold estimate_crew_cost.
  assert (exists label tps hourly, model_throughput model p = Some (label, tps, hourly) /\
    pos_finite tps = true /\ pos_finite hourly = true) as (label & tps & hourly & -> & H1 & H2).
  { unfold model_throughput. repeat case_match; do 3 eexists; (split; [reflexivity|split; [reflexivity|assumption]]). }
  apply f64_mul_pos_r; [done|]. apply f64_div_pos; [|done]. apply f64_div_pos; [|done]. by apply f64_of_u64_mul.
Qed.

(** The model selection is optimal: with positive prices and a budget that
    is a number, the model returned fits the budget and no listed model is
    cheaper, and [None] is returned exactly when no listed model fits. *)
Theorem select_cheapest_model_correct budget tasks tokens p :
  (tasks <= u64_max)%N -> (tokens <= u64_max)%N -> pricing_ok p -> is_nan budget = false ->
  match select_cheapest_model budget tasks tokens p with
  | Some m => m ∈ BUDGET_MODELS /\ f64_leb (estimate_crew_cost tasks tokens m p) budget = true /\
      forall m', m' ∈ BUDGET_MODELS ->
        cmp_le (estimate_crew_cost tasks tokens m p) (estimate_crew_cost tasks tokens m' p) = true
  | None => forall m', m' ∈ BUDGET_MODELS -> f64_leb (estimate_crew_cost tasks tokens m' p) budget = false
  end.
Proof.
  intros Ht Hk Hp Hb. unfold select_cheapest_model.
  set (cost := fun m => estimate_crew_cost tasks tokens m p).
  assert (forall m, is_nan (cost m) = false) as Hn by (intros m; by apply pos_sign_not_nan, estimate_pos).
  set (l := map _ BUDGET_MODELS). change (forall m, is_nan (cost m) = false) in Hn.
  assert (Forall (fun mc => mc.2 = cost mc.1) l) as Hl by (repeat constructor).
  assert (forall m, m ∈ BUDGET_MODELS -> (m, cost m) ∈ l) as Hin by
    (intros m Hm; apply list_elem_of_fmap; by exists m).
  assert (forall mc, mc ∈ l -> mc.1 ∈ BUDGET_MODELS) as Hfst.
  { intros mc Hmc. apply list_elem_of_fmap in Hmc as (m & -> & ?). done. }
  clearbody l.
  destruct (sort_by cost_le l) as [|[h c] rest] eqn:E.
  { simpl. intros m Hm%Hin. rewrite <-(elem_of_sort_by cost_le), E in Hm. by apply not_elem_of_nil in Hm. }
  assert (forall mc, mc ∈ l -> is_nan mc.2 = false) as Hnl.
  { intros mc Hmc. rewrite Forall_forall in Hl. rewrite (Hl mc Hmc). apply Hn. }
  assert (forall mc, mc ∈ l -> cost_le (h, c) mc = true) as Hleast.
  { apply (sort_by_head_least cost_le (fun mc => is_nan mc.2 = false)).
    - intros x y. apply cmp_le_total.
    - intros x y z. apply cmp_le_trans.
    - by apply Forall_forall.
    - by rewrite E. }
  assert ((h, c) ∈ l) as Hh by (rewrite <-(elem_of_sort_by cost_le), E; left).
  assert (c = cost h) as -> by (rewrite Forall_forall in Hl; exact (Hl _ Hh)).
  cbn [List.find snd]. destruct (f64_leb (cost h) budget) eqn:Eb; simpl.
  - split_and!; [by apply Hfst in Hh|done|]. intros m Hm. exact (Hleast _ (Hin m Hm)).
  - assert (forall mc, mc ∈ l -> f64_leb mc.2 budget = false) as Hnone.
    { intros mc Hmc. rewrite f64_leb_cmp_le in * by auto. apply not_true_iff_false in Eb. apply not_true_iff_false.
      intros Hc. apply Eb. apply (cmp_le_trans _ mc.2); auto. exact (Hleast mc Hmc). }
    replace (List.find (fun mc => f64_leb mc.2 budget) rest) with (@None (string * f64)).
    { simpl. intros m Hm. exact (Hnone _ (Hin m Hm)). }
    symmetry. destruct (List.find _ rest) as [mc|] eqn:Ef; [|done]. apply find_some in Ef as [Hmc Hc].
    apply list_elem_of_In in Hmc. rewrite Hnone in Hc; [done|].
    rewrite <-(elem_of_sort_by cost_le), E. by right.
Qed.

Lemma select_cheapest_model_correct_witness :
  f64_leb (estimate_crew_cost 10 1000 "llama-7b" GpuPricing_default) f64_one = true.
Proof.
  assert (10 <= u64_max)%N as H1 by (vm_compute; discriminate).
  assert (1000 <= u64_max)%N as H2 by (vm_compute; discriminate).
  assert (pricing_ok GpuPricing_default) as H3 by (repeat split; vm_compute; reflexivity).
  pose proof (select_cheapest_model_correct f64_one 10 1000 GpuPricing_default H1 H2 H3 eq_refl) as H.
  assert (select_cheapest_model f64_one 10 1000 GpuPricing_default = Some "llama-7b") as E by (vm_compute; reflexivity).
  rewrite E in H. exact (proj1 (proj2 H)).
Defined.

(** The estimate of an unknown model is documented as zero; it is that of a medium one. *)
Example unknown_model_is_priced :
  f64_gt (estimate_crew_cost 1 1000000 "no-such-model" GpuPricing_default) f64_zero = true.
Proof. vm_compute. reflexivity. Qed.

(** ** Limits are sensible *)

Lemma quota_over_pos q p v : quota_over q p = Some v -> f64_lt q f64_zero = false /\ f64_leb p f64_zero = false.
Proof. unfold quota_over. destruct (f64_lt q f64_zero), (f64_leb p f64_zero); done. Qed.

Definition docker_host : HostView := {|
  env_var _ := None;
  read_to_string p := if String.eqb p "/proc/1/cgroup" then Some "0::/docker/abc" else
                      if String.eqb p "/sys/fs/cgroup/cpu.max" then Some "200000 100000" else
                      if String.eqb p "/sys/fs/cgroup/memory.max" then Some "max" else None;
  path_exists p := String.eqb p "/proc/1/cgroup";
  parse_f64 s := if String.eqb s "200000" then Some (f64_of_N 200000) else
                 if String.eqb s "100000" then Some (f64_of_N 100000) else None;
  parse_u64 _ := None;
|}.

Example docker_detected : detect docker_host = Container.
Proof. reflexivity. Qed.
Example docker_limits : resource_limits docker_host = mkResourceLimits (Some (f64_of_N 2)) None.
Proof. vm_compute. reflexivity. Qed.
