(* ===== verification/Routes.v ===== *)
(** * The other routes of the server (server/routes/mcp.rs, a2a.rs, approval.rs,
      agents.rs, tools.rs, dashboard.rs, sse.rs, health.rs) and its metrics
      (server/prometheus.rs)

    The MCP endpoint over the tool registry, the A2A delegation on top of the
    orchestrator with its callback, the approval, definition, tool and dashboard
    endpoints, the opening of an event stream, and the metric counters. Protocol
    types of the bote crate are the records they are. *)

From S2P Require Import Prelude.
From S2P Require Import F64.
From S2P Require Import Resource.
From S2P Require Import Core.
From S2P Require Import Scoring.
From S2P Require Import Llm.
From S2P Require Import TaskExec.
From S2P Require Import CrewRunner.
From S2P Require Import CrewRunnerProofs.
From S2P Require Import Approval.
From S2P Require Import Orchestrator.
From S2P Require Import CrewsRoute.
From S2P Require Import Ssrf.
From S2P Require Import Tools.
From Stdlib Require Import String SpecFloat.
From stdpp Require Import base gmap strings pretty numbers relations list.

Local Open Scope string_scope.

(** ** mcp.rs *)

Record JsonRpcRequest := mkJsonRpcRequest { rpc_id : option Value; method : string; params : Value }.
Inductive JsonRpcResponse := RpcSuccess (id result : Value) | RpcError (id : Value) (code : Z) (message : string).

Definition response_id (r : JsonRpcResponse) : Value := match r with RpcSuccess id _ => id | RpcError id _ _ => id end.

(** The schema bote sends: the properties by name (a later parameter replaces
    an earlier one of the same name) and the required names. *)
Record ToolDef := mkToolDef { td_name : string; td_description : string; td_properties : gmap string Value;
  td_required : list string }.

Definition add_param (acc : gmap string Value * list string) (p : ParameterSchema) : gmap string Value * list string :=
  (<[ps_name p := Obj [("type", Str (param_type p)); ("description", Str (ps_description p))]]> acc.1,
   if required p then (acc.2 ++ [ps_name p])%list else acc.2).

Definition to_bote_tool_def (s : ToolSchema) : ToolDef :=
  let '(properties, req) := foldl add_param (∅, []) (ts_parameters s) in
  mkToolDef (ts_name s) (ts_description s) properties req.

Section mcp.
Context `{!HashIter string NativeTool}.
(** [schema_to_json]: serde on bote's input schema; [to_string]: the text of a
    JSON value; [version]: the version of the package. *)
Context (schema_to_json : gmap string Value -> list string -> Value) (to_string : Value -> string) (version : string).

Definition handle_initialize (id : Value) : JsonRpcResponse :=
  RpcSuccess id (Obj [("protocolVersion", Str "2025-03-26");
    ("serverInfo", Obj [("name", Str "agnosai"); ("version", Str version)]);
    ("capabilities", Obj [("tools", Obj [])])]).

Definition tool_item (d : ToolDef) : Value :=
  Obj [("name", Str (td_name d)); ("description", Str (td_description d));
       ("inputSchema", schema_to_json (td_properties d) (td_required d))].

Definition handle_tools_list (id : Value) (tools : ToolRegistry) : JsonRpcResponse :=
  RpcSuccess id (Obj [("tools", Arr (map (fun s => tool_item (to_bote_tool_def s)) (list_tools tools)))]).

Definition tool_content (text : string) (is_error : bool) : Value :=
  Obj [("content", Arr [Obj [("type", Str "text"); ("text", Str text)]]); ("isError", Bool is_error)].

(** A later pair of a JSON object replaces an earlier one of the same key. *)
Definition arguments_of (params : Value) : gmap string Value :=
  match as_object (default (Obj []) (json_get params "arguments")) with
  | Some m => list_to_map (reverse m)
  | None => ∅
  end.

Definition output_content (out : ToolOutput) : Value :=
  if success out
  then tool_content (match result out with Str s => s | other => to_string other end) false
  else tool_content (default "Unknown error" (error out)) true.

Definition handle_tools_call (id : Value) (params : Value) (tools : ToolRegistry) : Outcome JsonRpcResponse :=
  match (v ← json_get params "name"; as_str v) with
  | None => Returns (RpcError id (-32602) "Missing tool name")
  | Some n =>
      match Tools.get tools n with
      | None => Returns (RpcSuccess id (tool_content ("Tool not found: " ++ n) true))
      | Some tool =>
          match execute tool (arguments_of params) with
          | Returns out => Returns (RpcSuccess id (output_content out))
          | Panics => Panics
          | Hangs => Hangs
          end
      end
  end.

Definition mcp_handler (tools : ToolRegistry) (req : JsonRpcRequest) : Outcome JsonRpcResponse :=
  let id := default Null (rpc_id req) in
  if String.eqb (method req) "initialize" then Returns (handle_initialize id)
  else if String.eqb (method req) "tools/list" then Returns (handle_tools_list id tools)
  else if String.eqb (method req) "tools/call" then handle_tools_call id (params req) tools
  else Returns (RpcError id (-32601) "Method not found").
End mcp.

(** ** a2a.rs *)

Definition A2A_MAX_STRING_LEN : nat := N.to_nat 10000.
Definition A2A_MAX_METADATA_BYTES : nat := N.to_nat (64 * 1024).

Record A2ARequest := mkA2ARequest {
  a2a_task_id : string;
  a2a_description : string;
  a2a_domain : option string;
  a2a_size : option string;
  a2a_preset : option string;
  callback_url : option string;
  a2a_metadata : Value;
}.
Record A2AResponse := mkA2AResponse {
  ar_task_id : string; ar_status : string; ar_result : option Value; ar_error : option string;
}.
Definition OK : N := 200.

Definition a2a_failed (req : A2ARequest) (msg : string) : A2AResponse :=
  mkA2AResponse (a2a_task_id req) "failed" None (Some msg).

Definition a2a_spec (crew task : Uuid) (req : A2ARequest) : CrewSpec :=
  with_tasks (CrewSpec_new crew ("a2a-" ++ default "general" (a2a_domain req) ++ "-" ++ a2a_task_id req))
    [Task_new task (a2a_description req)].

Section a2a.
Context {W : Type} (env : Env W) (rt : Runtime W).
Context `{!HashIter Uuid f64} `{!HashIter Uuid nat}.
Context (parse : string -> option Url) (to_vec : Value -> option string) (display : AgnosaiError -> string).

Definition a2a_response (req : A2ARequest) (st : CrewState) : A2AResponse :=
  mkA2AResponse (a2a_task_id req) "completed"
    (Some (Obj [("tasks", Arr (map (fun r => Obj [("task_id", Str (uuid_to_string env (res_task_id r)));
                                                  ("output", Str (output r))]) (results st)))])) None.

(** The URL the callback is posted to, if any. *)
Definition callback_of (req : A2ARequest) : option string :=
  match callback_url req with
  | Some url => if is_safe_url parse url then Some url else None
  | None => None
  end.

(** [receive]: the reply, the callback that is spawned, and the orchestrator
    afterwards. *)
Definition receive (crew task : Uuid) (strength : option N) (expired : option (list LogEntry)) (o : Orchestrator)
    (req : A2ARequest) (w : W) : Outcome (N * A2AResponse * option string * Orchestrator) :=
  if (A2A_MAX_STRING_LEN <? String.length (a2a_task_id req))%nat
     || (A2A_MAX_STRING_LEN <? String.length (a2a_description req))%nat
  then Returns (BAD_REQUEST, a2a_failed req "field exceeds max length", None, o)
  else if match to_vec (a2a_metadata req) with
          | Some b => (A2A_MAX_METADATA_BYTES <? String.length b)%nat | None => false end
  then Returns (BAD_REQUEST, a2a_failed req "metadata exceeds 64 KiB limit", None, o)
  else
    match run_crew env rt strength expired o (a2a_spec crew task req) w with
    | Panics => Panics
    | Hangs => Hangs
    | Returns (Ok st, o') => Returns (OK, a2a_response req st, callback_of req, o')
    | Returns (Err e, o') => Returns (INTERNAL_SERVER_ERROR, a2a_failed req (display e), None, o')
    end.
End a2a.

(** ** approval.rs, agents.rs, tools.rs *)

Record ApprovalResponse := mkApprovalResponse { delivered : bool; message : string }.
Definition debug_decision (d : ApprovalDecision) : string := match d with Approved => "Approved" | Rejected => "Rejected" end.

Definition submit_approval (uuid_text : Uuid -> string) (g : ApprovalGate) (id : Uuid) (d : ApprovalDecision)
    : ApprovalResponse * ApprovalGate :=
  let '(sent, g') := submit_decision g id d in
  (mkApprovalResponse sent
     (if sent then "Decision " ++ debug_decision d ++ " delivered for task " ++ uuid_text id
      else "No pending approval found for task " ++ uuid_text id), g').
Definition list_pending `{!HashIter Uuid ChannelId} (g : ApprovalGate) : list Uuid := pending_tasks g.

Definition CREATED : N := 201.
Definition NO_CONTENT : N := 204.

Definition list_definitions `{!HashIter string AgentDefinition} (to_value : AgentDefinition -> Result Value string)
    (defs : gmap string AgentDefinition) : list Value :=
  omap (fun d => match to_value d with Ok v => Some v | Err _ => None end) (hash_values defs).
Definition create_definition (to_value : AgentDefinition -> Result Value string)
    (defs : gmap string AgentDefinition) (d : AgentDefinition)
    : Result (N * Value) HttpError * gmap string AgentDefinition :=
  match to_value d with
  | Err e => (Err (INTERNAL_SERVER_ERROR, error_body ("serialization failed: " ++ e)), defs)
  | Ok v => (Ok (CREATED, v), <[agent_key d := d]> defs)
  end.

Definition remove_tool (tools : ToolRegistry) (n : string) : N * ToolRegistry :=
  let '(was, tools') := Tools.remove tools n in ((if was then NO_CONTENT else NOT_FOUND), tools').

(** ** dashboard.rs *)

Record CrewSummary := mkCrewSummary {
  cs_crew_id : string; cs_status : string; cs_task_count : nat; cs_wall_ms : N; cs_cost_usd : f64;
}.
Record AgentSummary := mkAgentSummary { as_agent_key : string; as_name : string; as_role : string; as_tool_count : nat }.

Section dashboard.
Context `{!HashIter Uuid CrewState} (uuid_text : Uuid -> string).

Definition crew_summary (c : CrewState) : CrewSummary :=
  mkCrewSummary (uuid_text (state_crew_id c)) (debug_crew_status (crew_status c)) (length (results c))
    (match profile c with Some p => wall_ms p | None => 0%N end)
    (match profile c with Some p => cost_usd p | None => f64_zero end).
Definition crew_history (o : Orchestrator) : list CrewSummary := map crew_summary (hash_values (active_crews o)).

Definition meta_str (r : TaskResult) (k : string) : option string := v ← metadata r !! k; as_str v.

Definition see_result (acc : gset string * list AgentSummary) (r : TaskResult) : gset string * list AgentSummary :=
  match meta_str r "agent" with
  | None => acc
  | Some key =>
      if bool_decide (key ∈ acc.1) then acc
      else ({[key]} ∪ acc.1,
            (acc.2 ++ [mkAgentSummary key (default key (meta_str r "agent_name")) (default "" (meta_str r "agent_role")) 0])%list)
  end.

Definition agent_performance (o : Orchestrator) : list AgentSummary :=
  (foldl (fun acc c => foldl see_result acc (results c)) (∅, []) (hash_values (active_crews o))).2.
End dashboard.

(** ** sse.rs: the opening of a stream *)

(** Whether the crew has a channel, and the bus after the subscription, with
    the channel removed again for an unknown crew. *)
Definition crew_stream (b : EventBus) (id : Uuid) : bool * EventBus :=
  let crew_exists := bus_has b id in
  let b' := bus_subscribe b id in
  (crew_exists, if crew_exists then b' else bus_remove b' id).

(** ** prometheus.rs *)

Record AgnosMetrics := mkAgnosMetrics {
  crews_total : N;
  crews_active : N;
  tasks_completed : N;
  tasks_failed : N;
  inference_tokens_total : N;
  inference_cost_micro_usd : N;
}.
Definition AgnosMetrics_new : AgnosMetrics := mkAgnosMetrics 0 0 0 0 0 0.
Definition MICRODOLLAR : f64 := f64_of_N 1000000.

Definition record_crew_started (m : AgnosMetrics) : AgnosMetrics :=
  mkAgnosMetrics (u64_wrapping_add (crews_total m) 1) (u64_wrapping_add (crews_active m) 1) (tasks_completed m)
    (tasks_failed m) (inference_tokens_total m) (inference_cost_micro_usd m).
Definition record_crew_completed (m : AgnosMetrics) : AgnosMetrics :=
  mkAgnosMetrics (crews_total m) (saturating_sub (crews_active m) 1) (tasks_completed m) (tasks_failed m)
    (inference_tokens_total m) (inference_cost_micro_usd m).
Definition record_task_completed (m : AgnosMetrics) : AgnosMetrics :=
  mkAgnosMetrics (crews_total m) (crews_active m) (u64_wrapping_add (tasks_completed m) 1) (tasks_failed m)
    (inference_tokens_total m) (inference_cost_micro_usd m).
Definition record_task_failed (m : AgnosMetrics) : AgnosMetrics :=
  mkAgnosMetrics (crews_total m) (crews_active m) (tasks_completed m) (u64_wrapping_add (tasks_failed m) 1)
    (inference_tokens_total m) (inference_cost_micro_usd m).
Definition record_inference (m : AgnosMetrics) (tokens : N) (cost : f64) : AgnosMetrics :=
  mkAgnosMetrics (crews_total m) (crews_active m) (tasks_completed m) (tasks_failed m)
    (u64_wrapping_add (inference_tokens_total m) tokens)
    (u64_wrapping_add (inference_cost_micro_usd m) (f64_as_u64 (f64_mul cost MICRODOLLAR))).
Definition inference_cost_usd (m : AgnosMetrics) : f64 :=
  f64_div (f64_of_N (inference_cost_micro_usd m)) MICRODOLLAR.

(** ** MCP *)

Section mcp_proofs.
Context `{!HashIter string NativeTool}.
Context (schema_to_json : gmap string Value -> list string -> Value) (to_string : Value -> string) (version : string).
Abbreviation handler := (mcp_handler schema_to_json to_string version).

(** Every answer of the MCP endpoint carries the id of its request, a tool
    list has one definition for each registered tool, and a call is answered
    without an error mark only when the named tool is registered, ran on the
    given arguments and succeeded. *)
Theorem mcp_answers_correct tools req resp :
  handler tools req = Returns resp ->
  response_id resp = default Null (rpc_id req) /\
  (method req = "tools/list" -> exists l, resp = RpcSuccess (default Null (rpc_id req)) (Obj [("tools", Arr l)]) /\
     l ≡ₚ map (fun nt => tool_item schema_to_json (to_bote_tool_def (schema nt.2))) (map_to_list tools)) /\
  (method req = "tools/call" -> forall id text, resp = RpcSuccess id (tool_content text false) ->
     exists n tool out, (v ← json_get (params req) "name"; as_str v) = Some n /\ tools !! n = Some tool /\
       execute tool (arguments_of (params req)) = Returns out /\ success out = true).
Proof.
  unfold mcp_handler. intros H.
  destruct (String.eqb_spec (method req) "initialize") as [E|_].
  { injection H as <-. rewrite E. by split_and!. }
  destruct (String.eqb_spec (method req) "tools/list") as [E|Hl].
  { injection H as <-. rewrite E. split; [done|]. split; [|done]. intros _. eexists. split; [done|].
    unfold list_tools, hash_values. rewrite map_map. unfold compose.
    change (fmap snd (hash_iter tools)) with (map snd (hash_iter tools)). rewrite map_map.
    apply Permutation_map, hash_iter_perm. }
  destruct (String.eqb_spec (method req) "tools/call") as [E|Hc].
  2: { injection H as <-. split; [done|]. by split. }
  split; [|split; [by rewrite E|]].
  - unfold handle_tools_call in H. destruct (v ← _; _); [|by injection H as <-].
    destruct (Tools.get tools s); [|by injection H as <-].
    destruct (execute n _); [|done..]. by injection H as <-.
  - intros _ id text ->. unfold handle_tools_call in H.
    destruct (v ← json_get (params req) "name"; as_str v) as [n|]; [|done]. unfold Tools.get in H.
    destruct (tools !! n) as [tool|] eqn:Et; [|done].
    destruct (execute tool _) as [out| |] eqn:Eo; [|done..].
    exists n, tool, out. split_and!; [done..|]. unfold output_content in H. by destruct (success out).
Qed.
End mcp_proofs.

(** ** A2A *)

(** The callback of a delegated task is posted only to a URL that passed
    the network filter, and only after the crew has run; a request that is too
    large is refused without a crew. *)
Theorem a2a_callback_safe {W} (env : Env W) rt `{!HashIter Uuid f64} `{!HashIter Uuid nat} parse to_vec display
    crew task strength expired o req w code resp url o' :
  receive env rt parse to_vec display crew task strength expired o req w = Returns (code, resp, Some url, o') ->
  is_safe_url parse url = true /\ callback_url req = Some url /\ code = OK /\
  (String.length (a2a_task_id req) <= A2A_MAX_STRING_LEN)%nat /\
  (String.length (a2a_description req) <= A2A_MAX_STRING_LEN)%nat /\
  exists st, run_crew env rt strength expired o (a2a_spec crew task req) w = Returns (Ok st, o').
Proof.
  unfold receive. destruct (_ || _) eqn:El; [done|]. apply orb_false_iff in El as [H1%Nat.ltb_ge H2%Nat.ltb_ge].
  destruct (match to_vec _ with Some _ => _ | None => _ end); [done|].
  destruct (run_crew _ _ _ _ _ _ _) as [[[st|e] o1]| |]; [|done..]. unfold callback_of.
  destruct (callback_url req) as [u|]; [|done]. destruct (is_safe_url parse u) eqn:Es; [|done].
  intros [= <- <- <- <-]. split_and!; [done..|]. by exists st.
Qed.

#[local] Existing Instance canonical_iter.

Definition a2a_demo : A2ARequest := mkA2ARequest "t-1" "say hello" None None None (Some "http://93.184.216.34/") Null.

Lemma a2a_callback_safe_witness :
  match receive toy_env quiet_rt toy_parse (fun _ => None) (fun _ => "") 5 1 None None start a2a_demo ∅ with
  | Returns (_, _, Some url, _) => is_safe_url toy_parse url = true
  | _ => False
  end.
Proof.
  destruct (receive toy_env quiet_rt toy_parse (fun _ => None) (fun _ => "") 5 1 None None start a2a_demo ∅)
    as [[[[code resp] [url|]] o']| |] eqn:E; [|vm_compute in E; discriminate..].
  exact (proj1 (a2a_callback_safe toy_env quiet_rt toy_parse (fun _ => None) (fun _ => "") 5 1 None None start
    a2a_demo ∅ code resp url o' E)).
Defined.

(** The reply says "completed" whenever the orchestrator returns a crew, also a
    failed one, here after the timeout. *)
Example timed_out_delegation_is_completed :
  match receive toy_env quiet_rt toy_parse (fun _ => None) (fun _ => "") 5 1 None (Some []) start a2a_demo ∅ with
  | Returns (code, resp, _, o') =>
      code = OK /\ ar_status resp = "completed" /\ (crew_status <$> active_crews o' !! 5%N) = Some CFailed
  | _ => False
  end.
Proof. vm_compute. by split_and!. Qed.

(** ** The dashboard *)

(** No stored result names its agent. *)
Definition no_agent (c : CrewState) : Prop := Forall (fun tr => metadata tr !! "agent" = None) (results c).
Definition no_agents (o : Orchestrator) : Prop := map_Forall (fun _ c => no_agent c) (active_crews o).

Lemma agent_performance_none `{!HashIter Uuid CrewState} o : no_agents o -> agent_performance o = [].
Proof.
  intros Ho. unfold agent_performance.
  assert (Forall no_agent (hash_values (active_crews o))) as Hall.
  { apply Forall_forall. intros c Hc. unfold hash_values in Hc.
    apply list_elem_of_fmap in Hc as ([id c'] & -> & Hin). rewrite hash_iter_perm in Hin.
    apply elem_of_map_to_list in Hin. by apply (Ho id). }
  enough (foldl (fun acc c => foldl see_result acc (results c)) (∅, []) (hash_values (active_crews o)) = (∅, [])) as ->;
    [done|].
  induction Hall as [|c l Hc Hl IH]; cbn [foldl]; [done|].
  enough (foldl see_result (∅, []) (results c) = (∅, [])) as ->; [done|]. clear IH.
  induction Hc as [|tr rs Htr Hrs IH]; cbn [foldl]; [done|].
  unfold see_result at 2, meta_str. rewrite Htr. exact IH.
Qed.

Section dashboard_proofs.
Context {W : Type} (env : Env W) (rt : Runtime W) `{!HashIter Uuid nat} `{!HashIter Uuid f64} `{!HashIter Uuid CrewState}.

Lemma accept_no_agents o s : no_agents o -> no_agents (accept_crew (uuid_to_string env) o s).2.
Proof.
  intros Ho. unfold no_agents, accept_crew. cbn [snd active_crews]. apply map_Forall_insert_2; [constructor|].
  unfold evict_finished. destruct (_ <=? _)%nat; [|done]. intros id c Hc. apply map_lookup_filter_Some in Hc as [Hc _].
  by apply (Ho id).
Qed.

Lemma conclude_no_agents o id name out :
  no_agents o -> (forall st, out = Ok st -> no_agent st) ->
  no_agents (conclude_crew (uuid_to_string env) o id name out).2.
Proof.
  intros Ho Hout. destruct out as [st|e]; [|done]. unfold no_agents. cbn [conclude_crew snd active_crews].
  apply map_Forall_insert_2; [by apply Hout|done].
Qed.

Lemma run_no_agent r strength w out :
  fair_runtime rt -> run env rt r strength w = Returns (Ok out) -> no_agent (out_state out).
Proof.
  intros Hfair Hrun. unfold run in Hrun.
  destruct (run_mode env rt r w) as [[[[[res ts'] w1] log]|e]| |] eqn:Hm; try done.
  destruct (poll_cancelled rt w1) as [c w2]. simplify_eq. simpl in *. by eapply run_mode_no_agent.
Qed.

(** The agents page of the dashboard stays empty: it reads a metadata entry
    that no run writes, so after any crew that is run the list is empty again. *)
Theorem dashboard_lists_no_agent strength expired o s w res o' :
  fair_runtime rt -> no_agents o -> run_crew env rt strength expired o s w = Returns (res, o') ->
  no_agents o' /\ agent_performance o' = [].
Proof.
  intros Hfair Ho Hrun. enough (no_agents o') by (split; [done|by apply agent_performance_none]).
  unfold run_crew in Hrun. pose proof (accept_no_agents o s Ho) as Ha.
  destruct (accept_crew (uuid_to_string env) o s) as [[tok r] o1]. cbn [snd] in Ha.
  assert (forall out o2, (forall st, out = Ok st -> no_agent st) -> no_agents o2 ->
    Returns (conclude_crew (uuid_to_string env) o2 (crew_id s) (crew_name s) out) = Returns (res, o') -> no_agents o')
    as Hc.
  { intros out o2 Hout Ho2 Heq. replace o' with (res, o').2 by done. injection Heq as <-.
    by apply conclude_no_agents. }
  destruct expired as [log|]; [apply (Hc _ _) in Hrun; [done| |done]; intros st [= <-]; constructor|].
  destruct (run env rt r strength w) as [[out|e]| |] eqn:Er; try done; apply (Hc _ _) in Hrun; try done.
  - intros st [= <-]. by eapply run_no_agent.
  - intros st [= <-]. constructor.
Qed.
End dashboard_proofs.

(** ** Opening a stream *)

(** A stream for a crew with a channel adds one receiver to it and touches
    no other channel; a stream for an unknown crew is refused and leaves every
    channel with a receiver as it was, and the whole bus while it is not full. *)
Theorem crew_stream_correct b id :
  (forall n, b !! id = Some n -> crew_stream b id = (true, <[id := (n + 1)%N]> b)) /\
  (b !! id = None ->
   (crew_stream b id).1 = false /\ (crew_stream b id).2 !! id = None /\
   (forall j n, b !! j = Some n -> (0 < n)%N -> (crew_stream b id).2 !! j = Some n) /\
   ((size b < MAX_EVENT_CHANNELS)%nat -> (crew_stream b id).2 = b)).
Proof.
  unfold crew_stream, bus_has, bus_subscribe, bus_sender, bus_remove, EventBus in *. split.
  - intros n Hn. rewrite bool_decide_eq_true_2, Hn by (rewrite Hn; eauto). f_equal.
    apply map_eq. intros j. destruct (decide (j = id)) as [->|Hj].
    + by rewrite lookup_alter_eq, lookup_insert_eq, Hn.
    + by rewrite lookup_alter_ne, lookup_insert_ne by done.
  - intros Hn. rewrite bool_decide_eq_false_2 by (rewrite Hn; by intros [? ?]). rewrite Hn. cbn [fst snd].
    split; [done|]. split; [apply lookup_delete_eq|]. split.
    + intros j n Hj Hpos. destruct (decide (j = id)) as [->|Hne]; [congruence|].
      rewrite lookup_delete_ne, lookup_alter_ne, lookup_insert_ne by done.
      destruct (_ <=? _)%nat; [|done]. by apply map_lookup_filter_Some.
    + intros Hs. rewrite (proj2 (Nat.leb_gt _ _) Hs). apply map_eq. intros j.
      destruct (decide (j = id)) as [->|Hne]; [by rewrite lookup_delete_eq|].
      by rewrite lookup_delete_ne, lookup_alter_ne, lookup_insert_ne by done.
Qed.

(** ** Metrics *)

Inductive MetricOp := CrewStarted | CrewCompleted | TaskCompleted | TaskFailed | Inference (tokens : N) (cost : f64).
Definition metric_step (m : AgnosMetrics) (op : MetricOp) : AgnosMetrics :=
  match op with
  | CrewStarted => record_crew_started m
  | CrewCompleted => record_crew_completed m
  | TaskCompleted => record_task_completed m
  | TaskFailed => record_task_failed m
  | Inference tokens cost => record_inference m tokens cost
  end.

(** What the operations amount to, without wrap-around. *)
Definition started (ops : list MetricOp) : N := n_sum (map (fun op => match op with CrewStarted => 1 | _ => 0 end)%N ops).
Definition ended (ops : list MetricOp) : N := n_sum (map (fun op => match op with CrewCompleted => 1 | _ => 0 end)%N ops).
Definition done_tasks (ops : list MetricOp) : N := n_sum (map (fun op => match op with TaskCompleted => 1 | _ => 0 end)%N ops).
Definition failed_tasks (ops : list MetricOp) : N := n_sum (map (fun op => match op with TaskFailed => 1 | _ => 0 end)%N ops).
Definition tokens_in (ops : list MetricOp) : N := n_sum (map (fun op => match op with Inference t _ => t | _ => 0 end)%N ops).
Definition micros_in (ops : list MetricOp) : N :=
  n_sum (map (fun op => match op with Inference _ c => f64_as_u64 (f64_mul c MICRODOLLAR) | _ => 0 end)%N ops).

(** Every crew that completes was started before. *)
Definition balanced (ops : list MetricOp) : Prop := forall k, (ended (take k ops) <= started (take k ops))%N.

Lemma n_sum_snoc l x : n_sum (l ++ [x]) = (n_sum l + x)%N.
Proof. unfold n_sum. induction l as [|y l IH]; simpl; lia. Qed.

Lemma wrapping_small x y : (x + y <= u64_max)%N -> u64_wrapping_add x y = (x + y)%N.
Proof. intros H. unfold u64_wrapping_add. apply N.mod_small. unfold u64_max in H. lia. Qed.

(** The metrics count what was recorded while the totals fit 64 bits: the
    gauge of active crews is the number started less the number completed when
    no completion precedes its start, and the cost is the sum of the costs of the
    calls, each cut down to whole microdollars. *)
Theorem metrics_count ops :
  balanced ops -> (started ops <= u64_max)%N -> (done_tasks ops <= u64_max)%N -> (failed_tasks ops <= u64_max)%N ->
  (tokens_in ops <= u64_max)%N -> (micros_in ops <= u64_max)%N ->
  foldl metric_step AgnosMetrics_new ops =
    mkAgnosMetrics (started ops) (started ops - ended ops) (done_tasks ops) (failed_tasks ops) (tokens_in ops)
      (micros_in ops).
Proof.
  induction ops as [|op ops IH] using rev_ind; [done|]. intros Hb.
  assert (balanced ops) as Hb'.
  { intros k. specialize (Hb (k `min` length ops)%nat). rewrite take_app_le in Hb by lia.
    destruct (Nat.min_spec k (length ops)) as [[_ E]|[? E]]; rewrite E in Hb; [done|].
    rewrite (take_ge ops k) by done. by rewrite take_ge in Hb. }
  pose proof (Hb' (length ops)) as Hle. rewrite take_ge in Hle by done.
  specialize (Hb (S (length ops))). rewrite take_ge in Hb by (rewrite length_app; simpl; lia).
  unfold started, ended, done_tasks, failed_tasks, tokens_in, micros_in in *.
  rewrite !map_app in *. cbn [map] in *. rewrite !n_sum_snoc in *. intros H1 H2 H3 H4 H5.
  rewrite foldl_app, IH by (try done; lia). cbn [foldl].
  destruct op; cbn [metric_step]; unfold record_crew_started, record_crew_completed, record_task_completed,
    record_task_failed, record_inference, saturating_sub;
    cbn [crews_total crews_active tasks_completed tasks_failed inference_tokens_total inference_cost_micro_usd];
    rewrite ?wrapping_small by lia; f_equal; lia.
Qed.

Lemma metrics_count_witness :
  crews_active (foldl metric_step AgnosMetrics_new [CrewStarted; TaskFailed; CrewStarted; CrewCompleted]) = 1%N.
Proof.
  rewrite (metrics_count [CrewStarted; TaskFailed; CrewStarted; CrewCompleted]); [reflexivity| |vm_compute; congruence..].
  intros k. do 5 (destruct k as [|k]; [vm_compute; congruence|]). destruct k; vm_compute; congruence.
Defined.

(** Costs below a microdollar are never accumulated. *)
Example small_costs_vanish :
  inference_cost_micro_usd (foldl metric_step AgnosMetrics_new
    (replicate 1000 (Inference 1 (f64_lit 9 10000000)))) = 0%N.
Proof. vm_compute. reflexivity. Qed.

Lemma dashboard_lists_no_agent_witness :
  match run_crew toy_env lifo_rt None None start hello_crew ∅ with
  | Returns (_, o') => agent_performance o' = []
  | _ => False
  end.
Proof.
  destruct (run_crew toy_env lifo_rt None None start hello_crew ∅) as [[res o']| |] eqn:E;
    [|vm_compute in E; discriminate..].
  exact (proj2 (dashboard_lists_no_agent toy_env lifo_rt None None start hello_crew ∅ res o' lifo_fair
    (map_Forall_empty _) E)).
Defined.

Lemma mcp_answers_correct_witness :
  let req := mkJsonRpcRequest (Some (Str "7")) "tools/call"
    (Obj [("name", Str "echo"); ("arguments", Obj [("message", Str "hi")])]) in
  exists resp, mcp_handler (fun _ _ => Null) (fun _ => "") "1" {["echo" := EchoTool]} req = Returns resp /\
    response_id resp = Str "7".
Proof.
  eexists. split; [vm_compute; reflexivity|].
  exact (proj1 (mcp_answers_correct (fun _ _ => Null) (fun _ => "") "1" {["echo" := EchoTool]}
    (mkJsonRpcRequest (Some (Str "7")) "tools/call"
      (Obj [("name", Str "echo"); ("arguments", Obj [("message", Str "hi")])])) _ eq_refl)).
Defined.
