(* ===== verification/Server.v ===== *)
(** * The server (main.rs, server/mod.rs, server/state.rs, server/routes/health.rs)

    The configuration of authentication from the environment, the initial state,
    the route table with its protected part, and the dispatch of a request
    through the middleware to its handler. Handlers are those of CrewsRoute and
    Routes; requests are served one after the other (what interleaves inside the
    orchestrator is in Orchestrator). Parsing of bodies, the serialization of
    answers and the text of the metrics are parameters. *)

From S2P Require Import Prelude.
From S2P Require Import F64.
From S2P Require Import Resource.
From S2P Require Import Core.
From S2P Require Import Text.
From S2P Require Import Ssrf.
From S2P Require Import Middleware.
From S2P Require Import Llm.
From S2P Require Import TaskExec.
From S2P Require Import CrewRunner.
From S2P Require Import Approval.
From S2P Require Import Orchestrator.
From S2P Require Import CrewsRoute.
From S2P Require Import Tools.
From S2P Require Import HttpTools.
From S2P Require Import Routes.
From Stdlib Require Import Ascii String.
From stdpp Require Import base gmap strings pretty numbers relations list.

Local Open Scope string_scope.

(** ** main.rs: the environment *)

Section environment.
(** [std::env::var(..).ok()] *)
Context (var : string -> option string).

Definition nonempty (s : string) : bool := negb (String.length s =? 0)%nat.

Definition auth_flag : bool :=
  match var "AGNOSAI_AUTH_ENABLED" with
  | Some v => eq_ignore_ascii_case v "true" || String.eqb v "1"
  | None => false
  end.

Definition jwt_from_env : option JwtConfig :=
  match var "AGNOSAI_JWT_PUBLIC_KEY" with
  | Some key =>
      if nonempty key then
        let cfg := JwtConfig_new key in
        let cfg := match var "AGNOSAI_JWT_ISSUER" with Some i => with_issuer cfg i | None => cfg end in
        let cfg := match var "AGNOSAI_JWT_AUDIENCE" with Some a => with_audience cfg a | None => cfg end in
        Some cfg
      else None
  | None => None
  end.

Definition load_auth_config : AuthConfig :=
  let secret := default "" (var "AGNOSAI_AUTH_SECRET") in
  match jwt_from_env with
  | Some jwt => with_jwt jwt
  | None =>
      if nonempty secret then with_secret secret
      else if auth_flag then mkAuthConfig true "" None
      else AuthConfig_default
  end.

(** [str::parse::<u16>]: an optional plus sign and decimal digits, at most 65535. *)
Definition parse_u16 (s : string) : option N :=
  let digits := match s with String "+" t => t | _ => s end in
  if nonempty digits then parse_digits 65535 0 digits else None.

Definition port : N :=
  default 8080%N (p ← match var "PORT" with Some p => Some p | None => var "AGNOSAI_PORT" end; parse_u16 p).
Definition hoosh_url : string := default "http://localhost:8088" (var "HOOSH_URL").
End environment.

(** ** state.rs *)

(** The event bus and the audit chain of [AppState] are the ones the orchestrator
    shares, so they are read there; the HTTP client has no state. *)
Record AppState := mkAppState {
  st_orchestrator : Orchestrator;
  st_tools : ToolRegistry;
  st_auth : AuthConfig;
  st_approval_gate : ApprovalGate;
  st_definitions : gmap string AgentDefinition;
}.
Definition st_events (st : AppState) : EventBus := default EventBus_new (events (st_orchestrator st)).

(** [main]: the state the server starts with. *)
Definition main_state (var : string -> option string) (load_tool audit_tool : NativeTool) : AppState :=
  let o := orch_with_events (with_llm_url (Orchestrator_new ResourceBudget_default) (hoosh_url var)) EventBus_new in
  let tools := foldl register ToolRegistry_new [EchoTool; JsonTransformTool; load_tool; audit_tool] in
  mkAppState o tools (load_auth_config var) ApprovalGate_new ∅.

Definition set_orchestrator (st : AppState) (o : Orchestrator) : AppState :=
  mkAppState o (st_tools st) (st_auth st) (st_approval_gate st) (st_definitions st).
Definition set_tools (st : AppState) (t : ToolRegistry) : AppState :=
  mkAppState (st_orchestrator st) t (st_auth st) (st_approval_gate st) (st_definitions st).
Definition set_gate (st : AppState) (g : ApprovalGate) : AppState :=
  mkAppState (st_orchestrator st) (st_tools st) (st_auth st) g (st_definitions st).
Definition set_definitions (st : AppState) (d : gmap string AgentDefinition) : AppState :=
  mkAppState (st_orchestrator st) (st_tools st) (st_auth st) (st_approval_gate st) d.

(** ** The route table *)

Inductive HttpMethod := GET | HEAD | POST | DELETE | OTHER.
#[export] Instance HttpMethod_eq_dec : EqDecision HttpMethod. Proof. solve_decision. Defined.

Inductive Handler :=
| Health | Ready | Metrics | Mcp
| CreateCrew | GetCrew | CancelCrew | CrewStream
| A2aReceive | A2aStatus
| ListDefinitions | CreateDefinition
| ListTools | RemoveTool
| ListPending | SubmitApproval
| ListPresets | CrewHistory | AgentPerformance.

Inductive Pat := Fixed (s : string) | Capture.

Record RouteEntry := mkRouteEntry { pattern : list Pat; methods : list (HttpMethod * Handler); protected : bool }.

(** axum's [get] also serves HEAD. *)
Definition get_route (h : Handler) : list (HttpMethod * Handler) := [(GET, h); (HEAD, h)].
Definition post_route (h : Handler) : list (HttpMethod * Handler) := [(POST, h)].
Definition delete_route (h : Handler) : list (HttpMethod * Handler) := [(DELETE, h)].

Definition api_v1 : list (list Pat * list (HttpMethod * Handler)) :=
  [([Fixed "crews"], post_route CreateCrew);
   ([Fixed "crews"; Capture], get_route GetCrew);
   ([Fixed "crews"; Capture; Fixed "cancel"], post_route CancelCrew);
   ([Fixed "crews"; Capture; Fixed "stream"], get_route CrewStream);
   ([Fixed "a2a"; Fixed "receive"], post_route A2aReceive);
   ([Fixed "a2a"; Fixed "status"], post_route A2aStatus);
   ([Fixed "agents"; Fixed "definitions"], (get_route ListDefinitions ++ post_route CreateDefinition)%list);
   ([Fixed "tools"], get_route ListTools);
   ([Fixed "tools"; Capture], delete_route RemoveTool);
   ([Fixed "approvals"], (get_route ListPending ++ post_route SubmitApproval)%list);
   ([Fixed "presets"], get_route ListPresets);
   ([Fixed "dashboard"; Fixed "crews"], get_route CrewHistory);
   ([Fixed "dashboard"; Fixed "agents"], get_route AgentPerformance)].

Definition protected_routes : list RouteEntry :=
  mkRouteEntry [Fixed "mcp"] (post_route Mcp) true ::
  map (fun r => mkRouteEntry (Fixed "api" :: Fixed "v1" :: r.1) r.2 true) api_v1.
Definition public_routes : list RouteEntry :=
  [mkRouteEntry [Fixed "health"] (get_route Health) false;
   mkRouteEntry [Fixed "ready"] (get_route Ready) false;
   mkRouteEntry [Fixed "metrics"] (get_route Metrics) false].
Definition router : list RouteEntry := (public_routes ++ protected_routes)%list.

(** A capture takes one segment that is not empty. *)
Fixpoint match_pattern (ps : list Pat) (segs : list string) : option (list string) :=
  match ps, segs with
  | [], [] => Some []
  | Fixed f :: ps, s :: segs => if String.eqb f s then match_pattern ps segs else None
  | Capture :: ps, s :: segs => if nonempty s then cons s <$> match_pattern ps segs else None
  | _, _ => None
  end.
Fixpoint find_route (table : list RouteEntry) (segs : list string) : option (RouteEntry * list string) :=
  match table with
  | [] => None
  | r :: table => match match_pattern (pattern r) segs with Some caps => Some (r, caps) | None => find_route table segs end
  end.
(** A path is a slash followed by the segments. *)
Definition route_path (path : string) : option (RouteEntry * list string) :=
  match str_split "/" path with
  | "" :: segs => find_route router segs
  | _ => None
  end.
Definition find_method (m : HttpMethod) (ms : list (HttpMethod * Handler)) : option Handler :=
  snd <$> List.find (fun mh => bool_decide (mh.1 = m)) ms.

(** ** Requests and answers *)

Record Request := mkRequest {
  rq_method : HttpMethod;
  rq_path : string;
  authorization : option string;
  rq_body : string;
}.

Inductive Payload :=
| PNone
| PText (s : string)
| PJson (v : Value)
| PCrew (r : CrewRunResponse)
| PA2a (r : A2AResponse)
| PRpc (r : JsonRpcResponse)
| PValues (l : list Value)
| PTools (l : list ToolSchema)
| PPending (l : list Uuid)
| PApproval (r : ApprovalResponse)
| PCrews (l : list CrewSummary)
| PAgents (l : list AgentSummary)
| PStream (crew_exists : bool).

(** The answer, with the callback the handler has spawned. *)
Record Answer := mkAnswer { code : N; payload : Payload; callback : option string }.
Definition reply (c : N) (p : Payload) : Answer := mkAnswer c p None.
Definition http_error (e : HttpError) : Answer := reply e.1 (PJson e.2).
Definition http_result {A} (f : A -> Payload) (r : Result A HttpError) : Answer :=
  match r with Ok a => reply OK (f a) | Err e => http_error e end.

Definition METHOD_NOT_ALLOWED : N := 405.
Definition PAYLOAD_TOO_LARGE : N := 413.
Definition MAX_BODY_BYTES : nat := N.to_nat (10 * 1024 * 1024).

(** ** health.rs, a2a.rs, definitions.rs, tools.rs *)

Definition health : Value := Obj [("status", Str "ok")].
Definition ready (version : string) : Value := Obj [("status", Str "ready"); ("version", Str version)].
Definition a2a_status : Value := Obj [("status", Str "not_implemented")].
Definition list_presets {P} (builtin : list P) (to_value : P -> Result Value string) : list Value :=
  omap (fun p => match to_value p with Ok v => Some v | Err _ => None end) builtin.

(** What a request finds outside the server: the identifiers it draws, the
    strength of the sandbox, the timer of the crew, and the world of the run. *)
Record Ambient (W : Type) := mkAmbient {
  new_crew : Uuid; new_manager : Uuid; new_task : Uuid; new_tasks : list Uuid;
  strength : option N; timer : option (list LogEntry); world : W;
}.
Arguments mkAmbient {W}. Arguments new_crew {W}. Arguments new_manager {W}. Arguments new_task {W}. Arguments new_tasks {W}.
Arguments strength {W}. Arguments timer {W}. Arguments world {W}.

(** The extractors and serializers of axum and serde: a rejected body or path
    answers with the status the extractor gives. *)
Record Codec (P : Type) := mkCodec {
  decode_crew : string -> Result CrewRunRequest N;
  decode_a2a : string -> Result A2ARequest N;
  decode_rpc : string -> Result JsonRpcRequest N;
  decode_agent : string -> Result AgentDefinition N;
  decode_approval : string -> Result (Uuid * ApprovalDecision) N;
  path_uuid : string -> Result Uuid N;
  path_string : string -> Result string N;
  crew_to_value : CrewState -> Value;
  agent_to_value : AgentDefinition -> Result Value string;
  preset_to_value : P -> Result Value string;
  schema_to_json : gmap string Value -> list string -> Value;
  value_to_string : Value -> string;
  value_to_vec : Value -> option string;
  error_display : AgnosaiError -> string;
  parse_url : string -> option Url;
  gather_metrics : string;
  pkg_version : string;
  embedded_presets : list P;
}.
Arguments decode_crew {P}. Arguments decode_a2a {P}. Arguments decode_rpc {P}. Arguments decode_agent {P}.
Arguments decode_approval {P}. Arguments path_uuid {P}. Arguments path_string {P}. Arguments crew_to_value {P}.
Arguments agent_to_value {P}. Arguments preset_to_value {P}. Arguments schema_to_json {P}.
Arguments value_to_string {P}. Arguments value_to_vec {P}. Arguments error_display {P}. Arguments parse_url {P}.
Arguments gather_metrics {P}. Arguments pkg_version {P}. Arguments embedded_presets {P}.

(** ** Dispatch *)

Section serve.
Context {W P Key : Type} (env : Env W) (rt : Runtime W) (cd : Codec P) `{!JwtCrate Key}.
Context `{!HashIter Uuid f64} `{!HashIter Uuid nat} `{!HashIter Uuid CrewState} `{!HashIter Uuid ChannelId}.
Context `{!HashIter string NativeTool} `{!HashIter string AgentDefinition}.

(** [Json<T>] under the body limit. *)
Definition with_body {A} (dec : string -> Result A N) (st : AppState) (body : string)
    (k : A -> Outcome (Answer * AppState)) : Outcome (Answer * AppState) :=
  if (MAX_BODY_BYTES <? String.length body)%nat then Returns (reply PAYLOAD_TOO_LARGE PNone, st)
  else match dec body with Ok a => k a | Err c => Returns (reply c PNone, st) end.
(** [Path<T>] on the captured segment. *)
Definition with_path {A} (dec : string -> Result A N) (st : AppState) (caps : list string)
    (k : A -> Outcome (Answer * AppState)) : Outcome (Answer * AppState) :=
  match dec (default "" (head caps)) with Ok a => k a | Err c => Returns (reply c PNone, st) end.

Definition call_handler (h : Handler) (caps : list string) (body : string) (amb : Ambient W) (st : AppState)
    : Outcome (Answer * AppState) :=
  let o := st_orchestrator st in
  match h with
  | Health => Returns (reply OK (PJson health), st)
  | Ready => Returns (reply OK (PJson (ready (pkg_version cd))), st)
  | Metrics => Returns (reply OK (PText (gather_metrics cd)), st)
  | Mcp => with_body (decode_rpc cd) st body (fun req =>
      match mcp_handler (schema_to_json cd) (value_to_string cd) (pkg_version cd) (st_tools st) req with
      | Returns r => Returns (reply OK (PRpc r), st)
      | Panics => Panics
      | Hangs => Hangs
      end)
  | CreateCrew => with_body (decode_crew cd) st body (fun req =>
      match create_crew env rt (new_crew amb) (new_manager amb) (new_tasks amb) (strength amb) (timer amb) o req (world amb) with
      | Returns (r, o') => Returns (http_result PCrew r, set_orchestrator st o')
      | Panics => Panics
      | Hangs => Hangs
      end)
  | GetCrew => with_path (path_uuid cd) st caps (fun id =>
      Returns (http_result PJson (get_crew (crew_to_value cd) o id), st))
  | CancelCrew => with_path (path_uuid cd) st caps (fun id =>
      let '(r, o') := cancel_crew_route env o id in Returns (http_result PJson r, set_orchestrator st o'))
  | CrewStream => with_path (path_uuid cd) st caps (fun id =>
      let '(known, b) := crew_stream (st_events st) id in
      Returns (reply OK (PStream known), set_orchestrator st (orch_with_events o b)))
  | A2aReceive => with_body (decode_a2a cd) st body (fun req =>
      match receive env rt (parse_url cd) (value_to_vec cd) (error_display cd) (new_crew amb)
              (new_task amb) (strength amb) (timer amb) o req (world amb) with
      | Returns (c, r, cb, o') => Returns (mkAnswer c (PA2a r) cb, set_orchestrator st o')
      | Panics => Panics
      | Hangs => Hangs
      end)
  | A2aStatus => Returns (reply OK (PJson a2a_status), st)
  | ListDefinitions => Returns (reply OK (PValues (list_definitions (agent_to_value cd) (st_definitions st))), st)
  | CreateDefinition => with_body (decode_agent cd) st body (fun d =>
      let '(r, defs) := create_definition (agent_to_value cd) (st_definitions st) d in
      Returns (match r with Ok (c, v) => reply c (PJson v) | Err e => http_error e end, set_definitions st defs))
  | ListTools => Returns (reply OK (PTools (list_tools (st_tools st))), st)
  | RemoveTool => with_path (path_string cd) st caps (fun n =>
      let '(c, tools) := remove_tool (st_tools st) n in Returns (reply c PNone, set_tools st tools))
  | ListPending => Returns (reply OK (PPending (list_pending (st_approval_gate st))), st)
  | SubmitApproval => with_body (decode_approval cd) st body (fun b =>
      let '(r, g) := submit_approval (uuid_to_string env) (st_approval_gate st) b.1 b.2 in
      Returns (reply OK (PApproval r), set_gate st g))
  | ListPresets => Returns (reply OK (PValues (list_presets (embedded_presets cd) (preset_to_value cd))), st)
  | CrewHistory => Returns (reply OK (PCrews (crew_history (uuid_to_string env) o)), st)
  | AgentPerformance => Returns (reply OK (PAgents (agent_performance o)), st)
  end.

(** The method router of an entry. *)
Definition run_entry (r : RouteEntry) (caps : list string) (amb : Ambient W) (st : AppState) (req : Request)
    : Outcome (Answer * AppState) :=
  match find_method (rq_method req) (methods r) with
  | None => Returns (reply METHOD_NOT_ALLOWED PNone, st)
  | Some h => call_handler h caps (rq_body req) amb st
  end.

(** The application: the route, the authentication of the protected part, the
    method, the handler. *)
Definition serve (amb : Ambient W) (st : AppState) (req : Request) : Outcome (Answer * AppState) :=
  match route_path (rq_path req) with
  | None => Returns (reply NOT_FOUND PNone, st)
  | Some (r, caps) =>
      if protected r then
        match auth_middleware authorization (run_entry r caps amb st) (st_auth st) req with
        | Ok out => out
        | Err c => Returns (reply c PNone, st)
        end
      else run_entry r caps amb st req
  end.

(** A session: requests served in turn. It ends with a handler that panics, as the
    server does: its release profile aborts the process on a panic. (In a build
    that unwinds only the connection is lost.) *)
Fixpoint session (st : AppState) (reqs : list (Ambient W * Request)) : Outcome (list Answer * AppState) :=
  match reqs with
  | [] => Returns ([], st)
  | (amb, req) :: reqs =>
      match serve amb st req with
      | Returns (a, st1) =>
          match session st1 reqs with
          | Returns (l, st2) => Returns (a :: l, st2)
          | Panics => Panics
          | Hangs => Hangs
          end
      | Panics => Panics
      | Hangs => Hangs
      end
  end.

(** ** Credentials *)

Definition admitted (cfg : AuthConfig) (req : Request) : bool :=
  match auth_middleware authorization (fun _ => tt) cfg req with Ok _ => true | Err _ => false end.

Lemma auth_middleware_admitted {R} (next : Request -> R) cfg req :
  if admitted cfg req then auth_middleware authorization next cfg req = Ok (next req)
  else exists c, auth_middleware authorization next cfg req = Err c /\ (c = UNAUTHORIZED \/ c = INTERNAL_ERROR).
Proof.
  unfold admitted, auth_middleware. destruct (negb (enabled cfg)); [done|].
  destruct (bearer_token (authorization req)) as [t|]; [|by exists UNAUTHORIZED; auto].
  destruct (jwt cfg) as [j|].
  - unfold validate_jwt. destruct (from_rsa_pem _) as [k|]; [|by exists INTERNAL_ERROR; auto].
    destruct (Middleware.decode _ _ _) as [c|]; [|by exists UNAUTHORIZED; auto].
    destruct (exp c); [done|by exists UNAUTHORIZED; auto].
  - destruct (negb _); [by exists UNAUTHORIZED; auto|done].
Qed.

(** Whether a request reaches a handler that may change the state. *)
Definition touches (cfg : AuthConfig) (req : Request) : bool :=
  match route_path (rq_path req) with
  | Some (r, _) => protected r && admitted cfg req
  | None => false
  end.

(** ** The public part *)

Definition reads_only (h : Handler) : bool := match h with Health | Ready | Metrics => true | _ => false end.
Definition entry_ok (r : RouteEntry) : bool := protected r || forallb (fun mh => reads_only mh.2) (methods r).

Lemma router_ok : forallb entry_ok router = true.
Proof. reflexivity. Qed.

Lemma find_route_elem table segs r caps : find_route table segs = Some (r, caps) ->
  r ∈ table /\ match_pattern (pattern r) segs = Some caps.
Proof.
  induction table as [|r' table IH]; cbn [find_route]; [done|].
  destruct (match_pattern (pattern r') segs) as [caps'|] eqn:E.
  - intros [= <- <-]. split; [by left|done].
  - intros [? ?]%IH. split; [by right|done].
Qed.

Lemma route_path_elem path r caps : route_path path = Some (r, caps) -> r ∈ router.
Proof.
  unfold route_path. destruct (str_split "/" path) as [|[|] segs]; [done| |done]. by intros [? _]%find_route_elem.
Qed.

Lemma public_runs_inert r caps amb st req :
  r ∈ router -> protected r = false -> exists a, run_entry r caps amb st req = Returns (a, st).
Proof.
  intros Hr Hp. pose proof router_ok as Hok. rewrite forallb_forall in Hok. apply list_elem_of_In in Hr.
  specialize (Hok r Hr). unfold entry_ok in Hok. rewrite Hp in Hok. simpl in Hok. rewrite forallb_forall in Hok.
  unfold run_entry, find_method. destruct (List.find _ _) as [mh|] eqn:E; [|by eexists].
  apply List.find_some in E as [Hin _]. specialize (Hok mh Hin). simpl.
  destruct (mh.2); simpl in Hok; try discriminate; by eexists.
Qed.

Lemma serve_inert amb st req : touches (st_auth st) req = false -> exists a, serve amb st req = Returns (a, st).
Proof.
  unfold touches, serve. destruct (route_path (rq_path req)) as [[r caps]|] eqn:E; [|by eexists].
  destruct (protected r) eqn:Hp; cbn [andb].
  - intros Ha. pose proof (auth_middleware_admitted (run_entry r caps amb st) (st_auth st) req) as Hm.
    rewrite Ha in Hm. destruct Hm as (c & -> & _). by eexists.
  - intros _. apply public_runs_inert; [by eapply route_path_elem|done].
Qed.

(** ** No handler changes the configuration *)

Ltac handler_cases :=
  repeat match goal with
  | H : context [match ?x with _ => _ end] |- _ => destruct x eqn:?
  | H : Returns _ = Returns _ |- _ => injection H as <- <-
  | H : _ = Returns _ |- _ => discriminate
  end.

Lemma handler_auth h caps body amb st a st' :
  call_handler h caps body amb st = Returns (a, st') -> st_auth st' = st_auth st.
Proof.
  intros H. destruct h; cbn [call_handler] in H; unfold with_body, with_path in H; handler_cases; done.
Qed.

Lemma serve_auth amb st req a st' : serve amb st req = Returns (a, st') -> st_auth st' = st_auth st.
Proof.
  unfold serve, run_entry. destruct (route_path _) as [[r caps]|]; [|by intros [= <- <-]].
  assert (forall out, run_entry r caps amb st req = out -> out = Returns (a, st') -> st_auth st' = st_auth st) as Hrun.
  { intros out <-. unfold run_entry. destruct (find_method _ _); [apply handler_auth|by intros [= <- <-]]. }
  destruct (protected r); [|by apply Hrun].
  pose proof (auth_middleware_admitted (run_entry r caps amb st) (st_auth st) req) as Hm.
  unfold run_entry in Hm. destruct (admitted (st_auth st) req).
  - rewrite Hm. by apply Hrun.
  - destruct Hm as (c & -> & _). by intros [= <- <-].
Qed.

(** ** Requests without credentials leave no trace *)

Definition kept (cfg : AuthConfig) (reqs : list (Ambient W * Request)) : list (Ambient W * Request) :=
  List.filter (fun r => touches cfg r.2) reqs.
(** The answers at the positions of the kept requests. *)
Fixpoint kept_answers (cfg : AuthConfig) (reqs : list (Ambient W * Request)) (l : list Answer) : list Answer :=
  match reqs, l with
  | r :: reqs, a :: l => if touches cfg r.2 then a :: kept_answers cfg reqs l else kept_answers cfg reqs l
  | _, _ => []
  end.

Lemma session_kept st reqs :
  session st (kept (st_auth st) reqs) =
    match session st reqs with
    | Returns (l, st') => Returns (kept_answers (st_auth st) reqs l, st')
    | Panics => Panics
    | Hangs => Hangs
    end.
Proof.
  revert st. induction reqs as [|[amb req] reqs IH]; intros st; [done|]. unfold kept. cbn [List.filter session snd].
  fold (kept (st_auth st) reqs). destruct (touches (st_auth st) req) eqn:Et.
  - cbn [session]. destruct (serve amb st req) as [[a st1]| |] eqn:E; [|done..].
    rewrite <-(serve_auth _ _ _ _ _ E), IH. destruct (session st1 reqs) as [[l st2]| |]; [|done..].
    cbn [kept_answers snd]. by rewrite (serve_auth _ _ _ _ _ E), Et.
  - destruct (serve_inert amb st req Et) as [a ->]. rewrite IH.
    destruct (session st reqs) as [[l st2]| |]; [|done..]. cbn [kept_answers snd]. by rewrite Et.
Qed.

Definition public_paths : list string := ["/health"; "/ready"; "/metrics"].
Definition public_entry (r : RouteEntry) : bool :=
  protected r || match pattern r with [Fixed s] => bool_decide (String "/" s ∈ public_paths) | _ => false end.

Lemma unprotected_path path r caps :
  route_path path = Some (r, caps) -> protected r = false -> path ∈ public_paths.
Proof.
  unfold route_path. pose proof (str_split_join "/" path) as Hj.
  destruct (str_split "/" path) as [|[|] segs] eqn:E; [done| |done].
  intros [Hr Hm]%find_route_elem Hp.
  assert (forallb public_entry router = true) as Hok by reflexivity.
  rewrite forallb_forall in Hok. apply list_elem_of_In in Hr. specialize (Hok r Hr). unfold public_entry in Hok.
  rewrite Hp in Hok. simpl in Hok. destruct (pattern r) as [|[s|] [|]]; try discriminate.
  apply bool_decide_eq_true in Hok. destruct segs as [|s' [|]]; simpl in Hm; [done| |].
  - destruct (String.eqb_spec s s') as [Hs|]; [|done]. subst s' path. done.
  - by destruct (String.eqb s s').
Qed.

Lemma admitted_credentials cfg req : admitted cfg req = true <-> credentials cfg (authorization req).
Proof.
  rewrite <-(auth_middleware_credentials authorization (fun _ => tt)). unfold admitted.
  destruct (auth_middleware _ _ _ _) as [[]|]; split; try done; [by eexists|by intros []].
Qed.


(** ** What every session keeps *)

(** Tools under their own names, definitions under their keys, and an event bus. *)
Definition app_wf (st : AppState) : Prop :=
  registry_wf (st_tools st) /\
  map_Forall (fun k d => agent_key d = k) (st_definitions st) /\
  is_Some (events (st_orchestrator st)).

Lemma run_crew_events strength expired o s w r o' :
  is_Some (events o) -> run_crew env rt strength expired o s w = Returns (r, o') -> is_Some (events o').
Proof.
  intros Ho. unfold run_crew. destruct (accept_crew _ o s) as [[tok rn] o1] eqn:Ea.
  assert (is_Some (events o1)) as H1 by (injection Ea as _ _ <-; by apply fmap_is_Some).
  destruct expired; [|destruct (run env rt rn strength w) as [[]| |]]; try done; intros [= _ <-]; cbn;
    first [done | by apply fmap_is_Some].
Qed.

Lemma cancel_events text o id r o' :
  is_Some (events o) -> cancel_crew text o id = (r, o') -> is_Some (events o').
Proof.
  intros Ho. unfold cancel_crew, mark_cancelled. destruct (active_crews _ !! id); by intros [= _ <-].
Qed.

Lemma create_crew_events crew manager ids strength expired o req w r o' :
  is_Some (events o) -> create_crew env rt crew manager ids strength expired o req w = Returns (r, o') -> is_Some (events o').
Proof.
  intros Ho. unfold create_crew. destruct (validate_crew_request req) as [[]| |]; try done; [|by intros [= _ <-]].
  destruct (run_crew _ _ _ _ _ _ _) as [[[] o1]| |] eqn:E; try done; intros [= _ <-]; by eapply run_crew_events.
Qed.

Lemma receive_events parse vec disp crew task strength expired o req w c r cb o' :
  is_Some (events o) -> receive env rt parse vec disp crew task strength expired o req w = Returns (c, r, cb, o') ->
  is_Some (events o').
Proof.
  intros Ho. unfold receive. destruct (_ || _); [by intros [= _ _ _ <-]|].
  destruct (match vec _ with Some _ => _ | None => _ end); [by intros [= _ _ _ <-]|].
  destruct (run_crew _ _ _ _ _ _ _) as [[[] o1]| |] eqn:E; try done; intros [= _ _ _ <-]; by eapply run_crew_events.
Qed.

Lemma remove_tool_wf tools n c tools' :
  registry_wf tools -> remove_tool tools n = (c, tools') -> registry_wf tools' /\ tools' ⊆ tools.
Proof.
  intros Hw. unfold remove_tool, Tools.remove. intros [= _ <-]. split; [by apply map_Forall_delete|apply delete_subseteq].
Qed.

Lemma handler_wf h caps body amb st a st' :
  app_wf st -> call_handler h caps body amb st = Returns (a, st') -> app_wf st' /\ st_tools st' ⊆ st_tools st.
Proof.
  intros (Ht & Hd & He) H. destruct h; cbn [call_handler] in H; unfold with_body, with_path in H; handler_cases;
    unfold app_wf; cbn [st_tools st_definitions st_orchestrator set_orchestrator set_tools set_gate set_definitions];
    try (split; [by split_and!|done]).
  - split; [|done]. split_and!; [done..|by eapply create_crew_events].
  - split; [|done]. split_and!; [done..|]. unfold cancel_crew_route in *.
    destruct (cancel_crew _ _ _) as [[] o1] eqn:E; simplify_eq; by eapply cancel_events.
  - split; [|done]. split_and!; [done..|by eapply receive_events].
  - split; [|done]. split_and!; [done| |done]. unfold create_definition in *. repeat case_match; simplify_eq; try done.
    by apply map_Forall_insert_2.
  - split; [|done]. split_and!; [done| |done]. unfold create_definition in *. repeat case_match; simplify_eq; try done.
  - edestruct remove_tool_wf as [? ?]; [eassumption..|]. by split.
Qed.

(** [C13] Whatever requests a session serves, from any well-formed state: the tools
    stay filed under their names and the definitions under their keys, the event
    bus stays attached, the authentication settings do not change, and no request
    ever adds or replaces a tool, so the tools after the session are among those
    before. The state the server starts with is well formed. *)
Theorem session_invariant var load_tool audit_tool st reqs l st' :
  app_wf (main_state var load_tool audit_tool) /\
  (app_wf st -> session st reqs = Returns (l, st') ->
   app_wf st' /\ st_tools st' ⊆ st_tools st /\ st_auth st' = st_auth st).
Proof.
  split.
  { split_and!; [|apply map_Forall_empty|by eexists]. simpl. repeat apply register_wf. apply map_Forall_empty. }
  revert st l. induction reqs as [|[amb req] reqs IH]; intros st l Hwf; cbn [session].
  { by intros [= <- <-]. }
  destruct (serve amb st req) as [[a st1]| |] eqn:E; [|done..].
  pose proof (serve_auth _ _ _ _ _ E) as Ha.
  assert (app_wf st1 /\ st_tools st1 ⊆ st_tools st) as [Hwf1 Hsub].
  { destruct (touches (st_auth st) req) eqn:Et.
    - unfold touches in Et. unfold serve in E. destruct (route_path _) as [[r caps]|]; [|done].
      apply andb_prop in Et as [Hp Had]. rewrite Hp in E.
      pose proof (auth_middleware_admitted (run_entry r caps amb st) (st_auth st) req) as Hm. rewrite Had in Hm.
      rewrite Hm in E. unfold run_entry in E. destruct (find_method _ _); [by eapply handler_wf|by injection E as <- <-].
    - destruct (serve_inert amb st req Et) as [a' E']. rewrite E in E'. by injection E' as <- <-. }
  destruct (session st1 reqs) as [[l1 st2]| |] eqn:Es; [|done..]. intros [= <- <-].
  destruct (IH st1 l1 Hwf1 Es) as (H1 & H2 & H3). split_and!; [done|by etransitivity|by rewrite H3].
Qed.
End serve.

(** ** The environment *)

Lemma nonempty_false s : nonempty s = false <-> s = "".
Proof. unfold nonempty. destruct s; simpl; by split. Qed.

(** The authentication settings fail closed. They are switched off only when
    the flag is unset and neither a secret nor a key is given; with the flag and no
    credentials every request is refused; with a secret and no key exactly the
    requests that present the secret are admitted. *)
Theorem auth_env_fail_closed {Key} `{!JwtCrate Key} var :
  let cfg := load_auth_config var in
  let given := default "" (var "AGNOSAI_AUTH_SECRET") in
  (enabled cfg = false <-> auth_flag var = false /\ given = "" /\ jwt_from_env var = None) /\
  (auth_flag var = true -> given = "" -> jwt_from_env var = None -> forall req, admitted cfg req = false) /\
  (given <> "" -> jwt_from_env var = None ->
   forall req, admitted cfg req = true <-> authorization req = Some ("Bearer " ++ given)).
Proof.
  intros cfg given. unfold cfg, load_auth_config. fold given. clear cfg.
  destruct (jwt_from_env var) as [j|]; [split_and!; [by split; [|intros (_ & _ & ?)]|done..]|].
  destruct (nonempty given) eqn:Hn.
  - assert (given <> "") as Hg by (intros Hg; by rewrite Hg in Hn).
    split; [split; [done|by intros (_ & ? & _)]|]. split; [done|].
    intros _ _ req. unfold admitted. rewrite auth_secret_exact by done. simpl.
    case_bool_decide as H.
    + split; [intros _; apply H|done].
    + split; [done|]. intros Ha. by destruct H.
  - apply nonempty_false in Hn. rewrite Hn. destruct (auth_flag var).
    + split; [split; [done|by intros [? _]]|]. split; [|done]. intros _ _ _ req. unfold admitted. rewrite auth_secret_exact by done. simpl.
      rewrite bool_decide_eq_false_2; [done|]. by intros [_ H].
    + split; [done|]. by split.
Qed.

(** A key overrides a secret: the secret then admits nobody. *)
Example key_overrides_secret :
  let var k := if String.eqb k "AGNOSAI_AUTH_SECRET" then Some "s3cret"
               else if String.eqb k "AGNOSAI_JWT_PUBLIC_KEY" then Some "pem" else None in
  load_auth_config var = with_jwt (JwtConfig_new "pem").
Proof. reflexivity. Qed.

(** A secret switches authentication on although the flag says off. *)
Example secret_overrides_flag :
  enabled (load_auth_config (fun k => if String.eqb k "AGNOSAI_AUTH_SECRET" then Some "s3cret"
                                      else if String.eqb k "AGNOSAI_AUTH_ENABLED" then Some "false" else None)) = true.
Proof. reflexivity. Qed.

(** *** The port *)

(** A port that was printed is read back. *)
Lemma parse_u16_pretty (n : N) : (n <= 65535)%N -> parse_u16 (pretty n) = Some n.
Proof.
  intros Hn. unfold parse_u16.
  pose proof (has_char_pretty "+" n eq_refl) as Hp. pose proof (pretty_not_empty n) as He.
  assert (match pretty n with String "+" t => t | _ => pretty n end = pretty n) as ->.
  { destruct (pretty n) as [|c s]; [done|]. cbn [has_char] in Hp. apply orb_false_iff in Hp as [Hc _].
    repeat (case_match; try done). }
  unfold nonempty. destruct (Nat.eqb_spec (String.length (pretty n)) 0) as [Hz|_]; [by destruct (pretty n)|].
  by apply parse_digits_pretty.
Qed.

Lemma port_bound var : (port var <= 65535)%N.
Proof.
  unfold port, parse_u16. destruct (match var "PORT" with Some p => Some p | None => _ end) as [p|]; cbn; [|lia].
  destruct (nonempty _); cbn; [|lia]. destruct (parse_digits _ 0 _) as [n|] eqn:E; cbn; [|lia].
  apply parse_digits_bound in E; lia.
Qed.

(** A [PORT] that does not parse hides a good [AGNOSAI_PORT]. *)
Example bad_port_hides_the_other :
  port (fun k => if String.eqb k "PORT" then Some "http" else if String.eqb k "AGNOSAI_PORT" then Some "9000" else None) = 8080%N.
Proof. reflexivity. Qed.
