(* ===== verification/EventStream.v ===== *)
(** * Event streams (server/sse.rs [event_stream], server/routes/sse.rs [crew_stream])

    The generator behind a server-sent event stream, polled by the HTTP layer
    while the crew runner sends and the orchestrator drops the channel. The
    broadcast channel of tokio is an interface with the laws its documentation
    gives; every interleaving of sends, the close and polls is covered. *)

From S2P Require Import Prelude.
From S2P Require Import F64.
From S2P Require Import Resource.
From S2P Require Import Core.
From S2P Require Import Text.
From S2P Require Import Llm.
From S2P Require Import TaskExec.
From S2P Require Import CrewRunner.
From S2P Require Import Orchestrator.
From Stdlib Require Import Ascii String.
From stdpp Require Import base gmap strings pretty numbers relations list.

Local Open Scope string_scope.

Definition CHANNEL_CAPACITY : nat := N.to_nat 256.

(** ** The broadcast channel *)

(** An answer of [recv], or nothing yet. *)
Inductive Recv := Received (e : CrewEvent) | Lagged (n : N) | Closed | Waiting.

(** A channel remembers what was sent and whether its senders are gone; a receiver
    has read up to a position. *)
Class Broadcast (Chan Rx : Type) := {
  sent : Chan -> list CrewEvent;
  closed : Chan -> bool;
  position : Rx -> nat;
  send : CrewEvent -> Chan -> Chan;
  drop_senders : Chan -> Chan;
  subscribe : Chan -> Rx;
  recv : Chan -> Rx -> Recv * Rx;
}.

(** A receiver starts behind the last event; it gets the events in order, one at
    a time; more than [CHANNEL_CAPACITY] events behind it is told once how many it
    lost and moves to the oldest one kept; the end comes after the last event. *)
Class BroadcastLaws (Chan Rx : Type) `{!Broadcast Chan Rx} : Prop := {
  sent_send : forall e c, sent (send e c) = (sent c ++ [e])%list;
  closed_send : forall e c, closed (send e c) = closed c;
  sent_drop : forall c, sent (drop_senders c) = sent c;
  closed_drop : forall c, closed (drop_senders c) = true;
  position_subscribe : forall c, position (subscribe c) = length (sent c);
  recv_lagged : forall c r, (position r + CHANNEL_CAPACITY < length (sent c))%nat ->
    exists r', recv c r = (Lagged (N.of_nat (length (sent c) - CHANNEL_CAPACITY - position r)), r') /\
      position r' = (length (sent c) - CHANNEL_CAPACITY)%nat;
  recv_event : forall c r e, (length (sent c) <= position r + CHANNEL_CAPACITY)%nat -> sent c !! position r = Some e ->
    exists r', recv c r = (Received e, r') /\ position r' = S (position r);
  recv_end : forall c r, sent c !! position r = None ->
    recv c r = (if closed c then Closed else Waiting, r);
}.

(** ** The generators *)

(** What is written to the client: the event name and the data. *)
Record Frame := mkFrame { frame_event : string; frame_data : string }.

Inductive StreamState := Opening | Forwarding | Ended.

Definition dq (s : string) : string := dquote ++ s ++ dquote.

Section streams.
Context {Chan Rx : Type} `{!Broadcast Chan Rx}.
(** [to_json]: serde on an event; [lag_json]: the text of the lag notice. *)
Context (to_json : CrewEvent -> Result string string) (lag_json : string -> string).

Definition unwrap_or_else (r : Result string string) (d : string) : string := match r with Ok s => s | Err _ => d end.

Definition not_found_frame (crew_id : string) : Frame :=
  mkFrame "error" (unwrap_or_else (to_json (mkCrewEvent crew_id "error"
    (Obj [("message", Str "crew not found"); ("crew_id", Str crew_id)]))) "").
Definition connected_frame (crew_id : string) : Frame :=
  mkFrame "connected" (unwrap_or_else (to_json (mkCrewEvent crew_id "connected"
    (Obj [("message", Str "SSE stream connected")]))) ("{" ++ dq "event_type" ++ ":" ++ dq "connected" ++ "}")).
Definition event_frame (e : CrewEvent) : Frame :=
  mkFrame (ev_type e) (unwrap_or_else (to_json e)
    ("{" ++ dq "event_type" ++ ":" ++ dq (ev_type e) ++ "," ++ dq "error" ++ ":" ++ dq "serialization failed" ++ "}")).
Definition lag_frame (n : N) : Frame := mkFrame "error" (lag_json ("stream lagged, " ++ pretty n ++ " events dropped")).

(** One poll of the stream of [crew_stream]: what it yields, if anything, the
    receiver and where the generator stands. A generator that waits yields
    nothing and stands still. *)
Definition crew_stream_poll (crew_id : string) (crew_exists : bool) (c : Chan) (r : Rx) (s : StreamState)
    : option Frame * Rx * StreamState :=
  match s with
  | Opening =>
      if crew_exists then (Some (connected_frame crew_id), r, Forwarding)
      else (Some (not_found_frame crew_id), r, Ended)
  | Forwarding =>
      match recv c r with
      | (Received e, r') => (Some (event_frame e), r', Forwarding)
      | (Lagged n, r') => (Some (lag_frame n), r', Ended)
      | (Closed, r') => (None, r', Ended)
      | (Waiting, r') => (None, r', Forwarding)
      end
  | Ended => (None, r, Ended)
  end.

(** [event_stream]: [while let Ok(event) = rx.recv().await] ends at any error. *)
Definition plain_frame (e : CrewEvent) : Frame :=
  mkFrame (ev_type e) (unwrap_or_else (to_json e) ("{" ++ dq "error" ++ ":" ++ dq "serialization failed" ++ "}")).
Definition event_stream_poll (c : Chan) (r : Rx) (s : StreamState) : option Frame * Rx * StreamState :=
  match s with
  | Opening | Forwarding =>
      match recv c r with
      | (Received e, r') => (Some (plain_frame e), r', Forwarding)
      | (Lagged _, r') | (Closed, r') => (None, r', Ended)
      | (Waiting, r') => (None, r', s)
      end
  | Ended => (None, r, Ended)
  end.

(** ** The system: senders, the channel and one client *)

Record Sys := mkSys { chan : Chan; rx : Rx; stream : StreamState; out : list Frame }.

Definition open_stream (c : Chan) : Sys := mkSys c (subscribe c) Opening [].

Definition poll_with (poll : Chan -> Rx -> StreamState -> option Frame * Rx * StreamState) (y : Sys) : Sys :=
  let '(f, r, s) := poll (chan y) (rx y) (stream y) in
  mkSys (chan y) r s (out y ++ option_list f)%list.

(** The runner sends while the channel is open, the last sender goes, or the
    client polls. *)
Inductive sys_step (poll : Chan -> Rx -> StreamState -> option Frame * Rx * StreamState) : Sys -> Sys -> Prop :=
| step_send y e : closed (chan y) = false ->
    sys_step poll y (mkSys (send e (chan y)) (rx y) (stream y) (out y))
| step_close y : sys_step poll y (mkSys (drop_senders (chan y)) (rx y) (stream y) (out y))
| step_poll y : sys_step poll y (poll_with poll y).

Fixpoint poll_times (poll : Chan -> Rx -> StreamState -> option Frame * Rx * StreamState) (n : nat) (y : Sys) : Sys :=
  match n with 0 => y | S n => poll_times poll n (poll_with poll y) end.
End streams.
Arguments mkSys {Chan Rx}. Arguments chan {Chan Rx}. Arguments rx {Chan Rx}. Arguments stream {Chan Rx}.
Arguments out {Chan Rx}.

(** ** Delivery *)

Section delivery.
Context {Chan Rx : Type} `{!Broadcast Chan Rx} `{!BroadcastLaws Chan Rx}.
Context (to_json : CrewEvent -> Result string string) (lag_json : string -> string) (crew_id : string).
Abbreviation poll := (crew_stream_poll to_json lag_json crew_id true).
Abbreviation frames l := (connected_frame to_json crew_id :: map (event_frame to_json) l)%list.

(** The events sent since position [p]. *)
Definition since (p : nat) (y : Sys (Chan := Chan) (Rx := Rx)) : list CrewEvent := drop p (sent (chan y)).

(** Where a stream opened at position [p] can be: not started, having forwarded
    exactly the events up to its position, at the end of a closed channel with
    everything forwarded, or cut off after [k] events with the number [n] of
    events lost before the oldest one kept. *)
Definition delivered (p : nat) (y : Sys) : Prop :=
  match stream y with
  | Opening => out y = [] /\ position (rx y) = p /\ (p <= length (sent (chan y)))%nat
  | Forwarding =>
      (p <= position (rx y) <= length (sent (chan y)))%nat /\
      out y = frames (take (position (rx y) - p) (since p y))
  | Ended =>
      (closed (chan y) = true /\ out y = frames (since p y)) \/
      (exists k n, (0 < n)%nat /\ (p + k + n + CHANNEL_CAPACITY <= length (sent (chan y)))%nat /\
         out y = (frames (take k (since p y)) ++ [lag_frame lag_json (N.of_nat n)])%list)
  end.

Lemma take_since_send p k y e r s o : (k + p <= length (sent (chan y)))%nat ->
  take k (since p (mkSys (send e (chan y)) r s o)) = take k (since p y).
Proof.
  intros Hk. unfold since. cbn. rewrite sent_send, drop_app_le by lia. apply take_app_le. rewrite length_drop. lia.
Qed.

Lemma delivered_send p y e :
  closed (chan y) = false -> delivered p y -> delivered p (mkSys (send e (chan y)) (rx y) (stream y) (out y)).
Proof.
  unfold delivered. cbn [stream chan rx out]. rewrite !sent_send, length_app. simpl. intros Hc.
  destruct (stream y).
  - intros (? & ? & ?). split_and!; [done..|lia].
  - intros [? ->]. split; [lia|]. by rewrite take_since_send by lia.
  - intros [[? _]|(k & n & ? & ? & ->)]; [congruence|]. right. exists k, n. split_and!; [lia..|].
    by rewrite take_since_send by lia.
Qed.

Lemma delivered_close p y : delivered p y -> delivered p (mkSys (drop_senders (chan y)) (rx y) (stream y) (out y)).
Proof.
  unfold delivered, since. cbn [stream chan rx out]. rewrite !sent_drop. destruct (stream y); [done..|].
  rewrite closed_drop. intros [[_ ?]|?]; auto.
Qed.

Lemma delivered_poll p y : delivered p y -> delivered p (poll_with poll y).
Proof.
  destruct y as [c r s o]. unfold delivered, poll_with, since. cbn [chan rx stream out].
  destruct s; cbn [crew_stream_poll].
  - intros (-> & Hp & ?). cbn. rewrite Hp, Nat.sub_diag. by split.
  - intros [[Hp Hl] ->].
    destruct (Nat.lt_ge_cases (position r + CHANNEL_CAPACITY) (length (sent c))) as [Hlag|Hok].
    + destruct (recv_lagged c r Hlag) as (r' & -> & Hr'). cbn [chan rx stream out option_list]. right.
      exists (position r - p)%nat, (length (sent c) - CHANNEL_CAPACITY - position r)%nat. split_and!; [lia..|done].
    + destruct (sent c !! position r) as [e|] eqn:He.
      * destruct (recv_event c r e Hok He) as (r' & -> & Hr'). cbn [chan rx stream out option_list].
        apply lookup_lt_Some in He as Hlt. rewrite Hr'. split; [lia|].
        rewrite Nat.sub_succ_l by lia. rewrite (take_S_r _ _ e).
        2: { rewrite lookup_drop. by replace (p + (position r - p))%nat with (position r) by lia. }
        rewrite map_app. done.
      * rewrite (recv_end c r He). apply lookup_ge_None in He.
        assert (take (position r - p) (drop p (sent c)) = drop p (sent c)) as Ht
          by (apply take_ge; rewrite length_drop; lia).
        destruct (closed c) eqn:Hc; cbn [chan rx stream out option_list]; rewrite app_nil_r; [|by split].
        left. split; [done|]. by rewrite Ht.
  - cbn. by rewrite app_nil_r.
Qed.

Lemma delivered_reachable c y : rtc (sys_step poll) (open_stream c) y -> delivered (length (sent c)) y.
Proof.
  intros H. remember (open_stream c) as y0 eqn:E.
  assert (delivered (length (sent c)) y0) as H0.
  { subst. unfold delivered, open_stream. cbn. by rewrite position_subscribe. }
  clear E. induction H as [|y1 y2 y3 Hstep _ IH]; [done|]. apply IH.
  destruct Hstep; [by apply delivered_send|by apply delivered_close|by apply delivered_poll].
Qed.

(** A stream that has ended on a channel with few events has shown them all. *)
Lemma delivered_short c y :
  rtc (sys_step poll) (open_stream c) y -> (length (since (length (sent c)) y) <= CHANNEL_CAPACITY)%nat ->
  stream y = Ended -> out y = frames (since (length (sent c)) y).
Proof.
  intros H%delivered_reachable Hlen He. unfold delivered in H. rewrite He in H.
  destruct H as [[_ H]|(k & n & ? & ? & _)]; [done|]. unfold since in Hlen. rewrite length_drop in Hlen. lia.
Qed.

(** [C17] Whatever the interleaving of the runner, the end of the crew and the
    client, a stream opened on a crew's channel shows a connected frame and then
    exactly the events sent after it was opened, in order and without gap: all
    that it has read so far while it runs, all of them when it ends with the
    channel. It is cut off only with a frame that tells how many events were lost,
    which takes more than 256 events since it was opened; a crew that sends no
    more is always delivered in full. *)
Theorem crew_stream_delivery c y :
  rtc (sys_step poll) (open_stream c) y ->
  let events := since (length (sent c)) y in
  match stream y with
  | Opening => out y = []
  | Forwarding => exists k, out y = frames (take k events)
  | Ended =>
      (closed (chan y) = true /\ out y = frames events) \/
      (exists k n, (0 < n)%nat /\ (k + n + CHANNEL_CAPACITY <= length events)%nat /\
         out y = (frames (take k events) ++ [lag_frame lag_json (N.of_nat n)])%list)
  end /\
  ((length events <= CHANNEL_CAPACITY)%nat -> stream y = Ended -> out y = frames events).
Proof.
  intros Hr events. split; [|intros; by apply delivered_short].
  apply delivered_reachable in Hr as H. unfold delivered in H. subst events. unfold since in *. rewrite !length_drop.
  destruct (stream y); [apply H|eexists; apply H|].
  destruct H as [H|(k & n & ? & ? & H)]; [by left|right]. exists k, n. split_and!; [done|lia|done].
Qed.

(** How many polls a closed channel still takes. *)
Definition polls_left (y : Sys (Chan := Chan) (Rx := Rx)) : nat :=
  match stream y with
  | Opening => S (S (length (sent (chan y)) - position (rx y)))
  | Forwarding => S (length (sent (chan y)) - position (rx y))
  | Ended => 0
  end.

Lemma poll_with_chan y : chan (poll_with poll y) = chan y.
Proof. unfold poll_with. by destruct (poll _ _ _) as [[f r] s]. Qed.

Lemma polls_left_decreases y n :
  closed (chan y) = true -> (polls_left y <= S n)%nat -> (polls_left (poll_with poll y) <= n)%nat.
Proof.
  destruct y as [c r s o]. unfold polls_left, poll_with. cbn [chan rx stream out]. intros Hc.
  destruct s; cbn [crew_stream_poll]; [cbn; lia| |cbn; lia].
  destruct (Nat.lt_ge_cases (position r + CHANNEL_CAPACITY) (length (sent c))) as [Hlag|Hok].
  { destruct (recv_lagged c r Hlag) as (r' & -> & _). cbn. lia. }
  destruct (sent c !! position r) as [e|] eqn:He.
  - destruct (recv_event c r e Hok He) as (r' & -> & Hr'). cbn [chan rx stream]. rewrite Hr'.
    apply lookup_lt_Some in He. lia.
  - rewrite (recv_end c r He), Hc. cbn. lia.
Qed.

(** A stream ends: once the channel is closed, polling it as often as there
    are events left, plus twice, ends it, from wherever it stands. *)
Theorem crew_stream_ends y n :
  closed (chan y) = true -> (polls_left y <= n)%nat -> stream (poll_times poll n y) = Ended.
Proof.
  revert y. induction n as [|n IH]; intros y Hc Hn; cbn [poll_times].
  - unfold polls_left in Hn. by destruct (stream y); [lia..|].
  - apply IH; [by rewrite poll_with_chan|by apply polls_left_decreases].
Qed.

(** ** From the runner to the client *)

Context {W : Type} (env : Env W) (rt : Runtime W) `{!HashIter Uuid nat} `{!HashIter Uuid f64}.

Definition sent_events (log : list LogEntry) : list CrewEvent :=
  omap (fun e => match e with Sent ev => Some ev | Audited _ _ _ _ => None end) log.

(** The events of a run stand between its start and its end. *)
Lemma run_events_bracketed r strength w res :
  run env rt r strength w = Returns (Ok res) -> event_tx r = true ->
  exists first mid final, sent_events (out_log res) = (first :: mid ++ [final])%list /\
    ev_type first = "crew_started" /\ ev_type final = "crew_completed" /\
    json_get (ev_data final) "status" = Some (Str (debug_crew_status (crew_status (out_state res)))).
Proof.
  unfold run. intros H Htx. destruct (run_mode env rt r w) as [[[[[results ts] w1] log]|e]| |]; try done.
  destruct (poll_cancelled rt w1) as [cancelled w2]. injection H as <-. cbn [out_log out_state crew_status].
  unfold emit, sent_events. rewrite Htx, !omap_app. do 3 eexists. split; [reflexivity|]. by split_and!.
Qed.

(** [C16] Whoever watches a crew whose run returns a state learns how it ended: if the
    run sends at most 256 events, a client whose stream was opened before has seen,
    when the stream ends, the start of the crew first, every event of the run in
    order, and last the completion with the final status of the crew. This is for a
    run that [CrewRunner::run] itself brings to its end. A crew that the timer of
    the orchestrator cuts off sends no completion: its client sees the events up to
    then and the plain end of the stream ([crew_stream_delivery]). A run that ends
    with a scheduling error leaves its channel in the bus
    ([Orchestrator.failed_run_stays_pending]), so that stream stays open. *)
Theorem watched_crew_is_announced r strength w res c y :
  run env rt r strength w = Returns (Ok res) -> event_tx r = true ->
  (length (sent_events (out_log res)) <= CHANNEL_CAPACITY)%nat ->
  rtc (sys_step poll) (open_stream c) y -> since (length (sent c)) y = sent_events (out_log res) ->
  stream y = Ended ->
  exists first mid final,
    out y = (connected_frame to_json crew_id :: event_frame to_json first :: map (event_frame to_json) mid ++
             [event_frame to_json final])%list /\
    sent_events (out_log res) = (first :: mid ++ [final])%list /\
    ev_type first = "crew_started" /\ ev_type final = "crew_completed" /\
    json_get (ev_data final) "status" = Some (Str (debug_crew_status (crew_status (out_state res)))).
Proof.
  intros Hrun Htx Hlen Hy Hs He.
  destruct (run_events_bracketed r strength w res Hrun Htx) as (first & mid & final & Hev & Hf & Hl & Hst).
  exists first, mid, final. split; [|done]. rewrite (delivered_short c y Hy) by (by rewrite ?Hs).
  rewrite Hs, Hev. cbn [map]. by rewrite map_app.
Qed.
End delivery.

(** ** A channel that keeps its log *)

Definition LogChan : Type := list CrewEvent * bool.
Definition log_recv (c : LogChan) (r : nat) : Recv * nat :=
  if (r + CHANNEL_CAPACITY <? length c.1)%nat
  then (Lagged (N.of_nat (length c.1 - CHANNEL_CAPACITY - r)), length c.1 - CHANNEL_CAPACITY)%nat
  else match c.1 !! r with
       | Some e => (Received e, S r)
       | None => (if c.2 then Closed else Waiting, r)
       end.

#[export] Instance log_broadcast : Broadcast LogChan nat := {|
  sent c := c.1;
  closed c := c.2;
  position r := r;
  send e c := ((c.1 ++ [e])%list, c.2);
  drop_senders c := (c.1, true);
  subscribe c := length c.1;
  recv := log_recv;
|}.

#[export] Instance log_broadcast_laws : BroadcastLaws LogChan nat.
Proof.
  split; try done; cbn; unfold log_recv.
  - intros c r H. apply Nat.ltb_lt in H. rewrite H. by eexists.
  - intros c r e H He. apply Nat.ltb_ge in H. rewrite H, He. by eexists.
  - intros c r H. destruct (Nat.ltb_spec (r + CHANNEL_CAPACITY) (length c.1)); [|by rewrite H].
    apply lookup_ge_None in H. lia.
Qed.

Definition demo_event (k : string) : CrewEvent := mkCrewEvent "c" k Null.
Definition demo_json (e : CrewEvent) : Result string string := Ok (ev_type e).

Lemma crew_stream_delivery_witness :
  let y := poll_times (crew_stream_poll demo_json id "c" true) 3
             (mkSys (([demo_event "task_started"], true) : LogChan) 0 Opening []) in
  stream y = Ended /\ out y = [mkFrame "connected" "connected"; mkFrame "task_started" "task_started"].
Proof.
  split; [reflexivity|].
  refine (proj2 (crew_stream_delivery demo_json id "c" (([], false) : LogChan) _ _) _ _).
  - eapply rtc_l; [apply (step_send _ _ (demo_event "task_started")); reflexivity|].
    eapply rtc_l; [apply step_close|]. do 3 (eapply rtc_l; [apply step_poll|]). apply rtc_refl.
  - vm_compute. lia.
  - reflexivity.
Defined.

Lemma crew_stream_ends_witness :
  stream (poll_times (crew_stream_poll demo_json id "c" true) 3
    (mkSys (([demo_event "task_started"], true) : LogChan) 0 Opening [])) = Ended.
Proof. apply crew_stream_ends; [reflexivity|vm_compute; lia]. Defined.

(** A client of [event_stream] that falls behind sees its stream end as if the crew
    were done; [crew_stream] tells it. *)
Example event_stream_ends_silently_on_lag :
  let c : LogChan := (replicate 300 (demo_event "token"), false) in
  event_stream_poll demo_json c 0 Forwarding = (None, 44, Ended) /\
  (crew_stream_poll demo_json id "c" true c 0 Forwarding).1.1 =
    Some (mkFrame "error" "stream lagged, 44 events dropped").
Proof. vm_compute. by split. Qed.

Lemma rtc_sends poll (l evs : list CrewEvent) r st o :
  rtc (sys_step poll) (mkSys ((l, false) : LogChan) r st o) (mkSys ((l ++ evs)%list, false) r st o).
Proof.
  revert l. induction evs as [|e evs IH]; intros l; [by rewrite app_nil_r|].
  eapply rtc_l; [by apply (step_send poll _ e)|]. cbn. replace (l ++ e :: evs)%list with ((l ++ [e]) ++ evs)%list; [apply IH|].
  by rewrite <-app_assoc.
Qed.
Lemma rtc_polls {Chan Rx} `{!Broadcast Chan Rx} poll n (y : Sys) :
  rtc (sys_step (Chan := Chan) (Rx := Rx) poll) y (poll_times poll n y).
Proof.
  revert y. induction n as [|n IH]; intros y; [apply rtc_refl|]. eapply rtc_l; [apply step_poll|apply IH].
Qed.

#[local] Existing Instance canonical_iter.

Definition watched_runner : CrewRunner := mkCrewRunner hello_crew true false false.
Definition watched_run : list CrewEvent :=
  match run toy_env quiet_rt watched_runner None ∅ with Returns (Ok res) => sent_events (out_log res) | _ => [] end.

Definition watched_stream : Sys :=
  poll_times (crew_stream_poll demo_json id "c" true) 10 (mkSys ((watched_run, true) : LogChan) 0 Opening []).

Example watched_stream_frames :
  map frame_event (out watched_stream) =
    ["connected"; "crew_started"; "task_started"; "task_completed"; "crew_completed"].
Proof. vm_compute. reflexivity. Qed.

Lemma watched_crew_is_announced_witness :
  exists first mid final,
    out watched_stream = (connected_frame demo_json "c" :: event_frame demo_json first ::
      map (event_frame demo_json) mid ++ [event_frame demo_json final])%list /\ ev_type final = "crew_completed".
Proof.
  destruct (run toy_env quiet_rt watched_runner None ∅) as [[res|]| |] eqn:E; [|vm_compute in E; discriminate..].
  assert (watched_run = sent_events (out_log res)) as Hw by (unfold watched_run; by rewrite E).
  destruct (watched_crew_is_announced demo_json id "c" toy_env quiet_rt watched_runner None ∅ res (([], false) : LogChan)
    watched_stream E) as (first & mid & final & Hout & _ & _ & Hf & _).
  - reflexivity.
  - rewrite <-Hw. vm_compute. lia.
  - etransitivity; [apply (rtc_sends _ [] watched_run)|]. eapply rtc_l; [apply step_close|]. apply rtc_polls.
  - rewrite <-Hw. vm_compute. reflexivity.
  - vm_compute. reflexivity.
  - by exists first, mid, final.
Defined.
