(* ===== verification/InferenceQueue.v ===== *)
(** * The inference queue (llm/inference_queue.rs)

    Requests are put into a shared priority queue by spawned tasks and answered
    by workers through one-shot channels. The system is a step relation over the
    client calls, the spawned tasks and the workers. The concurrent priority queue
    of the majra crate is an interface with laws; the answers of the LLM client
    are a relation. *)

From S2P Require Import Prelude.
From S2P Require Import F64.
From S2P Require Import Resource.
From S2P Require Import Core.
From S2P Require Import Llm.
From S2P Require Import TaskExec.
From Stdlib Require Import String.
From stdpp Require Import base strings numbers relations list.

Local Open Scope string_scope.

(** ** Data *)

(** The one-shot channels are numbered in the order of their creation. *)
Definition ReplyId := nat.
Record QueuedInference := mkQueuedInference { request : InferenceRequest; reply : ReplyId; label : string }.
Record QueueItem := mkQueueItem { item_priority : MajraPriority; item_payload : QueuedInference }.

Definition level (p : MajraPriority) : nat :=
  match p with PBackground => 0 | PLow => 1 | PNormal => 2 | PHigh => 3 | PCritical => 4 end.

(** [ConcurrentPriorityQueue]: what is in it, in no particular order. *)
Class PriorityQueue (Q : Type) := {
  queue_new : Q;
  contents : Q -> list QueueItem;
  enqueue_item : QueueItem -> Q -> Q;
  dequeue_item : Q -> option (QueueItem * Q);
}.
(** Items are kept until they are taken, and an item of the highest level present
    is taken first. *)
Class PriorityQueueLaws (Q : Type) `{!PriorityQueue Q} : Prop := {
  contents_new : contents queue_new = [];
  contents_enqueue : forall x q, contents (enqueue_item x q) ≡ₚ x :: contents q;
  dequeue_some : forall q x q', dequeue_item q = Some (x, q') ->
    contents q ≡ₚ x :: contents q' /\
    Forall (fun y => (level (item_priority y) <= level (item_priority x))%nat) (contents q);
  dequeue_none : forall q, dequeue_item q = None -> contents q = [];
}.

(** A worker waits (or sleeps), or awaits the client's answer for an item. *)
Inductive Worker := Polling | Inferring (x : QueueItem) | Aborted.

(** What a one-shot channel got: the result, or nothing because its sender was
    dropped. *)
Abbreviation ReplyValue := (option (Result InferenceResponse string)) (only parsing).

Section system.
Context {Q : Type} `{!PriorityQueue Q}.
(** [answers req res]: [client.infer(&req)] may give [res]. *)
Context (answers : InferenceRequest -> Result InferenceResponse string -> Prop).

(** The queue object: the shared queue, the spawned tasks that have not run yet,
    the workers, the requests made and the replies, newest first. *)
Record InferenceQueue := mkInferenceQueue {
  queue : Q;
  spawned : list QueueItem;
  workers : list Worker;
  asked : list InferenceRequest;
  replies : list (ReplyId * ReplyValue);
}.

Definition InferenceQueue_new : InferenceQueue := mkInferenceQueue queue_new [] [] [] [].

(** [enqueue]: a fresh channel, and a task that will put the item into the queue. *)
Definition enqueue (s : InferenceQueue) (req : InferenceRequest) (p : MajraPriority) (l : string)
    : ReplyId * InferenceQueue :=
  let id := length (asked s) in
  let item := mkQueueItem p (mkQueuedInference req id l) in
  (id, mkInferenceQueue (queue s) (spawned s ++ [item])%list (workers s) (asked s ++ [req])%list (replies s)).
Definition enqueue_normal (s : InferenceQueue) (req : InferenceRequest) (l : string) : ReplyId * InferenceQueue :=
  enqueue s req PNormal l.
Definition enqueue_background (s : InferenceQueue) (req : InferenceRequest) (l : string) : ReplyId * InferenceQueue :=
  enqueue s req PBackground l.
Definition pending (s : InferenceQueue) : nat := length (contents (queue s)).
Definition queue_is_empty (s : InferenceQueue) : bool := match contents (queue s) with [] => true | _ => false end.
Definition spawn_worker (s : InferenceQueue) : InferenceQueue :=
  mkInferenceQueue (queue s) (spawned s) (workers s ++ [Polling])%list (asked s) (replies s).

(** The task of one call runs: tasks run in any order. *)
Definition run_spawned (s : InferenceQueue) (i : nat) : option InferenceQueue :=
  x ← spawned s !! i;
  Some (mkInferenceQueue (enqueue_item x (queue s)) (delete i (spawned s)) (workers s) (asked s) (replies s)).

(** The top of the worker's loop; with an empty queue it sleeps and comes back. *)
Definition worker_take (s : InferenceQueue) (w : nat) : option InferenceQueue :=
  match workers s !! w with
  | Some Polling =>
      match dequeue_item (queue s) with
      | Some (x, q) => Some (mkInferenceQueue q (spawned s) (<[w := Inferring x]> (workers s)) (asked s) (replies s))
      | None => Some s
      end
  | _ => None
  end.

(** [reply.send(result)] after the client's answer. *)
Definition worker_reply (s : InferenceQueue) (w : nat) (res : Result InferenceResponse string) : option InferenceQueue :=
  match workers s !! w with
  | Some (Inferring x) =>
      Some (mkInferenceQueue (queue s) (spawned s) (<[w := Polling]> (workers s)) (asked s)
              ((reply (item_payload x), Some res) :: replies s))
  | _ => None
  end.

(** [handle.abort()]: the item in hand is dropped with its sender. *)
Definition worker_abort (s : InferenceQueue) (w : nat) : option InferenceQueue :=
  match workers s !! w with
  | Some (Inferring x) =>
      Some (mkInferenceQueue (queue s) (spawned s) (<[w := Aborted]> (workers s)) (asked s)
              ((reply (item_payload x), None) :: replies s))
  | Some _ => Some (mkInferenceQueue (queue s) (spawned s) (<[w := Aborted]> (workers s)) (asked s) (replies s))
  | None => None
  end.

(** Steps of the machine itself, without its clients. *)
Inductive internal_step : InferenceQueue -> InferenceQueue -> Prop :=
| step_spawned s i s' : run_spawned s i = Some s' -> internal_step s s'
| step_take s w x q :
    workers s !! w = Some Polling -> dequeue_item (queue s) = Some (x, q) ->
    internal_step s (mkInferenceQueue q (spawned s) (<[w := Inferring x]> (workers s)) (asked s) (replies s))
| step_reply s w res s' x :
    workers s !! w = Some (Inferring x) -> answers (request (item_payload x)) res ->
    worker_reply s w res = Some s' -> internal_step s s'.

Inductive queue_step : InferenceQueue -> InferenceQueue -> Prop :=
| step_internal s s' : internal_step s s' -> queue_step s s'
| step_sleep s w s' : dequeue_item (queue s) = None -> worker_take s w = Some s' -> queue_step s s'
| step_enqueue s req p l id s' : enqueue s req p l = (id, s') -> queue_step s s'
| step_spawn_worker s : queue_step s (spawn_worker s)
| step_abort s w s' : worker_abort s w = Some s' -> queue_step s s'.

(** ** Every request is in one place *)

Definition item_id (x : QueueItem) : ReplyId := reply (item_payload x).
Definition in_hand (w : Worker) : list QueueItem := match w with Inferring x => [x] | _ => [] end.
Definition busy (ws : list Worker) : list QueueItem := List.concat (map in_hand ws).

(** The items that are somewhere, and the channels that are settled. *)
Definition live (s : InferenceQueue) : list QueueItem := (spawned s ++ contents (queue s) ++ busy (workers s))%list.
Definition settled (s : InferenceQueue) : list ReplyId := map fst (replies s).

(** The channels whose sender was dropped without a result, and the workers that
    were aborted. *)
Definition dropped (s : InferenceQueue) : list ReplyId :=
  omap (fun r => match r.2 with None => Some r.1 | Some _ => None end) (replies s).
Definition is_aborted (w : Worker) : bool := match w with Aborted => true | _ => false end.
Definition aborted (ws : list Worker) : nat := length (List.filter is_aborted ws).

Record queue_inv (s : InferenceQueue) : Prop := {
  accounted : (map item_id (live s) ++ settled s)%list ≡ₚ seq 0 (length (asked s));
  items_asked : Forall (fun x => asked s !! item_id x = Some (request (item_payload x))) (live s);
  replies_answer : Forall (fun r => forall res, r.2 = Some res ->
    exists req, asked s !! r.1 = Some req /\ answers req res) (replies s);
  drops_aborted : (length (dropped s) <= aborted (workers s))%nat;
}.

Context `{!PriorityQueueLaws Q}.

Lemma busy_insert ws w x y : ws !! w = Some y ->
  exists l1 l2, busy ws = (l1 ++ in_hand y ++ l2)%list /\ busy (<[w := x]> ws) = (l1 ++ in_hand x ++ l2)%list.
Proof.
  intros Hw. exists (busy (take w ws)), (busy (drop (S w) ws)). unfold busy. split.
  - rewrite <-(take_drop_middle ws w y Hw) at 1. by rewrite map_app, concat_app.
  - rewrite insert_take_drop by (by eapply lookup_lt_Some). by rewrite map_app, concat_app.
Qed.

Lemma aborted_insert ws w x y : ws !! w = Some y ->
  (aborted (<[w := x]> ws) + Nat.b2n (is_aborted y) = aborted ws + Nat.b2n (is_aborted x))%nat.
Proof.
  intros Hw. unfold aborted. rewrite <-(take_drop_middle ws w y Hw) at 2.
  rewrite insert_take_drop by (by eapply lookup_lt_Some).
  rewrite !List.filter_app, !length_app. cbn [List.filter]. destruct (is_aborted x), (is_aborted y); cbn; lia.
Qed.

(** Moving an item between places keeps the accounts. *)
Lemma inv_move s s' : queue_inv s -> live s' ≡ₚ live s -> asked s' = asked s -> replies s' = replies s ->
  (aborted (workers s) <= aborted (workers s'))%nat -> queue_inv s'.
Proof.
  intros [Ha Hi Hr Hd] Hl Has Hre Hab. split.
  - unfold settled. rewrite Hl, Has, Hre. exact Ha.
  - rewrite Hl, Has. exact Hi.
  - rewrite Hre, Has. exact Hr.
  - unfold dropped in *. rewrite Hre. lia.
Qed.

(** Settling the channel of an item keeps them, when the value is the client's or
    a worker is aborted. *)
Lemma inv_settle s s' x v :
  queue_inv s -> live s ≡ₚ x :: live s' -> asked s' = asked s -> replies s' = (item_id x, v) :: replies s ->
  (aborted (workers s) + (match v with Some _ => 0 | None => 1 end) <= aborted (workers s'))%nat ->
  (forall res, v = Some res -> answers (request (item_payload x)) res) -> queue_inv s'.
Proof.
  intros [Ha Hi Hr Hd] Hl Has Hre Hab Hv. rewrite Hl in Hi. apply Forall_cons in Hi as [Hx Hi]. split.
  - unfold settled. rewrite Has, Hre, <-Ha. rewrite Hl. cbn [map fst]. unfold settled.
    symmetry. apply Permutation_middle.
  - by rewrite Has.
  - rewrite Hre, Has. constructor; [|done]. intros res Hres. exists (request (item_payload x)). auto.
  - unfold dropped in *. rewrite Hre. cbn. destruct v; cbn; lia.
Qed.

Lemma inv_enqueue s req p l id s' : queue_inv s -> enqueue s req p l = (id, s') -> queue_inv s'.
Proof.
  intros [Ha Hi Hr Hd] [= <- <-]. unfold live, settled. cbn [spawned queue workers asked replies].
  assert (forall i r, asked s !! i = Some r -> (asked s ++ [req])%list !! i = Some r) as Hext
    by (intros; by apply lookup_app_l_Some).
  set (x := mkQueueItem p (mkQueuedInference req (length (asked s)) l)).
  assert (forall m : list QueueItem, (spawned s ++ [x]) ++ m ≡ₚ x :: (spawned s ++ m))%list as Hp
    by (intros m; rewrite <-app_assoc; symmetry; apply Permutation_middle).
  split; unfold live, settled; cbn [spawned queue workers asked replies].
  - rewrite Hp. rewrite length_app, Nat.add_1_r, seq_S. cbn [map]. rewrite <-Ha. apply Permutation_cons_append.
  - rewrite Hp. constructor; [by rewrite lookup_app_r, Nat.sub_diag by done|].
    eapply Forall_impl; [exact Hi|]. intros y Hy. by apply Hext.
  - eapply Forall_impl; [exact Hr|]. intros r H res Hres. destruct (H res Hres) as (req' & ? & ?). eauto.
  - exact Hd.
Qed.

Lemma inv_internal s s' : queue_inv s -> internal_step s s' -> queue_inv s'.
Proof.
  intros Hinv Hstep. destruct Hstep as [s i s' H|s w x q Hw Hq|s w res s' x Hw Ha H].
  - unfold run_spawned in H. destruct (spawned s !! i) as [x|] eqn:Ex; [|done]. injection H as <-.
    eapply inv_move; [exact Hinv| |done..]. unfold live. cbn [spawned queue workers].
    pose proof (delete_Permutation (spawned s) i x Ex) as Hd. rewrite contents_enqueue.
    transitivity ((x :: delete i (spawned s)) ++ contents (queue s) ++ busy (workers s))%list; [|by rewrite <-Hd].
    cbn [app]. symmetry. apply Permutation_middle.
  - eapply inv_move; [exact Hinv| |done..|]; unfold live; cbn [spawned queue workers].
    2: { pose proof (aborted_insert _ _ (Inferring x) _ Hw) as Hab. cbn [is_aborted Nat.b2n] in Hab. lia. }
    destruct (dequeue_some _ _ _ Hq) as [Hc _].
    destruct (busy_insert _ _ (Inferring x) _ Hw) as (l1 & l2 & -> & ->). cbn [in_hand app]. rewrite Hc.
    apply Permutation_app_head. cbn [app]. rewrite !app_assoc. symmetry. apply Permutation_middle.
  - unfold worker_reply in H. rewrite Hw in H. injection H as <-.
    eapply (inv_settle _ _ x); [exact Hinv| |done..| |by intros res' [= <-]]; unfold live; cbn [spawned queue workers].
    2: { pose proof (aborted_insert _ _ Polling _ Hw) as Hab. cbn [is_aborted Nat.b2n] in Hab. lia. }
    destruct (busy_insert _ _ Polling _ Hw) as (l1 & l2 & -> & ->). cbn [in_hand app].
    rewrite !app_assoc. symmetry. apply Permutation_middle.
Qed.

Lemma inv_abort s w s' : queue_inv s -> worker_abort s w = Some s' -> queue_inv s'.
Proof.
  intros Hinv. unfold worker_abort. destruct (workers s !! w) as [wk|] eqn:Hw; [|done].
  destruct (busy_insert _ _ Aborted _ Hw) as (l1 & l2 & Hb & Hb').
  pose proof (aborted_insert _ _ Aborted _ Hw) as Hab.
  destruct wk as [|x|]; intros [= <-]; cbn [is_aborted Nat.b2n] in Hab.
  - eapply inv_move; [exact Hinv| |done..|cbn [workers]; lia]. unfold live. cbn [spawned queue workers]. by rewrite Hb, Hb'.
  - eapply (inv_settle _ _ x); [exact Hinv| |done..|cbn [workers]; lia|done]. unfold live. cbn [spawned queue workers].
    rewrite Hb, Hb'. cbn [in_hand app]. rewrite !app_assoc. symmetry. apply Permutation_middle.
  - eapply inv_move; [exact Hinv| |done..|cbn [workers]; lia]. unfold live. cbn [spawned queue workers]. by rewrite Hb, Hb'.
Qed.

Lemma inv_step s s' : queue_inv s -> queue_step s s' -> queue_inv s'.
Proof.
  intros Hinv Hstep. destruct Hstep as [s s' H|s w s' Hn H|s req p l id s' H|s|s w s' H].
  - by eapply inv_internal.
  - unfold worker_take in H. rewrite Hn in H. destruct (workers s !! w) as [[]|]; try done. by injection H as <-.
  - by eapply inv_enqueue.
  - eapply inv_move; [exact Hinv| |done..|]; unfold live, busy; cbn [spawned queue workers spawn_worker].
    + by rewrite map_app, concat_app, app_nil_r.
    + unfold aborted. rewrite List.filter_app, length_app. lia.
  - by eapply inv_abort.
Qed.

Lemma inv_reachable s : rtc queue_step InferenceQueue_new s -> queue_inv s.
Proof.
  intros H. assert (queue_inv InferenceQueue_new) as H0.
  { split; unfold live, settled; cbn; rewrite ?contents_new; constructor. }
  revert H0. induction H as [|s1 s2 s3 Hs _ IH]; [done|]. intros H0. by eapply IH, inv_step.
Qed.

(** ** Draining *)

Definition weight (s : InferenceQueue) : nat :=
  3 * length (spawned s) + 2 * length (contents (queue s)) + length (busy (workers s)).

Lemma internal_weight s s' : internal_step s s' -> (S (weight s') = weight s)%nat.
Proof.
  intros Hstep. unfold weight. destruct Hstep as [s i s' H|s w x q Hw Hq|s w res s' x Hw Ha H].
  - unfold run_spawned in H. destruct (spawned s !! i) as [x|] eqn:Ex; [|done]. injection H as <-.
    pose proof (Permutation_length (delete_Permutation (spawned s) i x Ex)) as Hd. cbn [length] in Hd.
    cbn [spawned queue workers]. rewrite contents_enqueue, Hd. cbn [length]. lia.
  - cbn [spawned queue workers]. destruct (dequeue_some _ _ _ Hq) as [Hc _]. rewrite Hc.
    destruct (busy_insert _ _ (Inferring x) _ Hw) as (l1 & l2 & -> & ->).
    rewrite !length_app. cbn [in_hand length]. lia.
  - unfold worker_reply in H. rewrite Hw in H. injection H as <-. cbn [spawned queue workers].
    destruct (busy_insert _ _ Polling _ Hw) as (l1 & l2 & -> & ->). rewrite !length_app. cbn [in_hand length]. lia.
Qed.

Definition alive (w : Worker) : Prop := w <> Aborted.

Lemma internal_alive s s' : internal_step s s' -> Exists alive (workers s) -> Exists alive (workers s').
Proof.
  intros Hstep Hex. destruct Hstep as [s i s' H|s w x q Hw Hq|s w res s' x Hw Ha H].
  - unfold run_spawned in H. destruct (spawned s !! i); [|done]. by injection H as <-.
  - apply Exists_exists. exists (Inferring x). split; [|done].
    apply list_elem_of_lookup. exists w. apply list_lookup_insert_eq. by eapply lookup_lt_Some.
  - unfold worker_reply in H. rewrite Hw in H. injection H as <-. apply Exists_exists. exists Polling.
    split; [|done]. apply list_elem_of_lookup. exists w. apply list_lookup_insert_eq. by eapply lookup_lt_Some.
Qed.

Lemma busy_member ws x : x ∈ busy ws -> exists w, ws !! w = Some (Inferring x).
Proof.
  unfold busy. intros Hx. apply list_elem_of_In, in_concat in Hx as (l & Hl & Hx).
  apply in_map_iff in Hl as (wk & <- & Hwk). destruct wk as [|y|]; simpl in Hx; [done| |done].
  destruct Hx as [->|[]]. apply list_elem_of_In, list_elem_of_lookup in Hwk as [w Hw]. by exists w.
Qed.

(** A machine that cannot move, with a worker and a client that answers, has
    nothing left to do. *)
Lemma stuck_drained s :
  (forall req, exists res, answers req res) -> Exists alive (workers s) ->
  (forall s', ~ internal_step s s') -> live s = [].
Proof.
  intros Htot Hal Hstuck. unfold live.
  destruct (busy (workers s)) as [|x b] eqn:Eb.
  2: { destruct (busy_member (workers s) x) as [w Hw]; [rewrite Eb; by left|].
       destruct (Htot (request (item_payload x))) as [res Hres]. edestruct Hstuck.
       eapply (step_reply _ w res); [exact Hw|exact Hres|]. unfold worker_reply. by rewrite Hw. }
  destruct (spawned s) as [|x l] eqn:Es.
  2: { edestruct Hstuck. eapply (step_spawned _ 0). unfold run_spawned. by rewrite Es. }
  destruct (dequeue_item (queue s)) as [[x q]|] eqn:Eq; [|by rewrite (dequeue_none _ Eq)].
  apply Exists_exists in Hal as (wk & Hwk & Hal). apply list_elem_of_lookup in Hwk as [w Hw]. destruct wk as [|y|].
  - edestruct Hstuck. by eapply (step_take _ w).
  - destruct (busy_insert _ _ Polling _ Hw) as (l1 & l2 & Hb & _). rewrite Eb in Hb. by destruct l1.
  - by destruct Hal.
Qed.

(** A step of the machine settles channels with answers of the client only. *)
Lemma internal_replies s s' : internal_step s s' ->
  asked s' = asked s /\ (replies s' = replies s \/ exists id res, replies s' = (id, Some res) :: replies s).
Proof.
  intros [s1 i s2 H|s1 w x q Hw Hq|s1 w res s2 x Hw Ha H]; [|by auto|].
  - unfold run_spawned in H. destruct (spawned _ !! _); [|done]. injection H as <-. auto.
  - unfold worker_reply in H. rewrite Hw in H. injection H as <-. eauto.
Qed.

Lemma internal_drops s s' : rtc internal_step s s' -> asked s' = asked s /\ dropped s' = dropped s.
Proof.
  induction 1 as [s|s1 s2 s3 H _ [IH1 IH2]]; [done|]. rewrite IH1, IH2.
  destruct (internal_replies _ _ H) as [-> [Hr|(id & res & Hr)]]; unfold dropped; by rewrite Hr.
Qed.

Lemma elem_of_dropped s id : id ∈ dropped s <-> (id, None) ∈ replies s.
Proof.
  unfold dropped. rewrite list_elem_of_omap. split.
  - intros ([i [res|]] & Hin & [= <-]). done.
  - intros Hin. by exists (id, None).
Qed.

Lemma inv_drains s s' :
  queue_inv s -> Exists alive (workers s) -> rtc internal_step s s' -> queue_inv s' /\ Exists alive (workers s').
Proof.
  intros Hs Hal H. induction H as [|s1 s2 s3 H _ IH]; [done|].
  apply IH; [by eapply inv_internal|by eapply internal_alive].
Qed.

(** [C18] No request is lost, mixed up or answered twice: in every reachable state
    each request made is in exactly one place, waiting in a spawned task or in the
    queue, in the hands of a worker, or settled; its channel is settled at most
    once, with an answer of the client to that very request or with its sender
    dropped; there are never more dropped channels than aborted workers, so
    without an abort every settled request has its answer; and a worker that takes
    a request takes one of the highest priority waiting. *)
Theorem inference_replies_exact s :
  rtc queue_step InferenceQueue_new s ->
  (map item_id (live s) ++ settled s)%list ≡ₚ seq 0 (length (asked s)) /\ NoDup (settled s) /\
  (forall id res, (id, Some res) ∈ replies s -> exists req, asked s !! id = Some req /\ answers req res) /\
  (length (dropped s) <= aborted (workers s))%nat /\
  (forall w s' x, worker_take s w = Some s' -> workers s' !! w = Some (Inferring x) ->
     Forall (fun y => (level (item_priority y) <= level (item_priority x))%nat) (contents (queue s))).
Proof.
  intros H%inv_reachable. destruct H as [Ha Hi Hr Hd]. split_and!; [done| | |done|].
  - apply (NoDup_app (map item_id (live s)) (settled s)). rewrite Ha. apply NoDup_seq.
  - intros id res Hin. rewrite Forall_forall in Hr. by apply (Hr _ Hin).
  - intros w s' x Ht Hx. unfold worker_take in Ht. destruct (workers s !! w) as [[]|] eqn:Ew; try done.
    destruct (dequeue_item (queue s)) as [[y q]|] eqn:Eq.
    + injection Ht as <-. cbn [workers] in Hx. rewrite list_lookup_insert_eq in Hx by (by eapply lookup_lt_Some).
      injection Hx as ->. by apply (dequeue_some (queue s) x q).
    + injection Ht as <-. congruence.
Qed.

(** [C19] Every request is answered: with a worker that is not aborted and a client
    that gives some answer to each request, the machine left to itself stops after
    at most three steps per request, and where it stops the channel of every
    request holds an answer of the client to that request, except for those whose
    sender an abort had dropped before; no sender is dropped on the way. *)
Theorem inference_queue_drains s :
  rtc queue_step InferenceQueue_new s -> Exists alive (workers s) -> (forall req, exists res, answers req res) ->
  (weight s <= 3 * length (asked s))%nat /\
  (forall n s', nsteps internal_step n s s' -> (n + weight s' = weight s)%nat) /\
  (forall s', rtc internal_step s s' -> (forall s'', ~ internal_step s' s'') ->
     asked s' = asked s /\ dropped s' = dropped s /\
     forall id req, asked s !! id = Some req -> id ∉ dropped s ->
       exists res, (id, Some res) ∈ replies s' /\ answers req res).
Proof.
  intros Hs%inv_reachable Hal Htot. split_and!.
  - pose proof (Permutation_length (accounted _ Hs)) as Hl. unfold live in Hl.
    rewrite length_app, length_map, !length_app, length_seq in Hl. unfold weight. lia.
  - intros n s' H. induction H as [|n s1 s2 s3 H _ IH]; [done|].
    pose proof (internal_weight _ _ H).
    assert (n + weight s3 = weight s2)%nat by (apply IH; [by eapply inv_internal|by eapply internal_alive]). lia.
  - intros s' H Hstuck. destruct (internal_drops _ _ H) as [Eask Edrop].
    destruct (inv_drains _ _ Hs Hal H) as [[Ha Hi Hr Hd] Hal']. split_and!; [done..|]. intros id req Hid Hnd.
    rewrite (stuck_drained s') in Ha by done. cbn [map app] in Ha.
    assert (id ∈ settled s') as Hin.
    { rewrite Ha, Eask. apply elem_of_seq. apply lookup_lt_Some in Hid. lia. }
    unfold settled in Hin. apply list_elem_of_fmap in Hin as ([i [res|]] & -> & Hin); cbn [fst] in *.
    + exists res. split; [done|]. rewrite Forall_forall in Hr. destruct (Hr _ Hin res eq_refl) as (req' & Hq & Hans).
      cbn [fst] in Hq. rewrite Eask in Hq. assert (Some req' = Some req) as [= ->]; [|done]. rewrite <-Hq. exact Hid.
    + destruct Hnd. rewrite <-Edrop. by apply elem_of_dropped.
Qed.
End system.

(** ** A queue as a list *)

Fixpoint take_highest (l : list QueueItem) : option (QueueItem * list QueueItem) :=
  match l with
  | [] => None
  | x :: l =>
      match take_highest l with
      | None => Some (x, [])
      | Some (y, rest) =>
          if (level (item_priority y) <=? level (item_priority x))%nat then Some (x, y :: rest) else Some (y, x :: rest)
      end
  end.

#[export] Instance list_queue : PriorityQueue (list QueueItem) := {|
  queue_new := [];
  contents l := l;
  enqueue_item x l := (l ++ [x])%list;
  dequeue_item := take_highest;
|}.

Lemma take_highest_spec l x l' : take_highest l = Some (x, l') ->
  l ≡ₚ x :: l' /\ Forall (fun y => (level (item_priority y) <= level (item_priority x))%nat) l.
Proof.
  revert x l'. induction l as [|a l IH]; intros x l'; cbn [take_highest]; [done|].
  destruct (take_highest l) as [[y rest]|] eqn:E.
  - destruct (IH y rest eq_refl) as [Hp Hf].
    destruct (Nat.leb_spec (level (item_priority y)) (level (item_priority a))); intros [= <- <-].
    + split; [by rewrite Hp|]. constructor; [lia|]. eapply Forall_impl; [exact Hf|]. intros z Hz. cbn in Hz. lia.
    + split; [rewrite Hp; constructor|]. constructor; [lia|done].
  - intros [= <- <-]. destruct l as [|b l]; [by split; [|repeat constructor]|].
    cbn [take_highest] in E. destruct (take_highest l) as [[]|]; [by destruct (_ <=? _)%nat|done].
Qed.

#[export] Instance list_queue_laws : PriorityQueueLaws (list QueueItem).
Proof.
  split; [done| | |].
  - intros x q. symmetry. apply Permutation_cons_append.
  - intros q x q'. apply take_highest_spec.
  - intros [|a q]; [done|]. cbn. destruct (take_highest q) as [[]|]; [by destruct (_ <=? _)%nat|done].
Qed.

Definition ask (m : string) : InferenceRequest := mkInferenceRequest m "p" None [] None None.
(** A client that fails every request, by name. *)
Definition refusing (req : InferenceRequest) (res : Result InferenceResponse string) : Prop := res = Err (req_model req).

(** Two requests, of which the second overtakes the first, and a worker. *)
Definition two_asked : InferenceQueue (Q := list QueueItem) :=
  spawn_worker (enqueue (enqueue_background InferenceQueue_new (ask "slow") "bg").2 (ask "fast") PHigh "hi").2.
Definition one_taken : InferenceQueue (Q := list QueueItem) :=
  default two_asked (a ← run_spawned two_asked 0; b ← run_spawned a 0; worker_take b 0).

Lemma two_asked_reachable : rtc (queue_step refusing) InferenceQueue_new two_asked.
Proof.
  eapply rtc_l; [eapply step_enqueue; reflexivity|]. eapply rtc_l; [eapply step_enqueue; reflexivity|].
  eapply rtc_l; [apply step_spawn_worker|]. apply rtc_refl.
Qed.

Lemma one_taken_reachable : rtc (queue_step refusing) InferenceQueue_new one_taken.
Proof.
  etransitivity; [apply two_asked_reachable|].
  do 2 (eapply rtc_l; [apply step_internal; eapply (step_spawned _ _ 0); reflexivity|]).
  eapply rtc_l; [apply step_internal; eapply (step_take _ _ 0); reflexivity|]. apply rtc_refl.
Qed.

Lemma inference_replies_exact_witness :
  (map item_id (live one_taken) ++ settled one_taken)%list ≡ₚ [0; 1]%nat /\
  workers one_taken = [Inferring (mkQueueItem PHigh (mkQueuedInference (ask "fast") 1 "hi"))].
Proof.
  split; [|reflexivity]. exact (proj1 (inference_replies_exact refusing one_taken one_taken_reachable)).
Defined.

Lemma inference_queue_drains_witness :
  (weight two_asked <= 3 * length (asked two_asked))%nat /\
  (forall n s', nsteps (internal_step refusing) n two_asked s' -> (n + weight s' = 6)%nat) /\
  (forall s', rtc (internal_step refusing) two_asked s' -> (forall s'', ~ internal_step refusing s' s'') ->
     (1%nat, Some (Err "fast")) ∈ replies s').
Proof.
  destruct (inference_queue_drains refusing two_asked two_asked_reachable) as (H1 & H2 & H3).
  - by left.
  - intros req. by exists (Err (req_model req)).
  - split_and!; [exact H1|exact H2|]. intros s' Hs Hst. destruct (H3 s' Hs Hst) as (_ & _ & H).
    destruct (H 1%nat (ask "fast")) as (res & Hin & ->); [reflexivity|apply not_elem_of_nil|exact Hin].
Defined.

(** Right after [enqueue] the queue still reports nothing pending. *)
Example pending_lags_behind : pending two_asked = 0%nat /\ length (asked two_asked) = 2%nat.
Proof. by split. Qed.
