(* ===== verification/Telemetry.v ===== *)
(** * Metrics text and telemetry (server/prometheus.rs [gather], telemetry/mod.rs,
      telemetry/genai.rs)

    The Prometheus text of the counters, which a scraper is shown to read back,
    the spans of the GenAI conventions with the late recording of token usage,
    and the set-up of the exporter. The subscriber and the exporter are
    parameters. *)

From S2P Require Import Prelude.
From S2P Require Import F64.
From S2P Require Import Resource.
From S2P Require Import Core.
From S2P Require Import Text.
From S2P Require Import Routes.
From Stdlib Require Import Ascii String.
From stdpp Require Import base strings pretty numbers list.

Local Open Scope string_scope.
#[local] Arguments String.append !_ _ / : simpl nomatch.

(** ** prometheus.rs: the text *)

Definition newline : ascii := ascii_of_nat 10.
Definition writeln (out line : string) : string := out ++ line ++ String newline "".

(** The three lines of a metric. *)
Definition metric_lines (nm help kind value : string) : list string :=
  ["# HELP " ++ nm ++ " " ++ help; "# TYPE " ++ nm ++ " " ++ kind; nm ++ " " ++ value].

Section gather.
(** [fmt6]: the format [{:.6}]. *)
Context (fmt6 : f64 -> string).

Definition gather_lines (m : AgnosMetrics) : list string :=
  (metric_lines "agnosai_crews_total" "Total number of crews created." "counter" (pretty (crews_total m)) ++
   metric_lines "agnosai_crews_active" "Number of currently active crews." "gauge" (pretty (crews_active m)) ++
   metric_lines "agnosai_tasks_completed_total" "Total tasks completed successfully." "counter" (pretty (tasks_completed m)) ++
   metric_lines "agnosai_tasks_failed_total" "Total tasks that failed." "counter" (pretty (tasks_failed m)) ++
   metric_lines "agnosai_inference_tokens_total" "Total inference tokens processed." "counter"
     (pretty (inference_tokens_total m)) ++
   metric_lines "agnosai_inference_cost_usd_total" "Total inference cost in USD." "counter"
     (fmt6 (inference_cost_usd m)))%list.
Definition gather (m : AgnosMetrics) : string := foldl writeln "" (gather_lines m).
End gather.

(** ** telemetry/genai.rs *)

Definition OPERATION_NAME : string := "gen_ai.operation.name".
Definition SYSTEM : string := "gen_ai.system".
Definition REQUEST_MODEL : string := "gen_ai.request.model".
Definition RESPONSE_MODEL : string := "gen_ai.response.model".
Definition USAGE_INPUT_TOKENS : string := "gen_ai.usage.input_tokens".
Definition USAGE_OUTPUT_TOKENS : string := "gen_ai.usage.output_tokens".
Definition RESPONSE_FINISH_REASON : string := "gen_ai.response.finish_reason".
Definition AGENT_NAME : string := "gen_ai.agent.name".
Definition AGENT_ID : string := "gen_ai.agent.id".
Definition TOOL_NAME : string := "agnosai.tool.name".
Definition CREW_ID : string := "agnosai.crew.id".
Definition CREW_NAME : string := "agnosai.crew.name".
Definition TASK_ID : string := "agnosai.task.id".
Definition REQUEST_TEMPERATURE : string := "gen_ai.request.temperature".
Definition REQUEST_MAX_TOKENS : string := "gen_ai.request.max_tokens".

Inductive FieldValue := FStr (s : string) | FU64 (n : N) | FEmpty.
(** A span: its name and the fields it was declared with. *)
Record Span := mkSpan { span_name : string; fields : list (string * FieldValue) }.

(** [Span::record]: a field that was not declared is ignored. *)
Definition record (k : string) (v : FieldValue) (s : Span) : Span :=
  mkSpan (span_name s) (map (fun kv => if String.eqb kv.1 k then (kv.1, v) else kv) (fields s)).
Definition field (s : Span) (k : string) : option FieldValue :=
  snd <$> List.find (fun kv => String.eqb kv.1 k) (fields s).

Definition inference_span (model system agent_name task_id : string) : Span :=
  mkSpan "gen_ai.invoke_agent"
    [(OPERATION_NAME, FStr "invoke_agent"); (SYSTEM, FStr system); (REQUEST_MODEL, FStr model);
     (AGENT_NAME, FStr agent_name); (TASK_ID, FStr task_id); (USAGE_INPUT_TOKENS, FEmpty);
     (USAGE_OUTPUT_TOKENS, FEmpty); (RESPONSE_MODEL, FEmpty)].
Definition record_usage (s : Span) (input_tokens output_tokens : N) (model : string) : Span :=
  record RESPONSE_MODEL (FStr model) (record USAGE_OUTPUT_TOKENS (FU64 output_tokens)
    (record USAGE_INPUT_TOKENS (FU64 input_tokens) s)).
Definition tool_span (tool_name agent_name task_id : string) : Span :=
  mkSpan "gen_ai.execute_tool"
    [(OPERATION_NAME, FStr "execute_tool"); (TOOL_NAME, FStr tool_name); (AGENT_NAME, FStr agent_name);
     (TASK_ID, FStr task_id)].
Definition crew_span (crew_id crew_name : string) (task_count : N) : Span :=
  mkSpan "agnosai.crew.run"
    [(CREW_ID, FStr crew_id); (CREW_NAME, FStr crew_name); ("agnosai.crew.task_count", FU64 task_count)].

(** ** telemetry/mod.rs *)

Definition DEFAULT_SERVICE_NAME : string := "agnosai".

(** [Guard]: the exporter's guard, kept alive by the caller. *)
Record TracingGuard (Guard : Type) := mkTracingGuard { otel : option Guard }.
Arguments mkTracingGuard {Guard}. Arguments otel {Guard}.

Section init.
Context {Guard Layer : Type} (var : string -> option string).
(** [init_otel]: the exporter for an endpoint and a service name; [layer]: its
    layer, given out once; [set_global]: installing the subscriber, which fails
    when there is one already. *)
Context (init_otel : string -> string -> Result Guard string) (layer : Guard -> option Layer).
Context (set_global : option Layer -> Result unit string).

Definition service_name : string := default DEFAULT_SERVICE_NAME (var "OTEL_SERVICE_NAME").

Definition init_tracing (otlp_endpoint : option string) : Result (TracingGuard Guard) string :=
  match otlp_endpoint with
  | Some endpoint =>
      match init_otel endpoint service_name with
      | Err e => Err e
      | Ok guard =>
          match layer guard with
          | None => Err "OtelGuard layer already taken — init_tracing called twice?"
          | Some l =>
              match set_global (Some l) with
              | Err e => Err e
              | Ok _ => Ok (mkTracingGuard (Some guard))
              end
          end
      end
  | None =>
      match set_global None with
      | Err e => Err e
      | Ok _ => Ok (mkTracingGuard None)
      end
  end.

Definition otlp_endpoint_from_env : option string :=
  match var "OTEL_EXPORTER_OTLP_ENDPOINT" with
  | Some s => if (String.length s =? 0)%nat then None else Some s
  | None => None
  end.

(** An exporter is kept alive exactly when a non-empty endpoint is configured. *)
Lemma exporter_iff_endpoint g :
  init_tracing otlp_endpoint_from_env = Ok g ->
  is_Some (otel g) <-> exists e, var "OTEL_EXPORTER_OTLP_ENDPOINT" = Some e /\ e <> "".
Proof.
  unfold otlp_endpoint_from_env, init_tracing. destruct (var "OTEL_EXPORTER_OTLP_ENDPOINT") as [e|].
  - destruct (Nat.eqb_spec (String.length e) 0) as [Hz|Hz].
    + destruct (set_global None); [|done]. intros [= <-]. split; [by intros [? ?]|].
      intros (? & [= <-] & ?). by destruct e.
    + destruct (init_otel e service_name) as [gd|]; [|done]. destruct (layer gd) as [l|]; [|done].
      destruct (set_global (Some l)); [|done]. intros [= <-]. split; [|by eexists].
      intros _. exists e. split; [done|]. by intros ->.
  - destruct (set_global None); [|done]. intros [= <-]. split; [by intros [? ?]|]. by intros (? & ? & _).
Qed.
End init.

(** ** A scraper reads the counters back *)

Definition u64_bound : N := 2 ^ 64 - 1.
(** The value on the line of a metric. *)
Definition scrape (nm text : string) : option N :=
  line ← List.find (starts_with (nm ++ " ")) (str_split newline text);
  parse_digits u64_bound 0 (str_drop (S (String.length nm)) line).

Lemma foldl_writeln out lines : foldl writeln out lines = out ++ foldl writeln "" lines.
Proof.
  revert out. induction lines as [|l lines IH]; intros out; cbn [foldl]; [by rewrite str_app_nil_r|].
  rewrite IH, (IH (writeln "" l)). unfold writeln. by rewrite !str_app_assoc.
Qed.

(** Lines without a newline inside come back as they were written. *)
Lemma split_writeln lines :
  Forall (fun l => has_char newline l = false) lines -> str_split newline (foldl writeln "" lines) = (lines ++ [""])%list.
Proof.
  induction 1 as [|l lines Hl _ IH]; [done|]. cbn [foldl app]. rewrite foldl_writeln. unfold writeln at 1.
  change ("" ++ l ++ String newline "") with (l ++ String newline ""). rewrite str_app_assoc.
  change (String newline "" ++ ?r) with (String newline r). rewrite str_split_app by done. by rewrite IH.
Qed.

Lemma has_char_app c a b : has_char c (a ++ b) = has_char c a || has_char c b.
Proof. induction a as [|d a IH]; [done|]. cbn [has_char String.append]. by rewrite IH, orb_assoc. Qed.

Lemma gather_lines_plain fmt6 m :
  has_char newline (fmt6 (inference_cost_usd m)) = false ->
  Forall (fun l => has_char newline l = false) (gather_lines fmt6 m).
Proof.
  intros Hf. unfold gather_lines, metric_lines. cbn [app].
  repeat (apply Forall_cons; split); [..|by apply Forall_nil]; rewrite ?has_char_app;
    rewrite ?(has_char_pretty newline _ eq_refl), ?Hf; reflexivity.
Qed.

Lemma prefix_nil s : String.prefix "" s = true.
Proof. by destruct s. Qed.

(** What [gather] writes, a scraper reads: each of the five integer counters
    of the Prometheus text is found under its name with the value of the counter,
    whatever the counters are, in particular no name hides another. *)
Theorem metrics_text_roundtrip fmt6 m :
  has_char newline (fmt6 (inference_cost_usd m)) = false ->
  Forall (fun n => (n <= u64_bound)%N)
    [crews_total m; crews_active m; tasks_completed m; tasks_failed m; inference_tokens_total m] ->
  scrape "agnosai_crews_total" (gather fmt6 m) = Some (crews_total m) /\
  scrape "agnosai_crews_active" (gather fmt6 m) = Some (crews_active m) /\
  scrape "agnosai_tasks_completed_total" (gather fmt6 m) = Some (tasks_completed m) /\
  scrape "agnosai_tasks_failed_total" (gather fmt6 m) = Some (tasks_failed m) /\
  scrape "agnosai_inference_tokens_total" (gather fmt6 m) = Some (inference_tokens_total m).
Proof.
  intros Hf Hb. rewrite !Forall_cons in Hb. destruct Hb as (? & ? & ? & ? & ? & _).
  unfold scrape, gather. rewrite split_writeln by (by apply gather_lines_plain).
  split_and!; unfold gather_lines, metric_lines; cbn -[parse_digits pretty u64_bound];
    rewrite prefix_nil; by apply parse_digits_pretty.
Qed.

Lemma metrics_text_roundtrip_witness :
  scrape "agnosai_tasks_failed_total" (gather (fun _ => "0.000000") (mkAgnosMetrics 3 1 7 2 900 0)) = Some 2%N.
Proof.
  apply (metrics_text_roundtrip (fun _ => "0.000000") (mkAgnosMetrics 3 1 7 2 900 0)); [reflexivity|].
  repeat constructor; vm_compute; congruence.
Defined.

(** ** Late recording *)

Lemma field_record_ne k k' v s : k <> k' -> field (record k v s) k' = field s k'.
Proof.
  intros Hne. unfold field, record. cbn [fields]. induction (fields s) as [|kv l IH]; [done|]. cbn [map List.find].
  destruct (String.eqb_spec kv.1 k) as [E|]; cbn [fst].
  - destruct (String.eqb_spec kv.1 k') as [E'|]; [|done]. by rewrite <-E, <-E' in Hne.
  - by destruct (String.eqb kv.1 k').
Qed.

(** Token usage lands on an inference span in the three fields left empty,
    and nowhere else. *)
Lemma usage_recorded model system agent task i o used :
  let s := record_usage (inference_span model system agent task) i o used in
  field s USAGE_INPUT_TOKENS = Some (FU64 i) /\ field s USAGE_OUTPUT_TOKENS = Some (FU64 o) /\
  field s RESPONSE_MODEL = Some (FStr used) /\
  (forall k, k ∉ [USAGE_INPUT_TOKENS; USAGE_OUTPUT_TOKENS; RESPONSE_MODEL] ->
     field s k = field (inference_span model system agent task) k).
Proof.
  intros s. split_and!; [done..|]. intros k Hk. subst s. unfold record_usage.
  rewrite !field_record_ne; [done|intros E; apply Hk; rewrite <-E; rewrite !elem_of_cons; tauto..].
Qed.

(** On a tool span the usage is dropped without a word. *)
Example usage_dropped_on_tool_span t a k i o m : record_usage (tool_span t a k) i o m = tool_span t a k.
Proof. reflexivity. Qed.
