(* ===== verification/Testing.v ===== *)
(** * Running the repository's tests on the model

    The unit tests of the Rust sources, translated assertion by assertion, are in
    the files that end in Tests; each test is a boolean over the definitions of the
    model and every suite is checked by evaluation. A test that sleeps moves the
    clock it passes to the operations; a test that asks for a fresh id gets a
    literal. This file holds their notations. *)

From S2P Require Import Prelude.
From S2P Require Import F64.
From Stdlib Require Import Ascii String SpecFloat.
From stdpp Require Import base strings numbers list.

Declare Scope test_scope.
Delimit Scope test_scope with test.

(** [assert_eq!] and [assert_ne!]. *)
Notation "x ==? y" := (bool_decide (x = y)) (at level 70, no associativity) : test_scope.
Notation "x <>? y" := (negb (bool_decide (x = y))) (at level 70, no associativity) : test_scope.

(** [unwrap] of an option, and the absence of a panic. *)
Notation "'let?' p ':=' e 'in' k" := (match e with Some p => k | _ => false end)
  (at level 10, p pattern, k at level 200) : test_scope.
(** [unwrap] of a result. *)
Notation "'let!' p ':=' e 'in' k" := (match e with Ok p => k | _ => false end)
  (at level 10, p pattern, k at level 200) : test_scope.
(** [unwrap_err]. *)
Notation "'let-' p ':=' e 'in' k" := (match e with Err p => k | _ => false end)
  (at level 10, p pattern, k at level 200) : test_scope.

Definition is_some {A} (o : option A) : bool := match o with Some _ => true | None => false end.
Definition is_none {A} (o : option A) : bool := negb (is_some o).
Definition is_ok {A E} (r : Result A E) : bool := match r with Ok _ => true | Err _ => false end.
Definition is_err {A E} (r : Result A E) : bool := negb (is_ok r).

(** [x == y] on doubles. *)
Definition f64_same (x y : f64) : bool := SFeqb x y.
(** [(x - y).abs() < n / d]; the quotient is the double nearest to the literal. *)
Definition f64_close (x y : f64) (n d : N) : bool := f64_lt (f64_abs (f64_sub x y)) (f64_lit n d).
Definition f64_close9 (x y : f64) : bool := f64_close x y 1 1000000000.
(** [f64::EPSILON] is 2^-52. *)
Definition f64_epsilon_close (x y : f64) : bool := f64_close x y 1 4503599627370496.

Definition all_pass (l : list bool) : bool := forallb id l.

(** A literal with apostrophes for its double quotes. *)
Definition quotes (s : string) : string :=
  string_of_list_ascii (map (fun c => if Ascii.eqb c "'"%char then Ascii.ascii_of_nat 34 else c) (list_ascii_of_string s)).
