(* ===== verification/FleetTests.v ===== *)
(** * The tests of src/rust-old/src/fleet/ on the model *)

From S2P Require Import Prelude.
From S2P Require Import F64.
From S2P Require Import Resource.
From S2P Require Import Core.
From S2P Require Import Registry.
From S2P Require Import Placement.
From S2P Require Import FleetState.
From S2P Require Import Coordinator.
From S2P Require Import Testing.
From stdpp Require Import base gmap fin_maps fin_sets strings numbers list.

Local Open Scope test_scope.
Local Open Scope N_scope.
Local Open Scope string_scope.

#[local] Instance info_iter : HashIter string NodeInfo := canonical_iter.
#[local] Instance run_iter : HashIter Uuid DistributedCrewState := canonical_iter.
#[local] Instance task_iter : HashIter Uuid FleetTask := canonical_iter.
#[local] Instance count_iter : HashIter string N := canonical_iter.
#[local] Instance progress_iter : HashIter string NodeProgress := canonical_iter.

(** ** fleet/placement.rs *)

Definition make_request (p : PlacementPolicy) : PlacementRequest := mkPlacementRequest p false 0 [] None None.
Definition gpu_node (id : string) (vram : N) : NodeInfo := NodeInfo_new id 1 vram 0 0.
Definition cpu_node (id : string) : NodeInfo := NodeInfo_new id 0 0 0 0.

Definition gpu_affinity_picks_most_vram : bool :=
  let? result := place (make_request GpuAffinity) [gpu_node "a" 8000; gpu_node "b" 24000; gpu_node "c" 16000] in
  placed_node result ==? "b".

Definition gpu_affinity_excludes_non_gpu_when_required : bool :=
  let nodes := [cpu_node "cpu-only"; gpu_node "gpu-box" 8000] in
  let req := mkPlacementRequest GpuAffinity true 0 [] None None in
  (let? result := place req nodes in placed_node result ==? "gpu-box") &&
  forallb (fun r => placed_node r <>? "cpu-only") (rank_nodes req nodes).

Definition balanced_distributes_across_nodes : bool :=
  match rank_nodes (make_request Balanced) [cpu_node "a"; cpu_node "b"; cpu_node "c"] with
  | [r0; r1; r2] =>
      (placed_node r0 ==? "a") && f64_gt (placed_score r0) (placed_score r1) &&
      f64_gt (placed_score r1) (placed_score r2)
  | _ => false
  end.

Definition locality_matches_capabilities : bool :=
  let nodes := [with_node_capabilities (cpu_node "a") ["python"; "docker"];
                with_node_capabilities (cpu_node "b") ["python"]; with_node_capabilities (cpu_node "c") ["rust"]] in
  let? result := place (mkPlacementRequest Locality false 0 ["python"; "docker"] None None) nodes in
  (placed_node result ==? "a") && f64_epsilon_close (placed_score result) f64_one.

Definition cost_picks_smallest_node : bool :=
  let? result := place (make_request Cost) [gpu_node "big" 48000; cpu_node "tiny"; gpu_node "medium" 16000] in
  placed_node result ==? "tiny".

Definition manual_returns_preferred_node : bool :=
  let? result := place (mkPlacementRequest Manual false 0 [] (Some "target") None)
                   [cpu_node "a"; cpu_node "target"] in
  placed_node result ==? "target".

Definition manual_returns_none_if_offline : bool :=
  is_none (place (mkPlacementRequest Manual false 0 [] (Some "target") None)
             [set_node_status Offline (cpu_node "target")]).

Definition no_online_nodes_returns_none : bool :=
  is_none (place (make_request Balanced)
             [set_node_status Offline (cpu_node "a"); set_node_status Draining (cpu_node "b")]).

Definition rank_nodes_returns_sorted : bool :=
  match rank_nodes (make_request GpuAffinity)
          [gpu_node "small" 4000; gpu_node "big" 48000; gpu_node "medium" 16000] with
  | [r0; r1; r2] =>
      (placed_node r0 ==? "big") && (placed_node r1 ==? "medium") && (placed_node r2 ==? "small") &&
      f64_ge (placed_score r0) (placed_score r1) && f64_ge (placed_score r1) (placed_score r2)
  | _ => false
  end.

Definition hardware_cuda_requirement_filters_nodes : bool :=
  let inventory := mkHardwareInventory 16 65536 [mkComputeDevice 0 "A100" Cuda 81920 81920] in
  let nodes := [cpu_node "cpu-only"; with_node_hardware (gpu_node "cuda-box" 81920) inventory] in
  let req := mkPlacementRequest Balanced false 0 [] None (Some (mkHardwareRequirement [Cuda] 40960 1 0 None)) in
  (let? result := place req nodes in placed_node result ==? "cuda-box") &&
  (length (rank_nodes req nodes) ==? 1%nat).

Definition hardware_tpu_requirement_returns_none_when_no_tpu : bool :=
  is_none (place (mkPlacementRequest Balanced false 0 [] None (Some (mkHardwareRequirement [Tpu] 0 1 0 None)))
             [gpu_node "gpu-1" 24000; cpu_node "cpu-1"]).

Definition no_hardware_requirement_backward_compat : bool :=
  let? result := place (mkPlacementRequest GpuAffinity true 8000 [] None None)
                   [gpu_node "gpu-box" 16000; cpu_node "cpu-only"] in
  placed_node result ==? "gpu-box".

Example placement_tests_pass :
  all_pass [gpu_affinity_picks_most_vram; gpu_affinity_excludes_non_gpu_when_required;
    balanced_distributes_across_nodes; locality_matches_capabilities; cost_picks_smallest_node;
    manual_returns_preferred_node; manual_returns_none_if_offline; no_online_nodes_returns_none;
    rank_nodes_returns_sorted; hardware_cuda_requirement_filters_nodes;
    hardware_tpu_requirement_returns_none_when_no_tpu; no_hardware_requirement_backward_compat] = true.
Proof. vm_compute. reflexivity. Qed.

(** ** fleet/registry.rs *)

Definition register_and_retrieve : bool :=
  let (id, reg) := register NodeRegistry_new "u1" 0 0 "node-1" "10.0.0.1:8080" 2 16384 ["inference"] in
  let? info := get reg id in
  (hostname info ==? "node-1") && (address info ==? "10.0.0.1:8080") && (gpu_count info ==? 2) &&
  (gpu_vram_mb info ==? 16384) && (capabilities info ==? ["inference"]) && (node_status info ==? Online).

Definition heartbeat_updates_timestamp : bool :=
  let (id, reg) := register NodeRegistry_new "u1" 0 0 "n" "addr" 0 0 [] in
  let? before := get reg id in
  let (known, reg) := heartbeat reg (from_millis 5) 0 id in
  let? after := get reg id in
  known && (last_heartbeat_instant before <? last_heartbeat_instant after)%N.

Definition heartbeat_unknown_node_returns_false : bool := negb (heartbeat NodeRegistry_new 0 0 "nonexistent").1.

Definition status_of (reg : NodeRegistry) (id : NodeId) : option NodeStatus := node_status <$> get reg id.

Definition status_transitions : bool :=
  let (id, reg) := register (with_ttl (from_millis 50) (from_millis 500)) "u1" 0 0 "n" "a" 0 0 [] in
  let reg1 := update_statuses reg (from_millis 80) in
  let reg2 := update_statuses reg1 (from_millis 580) in
  (status_of reg id ==? Some Online) && (status_of reg1 id ==? Some Suspect) && (status_of reg2 id ==? Some Offline).

Definition heartbeat_resets_to_online : bool :=
  let (id, reg) := register (with_ttl (from_millis 50) (from_millis 500)) "u1" 0 0 "n" "a" 0 0 [] in
  let reg1 := update_statuses reg (from_millis 80) in
  let (known, reg2) := heartbeat reg1 (from_millis 80) 0 id in
  (status_of reg1 id ==? Some Suspect) && known && (status_of reg2 id ==? Some Online).

Definition unregister_removes_node : bool :=
  let (id, reg) := register NodeRegistry_new "u1" 0 0 "n" "a" 0 0 [] in
  let (known, reg) := unregister reg id in
  known && is_none (get reg id) && negb (unregister reg id).1.

Definition two_nodes (reg : NodeRegistry) : NodeRegistry :=
  (register (register reg "u1" 0 0 "a" "a" 0 0 []).2 "u2" 0 0 "b" "b" 0 0 []).2.

Definition list_online_filters_correctly : bool :=
  let reg := update_statuses (two_nodes (with_ttl (from_millis 10) (from_millis 50))) (from_millis 15) in
  let reg1 := (heartbeat reg (from_millis 15) 0 "u1").2 in
  (count_online reg ==? 0%nat) && (count_online reg1 ==? 1%nat) && (map node_id (list_online reg1) ==? ["u1"]).

Definition find_by_capability_works : bool :=
  let reg := (register NodeRegistry_new "u1" 0 0 "a" "a" 1 8192 ["inference"; "training"]).2 in
  let reg := (register reg "u2" 0 0 "b" "b" 0 0 ["inference"]).2 in
  let reg := (register reg "u3" 0 0 "c" "c" 0 0 ["storage"]).2 in
  (length (find_by_capability reg "inference") ==? 2%nat) &&
  (length (find_by_capability reg "training") ==? 1%nat) && (length (find_by_capability reg "nonexistent") ==? 0%nat).

Definition count_and_count_online : bool :=
  let reg := with_ttl (from_millis 10) (from_millis 50) in
  let reg1 := two_nodes reg in
  let reg2 := update_statuses reg1 (from_millis 15) in
  (count reg ==? 0%nat) && (count_online reg ==? 0%nat) && (count reg1 ==? 2%nat) && (count_online reg1 ==? 2%nat) &&
  (count reg2 ==? 2%nat) && (count_online reg2 ==? 0%nat).

Definition node_info_builder_compat : bool :=
  let node := set_node_status Draining (with_node_capabilities (NodeInfo_new "test-node" 1 8192 0 0) ["python"]) in
  (node_id node ==? "test-node") && (gpu_count node ==? 1) && (gpu_vram_mb node ==? 8192) &&
  (capabilities node ==? ["python"]) && (node_status node ==? Draining) && has_gpu node.

Definition satisfies_hardware_with_inventory : bool :=
  let a100 i := mkComputeDevice i "NVIDIA A100" Cuda 81920 81920 in
  let node := with_node_hardware (NodeInfo_new "hw-node" 2 81920 0 0) (mkHardwareInventory 16 65536 [a100 0%nat; a100 1%nat]) in
  satisfies_hardware node (mkHardwareRequirement [Cuda] 40960 2 8 None) &&
  negb (satisfies_hardware node (mkHardwareRequirement [Tpu] 0 1 0 None)) &&
  satisfies_hardware node HardwareRequirement_default.

Definition node_info_default_hardware_is_empty : bool :=
  let node := NodeInfo_new "plain" 0 0 0 0 in
  (length (devices (node_hardware node)) ==? 0%nat) && (cpu_cores (node_hardware node) ==? 0).

Definition unregister_decrements_count : bool :=
  let reg := two_nodes NodeRegistry_new in
  let (known, reg1) := unregister reg "u1" in
  (count reg ==? 2%nat) && known && (count reg1 ==? 1%nat) && is_some (get reg1 "u2").

Definition unregister_nonexistent_returns_false : bool :=
  let (known, reg) := unregister NodeRegistry_new "ghost" in negb known && (count reg ==? 0%nat).

Definition heartbeat_updates_last_seen_chrono : bool :=
  let (id, reg) := register NodeRegistry_new "u1" 0 0 "n" "addr" 0 0 [] in
  let? before := get reg id in
  let? after := get (heartbeat reg (from_millis 10) 10 id).2 id in
  (last_heartbeat before <=? last_heartbeat after)%Z.

Definition find_by_capability_excludes_offline_nodes : bool :=
  let reg := (register (with_ttl (from_millis 10) (from_millis 50)) "u1" 0 0 "a" "a" 0 0 ["inference"]).2 in
  (length (find_by_capability reg "inference") ==? 1%nat) &&
  (length (find_by_capability (update_statuses reg (from_millis 15)) "inference") ==? 0%nat).

Definition list_vs_list_online_after_transitions : bool :=
  let reg := two_nodes (with_ttl (from_millis 10) (from_millis 50)) in
  let reg1 := (heartbeat (update_statuses reg (from_millis 15)) (from_millis 15) 0 "u1").2 in
  (length (list_nodes reg) ==? 2%nat) && (length (list_online reg) ==? 2%nat) &&
  (length (list_nodes reg1) ==? 2%nat) && (map node_id (list_online reg1) ==? ["u1"]).

Definition count_online_accuracy_with_mixed_statuses : bool :=
  let reg := (register (two_nodes NodeRegistry_new) "u3" 0 0 "c" "c" 0 0 []).2 in
  let reg1 := (unregister reg "u1").2 in
  (count_online reg ==? 3%nat) && (count reg1 ==? 2%nat) && (count_online reg1 ==? 2%nat).

Definition register_duplicate_hostname_creates_separate_entries : bool :=
  let (id1, reg) := register NodeRegistry_new "u1" 0 0 "same-host" "a:80" 1 1024 ["gpu"] in
  let (id2, reg) := register reg "u2" 0 0 "same-host" "b:80" 2 2048 ["cpu"] in
  let? n1 := get reg id1 in
  let? n2 := get reg id2 in
  (count reg ==? 2%nat) && (hostname n1 ==? "same-host") && (hostname n2 ==? "same-host") &&
  (gpu_count n1 ==? 1) && (gpu_count n2 ==? 2).

Definition default_registry_has_zero_nodes : bool :=
  let reg := NodeRegistry_new in
  (count reg ==? 0%nat) && (count_online reg ==? 0%nat) && (length (list_nodes reg) ==? 0%nat) &&
  (length (list_online reg) ==? 0%nat).

Example registry_tests_pass :
  all_pass [register_and_retrieve; heartbeat_updates_timestamp; heartbeat_unknown_node_returns_false;
    status_transitions; heartbeat_resets_to_online; unregister_removes_node; list_online_filters_correctly;
    find_by_capability_works; count_and_count_online; node_info_builder_compat; satisfies_hardware_with_inventory;
    node_info_default_hardware_is_empty; unregister_decrements_count; unregister_nonexistent_returns_false;
    heartbeat_updates_last_seen_chrono; find_by_capability_excludes_offline_nodes;
    list_vs_list_online_after_transitions; count_online_accuracy_with_mixed_statuses;
    register_duplicate_hostname_creates_separate_entries; default_registry_has_zero_nodes] = true.
Proof. vm_compute. reflexivity. Qed.

(** ** fleet/coordinator.rs *)

Definition make_tasks (n : nat) : list (Uuid * string) := map (fun i => (N.of_nat i, "task")) (seq 0 n).

(** [fan_out] of [n] tasks, the ids being 0, 1, ... *)
Definition fanned_out (c : FleetCoordinator) (n : nat) (assignments : list (Uuid * NodeId)) : FleetCoordinator :=
  (fan_out c 100 0 (make_tasks n) assignments).2.
Definition status_is (c : FleetCoordinator) (id : Uuid) (st : FleetTaskStatus) : bool :=
  let? t := fleet_tasks c !! id in ft_status t ==? st.
Definition is_retry (a : FailoverAction) : bool := match a with Retry => true | _ => false end.
Definition is_exhausted (a : FailoverAction) : bool := match a with Exhausted => true | _ => false end.
Definition is_unknown_task (a : FailoverAction) : bool := match a with UnknownTask => true | _ => false end.

Definition fan_out_creates_tasks_with_assignments : bool :=
  let coord := fanned_out FleetCoordinator_new 3 [(0, "node-a"); (1, "node-b"); (2, "node-a")]%N in
  (size (fleet_tasks coord) ==? 3%nat) &&
  forallb (fun task => let? t := fleet_tasks coord !! task.1 in
                       (ft_status t ==? FAssigned) && is_some (assigned_node t)) (make_tasks 3).

Definition task_completed_transitions : bool :=
  let (known, coord) := task_completed (fanned_out FleetCoordinator_new 1 [(0, "n")]%N) 0 in
  known && status_is coord 0 FCompleted.

Definition task_completed_unknown : bool := negb (task_completed FleetCoordinator_new 7).1.

Definition task_failed_with_retries_returns_retry : bool :=
  let (a, coord) := task_failed (fanned_out (with_max_retries 3) 1 [(0, "n")]%N) 0 in
  is_retry a && status_is coord 0 FReassigned.

Definition task_failed_exhausted_after_max_retries : bool :=
  let (a1, coord) := task_failed (fanned_out (with_max_retries 2) 1 [(0, "n")]%N) 0 in
  let (a2, coord) := task_failed coord 0 in
  is_retry a1 && is_exhausted a2 && status_is coord 0 FFailed.

Definition task_failed_unknown : bool := is_unknown_task (task_failed FleetCoordinator_new 7).1.

Definition tasks_for_node_filters : bool :=
  let coord := fanned_out FleetCoordinator_new 3 [(0, "a"); (1, "b"); (2, "a")]%N in
  (length (tasks_for_node coord "a") ==? 2%nat) && (length (tasks_for_node coord "b") ==? 1%nat) &&
  (length (tasks_for_node coord "c") ==? 0%nat).

Definition is_complete_all_done : bool :=
  let coord := fanned_out FleetCoordinator_new 2 [(0, "n"); (1, "n")]%N in
  let coord1 := (task_completed coord 0).2 in
  let coord2 := (task_completed coord1 1).2 in
  negb (is_complete coord) && negb (is_complete coord1) && is_complete coord2.

Definition is_complete_with_terminal_failure : bool :=
  let coord := fanned_out (with_max_retries 1) 2 [(0, "n"); (1, "n")]%N in
  is_complete (task_failed (task_completed coord 0).2 1).2.

Definition completion_pct_calculation : bool :=
  let coord := fanned_out FleetCoordinator_new 4 [(0, "n"); (1, "n"); (2, "n"); (3, "n")]%N in
  let coord1 := (task_completed coord 0).2 in
  let coord2 := (task_completed (task_completed (task_completed coord1 1).2 2).2 3).2 in
  f64_close9 (completion_pct coord) f64_zero &&
  f64_close9 (completion_pct coord1) (f64_lit 1 4) &&
  f64_close9 (completion_pct coord2) f64_one.

Definition pending_reassignment_lists_retriable : bool :=
  let coord := fanned_out (with_max_retries 3) 3 [(0, "n"); (1, "n"); (2, "n")]%N in
  let coord := (task_completed (task_failed coord 0).2 1).2 in
  map ft_task_id (pending_reassignment coord) ==? [0%N].

Definition reassign_moves_task : bool :=
  let coord := (task_failed (fanned_out (with_max_retries 3) 1 [(0, "old")]%N) 0).2 in
  let (known, coord) := reassign coord 0 "new" in
  let? t := fleet_tasks coord !! 0%N in
  known && (assigned_node t ==? Some "new") && (ft_status t ==? FAssigned).

Definition reassign_unknown_task : bool := negb (reassign FleetCoordinator_new 7 "n").1.

Example coordinator_tests_pass :
  all_pass [fan_out_creates_tasks_with_assignments; task_completed_transitions; task_completed_unknown;
    task_failed_with_retries_returns_retry; task_failed_exhausted_after_max_retries; task_failed_unknown;
    tasks_for_node_filters; is_complete_all_done; is_complete_with_terminal_failure; completion_pct_calculation;
    pending_reassignment_lists_retriable; reassign_moves_task; reassign_unknown_task] = true.
Proof. vm_compute. reflexivity. Qed.

(** ** fleet/topology.rs *)

Definition gpu_inventory (n : nat) : HardwareInventory :=
  mkHardwareInventory 16 64000 (map (fun i => mkComputeDevice i "GPU" Cuda 80000 80000) (seq 0 n)).
Definition nvlink (a b : nat) : DeviceLink := mkDeviceLink a b NvLink (f64_of_N 600).

Definition single_gpu_scores_perfectly : bool := f64_same (topology_score (mkNodeTopology []) (gpu_inventory 1)) f64_one.
Definition no_links_scores_zero : bool := f64_same (topology_score (mkNodeTopology []) (gpu_inventory 4)) f64_zero.
Definition full_nvlink_scores_one : bool :=
  f64_same (topology_score (mkNodeTopology [nvlink 0 1; nvlink 0 2; nvlink 0 3; nvlink 1 2; nvlink 1 3; nvlink 2 3])
    (gpu_inventory 4)) f64_one.
Definition partial_links_partial_score : bool :=
  let score := topology_score (mkNodeTopology [nvlink 0 1]) (gpu_inventory 4) in
  f64_gt score f64_zero && f64_lt score f64_one.
Definition tensor_parallel_single_device : bool := supports_tensor_parallel (mkNodeTopology []) 1.
Definition tensor_parallel_needs_links : bool :=
  supports_tensor_parallel (mkNodeTopology [nvlink 0 1; nvlink 1 2; nvlink 2 3]) 4 &&
  negb (supports_tensor_parallel (mkNodeTopology []) 4).

Example topology_tests_pass :
  all_pass [single_gpu_scores_perfectly; no_links_scores_zero; full_nvlink_scores_one;
    partial_links_partial_score; tensor_parallel_single_device; tensor_parallel_needs_links] = true.
Proof. vm_compute. reflexivity. Qed.

(** ** fleet/state.rs *)

#[local] Instance barrier_iter : HashIter string (gset string) := canonical_iter.

Definition nodes_of (ids : list string) : gset NodeId := list_to_set ids.
Definition run_with (ids : list string) (k : N) : Uuid * CrewStateManager :=
  create_run CrewStateManager_new 1 0 (nodes_of ids) k.
Definition phase_is (m : CrewStateManager) (id : Uuid) (p : CrewPhase) : bool :=
  let? s := get_run m id in phase s ==? p.
Definition is_waiting_for (r : BarrierResult) (n : nat) : bool := match r with Waiting k => k ==? n | _ => false end.
Definition is_all_reached (r : BarrierResult) : bool := match r with AllReached => true | _ => false end.

Definition create_run_initial_state : bool :=
  let (run, mgr) := run_with ["a"; "b"] 5 in
  let? state := get_run mgr run in
  let? p := node_progress state !! "a" in
  (phase state ==? Initializing) && (size (participating_nodes state) ==? 2%nat) &&
  (size (node_progress state) ==? 2%nat) && (tasks_total p ==? 5%N) && (tasks_completed p ==? 0%N) &&
  (length (checkpoints state) ==? 0%nat).

Definition report_progress_updates_node : bool :=
  let (run, mgr) := run_with ["a"] 10 in
  let (known, mgr) := report_progress mgr 1 run "a" 3 (Some "task-1") in
  let? state := get_run mgr run in
  let? p := node_progress state !! "a" in
  known && (phase state ==? PhRunning) && (tasks_completed p ==? 3%N) && (current_task p ==? Some "task-1").

Definition report_progress_unknown_run : bool := negb (report_progress CrewStateManager_new 0 9 "a" 1 None).1.
Definition report_progress_unknown_node : bool :=
  let (run, mgr) := run_with ["a"] 5 in negb (report_progress mgr 0 run "z" 1 None).1.

Definition barrier_first_node_waits : bool :=
  let (run, mgr) := run_with ["a"; "b"] 5 in is_waiting_for (reach_barrier mgr 0 run "a" "sync-1").1 1.
Definition barrier_last_node_triggers_all_reached : bool :=
  let (run, mgr) := run_with ["a"; "b"] 5 in
  is_all_reached (reach_barrier (reach_barrier mgr 0 run "a" "sync-1").2 0 run "b" "sync-1").1.
Definition barrier_three_nodes_progressive : bool :=
  let (run, mgr) := run_with ["a"; "b"; "c"] 5 in
  let (r1, mgr) := reach_barrier mgr 0 run "a" "sync" in
  let (r2, mgr) := reach_barrier mgr 0 run "b" "sync" in
  let (r3, mgr) := reach_barrier mgr 0 run "c" "sync" in
  is_waiting_for r1 2 && is_waiting_for r2 1 && is_all_reached r3.
Definition barrier_unknown_run : bool :=
  match (reach_barrier CrewStateManager_new 0 9 "a" "x").1 with UnknownRun => true | _ => false end.
Definition barrier_unknown_node : bool :=
  let (run, mgr) := run_with ["a"] 5 in
  match (reach_barrier mgr 0 run "z" "x").1 with UnknownNode => true | _ => false end.

Definition checkpoint_stores_node_states : bool :=
  let (run, mgr) := run_with ["a"] 5 in
  let (known, mgr) := checkpoint mgr 0 run "cp-1" {["a" := Obj [("step", Num (PosInt 3))]]} in
  let? state := get_run mgr run in
  match checkpoints state with
  | [cp] => known && (ck_name cp ==? "cp-1") &&
      (let? v := node_states cp !! "a" in let? n := json_get v "step" in let? n := as_u64 n in n ==? 3%N)
  | _ => false
  end.
Definition checkpoint_unknown_run : bool := negb (checkpoint CrewStateManager_new 0 9 "cp" ∅).1.

Definition complete_transition : bool :=
  let (run, mgr) := run_with ["a"] 5 in
  let (known, mgr) := FleetState.complete mgr 0 run in known && phase_is mgr run PhCompleted.
Definition fail_transition : bool :=
  let (run, mgr) := run_with ["a"] 5 in
  let (known, mgr) := fail mgr 0 run "oom" in known && phase_is mgr run (PhFailed "oom").
Definition cancel_transition : bool :=
  let (run, mgr) := run_with ["a"] 5 in
  let (known, mgr) := FleetState.cancel mgr 0 run in known && phase_is mgr run PhCancelled.

Definition active_runs_excludes_terminal : bool :=
  let mgr := (create_run CrewStateManager_new 1 0 (nodes_of ["a"]) 5).2 in
  let mgr := (create_run mgr 2 0 (nodes_of ["b"]) 5).2 in
  let mgr := (create_run mgr 3 0 (nodes_of ["c"]) 5).2 in
  active_runs (FleetState.fail (FleetState.complete mgr 0 1).2 0 2 "err").2 ==? [3%N].

Definition overall_progress_calculation : bool :=
  let (run, mgr) := run_with ["a"; "b"] 10 in
  let mgr1 := (report_progress mgr 0 run "a" 5 None).2 in
  let mgr2 := (report_progress (report_progress mgr1 0 run "a" 10 None).2 0 run "b" 10 None).2 in
  (let? (Some pct) := overall_progress mgr1 run in f64_close9 pct (f64_lit 1 4)) &&
  (let? (Some pct) := overall_progress mgr2 run in f64_close9 pct f64_one).
Definition overall_progress_unknown_run : bool :=
  let? pct := overall_progress CrewStateManager_new 9 in is_none pct.

Example state_tests_pass :
  all_pass [create_run_initial_state; report_progress_updates_node; report_progress_unknown_run;
    report_progress_unknown_node; barrier_first_node_waits; barrier_last_node_triggers_all_reached;
    barrier_three_nodes_progressive; barrier_unknown_run; barrier_unknown_node; checkpoint_stores_node_states;
    checkpoint_unknown_run; complete_transition; fail_transition; cancel_transition;
    active_runs_excludes_terminal; overall_progress_calculation; overall_progress_unknown_run] = true.
Proof. vm_compute. reflexivity. Qed.
