(* ===== verification/ClusterTests.v ===== *)
(** * The tests of fleet/gpu.rs, relay.rs and federation.rs on the model *)

From S2P Require Import Prelude.
From S2P Require Import F64.
From S2P Require Import Resource.
From S2P Require Import Core.
From S2P Require Import Gpu.
From S2P Require Import Relay.
From S2P Require Import Federation.
From S2P Require Import Testing.
From stdpp Require Import base gmap fin_maps strings numbers list.

Local Open Scope test_scope.
Local Open Scope N_scope.
Local Open Scope string_scope.

#[local] Instance alloc_iter : HashIter Uuid ComputeAllocation := canonical_iter.
#[local] Instance cluster_iter : HashIter string ClusterInfo := canonical_iter.

(** ** fleet/gpu.rs *)

Definition scheduler_with_devices : ComputeScheduler :=
  add_device (add_device ComputeScheduler_new "RTX 4090" Cuda 24000) "A100" Cuda 80000.
Definition cuda_and_tpu : ComputeScheduler :=
  add_device (add_device ComputeScheduler_new "A100" Cuda 80000) "TPU v4" Tpu 32000.

Definition add_devices_and_verify : bool :=
  let s := scheduler_with_devices in
  (length (scheduler_devices s) ==? 2%nat) && (total_vram_mb s ==? Some 104000) &&
  (available_vram_mb s ==? Some 104000).

Definition allocate_on_empty_returns_none : bool :=
  let? (o, _) := allocate ComputeScheduler_new 1 1000 None in is_none o.

Definition allocate_picks_most_available_vram : bool :=
  let? (Some alloc, _) := allocate scheduler_with_devices 1 10000 None in
  (device_index alloc ==? 1%nat) && (memory_mb alloc ==? 10000).

Definition allocate_reduces_available_vram : bool :=
  let? (Some _, s) := allocate scheduler_with_devices 1 10000 None in available_vram_mb s ==? Some 94000.

Definition allocate_fails_when_insufficient_vram : bool :=
  let? (o, _) := allocate scheduler_with_devices 1 100000 None in is_none o.

Definition release_restores_vram : bool :=
  let? (Some _, s) := allocate scheduler_with_devices 1 20000 None in
  let? (known, s1) := release s 1 in
  let? (again, _) := release s1 1 in
  (available_vram_mb s ==? Some 84000) && known && (available_vram_mb s1 ==? Some 104000) && negb again.

Definition multiple_allocations_on_same_device : bool :=
  let? (Some a1, s) := allocate scheduler_with_devices 1 60000 None in
  let? (Some a2, s) := allocate s 2 20000 None in
  (device_index a1 ==? 1%nat) && (device_index a2 ==? 0%nat) && (length (list_allocations s) ==? 2%nat).

Definition best_device_returns_correct : bool :=
  let s := scheduler_with_devices in
  let? d := best_device s in
  let? (Some _, s) := allocate s 1 70000 None in
  let? d1 := best_device s in
  (gpu_name d ==? "A100") && (gpu_name d1 ==? "RTX 4090").

Definition add_cuda_and_tpu_devices : bool :=
  let s := cuda_and_tpu in
  (length (compute_devices s) ==? 2%nat) && (scheduler_total_memory s (Some Cuda) ==? Some 80000) &&
  (scheduler_total_memory s (Some Tpu) ==? Some 32000) && (scheduler_total_memory s None ==? Some 112000).

Definition allocate_on_specific_accelerator_type : bool :=
  let? (Some alloc, s) := allocate cuda_and_tpu 1 16000 (Some Tpu) in
  (device_index alloc ==? 1%nat) && (memory_mb alloc ==? 16000) &&
  (available_memory_mb s (Some Tpu) ==? Some 16000) && (available_memory_mb s (Some Cuda) ==? Some 80000).

Definition allocate_tpu_memory : bool :=
  let s := add_device (add_device ComputeScheduler_new "TPU v4-a" Tpu 32000) "TPU v4-b" Tpu 32000 in
  let? (Some _, s) := allocate s 1 24000 (Some Tpu) in
  let? (Some _, s) := allocate s 2 24000 (Some Tpu) in
  let? (o, _) := allocate s 3 24000 (Some Tpu) in
  (available_memory_mb s (Some Tpu) ==? Some 16000) && is_none o.

Definition mixed_devices_allocate_prefers_requested_type : bool :=
  let? (Some alloc, _) := allocate cuda_and_tpu 1 16000 (Some Tpu) in device_index alloc ==? 1%nat.

Definition devices_of_type_filters_correctly : bool :=
  let s := add_device cuda_and_tpu "A100-1" Cuda 80000 in
  let cuda := scheduler_devices_of_type s Cuda in
  (length cuda ==? 2%nat) && forallb (fun d => accelerator d ==? Cuda) cuda &&
  (map dev_name (scheduler_devices_of_type s Tpu) ==? ["TPU v4"]) &&
  (length (scheduler_devices_of_type s Rocm) ==? 0%nat).

Definition backward_compat_add_gpu : bool :=
  let s := add_gpu ComputeScheduler_new "RTX 4090" 24000 in
  let? (Some alloc, s1) := allocate s 1 10000 None in
  (map vram_total_mb (scheduler_devices s) ==? [24000]) && (total_vram_mb s ==? Some 24000) &&
  (available_vram_mb s ==? Some 24000) && (memory_mb alloc ==? 10000) && (vram_mb alloc ==? 10000) &&
  (available_vram_mb s1 ==? Some 14000).

Definition gpu_allocation_type_alias_works : bool := vram_mb (mkComputeAllocation 1 0 8000) ==? 8000.

Example gpu_tests_pass :
  all_pass [add_devices_and_verify; allocate_on_empty_returns_none; allocate_picks_most_available_vram;
    allocate_reduces_available_vram; allocate_fails_when_insufficient_vram; release_restores_vram;
    multiple_allocations_on_same_device; best_device_returns_correct; add_cuda_and_tpu_devices;
    allocate_on_specific_accelerator_type; allocate_tpu_memory; mixed_devices_allocate_prefers_requested_type;
    devices_of_type_filters_correctly; backward_compat_add_gpu; gpu_allocation_type_alias_works] = true.
Proof. vm_compute. reflexivity. Qed.

(** ** fleet/relay.rs *)

(** What a subscriber that joined at [at_] reads first. *)
Definition try_recv (r : Relay) (at_ : nat) : option IncomingMessage := tx r !! at_.

Definition send_increments_seq : bool :=
  let relay := Relay_with_defaults "node-a" in
  let (s1, relay) := send relay 0 "node-b" "task" (Obj [("id", Num (PosInt 1))]) in
  let (s2, _) := send relay 0 "node-b" "task" (Obj [("id", Num (PosInt 2))]) in
  (s1 ==? 1) && (s2 ==? 2).

Definition broadcast_uses_empty_to : bool :=
  let relay := Relay_with_defaults "node-a" in
  let rx := relay_subscribe relay in
  let? msg := try_recv (broadcast relay 0 "heartbeat" (Obj [])).2 rx in
  is_broadcast msg && (to (message msg) ==? "").

Definition receive_dedup_drops_duplicate : bool :=
  let msg := RelayMessage_new 0 1 "node-a" "node-b" "test" (Obj []) in
  let (o1, relay) := receive (Relay_with_defaults "node-b") msg in
  let (o2, relay) := receive relay msg in
  is_some o1 && is_none o2 && (messages_received (relay_stats relay) ==? 1) &&
  (duplicates_dropped (relay_stats relay) ==? 1).

Definition receive_skips_own_messages : bool :=
  is_none (receive (Relay_with_defaults "node-a") (RelayMessage_new 0 1 "node-a" "" "test" (Obj []))).1.
Definition receive_skips_messages_for_other_nodes : bool :=
  is_none (receive (Relay_with_defaults "node-b") (RelayMessage_new 0 1 "node-a" "node-c" "test" (Obj []))).1.
Definition receive_accepts_broadcast : bool :=
  let? incoming := (receive (Relay_with_defaults "node-b")
                      (RelayMessage_new 0 1 "node-a" "" "heartbeat" (Obj [("status", Str "ok")]))).1 in
  is_broadcast incoming.
Definition receive_detects_sequence_gap : bool :=
  is_some (receive (Relay_with_defaults "node-b") (RelayMessage_new 0 2 "node-a" "node-b" "test" (Obj []))).1.

Definition stats_tracking : bool :=
  let relay := (send (Relay_with_defaults "node-a") 0 "node-b" "t" (Obj [])).2 in
  let relay := (send relay 0 "node-b" "t" (Obj [])).2 in
  messages_sent (relay_stats relay) ==? 2.

Definition subscriber_receives_sent_messages : bool :=
  let relay := Relay_with_defaults "node-a" in
  let rx := relay_subscribe relay in
  let? msg := try_recv (send relay 0 "node-b" "task" (Obj [("work", Bool true)])).2 rx in
  relay_topic (message msg) ==? "task".

Example relay_tests_pass :
  all_pass [send_increments_seq; broadcast_uses_empty_to; receive_dedup_drops_duplicate;
    receive_skips_own_messages; receive_skips_messages_for_other_nodes; receive_accepts_broadcast;
    receive_detects_sequence_gap; stats_tracking; subscriber_receives_sent_messages] = true.
Proof. vm_compute. reflexivity. Qed.

(** ** fleet/federation.rs *)

Definition test_config (id : string) : FederationConfig :=
  let d := FederationConfig_default in
  mkFederationConfig id ("http://" ++ id ++ ":8080") (seeds d) (from_millis 100) (from_millis 200) (election_timeout d).
(** The tests start at one hour, so that clocks can be set back. *)
Definition t0 : Instant := from_secs 3600.
Definition manager (id : string) : FederationManager := FederationManager_new t0 (test_config id).
Definition beat (m : FederationManager) (id : string) (n : N) : FederationManager :=
  fed_heartbeat m t0 0 id ("http://" ++ id ++ ":8080") n.
(** [clusters.get_mut(id)] and a change of the entry. *)
Definition patch (m : FederationManager) (id : string) (f : ClusterInfo -> ClusterInfo) : FederationManager :=
  match clusters m !! id with Some c => set_clusters m (<[id := f c]> (clusters m)) | None => m end.
Definition backdate (d : Duration) (c : ClusterInfo) : ClusterInfo :=
  mkClusterInfo (cl_id c) (endpoint c) (cl_status c) (cl_role c) (node_count c) (cl_last_heartbeat c) (t0 - d).
Definition cluster_status_is (m : FederationManager) (id : string) (st : ClusterStatus) : bool :=
  let? c := clusters m !! id in cl_status c ==? st.
Definition cluster_role_is (m : FederationManager) (id : string) (r : FederationRole) : bool :=
  let? c := clusters m !! id in cl_role c ==? r.
(** [start_election] then [declare_coordinator]. *)
Definition elect (m : FederationManager) (t : N) (id : string) : option FederationManager :=
  match start_election true m t0 with Some (_, m) => Some (declare_coordinator m t id).2 | None => None end.

Definition heartbeat_registers_cluster : bool :=
  let fm := beat (manager "cluster-a") "cluster-b" 5 in
  (cluster_count fm ==? 1%nat) &&
  (map (fun c => (cl_id c, node_count c)) (online_clusters fm) ==? [("cluster-b", 5)]).

Definition heartbeat_updates_existing : bool :=
  let fm := beat (beat (manager "cluster-a") "cluster-b" 5) "cluster-b" 10 in
  let? b := clusters fm !! "cluster-b" in
  (cluster_count fm ==? 1%nat) && (node_count b ==? 10).

Definition check_liveness_marks_suspect_and_offline : bool :=
  let fm := beat (manager "a") "b" 1 in
  let fm1 := check_liveness (patch fm "b" (backdate (from_millis 150))) t0 in
  let fm2 := check_liveness (patch fm1 "b" (backdate (from_millis 250))) t0 in
  cluster_status_is fm1 "b" CSuspect && cluster_status_is fm2 "b" COffline.

Definition start_election_increments_term : bool :=
  let fm := manager "a" in
  let? (t1, fm1) := start_election true fm t0 in
  let? (t2, _) := start_election true fm1 t0 in
  (federation_term fm ==? 0) && (t1 ==? 1) && (federation_role fm1 ==? Candidate) && (t2 ==? 2).

Definition declare_coordinator_test : bool :=
  let? (_, fm) := start_election true (manager "a") t0 in
  let (ok, fm) := declare_coordinator fm 1 "a" in
  ok && is_coordinator fm && (coordinator fm ==? Some "a").

Definition declare_coordinator_stale_term : bool :=
  let? (_, fm) := start_election true (manager "a") t0 in
  let? (_, fm) := start_election true fm t0 in
  negb (declare_coordinator fm 1 "b").1.

Definition elect_by_lowest_id_test : bool :=
  let fm := beat (beat (manager "cluster-b") "cluster-a" 1) "cluster-c" 1 in
  let? (Some winner, fm) := elect_by_lowest_id true fm t0 in
  (winner ==? "cluster-a") && (coordinator fm ==? Some "cluster-a") && (federation_role fm ==? Follower).

Definition elect_self_when_lowest : bool :=
  let? (Some winner, fm) := elect_by_lowest_id true (beat (manager "aaa") "bbb" 1) t0 in
  (winner ==? "aaa") && is_coordinator fm.

Definition evict_offline_clusters : bool :=
  let fm := patch (beat (manager "a") "b" 1) "b" (fun c => backdate (from_secs 60) (with_cl_status COffline c)) in
  let (evicted, fm) := evict_offline fm t0 (from_secs 30) in
  (evicted ==? ["b"]) && (cluster_count fm ==? 0%nat).

Definition evict_does_not_remove_recent_offline : bool :=
  let fm := patch (beat (manager "a") "b" 1) "b" (with_cl_status COffline) in
  let (evicted, fm) := evict_offline fm t0 (from_secs 300) in
  (length evicted ==? 0%nat) && (cluster_count fm ==? 1%nat).

Definition coordinator_returns_none_initially : bool :=
  is_none (coordinator (manager "a")) && negb (is_coordinator (manager "a")).
Definition initial_role_is_follower : bool := federation_role (manager "a") ==? Follower.

Definition is_coordinator_reflects_election : bool :=
  let? fm1 := elect (manager "a") 1 "a" in
  let? fm2 := elect fm1 2 "b" in
  negb (is_coordinator (manager "a")) && is_coordinator fm1 && negb (is_coordinator fm2) &&
  (federation_role fm2 ==? Follower).

Definition role_changes_with_declare_coordinator : bool :=
  let? (_, fm) := start_election true (manager "x") t0 in
  let fm1 := (declare_coordinator fm 1 "x").2 in
  let? fm2 := elect fm1 2 "y" in
  (federation_role (manager "x") ==? Follower) && (federation_role fm ==? Candidate) &&
  (federation_role fm1 ==? Coordinator) && (federation_role fm2 ==? Follower).

Definition term_increments_with_elections : bool :=
  let? (_, fm1) := start_election true (manager "a") t0 in
  let? (_, fm2) := start_election true fm1 t0 in
  let? (_, fm3) := start_election true fm2 t0 in
  map federation_term [manager "a"; fm1; fm2; fm3] ==? [0; 1; 2; 3].

Definition clusters_and_online_clusters_filtering : bool :=
  let fm := beat (beat (manager "a") "b" 1) "c" 2 in
  let fm1 := patch fm "b" (with_cl_status COffline) in
  (length (all_clusters fm) ==? 2%nat) && (length (online_clusters fm) ==? 2%nat) &&
  (length (all_clusters fm1) ==? 2%nat) && (map cl_id (online_clusters fm1) ==? ["c"]).

Definition cluster_count_accuracy : bool :=
  let fm1 := beat (manager "a") "b" 1 in
  let fm2 := beat fm1 "c" 2 in
  map cluster_count [manager "a"; fm1; fm2; beat fm2 "b" 5] ==? [0; 1; 2; 2]%nat.

Definition evict_offline_removes_old_clusters : bool :=
  let fm := beat (beat (manager "a") "b" 1) "c" 1 in
  let fm := patch fm "b" (fun c => backdate (from_secs 120) (with_cl_status COffline c)) in
  let (evicted, fm) := evict_offline fm t0 (from_secs 60) in
  (evicted ==? ["b"]) && (cluster_count fm ==? 1%nat) && is_some (clusters fm !! "c").

Definition new_coordinator_resets_old_coordinator_role : bool :=
  let fm := beat (beat (manager "a") "b" 1) "c" 1 in
  let? fm1 := elect fm 1 "b" in
  let? fm2 := elect fm1 2 "c" in
  cluster_role_is fm1 "b" Coordinator && cluster_role_is fm1 "c" Follower &&
  cluster_role_is fm2 "b" Follower && cluster_role_is fm2 "c" Coordinator.

Example federation_tests_pass :
  all_pass [heartbeat_registers_cluster; heartbeat_updates_existing; check_liveness_marks_suspect_and_offline;
    start_election_increments_term; declare_coordinator_test; declare_coordinator_stale_term;
    elect_by_lowest_id_test; elect_self_when_lowest; evict_offline_clusters; evict_does_not_remove_recent_offline;
    coordinator_returns_none_initially; initial_role_is_follower; is_coordinator_reflects_election;
    role_changes_with_declare_coordinator; term_increments_with_elections; clusters_and_online_clusters_filtering;
    cluster_count_accuracy; evict_offline_removes_old_clusters; new_coordinator_resets_old_coordinator_role] = true.
Proof. vm_compute. reflexivity. Qed.
