(* ===== verification/OrchestratorTests.v ===== *)
(** * Tests of src/rust-old/src/orchestrator/ on the model *)

From S2P Require Import Prelude.
From S2P Require Import F64.
From S2P Require Import Resource.
From S2P Require Import Core.
From S2P Require Import Kahn.
From S2P Require Import Scheduler.
From S2P Require Import TopoTasks.
From S2P Require Import Scoring.
From S2P Require Import Text.
From S2P Require Import OutputValidation.
From S2P Require Import PubSub.
From S2P Require Import TaskExec.
From S2P Require Import Memory.
From S2P Require Import Approval.
From S2P Require Import Budget.
From S2P Require Import Testing.
From stdpp Require Import base gmap fin_maps fin_sets strings pretty numbers list.

Local Open Scope test_scope.
Local Open Scope N_scope.
Local Open Scope string_scope.

#[local] Instance task_iter : HashIter string Task := canonical_iter.
#[local] Instance degree_iter : HashIter string nat := canonical_iter.
#[local] Instance id_degree_iter : HashIter Uuid nat := canonical_iter.
#[local] Instance channel_iter : HashIter Uuid ChannelId := canonical_iter.

(** ** orchestrator/scheduler.rs *)

Definition make_task (id : Uuid) (desc : string) (p : TaskPriority) : Task := with_priority (Task_new id desc) p.

(** Keys get the ids 1, 2, ... *)
Definition make_dag (keys : list string) (es : list (string * string)) : TaskDAG * gmap string Uuid :=
  let ids := list_to_map (imap (fun i k => (k, N.of_nat (S i))) keys) in
  (mkTaskDAG (list_to_map (imap (fun i k => (k, make_task (N.of_nat (S i)) k Normal)) keys)) es Dag, ids).
Definition chain : list (string * string) := [("A", "B"); ("B", "C")].
Definition diamond : list (string * string) := [("A", "B"); ("A", "C"); ("B", "D"); ("C", "D")].
Definition is_cyclic {A} (r : option (Result A AgnosaiError)) : bool :=
  match r with Some (Err CyclicDAG) => true | _ => false end.

Definition priority_ordering : bool :=
  let s := enqueue (enqueue (enqueue Scheduler_new (make_task 1 "bg" Background)) (make_task 2 "crit" Critical))
             (make_task 3 "norm" Normal) in
  let? (Some first, s1) := Some (dequeue s) in
  let? (Some second, s2) := Some (dequeue s1) in
  let? (Some third, s3) := Some (dequeue s2) in
  (queued_len s ==? 3%nat) && (map description [first; second; third] ==? ["crit"; "norm"; "bg"]) && queues_empty s3.

Definition fifo_within_same_priority : bool :=
  let s := enqueue (enqueue Scheduler_new (make_task 1 "first" High)) (make_task 2 "second" High) in
  let? (Some first, s1) := Some (dequeue s) in
  let? (Some second, _) := Some (dequeue s1) in
  map description [first; second] ==? ["first"; "second"].

Definition topo_sort_chain : bool :=
  let? (Ok order) := topological_sort (make_dag ["A"; "B"; "C"] chain).1 in order ==? ["A"; "B"; "C"].

Definition topo_sort_diamond : bool :=
  let? (Ok order) := topological_sort (make_dag ["A"; "B"; "C"; "D"] diamond).1 in
  match order with
  | [a; x; y; d] => (a ==? "A") && (d ==? "D") && bool_decide ("B" ∈ [x; y]) && bool_decide ("C" ∈ [x; y])
  | _ => false
  end.

Definition topo_sort_cycle_detected : bool :=
  is_cyclic (topological_sort (make_dag ["A"; "B"; "C"] [("A", "B"); ("B", "C"); ("C", "A")]).1).

(** The descriptions of the ready tasks after some were completed. *)
Definition ready_after (s : Scheduler) (ids : gmap string Uuid) (done : list string) : list string :=
  map description (ready_tasks s (list_to_set (omap (fun k => ids !! k) done))).

Definition ready_tasks_chain : bool :=
  let (dag, ids) := make_dag ["A"; "B"; "C"] chain in
  let? (Ok _, s) := load_dag Scheduler_new dag in
  (ready_after s ids [] ==? ["A"]) && (ready_after s ids ["A"] ==? ["B"]) && (ready_after s ids ["A"; "B"] ==? ["C"]).

Definition ready_tasks_diamond : bool :=
  let (dag, ids) := make_dag ["A"; "B"; "C"; "D"] diamond in
  let? (Ok _, s) := load_dag Scheduler_new dag in
  let ready := ready_after s ids ["A"] in
  (length ready ==? 2%nat) && bool_decide ("B" ∈ ready) && bool_decide ("C" ∈ ready) &&
  (ready_after s ids ["A"; "B"] ==? ["C"]) && (ready_after s ids ["A"; "B"; "C"] ==? ["D"]).

Definition load_dag_rejects_cycle : bool :=
  let? (Err CyclicDAG, _) := load_dag Scheduler_new (make_dag ["X"; "Y"] [("X", "Y"); ("Y", "X")]).1 in true.

Definition ready_tasks_with_priority : bool :=
  let dag := mkTaskDAG {["hi" := make_task 1 "high" High; "lo" := make_task 2 "low" Low]} [] Dag in
  let? (Ok _, s) := load_dag Scheduler_new dag in
  map description (ready_tasks s ∅) ==? ["high"; "low"].

(** Task [i] has the id [i]; a pair is an edge from a dependency to its dependent. *)
Definition make_tasks_with_deps (n : nat) (deps : list (N * N)) : list Task :=
  map (fun i => foldl (fun t e => if bool_decide (e.2 = N.of_nat i) then with_dependency t e.1 else t)
                  (make_task (N.of_nat i) "task" Normal) deps) (seq 0 n).

Definition topo_sort_tasks_linear_chain : bool :=
  let? (Ok order) := topological_sort_tasks (make_tasks_with_deps 3 [(0, 1); (1, 2)]) in order ==? [0; 1; 2].
Definition topo_sort_tasks_diamond : bool :=
  let? (Ok order) := topological_sort_tasks (make_tasks_with_deps 4 [(0, 1); (0, 2); (1, 3); (2, 3)]) in
  match order with
  | [a; x; y; d] => (a ==? 0) && (d ==? 3) && bool_decide (1 ∈ [x; y]) && bool_decide (2 ∈ [x; y])
  | _ => false
  end.
Definition topo_sort_tasks_cycle_detected : bool :=
  is_cyclic (topological_sort_tasks (make_tasks_with_deps 3 [(0, 1); (1, 2); (2, 0)])).
Definition topo_sort_tasks_independent : bool :=
  let? (Ok order) := topological_sort_tasks (make_tasks_with_deps 3 []) in length order ==? 3%nat.
Definition topo_sort_tasks_respects_priority : bool :=
  let tasks := [make_task 0 "task-0" Background; make_task 1 "task-1" Critical; make_task 2 "task-2" Normal] in
  let? (Ok order) := topological_sort_tasks tasks in order ==? [1; 2; 0].
Definition topo_sort_tasks_single : bool :=
  let? (Ok order) := topological_sort_tasks (make_tasks_with_deps 1 []) in order ==? [0].
Definition topo_sort_tasks_empty : bool :=
  let? (Ok order) := topological_sort_tasks [] in order ==? [].

Example scheduler_tests_pass :
  all_pass [priority_ordering; fifo_within_same_priority; topo_sort_chain; topo_sort_diamond;
    topo_sort_cycle_detected; ready_tasks_chain; ready_tasks_diamond; load_dag_rejects_cycle;
    ready_tasks_with_priority; topo_sort_tasks_linear_chain; topo_sort_tasks_diamond;
    topo_sort_tasks_cycle_detected; topo_sort_tasks_independent; topo_sort_tasks_respects_priority;
    topo_sort_tasks_single; topo_sort_tasks_empty] = true.
Proof. vm_compute. reflexivity. Qed.

(** ** orchestrator/scoring.rs *)

Definition make_agent (ts : list string) (complexity : string) (domain : option string) : AgentDefinition :=
  mkAgentDefinition "test-agent" "Test Agent" "tester" "test things" None domain ts complexity None
    false false None None None.
Definition with_gpu (required preferred : bool) (a : AgentDefinition) : AgentDefinition :=
  mkAgentDefinition (agent_key a) (agent_name a) (role a) (goal a) (backstory a) (domain a) (tools a)
    (complexity a) (llm_model a) required preferred (gpu_memory_min_mb a) (hardware a) (personality a).
Definition make_task_with_context (ctx : list (string * Value)) : Task :=
  foldl (fun t kv => with_context t kv.1 kv.2) (Task_new 1 "test task") ctx.
Definition strs (l : list string) : Value := Arr (map Str l).

Definition expected_score (tool complexity gpu domain : f64) : f64 :=
  f64_add (f64_add (f64_add (f64_add (f64_mul WEIGHT_TOOL_COVERAGE tool) (f64_mul WEIGHT_COMPLEXITY complexity))
    (f64_mul WEIGHT_GPU gpu)) (f64_mul WEIGHT_DOMAIN domain)) (f64_mul WEIGHT_PERSONALITY (f64_lit 1 2)).
Definition scores (a : AgentDefinition) (ctx : list (string * Value)) (tool complexity gpu domain : f64) : bool :=
  f64_close9 (score_agent a (make_task_with_context ctx)) (expected_score tool complexity gpu domain).
Definition quality_task : list (string * Value) :=
  [("required_tools", strs ["lint"; "test"]); ("complexity", Str "medium"); ("domain", Str "quality")].

Definition test_perfect_score : bool :=
  scores (make_agent ["lint"; "test"] "medium" (Some "quality")) quality_task f64_one f64_one f64_one f64_one.
Definition test_no_tools_match : bool :=
  scores (make_agent ["deploy"] "medium" None) [("required_tools", strs ["lint"; "test"; "scan"])]
    f64_zero f64_one f64_one f64_one.
Definition test_partial_tool_coverage : bool :=
  scores (make_agent ["lint"; "test"] "medium" None) [("required_tools", strs ["lint"; "test"; "scan"; "deploy"])]
    (f64_lit 1 2) f64_one f64_one f64_one.
Definition test_complexity_mismatch : bool :=
  scores (make_agent [] "low" None) [("complexity", Str "high")] f64_one (f64_lit 1 3) f64_one f64_one.
Definition gpu_task : list (string * Value) := [("gpu_required", Bool true)].
Definition test_gpu_required_agent_has_it : bool :=
  scores (with_gpu true false (make_agent [] "medium" None)) gpu_task f64_one f64_one f64_one f64_one.
Definition test_gpu_required_agent_prefers_it : bool :=
  scores (with_gpu false true (make_agent [] "medium" None)) gpu_task f64_one f64_one f64_one f64_one.
Definition test_gpu_required_agent_lacks_it : bool :=
  scores (make_agent [] "medium" None) gpu_task f64_one f64_one f64_zero f64_one.
Definition test_domain_mismatch : bool :=
  scores (make_agent [] "medium" (Some "devops")) [("domain", Str "quality")] f64_one f64_one f64_one f64_zero.
Definition test_no_context_full_score : bool :=
  scores (make_agent [] "medium" None) [] f64_one f64_one f64_one f64_one.
Definition test_rank_agents_ordering : bool :=
  let good := make_agent ["lint"; "test"] "medium" (Some "quality") in
  let bad := make_agent [] "high" (Some "devops") in
  match rank_agents [bad; good] (make_task_with_context quality_task) with
  | r0 :: r1 :: _ => (r0.1 ==? 1%nat) && f64_gt r0.2 r1.2
  | _ => false
  end.
Definition test_rank_agents_empty : bool :=
  match rank_agents [] (Task_new 1 "anything") with [] => true | _ => false end.

Example scoring_tests_pass :
  all_pass [test_perfect_score; test_no_tools_match; test_partial_tool_coverage; test_complexity_mismatch;
    test_gpu_required_agent_has_it; test_gpu_required_agent_prefers_it; test_gpu_required_agent_lacks_it;
    test_domain_mismatch; test_no_context_full_score; test_rank_agents_ordering; test_rank_agents_empty] = true.
Proof. vm_compute. reflexivity. Qed.

(** ** orchestrator/hierarchical.rs *)

Definition make_worker (key : string) (ts : list string) (complexity : string) (domain : option string) : AgentDefinition :=
  mkAgentDefinition key ("Agent " ++ key) "worker" "do work" None domain ts complexity None false false None None None.
Definition worker_manager : AgentDefinition := make_worker "manager" [] "medium" None.
Definition lint_coder : AgentDefinition := make_worker "coder" ["lint"; "test"] "medium" (Some "quality").
Definition deployer : AgentDefinition := make_worker "deployer" ["deploy"] "high" (Some "devops").

Definition delegate_assigns_best_agent : bool :=
  let? assignments := delegate_tasks worker_manager [lint_coder; deployer] [make_task_with_context quality_task] in
  map snd assignments ==? ["coder"].
Definition delegate_multiple_tasks : bool :=
  let code_task := make_task_with_context [("required_tools", strs ["lint"; "test"]); ("domain", Str "quality")] in
  let deploy_task := make_task_with_context
    [("required_tools", strs ["deploy"]); ("domain", Str "devops"); ("complexity", Str "high")] in
  let? assignments := delegate_tasks worker_manager [lint_coder; deployer] [code_task; deploy_task] in
  map snd assignments ==? ["coder"; "deployer"].
Definition delegate_no_workers_falls_back_to_manager : bool :=
  let? assignments := delegate_tasks worker_manager [] [Task_new 1 "orphan task"] in
  map snd assignments ==? ["manager"].
Definition delegate_empty_tasks : bool :=
  let? assignments := delegate_tasks worker_manager [make_worker "worker" [] "medium" None] [] in
  length assignments ==? 0%nat.
Definition manager_agent_delegate_method : bool :=
  let mgr := mkManagerAgent worker_manager [make_worker "worker" ["lint"] "medium" None] [Task_new 1 "some task"] in
  let? assignments := delegate mgr in map snd assignments ==? ["worker"].
Definition delegate_preserves_task_ids : bool :=
  let? assignments := delegate_tasks worker_manager [make_worker "worker" [] "medium" None]
                        [Task_new 11 "task 1"; Task_new 12 "task 2"] in
  map fst assignments ==? [11; 12].

Example hierarchical_tests_pass :
  all_pass [delegate_assigns_best_agent; delegate_multiple_tasks; delegate_no_workers_falls_back_to_manager;
    delegate_empty_tasks; manager_agent_delegate_method; delegate_preserves_task_ids] = true.
Proof. vm_compute. reflexivity. Qed.

(** ** orchestrator/pubsub.rs *)

Definition exact_match : bool := matches_pattern "task.completed" "task.completed".
Definition exact_no_match : bool := negb (matches_pattern "task.completed" "task.failed").
Definition star_matches_one_segment : bool :=
  matches_pattern "task.*" "task.completed" && matches_pattern "task.*" "task.failed".
Definition star_does_not_match_zero_segments : bool := negb (matches_pattern "task.*" "task").
Definition star_does_not_match_multiple_segments : bool := negb (matches_pattern "task.*" "task.sub.completed").
Definition star_in_middle : bool :=
  matches_pattern "task.*.done" "task.build.done" && negb (matches_pattern "task.*.done" "task.build.not_done") &&
  negb (matches_pattern "task.*.done" "task.a.b.done").
Definition hash_matches_zero_segments : bool := matches_pattern "agent.#" "agent".
Definition hash_matches_one_segment : bool := matches_pattern "agent.#" "agent.status".
Definition hash_matches_multiple_segments : bool :=
  matches_pattern "agent.#" "agent.status.changed" && matches_pattern "agent.#" "agent.a.b.c.d".
Definition hash_alone_matches_everything : bool :=
  matches_pattern "#" "anything" && matches_pattern "#" "a.b.c" && matches_pattern "#" "".
Definition hash_in_middle : bool :=
  matches_pattern "task.#.done" "task.done" && matches_pattern "task.#.done" "task.build.done" &&
  matches_pattern "task.#.done" "task.a.b.done" && negb (matches_pattern "task.#.done" "task.a.b.failed").
Definition mixed_wildcards : bool :=
  matches_pattern "*.#.done" "task.a.b.done" && matches_pattern "*.status.#" "agent.status" &&
  matches_pattern "*.status.#" "agent.status.changed".
Definition no_match_different_prefix : bool := negb (matches_pattern "task.*" "agent.completed").
Definition no_match_shorter_topic : bool := negb (matches_pattern "task.sub.*" "task").

(** The topics a subscriber of [pattern] reads after some were published. *)
Definition topics_read (pattern : string) (published : list string) : list string :=
  let h := foldl (fun h t => publish h 0 t Null) (subscribe PubSub_new pattern).2 published in
  map topic (default [] (subscriptions h !! pattern)).

Definition publish_reaches_exact_subscriber : bool :=
  let (ok, ps) := subscribe PubSub_new "task.completed" in
  match subscriptions (publish ps 0 "task.completed" (Obj [("id", Num (PosInt 1))])) !! "task.completed" with
  | Some [msg] => ok && (topic msg ==? "task.completed") &&
                  (let? (Num (PosInt n)) := json_get (payload msg) "id" in n ==? 1)
  | _ => false
  end.
Definition publish_reaches_wildcard_subscriber : bool :=
  topics_read "task.*" ["task.completed"; "task.failed"] ==? ["task.completed"; "task.failed"].
Definition publish_reaches_hash_subscriber : bool :=
  topics_read "agent.#" ["agent.status.changed"] ==? ["agent.status.changed"].
Definition non_matching_subscriber_gets_nothing : bool := topics_read "task.*" ["agent.started"] ==? [].
(** Both receivers read from the one channel of the pattern. *)
Definition multiple_subscribers_same_pattern : bool :=
  let (ok1, ps) := subscribe PubSub_new "task.*" in
  let (ok2, ps) := subscribe ps "task.*" in
  ok1 && ok2 && (pattern_count ps ==? 1%nat) && (topics_read "task.*" ["task.done"] ==? ["task.done"]).
Definition unsubscribe_all_closes_receivers : bool :=
  let (ok, ps) := subscribe PubSub_new "task.*" in
  ok && is_none (subscriptions (unsubscribe_all ps "task.*") !! "task.*").
Definition message_has_timestamp : bool :=
  match subscriptions (publish (subscribe PubSub_new "t").2 5 "t" Null) !! "t" with
  | Some [msg] => (5 <=? timestamp msg)%Z
  | _ => false
  end.

Example pubsub_tests_pass :
  all_pass [exact_match; exact_no_match; star_matches_one_segment; star_does_not_match_zero_segments;
    star_does_not_match_multiple_segments; star_in_middle; hash_matches_zero_segments; hash_matches_one_segment;
    hash_matches_multiple_segments; hash_alone_matches_everything; hash_in_middle; mixed_wildcards;
    no_match_different_prefix; no_match_shorter_topic; publish_reaches_exact_subscriber;
    publish_reaches_wildcard_subscriber; publish_reaches_hash_subscriber; non_matching_subscriber_gets_nothing;
    multiple_subscribers_same_pattern; unsubscribe_all_closes_receivers; message_has_timestamp] = true.
Proof. vm_compute. reflexivity. Qed.

(** ** orchestrator/memory.rs *)

Definition contents (b : ConversationBuffer) : list string := map msg_content (messages b).
(** User messages "msg-0" to "msg-n". *)
Definition numbered_messages (b : ConversationBuffer) (n : nat) : ConversationBuffer :=
  foldl (fun b i => add_user b ("msg-" ++ pretty (N.of_nat i))) b (seq 0 n).

Definition full_strategy_keeps_all : bool :=
  buffer_len (numbered_messages (ConversationBuffer_new "agent-1") 100) ==? 100%nat.
Definition sliding_window_evicts_oldest : bool :=
  let b := add_assistant (add_user (add_assistant (add_user (with_sliding_window "agent-1" 4) "a") "b") "c") "d" in
  (buffer_len b ==? 4%nat) && (contents (add_user b "e") ==? ["b"; "c"; "d"; "e"]).
Definition head_tail_keeps_first_and_last : bool :=
  contents (numbered_messages (with_head_tail "agent-1" 4) 10) ==? ["msg-0"; "msg-7"; "msg-8"; "msg-9"].
Definition head_tail_max_one_keeps_last : bool :=
  contents (add_user (add_user (add_user (with_head_tail "agent-1" 1) "first") "second") "third") ==? ["third"].
Definition empty_buffer : bool :=
  let b := ConversationBuffer_new "agent-1" in
  buffer_is_empty b && (buffer_len b ==? 0%nat) && (length (messages b) ==? 0%nat).
Definition clear_removes_all : bool :=
  let b := add_assistant (add_user (ConversationBuffer_new "agent-1") "hello") "hi" in
  (buffer_len b ==? 2%nat) && buffer_is_empty (Memory.clear b).
Definition to_vec_clones_messages : bool := contents (add_user (ConversationBuffer_new "agent-1") "hello") ==? ["hello"].
Definition sliding_window_no_trim_under_limit : bool :=
  buffer_len (add_assistant (add_user (with_sliding_window "agent-1" 10) "a") "b") ==? 2%nat.

Example memory_tests_pass :
  all_pass [full_strategy_keeps_all; sliding_window_evicts_oldest; head_tail_keeps_first_and_last;
    head_tail_max_one_keeps_last; empty_buffer; clear_removes_all; to_vec_clones_messages;
    sliding_window_no_trim_under_limit] = true.
Proof. vm_compute. reflexivity. Qed.

(** ** orchestrator/budget.rs *)

Definition budget_with_tokens (max : N) : ResourceBudget := ResourceBudget_new (Some max) None None None.
Definition budget_with_cost (max_usd : f64) : ResourceBudget := ResourceBudget_new None (Some max_usd) None None.

Definition no_limits_always_passes : bool :=
  let tracker := BudgetTracker_new ResourceBudget_default in negb (has_limits tracker) && is_ok (Budget.check tracker).
Definition token_budget_enforced : bool :=
  let t0 := BudgetTracker_new (budget_with_tokens 1000) in
  let t1 := record_tokens t0 500 in
  has_limits t0 && is_ok (Budget.check t0) && is_ok (Budget.check t1) &&
  (let- (Tokens used limit) := Budget.check (record_tokens t1 500) in (used ==? 1000) && (limit ==? 1000)).
Definition cost_budget_enforced : bool :=
  let t0 := BudgetTracker_new (budget_with_cost (f64_lit 1 10)) in
  let t1 := record_cost t0 (f64_lit 5 100) in
  is_ok (Budget.check t0) && is_ok (Budget.check t1) &&
  (let- (Cost _ _) := Budget.check (record_cost t1 (f64_lit 6 100)) in true).
Definition tokens_used_accumulates : bool :=
  tokens_used (record_tokens (record_tokens (BudgetTracker_new (budget_with_tokens 10000)) 100) 200) ==? 300.
Definition cost_usd_accumulates : bool :=
  let t := record_cost (record_cost (BudgetTracker_new (budget_with_cost f64_one)) (f64_lit 25 100)) (f64_lit 30 100) in
  f64_close (Budget.cost_usd t) (f64_lit 55 100) 1 1000.
Definition budget_exceeded_display : bool :=
  let e := budget_exceeded_text (fun _ => "") (Tokens 1500 1000) in str_contains "1500" e && str_contains "1000" e.

Example budget_tests_pass :
  all_pass [no_limits_always_passes; token_budget_enforced; cost_budget_enforced; tokens_used_accumulates;
    cost_usd_accumulates; budget_exceeded_display] = true.
Proof. vm_compute. reflexivity. Qed.

(** ** orchestrator/multi_tenant.rs *)

Definition sample_budget : TenantBudget := TenantBudget_new 100000 (f64_of_N 10) 5.
Definition one_tenant : TenantRegistry := register_tenant TenantRegistry_new "t1" sample_budget.
Definition check_is (r : BudgetCheckResult) (x : BudgetCheckResult) : bool :=
  match r, x with
  | WithinBudget, WithinBudget | TokensExceeded, TokensExceeded | CostExceeded, CostExceeded
  | ConcurrencyExceeded, ConcurrencyExceeded | TenantNotFound, TenantNotFound => true
  | _, _ => false
  end.

Definition register_and_get_budget : bool :=
  let? b := get_budget (register_tenant TenantRegistry_new "tenant-1" sample_budget) "tenant-1" in
  (tb_max_tokens b ==? 100000) && f64_epsilon_close (tb_max_cost_usd b) (f64_of_N 10) && (max_concurrent_crews b ==? 5).
Definition get_budget_unknown_tenant : bool := is_none (get_budget TenantRegistry_new "unknown").
Definition register_replaces_existing : bool :=
  let r := register_tenant TenantRegistry_new "t1" (TenantBudget_new 100 f64_one 1) in
  let? b := get_budget (register_tenant r "t1" (TenantBudget_new 200 (f64_of_N 2) 2)) "t1" in tb_max_tokens b ==? 200.
Definition check_budget_ok : bool := check_is (check_tenant_budget one_tenant "t1" 50000 (f64_of_N 5) 3) WithinBudget.
Definition check_budget_tokens_exceeded : bool :=
  check_is (check_tenant_budget one_tenant "t1" 100001 (f64_of_N 5) 3) TokensExceeded.
Definition check_budget_cost_exceeded : bool :=
  check_is (check_tenant_budget one_tenant "t1" 50000 (f64_lit 1001 100) 3) CostExceeded.
Definition check_budget_concurrency_exceeded : bool :=
  check_is (check_tenant_budget one_tenant "t1" 50000 (f64_of_N 5) 6) ConcurrencyExceeded.
Definition check_budget_tenant_not_found : bool :=
  check_is (check_tenant_budget TenantRegistry_new "missing" 0 f64_zero 0) TenantNotFound.
Definition check_budget_at_exact_limit : bool :=
  check_is (check_tenant_budget one_tenant "t1" 100000 (f64_of_N 10) 5) WithinBudget.
Definition remove_tenant_test : bool :=
  let (removed, r) := remove_tenant one_tenant "t1" in
  (tenant_len one_tenant ==? 1%nat) && is_some removed && (tenant_len r ==? 0%nat) && is_none (get_budget r "t1").
Definition remove_nonexistent_tenant : bool := is_none (remove_tenant TenantRegistry_new "nope").1.
Definition len_and_is_empty : bool :=
  tenants_empty TenantRegistry_new && (tenant_len TenantRegistry_new ==? 0%nat) && negb (tenants_empty one_tenant) &&
  (tenant_len one_tenant ==? 1%nat).
Definition default_creates_empty_registry : bool := tenants_empty TenantRegistry_new.

Example tenant_tests_pass :
  all_pass [register_and_get_budget; get_budget_unknown_tenant; register_replaces_existing; check_budget_ok;
    check_budget_tokens_exceeded; check_budget_cost_exceeded; check_budget_concurrency_exceeded;
    check_budget_tenant_not_found; check_budget_at_exact_limit; remove_tenant_test; remove_nonexistent_tenant;
    len_and_is_empty; default_creates_empty_registry] = true.
Proof. vm_compute. reflexivity. Qed.

(** ** orchestrator/approval.rs *)

Definition requires_approval_high_always : bool := requires_approval RiskHigh false && requires_approval RiskHigh true.
Definition requires_approval_medium_configurable : bool :=
  negb (requires_approval RiskMedium false) && requires_approval RiskMedium true.
Definition requires_approval_low_never : bool :=
  negb (requires_approval RiskLow false) && negb (requires_approval RiskLow true).
Definition approval_flow_approved : bool :=
  let? (Some rx, gate) := Some (request_approval ApprovalGate_new 1) in
  let gate1 := (submit_decision gate 1 Approved).2 in
  let (decision, gate2) := wait_for_decision gate1 rx 1 false in
  (pending_count gate ==? 1%nat) && (decision ==? Some Approved) && (pending_count gate2 ==? 0%nat).
Definition approval_flow_rejected : bool :=
  let? (Some rx, gate) := Some (request_approval ApprovalGate_new 1) in
  (wait_for_decision (submit_decision gate 1 Rejected).2 rx 1 false).1 ==? Some Rejected.
Definition approval_timeout_rejects : bool :=
  let? (Some rx, gate) := Some (request_approval (with_timeout (from_millis 10)) 1) in
  (wait_for_decision gate rx 1 true).1 ==? Some Rejected.
Definition submit_decision_for_unknown_task_returns_false : bool := negb (submit_decision ApprovalGate_new 1 Approved).1.
Definition cancel_removes_pending : bool :=
  let gate := (request_approval ApprovalGate_new 1).2 in
  let (known, gate1) := cancel_approval gate 1 in
  (pending_count gate ==? 1%nat) && known && (pending_count gate1 ==? 0%nat).
Definition pending_tasks_lists_all : bool :=
  let tasks := pending_tasks (request_approval (request_approval ApprovalGate_new 1).2 2).2 in
  (length tasks ==? 2%nat) && bool_decide (1 ∈ tasks) && bool_decide (2 ∈ tasks).

Example approval_tests_pass :
  all_pass [requires_approval_high_always; requires_approval_medium_configurable; requires_approval_low_never;
    approval_flow_approved; approval_flow_rejected; approval_timeout_rejects;
    submit_decision_for_unknown_task_returns_false; cancel_removes_pending; pending_tasks_lists_all] = true.
Proof. vm_compute. reflexivity. Qed.

(** ** orchestrator/output_validation.rs *)

(** What serde_json reads from the texts of these tests. *)
Definition parsed_texts : list (string * Value) :=
  [(quotes "{'name': 'test', 'score': 42}", Obj [("name", Str "test"); ("score", Num (PosInt 42))]);
   (quotes "{'name': 'test'}", Obj [("name", Str "test")]);
   ("[1, 2, 3]", Arr [Num (PosInt 1); Num (PosInt 2); Num (PosInt 3)]);
   (quotes "{'anything': true}", Obj [("anything", Bool true)]);
   ("42", Num (PosInt 42));
   (quotes "'hello'", Str "hello");
   (quotes "'just a string'", Str "just a string");
   (quotes "{'key': 'value'}", Obj [("key", Str "value")]);
   (quotes "{'a': 1}", Obj [("a", Num (PosInt 1))]);
   (quotes "{'valid': true}", Obj [("valid", Bool true)]);
   (quotes "{'code': 'use ```markdown``` here'}", Obj [("code", Str "use ```markdown``` here")])].
Definition from_str (s : string) : Result Value string :=
  match List.find (fun kv => String.eqb kv.1 s) parsed_texts with Some kv => Ok kv.2 | None => Err "expected value" end.
Definition is_valid (r : ValidationResult) : bool := match r with Valid => true | _ => false end.
Definition invalid_with (r : ValidationResult) (s : string) : bool :=
  match r with Invalid e => str_contains s e | Valid => false end.
Definition named_schema : Value := Obj [("type", Str "object"); ("required", strs ["name"; "score"])].
Definition type_schema (ty : string) : Value := Obj [("type", Str ty)].

Definition valid_json_object_with_required_fields : bool :=
  is_valid (validate_output from_str (quotes "{'name': 'test', 'score': 42}") named_schema).
Definition missing_required_field : bool :=
  invalid_with (validate_output from_str (quotes "{'name': 'test'}") named_schema) "score".
Definition not_valid_json : bool :=
  invalid_with (validate_output from_str "this is not json" (type_schema "object")) "not valid JSON".
Definition wrong_type : bool := invalid_with (validate_output from_str "[1, 2, 3]" (type_schema "object")) "array".
Definition array_type_valid : bool := is_valid (validate_output from_str "[1, 2, 3]" (type_schema "array")).
Definition no_schema_constraints_passes_any_json : bool :=
  forallb (fun s => is_valid (validate_output from_str s (Obj []))) [quotes "{'anything': true}"; "42"; quotes "'hello'"].
Definition extract_json_from_markdown_fence : bool :=
  let text := "Here is the result:" ++ nl ++ "```json" ++ nl ++ quotes "{'key': 'value'}" ++ nl ++ "```" ++ nl ++ "Done." in
  let (extracted, result) := extract_and_validate from_str text
    (Obj [("type", Str "object"); ("required", strs ["key"])]) in
  is_valid result && (extracted ==? quotes "{'key': 'value'}").
Definition extract_json_from_plain_fence : bool :=
  is_valid (extract_and_validate from_str ("Result:" ++ nl ++ "```" ++ nl ++ quotes "{'a': 1}" ++ nl ++ "```")
              (type_schema "object")).2.
Definition no_fence_falls_back_to_raw : bool :=
  is_valid (extract_and_validate from_str (quotes "{'valid': true}") (type_schema "object")).2.
Definition build_retry_prompt_includes_error : bool :=
  let prompt := build_retry_prompt (fun _ => quotes "{'type': 'object'}") "Summarize this" "not json" "not valid JSON"
                  (type_schema "object") in
  forallb (fun s => str_contains s prompt) ["Summarize this"; "not valid JSON"; "not json"; "schema"].
Definition fence_with_backticks_in_json_value : bool :=
  let text := "Result:" ++ nl ++ "```json" ++ nl ++ quotes "{'code': 'use ```markdown``` here'}" ++ nl ++ "```" ++ nl ++ "Done." in
  let (extracted, result) := extract_and_validate from_str text
    (Obj [("type", Str "object"); ("required", strs ["code"])]) in
  is_valid result && str_contains "markdown" extracted.
Definition required_on_non_object_fails : bool :=
  invalid_with (validate_output from_str (quotes "'just a string'")
                  (Obj [("type", Str "string"); ("required", strs ["field"])])) "not a JSON object".

Example output_validation_tests_pass :
  all_pass [valid_json_object_with_required_fields; missing_required_field; not_valid_json; wrong_type;
    array_type_valid; no_schema_constraints_passes_any_json; extract_json_from_markdown_fence;
    extract_json_from_plain_fence; no_fence_falls_back_to_raw; build_retry_prompt_includes_error;
    fence_with_backticks_in_json_value; required_on_non_object_fails] = true.
Proof. vm_compute. reflexivity. Qed.
