(* ===== verification/LearningTests.v ===== *)
(** * Tests of src/rust-old/src/learning/ and src/rust-old/src/definitions/ on the model

    The test that counts how often random batches hold an experience
    (priority_ordering_in_sample) has no counterpart: the draws are a parameter. *)

From S2P Require Import Prelude.
From S2P Require Import F64.
From S2P Require Import Core.
From S2P Require Import Learning.
From S2P Require Import Bandits.
From S2P Require Import Definitions.
From S2P Require Import Testing.
From stdpp Require Import base gmap fin_maps strings pretty numbers list.

Local Open Scope test_scope.
Local Open Scope N_scope.
Local Open Scope string_scope.

#[local] Instance Trend_eq_dec : EqDecision Trend. Proof. solve_decision. Defined.
#[local] Instance score_iter : HashIter string CapabilityScore := canonical_iter.

(** ** learning/profile.rs *)

(** Records of one agent: action, milliseconds, success. *)
Definition profile_of (l : list (string * N * bool)) : PerformanceProfile :=
  foldl (fun p r => record p "agent-a" r.1.1 (from_millis r.1.2) r.2 0) PerformanceProfile_new l.
Definition close_to (o : option f64) (x : f64) : bool := match o with Some y => f64_close9 y x | None => false end.
Definition two_thirds : f64 := f64_div (f64_of_N 2) (f64_of_N 3).

Definition record_and_success_rate : bool :=
  close_to (success_rate (profile_of [("build", 100, true); ("build", 200, false); ("build", 150, true)]) "agent-a")
    two_thirds.

Definition success_rate_for_action_test : bool :=
  let profile := profile_of [("build", 100, true); ("test", 200, false); ("build", 150, false)] in
  close_to (success_rate_for_action profile "agent-a" "build") f64_half &&
  close_to (success_rate_for_action profile "agent-a" "test") f64_zero.

Definition avg_duration_test : bool :=
  avg_duration (profile_of [("build", 100, true); ("build", 200, true)]) "agent-a" ==? Some (Some (from_millis 150)).

Definition avg_duration_for_action_test : bool :=
  avg_duration_for_action (profile_of [("build", 100, true); ("test", 300, true); ("build", 200, true)]) "agent-a" "build"
  ==? Some (Some (from_millis 150)).

Definition total_actions_test : bool :=
  (total_actions PerformanceProfile_new "agent-a" ==? 0%nat) &&
  (total_actions (profile_of [("build", 100, true); ("test", 200, false)]) "agent-a" ==? 2%nat).

Definition empty_agent_returns_none : bool :=
  let profile := PerformanceProfile_new in
  is_none (success_rate profile "nonexistent") && is_none (success_rate_for_action profile "nonexistent" "build") &&
  (avg_duration profile "nonexistent" ==? Some None) &&
  (avg_duration_for_action profile "nonexistent" "build" ==? Some None).

Definition no_actions_of_type_returns_none : bool :=
  let profile := profile_of [("build", 100, true)] in
  is_none (success_rate_for_action profile "agent-a" "deploy") &&
  (avg_duration_for_action profile "agent-a" "deploy" ==? Some None).

Example profile_tests_pass : all_pass
  [record_and_success_rate; success_rate_for_action_test; avg_duration_test; avg_duration_for_action_test;
   total_actions_test; empty_agent_returns_none; no_actions_of_type_returns_none] = true.
Proof. vm_compute. reflexivity. Qed.

(** ** learning/capability.rs *)

(** The scorer after outcomes of capabilities, [true] for a success. *)
Definition scorer_of (l : list (string * bool)) : option CapabilityScorer :=
  foldl (fun s r => s ← s; if r.2 : bool then record_success s r.1 else record_failure s r.1)
    (Some CapabilityScorer_new) l.
Definition confidence_is (l : list (string * bool)) (capability : string) (x : f64) : bool :=
  match scorer_of l with Some s => f64_close9 (scorer_confidence s capability) x | None => false end.
Definition trend_is (l : list (string * bool)) (capability : string) (t : Trend) : bool :=
  match scorer_of l with Some s => scorer_trend s capability ==? t | None => false end.

Definition initial_confidence_is_default : bool := confidence_is [] "unknown" f64_half.

Definition confidence_improves_after_success : bool :=
  let h := [("build", true); ("build", false); ("build", true)] in
  confidence_is (take 1 h) "build" f64_one && confidence_is (take 2 h) "build" f64_half &&
  confidence_is h "build" two_thirds.

Definition confidence_declines_after_failure : bool := confidence_is [("deploy", false)] "deploy" f64_zero.
Definition trend_improving : bool :=
  trend_is (replicate 10 ("test", false) ++ replicate 5 ("test", true))%list "test" Improving.
Definition trend_declining : bool :=
  trend_is (replicate 10 ("test", true) ++ replicate 5 ("test", false))%list "test" Declining.
Definition trend_stable_with_few_records : bool := trend_is [("test", true); ("test", false)] "test" Stable.
Definition unknown_capability_trend_is_stable : bool := trend_is [] "nonexistent" Stable.
Definition all_scores_returns_all : bool :=
  let? (Some s) := Some (scorer_of [("a", true); ("b", false)]) in
  bool_decide (length (all_scores s) = 2%nat).

Example capability_tests_pass : all_pass
  [initial_confidence_is_default; confidence_improves_after_success; confidence_declines_after_failure;
   trend_improving; trend_declining; trend_stable_with_few_records; unknown_capability_trend_is_stable;
   all_scores_returns_all] = true.
Proof. vm_compute. reflexivity. Qed.

(** ** learning/replay.rs *)

Definition make_exp (state : string) (priority : f64) : Experience := mkExperience state "act" f64_one "next" priority.
Definition buffer (max : nat) (l : list (string * N)) : ReplayBuffer :=
  foldl (fun b r => replay_push b (make_exp r.1 (f64_of_N r.2))) (ReplayBuffer_new max) l.
(** Draws at one half. *)
Definition middle (_ : nat) : f64 := f64_half.

Definition push_and_sample : bool :=
  let buf := buffer 10 [("s1", 1); ("s2", 2); ("s3", 3)] in
  (replay_len buf ==? 3%nat) && negb (replay_is_empty buf) && bool_decide (length (sample middle buf 2) = 2%nat).

Definition max_size_eviction : bool :=
  let low := [("s1", 1); ("s2", 2); ("s3", 3)] in
  let buf := buffer 3 (low ++ [("s4", 5)])%list in
  (replay_len (buffer 3 low) ==? 3%nat) && (replay_len buf ==? 3%nat) &&
  forallb (fun e => f64_leb (f64_of_N 2) (ex_priority e)) (experiences buf).

Definition eviction_skips_lower_priority : bool :=
  let buf := buffer 2 [("s1", 5); ("s2", 3); ("s3", 1)] in
  (replay_len buf ==? 2%nat) && forallb (fun e => ex_state e <>? "s3") (experiences buf).

Definition update_priority_test : bool :=
  let buf := update_priority (buffer 10 [("s1", 1)]) 0 (f64_of_N 99) in
  close_to (ex_priority <$> (experiences buf !! 0%nat)) (f64_of_N 99).

Definition empty_buffer : bool :=
  let buf := ReplayBuffer_new 10 in
  replay_is_empty buf && (replay_len buf ==? 0%nat) && bool_decide (length (sample middle buf 5) = 0%nat).

Definition sample_more_than_buffer : bool :=
  bool_decide (length (sample middle (buffer 10 [("s1", 1); ("s2", 2)]) 10) = 2%nat).

Example replay_tests_pass : all_pass
  [push_and_sample; max_size_eviction; eviction_skips_lower_priority; update_priority_test; empty_buffer;
   sample_more_than_buffer] = true.
Proof. vm_compute. reflexivity. Qed.

(** ** learning/optimizer.rs *)

Definition tenth : f64 := f64_lit 1 10.
Definition gamma : f64 := f64_lit 9 10.
(** Updates: state, action, reward, next state, next actions. *)
Definition trained (lr : f64) (l : list (string * string * N * string * list string)) : option QLearner :=
  foldl (fun q u => q ← q; let '(s, a, r, s', acts) := u in q_update q s a (f64_of_N r) s' acts)
    (Some (QLearner_new lr gamma)) l.
Definition value_close (q : option QLearner) (s a : string) (x : f64) (n d : N) : bool :=
  match q with Some q => f64_close (get_value q s a) x n d | None => false end.

Definition initial_values_are_zero : bool :=
  let q := Some (QLearner_new tenth gamma) in
  value_close q "s1" "a1" f64_zero 1 1000000000 && value_close q "any" "thing" f64_zero 1 1000000000.

Definition update_changes_value : bool :=
  value_close (trained f64_half [("s1", "a1", 1, "s2", ["a1"; "a2"])]) "s1" "a1" f64_half 1 1000000000.

Definition update_with_existing_next_state : bool :=
  value_close (trained f64_half [("s2", "a1", 2, "terminal", []); ("s1", "a1", 1, "s2", ["a1"; "a2"])])
    "s1" "a1" (f64_lit 95 100) 1 1000000000.

Definition best_action_selects_highest_q : bool :=
  let? (Some q) := Some (trained tenth [("s1", "a1", 3, "term", []); ("s1", "a2", 9, "term", []); ("s1", "a3", 5, "term", [])]) in
  best_action q "s1" ["a1"; "a2"; "a3"] ==? Some "a2".

Definition best_action_empty_returns_none : bool := is_none (best_action (QLearner_new tenth gamma) "s1" []).
Definition best_action_with_unseen_state : bool :=
  is_some (best_action (QLearner_new tenth gamma) "unknown" ["a1"; "a2"]).

Definition repeated_updates_converge : bool :=
  value_close (trained tenth (replicate 100 ("s1", "a1", 1, "s2", ["a1"]))) "s1" "a1" f64_one 1 100.

Definition interning_reuses_ids : bool :=
  let? (Some q) := Some (trained tenth [("state", "action", 1, "next", ["a"]); ("state", "action", 2, "next", ["a"])]) in
  size (intern_map (interner q)) ==? 2%nat.

Example optimizer_tests_pass : all_pass
  [initial_values_are_zero; update_changes_value; update_with_existing_next_state; best_action_selects_highest_q;
   best_action_empty_returns_none; best_action_with_unseen_state; repeated_updates_converge;
   interning_reuses_ids] = true.
Proof. vm_compute. reflexivity. Qed.

(** ** learning/strategy.rs *)

(** Arms after updates, rewards in tenths. *)
Definition pulled (names : list string) (l : list (nat * N)) : option (list ArmStats) :=
  foldl (fun arms u => arms ← arms; arm_update arms u.1 (f64_lit u.2 10)) (Some (Ucb1_new names)) l.
Definition best_is (names : list string) (l : list (nat * N)) (i : nat) : bool :=
  match pulled names l with Some arms => best_arm arms ==? Some i | None => false end.
Definition selects (names : list string) (l : list (nat * N)) (rounds : N) (i : nat) : bool :=
  match pulled names l with Some arms => select id arms rounds ==? Some i | None => false end.

Definition select_unexplored_first : bool := selects ["a"; "b"; "c"] [] 0 0.
Definition select_cycles_through_unexplored : bool :=
  selects ["a"; "b"; "c"] [(0%nat, 10)] 1 1 && selects ["a"; "b"; "c"] [(0%nat, 10); (1%nat, 5)] 2 2.
Definition update_affects_selection : bool :=
  best_is ["a"; "b"] ([(0%nat, 1); (1%nat, 9)] ++ replicate 20 (1%nat, 9) ++ replicate 20 (0%nat, 1))%list 1.
Definition best_arm_returns_highest_mean : bool := best_is ["a"; "b"; "c"] [(0%nat, 3); (1%nat, 9); (2%nat, 5)] 1.
Definition arm_count_test : bool := arm_count (Ucb1_new ["a"; "b"]) ==? 2%nat.
Definition empty_bandit : bool :=
  let bandit := Ucb1_new [] in
  (arm_count bandit ==? 0%nat) && is_none (select id bandit 0) && is_none (best_arm bandit).

Example strategy_tests_pass : all_pass
  [select_unexplored_first; select_cycles_through_unexplored; update_affects_selection;
   best_arm_returns_highest_mean; arm_count_test; empty_bandit] = true.
Proof. vm_compute. reflexivity. Qed.

(** ** definitions/versioning.rs *)

Definition make_def (key role_ : string) : AgentDefinition :=
  mkAgentDefinition key (key ++ " Agent") role_ "test" None None [] "medium" None false false None None None.
(** The store after saves and the numbers they got. *)
Definition saved (l : list (string * string * option string)) : option (list N * VersionStore) :=
  foldl (fun st x => st ← st; r ← vs_save st.2 (make_def x.1.1 x.1.2) x.2 0; Some ((st.1 ++ [r.1])%list, r.2))
    (Some ([], VersionStore_new)) l.
Definition role_of (d : DefinitionVersion) : string := role (definition d).

Definition save_and_retrieve : bool :=
  let? (Some (v, store)) := Some (saved [("agent-a", "tester", Some "initial")]) in
  let? (Some retrieved) := Some (vs_get store "agent-a" 1) in
  (v ==? [1]) && (version retrieved ==? 1) && (role_of retrieved ==? "tester") && (message retrieved ==? Some "initial").

Definition version_numbers_increment : bool :=
  let? (Some (v, _)) := Some (saved [("agent-a", "tester", None); ("agent-a", "senior tester", None);
                                ("agent-a", "lead tester", None)]) in
  v ==? [1; 2; 3].

Definition latest_returns_newest : bool :=
  let? (Some (_, store)) := Some (saved [("agent-a", "v1-role", None); ("agent-a", "v2-role", None)]) in
  let? (Some latest) := Some (vs_latest store "agent-a") in
  (version latest ==? 2) && (role_of latest ==? "v2-role").

Definition latest_returns_none_for_unknown : bool := is_none (vs_latest VersionStore_new "nonexistent").

Definition list_versions : bool :=
  let? (Some (_, store)) := Some (saved [("agent-a", "v1", None); ("agent-a", "v2", None)]) in
  map version (vs_list_versions store "agent-a") ==? [1; 2].

Definition list_versions_empty_for_unknown : bool :=
  bool_decide (length (vs_list_versions VersionStore_new "nonexistent") = 0%nat).

Definition rollback_creates_new_version_from_old : bool :=
  let? (Some (_, store)) := Some (saved [("agent-a", "original", None); ("agent-a", "modified", None)]) in
  let? (Some (Some rolled, store)) := Some (vs_rollback store "agent-a" 1 0) in
  let versions := vs_list_versions store "agent-a" in
  let? (Some third) := Some (versions !! 2%nat) in
  (role rolled ==? "original") && bool_decide (length versions = 3%nat) && (version third ==? 3) &&
  (role_of third ==? "original") && (message third ==? Some "Rollback to version 1").

Definition rollback_nonexistent_version_returns_none : bool :=
  let? (Some (_, store)) := Some (saved [("agent-a", "v1", None)]) in
  let? (Some (r, _)) := Some (vs_rollback store "agent-a" 99 0) in is_none r.

Definition rollback_nonexistent_agent_returns_none : bool :=
  let? (Some (r, _)) := Some (vs_rollback VersionStore_new "nonexistent" 1 0) in is_none r.

Definition version_store_evicts_oldest_when_at_capacity : bool :=
  let? (Some (_, store)) := Some (saved (map (fun i => ("agent-a", "role-" ++ pretty i, Some ("v" ++ pretty i)))
                            (seq 0 (S MAX_VERSIONS_PER_AGENT)))) in
  let? (Some latest) := Some (vs_latest store "agent-a") in
  (length (vs_list_versions store "agent-a") <=? MAX_VERSIONS_PER_AGENT)%nat &&
  (N.to_nat (version latest) ==? (MAX_VERSIONS_PER_AGENT + 1)%nat).

Definition separate_agents_have_independent_versions : bool :=
  let? (Some (v, store)) := Some (saved [("agent-a", "role-a", None); ("agent-b", "role-b", None)]) in
  (v ==? [1; 1]) && (map (fun k => length (vs_list_versions store k)) ["agent-a"; "agent-b"] ==? [1%nat; 1%nat]).

Example versioning_tests_pass : all_pass
  [save_and_retrieve; version_numbers_increment; latest_returns_newest; latest_returns_none_for_unknown;
   list_versions; list_versions_empty_for_unknown; rollback_creates_new_version_from_old;
   rollback_nonexistent_version_returns_none; rollback_nonexistent_agent_returns_none;
   version_store_evicts_oldest_when_at_capacity; separate_agents_have_independent_versions] = true.
Proof. vm_compute. reflexivity. Qed.

(** ** definitions/assembler.rs *)

Definition make_agent (key role_ : string) (tools_ : list string) (complexity_ : string) : AgentDefinition :=
  mkAgentDefinition key (key ++ " Agent") role_ ("Handle " ++ role_ ++ " tasks") None None tools_ complexity_
    None false false None None None.
(** The keys of the team; the texts are ASCII. *)
Definition team (members : list TeamMember) (agents : list AgentDefinition) : list string :=
  map agent_key (assemble_team to_ascii_lowercase members agents).

Definition match_by_role : bool :=
  team [mkTeamMember "tester" [] None] [make_agent "qa" "tester" [] "medium"; make_agent "dev" "developer" [] "medium"]
  ==? ["qa"].

Definition match_by_tools : bool :=
  team [mkTeamMember "worker" ["selenium"] None]
    [make_agent "a1" "worker" ["selenium"; "pytest"] "medium"; make_agent "a2" "worker" ["docker"; "kubectl"] "medium"]
  ==? ["a1"].

Definition match_by_complexity : bool :=
  team [mkTeamMember "coder" [] (Some "high")]
    [make_agent "simple" "coder" [] "low"; make_agent "complex" "coder" [] "high"] ==? ["complex"].

Definition partial_role_match : bool :=
  team [mkTeamMember "tester" [] None] [make_agent "lead" "lead tester" [] "medium"] ==? ["lead"].

Definition no_match_returns_empty : bool :=
  team [mkTeamMember "designer" ["figma"] None] [make_agent "dev" "developer" [] "medium"] ==? [].

Definition build_complete_crew : bool :=
  let available := [make_agent "qa" "tester" ["selenium"] "medium"; make_agent "dev" "developer" ["git"] "high"] in
  let members := [mkTeamMember "tester" [] None; mkTeamMember "developer" [] None] in
  let crew := build_crew to_ascii_lowercase 1 "test-crew" members available [Task_new 2 "Run tests"; Task_new 3 "Fix bugs"] in
  (crew_name crew ==? "test-crew") && bool_decide (length (agents crew) = 2%nat) &&
  bool_decide (length (tasks crew) = 2%nat).

Definition build_crew_with_empty_members : bool :=
  let crew := build_crew to_ascii_lowercase 1 "empty" [] [] [] in
  (crew_name crew ==? "empty") && bool_decide (length (agents crew) = 0%nat) &&
  bool_decide (length (tasks crew) = 0%nat).

Example assembler_tests_pass : all_pass
  [match_by_role; match_by_tools; match_by_complexity; partial_role_match; no_match_returns_empty;
   build_complete_crew; build_crew_with_empty_members] = true.
Proof. vm_compute. reflexivity. Qed.
