(* ===== verification/CoreTests.v ===== *)
(** * Tests of src/rust-old/src/core/ on the model

    The tests that only send a value through serde_json and back, and the ones
    that call the estimator of ai-hwaccel, have no counterpart here. *)

From S2P Require Import Prelude.
From S2P Require Import F64.
From S2P Require Import Resource.
From S2P Require Import Core.
From S2P Require Import Testing.
From Stdlib Require Import SpecFloat.
From stdpp Require Import base gmap fin_maps strings pretty numbers list.

Local Open Scope test_scope.
Local Open Scope N_scope.
Local Open Scope string_scope.

#[local] Instance HardwareRequirement_eq_dec : EqDecision HardwareRequirement. Proof. solve_decision. Defined.

(** ** core/resource.rs *)

(** A device with all of its memory free. *)
Definition gpu (index : nat) (name : string) (a : AcceleratorType) (mb : N) : ComputeDevice :=
  ComputeDevice_new index name a mb.
Definition a100 : ComputeDevice := with_available (gpu 0 "NVIDIA A100" Cuda 81920) 40960.
(** The requirement of the tests with the other fields at their defaults. *)
Definition needs (accs : list AcceleratorType) (mb : N) (n : nat) : HardwareRequirement :=
  mkHardwareRequirement accs mb n 0 None.
Definition needs_cores (n : N) : HardwareRequirement := with_min_cpu_cores HardwareRequirement_default n.
Definition needs_family (f : AcceleratorFamily) (mb : N) : HardwareRequirement := mkHardwareRequirement [] mb 0 0 (Some f).

Definition resource_budget_default_values : bool :=
  let budget := ResourceBudget_default in
  is_none (max_tokens budget) && is_none (max_cost_usd budget) && is_none (max_duration_secs budget) &&
  (max_concurrent_tasks budget ==? Some 10).

Definition hardware_requirement_default_is_empty : bool :=
  let req := HardwareRequirement_default in
  (accelerators req ==? []) && (min_memory_mb req ==? 0) && (min_device_count req ==? 0%nat) && (min_cpu_cores req ==? 0).

Definition hardware_inventory_satisfies_cpu_only_requirement : bool :=
  let inv := mkHardwareInventory 8 32768 [] in
  satisfies inv (needs_cores 4) && negb (satisfies inv (needs_cores 16)).

Definition hardware_inventory_satisfies_cuda_gpu_requirement : bool :=
  satisfies (mkHardwareInventory 8 32768 [a100]) (needs [Cuda] 40000 0).

Definition hardware_inventory_satisfies_tpu_passes_and_fails : bool :=
  let req := needs [Tpu] 0 0 in
  satisfies (mkHardwareInventory 4 16384 [gpu 0 "TPU v4" Tpu 32768]) req &&
  negb (satisfies (mkHardwareInventory 4 16384 [a100]) req).

Definition hardware_inventory_satisfies_min_memory_mb_check : bool :=
  let inv := mkHardwareInventory 4 16384 [with_available (gpu 0 "Small GPU" Cuda 4096) 2048] in
  satisfies inv (needs [Cuda] 4096 0) && negb (satisfies inv (needs [Cuda] 8192 0)).

Definition hardware_inventory_satisfies_min_device_count_check : bool :=
  let inv := mkHardwareInventory 8 65536 [gpu 0 "GPU 0" Cuda 16384; gpu 1 "GPU 1" Cuda 16384] in
  satisfies inv (needs [Cuda] 0 2) && negb (satisfies inv (needs [Cuda] 0 4)).

Definition hardware_inventory_satisfies_empty_accelerators_any_ok : bool :=
  satisfies (mkHardwareInventory 2 8192 []) HardwareRequirement_default.

Definition accelerator_type_family : bool :=
  map family [Cpu; Cuda; Rocm; Metal; Vulkan; Tpu] ==? [FCpu; FGpu; FGpu; FGpu; FGpu; FTpu].

Definition accelerator_type_is_gpu : bool :=
  is_gpu Cuda && is_gpu Rocm && negb (is_gpu Cpu) && negb (is_gpu Tpu).

Definition satisfies_with_required_family_any_gpu : bool :=
  let inv := mkHardwareInventory 8 32768 [gpu 0 "AMD MI300X" Rocm 196608] in
  satisfies inv (needs_family FGpu 0) && negb (satisfies inv (needs_family FTpu 0)).

Definition satisfies_family_with_memory_requirement : bool :=
  let inv := mkHardwareInventory 8 32768 [gpu 0 "Small GPU" Cuda 8192] in
  satisfies inv (needs_family FGpu 4096) && negb (satisfies inv (needs_family FGpu 16384)).

Definition hardware_inventory_devices_of_type_filters_correctly : bool :=
  let inv := mkHardwareInventory 8 65536 [a100; gpu 1 "TPU v4" Tpu 32768; gpu 2 "NVIDIA A10" Cuda 24576] in
  map (fun a => length (devices_of_type inv a)) [Cuda; Tpu; Metal] ==? [2; 1; 0]%nat.

Definition hardware_inventory_total_memory_mb_sums_correctly : bool :=
  let inv := mkHardwareInventory 8 65536
    [with_available (gpu 0 "GPU 0" Cuda 16384) 8192; with_available (gpu 1 "GPU 1" Cuda 24576) 12288;
     gpu 2 "TPU" Tpu 32768] in
  map (total_memory_mb inv) [Cuda; Tpu; Rocm] ==? [Some (16384 + 24576); Some 32768; Some 0].

Definition hwaccel_accelerator_type_mapping : bool :=
  map type_from_hwaccel [HwCpu; HwCudaGpu; HwRocmGpu; HwMetalGpu; HwVulkanGpu; HwTpu; HwOther; HwOther]
  ==? [Cpu; Cuda; Rocm; Metal; Vulkan; Tpu; Cpu; Cpu].

Definition gib : N := 1024 * 1024 * 1024.
Definition cpu_profile (g : N) : HwProfile := mkHwProfile HwCpu "Cpu" (g * gib) None.
Definition cuda_profile (g : N) : HwProfile := mkHwProfile HwCudaGpu "CudaGpu" (g * gib) None.

Definition hwaccel_inventory_from_registry : bool :=
  let inv := from_hwaccel 8 [cpu_profile 64; cuda_profile 80; cuda_profile 80] in
  (inv_memory_total_mb inv ==? 64 * 1024) && (0 <? cpu_cores inv)%N &&
  (map accelerator (devices inv) ==? [Cuda; Cuda]) && (map memory_total_mb (devices inv) ==? [80 * 1024; 80 * 1024]).

Definition hwaccel_inventory_satisfies_after_detect : bool :=
  let inv := from_hwaccel 8 [cpu_profile 32; cuda_profile 24] in
  satisfies inv (needs [Cuda] 20000 1) && negb (satisfies inv (needs [Cuda] 50000 1)).

Definition hwaccel_empty_registry_gives_cpu_only : bool :=
  let inv := from_hwaccel 8 [cpu_profile 16] in
  bool_decide (length (devices inv) = 0%nat) && (inv_memory_total_mb inv ==? 16 * 1024).

Example resource_tests_pass : all_pass
  [resource_budget_default_values; hardware_requirement_default_is_empty;
   hardware_inventory_satisfies_cpu_only_requirement; hardware_inventory_satisfies_cuda_gpu_requirement;
   hardware_inventory_satisfies_tpu_passes_and_fails; hardware_inventory_satisfies_min_memory_mb_check;
   hardware_inventory_satisfies_min_device_count_check; hardware_inventory_satisfies_empty_accelerators_any_ok;
   accelerator_type_family; accelerator_type_is_gpu; satisfies_with_required_family_any_gpu;
   satisfies_family_with_memory_requirement; hardware_inventory_devices_of_type_filters_correctly;
   hardware_inventory_total_memory_mb_sums_correctly; hwaccel_accelerator_type_mapping;
   hwaccel_inventory_from_registry; hwaccel_inventory_satisfies_after_detect;
   hwaccel_empty_registry_gives_cpu_only] = true.
Proof. vm_compute. reflexivity. Qed.

(** ** core/agent.rs *)

Definition worker (key name : string) (required preferred : bool) (mb : option N) (hw : option HardwareRequirement)
    : AgentDefinition :=
  mkAgentDefinition key name "worker" "do work" None None [] "medium" None required preferred mb hw None.

Definition default_complexity_is_medium : bool := default_complexity ==? "medium".

Definition hardware_requirement_with_explicit_hardware_field : bool :=
  let req := hardware_requirement (worker "hw-agent" "HW Agent" true false (Some 4096) (Some (needs [Tpu] 32768 2))) in
  (accelerators req ==? [Tpu]) && (min_memory_mb req ==? 32768) && (min_device_count req ==? 2%nat).

Definition hardware_requirement_falls_back_to_legacy_gpu_fields : bool :=
  let req := hardware_requirement (worker "legacy-gpu" "Legacy GPU" true true (Some 8192) None) in
  (accelerators req ==? [Cuda; Rocm]) && (min_memory_mb req ==? 8192).

Definition hardware_requirement_no_gpu_returns_empty : bool :=
  hardware_requirement (worker "cpu-only" "CPU Only" false false None None) ==? HardwareRequirement_default.

(** serde_json reports an error on the text; its message is the parameter. *)
Definition from_json_invalid_returns_error : bool :=
  is_err (agent_from_json (fun _ => Err "expected ident at line 1 column 2") "not json").

Example agent_tests_pass : all_pass
  [default_complexity_is_medium; hardware_requirement_with_explicit_hardware_field;
   hardware_requirement_falls_back_to_legacy_gpu_fields; hardware_requirement_no_gpu_returns_empty;
   from_json_invalid_returns_error] = true.
Proof. vm_compute. reflexivity. Qed.

(** ** core/crew.rs *)

Definition is_sequential (p : ProcessMode) : bool := match p with Sequential => true | _ => false end.

Definition crew_spec_new_defaults : bool :=
  let c := CrewSpec_new 1 "my crew" in
  (crew_name c ==? "my crew") && bool_decide (length (agents c) = 0%nat) && bool_decide (length (tasks c) = 0%nat) &&
  is_sequential (process c) && (size (crew_metadata c) ==? 0%nat).

Definition crew_spec_default_trust_level : bool := trust_level (CrewSpec_new 1 "trust-test") ==? "basic".
Definition crew_spec_with_trust_level : bool :=
  trust_level (with_trust_level (CrewSpec_new 1 "strict-crew") "strict") ==? "strict".

Definition is_zero_handles_special_values : bool :=
  forallb is_zero [f64_zero; S754_nan; S754_infinity false; S754_infinity true] &&
  negb (is_zero (f64_lit 1 1000)) && negb (is_zero (f64_neg (f64_lit 1 1000))).

Example crew_tests_pass : all_pass
  [crew_spec_new_defaults; crew_spec_default_trust_level; crew_spec_with_trust_level;
   is_zero_handles_special_values] = true.
Proof. vm_compute. reflexivity. Qed.

(** ** core/task.rs *)

Definition task_new_sets_correct_defaults : bool :=
  let t := Task_new 1 "do something" in
  (description t ==? "do something") && is_none (expected_output t) && is_none (assigned_agent t) &&
  (priority t ==? Normal) && (status t ==? Pending) && (dependencies t ==? []) && (size (context t) ==? 0%nat).

Definition task_priority_ordering : bool :=
  (tier High <? tier Critical)%nat && (tier Normal <? tier High)%nat && (tier Low <? tier Normal)%nat &&
  (tier Background <? tier Low)%nat.

Example task_tests_pass : all_pass [task_new_sets_correct_defaults; task_priority_ordering] = true.
Proof. vm_compute. reflexivity. Qed.

(** ** core/message.rs *)

(** The clock does not go back. *)
Definition message_new_sets_timestamp : bool :=
  let msg := AgentMessage_new 1 100 2 ToAll (Obj [("hello", Str "world")]) in
  (100 <=? msg_timestamp msg)%Z && (msg_timestamp msg <=? 101)%Z.

Example message_tests_pass : all_pass [message_new_sets_timestamp] = true.
Proof. vm_compute. reflexivity. Qed.

(** ** core/error.rs *)

(** Whole seconds print with the unit s. *)
Definition debug_secs (d : Duration) : string := (pretty (d / 1000000000) ++ "s")%string.
Definition shows (e : AgnosaiError) (text : string) : bool := error_text debug_secs e ==? text.

Definition agent_not_found_display : bool := shows (AgentNotFound "agent-42") "agent not found: agent-42".
Definition task_not_found_display : bool := shows (TaskNotFound "task-99") "task not found: task-99".
Definition crew_not_found_display : bool := shows (CrewNotFound "crew-x") "crew not found: crew-x".
Definition invalid_definition_display : bool :=
  shows (InvalidDefinition "missing role") "invalid definition: missing role".
Definition cyclic_dag_display : bool := shows CyclicDAG "task DAG contains a cycle".
Definition scheduling_display : bool := shows (Scheduling "no slots") "scheduling error: no slots".
Definition llm_provider_display : bool := shows (LlmProvider "rate limited") "LLM provider error: rate limited".
Definition tool_execution_display : bool := shows (ToolExecution "crash") "tool execution error: crash".
Definition sandbox_display : bool := shows (SandboxError "oom") "sandbox error: oom".
Definition fleet_display : bool := shows (Fleet "unreachable") "fleet error: unreachable".
Definition ipc_display : bool := shows (Ipc "broken pipe") "IPC error: broken pipe".
Definition timeout_display : bool := shows (Timeout (from_secs 30)) "timeout after 30s".
Definition other_display : bool := shows (Other "something else") "something else".

Example error_tests_pass : all_pass
  [agent_not_found_display; task_not_found_display; crew_not_found_display; invalid_definition_display;
   cyclic_dag_display; scheduling_display; llm_provider_display; tool_execution_display; sandbox_display;
   fleet_display; ipc_display; timeout_display; other_display] = true.
Proof. vm_compute. reflexivity. Qed.
