(* ===== verification/RunnerTests.v ===== *)
(** * Tests of the crew runner, the orchestrator and the crew routes on the model

    The tests run without a model client, as in the sources: a task answers with
    its description. The world is the toy environment of [TaskExec], whose clock
    stands still; spawned tasks complete in reverse order. *)

From S2P Require Import Prelude.
From S2P Require Import F64.
From S2P Require Import Resource.
From S2P Require Import Core.
From S2P Require Import Kahn.
From S2P Require Import TopoTasks.
From S2P Require Import Scoring.
From S2P Require Import TaskExec.
From S2P Require Import CrewRunner.
From S2P Require Import CrewRunnerProofs.
From S2P Require Import Orchestrator.
From S2P Require Import CrewsRoute.
From S2P Require Import Testing.
From stdpp Require Import base gmap fin_maps strings pretty numbers list.

Local Open Scope test_scope.
Local Open Scope N_scope.
Local Open Scope string_scope.

#[local] Instance degree_iter : HashIter Uuid nat := canonical_iter.
#[local] Instance cost_iter : HashIter Uuid f64 := canonical_iter.

(** ** orchestrator/crew_runner.rs *)

Definition test_agent (key : string) : AgentDefinition :=
  mkAgentDefinition key key "tester" "test things" None None [] "medium" None false false None None None.
Definition test_task (id : Uuid) (desc : string) : Task := Task_new id desc.
(** Tasks with the ids 1, 2, ... *)
Definition test_tasks (descs : list string) : list Task := imap (fun i d => test_task (N.of_nat (S i)) d) descs.
Definition test_spec (ts : list Task) (p : ProcessMode) : CrewSpec :=
  mkCrewSpec 100 "test-crew" [test_agent "agent-a"; test_agent "agent-b"] ts p ∅ "basic".

Definition run_with (rt : Runtime (gmap string string)) (r : CrewRunner) : option (RunOutput (W := gmap string string)) :=
  match run toy_env rt r None ∅ with Returns (Ok out) => Some out | _ => None end.
Definition run_test (ts : list Task) (p : ProcessMode) : option CrewState :=
  out_state <$> run_with lifo_rt (CrewRunner_new (test_spec ts p)).
Definition outputs (st : CrewState) : list string := map output (results st).
Definition completed (st : CrewState) : bool := crew_status st ==? CCompleted.
Definition all_done (st : CrewState) : bool := forallb (fun r => res_status r ==? Completed) (results st).
(** Both outputs are there, in this order. *)
Definition position (st : CrewState) (text : string) : option nat := fst <$> list_find (fun o => o = text) (outputs st).
Definition before (st : CrewState) (x y : string) : bool :=
  match position st x, position st y with Some i, Some j => (i <? j)%nat | _, _ => false end.

Definition test_sequential_execution : bool :=
  let? (Some state) := Some (run_test (test_tasks ["step one"; "step two"; "step three"]) Sequential) in
  completed state && (outputs state ==? ["step one"; "step two"; "step three"]) && all_done state.

Definition test_sequential_empty : bool :=
  let? (Some state) := Some (run_test [] Sequential) in completed state && (outputs state ==? []).

Definition test_parallel_execution : bool :=
  let tasks_ := ["par one"; "par two"; "par three"; "par four"] in
  let? (Some state) := Some (run_test (test_tasks tasks_) (Parallel 2)) in
  completed state && bool_decide (length (results state) = 4%nat) &&
  forallb (fun t => bool_decide (t ∈ outputs state)) tasks_.

Definition test_parallel_single_concurrency : bool :=
  let? (Some state) := Some (run_test (test_tasks ["a"; "b"]) (Parallel 1)) in
  completed state && bool_decide (length (results state) = 2%nat).

Definition test_dag_execution_with_dependencies : bool :=
  let tasks_ := [test_task 1 "task A"; with_dependency (test_task 2 "task B") 1; with_dependency (test_task 3 "task C") 2] in
  let? (Some state) := Some (run_test tasks_ Dag) in
  completed state && bool_decide (length (results state) = 3%nat) &&
  before state "task A" "task B" && before state "task B" "task C".

Definition test_dag_diamond : bool :=
  let tasks_ := [test_task 1 "A"; with_dependency (test_task 2 "B") 1; with_dependency (test_task 3 "C") 1;
                 with_dependency (with_dependency (test_task 4 "D") 2) 3] in
  let? (Some state) := Some (run_test tasks_ Dag) in
  completed state && bool_decide (length (results state) = 4%nat) && before state "A" "B" && before state "A" "C" &&
  before state "B" "D" && before state "C" "D".

Definition test_dag_no_deps_runs_all : bool :=
  let? (Some state) := Some (run_test (test_tasks ["x"; "y"; "z"]) Dag) in
  completed state && bool_decide (length (results state) = 3%nat).

Definition test_topo_sort_detects_cycle : bool :=
  match topological_sort_tasks [with_dependency (test_task 1 "a") 2; with_dependency (test_task 2 "b") 1] with
  | Some r => is_err r
  | None => false
  end.

Definition test_pick_best_agent_empty_roster : bool := is_none (pick_best_agent [] (test_task 1 "something")).
Definition test_pick_best_agent_returns_some : bool :=
  (agent_key <$> pick_best_agent [test_agent "a1"] (test_task 1 "something")) ==? Some "a1".

Definition test_hierarchical_falls_back_to_sequential : bool :=
  let? (Some state) := Some (run_test (test_tasks ["h1"; "h2"]) (Hierarchical 50)) in
  completed state && (outputs state ==? ["h1"; "h2"]).

Definition test_build_system_prompt_no_agent : bool := str_contains "helpful AI assistant" (build_system_prompt None).

Definition test_build_system_prompt_full_agent : bool :=
  let agent := mkAgentDefinition "qa" "QA Lead" "quality assurance" "ensure zero defects" (Some "10 years in QA")
                 (Some "testing") ["selenium"; "pytest"] "medium" None false false None None None in
  let prompt := build_system_prompt (Some agent) in
  forallb (fun s => str_contains s prompt)
    ["QA Lead"; "quality assurance"; "ensure zero defects"; "10 years in QA"; "testing"; "selenium, pytest"].

Definition test_build_system_prompt_minimal_agent : bool :=
  let prompt := build_system_prompt (Some (test_agent "min")) in
  forallb (fun s => str_contains s prompt) ["min"; "tester"; "test things"] &&
  forallb (fun s => negb (str_contains s prompt)) ["Backstory"; "Domain"; "Available tools"].

Definition with_model (m : string) : option AgentDefinition :=
  Some (mkAgentDefinition "a" "a" "tester" "test things" None None [] "medium" (Some m) false false None None None).
Definition with_complexity (c : string) : option AgentDefinition :=
  Some (mkAgentDefinition c c "tester" "test things" None None [] c None false false None None None).

Definition test_select_model_no_agent : bool := select_model None ==? "llama3:70b".
Definition test_select_model_agent_override : bool := select_model (with_model "gpt-4o") ==? "gpt-4o".
Definition test_select_model_strips_provider_prefix : bool :=
  map (fun m => select_model (with_model m))
    ["ollama/llama3.2:1b"; "openai/gpt-4o"; "anthropic/claude-sonnet-4-20250514"]
  ==? ["llama3.2:1b"; "gpt-4o"; "claude-sonnet-4-20250514"].
Definition test_strip_provider_prefix_preserves_unknown : bool :=
  map strip_provider_prefix ["custom/model"; "llama3:70b"] ==? ["custom/model"; "llama3:70b"].
Definition test_select_model_routes_by_complexity : bool :=
  map (fun c => select_model (with_complexity c)) ["low"; "high"] ==? ["llama3:70b"; "llama3:405b"].

Definition test_execute_task_placeholder_when_no_llm : bool :=
  match execute_task toy_env false (test_task 1 "do something") (Some (test_agent "a")) false ∅ with
  | Some (result, _, _) => (res_status result ==? Completed) && (output result ==? "do something")
  | None => false
  end.

(** The types of the events a run sends. *)
Definition sent_types (log : list LogEntry) : list string :=
  omap (fun e => match e with Sent ev => Some (ev_type ev) | Audited _ _ _ _ => None end) log.
Definition count_of (x : string) (l : list string) : nat := length (List.filter (String.eqb x) l).

Definition test_events_emitted_during_sequential_run : bool :=
  let? (Some out) := Some (run_with lifo_rt (with_events (CrewRunner_new (test_spec (test_tasks ["step one"; "step two"]) Sequential)))) in
  let types := sent_types (out_log out) in
  completed (out_state out) && bool_decide ("crew_started" ∈ types) && bool_decide ("crew_completed" ∈ types) &&
  (count_of "task_started" types ==? 2%nat) && (count_of "task_completed" types ==? 2%nat).

#[local] Instance ProviderType_eq_dec : EqDecision ProviderType. Proof. solve_decision. Defined.
Definition inferred (p : ProviderType) (models : list string) : bool := forallb (fun m => infer_provider m ==? p) models.

Definition test_infer_provider_openai : bool := inferred OpenAi ["gpt-4o"; "gpt-4o-mini"; "o1"; "o3-mini"].
Definition test_infer_provider_anthropic : bool :=
  inferred Anthropic ["claude-sonnet-4"; "claude-sonnet-4-20250514"; "claude-opus-4"].
Definition test_infer_provider_deepseek : bool := inferred DeepSeek ["deepseek-chat"; "deepseek-coder"].
Definition test_infer_provider_local_models : bool := inferred Ollama ["llama3"; "llama3:70b"; "phi3"; "unknown-model"].
Definition test_infer_provider_case_insensitive : bool :=
  inferred OpenAi ["GPT-4o"] && inferred Anthropic ["Claude-Opus-4"] && inferred DeepSeek ["DEEPSEEK-CHAT"].

(** The world holds no cost: nothing is recorded when it comes back as it was. *)
Definition test_execute_task_placeholder_has_duration : bool :=
  match execute_task toy_env false (test_task 1 "check duration") (Some (test_agent "a")) false ∅ with
  | Some (result, w, _) => is_some (metadata result !! "task_duration_ms") && bool_decide (w = ∅)
  | None => false
  end.

Definition test_crew_profile_includes_cost : bool :=
  let? (Some state) := Some (run_test (test_tasks ["task a"]) Sequential) in
  let? (Some p) := Some (profile state) in
  f64_same (cost_usd p) f64_zero && (task_count p ==? 1%nat) && (wall_ms p <? 1000)%N.

Definition timed (ts : list Task) (p : ProcessMode) (n : nat) : bool :=
  let? (Some state) := Some (run_test ts p) in
  let? (Some pr) := Some (profile state) in
  completed state && (task_count pr ==? n) && (size (task_ms pr) ==? n).

Definition test_parallel_tasks_have_duration_metadata : bool :=
  timed (test_tasks ["par a"; "par b"; "par c"]) (Parallel 3) 3.
Definition test_dag_tasks_have_duration_metadata : bool :=
  timed [test_task 1 "dag root"; with_dependency (test_task 2 "dag child") 1] Dag 2.

Example crew_runner_tests_pass : all_pass
  [test_sequential_execution; test_sequential_empty; test_parallel_execution; test_parallel_single_concurrency;
   test_dag_execution_with_dependencies; test_dag_diamond; test_dag_no_deps_runs_all; test_topo_sort_detects_cycle;
   test_pick_best_agent_empty_roster; test_pick_best_agent_returns_some;
   test_hierarchical_falls_back_to_sequential; test_build_system_prompt_no_agent;
   test_build_system_prompt_full_agent; test_build_system_prompt_minimal_agent; test_select_model_no_agent;
   test_select_model_agent_override; test_select_model_strips_provider_prefix;
   test_strip_provider_prefix_preserves_unknown; test_select_model_routes_by_complexity;
   test_execute_task_placeholder_when_no_llm; test_events_emitted_during_sequential_run;
   test_infer_provider_openai; test_infer_provider_anthropic; test_infer_provider_deepseek;
   test_infer_provider_local_models; test_infer_provider_case_insensitive;
   test_execute_task_placeholder_has_duration; test_crew_profile_includes_cost;
   test_parallel_tasks_have_duration_metadata; test_dag_tasks_have_duration_metadata] = true.
Proof. vm_compute. reflexivity. Qed.

(** ** orchestrator/orchestrator.rs *)

Definition orch_agent : AgentDefinition := AgentDefinition_new "agent-a" "tester" "test things".
Definition orch_spec (id : Uuid) (name : string) (descs : list string) : CrewSpec :=
  with_process (with_tasks (with_agents (CrewSpec_new id name) [orch_agent]) (test_tasks descs)) Sequential.
Definition one_task (id : Uuid) (name : string) : CrewSpec := orch_spec id name ["do something"].
Definition fresh : Orchestrator := Orchestrator_new ResourceBudget_default.
(** [run_crew] that returns. *)
Definition run_on (o : Orchestrator) (s : CrewSpec) : option (CrewState * Orchestrator) :=
  match run_crew toy_env quiet_rt None None o s ∅ with Returns (Ok st, o') => Some (st, o') | _ => None end.
Definition audited (o : Orchestrator) : list string :=
  omap (fun e => match e with Audited ev _ _ _ => Some ev | Sent _ => None end) (audit_log o).
Definition levels_of (ev : string) (o : Orchestrator) : list string :=
  omap (fun e => match e with Audited x level _ _ => if String.eqb x ev then Some level else None | Sent _ => None end)
    (audit_log o).
Definition uuid_text (_ : Uuid) : string := "id".

Definition new_creates_orchestrator : bool := is_some (max_concurrent_tasks (budget fresh)).

Definition run_crew_completes_successfully : bool :=
  let? (Some (state, _)) := Some (run_on fresh (one_task 1 "test-crew")) in
  (state_crew_id state ==? 1) && completed state && bool_decide (length (results state) = 1%nat).

(** The runner that [accept_crew] builds has the sender of the bus. *)
Definition run_crew_with_events : bool :=
  let o := orch_with_events fresh (bus_subscribe EventBus_new 1) in
  let '(_, r, o1) := accept_crew uuid_text o (one_task 1 "evented-crew") in
  let? (Some out) := Some (run_with quiet_rt r) in
  let types := sent_types (out_log out) in
  completed (out_state out) && bool_decide ("crew_started" ∈ types) && bool_decide ("crew_completed" ∈ types).

(** A channel that is subscribed to afterwards is a new one. *)
Definition run_crew_cleans_up_event_channel : bool :=
  let? (Some (_, o)) := Some (run_on (orch_with_events fresh EventBus_new) (one_task 1 "cleanup-crew")) in
  let? (Some bus) := Some (events o) in
  negb (bus_has bus 1) && (bus_subscribe bus 1 !! 1 ==? Some 1).

Definition cancel_existing_crew : bool :=
  let? (Some (_, o)) := Some (run_on fresh (one_task 1 "cancel-crew")) in is_ok (cancel_crew uuid_text o 1).1.

Definition cancel_nonexistent_crew_returns_error : bool :=
  let- e := (cancel_crew uuid_text fresh 77).1 in
  str_contains "crew not found" (error_text (fun _ => "") e).

Definition multiple_crews_tracked_independently : bool :=
  let? (Some (s1, o)) := Some (run_on fresh (one_task 1 "crew-1")) in
  let? (Some (s2, _)) := Some (run_on o (one_task 2 "crew-2")) in
  (state_crew_id s1 ==? 1) && (state_crew_id s2 ==? 2).

Definition budget_accessor_returns_default : bool := is_some (max_concurrent_tasks (budget fresh)).

(** The flag of the runner is set before it starts. *)
Definition cancelled_rt {W} : Runtime W := mkRuntime W (fun w => (true, w)) (fun _ n => seq 0 n) id "panic".
Definition cancel_token_signals_crew_runner : bool :=
  let spec := orch_spec 1 "cancel-test" (map (fun i => "task " ++ pretty i) (seq 0 5)) in
  let? (Some out) := Some (run_with cancelled_rt (CrewRunner_new spec)) in
  (crew_status (out_state out) ==? CCancelled) && (outputs (out_state out) ==? []).

(** The integrity of the chain belongs to its crate. *)
Definition audit_chain_records_crew_lifecycle : bool :=
  let? (Some (_, o)) := Some (run_on fresh (one_task 1 "audit-crew")) in
  (2 <=? length (audit_log o))%nat && bool_decide ("crew_accepted" ∈ audited o) && bool_decide ("crew_finished" ∈ audited o).

Definition audit_chain_records_task_events : bool :=
  let? (Some (_, o)) := Some (run_on fresh (orch_spec 1 "audit-tasks" ["task A"; "task B"])) in
  levels_of "task_completed" o ==? ["info"; "info"].

Definition audit_chain_records_cancel_event : bool :=
  let? (Some (_, o)) := Some (run_on fresh (one_task 1 "audit-cancel")) in
  levels_of "crew_cancelled" (cancel_crew uuid_text o 1).2 ==? ["warn"].

Example orchestrator_tests_pass : all_pass
  [new_creates_orchestrator; run_crew_completes_successfully; run_crew_with_events; run_crew_cleans_up_event_channel;
   cancel_existing_crew; cancel_nonexistent_crew_returns_error; multiple_crews_tracked_independently;
   budget_accessor_returns_default; cancel_token_signals_crew_runner; audit_chain_records_crew_lifecycle;
   audit_chain_records_task_events; audit_chain_records_cancel_event] = true.
Proof. vm_compute. reflexivity. Qed.

(** ** server/routes/crews.rs *)

Definition make_agent : AgentDefinition :=
  mkAgentDefinition "a" "Agent" "role" "goal" None None [] "medium" None false false None None None.
Definition make_task_with_deps (desc : string) (deps : list nat) : TaskRequest := mkTaskRequest desc None None deps.
Definition make_task (desc : string) : TaskRequest := make_task_with_deps desc [].
Definition make_request (name : string) (ts : list TaskRequest) : CrewRunRequest :=
  mkCrewRunRequest name [make_agent] ts None None.
(** The request is refused with a message that holds the text. *)
Definition refused (req : CrewRunRequest) (text : string) : bool :=
  match validate_crew_request req with Returns (Err e) => str_contains text e | _ => false end.

(** The handler on a fresh server; the ids it draws are 200, 201 and 1, 2, ... *)
Definition post_crews (req : CrewRunRequest) : option (Result CrewRunResponse HttpError) :=
  match create_crew toy_env quiet_rt 200 201 (map N.of_nat (seq 1 (length (rq_tasks req)))) None None fresh req ∅ with
  | Returns (r, _) => Some r
  | _ => None
  end.
Definition error_of (v : Value) : string := default "" (v ← json_get v "error"; as_str v).

Definition post_crews_with_valid_body_returns_result : bool :=
  let? (Some (Ok resp)) := Some (post_crews (mkCrewRunRequest "test-crew" [make_agent]
         [mkTaskRequest "Run tests" (Some "test results") None []] None None)) in
  (rs_crew_id resp ==? 200) && (rs_status resp ==? "completed").

Definition post_crews_with_empty_agents_returns_bad_request : bool :=
  let? (Some (Err (code, body))) := Some (post_crews (mkCrewRunRequest "empty-crew" [] [] None None)) in
  (code ==? BAD_REQUEST) && str_contains "agent" (error_of body).

Definition validate_rejects_empty_name : bool := refused (make_request "" [make_task "do stuff"]) "name".
Definition validate_rejects_missing_tasks : bool := refused (make_request "crew" []) "task".
Definition validate_rejects_self_dependency : bool :=
  refused (make_request "crew" [make_task_with_deps "task0" [0%nat]]) "self-dependency".
Definition validate_rejects_out_of_range_dependency : bool :=
  refused (make_request "crew" [make_task "task0"; make_task_with_deps "task1" [99%nat]]) "out of range".
Definition validate_rejects_dependency_cycle : bool :=
  refused (make_request "crew" [make_task_with_deps "task0" [1%nat]; make_task_with_deps "task1" [0%nat]]) "cycle".
Definition validate_accepts_valid_dag : bool :=
  match validate_crew_request (make_request "crew"
          [make_task "task0"; make_task_with_deps "task1" [0%nat]; make_task_with_deps "task2" [0%nat; 1%nat]]) with
  | Returns r => is_ok r
  | _ => false
  end.

Definition get_crew_returns_not_found : bool :=
  let- (code, body) := get_crew (fun _ => Null) fresh 77 in
  (code ==? NOT_FOUND) && str_contains "not found" (error_of body).

Definition post_crews_dag_mode : bool :=
  let? (Some (Ok resp)) := Some (post_crews (mkCrewRunRequest "dag-crew" [make_agent]
         [make_task "first task"; make_task_with_deps "second task" [0%nat]] (Some "dag") None)) in
  rs_crew_id resp ==? 200.

Example crews_route_tests_pass : all_pass
  [post_crews_with_valid_body_returns_result; post_crews_with_empty_agents_returns_bad_request;
   validate_rejects_empty_name; validate_rejects_missing_tasks; validate_rejects_self_dependency;
   validate_rejects_out_of_range_dependency; validate_rejects_dependency_cycle; validate_accepts_valid_dag;
   get_crew_returns_not_found; post_crews_dag_mode] = true.
Proof. vm_compute. reflexivity. Qed.
