(* ===== verification/ToolTests.v ===== *)
(** * Tests of src/rust-old/src/tools/ and of sandbox/policy.rs on the model

    A tool under test has no server to talk to: its client refuses every request,
    and a mocked server is the list of headers or attempts the test sets up. *)

From S2P Require Import Prelude.
From S2P Require Import F64.
From S2P Require Import Core.
From S2P Require Import Ssrf.
From S2P Require Import Tools.
From S2P Require Import ServiceTools.
From S2P Require Import HttpTools.
From S2P Require Import Sandbox.
From S2P Require Import Testing.
From stdpp Require Import base gmap fin_maps strings pretty numbers list.

Local Open Scope test_scope.
Local Open Scope N_scope.
Local Open Scope string_scope.

(** [json!] strings; the value type has no general equality test. *)
Definition is_str (v : Value) (s : string) : bool := match as_str v with Some x => x ==? s | None => false end.
Definition is_null (v : Value) : bool := match v with Null => true | _ => false end.
Definition nonempty (s : string) : bool := negb (String.eqb s "").

(** The output of a run that ends. *)
Definition out_of (t : NativeTool) (input : gmap string Value) : option ToolOutput :=
  match execute t input with Returns o => Some o | _ => None end.
Definition succeeds (t : NativeTool) (input : gmap string Value) (s : string) : bool :=
  match out_of t input with Some o => success o && is_str (result o) s && is_none (error o) | None => false end.
(** The run fails with a message that holds the text. *)
Definition fails (t : NativeTool) (input : gmap string Value) (text : string) : bool :=
  match out_of t input with
  | Some o => negb (success o) && match error o with Some e => str_contains text e | None => false end
  | None => false
  end.
Definition strs (l : list (string * string)) : gmap string Value := list_to_map (map (fun kv => (kv.1, Str kv.2)) l).
(** A parameter of a schema with its type and whether it is required. *)
Definition has_param (t : NativeTool) (p ty : string) (req : bool) : bool :=
  match List.find (fun x => String.eqb (ps_name x) p) (ts_parameters (schema t)) with
  | Some x => (param_type x ==? ty) && (required x ==? req)
  | None => false
  end.
Definition schema_is (t : NativeTool) (n : string) (count : nat) : bool :=
  (ts_name (schema t) ==? n) && bool_decide (length (ts_parameters (schema t)) = count).

(** ** tools/native.rs *)

Definition tool_output_ok_has_correct_fields : bool :=
  let output := tool_ok (Num (PosInt 42)) in
  success output && (as_u64 (result output) ==? Some 42) && is_none (error output).
Definition tool_output_err_has_correct_fields : bool :=
  let output := tool_err "something broke" in
  negb (success output) && is_null (result output) && (error output ==? Some "something broke").
Definition tool_input_get_str_returns_none_for_missing : bool := is_none (get_str ∅ "missing").
Definition tool_input_get_str_returns_none_for_wrong_type : bool :=
  is_none (get_str {["count" := Num (PosInt 42)]} "count").
Definition tool_input_get_str_returns_value : bool := get_str {["name" := Str "alice"]} "name" ==? Some "alice".
Definition tool_input_get_f64_returns_value : bool :=
  match get_f64 {["ratio" := Num (Float (f64_lit 3 2))]} "ratio" with
  | Some x => f64_same x (f64_lit 3 2)
  | None => false
  end.
Definition tool_input_get_u64_returns_value : bool := get_u64 {["count" := Num (PosInt 42)]} "count" ==? Some 42.
Definition tool_input_get_u64_returns_none_for_negative : bool :=
  is_none (get_u64 {["count" := Num (NegInt (-1))]} "count").

Example native_tests_pass : all_pass
  [tool_output_ok_has_correct_fields; tool_output_err_has_correct_fields;
   tool_input_get_str_returns_none_for_missing; tool_input_get_str_returns_none_for_wrong_type;
   tool_input_get_str_returns_value; tool_input_get_f64_returns_value; tool_input_get_u64_returns_value;
   tool_input_get_u64_returns_none_for_negative] = true.
Proof. vm_compute. reflexivity. Qed.

(** ** tools/builtin/echo.rs *)

Definition echo_returns_message : bool := succeeds EchoTool (strs [("message", "hello")]) "hello".
Definition echo_missing_param : bool := fails EchoTool ∅ "".
Definition echo_schema : bool := schema_is EchoTool "echo" 1 && forallb required (ts_parameters (schema EchoTool)).

(** ** tools/builtin/json_transform.rs *)

Definition alice : Value := Obj [("name", Str "Alice"); ("age", Num (PosInt 30))].
Definition extract_field : bool := succeeds JsonTransformTool {["data" := alice; "field" := Str "name"]} "Alice".
Definition missing_field : bool :=
  fails JsonTransformTool {["data" := Obj [("name", Str "Alice")]; "field" := Str "email"]} "not found".
Definition missing_data_param : bool := fails JsonTransformTool (strs [("field", "name")]) "".

Example builtin_tests_pass : all_pass
  [echo_returns_message; echo_missing_param; echo_schema; extract_field; missing_field; missing_data_param] = true.
Proof. vm_compute. reflexivity. Qed.

(** ** tools/registry.rs *)

#[local] Instance tool_iter : HashIter string NativeTool := canonical_iter.
Definition registry_of (l : list NativeTool) : gmap string NativeTool := foldl register ToolRegistry_new l.
Definition both : gmap string NativeTool := registry_of [EchoTool; JsonTransformTool].
Definition schema_names (r : gmap string NativeTool) : list string := map ts_name (list_tools r).

Definition register_and_get : bool :=
  let reg := registry_of [EchoTool] in
  has reg "echo" && (count reg ==? 1%nat) && ((name <$> get reg "echo") ==? Some "echo").

Definition list_schemas : bool :=
  bool_decide (length (list_tools both) = 2%nat) && bool_decide ("echo" ∈ schema_names both) &&
  bool_decide ("json_transform" ∈ schema_names both).

Definition remove_tool : bool :=
  let (removed, reg) := Tools.remove (registry_of [EchoTool]) "echo" in
  removed && negb (has reg "echo") && (count reg ==? 0%nat) && negb (Tools.remove reg "echo").1.

Definition get_missing_returns_none : bool := is_none (get ToolRegistry_new "nonexistent").
Definition register_multiple_tools_verify_count : bool :=
  (count both ==? 2%nat) && has both "echo" && has both "json_transform".

Definition register_same_name_overwrites : bool :=
  let reg := registry_of [EchoTool] in
  let? (Some t) := Some (get reg "echo") in
  let reg' := register reg EchoTool in
  (count reg ==? 1%nat) && bool_decide (length (ts_parameters (schema t)) = 1%nat) && (count reg' ==? 1%nat) &&
  has reg' "echo".

(** The map's lock serializes the operations of the twenty tasks: one of the
    orders, with the reads that change nothing left out. *)
Definition concurrent_access : bool :=
  let reg := registry_of (concat (replicate 10 [EchoTool; JsonTransformTool])) in
  has reg "echo" && has reg "json_transform" && (count reg ==? 2%nat).

Definition list_returns_schemas_for_all_registered : bool :=
  let schemas := list_tools both in
  let named n := List.find (fun s => String.eqb (ts_name s) n) schemas in
  let? (Some echo) := Some (named "echo") in
  let? (Some transform) := Some (named "json_transform") in
  bool_decide (length schemas = 2%nat) && forallb (fun s => nonempty (ts_name s) && nonempty (ts_description s)) schemas &&
  (map ps_name (ts_parameters echo) ==? ["message"]) && bool_decide (length (ts_parameters transform) = 2%nat).

Definition is_tool_allowed_empty_list_permits_all : bool := is_tool_allowed "anything" [].
Definition is_tool_allowed_checks_list : bool :=
  let allowed := ["echo"; "json_transform"] in
  is_tool_allowed "echo" allowed && is_tool_allowed "json_transform" allowed && negb (is_tool_allowed "load_testing" allowed).
Definition get_allowed_blocks_unlisted_tool : bool :=
  is_some (get_allowed both "echo" ["echo"]) && is_none (get_allowed both "json_transform" ["echo"]).
Definition get_allowed_empty_list_allows_all : bool := is_some (get_allowed (registry_of [EchoTool]) "echo" []).
Definition get_allowed_missing_tool_returns_none : bool := is_none (get_allowed ToolRegistry_new "nonexistent" []).
Definition remove_nonexistent_returns_false : bool :=
  forallb (fun n => negb (Tools.remove ToolRegistry_new n).1) ["does_not_exist"; ""; "some_random_tool"].

Example tool_registry_tests_pass : all_pass
  [register_and_get; list_schemas; remove_tool; get_missing_returns_none; register_multiple_tools_verify_count;
   register_same_name_overwrites; concurrent_access; list_returns_schemas_for_all_registered;
   is_tool_allowed_empty_list_permits_all; is_tool_allowed_checks_list; get_allowed_blocks_unlisted_tool;
   get_allowed_empty_list_allows_all; get_allowed_missing_tool_returns_none; remove_nonexistent_returns_false] = true.
Proof. vm_compute. reflexivity. Qed.

(** ** tools/builtin/delta.rs *)

Definition no_server (_ : HttpRequest) : Result (Result Value string) string := Err "connection refused".
Definition list_repos : NativeTool := DeltaListRepos_new no_server.
Definition trigger : NativeTool := DeltaTriggerPipeline_new no_server.
Definition get_pipeline : NativeTool := DeltaGetPipeline_new no_server.

Definition delta_list_repos_name : bool := name list_repos ==? "delta_list_repos".
Definition delta_list_repos_description_non_empty : bool := nonempty (tool_description list_repos).
Definition delta_list_repos_schema_no_params : bool := schema_is list_repos "delta_list_repos" 0.
Definition delta_trigger_pipeline_name : bool := name trigger ==? "delta_trigger_pipeline".
Definition delta_trigger_pipeline_description_non_empty : bool := nonempty (tool_description trigger).
Definition delta_trigger_pipeline_schema_parameters : bool :=
  schema_is trigger "delta_trigger_pipeline" 3 && has_param trigger "owner" "string" true &&
  has_param trigger "repo" "string" true && has_param trigger "branch" "string" false.
Definition delta_trigger_pipeline_missing_owner : bool := fails trigger (strs [("repo", "my-repo")]) "owner".
Definition delta_trigger_pipeline_missing_repo : bool := fails trigger (strs [("owner", "my-org")]) "repo".
Definition delta_trigger_pipeline_missing_all_required : bool := fails trigger ∅ "".
Definition delta_get_pipeline_name : bool := name get_pipeline ==? "delta_get_pipeline".
Definition delta_get_pipeline_description_non_empty : bool := nonempty (tool_description get_pipeline).
Definition delta_get_pipeline_schema_parameters : bool :=
  schema_is get_pipeline "delta_get_pipeline" 3 && has_param get_pipeline "owner" "string" true &&
  has_param get_pipeline "repo" "string" true && has_param get_pipeline "pipeline_id" "string" true.
Definition delta_get_pipeline_missing_owner : bool :=
  fails get_pipeline (strs [("repo", "my-repo"); ("pipeline_id", "123")]) "owner".
Definition delta_get_pipeline_missing_repo : bool :=
  fails get_pipeline (strs [("owner", "my-org"); ("pipeline_id", "123")]) "repo".
Definition delta_get_pipeline_missing_pipeline_id : bool :=
  fails get_pipeline (strs [("owner", "my-org"); ("repo", "my-repo")]) "pipeline_id".
Definition delta_get_pipeline_missing_all_required : bool := fails get_pipeline ∅ "".

Example delta_tests_pass : all_pass
  [delta_list_repos_name; delta_list_repos_description_non_empty; delta_list_repos_schema_no_params;
   delta_trigger_pipeline_name; delta_trigger_pipeline_description_non_empty;
   delta_trigger_pipeline_schema_parameters; delta_trigger_pipeline_missing_owner;
   delta_trigger_pipeline_missing_repo; delta_trigger_pipeline_missing_all_required; delta_get_pipeline_name;
   delta_get_pipeline_description_non_empty; delta_get_pipeline_schema_parameters; delta_get_pipeline_missing_owner;
   delta_get_pipeline_missing_repo; delta_get_pipeline_missing_pipeline_id;
   delta_get_pipeline_missing_all_required] = true.
Proof. vm_compute. reflexivity. Qed.

(** ** tools/builtin/mneme.rs *)

Definition search : NativeTool := MnemeSearch_new no_server.
Definition get_note : NativeTool := MnemeGetNote_new no_server.
Definition create_note : NativeTool := MnemeCreateNote_new no_server.

Definition mneme_search_name : bool := name search ==? "mneme_search".
Definition mneme_search_description_non_empty : bool := nonempty (tool_description search).
Definition mneme_search_schema_parameters : bool :=
  schema_is search "mneme_search" 2 && has_param search "query" "string" true && has_param search "limit" "number" false.
Definition mneme_search_missing_query : bool := fails search ∅ "query".
Definition mneme_get_note_name : bool := name get_note ==? "mneme_get_note".
Definition mneme_get_note_description_non_empty : bool := nonempty (tool_description get_note).
Definition mneme_get_note_schema_parameters : bool :=
  schema_is get_note "mneme_get_note" 1 && has_param get_note "note_id" "string" true.
Definition mneme_get_note_missing_note_id : bool := fails get_note ∅ "note_id".
Definition mneme_create_note_name : bool := name create_note ==? "mneme_create_note".
Definition mneme_create_note_description_non_empty : bool := nonempty (tool_description create_note).
Definition mneme_create_note_schema_parameters : bool :=
  schema_is create_note "mneme_create_note" 3 && has_param create_note "title" "string" true &&
  has_param create_note "content" "string" true && has_param create_note "tags" "array" false.
Definition mneme_create_note_missing_title : bool := fails create_note (strs [("content", "body text")]) "title".
Definition mneme_create_note_missing_content : bool := fails create_note (strs [("title", "My Note")]) "content".
Definition mneme_create_note_missing_all_required : bool := fails create_note ∅ "".

Example mneme_tests_pass : all_pass
  [mneme_search_name; mneme_search_description_non_empty; mneme_search_schema_parameters; mneme_search_missing_query;
   mneme_get_note_name; mneme_get_note_description_non_empty; mneme_get_note_schema_parameters;
   mneme_get_note_missing_note_id; mneme_create_note_name; mneme_create_note_description_non_empty;
   mneme_create_note_schema_parameters; mneme_create_note_missing_title; mneme_create_note_missing_content;
   mneme_create_note_missing_all_required] = true.
Proof. vm_compute. reflexivity. Qed.

(** ** tools/builtin/synapse.rs *)

Definition infer : NativeTool := SynapseInfer_new no_server.
Definition list_models : NativeTool := SynapseListModels_new no_server.
Definition synapse_state : NativeTool := SynapseStatus_new no_server.

Definition synapse_infer_name : bool := name infer ==? "synapse_infer".
Definition synapse_infer_description_non_empty : bool := nonempty (tool_description infer).
Definition synapse_infer_schema_parameters : bool :=
  schema_is infer "synapse_infer" 4 && has_param infer "model" "string" true && has_param infer "prompt" "string" true &&
  has_param infer "max_tokens" "number" false && has_param infer "temperature" "number" false.
Definition synapse_infer_missing_model : bool := fails infer (strs [("prompt", "hello")]) "model".
Definition synapse_infer_missing_prompt : bool := fails infer (strs [("model", "gpt-4")]) "prompt".
Definition synapse_infer_missing_all_required : bool := fails infer ∅ "".
Definition synapse_list_models_name : bool := name list_models ==? "synapse_list_models".
Definition synapse_list_models_description_non_empty : bool := nonempty (tool_description list_models).
Definition synapse_list_models_schema_no_params : bool := schema_is list_models "synapse_list_models" 0.
Definition synapse_status_name : bool := name synapse_state ==? "synapse_status".
Definition synapse_status_description_non_empty : bool := nonempty (tool_description synapse_state).
Definition synapse_status_schema_no_params : bool := schema_is synapse_state "synapse_status" 0.

Example synapse_tests_pass : all_pass
  [synapse_infer_name; synapse_infer_description_non_empty; synapse_infer_schema_parameters;
   synapse_infer_missing_model; synapse_infer_missing_prompt; synapse_infer_missing_all_required;
   synapse_list_models_name; synapse_list_models_description_non_empty; synapse_list_models_schema_no_params;
   synapse_status_name; synapse_status_description_non_empty; synapse_status_schema_no_params] = true.
Proof. vm_compute. reflexivity. Qed.

(** ** tools/builtin/security_audit.rs *)

(** The parsed forms of the URLs of the tests; the mocked servers listen on 127.0.0.1. *)
Definition at_v4 (a b c d : N) (text : string) : option Url := Some (mkUrl "http" (Some (HostIpv4 (mkIpv4 a b c d))) (Some text)).
Definition test_parse (url : string) : option Url :=
  if String.eqb url "http://192.168.1.1/admin" then at_v4 192 168 1 1 "192.168.1.1"
  else if String.eqb url "http://10.0.0.1/secret" then at_v4 10 0 0 1 "10.0.0.1"
  else if starts_with "http://127.0.0.1:" url then at_v4 127 0 0 1 "127.0.0.1"
  else None.
Definition fmt0 (_ : f64) : string := "0".
Definition base_url : string := "http://127.0.0.1:40001".

(** The headers [mock_audit_server] answers every method with. *)
Definition mock_audit_server (security_headers cors_wildcard : bool) (k : string) : option (option string) :=
  let sec := [("content-security-policy", "default-src 'self'"); ("strict-transport-security", "max-age=63072000");
              ("x-frame-options", "DENY"); ("x-content-type-options", "nosniff"); ("referrer-policy", "no-referrer")] in
  let cors := [("access-control-allow-origin", "*"); ("access-control-allow-credentials", "true")] in
  let headers := ((if security_headers then sec else []) ++ (if cors_wildcard then cors else []) ++
                  [("server", "Apache/2.4.99")])%list in
  (fun kv => Some kv.2) <$> List.find (fun kv => String.eqb kv.1 k) headers.

Definition audited (security_headers cors_wildcard : bool) : option AuditResult :=
  let h := mock_audit_server security_headers cors_wildcard in
  match run_security_audit fmt0 (Ok tt) (Ok h) (Ok h) base_url with Ok r => Some r | Err _ => None end.
Definition audit_tool : NativeTool :=
  let h := mock_audit_server true false in SecurityAuditTool test_parse fmt0 (Ok tt) (Ok h) (Ok h) (fun _ => Null).

Definition security_audit_name : bool := name audit_tool ==? "security_audit".
Definition security_audit_schema_has_target_url : bool := has_param audit_tool "target_url" "string" true.
Definition security_audit_missing_url : bool := fails audit_tool ∅ "target_url".
Definition security_audit_ssrf_rejects_private_ip : bool :=
  fails audit_tool (strs [("target_url", "http://192.168.1.1/admin")]) "private".

Definition audit_detects_missing_security_headers : bool :=
  let? (Some r) := Some (audited false false) in
  f64_lt (security_score r) (f64_of_N 50) &&
  existsb (fun m => mh_header m ==? "content-security-policy") (missing (header_analysis r)).

Definition audit_scores_well_with_security_headers : bool :=
  let? (Some r) := Some (audited true false) in
  f64_ge (score (header_analysis r)) (f64_of_N 50) && (0 <? length (present (header_analysis r)))%nat.

Definition audit_detects_cors_wildcard_with_credentials : bool :=
  let? (Some r) := Some (audited false true) in
  let cors := cors_analysis r in
  allows_all_origins cors && allows_credentials cors && misconfigured cors &&
  existsb (fun v => vuln_type v ==? "cors_misconfiguration") (vulnerabilities r).

Definition audit_detects_information_disclosure : bool :=
  let? (Some r) := Some (audited true false) in existsb (str_contains "Apache") (information_disclosure r).

Definition audit_recommends_https_for_http_target : bool :=
  let? (Some r) := Some (audited true false) in existsb (str_contains "HTTPS") (recommendations r).

Definition audit_execute_trait_ssrf_blocks_localhost : bool :=
  fails audit_tool (strs [("target_url", base_url)]) "private".

Example security_audit_tests_pass : all_pass
  [security_audit_name; security_audit_schema_has_target_url; security_audit_missing_url;
   security_audit_ssrf_rejects_private_ip; audit_detects_missing_security_headers;
   audit_scores_well_with_security_headers; audit_detects_cors_wildcard_with_credentials;
   audit_detects_information_disclosure; audit_recommends_https_for_http_target;
   audit_execute_trait_ssrf_blocks_localhost] = true.
Proof. vm_compute. reflexivity. Qed.

(** ** tools/builtin/load_testing.rs *)

(** Every request of a user takes 10 ms, so that a test of one second ends. *)
Definition steady (status : option N) (_ : nat) : option (nat -> Attempt) :=
  Some (fun i => mkAttempt (N.of_nat i * from_millis 10) status (from_millis 10)).
Definition load_tool : NativeTool := LoadTestingTool test_parse (Ok tt) 0 (steady (Some 200)) (fun _ => Null).
Definition loaded (status : option N) (users : nat) : option LoadTestResult :=
  match run_load_test (Ok tt) 0 (steady status) "http://127.0.0.1:40001/ok" users (from_secs 1) with
  | Ok r => Some r
  | Err _ => None
  end.

Definition load_testing_name : bool := name load_tool ==? "load_testing".
Definition load_testing_schema_has_target_url : bool := has_param load_tool "target_url" "string" true.
Definition load_testing_missing_url : bool := fails load_tool ∅ "target_url".
Definition load_test_ssrf_rejects_private_ip : bool :=
  fails load_tool (strs [("target_url", "http://10.0.0.1/secret")]) "private".

Definition run_load_test_against_mock_server : bool :=
  let? (Some r) := Some (loaded (Some 200) 2) in
  (0 <? total_requests r)%nat && (0 <? successful_requests r)%nat && (failed_requests r ==? 0%nat) &&
  f64_gt (avg_latency_ms r) f64_zero && f64_gt (p50_latency_ms r) f64_zero && f64_gt (throughput_rps r) f64_zero &&
  f64_lt (error_rate r) (f64_lit 1 4503599627370496) &&
  (default 0 (status_codes r !! 200) ==? N.of_nat (total_requests r)).

Definition run_load_test_records_error_status_codes : bool :=
  let? (Some r) := Some (loaded (Some 500) 1) in (0 <? total_requests r)%nat && is_some (status_codes r !! 500).

(** The port refuses every connection. *)
Definition run_load_test_connection_refused : bool :=
  match loaded None 1 with
  | Some r => (0 <? failed_requests r)%nat || f64_gt (error_rate r) f64_zero
  | None => true
  end.

Definition load_test_execute_trait_ssrf_blocks_localhost : bool :=
  fails load_tool (strs [("target_url", "http://127.0.0.1:40001/ok")]) "private".

Example load_testing_tests_pass : all_pass
  [load_testing_name; load_testing_schema_has_target_url; load_testing_missing_url; load_test_ssrf_rejects_private_ip;
   run_load_test_against_mock_server; run_load_test_records_error_status_codes; run_load_test_connection_refused;
   load_test_execute_trait_ssrf_blocks_localhost] = true.
Proof. vm_compute. reflexivity. Qed.

(** ** sandbox/policy.rs *)

#[local] Instance IsolationLevel_eq_dec : EqDecision IsolationLevel. Proof. solve_decision. Defined.
Definition needing (l : IsolationLevel) (fs net : bool) : SandboxPolicy := mkSandboxPolicy l fs net 30 0.

Definition isolation_level_ordering : bool := level_lt LNone LWasm && level_lt LWasm LProcess && level_lt LProcess LOci.
Definition isolation_strength_values : bool := map strength [LNone; LWasm; LProcess; LOci] ==? [0; 1; 2; 3].
Definition native_policy_no_sandbox : bool :=
  (min_isolation policy_native ==? LNone) && (effective_isolation policy_native ==? LNone).
Definition wasm_policy_defaults : bool :=
  (min_isolation policy_wasm ==? LWasm) && negb (needs_filesystem policy_wasm) && negb (needs_network policy_wasm) &&
  (effective_isolation policy_wasm ==? LWasm).
Definition process_policy_needs_filesystem : bool :=
  needs_filesystem policy_process && (effective_isolation policy_process ==? LProcess).
Definition container_policy_needs_network : bool :=
  needs_network policy_container && (effective_isolation policy_container ==? LOci).
Definition effective_isolation_upgrades_for_network : bool := effective_isolation (needing LWasm false true) ==? LOci.
Definition effective_isolation_upgrades_for_filesystem : bool :=
  effective_isolation (needing LWasm true false) ==? LProcess.
Definition effective_isolation_no_downgrade : bool := effective_isolation (needing LOci false false) ==? LOci.
Definition default_policy_is_wasm : bool := min_isolation SandboxPolicy_default ==? LWasm.

Example policy_tests_pass : all_pass
  [isolation_level_ordering; isolation_strength_values; native_policy_no_sandbox; wasm_policy_defaults;
   process_policy_needs_filesystem; container_policy_needs_network; effective_isolation_upgrades_for_network;
   effective_isolation_upgrades_for_filesystem; effective_isolation_no_downgrade; default_policy_is_wasm] = true.
Proof. vm_compute. reflexivity. Qed.
