(* ===== verification/HostTests.v ===== *)
(** * Tests of the server's plumbing, the fleet's planning, the plan cache, the
      sandboxes and the telemetry on the model *)

From S2P Require Import Prelude.
From S2P Require Import F64.
From S2P Require Import Resource.
From S2P Require Import Core.
From S2P Require Import Text.
From S2P Require Import TaskExec.
From S2P Require Import Orchestrator.
From S2P Require Import EventStream.
From S2P Require Import Middleware.
From S2P Require Import Planning.
From S2P Require Import PlanCache.
From S2P Require Import Sandbox.
From S2P Require Import Routes.
From S2P Require Import HttpTools.
From S2P Require Import Telemetry.
From S2P Require Import Testing.
From stdpp Require Import base gmap fin_maps strings pretty numbers list.

Local Open Scope test_scope.
Local Open Scope N_scope.
Local Open Scope string_scope.

(** A fixed number of decimals, for the values of the tests. *)
Definition zero_pad (k : nat) (s : string) : string :=
  String.append (String.concat "" (replicate (k - String.length s) "0")) s.
Definition fmt_decimals (k : nat) (x : f64) : string :=
  let n := f64_as_u64 (f64_round (f64_mul x (f64_of_N (10 ^ N.of_nat k)))) in
  pretty (n / 10 ^ N.of_nat k) ++ "." ++ zero_pad k (pretty (n mod 10 ^ N.of_nat k)).

(** ** server/auth.rs *)

(** A request is its Authorization header. *)
Definition header_of (h : option string) : option string := h.
Definition no_jwt (b : bool) (s : string) : AuthConfig := mkAuthConfig b s None.

(** Tokens are signed claims: the key pair of the fixtures signs the claims a
    token names, and decoding makes the checks of the crate. *)
Definition valid_claims : Claims := mkClaims (Some "user-123") (Some "test-issuer") (Some "agnosai") (Some u64_max) (Some 0) None.
Definition with_exp (e : N) (c : Claims) : Claims := mkClaims (sub c) (iss c) (aud c) (Some e) (iat c) (scope c).
Definition with_iss (i : string) (c : Claims) : Claims := mkClaims (sub c) (Some i) (aud c) (exp c) (iat c) (scope c).
Definition with_aud (a : string) (c : Claims) : Claims := mkClaims (sub c) (iss c) (Some a) (exp c) (iat c) (scope c).
Definition signed_tokens : list (string * Claims) :=
  [("valid", valid_claims); ("expired", with_exp 0 valid_claims); ("issuer", with_iss "wrong-issuer" valid_claims);
   ("audience", with_aud "wrong-audience" valid_claims)].
Definition agrees (expected found : option string) : bool :=
  match expected, found with Some a, Some b => String.eqb a b | _, _ => true end.
Definition claims_pass (now slack : N) (v : Validation) (c : Claims) : bool :=
  match exp c with Some e => (now <=? e + slack)%N | None => false end &&
  agrees (v_iss v) (iss c) && (negb (validate_aud v) || agrees (v_aud v) (aud c)).
#[local] Instance fixture_crate : JwtCrate string := {|
  from_rsa_pem pem := Some pem;
  Middleware.decode t k v :=
    match List.find (fun tc => String.eqb tc.1 t) signed_tokens with
    | Some (_, c) => if claims_pass 1000 60 v c then Ok c else Err "InvalidClaims"
    | None => Err "InvalidToken"
    end;
  signed_with t k := exists c, In (t, c) signed_tokens;
  now_secs := 1000;
  leeway := 60;
|}.
Definition answers (config : AuthConfig) (header : option string) (code : option N) : bool :=
  match auth_middleware header_of (fun _ => "ok") config header, code with
  | Ok body, None => body ==? "ok"
  | Err e, Some c => e ==? c
  | _, _ => false
  end.
Definition jwt_config : JwtConfig := mkJwtConfig "test_rsa_public.pem" (Some "test-issuer") (Some "agnosai").
Definition jwt_answers (token : string) (code : option N) : bool :=
  answers (with_jwt jwt_config) (Some ("Bearer " ++ token)) code.

Definition passes_when_disabled : bool := answers (no_jwt false "") None None.
Definition rejects_missing_token_when_enabled : bool := answers (no_jwt true "my-secret") None (Some UNAUTHORIZED).
Definition rejects_wrong_token_when_enabled : bool :=
  answers (no_jwt true "my-secret") (Some "Bearer wrong-token") (Some UNAUTHORIZED).
Definition passes_with_correct_token : bool := answers (no_jwt true "my-secret") (Some "Bearer my-secret") None.
Definition rejects_empty_bearer_token : bool := answers (no_jwt true "my-secret") (Some "Bearer ") (Some UNAUTHORIZED).
Definition jwt_valid_token_passes : bool := jwt_answers "valid" None.
Definition jwt_expired_token_rejected : bool := jwt_answers "expired" (Some UNAUTHORIZED).
Definition jwt_wrong_issuer_rejected : bool := jwt_answers "issuer" (Some UNAUTHORIZED).
Definition jwt_wrong_audience_rejected : bool := jwt_answers "audience" (Some UNAUTHORIZED).
Definition jwt_garbage_token_rejected : bool := jwt_answers "not.a.jwt" (Some UNAUTHORIZED).

Example auth_tests_pass : all_pass
  [passes_when_disabled; rejects_missing_token_when_enabled; rejects_wrong_token_when_enabled;
   passes_with_correct_token; rejects_empty_bearer_token; jwt_valid_token_passes; jwt_expired_token_rejected;
   jwt_wrong_issuer_rejected; jwt_wrong_audience_rejected; jwt_garbage_token_rejected] = true.
Proof. vm_compute. reflexivity. Qed.

(** ** server/rate_limit.rs *)

Definition extract_key_from_xff_header : bool := extract_client_key (Some "1.2.3.4, 5.6.7.8") None ==? "1.2.3.4".
Definition extract_key_from_xri_header : bool := extract_client_key None (Some "10.0.0.1") ==? "10.0.0.1".
Definition extract_key_fallback : bool := extract_client_key None None ==? "unknown".

(** ** server/hot_config.rs *)

Definition config_holder_initial_value : bool := config_get (ConfigHolder_new 42) ==? 42.
Definition config_holder_update : bool :=
  let holder := ConfigHolder_new "old" in
  (config_get holder ==? "old") && (config_get (config_update holder "new") ==? "new").
Definition runtime_config_defaults : bool :=
  let cfg := RuntimeConfig_default in
  (max_concurrent_crews cfg ==? 10) && (inference_timeout_secs cfg ==? 300) && negb (auth_enabled cfg).

(** ** server/prometheus.rs *)

Definition metrics (ops : list (AgnosMetrics -> AgnosMetrics)) : AgnosMetrics :=
  foldl (fun m op => op m) AgnosMetrics_new ops.
(** The text of the metrics holds every line. *)
Definition shows (m : AgnosMetrics) (lines : list string) : bool :=
  let output := gather (fmt_decimals 6) m in forallb (fun l => str_contains l output) lines.

Definition new_metrics_all_zero : bool :=
  let m := AgnosMetrics_new in
  (crews_total m ==? 0) && (crews_active m ==? 0) && (tasks_completed m ==? 0) && (tasks_failed m ==? 0) &&
  (inference_tokens_total m ==? 0) && f64_epsilon_close (inference_cost_usd m) f64_zero.

Definition record_crew_lifecycle : bool :=
  let after ops := let m := metrics ops in (crews_total m, crews_active m) in
  (after [record_crew_started] ==? (1, 1)) && (after [record_crew_started; record_crew_started] ==? (2, 2)) &&
  (after [record_crew_started; record_crew_started; record_crew_completed] ==? (2, 1)) &&
  (after [record_crew_started; record_crew_started; record_crew_completed; record_crew_completed] ==? (2, 0)).

Definition crew_completed_does_not_underflow : bool := crews_active (metrics [record_crew_completed]) ==? 0.

Definition record_tasks : bool :=
  let m := metrics [record_task_completed; record_task_completed; record_task_failed] in
  (tasks_completed m ==? 2) && (tasks_failed m ==? 1).

Definition record_inference_test : bool :=
  let m := metrics [(fun m => record_inference m 1000 (f64_lit 5 100)); (fun m => record_inference m 2000 (f64_lit 1 10))] in
  (inference_tokens_total m ==? 3000) && f64_close (inference_cost_usd m) (f64_lit 15 100) 1 1000000.

Definition gather_format : bool :=
  shows (metrics [record_crew_started; record_task_completed; (fun m => record_inference m 500 (f64_lit 25 1000))])
    ["# TYPE agnosai_crews_total counter"; "agnosai_crews_total 1"; "# TYPE agnosai_crews_active gauge";
     "agnosai_crews_active 1"; "agnosai_tasks_completed_total 1"; "agnosai_tasks_failed_total 0";
     "agnosai_inference_tokens_total 500"; "agnosai_inference_cost_usd_total 0.025000"].

Definition gather_empty_metrics : bool :=
  shows AgnosMetrics_new
    ["agnosai_crews_total 0"; "agnosai_crews_active 0"; "agnosai_tasks_completed_total 0"; "agnosai_tasks_failed_total 0";
     "agnosai_inference_tokens_total 0"; "agnosai_inference_cost_usd_total 0.000000"].

Example plumbing_tests_pass : all_pass
  [extract_key_from_xff_header; extract_key_from_xri_header; extract_key_fallback; config_holder_initial_value;
   config_holder_update; runtime_config_defaults; new_metrics_all_zero; record_crew_lifecycle;
   crew_completed_does_not_underflow; record_tasks; record_inference_test; gather_format; gather_empty_metrics] = true.
Proof. vm_compute. reflexivity. Qed.

(** ** server/sse.rs *)

Definition event (ty : string) : CrewEvent := mkCrewEvent "id" ty Null.
(** A receiver is dropped. *)
Definition drop_receiver (b : EventBus) (id : Uuid) : EventBus := alter N.pred id b.
Definition event_type_is (r : Recv) (ty : string) : bool := match r with Received e => ev_type e ==? ty | _ => false end.
Definition is_lagged (r : Recv) : bool := match r with Lagged _ => true | _ => false end.
Definition is_waiting (r : Recv) : bool := match r with Waiting => true | _ => false end.
(** A new channel of the crew. *)
Definition channel : LogChan := ([], false).

Definition event_bus_subscribe_receives_events : bool :=
  let rx := subscribe channel in
  match (recv (send (event "task_started") channel) rx).1 with
  | Received e => (ev_type e ==? "task_started") && (ev_crew_id e ==? "id")
  | _ => false
  end.

Definition event_bus_remove_cleans_channel : bool :=
  let bus := bus_remove (bus_sender EventBus_new 1) 1 in
  negb (bus_has bus 1) && is_waiting (recv channel (subscribe channel)).1.

(** The channel of the second crew is another one. *)
Definition event_bus_independent_crews : bool :=
  let bus := bus_subscribe (bus_subscribe EventBus_new 1) 2 in
  let one := send (event "e1") channel in
  (bus_len bus ==? 2%nat) && event_type_is (recv one (subscribe channel)).1 "e1" &&
  is_waiting (recv channel (subscribe channel)).1.

Definition cleanup_orphans_removes_channels_with_no_receivers : bool :=
  let bus := drop_receiver (bus_subscribe (bus_sender EventBus_new 1) 1) 1 in
  bus_has bus 1 && negb (bus_has (cleanup_orphans bus) 1).

(** Each receiver of the loop is dropped at the end of its turn. *)
Definition channel_capacity_boundary : bool :=
  let ids := map N.of_nat (seq 0 100) in
  let bus := foldl (fun b id => drop_receiver (bus_subscribe (bus_sender b id) id) id) EventBus_new ids in
  (bus_len bus ==? 100%nat) && (bus_len (foldl bus_remove bus ids) ==? 0%nat).

Definition broadcast_channel_overflow_causes_lagged_error : bool :=
  let full := foldl (fun c i => send (event ("evt_" ++ pretty i)) c) channel (seq 0 (S CHANNEL_CAPACITY)) in
  is_lagged (recv full (subscribe channel)).1.

Definition concurrent_subscribers_same_crew : bool :=
  let one := send (event "shared") channel in
  forallb (fun rx => event_type_is (recv one rx).1 "shared") [subscribe channel; subscribe channel; subscribe channel].

Definition sender_idempotent_for_same_crew : bool :=
  let bus := bus_sender (bus_sender EventBus_new 1) 1 in
  event_type_is (recv (send (event "dup") channel) (subscribe channel)).1 "dup" && (bus_len bus ==? 1%nat).

Definition has_returns_false_after_remove : bool :=
  let bus := bus_sender EventBus_new 1 in bus_has bus 1 && negb (bus_has (bus_remove bus 1) 1).

Example sse_tests_pass : all_pass
  [event_bus_subscribe_receives_events; event_bus_remove_cleans_channel; event_bus_independent_crews;
   cleanup_orphans_removes_channels_with_no_receivers; channel_capacity_boundary;
   broadcast_channel_overflow_causes_lagged_error; concurrent_subscribers_same_crew;
   sender_idempotent_for_same_crew; has_returns_false_after_remove] = true.
Proof. vm_compute. reflexivity. Qed.

(** ** fleet/cost_planning.rs *)

Definition pricing : GpuPricing := GpuPricing_default.
(** The cost of ten tasks of a thousand tokens at a rate and an hourly price. *)
Definition costs (model : string) (rate : N) (price : f64) : bool :=
  f64_close (estimate_crew_cost 10 1000 model pricing)
    (f64_mul (f64_div (f64_div (f64_of_N 10000) (f64_of_N rate)) (f64_of_N 3600)) price) 1 1000000.

Definition default_pricing_values : bool :=
  f64_epsilon_close (a100 pricing) (f64_of_N 3) && f64_epsilon_close (h100 pricing) (f64_lit 45 10) &&
  f64_epsilon_close (rtx4090 pricing) (f64_lit 12 10) && f64_epsilon_close (t4 pricing) (f64_lit 35 100) &&
  f64_epsilon_close (l4 pricing) (f64_lit 8 10).
Definition estimate_crew_cost_gpt4 : bool := costs "gpt-4" 40 (f64_of_N 3).
Definition estimate_crew_cost_small_model : bool := costs "llama-7b" 120 (f64_lit 35 100).
Definition estimate_zero_tasks : bool := f64_epsilon_close (estimate_crew_cost 0 1000 "gpt-4" pricing) f64_zero.
Definition estimate_zero_tokens : bool := f64_epsilon_close (estimate_crew_cost 10 0 "gpt-4" pricing) f64_zero.
Definition select_cheapest_model_within_budget : bool :=
  let? (Some name) := Some (select_cheapest_model (f64_lit 1 100) 5 500 pricing) in
  (name ==? "llama-7b") || (name ==? "mistral-7b").
Definition select_cheapest_model_large_budget : bool := is_some (select_cheapest_model (f64_of_N 100) 5 500 pricing).
Definition select_cheapest_model_zero_budget : bool := is_none (select_cheapest_model f64_zero 100 10000 pricing).
Definition pricing_display_test : bool :=
  let s := pricing_display (fmt_decimals 2) pricing in str_contains "A100=$3.00/h" s && str_contains "T4=$0.35/h" s.
Definition unknown_model_uses_medium_tier : bool := costs "some-custom-model" 80 (f64_lit 8 10).

(** ** fleet/environment.rs *)

#[local] Instance RuntimeEnvironment_eq_dec : EqDecision RuntimeEnvironment. Proof. solve_decision. Defined.
Definition environments : list RuntimeEnvironment := [Bare; Container; Vm; Kubernetes; Unknown].

Definition runtime_environment_display : bool :=
  map environment_name environments ==? ["bare-metal"; "container"; "vm"; "kubernetes"; "unknown"].
Definition runtime_environment_eq : bool := (Bare ==? Bare) && (Bare <>? Container).
Definition runtime_environment_all_variants : bool := bool_decide (NoDup environments).
(** Any host will do: this one is the sample container. *)
Definition detect_returns_valid_variant : bool := environment_name (detect docker_host) <>? "".

(** ** fleet/discovery.rs *)

Definition discovered_node_new : bool :=
  let node := DiscoveredNode_new "10.0.0.1" 8080 in
  (node_address node ==? "10.0.0.1") && (node_port node ==? 8080) && (size (node_metadata node) ==? 0%nat).
Definition discovered_node_with_metadata : bool :=
  let node := node_with_metadata (node_with_metadata (DiscoveredNode_new "10.0.0.1" 8080) "region" "us-east-1") "gpu" "A100" in
  (size (node_metadata node) ==? 2%nat) && (node_metadata node !! "region" ==? Some "us-east-1") &&
  (node_metadata node !! "gpu" ==? Some "A100").
Definition discovered_node_socket_addr : bool := socket_addr (DiscoveredNode_new "10.0.0.1" 8080) ==? "10.0.0.1:8080".
Definition static_discovery_returns_all_nodes : bool :=
  let discovered := static_discover (StaticDiscovery_new
    [DiscoveredNode_new "10.0.0.1" 8080; DiscoveredNode_new "10.0.0.2" 8080; DiscoveredNode_new "10.0.0.3" 9090]) in
  map (fun n => (node_address n, node_port n)) discovered
  ==? [("10.0.0.1", 8080); ("10.0.0.2", 8080); ("10.0.0.3", 9090)].
Definition static_discovery_empty : bool := bool_decide (length (static_discover (StaticDiscovery_new [])) = 0%nat).
Definition dns_discovery_stub_returns_empty : bool :=
  bool_decide (length (dns_discover (DnsDiscovery_new "_agnosai._tcp.fleet.example.com")) = 0%nat).
Definition dns_discovery_stores_srv_name : bool :=
  srv_name (DnsDiscovery_new "_agnosai._tcp.fleet.example.com") ==? "_agnosai._tcp.fleet.example.com".

Example planning_tests_pass : all_pass
  [default_pricing_values; estimate_crew_cost_gpt4; estimate_crew_cost_small_model; estimate_zero_tasks;
   estimate_zero_tokens; select_cheapest_model_within_budget; select_cheapest_model_large_budget;
   select_cheapest_model_zero_budget; pricing_display_test; unknown_model_uses_medium_tier;
   runtime_environment_display; runtime_environment_eq; runtime_environment_all_variants;
   detect_returns_valid_variant; discovered_node_new; discovered_node_with_metadata; discovered_node_socket_addr;
   static_discovery_returns_all_nodes; static_discovery_empty; dns_discovery_stub_returns_empty;
   dns_discovery_stores_srv_name] = true.
Proof. vm_compute. reflexivity. Qed.

(** ** orchestrator/plan_cache.rs *)

#[local] Instance plan_iter : HashIter N CacheEntry := canonical_iter.
(** A hasher that folds the bytes it is fed. *)
#[local] Instance fold_hasher : StrHasher N := {|
  hash_new := 5381;
  hash_str s h := foldl (fun h c => (h * 33 + Ascii.N_of_ascii c) mod 2 ^ 64) (h * 33 + 255) (String.list_ascii_of_string s);
  hash_finish h := h;
|}.
Definition sample_key : PlanKey := from_crew ["agent-a"; "agent-b"] ["do X"; "do Y"] "sequential".
Definition sample_plan : CachedPlan := mkCachedPlan ∅ [] ∅.

Definition insert_and_get : bool :=
  let cache := cache_put PlanCache_new sample_key sample_plan 0 in
  (cache_len cache ==? 1%nat) && is_some (cache_lookup cache sample_key 0).1.
Definition miss_returns_none : bool := is_none (cache_lookup PlanCache_new sample_key 0).1.
Definition different_agents_different_key : bool := from_crew ["a"] ["task"] "seq" <>? from_crew ["b"] ["task"] "seq".
Definition order_independent_hashing : bool :=
  from_crew ["agent-b"; "agent-a"] ["Y"; "X"] "seq" ==? from_crew ["agent-a"; "agent-b"] ["X"; "Y"] "seq".
Definition ttl_expiry : bool :=
  is_none (cache_lookup (cache_put (with_ttl (from_millis 1)) sample_key sample_plan 0) sample_key (from_millis 5)).1.
Definition lru_eviction_at_capacity : bool :=
  let key i := from_crew ["agent-" ++ pretty i] ["task"] "seq" in
  let cache := foldl (fun c i => cache_put c (key i) sample_plan (N.of_nat i)) PlanCache_new (seq 0 MAX_CACHED_PLANS) in
  (cache_len cache ==? MAX_CACHED_PLANS) &&
  (cache_len (cache_put cache (from_crew ["new-agent"] ["task"] "seq") sample_plan 1000) ==? MAX_CACHED_PLANS).
Definition empty_cache : bool := cache_is_empty PlanCache_new && (cache_len PlanCache_new ==? 0%nat).

(** ** orchestrator/durable_state.rs *)

#[local] Instance file_map : FileSystem (gmap string string) := {|
  create_dir_all _ f := (Ok tt, f);
  fs_write p d f := (Ok tt, <[p := d]> f);
  fs_read p f := Ok (f !! p);
|}.
Definition store : FileStateStore := mkFileStateStore "/tmp/agnosai-state".
(** The file system after the saves of a crew. *)
Definition files (crew : string) (versions : list string) : gmap string string :=
  foldl (fun f v => (state_save store crew v f).2) ∅ versions.
Definition loads (f : gmap string string) (crew : string) (text : option string) : bool :=
  match state_load store crew f with Ok o => o ==? text | Err _ => false end.

Definition file_state_store_load_missing : bool := loads ∅ "nonexistent-crew" None.
Definition file_state_store_creates_dir : bool := loads (files "crew-1" ["test data"]) "crew-1" (Some "test data").
Definition file_state_store_overwrite : bool :=
  loads (files "crew-x" ["version-1"; "version-2"]) "crew-x" (Some "version-2").
Definition file_state_store_path_for : bool := path_for store "my-crew-123" ==? "/tmp/agnosai-state/my-crew-123.json".

Example plan_cache_tests_pass : all_pass
  [insert_and_get; miss_returns_none; different_agents_different_key; order_independent_hashing; ttl_expiry;
   lru_eviction_at_capacity; empty_cache; file_state_store_load_missing; file_state_store_creates_dir;
   file_state_store_overwrite; file_state_store_path_for] = true.
Proof. vm_compute. reflexivity. Qed.

(** ** sandbox/oci.rs *)

#[local] Instance IsolationLevel_eq_dec : EqDecision IsolationLevel. Proof. solve_decision. Defined.
#[local] Instance Backend_eq_dec : EqDecision Backend. Proof. solve_decision. Defined.
(** The image names of the tests are ASCII. *)
Definition alphanumeric (ch : string) : bool :=
  match ch with
  | String c "" =>
      let n := Ascii.N_of_ascii c in
      ((48 <=? n) && (n <=? 57) || (65 <=? n) && (n <=? 90) || (97 <=? n) && (n <=? 122))%N
  | _ => false
  end.
Definition accepts (img : string) : bool := is_ok (OciSandbox_new alphanumeric (OciSandboxConfig_new img)).

Definition config_defaults : bool :=
  let cfg := OciSandboxConfig_new "alpine:latest" in
  (oci_runtime cfg ==? "docker") && (image cfg ==? "alpine:latest") && negb (allow_network cfg) && (memory_limit cfg ==? "256m").
Definition missing_runtime_returns_error : bool :=
  match oci_execute (fun _ _ _ => Err "No such file or directory (os error 2)") id
          (mkOciSandboxConfig "/nonexistent/runtime" "alpine:latest" (from_secs 60) "256m" false [] []) ["echo"; "hi"] "" with
  | Returns r => is_err r
  | _ => false
  end.
Definition rejects_image_with_flag_injection : bool := negb (accepts "--privileged").
Definition rejects_image_with_shell_metacharacters : bool := negb (accepts "alpine; rm -rf /").
Definition accepts_valid_image_refs : bool :=
  forallb accepts ["alpine"; "alpine:latest"; "ubuntu:22.04"; "registry.example.com/myapp:v1.2.3";
    "ghcr.io/org/repo:sha-abc123"; "myimage@sha256:abcdef1234567890"].
Definition rejects_empty_image : bool := negb (accepts "").

(** ** sandbox/manager.rs *)

(** The policies of these tests start no child process. *)
Definition no_children (c : Command) (input : string) (timeout : Duration) : Result Child string := Err "unsupported".
Definition managed (p : SandboxPolicy) (argv : list string) (input : string) : option (Result SandboxResult AgnosaiError) :=
  match manager_execute_argv no_children id alphanumeric SandboxManagerConfig_default p argv input with
  | Returns r => Some r
  | _ => None
  end.

Definition resolve_native : bool := resolve_backend policy_native ==? LNone.
Definition resolve_wasm : bool := resolve_backend policy_wasm ==? LWasm.
Definition resolve_process : bool := resolve_backend policy_process ==? LProcess.
Definition resolve_container : bool := resolve_backend policy_container ==? LOci.
Definition execute_native_passthrough : bool :=
  let? (Some (Ok r)) := Some (managed policy_native ["true"] "test input") in
  (backend r ==? LNone) && (stdout (sr_result r) ==? "test input") && bool_decide (exit_code (sr_result r) = 0%Z).
Definition execute_wasm_returns_error : bool :=
  let? (Some r) := Some (managed policy_wasm ["noop"] "") in is_err r.
Definition default_manager_creation : bool := mgr_oci_runtime SandboxManagerConfig_default ==? "docker".

(** ** sandbox/kavach_bridge.rs *)

Definition map_backend_none_to_noop : bool := map_backend LNone ==? BNoop.
Definition map_backend_wasm : bool := map_backend LWasm ==? BWasm.
Definition map_backend_process : bool := map_backend LProcess ==? BProcess.
Definition map_backend_oci : bool := map_backend LOci ==? BOci.

Example sandbox_tests_pass : all_pass
  [config_defaults; missing_runtime_returns_error; rejects_image_with_flag_injection;
   rejects_image_with_shell_metacharacters; accepts_valid_image_refs; rejects_empty_image; resolve_native;
   resolve_wasm; resolve_process; resolve_container; execute_native_passthrough; execute_wasm_returns_error;
   default_manager_creation; map_backend_none_to_noop; map_backend_wasm; map_backend_process; map_backend_oci] = true.
Proof. vm_compute. reflexivity. Qed.

(** ** telemetry/genai.rs *)

Definition standard_attrs : list string :=
  [OPERATION_NAME; SYSTEM; REQUEST_MODEL; RESPONSE_MODEL; USAGE_INPUT_TOKENS; USAGE_OUTPUT_TOKENS;
   RESPONSE_FINISH_REASON; AGENT_NAME; AGENT_ID; REQUEST_TEMPERATURE; REQUEST_MAX_TOKENS].
Definition custom_attrs : list string := [TOOL_NAME; CREW_ID; CREW_NAME; TASK_ID].

Definition attr_constants_follow_otel_naming : bool :=
  forallb (starts_with "gen_ai.")
    [OPERATION_NAME; SYSTEM; REQUEST_MODEL; USAGE_INPUT_TOKENS; USAGE_OUTPUT_TOKENS; AGENT_NAME].
Definition all_attr_constants_are_non_empty : bool :=
  forallb (fun a => negb (String.eqb a "") && str_contains "." a) (standard_attrs ++ custom_attrs)%list.
Definition otel_standard_attrs_use_gen_ai_prefix : bool := forallb (starts_with "gen_ai.") standard_attrs.
Definition agnosai_attrs_use_agnosai_prefix : bool := forallb (starts_with "agnosai.") custom_attrs.

Example genai_tests_pass : all_pass
  [attr_constants_follow_otel_naming; all_attr_constants_are_non_empty; otel_standard_attrs_use_gen_ai_prefix;
   agnosai_attrs_use_agnosai_prefix] = true.
Proof. vm_compute. reflexivity. Qed.
