(* ===== verification/RouteTests.v ===== *)
(** * Tests of src/rust-old/src/server/routes/ on the model

    The handlers are called directly: the router, the bodies and the content types
    belong to [Server] and to axum. *)

From S2P Require Import Prelude.
From S2P Require Import F64.
From S2P Require Import Resource.
From S2P Require Import Core.
From S2P Require Import Kahn.
From S2P Require Import TaskExec.
From S2P Require Import CrewRunner.
From S2P Require Import Orchestrator.
From S2P Require Import Approval.
From S2P Require Import Ssrf.
From S2P Require Import Tools.
From S2P Require Import CrewsRoute.
From S2P Require Import EventStream.
From S2P Require Import Routes.
From S2P Require Import Testing.
From stdpp Require Import base gmap fin_maps strings pretty numbers list.

Local Open Scope test_scope.
Local Open Scope N_scope.
Local Open Scope string_scope.

#[local] Instance degree_iter : HashIter Uuid nat := canonical_iter.
#[local] Instance cost_iter : HashIter Uuid f64 := canonical_iter.
#[local] Instance tool_iter : HashIter string NativeTool := canonical_iter.
#[local] Instance channel_iter : HashIter Uuid ChannelId := canonical_iter.
#[local] Instance definition_iter : HashIter string AgentDefinition := canonical_iter.
#[local] Instance crew_iter : HashIter Uuid CrewState := canonical_iter.

(** [json["a"]["b"]...] *)
Definition at_path (path : list string) (v : Value) : Value :=
  foldl (fun v k => default Null (json_get v k)) v path.
Definition str_at (path : list string) (v : Value) : option string := as_str (at_path path v).
Definition is_object (v : Value) : bool := is_some (as_object v).
Definition items (v : Value) : list Value := default [] (as_array v).
Definition fresh : Orchestrator := Orchestrator_new ResourceBudget_default.

(** ** server/routes/a2a.rs *)

Definition local_urls : list (string * Host * string) :=
  let at4 u a b c d t := (u, HostIpv4 (mkIpv4 a b c d), t) in
  let at6 u a t := (u, HostIpv6 a, t) in
  let named u d := (u, Domain d, d) in
  [at4 "http://10.0.0.1/callback" 10 0 0 1 "10.0.0.1"; at4 "http://192.168.1.1/callback" 192 168 1 1 "192.168.1.1";
   at4 "http://172.16.0.1/callback" 172 16 0 1 "172.16.0.1"; at4 "http://127.0.0.1/callback" 127 0 0 1 "127.0.0.1";
   at4 "http://169.254.169.254/latest" 169 254 169 254 "169.254.169.254";
   at6 "http://[::1]/callback" (mkIpv6 0 0 0 0 0 0 0 1) "[::1]";
   at6 "http://[::ffff:10.0.0.1]/path" (mkIpv6 0 0 0 0 0 65535 2560 1) "[::ffff:a00:1]";
   at6 "http://[::ffff:127.0.0.1]/path" (mkIpv6 0 0 0 0 0 65535 32512 1) "[::ffff:7f00:1]";
   at6 "http://[fc00::1]/path" (mkIpv6 64512 0 0 0 0 0 0 1) "[fc00::1]";
   at6 "http://[fe80::1]/path" (mkIpv6 65152 0 0 0 0 0 0 1) "[fe80::1]";
   named "http://localhost/callback" "localhost"; named "http://foo.local/callback" "foo.local";
   named "http://bar.internal/callback" "bar.internal"; named "http://baz.localhost/callback" "baz.localhost";
   named "http://api.example.org/hook" "api.example.org"].
(** The parsed forms of the URLs of the tests. *)
Definition callback_parse (url : string) : option Url :=
  if String.eqb url "https://example.com/callback" then Some (mkUrl "https" (Some (Domain "example.com")) (Some "example.com"))
  else if String.eqb url "ftp://example.com/file" then Some (mkUrl "ftp" (Some (Domain "example.com")) (Some "example.com"))
  else if String.eqb url "file:///etc/passwd" then Some (mkUrl "file" None None)
  else (fun e => mkUrl "http" (Some e.1.2) (Some e.2)) <$> List.find (fun e => String.eqb e.1.1 url) local_urls.
(** The URL has a parsed form and is refused. *)
Definition refused (url : string) : bool := is_some (callback_parse url) && negb (is_safe_url callback_parse url).
Definition mapped (a b : N) : IpAddr := V6 (mkIpv6 0 0 0 0 0 65535 a b).

Definition a2a (task_id description : string) (domain_ size : option string) (metadata_ : Value) : A2ARequest :=
  mkA2ARequest task_id description domain_ size None None metadata_.
(** The reply of a fresh server; the size of the metadata is given. *)
Definition receives (req : A2ARequest) (metadata_text : string) : option (N * A2AResponse) :=
  match receive toy_env quiet_rt callback_parse (fun _ => Some metadata_text) (error_text (fun _ => "")) 200 1 None None
          fresh req ∅ with
  | Returns (code, resp, _, _) => Some (code, resp)
  | _ => None
  end.

Definition a2a_receive_with_valid_request_returns_completed : bool :=
  let? (Some (code, resp)) := Some (receives (a2a "ext-123" "Analyse the login flow" (Some "quality") (Some "lean")
         (Obj [("source", Str "secureyeoman")])) "{}") in
  (code ==? OK) && (ar_task_id resp ==? "ext-123") && (ar_status resp ==? "completed") &&
  match ar_result resp with Some v => is_object v | None => false end.

Definition a2a_receive_minimal_request : bool :=
  let? (Some (code, resp)) := Some (receives (a2a "min-1" "Hello world" None None Null) "null") in
  (code ==? OK) && (ar_task_id resp ==? "min-1") && (ar_status resp ==? "completed").

Definition safe_callback_rejects_private_ipv4 : bool :=
  forallb refused ["http://10.0.0.1/callback"; "http://192.168.1.1/callback"; "http://172.16.0.1/callback"].
Definition safe_callback_rejects_loopback : bool :=
  forallb refused ["http://127.0.0.1/callback"; "http://[::1]/callback"].
Definition safe_callback_rejects_ipv6_mapped_ipv4 : bool :=
  is_private_ip (mapped 2560 1) && is_private_ip (mapped 32512 1) &&
  forallb refused ["http://[::ffff:10.0.0.1]/path"; "http://[::ffff:127.0.0.1]/path"].
Definition safe_callback_rejects_ipv6_private : bool :=
  is_private_ip (V6 (mkIpv6 64512 0 0 0 0 0 0 1)) && is_private_ip (V6 (mkIpv6 65152 0 0 0 0 0 0 1)) &&
  forallb refused ["http://[fc00::1]/path"; "http://[fe80::1]/path"].
Definition safe_callback_rejects_localhost_variants : bool :=
  forallb refused ["http://localhost/callback"; "http://foo.local/callback"; "http://bar.internal/callback";
    "http://baz.localhost/callback"].
Definition safe_callback_rejects_non_http : bool := forallb refused ["ftp://example.com/file"; "file:///etc/passwd"].
Definition safe_callback_accepts_public_urls : bool :=
  forallb (is_safe_url callback_parse) ["https://example.com/callback"; "http://api.example.org/hook"].
Definition safe_callback_rejects_metadata_ip : bool := refused "http://169.254.169.254/latest".

(** The body of a refused request. *)
Definition refused_with (req : A2ARequest) (metadata_text text : string) : bool :=
  let? (Some (code, resp)) := Some (receives req metadata_text) in
  (code ==? BAD_REQUEST) && (ar_status resp ==? "failed") &&
  match ar_error resp with Some e => str_contains text e | None => false end.
Definition repeat_char (c : string) (n : nat) : string := String.concat "" (replicate n c).

Definition a2a_receive_rejects_overlong_field : bool :=
  refused_with (a2a (repeat_char "x" (S A2A_MAX_STRING_LEN)) "short" None None Null) "null" "max length".
(** The text of the metadata: 65 KiB and its braces. *)
Definition a2a_receive_rejects_oversized_metadata : bool :=
  let big := repeat_char "A" (N.to_nat (65 * 1024)) in
  refused_with (a2a "meta-big" "test" None None (Obj [("blob", Str big)])) (quotes "{'blob':'" ++ big ++ quotes "'}") "metadata".

Example a2a_tests_pass : all_pass
  [a2a_receive_with_valid_request_returns_completed; a2a_receive_minimal_request; safe_callback_rejects_private_ipv4;
   safe_callback_rejects_loopback; safe_callback_rejects_ipv6_mapped_ipv4; safe_callback_rejects_ipv6_private;
   safe_callback_rejects_localhost_variants; safe_callback_rejects_non_http; safe_callback_accepts_public_urls;
   safe_callback_rejects_metadata_ip; a2a_receive_rejects_overlong_field;
   a2a_receive_rejects_oversized_metadata] = true.
Proof. vm_compute. reflexivity. Qed.

(** ** server/routes/mcp.rs *)

(** The input schema of bote as an object. *)
Definition input_schema (ps : gmap string Value) (req : list string) : Value :=
  Obj [("type", Str "object"); ("properties", Obj (map_to_list ps)); ("required", Arr (map Str req))].
Definition mcp_tools : gmap string NativeTool := register ToolRegistry_new EchoTool.
Definition rpc (id : N) (m : string) (ps : Value) : option JsonRpcResponse :=
  match mcp_handler input_schema (fun _ => "") "1.2.0" mcp_tools (mkJsonRpcRequest (Some (Num (PosInt id))) m ps) with
  | Returns r => Some r
  | _ => None
  end.
(** The result of a call that succeeds with the request's id. *)
Definition rpc_result (id : N) (m : string) (ps : Value) : option Value :=
  match rpc id m ps with
  | Some (RpcSuccess rid v) => if as_u64 rid ==? Some id then Some v else None
  | _ => None
  end.

Definition initialize_returns_server_info_and_capabilities : bool :=
  let? (Some v) := Some (rpc_result 1 "initialize" (Obj [("protocolVersion", Str "2024-11-05");
         ("clientInfo", Obj [("name", Str "test"); ("version", Str "0.1.0")])])) in
  (str_at ["protocolVersion"] v ==? Some "2025-03-26") && (str_at ["serverInfo"; "name"] v ==? Some "agnosai") &&
  (str_at ["serverInfo"; "version"] v ==? Some "1.2.0") && is_object (at_path ["capabilities"; "tools"] v).

Definition tools_list_returns_registered_tools_in_mcp_format : bool :=
  let? (Some v) := Some (rpc_result 2 "tools/list" Null) in
  match items (at_path ["tools"] v) with
  | [tool] =>
      (str_at ["name"] tool ==? Some "echo") && negb (str_at ["description"] tool ==? Some "") &&
      (str_at ["inputSchema"; "type"] tool ==? Some "object") &&
      is_object (at_path ["inputSchema"; "properties"; "message"] tool) &&
      (str_at ["inputSchema"; "properties"; "message"; "type"] tool ==? Some "string") &&
      bool_decide (Some "message" ∈ map as_str (items (at_path ["inputSchema"; "required"] tool)))
  | _ => false
  end.

(** The first item of the content, and whether it is an error. *)
Definition first_content (v : Value) : option Value := head (items (at_path ["content"] v)).
Definition call (id : N) (name_ : string) (args : list (string * Value)) : option (Value * bool) :=
  v ← rpc_result id "tools/call" (Obj [("name", Str name_); ("arguments", Obj args)]);
  c ← first_content v; e ← as_bool (at_path ["isError"] v); Some (c, e).

Definition tools_call_executes_echo_tool : bool :=
  let? (Some (content, is_error)) := Some (call 3 "echo" [("message", Str "hello")]) in
  negb is_error && (str_at ["type"] content ==? Some "text") && (str_at ["text"] content ==? Some "hello").

Definition tools_call_unknown_tool_returns_is_error : bool :=
  let? (Some (content, is_error)) := Some (call 4 "nonexistent" []) in
  is_error && match str_at ["text"] content with Some t => str_contains "not found" t | None => false end.

Definition unknown_method_returns_32601 : bool :=
  match rpc 5 "bogus/method" Null with
  | Some (RpcError _ code msg) => bool_decide (code = (-32601)%Z) && (msg ==? "Method not found")
  | _ => false
  end.

Example mcp_tests_pass : all_pass
  [initialize_returns_server_info_and_capabilities; tools_list_returns_registered_tools_in_mcp_format;
   tools_call_executes_echo_tool; tools_call_unknown_tool_returns_is_error; unknown_method_returns_32601] = true.
Proof. vm_compute. reflexivity. Qed.

(** ** server/routes/approval.rs *)

Definition uuid_text (_ : Uuid) : string := "id".
Definition submit_approval_unknown_task : bool :=
  negb (delivered (submit_approval uuid_text ApprovalGate_new 1 Approved).1).
Definition list_pending_empty : bool := list_pending ApprovalGate_new ==? [].

(** ** server/routes/agents.rs *)

Definition agent_value (d : AgentDefinition) : Result Value string := Ok (Obj [("agent_key", Str (agent_key d))]).
Definition list_definitions_returns_empty_array : bool :=
  bool_decide (length (list_definitions agent_value ∅) = 0%nat).
Definition create_definition_returns_201 : bool :=
  let d := with_name (AgentDefinition_new "test-agent" "tester" "test things") "Test Agent" in
  match create_definition agent_value ∅ d with
  | (Ok (code, v), defs) =>
      (code ==? CREATED) && (str_at ["agent_key"] v ==? Some "test-agent") && is_some (defs !! "test-agent")
  | _ => false
  end.

(** ** server/routes/tools.rs *)

Definition two_tools : gmap string NativeTool := register (register ToolRegistry_new EchoTool) JsonTransformTool.
Definition get_tools_returns_tool_list : bool :=
  let names := map ts_name (list_tools two_tools) in
  bool_decide (length names = 2%nat) && bool_decide ("echo" ∈ names) && bool_decide ("json_transform" ∈ names).
Definition get_tools_returns_correct_schema_fields : bool :=
  forallb (fun s => negb (ts_name s ==? "") && negb (ts_description s ==? "")) (list_tools two_tools).
Definition get_tools_with_no_tools_returns_empty_array : bool :=
  bool_decide (length (list_tools ToolRegistry_new) = 0%nat).

(** ** server/routes/dashboard.rs *)

Definition crew_history_empty : bool := bool_decide (length (crew_history uuid_text fresh) = 0%nat).
Definition agent_performance_empty : bool := bool_decide (length (agent_performance fresh) = 0%nat).

(** ** server/routes/sse.rs *)

(** The first frame of the stream of a crew; an event prints as its payload. *)
Definition event_text (e : CrewEvent) : Result string string := Ok (default "" (str_at ["message"] (ev_data e))).
Definition first_frame (b : EventBus) (crew : Uuid) : option Frame :=
  let (known, _) := crew_stream b crew in
  (crew_stream_poll event_text id "crew" known (([], false) : LogChan) 0%nat Opening).1.1.
Definition sse_endpoint_sends_error_event_for_unknown_crew : bool :=
  let? (Some f) := Some (first_frame EventBus_new 1) in
  (frame_event f ==? "error") && str_contains "crew not found" (frame_data f).
Definition sse_endpoint_for_active_crew_sends_connected_event : bool :=
  let? (Some f) := Some (first_frame (bus_subscribe EventBus_new 1) 1) in frame_event f ==? "connected".

Example route_tests_pass : all_pass
  [submit_approval_unknown_task; list_pending_empty; list_definitions_returns_empty_array;
   create_definition_returns_201; get_tools_returns_tool_list; get_tools_returns_correct_schema_fields;
   get_tools_with_no_tools_returns_empty_array; crew_history_empty; agent_performance_empty;
   sse_endpoint_sends_error_event_for_unknown_crew; sse_endpoint_for_active_crew_sends_connected_event] = true.
Proof. vm_compute. reflexivity. Qed.
